(* ===== verification/_CoqProject ===== *)
-Q . S2P
Prelude.v
Words.v
CTypes.v
VmlinuxTypes.v
VmlinuxSock.v
VmlinuxBpf.v
VmlinuxTask.v
VmlinuxNet.v
Vmlinux.v
BpfMaps.v
SocketTuner.v
SocketTunerFacts.v
SocketTunerProps.v
Cpus.v
CpusProps.v
Abi.v
Sha256.v
Executor.v
NetIP.v
Agent.v
AgentProps.v
MapBytes.v
MapBytesProps.v
AgentThreads.v
AgentThreadsProps.v
Pool.v
PoolFacts.v
PoolProps.v
Router.v
RouterProps.v
K8s.v
K8sProps.v
Liveness.v
PyFloat.v
TunerEnv.v
TunerEnvProps.v
Startup.v
Deployment.v
TestClient.v
System.v
SystemProps.v
CrowdProps.v
EpisodeProps.v
Models.v
WebClient.v
Inference.v
InferenceProps.v
