(* ===== verification/Prelude.v ===== *)
(** * socket-tuner: a verification development

    socket-tuner tunes TCP sockets from user space for reinforcement learning.
    A BPF program on the node ([env-ebpf-agent/ebpf/socket_tuner.c]) applies the
    parameters stored for an address to the sockets that connect to it and
    records metrics of every connection.  An agent on the node
    ([env-ebpf-agent/internal]) runs an allowed network command, stores the
    parameters of an action in the program's maps and reads the metrics of the
    command's process back.  A router ([env-router/internal]) keeps a pool of
    agents, follows the cluster's endpoints, scales the deployment, and forwards
    the requests of an episode to the agent that serves it.

    ** Parts

    Kernel types.  [CTypes] is the language of C declarations with the layout of
    the x86-64 ABI (bit-fields, packed and nested records); [VmlinuxTypes],
    [VmlinuxSock], [VmlinuxBpf], [VmlinuxTask], [VmlinuxNet] are the declarations
    of [ebpf/vmlinux.h] that the socket and BPF structs are made of, and
    [Vmlinux] puts them together.  Shown: each of these 261 declarations has the
    size and alignment that a C compiler gives it from the header, and the members
    of the context that the program reads are where the header puts them and wide
    enough for the members of the socket they stand for; every transcribed struct
    has its members in order, aligned and inside it.

    BPF program.  [BpfMaps] is the interface of a BPF hash map, with its
    documented laws, and a bounded finite map that satisfies it.  [SocketTuner]
    is [socket_tuner.c]: the structs, the three maps, [update_metrics] and
    [bpf_sockmap], in a monad that reads the helpers' results, threads the maps
    and emits the helper calls in order.  [SocketTunerFacts] has the
    specification of each operation, [SocketTunerProps] the theorems: which
    options an established socket gets, what a callback changes, the metrics of
    a connection while its process connects no other socket, which connect and which
    callback a record comes from in any trace, the types of the stored values, and
    that the metrics map fills up for good.  There an
    invocation is one step; [Cpus] has the program as a tree of its accesses to
    the maps, so that invocations on several CPUs interleave at every one of them,
    stores to the members of a record included.  [CpusProps] shows that an
    invocation alone is the one of [SocketTuner], that the metrics of a connection
    are right whatever other CPUs do in between, and that those of two connections
    of one process may mix.

    User and kernel data.  [Abi]: the Go structs of [ebpf/bpf_bpf.go] and the C
    structs have the same layout, and a value stored by one side is the value
    loaded by the other.  [MapBytes] is the program and the manager once more, on
    maps of raw bytes: every member is read and written at its offset, as the C
    and the Go compiler lay it out; [MapBytesProps] shows that they do the same
    as the versions on records that the rest of the development uses.

    Agent.  [Sha256] and [Executor] are [executor/executor.go]: only commands
    whose digest is listed are ever run.  [NetIP] is what [ebpfmgr/manager.go]
    uses of Go's [net] package, [Agent] the manager and the handlers [Reset] and
    [Step] of [grpcserver/server.go]; [AgentProps] shows what the handlers answer
    on every path and that a step tunes the sockets of the address that the
    reset observed.  [AgentThreads] has the handlers as the goroutines they are:
    threads over the executor's command and the maps, which interleave at every
    access, the command being two words, the pointer and the length of a Go string,
    that are stored and loaded one at a time.  [AgentThreadsProps] shows that a
    handler alone is the function of [Agent]; that in every interleaving what is
    started has the bytes of one listed command cut, or read on, to the length of
    another, so that it is listed when these lengths are the same; that two resets at
    once may indeed start such a torn command, which the list does not have; and that
    they may run each other's command.

    Router.  [Pool] is [pool/pool.go], each method an atomic step; [PoolFacts]
    has its specification, a state machine per address, and the invariant;
    [PoolProps] shows that the pool implements it, that connections are
    conserved and that an agent serves one episode at a time.  [Router] is
    [grpcserver/server.go]: a handler is a tree of the calls it makes, which
    other handlers, the watcher and the cleanup may interleave; [RouterProps]
    shows each handler's behaviour and that every interleaving is a history of
    the pool.  [K8s] is [k8s/watcher.go] and [k8s/scaler.go] with their loops and
    the contexts that start and stop them;
    [K8sProps] shows that a synchronisation converges, that the pool follows the
    endpoints seen last over any number of turns, and which replica count is asked
    for.  [Liveness] has what happens over time: in every schedule in which the
    cleanup keeps running an abandoned session ends, and the scaler and the
    watcher together fill the warm pool but for the sessions that begin after the
    scaler's counts.

    Servers.  [Startup] is [env-router/main.go], [env-ebpf-agent/main.go] and the
    life of the manager's resources, with [log.Fatal], the deferred calls and the
    panic of a goroutine whenever the scheduler runs it: what is started and stopped
    on every path, and the integers of the configuration.
    [Deployment] has the configuration, names, ports and rights that the manifests
    of [kubernetes-cluster/resources] give them, and that these fit the code.
    [TestClient] is [env-ebpf-agent/test_client.go], over any agent: its calls, its
    output, and the answer on which it panics.

    Environment.  [TunerEnv] is [server/socket_tuner_environment.py] over any
    stub, and over the router; [PyFloat] the floating-point arithmetic of its
    reward; [TunerEnvProps] shows how the reward and the end of an episode depend
    on the durations, what [reset] does with failures, that an episode ends within
    the step limit and releases its agent, and two ways in which agents are lost
    or taken from other clients.  [Models] is [models.py], [WebClient] the
    decoding of answers in [client.py] and the labels and form of [app.py].  [Inference] is
    [inference.py], a computation with exceptions, a state and an output over any
    environment and any language model, which may raise at every call, on entering
    and leaving the client included; [InferenceProps] shows which lines it
    prints whatever these do, and that its scores are exact.

    Whole system.  [System] composes the parts: a cluster is the pool of the
    router and the agent at every address; a handler of the router runs on it with
    the handlers of [Agent] at the other end of its connections, over a network
    that may lose requests and replies; the client's environment runs on the
    cluster; the handlers of any other clients, the watcher, the cleanup and the
    kernel's invocations of the agents' BPF programs, for sockets of any process,
    interleave at every call that a handler makes for it.
    [SystemProps] shows that sessions do not disturb each other's agents, whose maps
    change by those invocations only, and that an action, once stored, also tunes the
    baselines of later episodes.  [CrowdProps] follows one handler of the router
    among all others, call by call; [EpisodeProps] uses it for episodes of any
    number of steps, from the client's [reset] and [step] to the sockets of the
    agent's command and back: which options they get, and that the reward is that
    of the kernel's timestamps.

    This file has the conventions and lemmas that the parts share; [Words] the
    bytes of machine words, and byte strings.

    ** How state and operations correspond

    Machine integers are integers in [Z]; where a value is cut to a width the
    cut is written out ([u8], [u32], [u64], [sint]), and typing theorems say that
    the stored values fit.  A definition has the name of the function it models;
    a method takes the state of its receiver and returns it changed.  Errors, and
    Python's exceptions, are values of a sum or an option.  Not under [src/] and
    therefore parameters: the kernel's map operations and helpers, processes and
    what they do to the maps ([world]), the dialing of connections, the clock, the
    order in which Go iterates over a map, the answers of the cluster's API and of
    the transport.  What is used of the standard libraries (SHA-256,
    [strings.Fields], [net.ParseIP], [IP.String], floats) is defined, with test
    vectors.

    ** Bounds

    [CTypes.depth] (32) bounds the nesting of C types, and [find_member] has fuel
    for 1000 members; the theorems of [Vmlinux] compute layouts under them, so
    they are enough.  Every other recursion is structural; the loop of [reset] has
    the three attempts of the source.  A float is rounded to 53 bits and has no
    bound on its exponent, which the quotients of 64-bit integers do not reach.
    The map sizes are those of the source (1024, 10240 and 65536 entries); the
    theorems hold for any size.

    A schedule of [Liveness] is infinite; the retries of [Inference] are the three
    attempts of the source, its episodes three of at most five steps.

    ** Not modelled

    What the eBPF library does to load and attach the program, logging and sleeps,
    the generated gRPC code, the text around the values of the model's prompt, the
    text that Go's [fmt] makes of values, and, of the deployment, what does not
    reach the two servers: nodes, resources, probes, load balancers, scripts.  Of the client and the web application, their
    libraries: HTTP and WebSocket sessions, pydantic's validation beyond the
    fields that are read, the rendering of the form, the loading of the README.
    Of the header [ebpf/vmlinux.h], the declarations that the structs named above
    do not need.  Reads and writes of a word of memory are sequentially consistent:
    where the source races, an access to a word is one step.  In [System] a call to an agent is
    one step; [AgentThreadsProps] shows that it is one when no other handler of
    that agent runs.  There, too, and in [AgentThreads], an invocation of the BPF
    program is one step.  What the kernel does with a value of a map that is
    replaced while an invocation has a pointer to it is left open: the histories
    of [Cpus] that the theorems are about have no such access. *)
From Stdlib Require Export ZArith Lia.
From stdpp Require Export base tactics option list gmap strings.

#[global] Set Default Goal Selector "1".

(** ** Scopes *)

Declare Scope tuner_scope.
Delimit Scope tuner_scope with tuner.

(** ** Widths of machine integers *)

(** The value a [w]-bit unsigned variable holds after [z] is assigned to it. *)
Definition wrap (w z : Z) : Z := z mod 2 ^ w.

Abbreviation u8 := (wrap 8).
Abbreviation u16 := (wrap 16).
Abbreviation u32 := (wrap 32).
Abbreviation u64 := (wrap 64).

(** [z] is representable in [w] unsigned bits. *)
Definition fits (w z : Z) : Prop := (0 ≤ z < 2 ^ w)%Z.

#[export] Instance fits_dec w z : Decision (fits w z).
Proof. unfold fits. apply _. Defined.

Notation "z ∈ᵤ w" := (fits w z) (at level 70, only parsing) : tuner_scope.

(** Round [x] up to a multiple of [a]. *)
Definition align_up (x a : Z) : Z := ((x + (a - 1)) / a * a)%Z.

(** ** Automation *)

Create HintDb tuner discriminated.
Create Rewrite HintDb tuner.

(** Destruct the scrutinee of a [match] of the goal or of a hypothesis. *)
Ltac case_step :=
  match goal with
  | |- context [match ?x with _ => _ end] => destruct x eqn:?
  | H : context [match ?x with _ => _ end] |- _ => destruct x eqn:?
  end.

Ltac break := repeat (case_step; simplify_eq/=).

(** Unfold the monadic steps of an [option] computation in the hypotheses. *)
Ltac option_inv :=
  repeat match goal with
  | H : mbind _ _ = Some _ |- _ => apply bind_Some in H; destruct H as (? & ? & H)
  | H : guard _ ≫= _ = Some _ |- _ => apply bind_Some in H; destruct H as (? & ? & H)
  | H : _ <$> _ = Some _ |- _ => apply fmap_Some in H; destruct H as (? & ? & ->)
  | x : (_ * _)%type |- _ => destruct x
  | _ => progress simplify_eq/=
  end.

(** A pair by its first component, to evaluate that one alone. *)
Lemma pair_fst {A B} (p : A * B) a : p.1 = a → p = (a, p.2).
Proof. intros <-. by destruct p. Qed.

Section arithmetic.
Local Open Scope Z_scope.

Lemma wrap_fits w z : 0 ≤ w → fits w (wrap w z).
Proof. intros ?. apply Z.mod_pos_bound. by apply Z.pow_pos_nonneg. Qed.

Lemma wrap_id w z : fits w z → wrap w z = z.
Proof. unfold wrap, fits. apply Z.mod_small. Qed.

Lemma wrap_idemp w z : wrap w (wrap w z) = wrap w z.
Proof. apply Zmod_mod. Qed.

Lemma wrap_0 w : wrap w 0 = 0.
Proof. apply Zmod_0_l. Qed.

Lemma fits_weaken w w' z : w ≤ w' → fits w z → fits w' z.
Proof.
  unfold fits. intros Hw [? Hz]. split; [done|].
  eapply Z.lt_le_trans; [done|]. apply Z.pow_le_mono_r; lia.
Qed.

Lemma fits_lor w a b : 0 ≤ w → fits w a → fits w b → fits w (Z.lor a b).
Proof.
  intros Hw Ha Hb. rewrite <- (wrap_id w a), <- (wrap_id w b) by done. unfold wrap.
  rewrite <- !Z.land_ones, <- Z.land_lor_distr_l, Z.land_ones by done. by apply wrap_fits.
Qed.

Lemma fits_land w a m : 0 ≤ w → fits w m → fits w (Z.land a m).
Proof.
  intros Hw Hm. rewrite <- (wrap_id w m) by done. unfold wrap.
  rewrite <- Z.land_ones, Z.land_assoc, Z.land_ones by done. by apply wrap_fits.
Qed.

Lemma fits_shiftl w k a : 0 ≤ k → fits w a → fits (w + k) (Z.shiftl a k).
Proof.
  unfold fits. intros Hk [H0 Ha]. rewrite Z.shiftl_mul_pow2 by done. split; [lia|].
  destruct (decide (0 ≤ w)).
  - rewrite Z.pow_add_r by done. apply Z.mul_lt_mono_pos_r; lia.
  - rewrite Z.pow_neg_r in Ha by lia. lia.
Qed.

Lemma fits_shiftr w k a : 0 ≤ k → fits w a → fits w (Z.shiftr a k).
Proof.
  unfold fits. intros Hk [H0 Ha]. rewrite Z.shiftr_div_pow2 by done.
  split; [apply Z.div_pos; lia|]. eapply Z.le_lt_trans; [|done].
  apply Z.div_le_upper_bound; [lia|]. pose proof (Z.pow_pos_nonneg 2 k). nia.
Qed.

Lemma fits_div w a d : 0 < d → fits w a → fits w (a / d).
Proof.
  unfold fits. intros Hd [H0 Ha]. split; [by apply Z.div_pos|].
  eapply Z.le_lt_trans; [|done]. apply Z.div_le_upper_bound; nia.
Qed.

Lemma align_up_bounds x a : 0 < a → x ≤ align_up x a < x + a.
Proof.
  intros Ha. unfold align_up.
  pose proof (Z.mod_pos_bound (x + (a - 1)) a Ha).
  pose proof (Z.div_mod (x + (a - 1)) a). lia.
Qed.

Lemma align_up_ge x a : 0 < a → x ≤ align_up x a.
Proof. intros. by apply align_up_bounds. Qed.

Lemma align_up_divide x a : (a | align_up x a).
Proof. exists ((x + (a - 1)) / a). reflexivity. Qed.

Lemma align_up_id x a : 0 < a → (a | x) → align_up x a = x.
Proof.
  intros Ha [k ->]. unfold align_up.
  replace (k * a + (a - 1)) with ((a - 1) + k * a) by lia.
  rewrite Z.div_add by lia. rewrite Z.div_small by lia. lia.
Qed.

(** The least multiple of [a] above [x]. *)
Lemma align_up_least x a y : 0 < a → (a | y) → x ≤ y → align_up x a ≤ y.
Proof.
  intros Ha [k ->] Hle. unfold align_up. apply Z.mul_le_mono_nonneg_r; [lia|].
  apply Z.lt_succ_r. apply Z.div_lt_upper_bound; lia.
Qed.

End arithmetic.

(** ** Lists *)

(** The elements of an option. *)
Definition opt_list {A} (o : option A) : list A :=
  match o with Some x => [x] | None => [] end.

Lemma omap_cons_opt {A B} (f : A → option B) x l : omap f (x :: l) = opt_list (f x) ++ omap f l.
Proof. cbn. by destruct (f x). Qed.

#[export] Hint Resolve wrap_fits fits_lor fits_land fits_shiftr fits_div align_up_ge align_up_divide : tuner.
#[export] Hint Extern 3 (_ ≤ _)%Z => lia : tuner.
#[export] Hint Extern 3 (_ < _)%Z => lia : tuner.
