(* ===== verification/Words.v ===== *)
(** * Machine words: byte order and little-endian images

    The byte-level operations the C program ([__builtin_bswap32]), the Go agent
    ([binary.LittleEndian.Uint32], [binary.LittleEndian.PutUint32]) and the
    codecs of the BPF map entries share.  A byte is a [Z] between 0 and 255. *)
From S2P Require Import Prelude.
Local Open Scope Z_scope.

(** The [n] low-order bytes of [z], least significant first. *)
Fixpoint le_bytes (n : nat) (z : Z) : list Z :=
  match n with
  | O => []
  | S n => z mod 256 :: le_bytes n (z / 256)
  end.

(** The number whose little-endian image is [bs]. *)
Fixpoint le_value (bs : list Z) : Z :=
  match bs with
  | [] => 0
  | b :: bs => b + 256 * le_value bs
  end.

(** A byte is an unsigned 8-bit number. *)
Definition is_byte (b : Z) : Prop := fits 8 b.

(** [__builtin_bswap32]: reverse the four bytes of a 32-bit word. *)
Definition bswap32 (x : Z) : Z :=
  Z.lor (Z.shiftl (Z.land x 0xff) 24)
    (Z.lor (Z.shiftl (Z.land x 0xff00) 8)
      (Z.lor (Z.land (Z.shiftr x 8) 0xff00)
        (Z.land (Z.shiftr x 24) 0xff))).

(** The 16-bit analogue, the [htons] of a little-endian machine. *)
Definition bswap16 (x : Z) : Z :=
  Z.lor (Z.shiftl (Z.land x 0xff) 8) (Z.land (Z.shiftr x 8) 0xff).

(** The bytes of a string, and back. *)
Definition bytes_of_string (s : string) : list Z :=
  Z.of_nat ∘ Ascii.nat_of_ascii <$> String.list_ascii_of_string s.
Definition string_of_bytes (bs : list Z) : string :=
  String.string_of_list_ascii (Ascii.ascii_of_nat ∘ Z.to_nat <$> bs).

(** The [w]-bit numbers. *)
Fixpoint all_words (w : nat) : list Z :=
  match w with
  | O => [0]
  | S w => all_words w ≫= λ x, [2 * x; 2 * x + 1]
  end.

(** ** Little-endian images *)

Lemma length_le_bytes n z : length (le_bytes n z) = n.
Proof. revert z. induction n; intros; simpl; auto. Qed.

Lemma le_bytes_byte n z : Forall is_byte (le_bytes n z).
Proof.
  revert z. induction n; intros; simpl; constructor; auto.
  apply Z.mod_pos_bound. lia.
Qed.

Lemma le_value_bound bs : Forall is_byte bs → 0 ≤ le_value bs < 256 ^ Z.of_nat (length bs).
Proof.
  induction 1 as [|b bs Hb _ IH]; [simpl; lia|].
  cbn [length le_value]. rewrite Nat2Z.inj_succ, Z.pow_succ_r by lia.
  unfold is_byte, fits in Hb. lia.
Qed.

(** Reading an image back gives the number modulo the width of the image. *)
Lemma le_value_bytes n z : le_value (le_bytes n z) = z mod 256 ^ Z.of_nat n.
Proof.
  revert z. induction n as [|n IH]; intros z; [by rewrite Z.mod_1_r|].
  cbn [le_bytes le_value]. rewrite IH, Nat2Z.inj_succ, Z.pow_succ_r by lia.
  rewrite Z.rem_mul_r by lia. lia.
Qed.

Lemma le_value_bytes_fits n z :
  fits (8 * Z.of_nat n) z → le_value (le_bytes n z) = z.
Proof.
  intros Hz. rewrite le_value_bytes. apply Z.mod_small.
  unfold fits in Hz. rewrite Z.pow_mul_r in Hz by lia. done.
Qed.

Lemma le_bytes_value bs : Forall is_byte bs → le_bytes (length bs) (le_value bs) = bs.
Proof.
  induction 1 as [|b bs Hb Hbs IH]; [done|].
  unfold is_byte, fits in Hb. cbn [length le_value le_bytes].
  rewrite (Z.mul_comm 256), Z_mod_plus_full, Z.div_add, Z.mod_small, Z.div_small by lia.
  by rewrite Z.add_0_l, IH.
Qed.

(** The image of a number is that of its low-order bits. *)
Lemma le_bytes_wrap n z : le_bytes n (z mod 256 ^ Z.of_nat n) = le_bytes n z.
Proof.
  revert z. induction n as [|n IH]; intros z; [done|]. cbn [le_bytes].
  rewrite Nat2Z.inj_succ, Z.pow_succ_r, Z.rem_mul_r by lia. f_equal.
  - rewrite Z.add_mod, Z.mul_comm, Z.mod_mul, Z.add_0_r, !Z.mod_mod by lia. done.
  - rewrite <- (IH (z / 256)). f_equal. rewrite Z.mul_comm, Z.div_add, Z.div_small by (try apply Z.mod_pos_bound; lia). lia.
Qed.

(** Four bytes make a 32-bit word. *)
Lemma le_value_fits32 bs : length bs = 4%nat → Forall is_byte bs → fits 32 (le_value bs).
Proof. intros Hl H. apply le_value_bound in H. rewrite Hl in H. unfold fits. simpl in *. lia. Qed.

(** ** Byte swaps *)

Lemma all_words_spec w x : fits (Z.of_nat w) x → x ∈ all_words w.
Proof.
  revert x. induction w as [|w IH]; intros x Hx; unfold fits in Hx.
  - change (2 ^ Z.of_nat 0) with 1 in Hx. rewrite list_elem_of_In. simpl. lia.
  - rewrite Nat2Z.inj_succ, Z.pow_succ_r in Hx by lia.
    cbn [all_words]. apply list_elem_of_bind. exists (x / 2). split.
    + rewrite list_elem_of_In. simpl.
      pose proof (Z.div_mod x 2). pose proof (Z.mod_pos_bound x 2). lia.
    + apply IH. unfold fits. split; [apply Z.div_pos|apply Z.div_lt_upper_bound]; lia.
Qed.

(** A decidable statement about all [w]-bit numbers holds when the kernel
    evaluates it to [true] on each of them. *)
Lemma fits_forallb w (f : Z → bool) :
  forallb f (all_words w) = true → ∀ x, fits (Z.of_nat w) x → f x = true.
Proof.
  intros Hf x Hx. rewrite forallb_forall in Hf. by apply Hf, list_elem_of_In, all_words_spec.
Qed.

(** Where [__builtin_bswap32] finds a 16-bit number that sits in the upper
    half of a 32-bit word. *)
Lemma bswap32_shifted x : fits 16 x → bswap32 (Z.shiftl x 16) = bswap16 x.
Proof.
  intros Hx. apply Z.eqb_eq. revert x Hx. apply (fits_forallb 16). vm_compute. reflexivity.
Qed.

Lemma bswap32_fits x : fits 32 (bswap32 x).
Proof.
  unfold bswap32. repeat apply fits_lor; try lia;
    try first [apply (fits_shiftl 8 24)|apply (fits_shiftl 24 8)]; try lia;
    apply fits_land; try lia; done.
Qed.

Lemma bswap16_fits x : fits 16 x → fits 16 (bswap16 x).
Proof.
  intros Hx. enough ((0 <=? bswap16 x) && (bswap16 x <? 65536) = true) as H.
  { unfold fits. change (2 ^ 16) with 65536. lia. }
  revert x Hx. apply (fits_forallb 16). vm_compute. reflexivity.
Qed.

Lemma bswap16_involutive x : fits 16 x → bswap16 (bswap16 x) = x.
Proof.
  intros Hx. apply Z.eqb_eq.
  apply (fits_forallb 16 (λ x, bswap16 (bswap16 x) =? x)); [|done]. vm_compute. reflexivity.
Qed.

(** ** Strings as bytes *)

Lemma bytes_of_string_of_bytes bs : Forall is_byte bs → bytes_of_string (string_of_bytes bs) = bs.
Proof.
  intros H. unfold bytes_of_string, string_of_bytes.
  rewrite String.list_ascii_of_string_of_list_ascii, <- list_fmap_compose.
  rewrite <- (list_fmap_id bs) at 2. apply Forall_fmap_ext_1.
  eapply Forall_impl; [exact H|]. intros b [? Hb]. cbn.
  rewrite Ascii.nat_ascii_embedding; [by apply Z2Nat.id|].
  change (2 ^ 8) with 256 in Hb. lia.
Qed.

#[export] Hint Resolve bswap32_fits length_le_bytes le_bytes_byte bswap16_fits : tuner.
#[export] Hint Rewrite length_le_bytes : tuner.
