(* ===== verification/CTypes.v ===== *)
(** * C data types and their layout

    A deep embedding of the C declarations the kernel header [vmlinux.h] is
    made of (integers, pointers, arrays, structs, unions, enums, typedefs,
    bit-fields, packed records), with [sizeof], the alignment and the bit offset
    of every member as executable functions, following the x86-64 / BPF (LP64)
    ABI: members are placed in order at the next multiple of their alignment; a
    bit-field shares the storage unit of its declared type when it fits in it;
    a zero-width bit-field closes the unit; an unnamed bit-field does not
    contribute to the alignment of its record.

    Type names are resolved in an environment of declarations, so [sizeof] is
    partial: [None] for a name that is not declared or for a by-value cycle. *)
From Stdlib Require Import Sorted.
From S2P Require Import Prelude.
Local Open Scope Z_scope.

#[local] Set Warnings "-register-all".

(** ** Syntax *)

(** The arithmetic types of the header, by their C spelling. *)
Inductive cbase :=
| Char | SChar | UChar | Short | UShort | Int | UInt
| Long | ULong | LongLong | ULongLong | Bool | Int128 | UInt128.

Inductive cty :=
| Void
| Base (b : cbase)
| Ptr (t : cty)
| Arr (t : cty) (n : Z)                        (* [t x[n]] *)
| Flex (t : cty)                               (* [t x[]] *)
| Fun (ret : cty) (args : list cty)
| Const (t : cty)
| Volatile (t : cty)
| Name (x : string)                            (* a typedef name *)
| Struct (x : string)
| Union (x : string)
| Enum (x : string)
| AnonStruct (fs : list cfield)
| AnonUnion (fs : list cfield)
| AnonEnum (cs : list (string * Z))
with cfield :=
| Field (t : cty) (name : string) (bits : option Z).

(** The declarations of the header. *)
Inductive cdecl :=
| DStruct (packed : bool) (fs : list cfield)
| DUnion (packed : bool) (fs : list cfield)
| DEnum (cs : list (string * Z))
| DTypedef (t : cty).

(** The name spaces of tags and of ordinary identifiers. *)
Inductive cspace := SStruct | SUnion | SEnum | STypedef.

#[export] Instance cspace_eq_dec : EqDecision cspace.
Proof. solve_decision. Defined.

(** A translation unit: its declarations, by name space and name. *)
Abbreviation cenv := (list ((cspace * string) * cdecl)).

Fixpoint lookup_decl (E : cenv) (k : cspace) (x : string) : option cdecl :=
  match E with
  | [] => None
  | ((k', x'), d) :: E =>
      if bool_decide (k = k') && String.eqb x x' then Some d else lookup_decl E k x
  end.

(** The member declarations, in the order of C: type, then name. *)
Definition member (t : cty) (x : string) : cfield := Field t x None.
Definition bitfield (t : cty) (x : string) (w : Z) : cfield := Field t x (Some w).
Definition pad (t : cty) (w : Z) : cfield := Field t EmptyString (Some w).
Definition anon (t : cty) : cfield := Field t EmptyString None.

Notation "t ⊳ x" := (member t x) (at level 65, no associativity) : tuner_scope.

Abbreviation c_char := (Base Char).
Abbreviation c_schar := (Base SChar).
Abbreviation c_uchar := (Base UChar).
Abbreviation c_short := (Base Short).
Abbreviation c_ushort := (Base UShort).
Abbreviation c_int := (Base Int).
Abbreviation c_uint := (Base UInt).
Abbreviation c_long := (Base Long).
Abbreviation c_ulong := (Base ULong).
Abbreviation c_llong := (Base LongLong).
Abbreviation c_ullong := (Base ULongLong).
Abbreviation c_bool := (Base Bool).
Abbreviation c_u128 := (Base UInt128).
Abbreviation c_s128 := (Base Int128).

(** ** Layout *)

(** Size in bytes of an arithmetic type; its alignment is its size. *)
Definition base_size (b : cbase) : Z :=
  match b with
  | Char | SChar | UChar | Bool => 1
  | Short | UShort => 2
  | Int | UInt => 4
  | Long | ULong | LongLong | ULongLong => 8
  | Int128 | UInt128 => 16
  end.

(** An enum is an [int] unless an enumerator needs 64 bits. *)
Definition enum_size (cs : list (string * Z)) : Z :=
  if forallb (λ c, (- 2 ^ 31 <=? c.2) && (c.2 <? 2 ^ 32)) cs then 4 else 8.

(** A member with the place it was given, in bits from the start of its record. *)
Record placed := Placed {
  p_ty : cty; p_name : string;
  p_start : Z; p_len : Z;      (* bits *)
  p_align : Z;                 (* bytes; 1 for a bit-field *)
}.

(** A record under construction: first free bit, alignment so far, members. *)
Record layout := Layout { l_end : Z; l_align : Z; l_fields : list placed }.

Definition empty_layout : layout := Layout 0 1 [].

(** The first bit of a bit-field of [w] bits of a type of [sz] bytes, when the
    first free bit is [e]: in the current storage unit if it fits. *)
Definition bitfield_start (packed : bool) (sz al w e : Z) : Z :=
  if packed then e
  else if e / (8 * sz) =? (e + w - 1) / (8 * sz) then e else align_up e (8 * al).

(** Place one member of a struct, given the size and alignment of its type. *)
Definition place (packed : bool) (t : cty) (x : string) (bits : option Z)
    (sa : Z * Z) (l : layout) : option layout :=
  let '(sz, al0) := sa in
  let al := if packed then 1 else al0 in
  match bits with
  | None =>
      let s := align_up (l_end l) (8 * al) in
      Some (Layout (s + 8 * sz) (Z.max (l_align l) al)
              (l_fields l ++ [Placed t x s (8 * sz) al]))
  | Some 0 =>
      if bool_decide (x = EmptyString) then
        Some (Layout (align_up (l_end l) (8 * al0)) (l_align l) (l_fields l))
      else None
  | Some w =>
      if (0 <? w) && (w <=? 8 * sz) then
        let s := bitfield_start packed sz al w (l_end l) in
        Some (Layout (s + w)
                (if bool_decide (x = EmptyString) then l_align l else Z.max (l_align l) al)
                (l_fields l ++ [Placed t x s w 1]))
      else None
  end.

(** Place one member of a union: at offset 0. *)
Definition overlay (packed : bool) (t : cty) (x : string) (bits : option Z)
    (sa : Z * Z) (l : layout) : option layout :=
  '(l') ← place packed t x bits sa (Layout 0 (l_align l) []);
  Some (Layout (Z.max (l_end l) (l_end l')) (l_align l') (l_fields l ++ l_fields l')).

Section fields.
Context (sa : cty → option (Z * Z)) (packed : bool).
Context (put : bool → cty → string → option Z → Z * Z → layout → option layout).

(** Place the members of a record in order. *)
Fixpoint place_all (fs : list cfield) (l : layout) : option layout :=
  match fs with
  | [] => Some l
  | Field t x bits :: fs =>
      r ← sa t; l' ← put packed t x bits r l; place_all fs l'
  end.

End fields.

(** Size and alignment of a record from its layout: the size is padded to a
    multiple of the alignment. *)
Definition close_layout (l : layout) : Z * Z :=
  (align_up (align_up (l_end l) 8 / 8) (l_align l), l_align l).

(** [sizeof] and [_Alignof], in bytes. [n] bounds the depth of by-value nesting. *)
Fixpoint size_align (n : nat) (E : cenv) (t : cty) : option (Z * Z) :=
  match n with
  | O => None
  | S n =>
    let sa := size_align n E in
    match t with
    | Void | Fun _ _ => None
    | Base b => Some (base_size b, base_size b)
    | Ptr _ => Some (8, 8)
    | Arr t k => '(s, a) ← sa t; if 0 <=? k then Some (s * k, a) else None
    | Flex t => '(s, a) ← sa t; Some (0, a)
    | Const t | Volatile t => sa t
    | Name x =>
        match lookup_decl E STypedef x with Some (DTypedef t) => sa t | _ => None end
    | Struct x =>
        match lookup_decl E SStruct x with
        | Some (DStruct p fs) => close_layout <$> place_all sa p place fs empty_layout
        | _ => None
        end
    | Union x =>
        match lookup_decl E SUnion x with
        | Some (DUnion p fs) => close_layout <$> place_all sa p overlay fs empty_layout
        | _ => None
        end
    | Enum x =>
        match lookup_decl E SEnum x with
        | Some (DEnum cs) => Some (enum_size cs, enum_size cs)
        | _ => None
        end
    | AnonStruct fs => close_layout <$> place_all sa false place fs empty_layout
    | AnonUnion fs => close_layout <$> place_all sa false overlay fs empty_layout
    | AnonEnum cs => Some (enum_size cs, enum_size cs)
    end
  end.

(** The members of a record type with their places. *)
Fixpoint record_layout (n : nat) (E : cenv) (t : cty) : option layout :=
  match n with
  | O => None
  | S n =>
    let sa := size_align n E in
    match t with
    | Const t | Volatile t => record_layout n E t
    | Name x =>
        match lookup_decl E STypedef x with Some (DTypedef t) => record_layout n E t | _ => None end
    | Struct x =>
        match lookup_decl E SStruct x with
        | Some (DStruct p fs) => place_all sa p place fs empty_layout
        | _ => None
        end
    | Union x =>
        match lookup_decl E SUnion x with
        | Some (DUnion p fs) => place_all sa p overlay fs empty_layout
        | _ => None
        end
    | AnonStruct fs => place_all sa false place fs empty_layout
    | AnonUnion fs => place_all sa false overlay fs empty_layout
    | _ => None
    end
  end.

(** The nesting depth the development evaluates with: more than the deepest
    by-value nesting of the declarations transcribed. *)
Definition depth : nat := 32.

Definition sizeof (E : cenv) (t : cty) : option Z := fst <$> size_align depth E t.
Definition alignof (E : cenv) (t : cty) : option Z := snd <$> size_align depth E t.

(** Find member [x]: its own place, or inside an anonymous member. *)
Fixpoint find_member (n : nat) (E : cenv) (base : Z) (ps : list placed) (x : string)
    : option placed :=
  match n with
  | O => None
  | S n =>
    match ps with
    | [] => None
    | p :: ps =>
        if String.eqb (p_name p) x then
          Some (Placed (p_ty p) x (base + p_start p) (p_len p) (p_align p))
        else
          match (if String.eqb (p_name p) EmptyString then
                   l ← record_layout depth E (p_ty p);
                   find_member n E (base + p_start p) (l_fields l) x
                 else None) with
          | Some r => Some r
          | None => find_member n E base ps x
          end
    end
  end.

(** The place of the member reached by a path of names, [t.x1.x2...]. *)
Fixpoint member_at (E : cenv) (base : Z) (t : cty) (path : list string) : option placed :=
  match path with
  | [] => None
  | x :: path =>
      l ← record_layout depth E t;
      p ← find_member 1000 E base (l_fields l) x;
      match path with
      | [] => Some p
      | _ => member_at E (p_start p) (p_ty p) path
      end
  end.

(** [offsetof(t, path)] in bytes, for members that start on a byte. *)
Definition offsetof (E : cenv) (t : cty) (path : list string) : option Z :=
  p ← member_at E 0 t path;
  if p_start p mod 8 =? 0 then Some (p_start p / 8) else None.

(** The value of an enumerator. *)
Definition enumerator (cs : list (string * Z)) (x : string) : Z :=
  match list_find (λ c, c.1 = x) cs with
  | Some (_, c) => c.2
  | None => 0
  end.

(** ** Soundness predicates *)

(** A power of two. *)
Definition pow2 (a : Z) : Prop := ∃ k, 0 ≤ k ∧ a = 2 ^ k.

(** A possible result of [size_align]. *)
Definition sa_ok (r : Z * Z) : Prop := 0 ≤ r.1 ∧ pow2 r.2 ∧ (r.2 | r.1).

(** The member starts at a multiple of its alignment, which divides [a]. *)
Definition placed_aligned (a : Z) (p : placed) : Prop :=
  0 ≤ p_start p ∧ 0 ≤ p_len p ∧ pow2 (p_align p) ∧
  (p_align p = 1 ∨ (8 * p_align p | p_start p)) ∧ (p_align p | a).

(** [p] ends before [q] starts. *)
Definition placed_before (p q : placed) : Prop := p_start p + p_len p ≤ p_start q.

(** Members inside the record, aligned. *)
Definition layout_inside (l : layout) : Prop :=
  0 ≤ l_end l ∧ pow2 (l_align l) ∧
  Forall (λ p, placed_aligned (l_align l) p ∧ p_start p + p_len p ≤ l_end l) (l_fields l).

(** A sound struct: moreover, members follow each other without overlap. *)
Definition struct_sound (l : layout) : Prop :=
  layout_inside l ∧ StronglySorted placed_before (l_fields l).

(** ** Powers of two *)

Lemma pow2_1 : pow2 1.
Proof. by exists 0. Qed.

Lemma pow2_2 k : 0 ≤ k → pow2 (2 ^ k).
Proof. by exists k. Qed.

Lemma pow2_pos a : pow2 a → 0 < a.
Proof. intros (k & ? & ->). lia. Qed.

Lemma pow2_divide a b : pow2 a → pow2 b → a ≤ b → (a | b).
Proof.
  intros (j & Hj & ->) (k & Hk & ->) Hle.
  assert (j ≤ k) by (apply (Z.pow_le_mono_r_iff 2); lia).
  exists (2 ^ (k - j)). rewrite <- Z.pow_add_r by lia. f_equal. lia.
Qed.

Lemma pow2_max a b : pow2 a → pow2 b → pow2 (Z.max a b).
Proof. intros. destruct (Z.max_spec a b) as [[_ ->]|[_ ->]]; done. Qed.

Lemma pow2_max_l a b : pow2 a → pow2 b → (a | Z.max a b).
Proof. intros. apply pow2_divide; auto using pow2_max. lia. Qed.

Lemma pow2_max_r a b : pow2 a → pow2 b → (b | Z.max a b).
Proof. intros. apply pow2_divide; auto using pow2_max. lia. Qed.

#[export] Hint Resolve pow2_1 pow2_pos pow2_max pow2_max_l pow2_max_r : tuner.

Ltac pow2_exp k := exists k; split; [lia|reflexivity].

Lemma base_size_pow2 b : pow2 (base_size b).
Proof. destruct b; first [pow2_exp 0|pow2_exp 1|pow2_exp 2|pow2_exp 3|pow2_exp 4]. Qed.

Lemma enum_size_pow2 cs : pow2 (enum_size cs).
Proof. unfold enum_size. case_match; [pow2_exp 2|pow2_exp 3]. Qed.

Lemma pow2_sa_ok a : pow2 a → sa_ok (a, a).
Proof.
  intros Ha. pose proof (pow2_pos _ Ha).
  split; [simpl; lia|split; [done|apply Z.divide_refl]].
Qed.

(** ** Placing members preserves soundness *)

(** Strengthening the alignment of a record and moving its end keeps its
    members inside. *)
Lemma inside_weaken l a e :
  layout_inside l → pow2 a → (l_align l | a) → l_end l ≤ e →
  Forall (λ p, placed_aligned a p ∧ p_start p + p_len p ≤ e) (l_fields l).
Proof.
  intros (_ & _ & Hf) Ha Hd He. eapply Forall_impl; [exact Hf|].
  intros p [(?&?&?&?&?) ?]. repeat split; auto; [by etrans|lia].
Qed.

(** Appending one member after the end of a record. *)
Lemma inside_snoc l a e p :
  layout_inside l → pow2 a → (l_align l | a) → l_end l ≤ e → 0 ≤ e →
  placed_aligned a p → p_start p + p_len p ≤ e →
  layout_inside (Layout e a (l_fields l ++ [p])).
Proof.
  intros Hl Ha Hd He He0 Hp Hpe. split; [done|split; [done|]]. simpl.
  apply Forall_app. split; [by eapply inside_weaken|]. by apply Forall_singleton.
Qed.

Lemma bitfield_start_ge packed sz al w e :
  0 < al → e ≤ bitfield_start packed sz al w e.
Proof.
  intros. unfold bitfield_start. repeat case_match; try lia.
  apply align_up_ge. lia.
Qed.

(** What [place] adds: nothing (a zero-width bit-field), or one member at or
    after the end. *)
Lemma place_spec packed t x bits r l l' :
  sa_ok r → layout_inside l → place packed t x bits r l = Some l' →
  layout_inside l' ∧ l_end l ≤ l_end l' ∧ (l_align l | l_align l') ∧
  (l_fields l' = l_fields l ∨
   ∃ p, l_fields l' = l_fields l ++ [p] ∧ l_end l ≤ p_start p).
Proof.
  destruct r as [sz al0]. intros (Hsz & Hal0 & _) Hl H. pose proof Hl as (He & Ha & _).
  unfold place in H. set (al := if packed then 1 else al0) in H.
  assert (pow2 al) as Hal by (subst al; destruct packed; auto with tuner).
  pose proof (pow2_pos _ Hal). pose proof (pow2_pos _ Hal0). simpl in Hsz.
  destruct bits as [[|w|w]|]; [case_bool_decide; simplify_eq| |done|]; simplify_eq/=.
  - pose proof (align_up_ge (l_end l) (8 * al0)).
    split; [|split; [simpl; lia|split; [apply Z.divide_refl|by left]]].
    split; [simpl; lia|split; [done|]]. simpl. eapply inside_weaken; eauto; [apply Z.divide_refl|lia].
  - destruct (_ <=? _) eqn:Hw in H; simplify_eq/=.
    pose proof (bitfield_start_ge packed sz al (Zpos w) (l_end l)).
    set (a := if bool_decide (x = EmptyString) then l_align l else l_align l `max` al).
    assert (pow2 a ∧ (l_align l | a)) as [? ?].
    { subst a. case_bool_decide; auto using Z.divide_refl with tuner. }
    split; [|split; [simpl; lia|split; [simpl; auto with tuner|right; eexists; split; [done|simpl; lia]]]].
    apply inside_snoc; simpl; auto; try lia.
    repeat split; simpl; auto using Z.divide_1_l with tuner; lia.
  - pose proof (align_up_ge (l_end l) (8 * al)).
    split; [|split; [simpl; lia|split; [simpl; auto with tuner|right; eexists; split; [done|simpl; lia]]]].
    apply inside_snoc; simpl; auto with tuner; try lia.
    repeat split; simpl; auto with tuner; try lia. 
Qed.

Lemma place_inside packed t x bits r l l' :
  sa_ok r → layout_inside l → place packed t x bits r l = Some l' → layout_inside l'.
Proof. intros ? ? H. by apply place_spec in H as [? _]. Qed.

Lemma overlay_inside packed t x bits r l l' :
  sa_ok r → layout_inside l → overlay packed t x bits r l = Some l' → layout_inside l'.
Proof.
  intros Hr Hl [l0 [H [= <-]]]%bind_Some. pose proof Hl as (He & Ha & _).
  assert (layout_inside (Layout 0 (l_align l) [])) as H0 by done.
  destruct (place_spec _ _ _ _ _ _ _ Hr H0 H) as ((He' & Ha' & Hf') & _ & Hd & _).
  split; [simpl; lia|split; [done|]]. simpl. apply Forall_app. split.
  - eapply inside_weaken; eauto. lia.
  - eapply Forall_impl; [exact Hf'|]. intros p [? ?]. split; [done|lia].
Qed.

(** A struct grows by members that do not overlap the earlier ones. *)
Lemma place_sound packed t x bits r l l' :
  sa_ok r → struct_sound l → place packed t x bits r l = Some l' → struct_sound l'.
Proof.
  intros Hr [Hl Hs] H. destruct (place_spec _ _ _ _ _ _ _ Hr Hl H) as (Hl' & _ & _ & Hf).
  split; [done|]. destruct Hf as [->|(p & -> & Hp)]; [done|].
  destruct Hl as (_ & _ & Hl). revert Hs Hl. generalize (l_fields l) as fs. clear -Hp.
  induction 1 as [|q fs _ IH Hq]; intros Hl; simpl; [by repeat constructor|].
  apply Forall_cons in Hl as [[_ Hle] Hl]. constructor; [auto|].
  apply Forall_app. split; [done|]. apply Forall_singleton. unfold placed_before. lia.
Qed.

Section place_all.
Context (sa : cty → option (Z * Z)) (packed : bool).
Context (put : bool → cty → string → option Z → Z * Z → layout → option layout).
Context (P : layout → Prop).
Hypothesis Hsa : ∀ t r, sa t = Some r → sa_ok r.
Hypothesis Hput : ∀ t x bits r l l',
  sa_ok r → P l → put packed t x bits r l = Some l' → P l'.

Lemma place_all_ind fs l l' : P l → place_all sa packed put fs l = Some l' → P l'.
Proof.
  revert l. induction fs as [|[t x bits] fs IH]; intros l Hl H; simplify_eq/=; [done|].
  apply bind_Some in H as (r & Hr & (l1 & H1 & H)%bind_Some). eauto.
Qed.

End place_all.

Lemma empty_layout_sound : struct_sound empty_layout.
Proof. split; [|constructor]. repeat split; simpl; auto with tuner. Qed.

Lemma align_up_nonneg x a : 0 < a → 0 ≤ x → 0 ≤ align_up x a.
Proof. intros. pose proof (align_up_ge x a). lia. Qed.

(** The size of a record is a multiple of its alignment and covers its members. *)
Lemma close_layout_ok l : layout_inside l → sa_ok (close_layout l).
Proof.
  intros (He & Ha & _). pose proof (pow2_pos _ Ha). split; [|split; [done|apply align_up_divide]].
  simpl. apply align_up_nonneg; [done|]. apply Z.div_pos; [|lia].
  by apply align_up_nonneg.
Qed.

Lemma close_layout_covers l : layout_inside l → l_end l ≤ 8 * (close_layout l).1.
Proof.
  intros (He & Ha & _). pose proof (pow2_pos _ Ha). simpl.
  pose proof (align_up_ge (l_end l) 8). destruct (align_up_divide (l_end l) 8) as [k Hk].
  pose proof (align_up_ge (align_up (l_end l) 8 / 8) (l_align l)).
  rewrite Hk, Z.div_mul in * by lia. lia.
Qed.

#[export] Hint Resolve place_inside overlay_inside place_sound empty_layout_sound
  close_layout_ok : tuner.

(** ** The layout of every type is sound *)

Theorem size_align_ok n E t r : size_align n E t = Some r → sa_ok r.
Proof.
  revert t r. induction n as [|n IH]; intros t r H; [done|].
  pose proof empty_layout_sound as [Hemp _].
  assert (∀ p fs l, place_all (size_align n E) p place fs empty_layout = Some l →
    sa_ok (close_layout l)) as Hs.
  { intros p fs l Hl. apply close_layout_ok.
    eapply (place_all_ind _ _ _ layout_inside); eauto using place_inside. }
  assert (∀ p fs l, place_all (size_align n E) p overlay fs empty_layout = Some l →
    sa_ok (close_layout l)) as Hu.
  { intros p fs l Hl. apply close_layout_ok.
    eapply (place_all_ind _ _ _ layout_inside); eauto using overlay_inside. }
  assert (∀ o : option layout, (∀ l, o = Some l → sa_ok (close_layout l)) →
    close_layout <$> o = Some r → sa_ok r) as Hclose.
  { intros o Ho (l & Hl & ->)%fmap_Some. auto. }
  destruct t; simplify_eq/=; eauto using pow2_sa_ok, base_size_pow2, enum_size_pow2;
    try (repeat case_match; simplify_eq; eauto using pow2_sa_ok, enum_size_pow2; fail).
  - apply pow2_sa_ok. pow2_exp 3.
  - apply bind_Some in H as ([s a] & (Hs0 & Ha & Hd)%IH & H). case_match; simplify_eq.
    split; [simpl in *; lia|split; [done|]]. by apply Z.divide_mul_l.
  - apply bind_Some in H as ([s a] & (Hs0 & Ha & Hd)%IH & H). simplify_eq.
    split; [done|split; [done|apply Z.divide_0_r]].
Qed.

(** More fuel does not change a result. *)
Lemma place_all_mono (sa sa' : cty → option (Z * Z)) packed put fs l l' :
  (∀ t r, sa t = Some r → sa' t = Some r) →
  place_all sa packed put fs l = Some l' → place_all sa' packed put fs l = Some l'.
Proof.
  intros Hsa. revert l. induction fs as [|[t x bits] fs IH]; intros l H; simplify_eq/=; [done|].
  apply bind_Some in H as (r & Hr & (l1 & H1 & H)%bind_Some).
  rewrite (Hsa _ _ Hr). simpl. rewrite H1. simpl. auto.
Qed.

Lemma size_align_S n E t r : size_align n E t = Some r → size_align (S n) E t = Some r.
Proof.
  revert t r. induction n as [|n IH]; intros t r H; [done|].
  assert (∀ p put fs, close_layout <$> place_all (size_align n E) p put fs empty_layout = Some r →
    close_layout <$> place_all (size_align (S n) E) p put fs empty_layout = Some r) as Hp.
  { intros p put fs (l & Hl & ->)%fmap_Some. apply fmap_Some. exists l. split; [|done].
    eapply place_all_mono; eauto. }
  remember (S n) as m eqn:Hm. rewrite Hm in H. simpl in *.
  destruct t; auto; try (repeat case_match; auto; fail).
  - apply bind_Some in H as (sa & Hs & H). by rewrite (IH _ _ Hs).
  - apply bind_Some in H as (sa & Hs & H). by rewrite (IH _ _ Hs).
Qed.

Lemma size_align_mono n m E t r :
  (n ≤ m)%nat → size_align n E t = Some r → size_align m E t = Some r.
Proof. induction 1; auto using size_align_S. Qed.

(** Layout of the members of a struct type. *)
Lemma struct_layout_sound n E x p fs l :
  lookup_decl E SStruct x = Some (DStruct p fs) →
  record_layout (S n) E (Struct x) = Some l → struct_sound l.
Proof.
  intros Hd H. simpl in H. rewrite Hd in H.
  eapply (place_all_ind _ _ _ struct_sound); eauto using size_align_ok with tuner.
Qed.

Lemma struct_layout_size n E x l :
  record_layout (S n) E (Struct x) = Some l →
  size_align (S n) E (Struct x) = Some (close_layout l).
Proof. simpl. intros H. case_match; [|done]. case_match; try done. by rewrite H. Qed.

(** A declared struct with a size has a sound layout, which gives that size. *)
Lemma struct_size_layout n E x p fs r :
  lookup_decl E SStruct x = Some (DStruct p fs) →
  size_align (S n) E (Struct x) = Some r →
  ∃ l, record_layout (S n) E (Struct x) = Some l ∧ r = close_layout l ∧ struct_sound l.
Proof.
  intros Hd Hr. pose proof Hr as Hr'. simpl in Hr'. rewrite Hd in Hr'.
  apply fmap_Some in Hr' as (l & Hl & ->).
  assert (record_layout (S n) E (Struct x) = Some l) as Hrl by (simpl; by rewrite Hd).
  eauto using struct_layout_sound.
Qed.

(** In a sound struct two members at different positions do not overlap. *)
Lemma struct_sound_disjoint l i j p q :
  struct_sound l → l_fields l !! i = Some p → l_fields l !! j = Some q → (i < j)%nat →
  placed_before p q.
Proof.
  intros [_ Hs]. revert i j. induction Hs as [|r fs _ IH Hr]; intros i j Hi Hj Hlt; [done|].
  destruct i as [|i], j as [|j]; simplify_eq/=; try lia.
  - rewrite Forall_forall in Hr. apply Hr, list_elem_of_lookup. eauto.
  - apply (IH i j); auto. lia.
Qed.

#[export] Hint Resolve struct_layout_sound size_align_ok : tuner.
