(* ===== verification/VmlinuxTypes.v ===== *)
(** * [vmlinux.h]: typedefs and enumerations

    The scalar typedefs and the enumerations that the records of the other
    [Vmlinux*] files use, and the anonymous enumerations whose constants the
    program uses: the sock_ops operations and callback flags, the map-update
    flags, the TCP states and the BPF-only TCP options. *)
From S2P Require Import Prelude CTypes.
Local Open Scope Z_scope.
Local Open Scope tuner_scope.

Definition enum_sock_ops_cb_flags : list (string * Z) :=
  [
    ("BPF_SOCK_OPS_RTO_CB_FLAG", 1); ("BPF_SOCK_OPS_RETRANS_CB_FLAG", 2);
    ("BPF_SOCK_OPS_STATE_CB_FLAG", 4); ("BPF_SOCK_OPS_RTT_CB_FLAG", 8);
    ("BPF_SOCK_OPS_PARSE_ALL_HDR_OPT_CB_FLAG", 16);
    ("BPF_SOCK_OPS_PARSE_UNKNOWN_HDR_OPT_CB_FLAG", 32);
    ("BPF_SOCK_OPS_WRITE_HDR_OPT_CB_FLAG", 64); ("BPF_SOCK_OPS_ALL_CB_FLAGS", 127)].

Definition enum_sock_ops_op : list (string * Z) :=
  [
    ("BPF_SOCK_OPS_VOID", 0); ("BPF_SOCK_OPS_TIMEOUT_INIT", 1); ("BPF_SOCK_OPS_RWND_INIT", 2);
    ("BPF_SOCK_OPS_TCP_CONNECT_CB", 3); ("BPF_SOCK_OPS_ACTIVE_ESTABLISHED_CB", 4);
    ("BPF_SOCK_OPS_PASSIVE_ESTABLISHED_CB", 5); ("BPF_SOCK_OPS_NEEDS_ECN", 6);
    ("BPF_SOCK_OPS_BASE_RTT", 7); ("BPF_SOCK_OPS_RTO_CB", 8); ("BPF_SOCK_OPS_RETRANS_CB", 9);
    ("BPF_SOCK_OPS_STATE_CB", 10); ("BPF_SOCK_OPS_TCP_LISTEN_CB", 11);
    ("BPF_SOCK_OPS_RTT_CB", 12); ("BPF_SOCK_OPS_PARSE_HDR_OPT_CB", 13);
    ("BPF_SOCK_OPS_HDR_OPT_LEN_CB", 14); ("BPF_SOCK_OPS_WRITE_HDR_OPT_CB", 15);
    ("BPF_SOCK_OPS_TSTAMP_SCHED_CB", 16); ("BPF_SOCK_OPS_TSTAMP_SND_SW_CB", 17);
    ("BPF_SOCK_OPS_TSTAMP_SND_HW_CB", 18); ("BPF_SOCK_OPS_TSTAMP_ACK_CB", 19);
    ("BPF_SOCK_OPS_TSTAMP_SENDMSG_CB", 20)].

Definition enum_map_update_flags : list (string * Z) :=
  [
    ("BPF_ANY", 0); ("BPF_NOEXIST", 1); ("BPF_EXIST", 2); ("BPF_F_LOCK", 4)].

Definition enum_bpf_tcp_state : list (string * Z) :=
  [
    ("BPF_TCP_ESTABLISHED", 1); ("BPF_TCP_SYN_SENT", 2); ("BPF_TCP_SYN_RECV", 3);
    ("BPF_TCP_FIN_WAIT1", 4); ("BPF_TCP_FIN_WAIT2", 5); ("BPF_TCP_TIME_WAIT", 6);
    ("BPF_TCP_CLOSE", 7); ("BPF_TCP_CLOSE_WAIT", 8); ("BPF_TCP_LAST_ACK", 9);
    ("BPF_TCP_LISTEN", 10); ("BPF_TCP_CLOSING", 11); ("BPF_TCP_NEW_SYN_RECV", 12);
    ("BPF_TCP_BOUND_INACTIVE", 13); ("BPF_TCP_MAX_STATES", 14)].

Definition enum_tcp_bpf_option : list (string * Z) :=
  [
    ("TCP_BPF_IW", 1001); ("TCP_BPF_SNDCWND_CLAMP", 1002); ("TCP_BPF_DELACK_MAX", 1003);
    ("TCP_BPF_RTO_MIN", 1004); ("TCP_BPF_SYN", 1005); ("TCP_BPF_SYN_IP", 1006);
    ("TCP_BPF_SYN_MAC", 1007); ("TCP_BPF_SOCK_OPS_CB_FLAGS", 1008); ("SK_BPF_CB_FLAGS", 1009)].

Definition enum_tcp_state : list (string * Z) :=
  [
    ("TCP_ESTABLISHED", 1); ("TCP_SYN_SENT", 2); ("TCP_SYN_RECV", 3); ("TCP_FIN_WAIT1", 4);
    ("TCP_FIN_WAIT2", 5); ("TCP_TIME_WAIT", 6); ("TCP_CLOSE", 7); ("TCP_CLOSE_WAIT", 8);
    ("TCP_LAST_ACK", 9); ("TCP_LISTEN", 10); ("TCP_CLOSING", 11); ("TCP_NEW_SYN_RECV", 12);
    ("TCP_BOUND_INACTIVE", 13); ("TCP_MAX_STATES", 14)].

Definition typedef_socket_state : cdecl :=
  DTypedef (AnonEnum [
    ("SS_FREE", 0); ("SS_UNCONNECTED", 1); ("SS_CONNECTING", 2); ("SS_CONNECTED", 3);
    ("SS_DISCONNECTING", 4)]).

Definition enum_bpf_arg_type : cdecl :=
  DEnum [
    ("ARG_DONTCARE", 0); ("ARG_CONST_MAP_PTR", 1); ("ARG_PTR_TO_MAP_KEY", 2);
    ("ARG_PTR_TO_MAP_VALUE", 3); ("ARG_PTR_TO_MEM", 4); ("ARG_PTR_TO_ARENA", 5);
    ("ARG_CONST_SIZE", 6); ("ARG_CONST_SIZE_OR_ZERO", 7); ("ARG_PTR_TO_CTX", 8);
    ("ARG_ANYTHING", 9); ("ARG_PTR_TO_SPIN_LOCK", 10); ("ARG_PTR_TO_SOCK_COMMON", 11);
    ("ARG_PTR_TO_SOCKET", 12); ("ARG_PTR_TO_BTF_ID", 13); ("ARG_PTR_TO_RINGBUF_MEM", 14);
    ("ARG_CONST_ALLOC_SIZE_OR_ZERO", 15); ("ARG_PTR_TO_BTF_ID_SOCK_COMMON", 16);
    ("ARG_PTR_TO_PERCPU_BTF_ID", 17); ("ARG_PTR_TO_FUNC", 18); ("ARG_PTR_TO_STACK", 19);
    ("ARG_PTR_TO_CONST_STR", 20); ("ARG_PTR_TO_TIMER", 21); ("ARG_KPTR_XCHG_DEST", 22);
    ("ARG_PTR_TO_DYNPTR", 23); ("__BPF_ARG_TYPE_MAX", 24);
    ("ARG_PTR_TO_MAP_VALUE_OR_NULL", 259); ("ARG_PTR_TO_MEM_OR_NULL", 260);
    ("ARG_PTR_TO_CTX_OR_NULL", 264); ("ARG_PTR_TO_SOCKET_OR_NULL", 268);
    ("ARG_PTR_TO_STACK_OR_NULL", 275); ("ARG_PTR_TO_BTF_ID_OR_NULL", 269);
    ("ARG_PTR_TO_UNINIT_MEM", 67141636); ("ARG_PTR_TO_FIXED_SIZE_MEM", 262148);
    ("__BPF_ARG_TYPE_LIMIT", 134217727)].

Definition enum_bpf_attach_type : cdecl :=
  DEnum [
    ("BPF_CGROUP_INET_INGRESS", 0); ("BPF_CGROUP_INET_EGRESS", 1);
    ("BPF_CGROUP_INET_SOCK_CREATE", 2); ("BPF_CGROUP_SOCK_OPS", 3);
    ("BPF_SK_SKB_STREAM_PARSER", 4); ("BPF_SK_SKB_STREAM_VERDICT", 5);
    ("BPF_CGROUP_DEVICE", 6); ("BPF_SK_MSG_VERDICT", 7); ("BPF_CGROUP_INET4_BIND", 8);
    ("BPF_CGROUP_INET6_BIND", 9); ("BPF_CGROUP_INET4_CONNECT", 10);
    ("BPF_CGROUP_INET6_CONNECT", 11); ("BPF_CGROUP_INET4_POST_BIND", 12);
    ("BPF_CGROUP_INET6_POST_BIND", 13); ("BPF_CGROUP_UDP4_SENDMSG", 14);
    ("BPF_CGROUP_UDP6_SENDMSG", 15); ("BPF_LIRC_MODE2", 16); ("BPF_FLOW_DISSECTOR", 17);
    ("BPF_CGROUP_SYSCTL", 18); ("BPF_CGROUP_UDP4_RECVMSG", 19);
    ("BPF_CGROUP_UDP6_RECVMSG", 20); ("BPF_CGROUP_GETSOCKOPT", 21);
    ("BPF_CGROUP_SETSOCKOPT", 22); ("BPF_TRACE_RAW_TP", 23); ("BPF_TRACE_FENTRY", 24);
    ("BPF_TRACE_FEXIT", 25); ("BPF_MODIFY_RETURN", 26); ("BPF_LSM_MAC", 27);
    ("BPF_TRACE_ITER", 28); ("BPF_CGROUP_INET4_GETPEERNAME", 29);
    ("BPF_CGROUP_INET6_GETPEERNAME", 30); ("BPF_CGROUP_INET4_GETSOCKNAME", 31);
    ("BPF_CGROUP_INET6_GETSOCKNAME", 32); ("BPF_XDP_DEVMAP", 33);
    ("BPF_CGROUP_INET_SOCK_RELEASE", 34); ("BPF_XDP_CPUMAP", 35); ("BPF_SK_LOOKUP", 36);
    ("BPF_XDP", 37); ("BPF_SK_SKB_VERDICT", 38); ("BPF_SK_REUSEPORT_SELECT", 39);
    ("BPF_SK_REUSEPORT_SELECT_OR_MIGRATE", 40); ("BPF_PERF_EVENT", 41);
    ("BPF_TRACE_KPROBE_MULTI", 42); ("BPF_LSM_CGROUP", 43); ("BPF_STRUCT_OPS", 44);
    ("BPF_NETFILTER", 45); ("BPF_TCX_INGRESS", 46); ("BPF_TCX_EGRESS", 47);
    ("BPF_TRACE_UPROBE_MULTI", 48); ("BPF_CGROUP_UNIX_CONNECT", 49);
    ("BPF_CGROUP_UNIX_SENDMSG", 50); ("BPF_CGROUP_UNIX_RECVMSG", 51);
    ("BPF_CGROUP_UNIX_GETPEERNAME", 52); ("BPF_CGROUP_UNIX_GETSOCKNAME", 53);
    ("BPF_NETKIT_PRIMARY", 54); ("BPF_NETKIT_PEER", 55); ("BPF_TRACE_KPROBE_SESSION", 56);
    ("BPF_TRACE_UPROBE_SESSION", 57); ("__MAX_BPF_ATTACH_TYPE", 58)].

Definition enum_bpf_func_id : cdecl :=
  DEnum [
    ("BPF_FUNC_unspec", 0); ("BPF_FUNC_map_lookup_elem", 1); ("BPF_FUNC_map_update_elem", 2);
    ("BPF_FUNC_map_delete_elem", 3); ("BPF_FUNC_probe_read", 4); ("BPF_FUNC_ktime_get_ns", 5);
    ("BPF_FUNC_trace_printk", 6); ("BPF_FUNC_get_prandom_u32", 7);
    ("BPF_FUNC_get_smp_processor_id", 8); ("BPF_FUNC_skb_store_bytes", 9);
    ("BPF_FUNC_l3_csum_replace", 10); ("BPF_FUNC_l4_csum_replace", 11);
    ("BPF_FUNC_tail_call", 12); ("BPF_FUNC_clone_redirect", 13);
    ("BPF_FUNC_get_current_pid_tgid", 14); ("BPF_FUNC_get_current_uid_gid", 15);
    ("BPF_FUNC_get_current_comm", 16); ("BPF_FUNC_get_cgroup_classid", 17);
    ("BPF_FUNC_skb_vlan_push", 18); ("BPF_FUNC_skb_vlan_pop", 19);
    ("BPF_FUNC_skb_get_tunnel_key", 20); ("BPF_FUNC_skb_set_tunnel_key", 21);
    ("BPF_FUNC_perf_event_read", 22); ("BPF_FUNC_redirect", 23);
    ("BPF_FUNC_get_route_realm", 24); ("BPF_FUNC_perf_event_output", 25);
    ("BPF_FUNC_skb_load_bytes", 26); ("BPF_FUNC_get_stackid", 27); ("BPF_FUNC_csum_diff", 28);
    ("BPF_FUNC_skb_get_tunnel_opt", 29); ("BPF_FUNC_skb_set_tunnel_opt", 30);
    ("BPF_FUNC_skb_change_proto", 31); ("BPF_FUNC_skb_change_type", 32);
    ("BPF_FUNC_skb_under_cgroup", 33); ("BPF_FUNC_get_hash_recalc", 34);
    ("BPF_FUNC_get_current_task", 35); ("BPF_FUNC_probe_write_user", 36);
    ("BPF_FUNC_current_task_under_cgroup", 37); ("BPF_FUNC_skb_change_tail", 38);
    ("BPF_FUNC_skb_pull_data", 39); ("BPF_FUNC_csum_update", 40);
    ("BPF_FUNC_set_hash_invalid", 41); ("BPF_FUNC_get_numa_node_id", 42);
    ("BPF_FUNC_skb_change_head", 43); ("BPF_FUNC_xdp_adjust_head", 44);
    ("BPF_FUNC_probe_read_str", 45); ("BPF_FUNC_get_socket_cookie", 46);
    ("BPF_FUNC_get_socket_uid", 47); ("BPF_FUNC_set_hash", 48); ("BPF_FUNC_setsockopt", 49);
    ("BPF_FUNC_skb_adjust_room", 50); ("BPF_FUNC_redirect_map", 51);
    ("BPF_FUNC_sk_redirect_map", 52); ("BPF_FUNC_sock_map_update", 53);
    ("BPF_FUNC_xdp_adjust_meta", 54); ("BPF_FUNC_perf_event_read_value", 55);
    ("BPF_FUNC_perf_prog_read_value", 56); ("BPF_FUNC_getsockopt", 57);
    ("BPF_FUNC_override_return", 58); ("BPF_FUNC_sock_ops_cb_flags_set", 59);
    ("BPF_FUNC_msg_redirect_map", 60); ("BPF_FUNC_msg_apply_bytes", 61);
    ("BPF_FUNC_msg_cork_bytes", 62); ("BPF_FUNC_msg_pull_data", 63); ("BPF_FUNC_bind", 64);
    ("BPF_FUNC_xdp_adjust_tail", 65); ("BPF_FUNC_skb_get_xfrm_state", 66);
    ("BPF_FUNC_get_stack", 67); ("BPF_FUNC_skb_load_bytes_relative", 68);
    ("BPF_FUNC_fib_lookup", 69); ("BPF_FUNC_sock_hash_update", 70);
    ("BPF_FUNC_msg_redirect_hash", 71); ("BPF_FUNC_sk_redirect_hash", 72);
    ("BPF_FUNC_lwt_push_encap", 73); ("BPF_FUNC_lwt_seg6_store_bytes", 74);
    ("BPF_FUNC_lwt_seg6_adjust_srh", 75); ("BPF_FUNC_lwt_seg6_action", 76);
    ("BPF_FUNC_rc_repeat", 77); ("BPF_FUNC_rc_keydown", 78); ("BPF_FUNC_skb_cgroup_id", 79);
    ("BPF_FUNC_get_current_cgroup_id", 80); ("BPF_FUNC_get_local_storage", 81);
    ("BPF_FUNC_sk_select_reuseport", 82); ("BPF_FUNC_skb_ancestor_cgroup_id", 83);
    ("BPF_FUNC_sk_lookup_tcp", 84); ("BPF_FUNC_sk_lookup_udp", 85);
    ("BPF_FUNC_sk_release", 86); ("BPF_FUNC_map_push_elem", 87); ("BPF_FUNC_map_pop_elem", 88);
    ("BPF_FUNC_map_peek_elem", 89); ("BPF_FUNC_msg_push_data", 90);
    ("BPF_FUNC_msg_pop_data", 91); ("BPF_FUNC_rc_pointer_rel", 92); ("BPF_FUNC_spin_lock", 93);
    ("BPF_FUNC_spin_unlock", 94); ("BPF_FUNC_sk_fullsock", 95); ("BPF_FUNC_tcp_sock", 96);
    ("BPF_FUNC_skb_ecn_set_ce", 97); ("BPF_FUNC_get_listener_sock", 98);
    ("BPF_FUNC_skc_lookup_tcp", 99); ("BPF_FUNC_tcp_check_syncookie", 100);
    ("BPF_FUNC_sysctl_get_name", 101); ("BPF_FUNC_sysctl_get_current_value", 102);
    ("BPF_FUNC_sysctl_get_new_value", 103); ("BPF_FUNC_sysctl_set_new_value", 104);
    ("BPF_FUNC_strtol", 105); ("BPF_FUNC_strtoul", 106); ("BPF_FUNC_sk_storage_get", 107);
    ("BPF_FUNC_sk_storage_delete", 108); ("BPF_FUNC_send_signal", 109);
    ("BPF_FUNC_tcp_gen_syncookie", 110); ("BPF_FUNC_skb_output", 111);
    ("BPF_FUNC_probe_read_user", 112); ("BPF_FUNC_probe_read_kernel", 113);
    ("BPF_FUNC_probe_read_user_str", 114); ("BPF_FUNC_probe_read_kernel_str", 115);
    ("BPF_FUNC_tcp_send_ack", 116); ("BPF_FUNC_send_signal_thread", 117);
    ("BPF_FUNC_jiffies64", 118); ("BPF_FUNC_read_branch_records", 119);
    ("BPF_FUNC_get_ns_current_pid_tgid", 120); ("BPF_FUNC_xdp_output", 121);
    ("BPF_FUNC_get_netns_cookie", 122); ("BPF_FUNC_get_current_ancestor_cgroup_id", 123);
    ("BPF_FUNC_sk_assign", 124); ("BPF_FUNC_ktime_get_boot_ns", 125);
    ("BPF_FUNC_seq_printf", 126); ("BPF_FUNC_seq_write", 127); ("BPF_FUNC_sk_cgroup_id", 128);
    ("BPF_FUNC_sk_ancestor_cgroup_id", 129); ("BPF_FUNC_ringbuf_output", 130);
    ("BPF_FUNC_ringbuf_reserve", 131); ("BPF_FUNC_ringbuf_submit", 132);
    ("BPF_FUNC_ringbuf_discard", 133); ("BPF_FUNC_ringbuf_query", 134);
    ("BPF_FUNC_csum_level", 135); ("BPF_FUNC_skc_to_tcp6_sock", 136);
    ("BPF_FUNC_skc_to_tcp_sock", 137); ("BPF_FUNC_skc_to_tcp_timewait_sock", 138);
    ("BPF_FUNC_skc_to_tcp_request_sock", 139); ("BPF_FUNC_skc_to_udp6_sock", 140);
    ("BPF_FUNC_get_task_stack", 141); ("BPF_FUNC_load_hdr_opt", 142);
    ("BPF_FUNC_store_hdr_opt", 143); ("BPF_FUNC_reserve_hdr_opt", 144);
    ("BPF_FUNC_inode_storage_get", 145); ("BPF_FUNC_inode_storage_delete", 146);
    ("BPF_FUNC_d_path", 147); ("BPF_FUNC_copy_from_user", 148); ("BPF_FUNC_snprintf_btf", 149);
    ("BPF_FUNC_seq_printf_btf", 150); ("BPF_FUNC_skb_cgroup_classid", 151);
    ("BPF_FUNC_redirect_neigh", 152); ("BPF_FUNC_per_cpu_ptr", 153);
    ("BPF_FUNC_this_cpu_ptr", 154); ("BPF_FUNC_redirect_peer", 155);
    ("BPF_FUNC_task_storage_get", 156); ("BPF_FUNC_task_storage_delete", 157);
    ("BPF_FUNC_get_current_task_btf", 158); ("BPF_FUNC_bprm_opts_set", 159);
    ("BPF_FUNC_ktime_get_coarse_ns", 160); ("BPF_FUNC_ima_inode_hash", 161);
    ("BPF_FUNC_sock_from_file", 162); ("BPF_FUNC_check_mtu", 163);
    ("BPF_FUNC_for_each_map_elem", 164); ("BPF_FUNC_snprintf", 165); ("BPF_FUNC_sys_bpf", 166);
    ("BPF_FUNC_btf_find_by_name_kind", 167); ("BPF_FUNC_sys_close", 168);
    ("BPF_FUNC_timer_init", 169); ("BPF_FUNC_timer_set_callback", 170);
    ("BPF_FUNC_timer_start", 171); ("BPF_FUNC_timer_cancel", 172);
    ("BPF_FUNC_get_func_ip", 173); ("BPF_FUNC_get_attach_cookie", 174);
    ("BPF_FUNC_task_pt_regs", 175); ("BPF_FUNC_get_branch_snapshot", 176);
    ("BPF_FUNC_trace_vprintk", 177); ("BPF_FUNC_skc_to_unix_sock", 178);
    ("BPF_FUNC_kallsyms_lookup_name", 179); ("BPF_FUNC_find_vma", 180); ("BPF_FUNC_loop", 181);
    ("BPF_FUNC_strncmp", 182); ("BPF_FUNC_get_func_arg", 183); ("BPF_FUNC_get_func_ret", 184);
    ("BPF_FUNC_get_func_arg_cnt", 185); ("BPF_FUNC_get_retval", 186);
    ("BPF_FUNC_set_retval", 187); ("BPF_FUNC_xdp_get_buff_len", 188);
    ("BPF_FUNC_xdp_load_bytes", 189); ("BPF_FUNC_xdp_store_bytes", 190);
    ("BPF_FUNC_copy_from_user_task", 191); ("BPF_FUNC_skb_set_tstamp", 192);
    ("BPF_FUNC_ima_file_hash", 193); ("BPF_FUNC_kptr_xchg", 194);
    ("BPF_FUNC_map_lookup_percpu_elem", 195); ("BPF_FUNC_skc_to_mptcp_sock", 196);
    ("BPF_FUNC_dynptr_from_mem", 197); ("BPF_FUNC_ringbuf_reserve_dynptr", 198);
    ("BPF_FUNC_ringbuf_submit_dynptr", 199); ("BPF_FUNC_ringbuf_discard_dynptr", 200);
    ("BPF_FUNC_dynptr_read", 201); ("BPF_FUNC_dynptr_write", 202);
    ("BPF_FUNC_dynptr_data", 203); ("BPF_FUNC_tcp_raw_gen_syncookie_ipv4", 204);
    ("BPF_FUNC_tcp_raw_gen_syncookie_ipv6", 205);
    ("BPF_FUNC_tcp_raw_check_syncookie_ipv4", 206);
    ("BPF_FUNC_tcp_raw_check_syncookie_ipv6", 207); ("BPF_FUNC_ktime_get_tai_ns", 208);
    ("BPF_FUNC_user_ringbuf_drain", 209); ("BPF_FUNC_cgrp_storage_get", 210);
    ("BPF_FUNC_cgrp_storage_delete", 211); ("__BPF_FUNC_MAX_ID", 212)].

Definition enum_bpf_link_type : cdecl :=
  DEnum [
    ("BPF_LINK_TYPE_UNSPEC", 0); ("BPF_LINK_TYPE_RAW_TRACEPOINT", 1);
    ("BPF_LINK_TYPE_TRACING", 2); ("BPF_LINK_TYPE_CGROUP", 3); ("BPF_LINK_TYPE_ITER", 4);
    ("BPF_LINK_TYPE_NETNS", 5); ("BPF_LINK_TYPE_XDP", 6); ("BPF_LINK_TYPE_PERF_EVENT", 7);
    ("BPF_LINK_TYPE_KPROBE_MULTI", 8); ("BPF_LINK_TYPE_STRUCT_OPS", 9);
    ("BPF_LINK_TYPE_NETFILTER", 10); ("BPF_LINK_TYPE_TCX", 11);
    ("BPF_LINK_TYPE_UPROBE_MULTI", 12); ("BPF_LINK_TYPE_NETKIT", 13);
    ("BPF_LINK_TYPE_SOCKMAP", 14); ("__MAX_BPF_LINK_TYPE", 15)].

Definition enum_bpf_map_type : cdecl :=
  DEnum [
    ("BPF_MAP_TYPE_UNSPEC", 0); ("BPF_MAP_TYPE_HASH", 1); ("BPF_MAP_TYPE_ARRAY", 2);
    ("BPF_MAP_TYPE_PROG_ARRAY", 3); ("BPF_MAP_TYPE_PERF_EVENT_ARRAY", 4);
    ("BPF_MAP_TYPE_PERCPU_HASH", 5); ("BPF_MAP_TYPE_PERCPU_ARRAY", 6);
    ("BPF_MAP_TYPE_STACK_TRACE", 7); ("BPF_MAP_TYPE_CGROUP_ARRAY", 8);
    ("BPF_MAP_TYPE_LRU_HASH", 9); ("BPF_MAP_TYPE_LRU_PERCPU_HASH", 10);
    ("BPF_MAP_TYPE_LPM_TRIE", 11); ("BPF_MAP_TYPE_ARRAY_OF_MAPS", 12);
    ("BPF_MAP_TYPE_HASH_OF_MAPS", 13); ("BPF_MAP_TYPE_DEVMAP", 14);
    ("BPF_MAP_TYPE_SOCKMAP", 15); ("BPF_MAP_TYPE_CPUMAP", 16); ("BPF_MAP_TYPE_XSKMAP", 17);
    ("BPF_MAP_TYPE_SOCKHASH", 18); ("BPF_MAP_TYPE_CGROUP_STORAGE_DEPRECATED", 19);
    ("BPF_MAP_TYPE_CGROUP_STORAGE", 19); ("BPF_MAP_TYPE_REUSEPORT_SOCKARRAY", 20);
    ("BPF_MAP_TYPE_PERCPU_CGROUP_STORAGE_DEPRECATED", 21);
    ("BPF_MAP_TYPE_PERCPU_CGROUP_STORAGE", 21); ("BPF_MAP_TYPE_QUEUE", 22);
    ("BPF_MAP_TYPE_STACK", 23); ("BPF_MAP_TYPE_SK_STORAGE", 24);
    ("BPF_MAP_TYPE_DEVMAP_HASH", 25); ("BPF_MAP_TYPE_STRUCT_OPS", 26);
    ("BPF_MAP_TYPE_RINGBUF", 27); ("BPF_MAP_TYPE_INODE_STORAGE", 28);
    ("BPF_MAP_TYPE_TASK_STORAGE", 29); ("BPF_MAP_TYPE_BLOOM_FILTER", 30);
    ("BPF_MAP_TYPE_USER_RINGBUF", 31); ("BPF_MAP_TYPE_CGRP_STORAGE", 32);
    ("BPF_MAP_TYPE_ARENA", 33); ("__MAX_BPF_MAP_TYPE", 34)].

Definition enum_bpf_prog_type : cdecl :=
  DEnum [
    ("BPF_PROG_TYPE_UNSPEC", 0); ("BPF_PROG_TYPE_SOCKET_FILTER", 1);
    ("BPF_PROG_TYPE_KPROBE", 2); ("BPF_PROG_TYPE_SCHED_CLS", 3);
    ("BPF_PROG_TYPE_SCHED_ACT", 4); ("BPF_PROG_TYPE_TRACEPOINT", 5); ("BPF_PROG_TYPE_XDP", 6);
    ("BPF_PROG_TYPE_PERF_EVENT", 7); ("BPF_PROG_TYPE_CGROUP_SKB", 8);
    ("BPF_PROG_TYPE_CGROUP_SOCK", 9); ("BPF_PROG_TYPE_LWT_IN", 10);
    ("BPF_PROG_TYPE_LWT_OUT", 11); ("BPF_PROG_TYPE_LWT_XMIT", 12);
    ("BPF_PROG_TYPE_SOCK_OPS", 13); ("BPF_PROG_TYPE_SK_SKB", 14);
    ("BPF_PROG_TYPE_CGROUP_DEVICE", 15); ("BPF_PROG_TYPE_SK_MSG", 16);
    ("BPF_PROG_TYPE_RAW_TRACEPOINT", 17); ("BPF_PROG_TYPE_CGROUP_SOCK_ADDR", 18);
    ("BPF_PROG_TYPE_LWT_SEG6LOCAL", 19); ("BPF_PROG_TYPE_LIRC_MODE2", 20);
    ("BPF_PROG_TYPE_SK_REUSEPORT", 21); ("BPF_PROG_TYPE_FLOW_DISSECTOR", 22);
    ("BPF_PROG_TYPE_CGROUP_SYSCTL", 23); ("BPF_PROG_TYPE_RAW_TRACEPOINT_WRITABLE", 24);
    ("BPF_PROG_TYPE_CGROUP_SOCKOPT", 25); ("BPF_PROG_TYPE_TRACING", 26);
    ("BPF_PROG_TYPE_STRUCT_OPS", 27); ("BPF_PROG_TYPE_EXT", 28); ("BPF_PROG_TYPE_LSM", 29);
    ("BPF_PROG_TYPE_SK_LOOKUP", 30); ("BPF_PROG_TYPE_SYSCALL", 31);
    ("BPF_PROG_TYPE_NETFILTER", 32); ("__MAX_BPF_PROG_TYPE", 33)].

Definition enum_bpf_return_type : cdecl :=
  DEnum [
    ("RET_INTEGER", 0); ("RET_VOID", 1); ("RET_PTR_TO_MAP_VALUE", 2); ("RET_PTR_TO_SOCKET", 3);
    ("RET_PTR_TO_TCP_SOCK", 4); ("RET_PTR_TO_SOCK_COMMON", 5); ("RET_PTR_TO_MEM", 6);
    ("RET_PTR_TO_MEM_OR_BTF_ID", 7); ("RET_PTR_TO_BTF_ID", 8); ("__BPF_RET_TYPE_MAX", 9);
    ("RET_PTR_TO_MAP_VALUE_OR_NULL", 258); ("RET_PTR_TO_SOCKET_OR_NULL", 259);
    ("RET_PTR_TO_TCP_SOCK_OR_NULL", 260); ("RET_PTR_TO_SOCK_COMMON_OR_NULL", 261);
    ("RET_PTR_TO_RINGBUF_MEM_OR_NULL", 1286); ("RET_PTR_TO_DYNPTR_MEM_OR_NULL", 262);
    ("RET_PTR_TO_BTF_ID_OR_NULL", 264); ("RET_PTR_TO_BTF_ID_TRUSTED", 1048584);
    ("__BPF_RET_TYPE_LIMIT", 134217727)].

Definition enum_timespec_type : cdecl :=
  DEnum [
    ("TT_NONE", 0); ("TT_NATIVE", 1); ("TT_COMPAT", 2)].

Definition enum_vtime_state : cdecl :=
  DEnum [
    ("VTIME_INACTIVE", 0); ("VTIME_IDLE", 1); ("VTIME_SYS", 2); ("VTIME_USER", 3);
    ("VTIME_GUEST", 4)].

Definition typedef_bool : cdecl :=
  DTypedef c_bool.

Definition typedef___kernel_clockid_t : cdecl :=
  DTypedef c_int.

Definition typedef___kernel_pid_t : cdecl :=
  DTypedef c_int.

Definition typedef___s32 : cdecl :=
  DTypedef c_int.

Definition typedef_clockid_t : cdecl :=
  DTypedef (Name "__kernel_clockid_t").

Definition typedef_s32 : cdecl :=
  DTypedef (Name "__s32").

Definition typedef_pid_t : cdecl :=
  DTypedef (Name "__kernel_pid_t").

Definition typedef___s64 : cdecl :=
  DTypedef c_llong.

Definition typedef_s64 : cdecl :=
  DTypedef (Name "__s64").

Definition typedef_ktime_t : cdecl :=
  DTypedef (Name "s64").

Definition typedef___u64 : cdecl :=
  DTypedef c_ullong.

Definition typedef_u64 : cdecl :=
  DTypedef (Name "__u64").

Definition typedef___addrpair : cdecl :=
  DTypedef (Name "__u64").

Definition typedef___be64 : cdecl :=
  DTypedef (Name "__u64").

Definition typedef_netdev_features_t : cdecl :=
  DTypedef (Name "u64").

Definition typedef___kernel_ulong_t : cdecl :=
  DTypedef c_ulong.

Definition typedef___kernel_size_t : cdecl :=
  DTypedef (Name "__kernel_ulong_t").

Definition typedef_size_t : cdecl :=
  DTypedef (Name "__kernel_size_t").

Definition typedef___s16 : cdecl :=
  DTypedef c_short.

Definition typedef_s16 : cdecl :=
  DTypedef (Name "__s16").

Definition typedef___u16 : cdecl :=
  DTypedef c_ushort.

Definition typedef_u16 : cdecl :=
  DTypedef (Name "__u16").

Definition typedef___be16 : cdecl :=
  DTypedef (Name "__u16").

Definition typedef___u8 : cdecl :=
  DTypedef c_uchar.

Definition typedef_u8 : cdecl :=
  DTypedef (Name "__u8").

Definition typedef___u32 : cdecl :=
  DTypedef c_uint.

Definition typedef_u32 : cdecl :=
  DTypedef (Name "__u32").

Definition typedef___be32 : cdecl :=
  DTypedef (Name "__u32").

Definition typedef___kernel_gid32_t : cdecl :=
  DTypedef c_uint.

Definition typedef___kernel_uid32_t : cdecl :=
  DTypedef c_uint.

Definition typedef___portpair : cdecl :=
  DTypedef (Name "__u32").

Definition typedef___wsum : cdecl :=
  DTypedef (Name "__u32").

Definition typedef_gfp_t : cdecl :=
  DTypedef c_uint.

Definition typedef_gid_t : cdecl :=
  DTypedef (Name "__kernel_gid32_t").

Definition typedef_sk_buff_data_t : cdecl :=
  DTypedef c_uint.

Definition typedef_slab_flags_t : cdecl :=
  DTypedef c_uint.

Definition typedef_uid_t : cdecl :=
  DTypedef (Name "__kernel_uid32_t").

Definition typedef_atomic_long_t : cdecl :=
  DTypedef (Name "atomic64_t").

Definition typedef_raw_spinlock_t : cdecl :=
  DTypedef (Struct "raw_spinlock").

Definition typedef_arch_spinlock_t : cdecl :=
  DTypedef (Struct "qspinlock").

Definition typedef_arch_rwlock_t : cdecl :=
  DTypedef (Struct "qrwlock").

Definition typedef_spinlock_t : cdecl :=
  DTypedef (Struct "spinlock").

Definition typedef_seqcount_t : cdecl :=
  DTypedef (Struct "seqcount").

Definition typedef_seqcount_spinlock_t : cdecl :=
  DTypedef (Struct "seqcount_spinlock").

Definition typedef_wait_queue_head_t : cdecl :=
  DTypedef (Struct "wait_queue_head").

Definition typedef_refcount_t : cdecl :=
  DTypedef (Struct "refcount_struct").

Definition typedef_work_func_t : cdecl :=
  DTypedef (Ptr (Fun Void [Ptr (Struct "work_struct")])).

Definition typedef_cpumask_t : cdecl :=
  DTypedef (Struct "cpumask").

Definition typedef_del_from_htab_func : cdecl :=
  DTypedef (Ptr (Fun (Name "bool") [Ptr Void; Ptr (Struct "bpf_lru_node")])).

Definition typedef_dl_server_pick_f : cdecl :=
  DTypedef (Ptr (Fun (Ptr (Struct "task_struct")) [Ptr (Struct "sched_dl_entity")])).

(** The declarations of this file, by name. *)
Definition env_types : cenv := [
  ((STypedef, "socket_state"), typedef_socket_state);
  ((SEnum, "bpf_arg_type"), enum_bpf_arg_type);
  ((SEnum, "bpf_attach_type"), enum_bpf_attach_type);
  ((SEnum, "bpf_func_id"), enum_bpf_func_id);
  ((SEnum, "bpf_link_type"), enum_bpf_link_type);
  ((SEnum, "bpf_map_type"), enum_bpf_map_type);
  ((SEnum, "bpf_prog_type"), enum_bpf_prog_type);
  ((SEnum, "bpf_return_type"), enum_bpf_return_type);
  ((SEnum, "timespec_type"), enum_timespec_type);
  ((SEnum, "vtime_state"), enum_vtime_state);
  ((STypedef, "bool"), typedef_bool);
  ((STypedef, "__kernel_clockid_t"), typedef___kernel_clockid_t);
  ((STypedef, "__kernel_pid_t"), typedef___kernel_pid_t);
  ((STypedef, "__s32"), typedef___s32);
  ((STypedef, "clockid_t"), typedef_clockid_t);
  ((STypedef, "s32"), typedef_s32);
  ((STypedef, "pid_t"), typedef_pid_t);
  ((STypedef, "__s64"), typedef___s64);
  ((STypedef, "s64"), typedef_s64);
  ((STypedef, "ktime_t"), typedef_ktime_t);
  ((STypedef, "__u64"), typedef___u64);
  ((STypedef, "u64"), typedef_u64);
  ((STypedef, "__addrpair"), typedef___addrpair);
  ((STypedef, "__be64"), typedef___be64);
  ((STypedef, "netdev_features_t"), typedef_netdev_features_t);
  ((STypedef, "__kernel_ulong_t"), typedef___kernel_ulong_t);
  ((STypedef, "__kernel_size_t"), typedef___kernel_size_t);
  ((STypedef, "size_t"), typedef_size_t);
  ((STypedef, "__s16"), typedef___s16);
  ((STypedef, "s16"), typedef_s16);
  ((STypedef, "__u16"), typedef___u16);
  ((STypedef, "u16"), typedef_u16);
  ((STypedef, "__be16"), typedef___be16);
  ((STypedef, "__u8"), typedef___u8);
  ((STypedef, "u8"), typedef_u8);
  ((STypedef, "__u32"), typedef___u32);
  ((STypedef, "u32"), typedef_u32);
  ((STypedef, "__be32"), typedef___be32);
  ((STypedef, "__kernel_gid32_t"), typedef___kernel_gid32_t);
  ((STypedef, "__kernel_uid32_t"), typedef___kernel_uid32_t);
  ((STypedef, "__portpair"), typedef___portpair);
  ((STypedef, "__wsum"), typedef___wsum);
  ((STypedef, "gfp_t"), typedef_gfp_t);
  ((STypedef, "gid_t"), typedef_gid_t);
  ((STypedef, "sk_buff_data_t"), typedef_sk_buff_data_t);
  ((STypedef, "slab_flags_t"), typedef_slab_flags_t);
  ((STypedef, "uid_t"), typedef_uid_t);
  ((STypedef, "atomic_long_t"), typedef_atomic_long_t);
  ((STypedef, "raw_spinlock_t"), typedef_raw_spinlock_t);
  ((STypedef, "arch_spinlock_t"), typedef_arch_spinlock_t);
  ((STypedef, "arch_rwlock_t"), typedef_arch_rwlock_t);
  ((STypedef, "spinlock_t"), typedef_spinlock_t);
  ((STypedef, "seqcount_t"), typedef_seqcount_t);
  ((STypedef, "seqcount_spinlock_t"), typedef_seqcount_spinlock_t);
  ((STypedef, "wait_queue_head_t"), typedef_wait_queue_head_t);
  ((STypedef, "refcount_t"), typedef_refcount_t);
  ((STypedef, "work_func_t"), typedef_work_func_t);
  ((STypedef, "cpumask_t"), typedef_cpumask_t);
  ((STypedef, "del_from_htab_func"), typedef_del_from_htab_func);
  ((STypedef, "dl_server_pick_f"), typedef_dl_server_pick_f)].
