(* ===== verification/VmlinuxSock.v ===== *)
(** * [vmlinux.h]: the sock_ops context, sockets and TCP

    The program's context [struct bpf_sock_ops], its kernel counterpart
    [struct bpf_sock_ops_kern], and the socket it points to: [struct tcp_sock]
    and everything it holds by value, socket buffers, protocol operations and
    congestion control. *)
From S2P Require Import Prelude CTypes.
Local Open Scope Z_scope.
Local Open Scope tuner_scope.

Definition struct_bpf_sock_ops : cdecl :=
  DStruct false [
    Name "__u32" ⊳ "op";
    anon (AnonUnion [
      Arr (Name "__u32") 4 ⊳ "args";
      Name "__u32" ⊳ "reply";
      Arr (Name "__u32") 4 ⊳ "replylong"]);
    Name "__u32" ⊳ "family";
    Name "__u32" ⊳ "remote_ip4";
    Name "__u32" ⊳ "local_ip4";
    Arr (Name "__u32") 4 ⊳ "remote_ip6";
    Arr (Name "__u32") 4 ⊳ "local_ip6";
    Name "__u32" ⊳ "remote_port";
    Name "__u32" ⊳ "local_port";
    Name "__u32" ⊳ "is_fullsock";
    Name "__u32" ⊳ "snd_cwnd";
    Name "__u32" ⊳ "srtt_us";
    Name "__u32" ⊳ "bpf_sock_ops_cb_flags";
    Name "__u32" ⊳ "state";
    Name "__u32" ⊳ "rtt_min";
    Name "__u32" ⊳ "snd_ssthresh";
    Name "__u32" ⊳ "rcv_nxt";
    Name "__u32" ⊳ "snd_nxt";
    Name "__u32" ⊳ "snd_una";
    Name "__u32" ⊳ "mss_cache";
    Name "__u32" ⊳ "ecn_flags";
    Name "__u32" ⊳ "rate_delivered";
    Name "__u32" ⊳ "rate_interval_us";
    Name "__u32" ⊳ "packets_out";
    Name "__u32" ⊳ "retrans_out";
    Name "__u32" ⊳ "total_retrans";
    Name "__u32" ⊳ "segs_in";
    Name "__u32" ⊳ "data_segs_in";
    Name "__u32" ⊳ "segs_out";
    Name "__u32" ⊳ "data_segs_out";
    Name "__u32" ⊳ "lost_out";
    Name "__u32" ⊳ "sacked_out";
    Name "__u32" ⊳ "sk_txhash";
    Name "__u64" ⊳ "bytes_received";
    Name "__u64" ⊳ "bytes_acked";
    anon (AnonUnion [
      Ptr (Struct "bpf_sock") ⊳ "sk"]);
    anon (AnonUnion [
      Ptr Void ⊳ "skb_data"]);
    anon (AnonUnion [
      Ptr Void ⊳ "skb_data_end"]);
    Name "__u32" ⊳ "skb_len";
    Name "__u32" ⊳ "skb_tcp_flags";
    Name "__u64" ⊳ "skb_hwtstamp"].

Definition struct_bpf_sock_ops_kern : cdecl :=
  DStruct false [
    Ptr (Struct "sock") ⊳ "sk";
    anon (AnonUnion [
      Arr (Name "u32") 4 ⊳ "args";
      Name "u32" ⊳ "reply";
      Arr (Name "u32") 4 ⊳ "replylong"]);
    Ptr (Struct "sk_buff") ⊳ "syn_skb";
    Ptr (Struct "sk_buff") ⊳ "skb";
    Ptr Void ⊳ "skb_data_end";
    Name "u8" ⊳ "op";
    Name "u8" ⊳ "is_fullsock";
    Name "u8" ⊳ "is_locked_tcp_sock";
    Name "u8" ⊳ "remaining_opt_len";
    Name "u64" ⊳ "temp"].

Definition struct_bpf_sock : cdecl :=
  DStruct false [
    Name "__u32" ⊳ "bound_dev_if";
    Name "__u32" ⊳ "family";
    Name "__u32" ⊳ "type";
    Name "__u32" ⊳ "protocol";
    Name "__u32" ⊳ "mark";
    Name "__u32" ⊳ "priority";
    Name "__u32" ⊳ "src_ip4";
    Arr (Name "__u32") 4 ⊳ "src_ip6";
    Name "__u32" ⊳ "src_port";
    Name "__be16" ⊳ "dst_port";
    Name "__u32" ⊳ "dst_ip4";
    Arr (Name "__u32") 4 ⊳ "dst_ip6";
    Name "__u32" ⊳ "state";
    Name "__s32" ⊳ "rx_queue_mapping"].

Definition struct_tcp_sock : cdecl :=
  DStruct false [
    Struct "inet_connection_sock" ⊳ "inet_conn";
    Arr (Name "__u8") 0 ⊳ "__cacheline_group_begin__tcp_sock_read_tx";
    Name "u32" ⊳ "max_window";
    Name "u32" ⊳ "rcv_ssthresh";
    Name "u32" ⊳ "reordering";
    Name "u32" ⊳ "notsent_lowat";
    Name "u16" ⊳ "gso_segs";
    Ptr (Struct "sk_buff") ⊳ "retransmit_skb_hint";
    Arr (Name "__u8") 0 ⊳ "__cacheline_group_end__tcp_sock_read_tx";
    Arr (Name "__u8") 0 ⊳ "__cacheline_group_begin__tcp_sock_read_txrx";
    Name "u32" ⊳ "tsoffset";
    Name "u32" ⊳ "snd_wnd";
    Name "u32" ⊳ "mss_cache";
    Name "u32" ⊳ "snd_cwnd";
    Name "u32" ⊳ "prr_out";
    Name "u32" ⊳ "lost_out";
    Name "u32" ⊳ "sacked_out";
    Name "u16" ⊳ "tcp_header_len";
    Name "u8" ⊳ "scaling_ratio";
    bitfield (Name "u8") "chrono_type" 2;
    bitfield (Name "u8") "repair" 1;
    bitfield (Name "u8") "tcp_usec_ts" 1;
    bitfield (Name "u8") "is_sack_reneg" 1;
    bitfield (Name "u8") "is_cwnd_limited" 1;
    Arr (Name "__u8") 0 ⊳ "__cacheline_group_end__tcp_sock_read_txrx";
    Arr (Name "__u8") 0 ⊳ "__cacheline_group_begin__tcp_sock_read_rx";
    Name "u32" ⊳ "copied_seq";
    Name "u32" ⊳ "rcv_tstamp";
    Name "u32" ⊳ "snd_wl1";
    Name "u32" ⊳ "tlp_high_seq";
    Name "u32" ⊳ "rttvar_us";
    Name "u32" ⊳ "retrans_out";
    Name "u16" ⊳ "advmss";
    Name "u16" ⊳ "urg_data";
    Name "u32" ⊳ "lost";
    Struct "minmax" ⊳ "rtt_min";
    Struct "rb_root" ⊳ "out_of_order_queue";
    Ptr (Fun Void [Ptr (Struct "sock"); Name "u32"]) ⊳ "tcp_clean_acked";
    Name "u32" ⊳ "snd_ssthresh";
    bitfield (Name "u8") "recvmsg_inq" 1;
    Arr (Name "__u8") 0 ⊳ "__cacheline_group_end__tcp_sock_read_rx";
    pad c_long 64;
    pad c_long 64;
    pad c_long 64;
    pad c_long 64;
    pad c_long 64;
    pad c_long 64;
    pad c_long 64;
    Arr (Name "__u8") 0 ⊳ "__cacheline_group_begin__tcp_sock_write_tx";
    Name "u32" ⊳ "segs_out";
    Name "u32" ⊳ "data_segs_out";
    Name "u64" ⊳ "bytes_sent";
    Name "u32" ⊳ "snd_sml";
    Name "u32" ⊳ "chrono_start";
    Arr (Name "u32") 3 ⊳ "chrono_stat";
    Name "u32" ⊳ "write_seq";
    Name "u32" ⊳ "pushed_seq";
    Name "u32" ⊳ "lsndtime";
    Name "u32" ⊳ "mdev_us";
    Name "u32" ⊳ "rtt_seq";
    Name "u64" ⊳ "tcp_wstamp_ns";
    Struct "list_head" ⊳ "tsorted_sent_queue";
    Ptr (Struct "sk_buff") ⊳ "highest_sack";
    Name "u8" ⊳ "ecn_flags";
    Arr (Name "__u8") 0 ⊳ "__cacheline_group_end__tcp_sock_write_tx";
    Arr (Name "__u8") 0 ⊳ "__cacheline_group_begin__tcp_sock_write_txrx";
    Name "__be32" ⊳ "pred_flags";
    Name "u64" ⊳ "tcp_clock_cache";
    Name "u64" ⊳ "tcp_mstamp";
    Name "u32" ⊳ "rcv_nxt";
    Name "u32" ⊳ "snd_nxt";
    Name "u32" ⊳ "snd_una";
    Name "u32" ⊳ "window_clamp";
    Name "u32" ⊳ "srtt_us";
    Name "u32" ⊳ "packets_out";
    Name "u32" ⊳ "snd_up";
    Name "u32" ⊳ "delivered";
    Name "u32" ⊳ "delivered_ce";
    Name "u32" ⊳ "app_limited";
    Name "u32" ⊳ "rcv_wnd";
    Struct "tcp_options_received" ⊳ "rx_opt";
    bitfield (Name "u8") "nonagle" 4;
    bitfield (Name "u8") "rate_app_limited" 1;
    Arr (Name "__u8") 0 ⊳ "__cacheline_group_end__tcp_sock_write_txrx";
    pad c_long 0;
    Arr (Name "__u8") 0 ⊳ "__cacheline_group_begin__tcp_sock_write_rx";
    Name "u64" ⊳ "bytes_received";
    Name "u32" ⊳ "segs_in";
    Name "u32" ⊳ "data_segs_in";
    Name "u32" ⊳ "rcv_wup";
    Name "u32" ⊳ "max_packets_out";
    Name "u32" ⊳ "cwnd_usage_seq";
    Name "u32" ⊳ "rate_delivered";
    Name "u32" ⊳ "rate_interval_us";
    Name "u32" ⊳ "rcv_rtt_last_tsecr";
    Name "u64" ⊳ "first_tx_mstamp";
    Name "u64" ⊳ "delivered_mstamp";
    Name "u64" ⊳ "bytes_acked";
    AnonStruct [
      Name "u32" ⊳ "rtt_us";
      Name "u32" ⊳ "seq";
      Name "u64" ⊳ "time"] ⊳ "rcv_rtt_est";
    AnonStruct [
      c_int ⊳ "space";
      Name "u32" ⊳ "seq";
      Name "u64" ⊳ "time"] ⊳ "rcvq_space";
    Arr (Name "__u8") 0 ⊳ "__cacheline_group_end__tcp_sock_write_rx";
    Name "u32" ⊳ "dsack_dups";
    Name "u32" ⊳ "compressed_ack_rcv_nxt";
    Struct "list_head" ⊳ "tsq_node";
    Struct "tcp_rack" ⊳ "rack";
    Name "u8" ⊳ "compressed_ack";
    bitfield (Name "u8") "dup_ack_counter" 2;
    bitfield (Name "u8") "tlp_retrans" 1;
    bitfield (Name "u8") "unused" 5;
    bitfield (Name "u8") "thin_lto" 1;
    bitfield (Name "u8") "fastopen_connect" 1;
    bitfield (Name "u8") "fastopen_no_cookie" 1;
    bitfield (Name "u8") "fastopen_client_fail" 2;
    bitfield (Name "u8") "frto" 1;
    Name "u8" ⊳ "repair_queue";
    bitfield (Name "u8") "save_syn" 2;
    bitfield (Name "u8") "syn_data" 1;
    bitfield (Name "u8") "syn_fastopen" 1;
    bitfield (Name "u8") "syn_fastopen_exp" 1;
    bitfield (Name "u8") "syn_fastopen_ch" 1;
    bitfield (Name "u8") "syn_data_acked" 1;
    bitfield (Name "u8") "syn_fastopen_child" 1;
    Name "u8" ⊳ "keepalive_probes";
    Name "u32" ⊳ "tcp_tx_delay";
    Name "u32" ⊳ "mdev_max_us";
    Name "u32" ⊳ "reord_seen";
    Name "u32" ⊳ "snd_cwnd_cnt";
    Name "u32" ⊳ "snd_cwnd_clamp";
    Name "u32" ⊳ "snd_cwnd_used";
    Name "u32" ⊳ "snd_cwnd_stamp";
    Name "u32" ⊳ "prior_cwnd";
    Name "u32" ⊳ "prr_delivered";
    Name "u32" ⊳ "last_oow_ack_time";
    Struct "hrtimer" ⊳ "pacing_timer";
    Struct "hrtimer" ⊳ "compressed_ack_timer";
    Ptr (Struct "sk_buff") ⊳ "ooo_last_skb";
    Arr (Struct "tcp_sack_block") 1 ⊳ "duplicate_sack";
    Arr (Struct "tcp_sack_block") 4 ⊳ "selective_acks";
    Arr (Struct "tcp_sack_block") 4 ⊳ "recv_sack_cache";
    Name "u32" ⊳ "prior_ssthresh";
    Name "u32" ⊳ "high_seq";
    Name "u32" ⊳ "retrans_stamp";
    Name "u32" ⊳ "undo_marker";
    c_int ⊳ "undo_retrans";
    Name "u64" ⊳ "bytes_retrans";
    Name "u32" ⊳ "total_retrans";
    Name "u32" ⊳ "rto_stamp";
    Name "u16" ⊳ "total_rto";
    Name "u16" ⊳ "total_rto_recoveries";
    Name "u32" ⊳ "total_rto_time";
    Name "u32" ⊳ "urg_seq";
    c_uint ⊳ "keepalive_time";
    c_uint ⊳ "keepalive_intvl";
    c_int ⊳ "linger2";
    Name "u8" ⊳ "bpf_sock_ops_cb_flags";
    bitfield (Name "u8") "bpf_chg_cc_inprogress" 1;
    Name "u16" ⊳ "timeout_rehash";
    Name "u32" ⊳ "rcv_ooopack";
    AnonStruct [
      Name "u32" ⊳ "probe_seq_start";
      Name "u32" ⊳ "probe_seq_end"] ⊳ "mtu_probe";
    Name "u32" ⊳ "plb_rehash";
    Name "u32" ⊳ "mtu_info";
    Name "bool" ⊳ "is_mptcp";
    Name "bool" ⊳ "syn_smc";
    Ptr (Fun (Name "bool") [Ptr (Const (Struct "sock"))]) ⊳ "smc_hs_congested";
    Ptr (Const (Struct "tcp_sock_af_ops")) ⊳ "af_specific";
    Ptr (Struct "tcp_md5sig_info") ⊳ "md5sig_info";
    Ptr (Struct "tcp_ao_info") ⊳ "ao_info";
    Ptr (Struct "tcp_fastopen_request") ⊳ "fastopen_req";
    Ptr (Struct "request_sock") ⊳ "fastopen_rsk";
    Ptr (Struct "saved_syn") ⊳ "saved_syn";
    pad c_long 64;
    pad c_long 64;
    pad c_long 64;
    pad c_long 64].

Definition struct_inet_connection_sock : cdecl :=
  DStruct false [
    Struct "inet_sock" ⊳ "icsk_inet";
    Struct "request_sock_queue" ⊳ "icsk_accept_queue";
    Ptr (Struct "inet_bind_bucket") ⊳ "icsk_bind_hash";
    Ptr (Struct "inet_bind2_bucket") ⊳ "icsk_bind2_hash";
    Struct "timer_list" ⊳ "icsk_retransmit_timer";
    Struct "timer_list" ⊳ "icsk_delack_timer";
    Name "__u32" ⊳ "icsk_rto";
    Name "__u32" ⊳ "icsk_rto_min";
    Name "u32" ⊳ "icsk_rto_max";
    Name "__u32" ⊳ "icsk_delack_max";
    Name "__u32" ⊳ "icsk_pmtu_cookie";
    Ptr (Const (Struct "tcp_congestion_ops")) ⊳ "icsk_ca_ops";
    Ptr (Const (Struct "inet_connection_sock_af_ops")) ⊳ "icsk_af_ops";
    Ptr (Const (Struct "tcp_ulp_ops")) ⊳ "icsk_ulp_ops";
    Ptr Void ⊳ "icsk_ulp_data";
    Ptr (Fun c_uint [Ptr (Struct "sock"); Name "u32"]) ⊳ "icsk_sync_mss";
    bitfield (Name "__u8") "icsk_ca_state" 5;
    bitfield (Name "__u8") "icsk_ca_initialized" 1;
    bitfield (Name "__u8") "icsk_ca_setsockopt" 1;
    bitfield (Name "__u8") "icsk_ca_dst_locked" 1;
    Name "__u8" ⊳ "icsk_retransmits";
    Name "__u8" ⊳ "icsk_pending";
    Name "__u8" ⊳ "icsk_backoff";
    Name "__u8" ⊳ "icsk_syn_retries";
    Name "__u8" ⊳ "icsk_probes_out";
    Name "__u16" ⊳ "icsk_ext_hdr_len";
    AnonStruct [
      Name "__u8" ⊳ "pending";
      Name "__u8" ⊳ "quick";
      Name "__u8" ⊳ "pingpong";
      Name "__u8" ⊳ "retry";
      bitfield (Name "__u32") "ato" 8;
      bitfield (Name "__u32") "lrcv_flowlabel" 20;
      bitfield (Name "__u32") "dst_quick_ack" 1;
      bitfield (Name "__u32") "unused" 3;
      Name "__u32" ⊳ "lrcvtime";
      Name "__u16" ⊳ "last_seg_size";
      Name "__u16" ⊳ "rcv_mss"] ⊳ "icsk_ack";
    AnonStruct [
      c_int ⊳ "search_high";
      c_int ⊳ "search_low";
      bitfield (Name "u32") "probe_size" 31;
      bitfield (Name "u32") "enabled" 1;
      Name "u32" ⊳ "probe_timestamp"] ⊳ "icsk_mtup";
    Name "u32" ⊳ "icsk_probes_tstamp";
    Name "u32" ⊳ "icsk_user_timeout";
    Arr (Name "u64") 13 ⊳ "icsk_ca_priv"].

Definition struct_inet_sock : cdecl :=
  DStruct false [
    Struct "sock" ⊳ "sk";
    Ptr (Struct "ipv6_pinfo") ⊳ "pinet6";
    c_ulong ⊳ "inet_flags";
    Name "__be32" ⊳ "inet_saddr";
    Name "__s16" ⊳ "uc_ttl";
    Name "__be16" ⊳ "inet_sport";
    Ptr (Struct "ip_options_rcu") ⊳ "inet_opt";
    Name "atomic_t" ⊳ "inet_id";
    Name "__u8" ⊳ "tos";
    Name "__u8" ⊳ "min_ttl";
    Name "__u8" ⊳ "mc_ttl";
    Name "__u8" ⊳ "pmtudisc";
    Name "__u8" ⊳ "rcv_tos";
    Name "__u8" ⊳ "convert_csum";
    c_int ⊳ "uc_index";
    c_int ⊳ "mc_index";
    Name "__be32" ⊳ "mc_addr";
    Name "u32" ⊳ "local_port_range";
    Ptr (Struct "ip_mc_socklist") ⊳ "mc_list";
    Struct "inet_cork_full" ⊳ "cork"].

Definition struct_sock : cdecl :=
  DStruct false [
    Struct "sock_common" ⊳ "__sk_common";
    Arr (Name "__u8") 0 ⊳ "__cacheline_group_begin__sock_write_rx";
    Name "atomic_t" ⊳ "sk_drops";
    Name "__s32" ⊳ "sk_peek_off";
    Struct "sk_buff_head" ⊳ "sk_error_queue";
    Struct "sk_buff_head" ⊳ "sk_receive_queue";
    AnonStruct [
      Name "atomic_t" ⊳ "rmem_alloc";
      c_int ⊳ "len";
      Ptr (Struct "sk_buff") ⊳ "head";
      Ptr (Struct "sk_buff") ⊳ "tail"] ⊳ "sk_backlog";
    Arr (Name "__u8") 0 ⊳ "__cacheline_group_end__sock_write_rx";
    Arr (Name "__u8") 0 ⊳ "__cacheline_group_begin__sock_read_rx";
    Ptr (Struct "dst_entry") ⊳ "sk_rx_dst";
    c_int ⊳ "sk_rx_dst_ifindex";
    Name "u32" ⊳ "sk_rx_dst_cookie";
    c_uint ⊳ "sk_ll_usec";
    c_uint ⊳ "sk_napi_id";
    Name "u16" ⊳ "sk_busy_poll_budget";
    Name "u8" ⊳ "sk_prefer_busy_poll";
    Name "u8" ⊳ "sk_userlocks";
    c_int ⊳ "sk_rcvbuf";
    Ptr (Struct "sk_filter") ⊳ "sk_filter";
    anon (AnonUnion [
      Ptr (Struct "socket_wq") ⊳ "sk_wq";
      Ptr (Struct "socket_wq") ⊳ "sk_wq_raw"]);
    Ptr (Fun Void [Ptr (Struct "sock")]) ⊳ "sk_data_ready";
    c_long ⊳ "sk_rcvtimeo";
    c_int ⊳ "sk_rcvlowat";
    Arr (Name "__u8") 0 ⊳ "__cacheline_group_end__sock_read_rx";
    Arr (Name "__u8") 0 ⊳ "__cacheline_group_begin__sock_read_rxtx";
    c_int ⊳ "sk_err";
    Ptr (Struct "socket") ⊳ "sk_socket";
    Ptr (Struct "mem_cgroup") ⊳ "sk_memcg";
    Arr (Ptr (Struct "xfrm_policy")) 2 ⊳ "sk_policy";
    Arr (Name "__u8") 0 ⊳ "__cacheline_group_end__sock_read_rxtx";
    Arr (Name "__u8") 0 ⊳ "__cacheline_group_begin__sock_write_rxtx";
    Name "socket_lock_t" ⊳ "sk_lock";
    Name "u32" ⊳ "sk_reserved_mem";
    c_int ⊳ "sk_forward_alloc";
    Name "u32" ⊳ "sk_tsflags";
    Arr (Name "__u8") 0 ⊳ "__cacheline_group_end__sock_write_rxtx";
    Arr (Name "__u8") 0 ⊳ "__cacheline_group_begin__sock_write_tx";
    c_int ⊳ "sk_write_pending";
    Name "atomic_t" ⊳ "sk_omem_alloc";
    c_int ⊳ "sk_sndbuf";
    c_int ⊳ "sk_wmem_queued";
    Name "refcount_t" ⊳ "sk_wmem_alloc";
    c_ulong ⊳ "sk_tsq_flags";
    anon (AnonUnion [
      Ptr (Struct "sk_buff") ⊳ "sk_send_head";
      Struct "rb_root" ⊳ "tcp_rtx_queue"]);
    Struct "sk_buff_head" ⊳ "sk_write_queue";
    Name "u32" ⊳ "sk_dst_pending_confirm";
    Name "u32" ⊳ "sk_pacing_status";
    Struct "page_frag" ⊳ "sk_frag";
    Struct "timer_list" ⊳ "sk_timer";
    c_ulong ⊳ "sk_pacing_rate";
    Name "atomic_t" ⊳ "sk_zckey";
    Name "atomic_t" ⊳ "sk_tskey";
    Arr (Name "__u8") 0 ⊳ "__cacheline_group_end__sock_write_tx";
    Arr (Name "__u8") 0 ⊳ "__cacheline_group_begin__sock_read_tx";
    c_ulong ⊳ "sk_max_pacing_rate";
    c_long ⊳ "sk_sndtimeo";
    Name "u32" ⊳ "sk_priority";
    Name "u32" ⊳ "sk_mark";
    Ptr (Struct "dst_entry") ⊳ "sk_dst_cache";
    Name "netdev_features_t" ⊳ "sk_route_caps";
    Ptr (Fun (Ptr (Struct "sk_buff")) [Ptr (Struct "sock"); Ptr (Struct "net_device"); Ptr (Struct "sk_buff")]) ⊳ "sk_validate_xmit_skb";
    Name "u16" ⊳ "sk_gso_type";
    Name "u16" ⊳ "sk_gso_max_segs";
    c_uint ⊳ "sk_gso_max_size";
    Name "gfp_t" ⊳ "sk_allocation";
    Name "u32" ⊳ "sk_txhash";
    Name "u8" ⊳ "sk_pacing_shift";
    Name "bool" ⊳ "sk_use_task_frag";
    Arr (Name "__u8") 0 ⊳ "__cacheline_group_end__sock_read_tx";
    bitfield (Name "u8") "sk_gso_disabled" 1;
    bitfield (Name "u8") "sk_kern_sock" 1;
    bitfield (Name "u8") "sk_no_check_tx" 1;
    bitfield (Name "u8") "sk_no_check_rx" 1;
    Name "u8" ⊳ "sk_shutdown";
    Name "u16" ⊳ "sk_type";
    Name "u16" ⊳ "sk_protocol";
    c_ulong ⊳ "sk_lingertime";
    Ptr (Struct "proto") ⊳ "sk_prot_creator";
    Name "rwlock_t" ⊳ "sk_callback_lock";
    c_int ⊳ "sk_err_soft";
    Name "u32" ⊳ "sk_ack_backlog";
    Name "u32" ⊳ "sk_max_ack_backlog";
    Name "kuid_t" ⊳ "sk_uid";
    c_ulong ⊳ "sk_ino";
    Name "spinlock_t" ⊳ "sk_peer_lock";
    c_int ⊳ "sk_bind_phc";
    Ptr (Struct "pid") ⊳ "sk_peer_pid";
    Ptr (Const (Struct "cred")) ⊳ "sk_peer_cred";
    Name "ktime_t" ⊳ "sk_stamp";
    c_int ⊳ "sk_disconnects";
    anon (AnonUnion [
      Name "u8" ⊳ "sk_txrehash";
      Name "u8" ⊳ "sk_scm_recv_flags";
      anon (AnonStruct [
        bitfield (Name "u8") "sk_scm_credentials" 1;
        bitfield (Name "u8") "sk_scm_security" 1;
        bitfield (Name "u8") "sk_scm_pidfd" 1;
        bitfield (Name "u8") "sk_scm_rights" 1;
        bitfield (Name "u8") "sk_scm_unused" 4])]);
    Name "u8" ⊳ "sk_clockid";
    bitfield (Name "u8") "sk_txtime_deadline_mode" 1;
    bitfield (Name "u8") "sk_txtime_report_errors" 1;
    bitfield (Name "u8") "sk_txtime_unused" 6;
    Name "u8" ⊳ "sk_bpf_cb_flags";
    Ptr Void ⊳ "sk_user_data";
    Ptr Void ⊳ "sk_security";
    Struct "sock_cgroup_data" ⊳ "sk_cgrp_data";
    Ptr (Fun Void [Ptr (Struct "sock")]) ⊳ "sk_state_change";
    Ptr (Fun Void [Ptr (Struct "sock")]) ⊳ "sk_write_space";
    Ptr (Fun Void [Ptr (Struct "sock")]) ⊳ "sk_error_report";
    Ptr (Fun c_int [Ptr (Struct "sock"); Ptr (Struct "sk_buff")]) ⊳ "sk_backlog_rcv";
    Ptr (Fun Void [Ptr (Struct "sock")]) ⊳ "sk_destruct";
    Ptr (Struct "sock_reuseport") ⊳ "sk_reuseport_cb";
    Ptr (Struct "bpf_local_storage") ⊳ "sk_bpf_storage";
    Struct "callback_head" ⊳ "sk_rcu";
    Name "netns_tracker" ⊳ "ns_tracker";
    Struct "xarray" ⊳ "sk_user_frags"].

Definition struct_sock_common : cdecl :=
  DStruct false [
    anon (AnonUnion [
      Name "__addrpair" ⊳ "skc_addrpair";
      anon (AnonStruct [
        Name "__be32" ⊳ "skc_daddr";
        Name "__be32" ⊳ "skc_rcv_saddr"])]);
    anon (AnonUnion [
      c_uint ⊳ "skc_hash";
      Arr (Name "__u16") 2 ⊳ "skc_u16hashes"]);
    anon (AnonUnion [
      Name "__portpair" ⊳ "skc_portpair";
      anon (AnonStruct [
        Name "__be16" ⊳ "skc_dport";
        Name "__u16" ⊳ "skc_num"])]);
    c_ushort ⊳ "skc_family";
    Volatile c_uchar ⊳ "skc_state";
    bitfield c_uchar "skc_reuse" 4;
    bitfield c_uchar "skc_reuseport" 1;
    bitfield c_uchar "skc_ipv6only" 1;
    bitfield c_uchar "skc_net_refcnt" 1;
    c_int ⊳ "skc_bound_dev_if";
    anon (AnonUnion [
      Struct "hlist_node" ⊳ "skc_bind_node";
      Struct "hlist_node" ⊳ "skc_portaddr_node"]);
    Ptr (Struct "proto") ⊳ "skc_prot";
    Name "possible_net_t" ⊳ "skc_net";
    Struct "in6_addr" ⊳ "skc_v6_daddr";
    Struct "in6_addr" ⊳ "skc_v6_rcv_saddr";
    Name "atomic64_t" ⊳ "skc_cookie";
    anon (AnonUnion [
      c_ulong ⊳ "skc_flags";
      Ptr (Struct "sock") ⊳ "skc_listener";
      Ptr (Struct "inet_timewait_death_row") ⊳ "skc_tw_dr"]);
    Arr c_int 0 ⊳ "skc_dontcopy_begin";
    anon (AnonUnion [
      Struct "hlist_node" ⊳ "skc_node";
      Struct "hlist_nulls_node" ⊳ "skc_nulls_node"]);
    c_ushort ⊳ "skc_tx_queue_mapping";
    c_ushort ⊳ "skc_rx_queue_mapping";
    anon (AnonUnion [
      c_int ⊳ "skc_incoming_cpu";
      Name "u32" ⊳ "skc_rcv_wnd";
      Name "u32" ⊳ "skc_tw_rcv_nxt"]);
    Name "refcount_t" ⊳ "skc_refcnt";
    Arr c_int 0 ⊳ "skc_dontcopy_end";
    anon (AnonUnion [
      Name "u32" ⊳ "skc_rxhash";
      Name "u32" ⊳ "skc_window_clamp";
      Name "u32" ⊳ "skc_tw_snd_nxt"])].

Definition struct_hlist_node : cdecl :=
  DStruct false [
    Ptr (Struct "hlist_node") ⊳ "next";
    Ptr (Ptr (Struct "hlist_node")) ⊳ "pprev"].

Definition typedef_possible_net_t : cdecl :=
  DTypedef (AnonStruct [
    Ptr (Struct "net") ⊳ "net"]).

Definition struct_in6_addr : cdecl :=
  DStruct false [
    AnonUnion [
      Arr (Name "__u8") 16 ⊳ "u6_addr8";
      Arr (Name "__be16") 8 ⊳ "u6_addr16";
      Arr (Name "__be32") 4 ⊳ "u6_addr32"] ⊳ "in6_u"].

Definition typedef_atomic64_t : cdecl :=
  DTypedef (AnonStruct [
    Name "s64" ⊳ "counter"]).

Definition struct_hlist_nulls_node : cdecl :=
  DStruct false [
    Ptr (Struct "hlist_nulls_node") ⊳ "next";
    Ptr (Ptr (Struct "hlist_nulls_node")) ⊳ "pprev"].

Definition struct_refcount_struct : cdecl :=
  DStruct false [
    Name "atomic_t" ⊳ "refs"].

Definition typedef_atomic_t : cdecl :=
  DTypedef (AnonStruct [
    c_int ⊳ "counter"]).

Definition struct_sk_buff_head : cdecl :=
  DStruct false [
    anon (AnonUnion [
      anon (AnonStruct [
        Ptr (Struct "sk_buff") ⊳ "next";
        Ptr (Struct "sk_buff") ⊳ "prev"]);
      Struct "sk_buff_list" ⊳ "list"]);
    Name "__u32" ⊳ "qlen";
    Name "spinlock_t" ⊳ "lock"].

Definition struct_sk_buff_list : cdecl :=
  DStruct false [
    Ptr (Struct "sk_buff") ⊳ "next";
    Ptr (Struct "sk_buff") ⊳ "prev"].

Definition struct_spinlock : cdecl :=
  DStruct false [
    anon (AnonUnion [
      Struct "raw_spinlock" ⊳ "rlock"])].

Definition struct_raw_spinlock : cdecl :=
  DStruct false [
    Name "arch_spinlock_t" ⊳ "raw_lock"].

Definition struct_qspinlock : cdecl :=
  DStruct false [
    anon (AnonUnion [
      Name "atomic_t" ⊳ "val";
      anon (AnonStruct [
        Name "u8" ⊳ "locked";
        Name "u8" ⊳ "pending"]);
      anon (AnonStruct [
        Name "u16" ⊳ "locked_pending";
        Name "u16" ⊳ "tail"])])].

Definition typedef_socket_lock_t : cdecl :=
  DTypedef (AnonStruct [
    Name "spinlock_t" ⊳ "slock";
    c_int ⊳ "owned";
    Name "wait_queue_head_t" ⊳ "wq"]).

Definition struct_wait_queue_head : cdecl :=
  DStruct false [
    Name "spinlock_t" ⊳ "lock";
    Struct "list_head" ⊳ "head"].

Definition struct_list_head : cdecl :=
  DStruct false [
    Ptr (Struct "list_head") ⊳ "next";
    Ptr (Struct "list_head") ⊳ "prev"].

Definition struct_rb_root : cdecl :=
  DStruct false [
    Ptr (Struct "rb_node") ⊳ "rb_node"].

Definition struct_page_frag : cdecl :=
  DStruct false [
    Ptr (Struct "page") ⊳ "page";
    Name "__u32" ⊳ "offset";
    Name "__u32" ⊳ "size"].

Definition struct_timer_list : cdecl :=
  DStruct false [
    Struct "hlist_node" ⊳ "entry";
    c_ulong ⊳ "expires";
    Ptr (Fun Void [Ptr (Struct "timer_list")]) ⊳ "function";
    Name "u32" ⊳ "flags"].

Definition typedef_rwlock_t : cdecl :=
  DTypedef (AnonStruct [
    Name "arch_rwlock_t" ⊳ "raw_lock"]).

Definition struct_qrwlock : cdecl :=
  DStruct false [
    anon (AnonUnion [
      Name "atomic_t" ⊳ "cnts";
      anon (AnonStruct [
        Name "u8" ⊳ "wlocked";
        Arr (Name "u8") 3 ⊳ "__lstate"])]);
    Name "arch_spinlock_t" ⊳ "wait_lock"].

Definition typedef_kuid_t : cdecl :=
  DTypedef (AnonStruct [
    Name "uid_t" ⊳ "val"]).

Definition struct_sock_cgroup_data : cdecl :=
  DStruct false [
    Ptr (Struct "cgroup") ⊳ "cgroup";
    Name "u32" ⊳ "classid";
    Name "u16" ⊳ "prioidx"].

Definition struct_callback_head : cdecl :=
  DStruct false [
    Ptr (Struct "callback_head") ⊳ "next";
    Ptr (Fun Void [Ptr (Struct "callback_head")]) ⊳ "func"].

Definition typedef_netns_tracker : cdecl :=
  DTypedef (AnonStruct [
    ]).

Definition struct_xarray : cdecl :=
  DStruct false [
    Name "spinlock_t" ⊳ "xa_lock";
    Name "gfp_t" ⊳ "xa_flags";
    Ptr Void ⊳ "xa_head"].

Definition struct_inet_cork_full : cdecl :=
  DStruct false [
    Struct "inet_cork" ⊳ "base";
    Struct "flowi" ⊳ "fl"].

Definition struct_inet_cork : cdecl :=
  DStruct false [
    c_uint ⊳ "flags";
    Name "__be32" ⊳ "addr";
    Ptr (Struct "ip_options") ⊳ "opt";
    c_uint ⊳ "fragsize";
    c_int ⊳ "length";
    Ptr (Struct "dst_entry") ⊳ "dst";
    Name "u8" ⊳ "tx_flags";
    Name "__u8" ⊳ "ttl";
    Name "__s16" ⊳ "tos";
    Name "u32" ⊳ "priority";
    Name "__u16" ⊳ "gso_size";
    Name "u32" ⊳ "ts_opt_id";
    Name "u64" ⊳ "transmit_time";
    Name "u32" ⊳ "mark"].

Definition struct_flowi : cdecl :=
  DStruct false [
    AnonUnion [
      Struct "flowi_common" ⊳ "__fl_common";
      Struct "flowi4" ⊳ "ip4";
      Struct "flowi6" ⊳ "ip6"] ⊳ "u"].

Definition struct_flowi_common : cdecl :=
  DStruct false [
    c_int ⊳ "flowic_oif";
    c_int ⊳ "flowic_iif";
    c_int ⊳ "flowic_l3mdev";
    Name "__u32" ⊳ "flowic_mark";
    Name "__u8" ⊳ "flowic_tos";
    Name "__u8" ⊳ "flowic_scope";
    Name "__u8" ⊳ "flowic_proto";
    Name "__u8" ⊳ "flowic_flags";
    Name "__u32" ⊳ "flowic_secid";
    Name "kuid_t" ⊳ "flowic_uid";
    Name "__u32" ⊳ "flowic_multipath_hash";
    Struct "flowi_tunnel" ⊳ "flowic_tun_key"].

Definition struct_flowi_tunnel : cdecl :=
  DStruct false [
    Name "__be64" ⊳ "tun_id"].

Definition struct_flowi4 : cdecl :=
  DStruct false [
    Struct "flowi_common" ⊳ "__fl_common";
    Name "__be32" ⊳ "saddr";
    Name "__be32" ⊳ "daddr";
    Union "flowi_uli" ⊳ "uli"].

Definition union_flowi_uli : cdecl :=
  DUnion false [
    AnonStruct [
      Name "__be16" ⊳ "dport";
      Name "__be16" ⊳ "sport"] ⊳ "ports";
    AnonStruct [
      Name "__u8" ⊳ "type";
      Name "__u8" ⊳ "code"] ⊳ "icmpt";
    Name "__be32" ⊳ "gre_key";
    AnonStruct [
      Name "__u8" ⊳ "type"] ⊳ "mht"].

Definition struct_flowi6 : cdecl :=
  DStruct false [
    Struct "flowi_common" ⊳ "__fl_common";
    Struct "in6_addr" ⊳ "daddr";
    Struct "in6_addr" ⊳ "saddr";
    Name "__be32" ⊳ "flowlabel";
    Union "flowi_uli" ⊳ "uli";
    Name "__u32" ⊳ "mp_hash"].

Definition struct_request_sock_queue : cdecl :=
  DStruct false [
    Name "spinlock_t" ⊳ "rskq_lock";
    Name "u8" ⊳ "rskq_defer_accept";
    Name "u32" ⊳ "synflood_warned";
    Name "atomic_t" ⊳ "qlen";
    Name "atomic_t" ⊳ "young";
    Ptr (Struct "request_sock") ⊳ "rskq_accept_head";
    Ptr (Struct "request_sock") ⊳ "rskq_accept_tail";
    Struct "fastopen_queue" ⊳ "fastopenq"].

Definition struct_fastopen_queue : cdecl :=
  DStruct false [
    Ptr (Struct "request_sock") ⊳ "rskq_rst_head";
    Ptr (Struct "request_sock") ⊳ "rskq_rst_tail";
    Name "spinlock_t" ⊳ "lock";
    c_int ⊳ "qlen";
    c_int ⊳ "max_qlen";
    Ptr (Struct "tcp_fastopen_context") ⊳ "ctx"].

Definition struct_minmax : cdecl :=
  DStruct false [
    Arr (Struct "minmax_sample") 3 ⊳ "s"].

Definition struct_minmax_sample : cdecl :=
  DStruct false [
    Name "u32" ⊳ "t";
    Name "u32" ⊳ "v"].

Definition struct_tcp_options_received : cdecl :=
  DStruct false [
    c_int ⊳ "ts_recent_stamp";
    Name "u32" ⊳ "ts_recent";
    Name "u32" ⊳ "rcv_tsval";
    Name "u32" ⊳ "rcv_tsecr";
    bitfield (Name "u16") "saw_tstamp" 1;
    bitfield (Name "u16") "tstamp_ok" 1;
    bitfield (Name "u16") "dsack" 1;
    bitfield (Name "u16") "wscale_ok" 1;
    bitfield (Name "u16") "sack_ok" 3;
    bitfield (Name "u16") "smc_ok" 1;
    bitfield (Name "u16") "snd_wscale" 4;
    bitfield (Name "u16") "rcv_wscale" 4;
    bitfield (Name "u8") "saw_unknown" 1;
    bitfield (Name "u8") "unused" 7;
    Name "u8" ⊳ "num_sacks";
    Name "u16" ⊳ "user_mss";
    Name "u16" ⊳ "mss_clamp"].

Definition struct_tcp_rack : cdecl :=
  DStruct false [
    Name "u64" ⊳ "mstamp";
    Name "u32" ⊳ "rtt_us";
    Name "u32" ⊳ "end_seq";
    Name "u32" ⊳ "last_delivered";
    Name "u8" ⊳ "reo_wnd_steps";
    bitfield (Name "u8") "reo_wnd_persist" 5;
    bitfield (Name "u8") "dsack_seen" 1;
    bitfield (Name "u8") "advanced" 1].

Definition struct_hrtimer : cdecl :=
  DStruct false [
    Struct "timerqueue_node" ⊳ "node";
    Name "ktime_t" ⊳ "_softexpires";
    Ptr (Fun (Enum "hrtimer_restart") [Ptr (Struct "hrtimer")]) ⊳ "function";
    Ptr (Struct "hrtimer_clock_base") ⊳ "base";
    Name "u8" ⊳ "state";
    Name "u8" ⊳ "is_rel";
    Name "u8" ⊳ "is_soft";
    Name "u8" ⊳ "is_hard"].

Definition struct_timerqueue_node : cdecl :=
  DStruct false [
    Struct "rb_node" ⊳ "node";
    Name "ktime_t" ⊳ "expires"].

Definition struct_rb_node : cdecl :=
  DStruct false [
    c_ulong ⊳ "__rb_parent_color";
    Ptr (Struct "rb_node") ⊳ "rb_right";
    Ptr (Struct "rb_node") ⊳ "rb_left"].

Definition struct_tcp_sack_block : cdecl :=
  DStruct false [
    Name "u32" ⊳ "start_seq";
    Name "u32" ⊳ "end_seq"].

Definition struct_tcp6_sock : cdecl :=
  DStruct false [
    Struct "tcp_sock" ⊳ "tcp";
    Struct "ipv6_pinfo" ⊳ "inet6";
    pad c_long 64;
    pad c_long 64;
    pad c_long 64;
    pad c_long 64].

Definition struct_ipv6_pinfo : cdecl :=
  DStruct false [
    Struct "in6_addr" ⊳ "saddr";
    Struct "in6_pktinfo" ⊳ "sticky_pktinfo";
    Ptr (Const (Struct "in6_addr")) ⊳ "daddr_cache";
    Ptr (Const (Struct "in6_addr")) ⊳ "saddr_cache";
    Name "__be32" ⊳ "flow_label";
    Name "__u32" ⊳ "frag_size";
    Name "s16" ⊳ "hop_limit";
    Name "u8" ⊳ "mcast_hops";
    c_int ⊳ "ucast_oif";
    c_int ⊳ "mcast_oif";
    AnonUnion [
      AnonStruct [
        bitfield (Name "__u16") "srcrt" 1;
        bitfield (Name "__u16") "osrcrt" 1;
        bitfield (Name "__u16") "rxinfo" 1;
        bitfield (Name "__u16") "rxoinfo" 1;
        bitfield (Name "__u16") "rxhlim" 1;
        bitfield (Name "__u16") "rxohlim" 1;
        bitfield (Name "__u16") "hopopts" 1;
        bitfield (Name "__u16") "ohopopts" 1;
        bitfield (Name "__u16") "dstopts" 1;
        bitfield (Name "__u16") "odstopts" 1;
        bitfield (Name "__u16") "rxflow" 1;
        bitfield (Name "__u16") "rxtclass" 1;
        bitfield (Name "__u16") "rxpmtu" 1;
        bitfield (Name "__u16") "rxorigdstaddr" 1;
        bitfield (Name "__u16") "recvfragsize" 1] ⊳ "bits";
      Name "__u16" ⊳ "all"] ⊳ "rxopt";
    Name "__u8" ⊳ "srcprefs";
    Name "__u8" ⊳ "pmtudisc";
    Name "__u8" ⊳ "min_hopcount";
    Name "__u8" ⊳ "tclass";
    Name "__be32" ⊳ "rcv_flowinfo";
    Name "__u32" ⊳ "dst_cookie";
    Ptr (Struct "ipv6_mc_socklist") ⊳ "ipv6_mc_list";
    Ptr (Struct "ipv6_ac_socklist") ⊳ "ipv6_ac_list";
    Ptr (Struct "ipv6_fl_socklist") ⊳ "ipv6_fl_list";
    Ptr (Struct "ipv6_txoptions") ⊳ "opt";
    Ptr (Struct "sk_buff") ⊳ "pktoptions";
    Ptr (Struct "sk_buff") ⊳ "rxpmtu";
    Struct "inet6_cork" ⊳ "cork"].

Definition struct_in6_pktinfo : cdecl :=
  DStruct false [
    Struct "in6_addr" ⊳ "ipi6_addr";
    c_int ⊳ "ipi6_ifindex"].

Definition struct_inet6_cork : cdecl :=
  DStruct false [
    Ptr (Struct "ipv6_txoptions") ⊳ "opt";
    Name "u8" ⊳ "hop_limit";
    Name "u8" ⊳ "tclass";
    bitfield (Name "u8") "dontfrag" 1].

Definition struct_sk_buff : cdecl :=
  DStruct false [
    anon (AnonUnion [
      anon (AnonStruct [
        Ptr (Struct "sk_buff") ⊳ "next";
        Ptr (Struct "sk_buff") ⊳ "prev";
        anon (AnonUnion [
          Ptr (Struct "net_device") ⊳ "dev";
          c_ulong ⊳ "dev_scratch"])]);
      Struct "rb_node" ⊳ "rbnode";
      Struct "list_head" ⊳ "list";
      Struct "llist_node" ⊳ "ll_node"]);
    Ptr (Struct "sock") ⊳ "sk";
    anon (AnonUnion [
      Name "ktime_t" ⊳ "tstamp";
      Name "u64" ⊳ "skb_mstamp_ns"]);
    Arr c_char 48 ⊳ "cb";
    anon (AnonUnion [
      anon (AnonStruct [
        c_ulong ⊳ "_skb_refdst";
        Ptr (Fun Void [Ptr (Struct "sk_buff")]) ⊳ "destructor"]);
      Struct "list_head" ⊳ "tcp_tsorted_anchor";
      c_ulong ⊳ "_sk_redir"]);
    c_ulong ⊳ "_nfct";
    c_uint ⊳ "len";
    c_uint ⊳ "data_len";
    Name "__u16" ⊳ "mac_len";
    Name "__u16" ⊳ "hdr_len";
    Name "__u16" ⊳ "queue_mapping";
    Arr (Name "__u8") 0 ⊳ "__cloned_offset";
    bitfield (Name "__u8") "cloned" 1;
    bitfield (Name "__u8") "nohdr" 1;
    bitfield (Name "__u8") "fclone" 2;
    bitfield (Name "__u8") "peeked" 1;
    bitfield (Name "__u8") "head_frag" 1;
    bitfield (Name "__u8") "pfmemalloc" 1;
    bitfield (Name "__u8") "pp_recycle" 1;
    Name "__u8" ⊳ "active_extensions";
    anon (AnonUnion [
      anon (AnonStruct [
        Arr (Name "__u8") 0 ⊳ "__pkt_type_offset";
        bitfield (Name "__u8") "pkt_type" 3;
        bitfield (Name "__u8") "ignore_df" 1;
        bitfield (Name "__u8") "dst_pending_confirm" 1;
        bitfield (Name "__u8") "ip_summed" 2;
        bitfield (Name "__u8") "ooo_okay" 1;
        Arr (Name "__u8") 0 ⊳ "__mono_tc_offset";
        bitfield (Name "__u8") "tstamp_type" 2;
        bitfield (Name "__u8") "tc_at_ingress" 1;
        bitfield (Name "__u8") "tc_skip_classify" 1;
        bitfield (Name "__u8") "remcsum_offload" 1;
        bitfield (Name "__u8") "csum_complete_sw" 1;
        bitfield (Name "__u8") "csum_level" 2;
        bitfield (Name "__u8") "inner_protocol_type" 1;
        bitfield (Name "__u8") "l4_hash" 1;
        bitfield (Name "__u8") "sw_hash" 1;
        bitfield (Name "__u8") "wifi_acked_valid" 1;
        bitfield (Name "__u8") "wifi_acked" 1;
        bitfield (Name "__u8") "no_fcs" 1;
        bitfield (Name "__u8") "encapsulation" 1;
        bitfield (Name "__u8") "encap_hdr_csum" 1;
        bitfield (Name "__u8") "csum_valid" 1;
        bitfield (Name "__u8") "ndisc_nodetype" 2;
        bitfield (Name "__u8") "ipvs_property" 1;
        bitfield (Name "__u8") "nf_trace" 1;
        bitfield (Name "__u8") "offload_fwd_mark" 1;
        bitfield (Name "__u8") "offload_l3_fwd_mark" 1;
        bitfield (Name "__u8") "redirected" 1;
        bitfield (Name "__u8") "from_ingress" 1;
        bitfield (Name "__u8") "nf_skip_egress" 1;
        bitfield (Name "__u8") "decrypted" 1;
        bitfield (Name "__u8") "slow_gro" 1;
        bitfield (Name "__u8") "csum_not_inet" 1;
        bitfield (Name "__u8") "unreadable" 1;
        Name "__u16" ⊳ "tc_index";
        Name "u16" ⊳ "alloc_cpu";
        anon (AnonUnion [
          Name "__wsum" ⊳ "csum";
          anon (AnonStruct [
            Name "__u16" ⊳ "csum_start";
            Name "__u16" ⊳ "csum_offset"])]);
        Name "__u32" ⊳ "priority";
        c_int ⊳ "skb_iif";
        Name "__u32" ⊳ "hash";
        anon (AnonUnion [
          Name "u32" ⊳ "vlan_all";
          anon (AnonStruct [
            Name "__be16" ⊳ "vlan_proto";
            Name "__u16" ⊳ "vlan_tci"])]);
        anon (AnonUnion [
          c_uint ⊳ "napi_id";
          c_uint ⊳ "sender_cpu"]);
        Name "__u32" ⊳ "secmark";
        anon (AnonUnion [
          Name "__u32" ⊳ "mark";
          Name "__u32" ⊳ "reserved_tailroom"]);
        anon (AnonUnion [
          Name "__be16" ⊳ "inner_protocol";
          Name "__u8" ⊳ "inner_ipproto"]);
        Name "__u16" ⊳ "inner_transport_header";
        Name "__u16" ⊳ "inner_network_header";
        Name "__u16" ⊳ "inner_mac_header";
        Name "__be16" ⊳ "protocol";
        Name "__u16" ⊳ "transport_header";
        Name "__u16" ⊳ "network_header";
        Name "__u16" ⊳ "mac_header"]);
      AnonStruct [
        Arr (Name "__u8") 0 ⊳ "__pkt_type_offset";
        bitfield (Name "__u8") "pkt_type" 3;
        bitfield (Name "__u8") "ignore_df" 1;
        bitfield (Name "__u8") "dst_pending_confirm" 1;
        bitfield (Name "__u8") "ip_summed" 2;
        bitfield (Name "__u8") "ooo_okay" 1;
        Arr (Name "__u8") 0 ⊳ "__mono_tc_offset";
        bitfield (Name "__u8") "tstamp_type" 2;
        bitfield (Name "__u8") "tc_at_ingress" 1;
        bitfield (Name "__u8") "tc_skip_classify" 1;
        bitfield (Name "__u8") "remcsum_offload" 1;
        bitfield (Name "__u8") "csum_complete_sw" 1;
        bitfield (Name "__u8") "csum_level" 2;
        bitfield (Name "__u8") "inner_protocol_type" 1;
        bitfield (Name "__u8") "l4_hash" 1;
        bitfield (Name "__u8") "sw_hash" 1;
        bitfield (Name "__u8") "wifi_acked_valid" 1;
        bitfield (Name "__u8") "wifi_acked" 1;
        bitfield (Name "__u8") "no_fcs" 1;
        bitfield (Name "__u8") "encapsulation" 1;
        bitfield (Name "__u8") "encap_hdr_csum" 1;
        bitfield (Name "__u8") "csum_valid" 1;
        bitfield (Name "__u8") "ndisc_nodetype" 2;
        bitfield (Name "__u8") "ipvs_property" 1;
        bitfield (Name "__u8") "nf_trace" 1;
        bitfield (Name "__u8") "offload_fwd_mark" 1;
        bitfield (Name "__u8") "offload_l3_fwd_mark" 1;
        bitfield (Name "__u8") "redirected" 1;
        bitfield (Name "__u8") "from_ingress" 1;
        bitfield (Name "__u8") "nf_skip_egress" 1;
        bitfield (Name "__u8") "decrypted" 1;
        bitfield (Name "__u8") "slow_gro" 1;
        bitfield (Name "__u8") "csum_not_inet" 1;
        bitfield (Name "__u8") "unreadable" 1;
        Name "__u16" ⊳ "tc_index";
        Name "u16" ⊳ "alloc_cpu";
        anon (AnonUnion [
          Name "__wsum" ⊳ "csum";
          anon (AnonStruct [
            Name "__u16" ⊳ "csum_start";
            Name "__u16" ⊳ "csum_offset"])]);
        Name "__u32" ⊳ "priority";
        c_int ⊳ "skb_iif";
        Name "__u32" ⊳ "hash";
        anon (AnonUnion [
          Name "u32" ⊳ "vlan_all";
          anon (AnonStruct [
            Name "__be16" ⊳ "vlan_proto";
            Name "__u16" ⊳ "vlan_tci"])]);
        anon (AnonUnion [
          c_uint ⊳ "napi_id";
          c_uint ⊳ "sender_cpu"]);
        Name "__u32" ⊳ "secmark";
        anon (AnonUnion [
          Name "__u32" ⊳ "mark";
          Name "__u32" ⊳ "reserved_tailroom"]);
        anon (AnonUnion [
          Name "__be16" ⊳ "inner_protocol";
          Name "__u8" ⊳ "inner_ipproto"]);
        Name "__u16" ⊳ "inner_transport_header";
        Name "__u16" ⊳ "inner_network_header";
        Name "__u16" ⊳ "inner_mac_header";
        Name "__be16" ⊳ "protocol";
        Name "__u16" ⊳ "transport_header";
        Name "__u16" ⊳ "network_header";
        Name "__u16" ⊳ "mac_header"] ⊳ "headers"]);
    Name "sk_buff_data_t" ⊳ "tail";
    Name "sk_buff_data_t" ⊳ "end";
    Ptr c_uchar ⊳ "head";
    Ptr c_uchar ⊳ "data";
    c_uint ⊳ "truesize";
    Name "refcount_t" ⊳ "users";
    Ptr (Struct "skb_ext") ⊳ "extensions"].

Definition struct_llist_node : cdecl :=
  DStruct false [
    Ptr (Struct "llist_node") ⊳ "next"].

Definition struct_proto : cdecl :=
  DStruct false [
    Ptr (Fun Void [Ptr (Struct "sock"); c_long]) ⊳ "close";
    Ptr (Fun c_int [Ptr (Struct "sock"); Ptr (Struct "sockaddr"); c_int]) ⊳ "pre_connect";
    Ptr (Fun c_int [Ptr (Struct "sock"); Ptr (Struct "sockaddr"); c_int]) ⊳ "connect";
    Ptr (Fun c_int [Ptr (Struct "sock"); c_int]) ⊳ "disconnect";
    Ptr (Fun (Ptr (Struct "sock")) [Ptr (Struct "sock"); Ptr (Struct "proto_accept_arg")]) ⊳ "accept";
    Ptr (Fun c_int [Ptr (Struct "sock"); c_int; Ptr c_int]) ⊳ "ioctl";
    Ptr (Fun c_int [Ptr (Struct "sock")]) ⊳ "init";
    Ptr (Fun Void [Ptr (Struct "sock")]) ⊳ "destroy";
    Ptr (Fun Void [Ptr (Struct "sock"); c_int]) ⊳ "shutdown";
    Ptr (Fun c_int [Ptr (Struct "sock"); c_int; c_int; Name "sockptr_t"; c_uint]) ⊳ "setsockopt";
    Ptr (Fun c_int [Ptr (Struct "sock"); c_int; c_int; Ptr c_char; Ptr c_int]) ⊳ "getsockopt";
    Ptr (Fun Void [Ptr (Struct "sock"); c_int]) ⊳ "keepalive";
    Ptr (Fun c_int [Ptr (Struct "sock"); c_uint; c_ulong]) ⊳ "compat_ioctl";
    Ptr (Fun c_int [Ptr (Struct "sock"); Ptr (Struct "msghdr"); Name "size_t"]) ⊳ "sendmsg";
    Ptr (Fun c_int [Ptr (Struct "sock"); Ptr (Struct "msghdr"); Name "size_t"; c_int; Ptr c_int]) ⊳ "recvmsg";
    Ptr (Fun Void [Ptr (Struct "socket")]) ⊳ "splice_eof";
    Ptr (Fun c_int [Ptr (Struct "sock"); Ptr (Struct "sockaddr"); c_int]) ⊳ "bind";
    Ptr (Fun c_int [Ptr (Struct "sock"); Ptr (Struct "sockaddr"); c_int]) ⊳ "bind_add";
    Ptr (Fun c_int [Ptr (Struct "sock"); Ptr (Struct "sk_buff")]) ⊳ "backlog_rcv";
    Ptr (Fun (Name "bool") [c_int; c_int]) ⊳ "bpf_bypass_getsockopt";
    Ptr (Fun Void [Ptr (Struct "sock")]) ⊳ "release_cb";
    Ptr (Fun c_int [Ptr (Struct "sock")]) ⊳ "hash";
    Ptr (Fun Void [Ptr (Struct "sock")]) ⊳ "unhash";
    Ptr (Fun Void [Ptr (Struct "sock")]) ⊳ "rehash";
    Ptr (Fun c_int [Ptr (Struct "sock"); c_ushort]) ⊳ "get_port";
    Ptr (Fun Void [Ptr (Struct "sock")]) ⊳ "put_port";
    Ptr (Fun c_int [Ptr (Struct "sock"); Ptr (Struct "sk_psock"); Name "bool"]) ⊳ "psock_update_sk_prot";
    c_uint ⊳ "inuse_idx";
    Ptr (Fun (Name "bool") [Ptr (Const (Struct "sock")); c_int]) ⊳ "stream_memory_free";
    Ptr (Fun (Name "bool") [Ptr (Struct "sock")]) ⊳ "sock_is_readable";
    Ptr (Fun Void [Ptr (Struct "sock")]) ⊳ "enter_memory_pressure";
    Ptr (Fun Void [Ptr (Struct "sock")]) ⊳ "leave_memory_pressure";
    Ptr (Name "atomic_long_t") ⊳ "memory_allocated";
    Ptr c_int ⊳ "per_cpu_fw_alloc";
    Ptr (Struct "percpu_counter") ⊳ "sockets_allocated";
    Ptr c_ulong ⊳ "memory_pressure";
    Ptr c_long ⊳ "sysctl_mem";
    Ptr c_int ⊳ "sysctl_wmem";
    Ptr c_int ⊳ "sysctl_rmem";
    Name "u32" ⊳ "sysctl_wmem_offset";
    Name "u32" ⊳ "sysctl_rmem_offset";
    c_int ⊳ "max_header";
    Name "bool" ⊳ "no_autobind";
    Ptr (Struct "kmem_cache") ⊳ "slab";
    c_uint ⊳ "obj_size";
    c_uint ⊳ "ipv6_pinfo_offset";
    Name "slab_flags_t" ⊳ "slab_flags";
    c_uint ⊳ "useroffset";
    c_uint ⊳ "usersize";
    Ptr c_uint ⊳ "orphan_count";
    Ptr (Struct "request_sock_ops") ⊳ "rsk_prot";
    Ptr (Struct "timewait_sock_ops") ⊳ "twsk_prot";
    AnonUnion [
      Ptr (Struct "inet_hashinfo") ⊳ "hashinfo";
      Ptr (Struct "udp_table") ⊳ "udp_table";
      Ptr (Struct "raw_hashinfo") ⊳ "raw_hash";
      Ptr (Struct "smc_hashinfo") ⊳ "smc_hash"] ⊳ "h";
    Ptr (Struct "module") ⊳ "owner";
    Arr c_char 32 ⊳ "name";
    Struct "list_head" ⊳ "node";
    Ptr (Fun c_int [Ptr (Struct "sock"); c_int]) ⊳ "diag_destroy"].

Definition struct_tcp_congestion_ops : cdecl :=
  DStruct false [
    Ptr (Fun (Name "u32") [Ptr (Struct "sock")]) ⊳ "ssthresh";
    Ptr (Fun Void [Ptr (Struct "sock"); Name "u32"; Name "u32"]) ⊳ "cong_avoid";
    Ptr (Fun Void [Ptr (Struct "sock"); Name "u8"]) ⊳ "set_state";
    Ptr (Fun Void [Ptr (Struct "sock"); Enum "tcp_ca_event"]) ⊳ "cwnd_event";
    Ptr (Fun Void [Ptr (Struct "sock"); Name "u32"]) ⊳ "in_ack_event";
    Ptr (Fun Void [Ptr (Struct "sock"); Ptr (Const (Struct "ack_sample"))]) ⊳ "pkts_acked";
    Ptr (Fun (Name "u32") [Ptr (Struct "sock")]) ⊳ "min_tso_segs";
    Ptr (Fun Void [Ptr (Struct "sock"); Name "u32"; c_int; Ptr (Const (Struct "rate_sample"))]) ⊳ "cong_control";
    Ptr (Fun (Name "u32") [Ptr (Struct "sock")]) ⊳ "undo_cwnd";
    Ptr (Fun (Name "u32") [Ptr (Struct "sock")]) ⊳ "sndbuf_expand";
    Ptr (Fun (Name "size_t") [Ptr (Struct "sock"); Name "u32"; Ptr c_int; Ptr (Union "tcp_cc_info")]) ⊳ "get_info";
    Arr c_char 16 ⊳ "name";
    Ptr (Struct "module") ⊳ "owner";
    Struct "list_head" ⊳ "list";
    Name "u32" ⊳ "key";
    Name "u32" ⊳ "flags";
    Ptr (Fun Void [Ptr (Struct "sock")]) ⊳ "init";
    Ptr (Fun Void [Ptr (Struct "sock")]) ⊳ "release";
    pad c_long 64;
    pad c_long 64;
    pad c_long 64;
    pad c_long 64;
    pad c_long 64].

Definition struct_bictcp : cdecl :=
  DStruct false [
    Name "u32" ⊳ "cnt";
    Name "u32" ⊳ "last_max_cwnd";
    Name "u32" ⊳ "last_cwnd";
    Name "u32" ⊳ "last_time";
    Name "u32" ⊳ "bic_origin_point";
    Name "u32" ⊳ "bic_K";
    Name "u32" ⊳ "delay_min";
    Name "u32" ⊳ "epoch_start";
    Name "u32" ⊳ "ack_cnt";
    Name "u32" ⊳ "tcp_cwnd";
    Name "u16" ⊳ "unused";
    Name "u8" ⊳ "sample_cnt";
    Name "u8" ⊳ "found";
    Name "u32" ⊳ "round_start";
    Name "u32" ⊳ "end_seq";
    Name "u32" ⊳ "last_ack";
    Name "u32" ⊳ "curr_rtt"].

Definition struct_tcp_request_sock : cdecl :=
  DStruct false [
    Struct "inet_request_sock" ⊳ "req";
    Ptr (Const (Struct "tcp_request_sock_ops")) ⊳ "af_specific";
    Name "u64" ⊳ "snt_synack";
    Name "bool" ⊳ "tfo_listener";
    Name "bool" ⊳ "is_mptcp";
    Name "bool" ⊳ "req_usec_ts";
    Name "bool" ⊳ "drop_req";
    Name "u32" ⊳ "txhash";
    Name "u32" ⊳ "rcv_isn";
    Name "u32" ⊳ "snt_isn";
    Name "u32" ⊳ "ts_off";
    Name "u32" ⊳ "snt_tsval_first";
    Name "u32" ⊳ "snt_tsval_last";
    Name "u32" ⊳ "last_oow_ack_time";
    Name "u32" ⊳ "rcv_nxt";
    Name "u8" ⊳ "syn_tos";
    Name "u8" ⊳ "ao_keyid";
    Name "u8" ⊳ "ao_rcv_next";
    Name "bool" ⊳ "used_tcp_ao"].

Definition struct_inet_request_sock : cdecl :=
  DStruct false [
    Struct "request_sock" ⊳ "req";
    bitfield (Name "u16") "snd_wscale" 4;
    bitfield (Name "u16") "rcv_wscale" 4;
    bitfield (Name "u16") "tstamp_ok" 1;
    bitfield (Name "u16") "sack_ok" 1;
    bitfield (Name "u16") "wscale_ok" 1;
    bitfield (Name "u16") "ecn_ok" 1;
    bitfield (Name "u16") "acked" 1;
    bitfield (Name "u16") "no_srccheck" 1;
    bitfield (Name "u16") "smc_ok" 1;
    Name "u32" ⊳ "ir_mark";
    anon (AnonUnion [
      Ptr (Struct "ip_options_rcu") ⊳ "ireq_opt";
      anon (AnonStruct [
        Ptr (Struct "ipv6_txoptions") ⊳ "ipv6_opt";
        Ptr (Struct "sk_buff") ⊳ "pktopts"])])].

Definition struct_request_sock : cdecl :=
  DStruct false [
    Struct "sock_common" ⊳ "__req_common";
    Ptr (Struct "request_sock") ⊳ "dl_next";
    Name "u16" ⊳ "mss";
    Name "u8" ⊳ "num_retrans";
    bitfield (Name "u8") "syncookie" 1;
    bitfield (Name "u8") "num_timeout" 7;
    Name "u32" ⊳ "ts_recent";
    Struct "timer_list" ⊳ "rsk_timer";
    Ptr (Const (Struct "request_sock_ops")) ⊳ "rsk_ops";
    Ptr (Struct "sock") ⊳ "sk";
    Ptr (Struct "saved_syn") ⊳ "saved_syn";
    Name "u32" ⊳ "secid";
    Name "u32" ⊳ "peer_secid";
    Name "u32" ⊳ "timeout"].

Definition struct_inet_timewait_sock : cdecl :=
  DStruct false [
    Struct "sock_common" ⊳ "__tw_common";
    Name "__u32" ⊳ "tw_mark";
    c_uchar ⊳ "tw_substate";
    c_uchar ⊳ "tw_rcv_wscale";
    Name "__be16" ⊳ "tw_sport";
    bitfield c_uint "tw_transparent" 1;
    bitfield c_uint "tw_flowlabel" 20;
    bitfield c_uint "tw_usec_ts" 1;
    bitfield c_uint "tw_connect_bind" 1;
    bitfield c_uint "tw_pad" 1;
    bitfield c_uint "tw_tos" 8;
    Name "u32" ⊳ "tw_txhash";
    Name "u32" ⊳ "tw_priority";
    Name "u32" ⊳ "tw_entry_stamp";
    Struct "timer_list" ⊳ "tw_timer";
    Ptr (Struct "inet_bind_bucket") ⊳ "tw_tb";
    Ptr (Struct "inet_bind2_bucket") ⊳ "tw_tb2"].

Definition struct_socket : cdecl :=
  DStruct false [
    Name "socket_state" ⊳ "state";
    c_short ⊳ "type";
    c_ulong ⊳ "flags";
    Ptr (Struct "file") ⊳ "file";
    Ptr (Struct "sock") ⊳ "sk";
    Ptr (Const (Struct "proto_ops")) ⊳ "ops";
    pad c_long 64;
    pad c_long 64;
    pad c_long 64;
    Struct "socket_wq" ⊳ "wq"].

Definition struct_socket_wq : cdecl :=
  DStruct false [
    Name "wait_queue_head_t" ⊳ "wait";
    Ptr (Struct "fasync_struct") ⊳ "fasync_list";
    c_ulong ⊳ "flags";
    Struct "callback_head" ⊳ "rcu";
    pad c_long 64].

Definition struct_tcp_info : cdecl :=
  DStruct false [
    Name "__u8" ⊳ "tcpi_state";
    Name "__u8" ⊳ "tcpi_ca_state";
    Name "__u8" ⊳ "tcpi_retransmits";
    Name "__u8" ⊳ "tcpi_probes";
    Name "__u8" ⊳ "tcpi_backoff";
    Name "__u8" ⊳ "tcpi_options";
    bitfield (Name "__u8") "tcpi_snd_wscale" 4;
    bitfield (Name "__u8") "tcpi_rcv_wscale" 4;
    bitfield (Name "__u8") "tcpi_delivery_rate_app_limited" 1;
    bitfield (Name "__u8") "tcpi_fastopen_client_fail" 2;
    Name "__u32" ⊳ "tcpi_rto";
    Name "__u32" ⊳ "tcpi_ato";
    Name "__u32" ⊳ "tcpi_snd_mss";
    Name "__u32" ⊳ "tcpi_rcv_mss";
    Name "__u32" ⊳ "tcpi_unacked";
    Name "__u32" ⊳ "tcpi_sacked";
    Name "__u32" ⊳ "tcpi_lost";
    Name "__u32" ⊳ "tcpi_retrans";
    Name "__u32" ⊳ "tcpi_fackets";
    Name "__u32" ⊳ "tcpi_last_data_sent";
    Name "__u32" ⊳ "tcpi_last_ack_sent";
    Name "__u32" ⊳ "tcpi_last_data_recv";
    Name "__u32" ⊳ "tcpi_last_ack_recv";
    Name "__u32" ⊳ "tcpi_pmtu";
    Name "__u32" ⊳ "tcpi_rcv_ssthresh";
    Name "__u32" ⊳ "tcpi_rtt";
    Name "__u32" ⊳ "tcpi_rttvar";
    Name "__u32" ⊳ "tcpi_snd_ssthresh";
    Name "__u32" ⊳ "tcpi_snd_cwnd";
    Name "__u32" ⊳ "tcpi_advmss";
    Name "__u32" ⊳ "tcpi_reordering";
    Name "__u32" ⊳ "tcpi_rcv_rtt";
    Name "__u32" ⊳ "tcpi_rcv_space";
    Name "__u32" ⊳ "tcpi_total_retrans";
    Name "__u64" ⊳ "tcpi_pacing_rate";
    Name "__u64" ⊳ "tcpi_max_pacing_rate";
    Name "__u64" ⊳ "tcpi_bytes_acked";
    Name "__u64" ⊳ "tcpi_bytes_received";
    Name "__u32" ⊳ "tcpi_segs_out";
    Name "__u32" ⊳ "tcpi_segs_in";
    Name "__u32" ⊳ "tcpi_notsent_bytes";
    Name "__u32" ⊳ "tcpi_min_rtt";
    Name "__u32" ⊳ "tcpi_data_segs_in";
    Name "__u32" ⊳ "tcpi_data_segs_out";
    Name "__u64" ⊳ "tcpi_delivery_rate";
    Name "__u64" ⊳ "tcpi_busy_time";
    Name "__u64" ⊳ "tcpi_rwnd_limited";
    Name "__u64" ⊳ "tcpi_sndbuf_limited";
    Name "__u32" ⊳ "tcpi_delivered";
    Name "__u32" ⊳ "tcpi_delivered_ce";
    Name "__u64" ⊳ "tcpi_bytes_sent";
    Name "__u64" ⊳ "tcpi_bytes_retrans";
    Name "__u32" ⊳ "tcpi_dsack_dups";
    Name "__u32" ⊳ "tcpi_reord_seen";
    Name "__u32" ⊳ "tcpi_rcv_ooopack";
    Name "__u32" ⊳ "tcpi_snd_wnd";
    Name "__u32" ⊳ "tcpi_rcv_wnd";
    Name "__u32" ⊳ "tcpi_rehash";
    Name "__u16" ⊳ "tcpi_total_rto";
    Name "__u16" ⊳ "tcpi_total_rto_recoveries";
    Name "__u32" ⊳ "tcpi_total_rto_time"].

(** The declarations of this file, by name. *)
Definition env_sock : cenv := [
  ((SStruct, "bpf_sock_ops"), struct_bpf_sock_ops);
  ((SStruct, "bpf_sock_ops_kern"), struct_bpf_sock_ops_kern);
  ((SStruct, "bpf_sock"), struct_bpf_sock);
  ((SStruct, "tcp_sock"), struct_tcp_sock);
  ((SStruct, "inet_connection_sock"), struct_inet_connection_sock);
  ((SStruct, "inet_sock"), struct_inet_sock);
  ((SStruct, "sock"), struct_sock);
  ((SStruct, "sock_common"), struct_sock_common);
  ((SStruct, "hlist_node"), struct_hlist_node);
  ((STypedef, "possible_net_t"), typedef_possible_net_t);
  ((SStruct, "in6_addr"), struct_in6_addr);
  ((STypedef, "atomic64_t"), typedef_atomic64_t);
  ((SStruct, "hlist_nulls_node"), struct_hlist_nulls_node);
  ((SStruct, "refcount_struct"), struct_refcount_struct);
  ((STypedef, "atomic_t"), typedef_atomic_t);
  ((SStruct, "sk_buff_head"), struct_sk_buff_head);
  ((SStruct, "sk_buff_list"), struct_sk_buff_list);
  ((SStruct, "spinlock"), struct_spinlock);
  ((SStruct, "raw_spinlock"), struct_raw_spinlock);
  ((SStruct, "qspinlock"), struct_qspinlock);
  ((STypedef, "socket_lock_t"), typedef_socket_lock_t);
  ((SStruct, "wait_queue_head"), struct_wait_queue_head);
  ((SStruct, "list_head"), struct_list_head);
  ((SStruct, "rb_root"), struct_rb_root);
  ((SStruct, "page_frag"), struct_page_frag);
  ((SStruct, "timer_list"), struct_timer_list);
  ((STypedef, "rwlock_t"), typedef_rwlock_t);
  ((SStruct, "qrwlock"), struct_qrwlock);
  ((STypedef, "kuid_t"), typedef_kuid_t);
  ((SStruct, "sock_cgroup_data"), struct_sock_cgroup_data);
  ((SStruct, "callback_head"), struct_callback_head);
  ((STypedef, "netns_tracker"), typedef_netns_tracker);
  ((SStruct, "xarray"), struct_xarray);
  ((SStruct, "inet_cork_full"), struct_inet_cork_full);
  ((SStruct, "inet_cork"), struct_inet_cork);
  ((SStruct, "flowi"), struct_flowi);
  ((SStruct, "flowi_common"), struct_flowi_common);
  ((SStruct, "flowi_tunnel"), struct_flowi_tunnel);
  ((SStruct, "flowi4"), struct_flowi4);
  ((SUnion, "flowi_uli"), union_flowi_uli);
  ((SStruct, "flowi6"), struct_flowi6);
  ((SStruct, "request_sock_queue"), struct_request_sock_queue);
  ((SStruct, "fastopen_queue"), struct_fastopen_queue);
  ((SStruct, "minmax"), struct_minmax);
  ((SStruct, "minmax_sample"), struct_minmax_sample);
  ((SStruct, "tcp_options_received"), struct_tcp_options_received);
  ((SStruct, "tcp_rack"), struct_tcp_rack);
  ((SStruct, "hrtimer"), struct_hrtimer);
  ((SStruct, "timerqueue_node"), struct_timerqueue_node);
  ((SStruct, "rb_node"), struct_rb_node);
  ((SStruct, "tcp_sack_block"), struct_tcp_sack_block);
  ((SStruct, "tcp6_sock"), struct_tcp6_sock);
  ((SStruct, "ipv6_pinfo"), struct_ipv6_pinfo);
  ((SStruct, "in6_pktinfo"), struct_in6_pktinfo);
  ((SStruct, "inet6_cork"), struct_inet6_cork);
  ((SStruct, "sk_buff"), struct_sk_buff);
  ((SStruct, "llist_node"), struct_llist_node);
  ((SStruct, "proto"), struct_proto);
  ((SStruct, "tcp_congestion_ops"), struct_tcp_congestion_ops);
  ((SStruct, "bictcp"), struct_bictcp);
  ((SStruct, "tcp_request_sock"), struct_tcp_request_sock);
  ((SStruct, "inet_request_sock"), struct_inet_request_sock);
  ((SStruct, "request_sock"), struct_request_sock);
  ((SStruct, "inet_timewait_sock"), struct_inet_timewait_sock);
  ((SStruct, "socket"), struct_socket);
  ((SStruct, "socket_wq"), struct_socket_wq);
  ((SStruct, "tcp_info"), struct_tcp_info)].
