(* ===== verification/VmlinuxBpf.v ===== *)
(** * [vmlinux.h]: BPF maps, programs and cgroup attachment

    Hash maps ([struct bpf_htab], [struct htab_elem]), the [bpf] system call's
    attributes, programs, helper prototypes, links, and the cgroup structures the
    sock_ops program is attached through. *)
From S2P Require Import Prelude CTypes.
Local Open Scope Z_scope.
Local Open Scope tuner_scope.

Definition struct_bpf_map : cdecl :=
  DStruct false [
    Ptr (Const (Struct "bpf_map_ops")) ⊳ "ops";
    Ptr (Struct "bpf_map") ⊳ "inner_map_meta";
    Ptr Void ⊳ "security";
    Enum "bpf_map_type" ⊳ "map_type";
    Name "u32" ⊳ "key_size";
    Name "u32" ⊳ "value_size";
    Name "u32" ⊳ "max_entries";
    Name "u64" ⊳ "map_extra";
    Name "u32" ⊳ "map_flags";
    Name "u32" ⊳ "id";
    Ptr (Struct "btf_record") ⊳ "record";
    c_int ⊳ "numa_node";
    Name "u32" ⊳ "btf_key_type_id";
    Name "u32" ⊳ "btf_value_type_id";
    Name "u32" ⊳ "btf_vmlinux_value_type_id";
    Ptr (Struct "btf") ⊳ "btf";
    Ptr (Struct "obj_cgroup") ⊳ "objcg";
    Arr c_char 16 ⊳ "name";
    Struct "mutex" ⊳ "freeze_mutex";
    Name "atomic64_t" ⊳ "refcnt";
    Name "atomic64_t" ⊳ "usercnt";
    anon (AnonUnion [
      Struct "work_struct" ⊳ "work";
      Struct "callback_head" ⊳ "rcu"]);
    Name "atomic64_t" ⊳ "writecnt";
    Name "spinlock_t" ⊳ "owner_lock";
    Ptr (Struct "bpf_map_owner") ⊳ "owner";
    Name "bool" ⊳ "bypass_spec_v1";
    Name "bool" ⊳ "frozen";
    Name "bool" ⊳ "free_after_mult_rcu_gp";
    Name "bool" ⊳ "free_after_rcu_gp";
    Name "atomic64_t" ⊳ "sleepable_refcnt";
    Ptr (Name "s64") ⊳ "elem_count";
    Name "u64" ⊳ "cookie"].

Definition struct_mutex : cdecl :=
  DStruct false [
    Name "atomic_long_t" ⊳ "owner";
    Name "raw_spinlock_t" ⊳ "wait_lock";
    Struct "optimistic_spin_queue" ⊳ "osq";
    Struct "list_head" ⊳ "wait_list"].

Definition struct_optimistic_spin_queue : cdecl :=
  DStruct false [
    Name "atomic_t" ⊳ "tail"].

Definition struct_work_struct : cdecl :=
  DStruct false [
    Name "atomic_long_t" ⊳ "data";
    Struct "list_head" ⊳ "entry";
    Name "work_func_t" ⊳ "func"].

Definition struct_bpf_htab : cdecl :=
  DStruct false [
    Struct "bpf_map" ⊳ "map";
    Struct "bpf_mem_alloc" ⊳ "ma";
    Struct "bpf_mem_alloc" ⊳ "pcpu_ma";
    Ptr (Struct "bucket") ⊳ "buckets";
    Ptr Void ⊳ "elems";
    pad c_long 64;
    pad c_long 64;
    pad c_long 64;
    pad c_long 64;
    pad c_long 64;
    pad c_long 64;
    pad c_long 64;
    anon (AnonUnion [
      Struct "pcpu_freelist" ⊳ "freelist";
      Struct "bpf_lru" ⊳ "lru"]);
    Ptr (Ptr (Struct "htab_elem")) ⊳ "extra_elems";
    Struct "percpu_counter" ⊳ "pcount";
    Name "atomic_t" ⊳ "count";
    Name "bool" ⊳ "use_percpu_counter";
    Name "u32" ⊳ "n_buckets";
    Name "u32" ⊳ "elem_size";
    Name "u32" ⊳ "hashrnd";
    pad c_long 64;
    pad c_long 64;
    pad c_long 64;
    pad c_long 64;
    pad c_long 64;
    pad c_long 64;
    pad c_long 64].

Definition struct_bpf_mem_alloc : cdecl :=
  DStruct false [
    Ptr (Struct "bpf_mem_caches") ⊳ "caches";
    Ptr (Struct "bpf_mem_cache") ⊳ "cache";
    Ptr (Struct "obj_cgroup") ⊳ "objcg";
    Name "bool" ⊳ "percpu";
    Struct "work_struct" ⊳ "work"].

Definition struct_pcpu_freelist : cdecl :=
  DStruct false [
    Ptr (Struct "pcpu_freelist_head") ⊳ "freelist"].

Definition struct_bpf_lru : cdecl :=
  DStruct false [
    anon (AnonUnion [
      Struct "bpf_common_lru" ⊳ "common_lru";
      Ptr (Struct "bpf_lru_list") ⊳ "percpu_lru"]);
    Name "del_from_htab_func" ⊳ "del_from_htab";
    Ptr Void ⊳ "del_arg";
    c_uint ⊳ "hash_offset";
    c_uint ⊳ "target_free";
    c_uint ⊳ "nr_scans";
    Name "bool" ⊳ "percpu";
    pad c_long 64;
    pad c_long 64;
    pad c_long 64;
    pad c_long 64].

Definition struct_bpf_common_lru : cdecl :=
  DStruct false [
    Struct "bpf_lru_list" ⊳ "lru_list";
    Ptr (Struct "bpf_lru_locallist") ⊳ "local_list";
    pad c_long 64;
    pad c_long 64;
    pad c_long 64;
    pad c_long 64;
    pad c_long 64;
    pad c_long 64;
    pad c_long 64].

Definition struct_bpf_lru_list : cdecl :=
  DStruct false [
    Arr (Struct "list_head") 3 ⊳ "lists";
    Arr c_uint 2 ⊳ "counts";
    Ptr (Struct "list_head") ⊳ "next_inactive_rotation";
    Name "raw_spinlock_t" ⊳ "lock";
    pad c_long 64;
    pad c_long 64;
    pad c_long 64;
    pad c_long 64;
    pad c_long 64;
    pad c_long 64;
    pad c_long 64].

Definition struct_percpu_counter : cdecl :=
  DStruct false [
    Name "raw_spinlock_t" ⊳ "lock";
    Name "s64" ⊳ "count";
    Struct "list_head" ⊳ "list";
    Ptr (Name "s32") ⊳ "counters"].

Definition struct_htab_elem : cdecl :=
  DStruct false [
    anon (AnonUnion [
      Struct "hlist_nulls_node" ⊳ "hash_node";
      anon (AnonStruct [
        Ptr Void ⊳ "padding";
        anon (AnonUnion [
          Struct "pcpu_freelist_node" ⊳ "fnode";
          Ptr (Struct "htab_elem") ⊳ "batch_flink"])])]);
    anon (AnonUnion [
      Ptr Void ⊳ "ptr_to_pptr";
      Struct "bpf_lru_node" ⊳ "lru_node"]);
    Name "u32" ⊳ "hash";
    pad c_long 0;
    Arr c_char 0 ⊳ "key"].

Definition struct_pcpu_freelist_node : cdecl :=
  DStruct false [
    Ptr (Struct "pcpu_freelist_node") ⊳ "next"].

Definition struct_bpf_lru_node : cdecl :=
  DStruct false [
    Struct "list_head" ⊳ "list";
    Name "u16" ⊳ "cpu";
    Name "u8" ⊳ "type";
    Name "u8" ⊳ "ref"].

Definition union_bpf_attr : cdecl :=
  DUnion false [
    anon (AnonStruct [
      Name "__u32" ⊳ "map_type";
      Name "__u32" ⊳ "key_size";
      Name "__u32" ⊳ "value_size";
      Name "__u32" ⊳ "max_entries";
      Name "__u32" ⊳ "map_flags";
      Name "__u32" ⊳ "inner_map_fd";
      Name "__u32" ⊳ "numa_node";
      Arr c_char 16 ⊳ "map_name";
      Name "__u32" ⊳ "map_ifindex";
      Name "__u32" ⊳ "btf_fd";
      Name "__u32" ⊳ "btf_key_type_id";
      Name "__u32" ⊳ "btf_value_type_id";
      Name "__u32" ⊳ "btf_vmlinux_value_type_id";
      Name "__u64" ⊳ "map_extra";
      Name "__s32" ⊳ "value_type_btf_obj_fd";
      Name "__s32" ⊳ "map_token_fd"]);
    anon (AnonStruct [
      Name "__u32" ⊳ "map_fd";
      Name "__u64" ⊳ "key";
      anon (AnonUnion [
        Name "__u64" ⊳ "value";
        Name "__u64" ⊳ "next_key"]);
      Name "__u64" ⊳ "flags"]);
    AnonStruct [
      Name "__u64" ⊳ "in_batch";
      Name "__u64" ⊳ "out_batch";
      Name "__u64" ⊳ "keys";
      Name "__u64" ⊳ "values";
      Name "__u32" ⊳ "count";
      Name "__u32" ⊳ "map_fd";
      Name "__u64" ⊳ "elem_flags";
      Name "__u64" ⊳ "flags"] ⊳ "batch";
    anon (AnonStruct [
      Name "__u32" ⊳ "prog_type";
      Name "__u32" ⊳ "insn_cnt";
      Name "__u64" ⊳ "insns";
      Name "__u64" ⊳ "license";
      Name "__u32" ⊳ "log_level";
      Name "__u32" ⊳ "log_size";
      Name "__u64" ⊳ "log_buf";
      Name "__u32" ⊳ "kern_version";
      Name "__u32" ⊳ "prog_flags";
      Arr c_char 16 ⊳ "prog_name";
      Name "__u32" ⊳ "prog_ifindex";
      Name "__u32" ⊳ "expected_attach_type";
      Name "__u32" ⊳ "prog_btf_fd";
      Name "__u32" ⊳ "func_info_rec_size";
      Name "__u64" ⊳ "func_info";
      Name "__u32" ⊳ "func_info_cnt";
      Name "__u32" ⊳ "line_info_rec_size";
      Name "__u64" ⊳ "line_info";
      Name "__u32" ⊳ "line_info_cnt";
      Name "__u32" ⊳ "attach_btf_id";
      anon (AnonUnion [
        Name "__u32" ⊳ "attach_prog_fd";
        Name "__u32" ⊳ "attach_btf_obj_fd"]);
      Name "__u32" ⊳ "core_relo_cnt";
      Name "__u64" ⊳ "fd_array";
      Name "__u64" ⊳ "core_relos";
      Name "__u32" ⊳ "core_relo_rec_size";
      Name "__u32" ⊳ "log_true_size";
      Name "__s32" ⊳ "prog_token_fd";
      Name "__u32" ⊳ "fd_array_cnt"]);
    anon (AnonStruct [
      Name "__u64" ⊳ "pathname";
      Name "__u32" ⊳ "bpf_fd";
      Name "__u32" ⊳ "file_flags";
      Name "__s32" ⊳ "path_fd"]);
    anon (AnonStruct [
      anon (AnonUnion [
        Name "__u32" ⊳ "target_fd";
        Name "__u32" ⊳ "target_ifindex"]);
      Name "__u32" ⊳ "attach_bpf_fd";
      Name "__u32" ⊳ "attach_type";
      Name "__u32" ⊳ "attach_flags";
      Name "__u32" ⊳ "replace_bpf_fd";
      anon (AnonUnion [
        Name "__u32" ⊳ "relative_fd";
        Name "__u32" ⊳ "relative_id"]);
      Name "__u64" ⊳ "expected_revision"]);
    AnonStruct [
      Name "__u32" ⊳ "prog_fd";
      Name "__u32" ⊳ "retval";
      Name "__u32" ⊳ "data_size_in";
      Name "__u32" ⊳ "data_size_out";
      Name "__u64" ⊳ "data_in";
      Name "__u64" ⊳ "data_out";
      Name "__u32" ⊳ "repeat";
      Name "__u32" ⊳ "duration";
      Name "__u32" ⊳ "ctx_size_in";
      Name "__u32" ⊳ "ctx_size_out";
      Name "__u64" ⊳ "ctx_in";
      Name "__u64" ⊳ "ctx_out";
      Name "__u32" ⊳ "flags";
      Name "__u32" ⊳ "cpu";
      Name "__u32" ⊳ "batch_size"] ⊳ "test";
    anon (AnonStruct [
      anon (AnonUnion [
        Name "__u32" ⊳ "start_id";
        Name "__u32" ⊳ "prog_id";
        Name "__u32" ⊳ "map_id";
        Name "__u32" ⊳ "btf_id";
        Name "__u32" ⊳ "link_id"]);
      Name "__u32" ⊳ "next_id";
      Name "__u32" ⊳ "open_flags";
      Name "__s32" ⊳ "fd_by_id_token_fd"]);
    AnonStruct [
      Name "__u32" ⊳ "bpf_fd";
      Name "__u32" ⊳ "info_len";
      Name "__u64" ⊳ "info"] ⊳ "info";
    AnonStruct [
      anon (AnonUnion [
        Name "__u32" ⊳ "target_fd";
        Name "__u32" ⊳ "target_ifindex"]);
      Name "__u32" ⊳ "attach_type";
      Name "__u32" ⊳ "query_flags";
      Name "__u32" ⊳ "attach_flags";
      Name "__u64" ⊳ "prog_ids";
      anon (AnonUnion [
        Name "__u32" ⊳ "prog_cnt";
        Name "__u32" ⊳ "count"]);
      Name "__u64" ⊳ "prog_attach_flags";
      Name "__u64" ⊳ "link_ids";
      Name "__u64" ⊳ "link_attach_flags";
      Name "__u64" ⊳ "revision"] ⊳ "query";
    AnonStruct [
      Name "__u64" ⊳ "name";
      Name "__u32" ⊳ "prog_fd";
      Name "__u64" ⊳ "cookie"] ⊳ "raw_tracepoint";
    anon (AnonStruct [
      Name "__u64" ⊳ "btf";
      Name "__u64" ⊳ "btf_log_buf";
      Name "__u32" ⊳ "btf_size";
      Name "__u32" ⊳ "btf_log_size";
      Name "__u32" ⊳ "btf_log_level";
      Name "__u32" ⊳ "btf_log_true_size";
      Name "__u32" ⊳ "btf_flags";
      Name "__s32" ⊳ "btf_token_fd"]);
    AnonStruct [
      Name "__u32" ⊳ "pid";
      Name "__u32" ⊳ "fd";
      Name "__u32" ⊳ "flags";
      Name "__u32" ⊳ "buf_len";
      Name "__u64" ⊳ "buf";
      Name "__u32" ⊳ "prog_id";
      Name "__u32" ⊳ "fd_type";
      Name "__u64" ⊳ "probe_offset";
      Name "__u64" ⊳ "probe_addr"] ⊳ "task_fd_query";
    AnonStruct [
      anon (AnonUnion [
        Name "__u32" ⊳ "prog_fd";
        Name "__u32" ⊳ "map_fd"]);
      anon (AnonUnion [
        Name "__u32" ⊳ "target_fd";
        Name "__u32" ⊳ "target_ifindex"]);
      Name "__u32" ⊳ "attach_type";
      Name "__u32" ⊳ "flags";
      anon (AnonUnion [
        Name "__u32" ⊳ "target_btf_id";
        anon (AnonStruct [
          Name "__u64" ⊳ "iter_info";
          Name "__u32" ⊳ "iter_info_len"]);
        AnonStruct [
          Name "__u64" ⊳ "bpf_cookie"] ⊳ "perf_event";
        AnonStruct [
          Name "__u32" ⊳ "flags";
          Name "__u32" ⊳ "cnt";
          Name "__u64" ⊳ "syms";
          Name "__u64" ⊳ "addrs";
          Name "__u64" ⊳ "cookies"] ⊳ "kprobe_multi";
        AnonStruct [
          Name "__u32" ⊳ "target_btf_id";
          Name "__u64" ⊳ "cookie"] ⊳ "tracing";
        AnonStruct [
          Name "__u32" ⊳ "pf";
          Name "__u32" ⊳ "hooknum";
          Name "__s32" ⊳ "priority";
          Name "__u32" ⊳ "flags"] ⊳ "netfilter";
        AnonStruct [
          anon (AnonUnion [
            Name "__u32" ⊳ "relative_fd";
            Name "__u32" ⊳ "relative_id"]);
          Name "__u64" ⊳ "expected_revision"] ⊳ "tcx";
        AnonStruct [
          Name "__u64" ⊳ "path";
          Name "__u64" ⊳ "offsets";
          Name "__u64" ⊳ "ref_ctr_offsets";
          Name "__u64" ⊳ "cookies";
          Name "__u32" ⊳ "cnt";
          Name "__u32" ⊳ "flags";
          Name "__u32" ⊳ "pid"] ⊳ "uprobe_multi";
        AnonStruct [
          anon (AnonUnion [
            Name "__u32" ⊳ "relative_fd";
            Name "__u32" ⊳ "relative_id"]);
          Name "__u64" ⊳ "expected_revision"] ⊳ "netkit";
        AnonStruct [
          anon (AnonUnion [
            Name "__u32" ⊳ "relative_fd";
            Name "__u32" ⊳ "relative_id"]);
          Name "__u64" ⊳ "expected_revision"] ⊳ "cgroup"])] ⊳ "link_create";
    AnonStruct [
      Name "__u32" ⊳ "link_fd";
      anon (AnonUnion [
        Name "__u32" ⊳ "new_prog_fd";
        Name "__u32" ⊳ "new_map_fd"]);
      Name "__u32" ⊳ "flags";
      anon (AnonUnion [
        Name "__u32" ⊳ "old_prog_fd";
        Name "__u32" ⊳ "old_map_fd"])] ⊳ "link_update";
    AnonStruct [
      Name "__u32" ⊳ "link_fd"] ⊳ "link_detach";
    AnonStruct [
      Name "__u32" ⊳ "type"] ⊳ "enable_stats";
    AnonStruct [
      Name "__u32" ⊳ "link_fd";
      Name "__u32" ⊳ "flags"] ⊳ "iter_create";
    AnonStruct [
      Name "__u32" ⊳ "prog_fd";
      Name "__u32" ⊳ "map_fd";
      Name "__u32" ⊳ "flags"] ⊳ "prog_bind_map";
    AnonStruct [
      Name "__u32" ⊳ "flags";
      Name "__u32" ⊳ "bpffs_fd"] ⊳ "token_create";
    AnonStruct [
      Name "__u64" ⊳ "stream_buf";
      Name "__u32" ⊳ "stream_buf_len";
      Name "__u32" ⊳ "stream_id";
      Name "__u32" ⊳ "prog_fd"] ⊳ "prog_stream_read"].

Definition struct_bpf_prog : cdecl :=
  DStruct false [
    Name "u16" ⊳ "pages";
    bitfield (Name "u16") "jited" 1;
    bitfield (Name "u16") "jit_requested" 1;
    bitfield (Name "u16") "gpl_compatible" 1;
    bitfield (Name "u16") "cb_access" 1;
    bitfield (Name "u16") "dst_needed" 1;
    bitfield (Name "u16") "blinding_requested" 1;
    bitfield (Name "u16") "blinded" 1;
    bitfield (Name "u16") "is_func" 1;
    bitfield (Name "u16") "kprobe_override" 1;
    bitfield (Name "u16") "has_callchain_buf" 1;
    bitfield (Name "u16") "enforce_expected_attach_type" 1;
    bitfield (Name "u16") "call_get_stack" 1;
    bitfield (Name "u16") "call_get_func_ip" 1;
    bitfield (Name "u16") "tstamp_type_access" 1;
    bitfield (Name "u16") "sleepable" 1;
    Enum "bpf_prog_type" ⊳ "type";
    Enum "bpf_attach_type" ⊳ "expected_attach_type";
    Name "u32" ⊳ "len";
    Name "u32" ⊳ "jited_len";
    Arr (Name "u8") 8 ⊳ "tag";
    Ptr (Struct "bpf_prog_stats") ⊳ "stats";
    Ptr c_int ⊳ "active";
    Ptr (Fun c_uint [Ptr (Const Void); Ptr (Const (Struct "bpf_insn"))]) ⊳ "bpf_func";
    Ptr (Struct "bpf_prog_aux") ⊳ "aux";
    Ptr (Struct "sock_fprog_kern") ⊳ "orig_prog";
    anon (AnonUnion [
      anon (AnonStruct [
        AnonStruct [] ⊳ "__empty_insns";
        Arr (Struct "sock_filter") 0 ⊳ "insns"]);
      anon (AnonStruct [
        AnonStruct [] ⊳ "__empty_insnsi";
        Arr (Struct "bpf_insn") 0 ⊳ "insnsi"])])].

Definition struct_sock_filter : cdecl :=
  DStruct false [
    Name "__u16" ⊳ "code";
    Name "__u8" ⊳ "jt";
    Name "__u8" ⊳ "jf";
    Name "__u32" ⊳ "k"].

Definition struct_bpf_insn : cdecl :=
  DStruct false [
    Name "__u8" ⊳ "code";
    bitfield (Name "__u8") "dst_reg" 4;
    bitfield (Name "__u8") "src_reg" 4;
    Name "__s16" ⊳ "off";
    Name "__s32" ⊳ "imm"].

Definition struct_bpf_prog_aux : cdecl :=
  DStruct false [
    Name "atomic64_t" ⊳ "refcnt";
    Name "u32" ⊳ "used_map_cnt";
    Name "u32" ⊳ "used_btf_cnt";
    Name "u32" ⊳ "max_ctx_offset";
    Name "u32" ⊳ "max_pkt_offset";
    Name "u32" ⊳ "max_tp_access";
    Name "u32" ⊳ "stack_depth";
    Name "u32" ⊳ "id";
    Name "u32" ⊳ "func_cnt";
    Name "u32" ⊳ "real_func_cnt";
    Name "u32" ⊳ "func_idx";
    Name "u32" ⊳ "attach_btf_id";
    Name "u32" ⊳ "attach_st_ops_member_off";
    Name "u32" ⊳ "ctx_arg_info_size";
    Name "u32" ⊳ "max_rdonly_access";
    Name "u32" ⊳ "max_rdwr_access";
    Ptr (Struct "btf") ⊳ "attach_btf";
    Ptr (Struct "bpf_ctx_arg_aux") ⊳ "ctx_arg_info";
    Ptr Void ⊳ "priv_stack_ptr";
    Struct "mutex" ⊳ "dst_mutex";
    Ptr (Struct "bpf_prog") ⊳ "dst_prog";
    Ptr (Struct "bpf_trampoline") ⊳ "dst_trampoline";
    Enum "bpf_prog_type" ⊳ "saved_dst_prog_type";
    Enum "bpf_attach_type" ⊳ "saved_dst_attach_type";
    Name "bool" ⊳ "verifier_zext";
    Name "bool" ⊳ "dev_bound";
    Name "bool" ⊳ "offload_requested";
    Name "bool" ⊳ "attach_btf_trace";
    Name "bool" ⊳ "attach_tracing_prog";
    Name "bool" ⊳ "func_proto_unreliable";
    Name "bool" ⊳ "tail_call_reachable";
    Name "bool" ⊳ "xdp_has_frags";
    Name "bool" ⊳ "exception_cb";
    Name "bool" ⊳ "exception_boundary";
    Name "bool" ⊳ "is_extended";
    Name "bool" ⊳ "jits_use_priv_stack";
    Name "bool" ⊳ "priv_stack_requested";
    Name "bool" ⊳ "changes_pkt_data";
    Name "bool" ⊳ "might_sleep";
    Name "u64" ⊳ "prog_array_member_cnt";
    Struct "mutex" ⊳ "ext_mutex";
    Ptr (Struct "bpf_arena") ⊳ "arena";
    Ptr (Fun Void [Ptr (Struct "bpf_prog")]) ⊳ "recursion_detected";
    Ptr (Const (Struct "btf_type")) ⊳ "attach_func_proto";
    Ptr (Const c_char) ⊳ "attach_func_name";
    Ptr (Ptr (Struct "bpf_prog")) ⊳ "func";
    Ptr Void ⊳ "jit_data";
    Ptr (Struct "bpf_jit_poke_descriptor") ⊳ "poke_tab";
    Ptr (Struct "bpf_kfunc_desc_tab") ⊳ "kfunc_tab";
    Ptr (Struct "bpf_kfunc_btf_tab") ⊳ "kfunc_btf_tab";
    Name "u32" ⊳ "size_poke_tab";
    Struct "bpf_ksym" ⊳ "ksym";
    Ptr (Const (Struct "bpf_prog_ops")) ⊳ "ops";
    Ptr (Const (Struct "bpf_struct_ops")) ⊳ "st_ops";
    Ptr (Ptr (Struct "bpf_map")) ⊳ "used_maps";
    Struct "mutex" ⊳ "used_maps_mutex";
    Ptr (Struct "btf_mod_pair") ⊳ "used_btfs";
    Ptr (Struct "bpf_prog") ⊳ "prog";
    Ptr (Struct "user_struct") ⊳ "user";
    Name "u64" ⊳ "load_time";
    Name "u32" ⊳ "verified_insns";
    c_int ⊳ "cgroup_atype";
    Arr (Ptr (Struct "bpf_map")) 2 ⊳ "cgroup_storage";
    Arr c_char 16 ⊳ "name";
    Ptr (Fun (Name "u64") [Name "u64"; Name "u64"; Name "u64"; Name "u64"; Name "u64"]) ⊳ "bpf_exception_cb";
    Ptr Void ⊳ "security";
    Ptr (Struct "bpf_token") ⊳ "token";
    Ptr (Struct "bpf_prog_offload") ⊳ "offload";
    Ptr (Struct "btf") ⊳ "btf";
    Ptr (Struct "bpf_func_info") ⊳ "func_info";
    Ptr (Struct "bpf_func_info_aux") ⊳ "func_info_aux";
    Ptr (Struct "bpf_line_info") ⊳ "linfo";
    Ptr (Ptr Void) ⊳ "jited_linfo";
    Name "u32" ⊳ "func_info_cnt";
    Name "u32" ⊳ "nr_linfo";
    Name "u32" ⊳ "linfo_idx";
    Ptr (Struct "module") ⊳ "mod";
    Name "u32" ⊳ "num_exentries";
    Ptr (Struct "exception_table_entry") ⊳ "extable";
    anon (AnonUnion [
      Struct "work_struct" ⊳ "work";
      Struct "callback_head" ⊳ "rcu"]);
    Arr (Struct "bpf_stream") 2 ⊳ "stream"].

Definition struct_bpf_ksym : cdecl :=
  DStruct false [
    c_ulong ⊳ "start";
    c_ulong ⊳ "end";
    Arr c_char 512 ⊳ "name";
    Struct "list_head" ⊳ "lnode";
    Struct "latch_tree_node" ⊳ "tnode";
    Name "bool" ⊳ "prog"].

Definition struct_latch_tree_node : cdecl :=
  DStruct false [
    Arr (Struct "rb_node") 2 ⊳ "node"].

Definition struct_bpf_stream : cdecl :=
  DStruct false [
    Name "atomic_t" ⊳ "capacity";
    Struct "llist_head" ⊳ "log";
    Struct "mutex" ⊳ "lock";
    Ptr (Struct "llist_node") ⊳ "backlog_head";
    Ptr (Struct "llist_node") ⊳ "backlog_tail"].

Definition struct_llist_head : cdecl :=
  DStruct false [
    Ptr (Struct "llist_node") ⊳ "first"].

Definition struct_bpf_func_proto : cdecl :=
  DStruct false [
    Ptr (Fun (Name "u64") [Name "u64"; Name "u64"; Name "u64"; Name "u64"; Name "u64"]) ⊳ "func";
    Name "bool" ⊳ "gpl_only";
    Name "bool" ⊳ "pkt_access";
    Name "bool" ⊳ "might_sleep";
    Name "bool" ⊳ "allow_fastcall";
    Enum "bpf_return_type" ⊳ "ret_type";
    anon (AnonUnion [
      anon (AnonStruct [
        Enum "bpf_arg_type" ⊳ "arg1_type";
        Enum "bpf_arg_type" ⊳ "arg2_type";
        Enum "bpf_arg_type" ⊳ "arg3_type";
        Enum "bpf_arg_type" ⊳ "arg4_type";
        Enum "bpf_arg_type" ⊳ "arg5_type"]);
      Arr (Enum "bpf_arg_type") 5 ⊳ "arg_type"]);
    anon (AnonUnion [
      anon (AnonStruct [
        Ptr (Name "u32") ⊳ "arg1_btf_id";
        Ptr (Name "u32") ⊳ "arg2_btf_id";
        Ptr (Name "u32") ⊳ "arg3_btf_id";
        Ptr (Name "u32") ⊳ "arg4_btf_id";
        Ptr (Name "u32") ⊳ "arg5_btf_id"]);
      Arr (Ptr (Name "u32")) 5 ⊳ "arg_btf_id";
      anon (AnonStruct [
        Name "size_t" ⊳ "arg1_size";
        Name "size_t" ⊳ "arg2_size";
        Name "size_t" ⊳ "arg3_size";
        Name "size_t" ⊳ "arg4_size";
        Name "size_t" ⊳ "arg5_size"]);
      Arr (Name "size_t") 5 ⊳ "arg_size"]);
    Ptr c_int ⊳ "ret_btf_id";
    Ptr (Fun (Name "bool") [Ptr (Const (Struct "bpf_prog"))]) ⊳ "allowed"].

Definition struct_bpf_link : cdecl :=
  DStruct false [
    Name "atomic64_t" ⊳ "refcnt";
    Name "u32" ⊳ "id";
    Enum "bpf_link_type" ⊳ "type";
    Ptr (Const (Struct "bpf_link_ops")) ⊳ "ops";
    Ptr (Struct "bpf_prog") ⊳ "prog";
    Name "u32" ⊳ "flags";
    Enum "bpf_attach_type" ⊳ "attach_type";
    anon (AnonUnion [
      Struct "callback_head" ⊳ "rcu";
      Struct "work_struct" ⊳ "work"]);
    Name "bool" ⊳ "sleepable"].

Definition struct_bpf_cgroup_link : cdecl :=
  DStruct false [
    Struct "bpf_link" ⊳ "link";
    Ptr (Struct "cgroup") ⊳ "cgroup"].

Definition struct_cgroup_bpf : cdecl :=
  DStruct false [
    Arr (Ptr (Struct "bpf_prog_array")) 38 ⊳ "effective";
    Arr (Struct "hlist_head") 38 ⊳ "progs";
    Arr (Name "u8") 38 ⊳ "flags";
    Arr (Name "u64") 38 ⊳ "revisions";
    Struct "list_head" ⊳ "storages";
    Ptr (Struct "bpf_prog_array") ⊳ "inactive";
    Struct "percpu_ref" ⊳ "refcnt";
    Struct "work_struct" ⊳ "release_work"].

Definition struct_hlist_head : cdecl :=
  DStruct false [
    Ptr (Struct "hlist_node") ⊳ "first"].

Definition struct_percpu_ref : cdecl :=
  DStruct false [
    c_ulong ⊳ "percpu_count_ptr";
    Ptr (Struct "percpu_ref_data") ⊳ "data"].

Definition struct_cgroup : cdecl :=
  DStruct false [
    Struct "cgroup_subsys_state" ⊳ "self";
    c_ulong ⊳ "flags";
    c_int ⊳ "level";
    c_int ⊳ "max_depth";
    c_int ⊳ "nr_descendants";
    c_int ⊳ "nr_dying_descendants";
    c_int ⊳ "max_descendants";
    c_int ⊳ "nr_populated_csets";
    c_int ⊳ "nr_populated_domain_children";
    c_int ⊳ "nr_populated_threaded_children";
    c_int ⊳ "nr_threaded_children";
    c_uint ⊳ "kill_seq";
    Ptr (Struct "kernfs_node") ⊳ "kn";
    Struct "cgroup_file" ⊳ "procs_file";
    Struct "cgroup_file" ⊳ "events_file";
    Arr (Struct "cgroup_file") 3 ⊳ "psi_files";
    Name "u16" ⊳ "subtree_control";
    Name "u16" ⊳ "subtree_ss_mask";
    Name "u16" ⊳ "old_subtree_control";
    Name "u16" ⊳ "old_subtree_ss_mask";
    Arr (Ptr (Struct "cgroup_subsys_state")) 15 ⊳ "subsys";
    Arr c_int 15 ⊳ "nr_dying_subsys";
    Ptr (Struct "cgroup_root") ⊳ "root";
    Struct "list_head" ⊳ "cset_links";
    Arr (Struct "list_head") 15 ⊳ "e_csets";
    Ptr (Struct "cgroup") ⊳ "dom_cgrp";
    Ptr (Struct "cgroup") ⊳ "old_dom_cgrp";
    Ptr (Struct "cgroup_rstat_base_cpu") ⊳ "rstat_base_cpu";
    Struct "cacheline_padding" ⊳ "_pad_";
    Struct "cgroup_base_stat" ⊳ "last_bstat";
    Struct "cgroup_base_stat" ⊳ "bstat";
    Struct "prev_cputime" ⊳ "prev_cputime";
    Struct "list_head" ⊳ "pidlists";
    Struct "mutex" ⊳ "pidlist_mutex";
    Name "wait_queue_head_t" ⊳ "offline_waitq";
    Struct "work_struct" ⊳ "release_agent_work";
    Ptr (Struct "psi_group") ⊳ "psi";
    Struct "cgroup_bpf" ⊳ "bpf";
    Struct "cgroup_freezer_state" ⊳ "freezer";
    Ptr (Struct "bpf_local_storage") ⊳ "bpf_cgrp_storage";
    Arr (Ptr (Struct "cgroup")) 0 ⊳ "ancestors";
    pad c_long 64;
    pad c_long 64].

Definition struct_cgroup_subsys_state : cdecl :=
  DStruct false [
    Ptr (Struct "cgroup") ⊳ "cgroup";
    Ptr (Struct "cgroup_subsys") ⊳ "ss";
    Struct "percpu_ref" ⊳ "refcnt";
    Ptr (Struct "css_rstat_cpu") ⊳ "rstat_cpu";
    Struct "list_head" ⊳ "sibling";
    Struct "list_head" ⊳ "children";
    c_int ⊳ "id";
    c_uint ⊳ "flags";
    Name "u64" ⊳ "serial_nr";
    Name "atomic_t" ⊳ "online_cnt";
    Struct "work_struct" ⊳ "destroy_work";
    Struct "rcu_work" ⊳ "destroy_rwork";
    Ptr (Struct "cgroup_subsys_state") ⊳ "parent";
    c_int ⊳ "nr_descendants";
    Ptr (Struct "cgroup_subsys_state") ⊳ "rstat_flush_next"].

Definition struct_rcu_work : cdecl :=
  DStruct false [
    Struct "work_struct" ⊳ "work";
    Struct "callback_head" ⊳ "rcu";
    Ptr (Struct "workqueue_struct") ⊳ "wq"].

Definition struct_cgroup_file : cdecl :=
  DStruct false [
    Ptr (Struct "kernfs_node") ⊳ "kn";
    c_ulong ⊳ "notified_at";
    Struct "timer_list" ⊳ "notify_timer"].

Definition struct_cacheline_padding : cdecl :=
  DStruct false [
    Arr c_char 0 ⊳ "x"].

Definition struct_cgroup_base_stat : cdecl :=
  DStruct false [
    Struct "task_cputime" ⊳ "cputime";
    Name "u64" ⊳ "forceidle_sum";
    Name "u64" ⊳ "ntime"].

Definition struct_task_cputime : cdecl :=
  DStruct false [
    Name "u64" ⊳ "stime";
    Name "u64" ⊳ "utime";
    c_ullong ⊳ "sum_exec_runtime"].

Definition struct_prev_cputime : cdecl :=
  DStruct false [
    Name "u64" ⊳ "utime";
    Name "u64" ⊳ "stime";
    Name "raw_spinlock_t" ⊳ "lock"].

Definition struct_cgroup_freezer_state : cdecl :=
  DStruct false [
    Name "bool" ⊳ "freeze";
    Name "bool" ⊳ "e_freeze";
    c_int ⊳ "nr_frozen_descendants";
    c_int ⊳ "nr_frozen_tasks"].

(** The declarations of this file, by name. *)
Definition env_bpf : cenv := [
  ((SStruct, "bpf_map"), struct_bpf_map);
  ((SStruct, "mutex"), struct_mutex);
  ((SStruct, "optimistic_spin_queue"), struct_optimistic_spin_queue);
  ((SStruct, "work_struct"), struct_work_struct);
  ((SStruct, "bpf_htab"), struct_bpf_htab);
  ((SStruct, "bpf_mem_alloc"), struct_bpf_mem_alloc);
  ((SStruct, "pcpu_freelist"), struct_pcpu_freelist);
  ((SStruct, "bpf_lru"), struct_bpf_lru);
  ((SStruct, "bpf_common_lru"), struct_bpf_common_lru);
  ((SStruct, "bpf_lru_list"), struct_bpf_lru_list);
  ((SStruct, "percpu_counter"), struct_percpu_counter);
  ((SStruct, "htab_elem"), struct_htab_elem);
  ((SStruct, "pcpu_freelist_node"), struct_pcpu_freelist_node);
  ((SStruct, "bpf_lru_node"), struct_bpf_lru_node);
  ((SUnion, "bpf_attr"), union_bpf_attr);
  ((SStruct, "bpf_prog"), struct_bpf_prog);
  ((SStruct, "sock_filter"), struct_sock_filter);
  ((SStruct, "bpf_insn"), struct_bpf_insn);
  ((SStruct, "bpf_prog_aux"), struct_bpf_prog_aux);
  ((SStruct, "bpf_ksym"), struct_bpf_ksym);
  ((SStruct, "latch_tree_node"), struct_latch_tree_node);
  ((SStruct, "bpf_stream"), struct_bpf_stream);
  ((SStruct, "llist_head"), struct_llist_head);
  ((SStruct, "bpf_func_proto"), struct_bpf_func_proto);
  ((SStruct, "bpf_link"), struct_bpf_link);
  ((SStruct, "bpf_cgroup_link"), struct_bpf_cgroup_link);
  ((SStruct, "cgroup_bpf"), struct_cgroup_bpf);
  ((SStruct, "hlist_head"), struct_hlist_head);
  ((SStruct, "percpu_ref"), struct_percpu_ref);
  ((SStruct, "cgroup"), struct_cgroup);
  ((SStruct, "cgroup_subsys_state"), struct_cgroup_subsys_state);
  ((SStruct, "rcu_work"), struct_rcu_work);
  ((SStruct, "cgroup_file"), struct_cgroup_file);
  ((SStruct, "cacheline_padding"), struct_cacheline_padding);
  ((SStruct, "cgroup_base_stat"), struct_cgroup_base_stat);
  ((SStruct, "task_cputime"), struct_task_cputime);
  ((SStruct, "prev_cputime"), struct_prev_cputime);
  ((SStruct, "cgroup_freezer_state"), struct_cgroup_freezer_state)].
