(* ===== verification/VmlinuxTask.v ===== *)
(** * [vmlinux.h]: tasks

    [struct task_struct], whose thread-group id keys the metrics map, with what
    it holds by value. *)
From S2P Require Import Prelude CTypes.
Local Open Scope Z_scope.
Local Open Scope tuner_scope.

Definition struct_task_struct : cdecl :=
  DStruct false [
    Struct "thread_info" ⊳ "thread_info";
    c_uint ⊳ "__state";
    c_uint ⊳ "saved_state";
    Ptr Void ⊳ "stack";
    Name "refcount_t" ⊳ "usage";
    c_uint ⊳ "flags";
    c_uint ⊳ "ptrace";
    c_int ⊳ "on_cpu";
    Struct "__call_single_node" ⊳ "wake_entry";
    c_uint ⊳ "wakee_flips";
    c_ulong ⊳ "wakee_flip_decay_ts";
    Ptr (Struct "task_struct") ⊳ "last_wakee";
    c_int ⊳ "recent_used_cpu";
    c_int ⊳ "wake_cpu";
    c_int ⊳ "on_rq";
    c_int ⊳ "prio";
    c_int ⊳ "static_prio";
    c_int ⊳ "normal_prio";
    c_uint ⊳ "rt_priority";
    Struct "sched_entity" ⊳ "se";
    Struct "sched_rt_entity" ⊳ "rt";
    Struct "sched_dl_entity" ⊳ "dl";
    Ptr (Struct "sched_dl_entity") ⊳ "dl_server";
    Struct "sched_ext_entity" ⊳ "scx";
    Ptr (Const (Struct "sched_class")) ⊳ "sched_class";
    Struct "rb_node" ⊳ "core_node";
    c_ulong ⊳ "core_cookie";
    c_uint ⊳ "core_occupation";
    Ptr (Struct "task_group") ⊳ "sched_task_group";
    Arr (Struct "uclamp_se") 2 ⊳ "uclamp_req";
    Arr (Struct "uclamp_se") 2 ⊳ "uclamp";
    Struct "sched_statistics" ⊳ "stats";
    Struct "hlist_head" ⊳ "preempt_notifiers";
    c_uint ⊳ "btrace_seq";
    c_uint ⊳ "policy";
    c_ulong ⊳ "max_allowed_capacity";
    c_int ⊳ "nr_cpus_allowed";
    Ptr (Const (Name "cpumask_t")) ⊳ "cpus_ptr";
    Ptr (Name "cpumask_t") ⊳ "user_cpus_ptr";
    Name "cpumask_t" ⊳ "cpus_mask";
    Ptr Void ⊳ "migration_pending";
    c_ushort ⊳ "migration_disabled";
    c_ushort ⊳ "migration_flags";
    c_int ⊳ "trc_reader_nesting";
    c_int ⊳ "trc_ipi_to_cpu";
    Union "rcu_special" ⊳ "trc_reader_special";
    Struct "list_head" ⊳ "trc_holdout_list";
    Struct "list_head" ⊳ "trc_blkd_node";
    c_int ⊳ "trc_blkd_cpu";
    Struct "sched_info" ⊳ "sched_info";
    Struct "list_head" ⊳ "tasks";
    Struct "plist_node" ⊳ "pushable_tasks";
    Struct "rb_node" ⊳ "pushable_dl_tasks";
    Ptr (Struct "mm_struct") ⊳ "mm";
    Ptr (Struct "mm_struct") ⊳ "active_mm";
    Ptr (Struct "address_space") ⊳ "faults_disabled_mapping";
    c_int ⊳ "exit_state";
    c_int ⊳ "exit_code";
    c_int ⊳ "exit_signal";
    c_int ⊳ "pdeath_signal";
    c_ulong ⊳ "jobctl";
    c_uint ⊳ "personality";
    bitfield c_uint "sched_reset_on_fork" 1;
    bitfield c_uint "sched_contributes_to_load" 1;
    bitfield c_uint "sched_migrated" 1;
    bitfield c_uint "sched_task_hot" 1;
    pad c_long 28;
    bitfield c_uint "sched_remote_wakeup" 1;
    bitfield c_uint "sched_rt_mutex" 1;
    bitfield c_uint "in_execve" 1;
    bitfield c_uint "in_iowait" 1;
    bitfield c_uint "restore_sigmask" 1;
    bitfield c_uint "in_lru_fault" 1;
    bitfield c_uint "no_cgroup_migration" 1;
    bitfield c_uint "frozen" 1;
    bitfield c_uint "use_memdelay" 1;
    bitfield c_uint "in_memstall" 1;
    bitfield c_uint "in_eventfd" 1;
    bitfield c_uint "pasid_activated" 1;
    bitfield c_uint "reported_split_lock" 1;
    bitfield c_uint "in_thrashing" 1;
    bitfield c_uint "in_nf_duplicate" 1;
    c_ulong ⊳ "atomic_flags";
    Struct "restart_block" ⊳ "restart_block";
    Name "pid_t" ⊳ "pid";
    Name "pid_t" ⊳ "tgid";
    c_ulong ⊳ "stack_canary";
    Ptr (Struct "task_struct") ⊳ "real_parent";
    Ptr (Struct "task_struct") ⊳ "parent";
    Struct "list_head" ⊳ "children";
    Struct "list_head" ⊳ "sibling";
    Ptr (Struct "task_struct") ⊳ "group_leader";
    Struct "list_head" ⊳ "ptraced";
    Struct "list_head" ⊳ "ptrace_entry";
    Ptr (Struct "pid") ⊳ "thread_pid";
    Arr (Struct "hlist_node") 4 ⊳ "pid_links";
    Struct "list_head" ⊳ "thread_node";
    Ptr (Struct "completion") ⊳ "vfork_done";
    Ptr c_int ⊳ "set_child_tid";
    Ptr c_int ⊳ "clear_child_tid";
    Ptr Void ⊳ "worker_private";
    Name "u64" ⊳ "utime";
    Name "u64" ⊳ "stime";
    Name "u64" ⊳ "gtime";
    Struct "prev_cputime" ⊳ "prev_cputime";
    Struct "vtime" ⊳ "vtime";
    Name "atomic_t" ⊳ "tick_dep_mask";
    c_ulong ⊳ "nvcsw";
    c_ulong ⊳ "nivcsw";
    Name "u64" ⊳ "start_time";
    Name "u64" ⊳ "start_boottime";
    c_ulong ⊳ "min_flt";
    c_ulong ⊳ "maj_flt";
    Struct "posix_cputimers" ⊳ "posix_cputimers";
    Struct "posix_cputimers_work" ⊳ "posix_cputimers_work";
    Ptr (Const (Struct "cred")) ⊳ "ptracer_cred";
    Ptr (Const (Struct "cred")) ⊳ "real_cred";
    Ptr (Const (Struct "cred")) ⊳ "cred";
    Ptr (Struct "key") ⊳ "cached_requested_key";
    Arr c_char 16 ⊳ "comm";
    Ptr (Struct "nameidata") ⊳ "nameidata";
    Struct "sysv_sem" ⊳ "sysvsem";
    Struct "sysv_shm" ⊳ "sysvshm";
    c_ulong ⊳ "last_switch_count";
    c_ulong ⊳ "last_switch_time";
    Ptr (Struct "fs_struct") ⊳ "fs";
    Ptr (Struct "files_struct") ⊳ "files";
    Ptr (Struct "io_uring_task") ⊳ "io_uring";
    Ptr (Struct "nsproxy") ⊳ "nsproxy";
    Ptr (Struct "signal_struct") ⊳ "signal";
    Ptr (Struct "sighand_struct") ⊳ "sighand";
    Name "sigset_t" ⊳ "blocked";
    Name "sigset_t" ⊳ "real_blocked";
    Name "sigset_t" ⊳ "saved_sigmask";
    Struct "sigpending" ⊳ "pending";
    c_ulong ⊳ "sas_ss_sp";
    Name "size_t" ⊳ "sas_ss_size";
    c_uint ⊳ "sas_ss_flags";
    Ptr (Struct "callback_head") ⊳ "task_works";
    Ptr (Struct "audit_context") ⊳ "audit_context";
    Name "kuid_t" ⊳ "loginuid";
    c_uint ⊳ "sessionid";
    Struct "seccomp" ⊳ "seccomp";
    Struct "syscall_user_dispatch" ⊳ "syscall_dispatch";
    Name "u64" ⊳ "parent_exec_id";
    Name "u64" ⊳ "self_exec_id";
    Name "spinlock_t" ⊳ "alloc_lock";
    Name "raw_spinlock_t" ⊳ "pi_lock";
    Struct "wake_q_node" ⊳ "wake_q";
    Struct "rb_root_cached" ⊳ "pi_waiters";
    Ptr (Struct "task_struct") ⊳ "pi_top_task";
    Ptr (Struct "rt_mutex_waiter") ⊳ "pi_blocked_on";
    Ptr (Struct "mutex") ⊳ "blocked_on";
    c_ulong ⊳ "blocker";
    c_uint ⊳ "in_ubsan";
    Ptr Void ⊳ "journal_info";
    Ptr (Struct "bio_list") ⊳ "bio_list";
    Ptr (Struct "blk_plug") ⊳ "plug";
    Ptr (Struct "reclaim_state") ⊳ "reclaim_state";
    Ptr (Struct "io_context") ⊳ "io_context";
    Ptr (Struct "capture_control") ⊳ "capture_control";
    c_ulong ⊳ "ptrace_message";
    Ptr (Name "kernel_siginfo_t") ⊳ "last_siginfo";
    Struct "task_io_accounting" ⊳ "ioac";
    c_uint ⊳ "psi_flags";
    Name "u64" ⊳ "acct_rss_mem1";
    Name "u64" ⊳ "acct_vm_mem1";
    Name "u64" ⊳ "acct_timexpd";
    Name "nodemask_t" ⊳ "mems_allowed";
    Name "seqcount_spinlock_t" ⊳ "mems_allowed_seq";
    c_int ⊳ "cpuset_mem_spread_rotor";
    Ptr (Struct "css_set") ⊳ "cgroups";
    Struct "list_head" ⊳ "cg_list";
    Name "u32" ⊳ "closid";
    Name "u32" ⊳ "rmid";
    Ptr (Struct "robust_list_head") ⊳ "robust_list";
    Ptr (Struct "compat_robust_list_head") ⊳ "compat_robust_list";
    Struct "list_head" ⊳ "pi_state_list";
    Ptr (Struct "futex_pi_state") ⊳ "pi_state_cache";
    Struct "mutex" ⊳ "futex_exit_mutex";
    c_uint ⊳ "futex_state";
    Arr (Name "u8") 4 ⊳ "perf_recursion";
    Ptr (Struct "perf_event_context") ⊳ "perf_event_ctxp";
    Struct "mutex" ⊳ "perf_event_mutex";
    Struct "list_head" ⊳ "perf_event_list";
    Ptr (Struct "perf_ctx_data") ⊳ "perf_ctx_data";
    Ptr (Struct "mempolicy") ⊳ "mempolicy";
    c_short ⊳ "il_prev";
    Name "u8" ⊳ "il_weight";
    c_short ⊳ "pref_node_fork";
    c_int ⊳ "numa_scan_seq";
    c_uint ⊳ "numa_scan_period";
    c_uint ⊳ "numa_scan_period_max";
    c_int ⊳ "numa_preferred_nid";
    c_ulong ⊳ "numa_migrate_retry";
    Name "u64" ⊳ "node_stamp";
    Name "u64" ⊳ "last_task_numa_placement";
    Name "u64" ⊳ "last_sum_exec_runtime";
    Struct "callback_head" ⊳ "numa_work";
    Ptr (Struct "numa_group") ⊳ "numa_group";
    Ptr c_ulong ⊳ "numa_faults";
    c_ulong ⊳ "total_numa_faults";
    Arr c_ulong 3 ⊳ "numa_faults_locality";
    c_ulong ⊳ "numa_pages_migrated";
    Ptr (Struct "rseq") ⊳ "rseq";
    Name "u32" ⊳ "rseq_len";
    Name "u32" ⊳ "rseq_sig";
    c_ulong ⊳ "rseq_event_mask";
    c_int ⊳ "mm_cid";
    c_int ⊳ "last_mm_cid";
    c_int ⊳ "migrate_from_cpu";
    c_int ⊳ "mm_cid_active";
    Struct "callback_head" ⊳ "cid_work";
    Struct "tlbflush_unmap_batch" ⊳ "tlb_ubc";
    Ptr (Struct "pipe_inode_info") ⊳ "splice_pipe";
    Struct "page_frag" ⊳ "task_frag";
    Ptr (Struct "task_delay_info") ⊳ "delays";
    c_int ⊳ "nr_dirtied";
    c_int ⊳ "nr_dirtied_pause";
    c_ulong ⊳ "dirty_paused_when";
    c_int ⊳ "latency_record_count";
    Arr (Struct "latency_record") 32 ⊳ "latency_record";
    Name "u64" ⊳ "timer_slack_ns";
    Name "u64" ⊳ "default_timer_slack_ns";
    c_int ⊳ "curr_ret_stack";
    c_int ⊳ "curr_ret_depth";
    Ptr c_ulong ⊳ "ret_stack";
    c_ullong ⊳ "ftrace_timestamp";
    c_ullong ⊳ "ftrace_sleeptime";
    Name "atomic_t" ⊳ "trace_overrun";
    Name "atomic_t" ⊳ "tracing_graph_pause";
    c_ulong ⊳ "trace_recursion";
    c_uint ⊳ "memcg_nr_pages_over_high";
    Ptr (Struct "mem_cgroup") ⊳ "active_memcg";
    Ptr (Struct "obj_cgroup") ⊳ "objcg";
    Ptr (Struct "gendisk") ⊳ "throttle_disk";
    Ptr (Struct "uprobe_task") ⊳ "utask";
    c_uint ⊳ "sequential_io";
    c_uint ⊳ "sequential_io_avg";
    Struct "kmap_ctrl" ⊳ "kmap_ctrl";
    Struct "callback_head" ⊳ "rcu";
    Name "refcount_t" ⊳ "rcu_users";
    c_int ⊳ "pagefault_disabled";
    Ptr (Struct "task_struct") ⊳ "oom_reaper_list";
    Struct "timer_list" ⊳ "oom_reaper_timer";
    Ptr (Struct "vm_struct") ⊳ "stack_vm_area";
    Name "refcount_t" ⊳ "stack_refcount";
    c_int ⊳ "patch_state";
    Ptr Void ⊳ "security";
    Ptr (Struct "bpf_local_storage") ⊳ "bpf_storage";
    Ptr (Struct "bpf_run_ctx") ⊳ "bpf_ctx";
    Ptr (Struct "bpf_net_context") ⊳ "bpf_net_context";
    Ptr Void ⊳ "mce_vaddr";
    Name "__u64" ⊳ "mce_kflags";
    Name "u64" ⊳ "mce_addr";
    bitfield (Name "__u64") "mce_ripv" 1;
    bitfield (Name "__u64") "mce_whole_page" 1;
    bitfield (Name "__u64") "__mce_reserved" 62;
    Struct "callback_head" ⊳ "mce_kill_me";
    c_int ⊳ "mce_count";
    Struct "llist_head" ⊳ "kretprobe_instances";
    Struct "llist_head" ⊳ "rethooks";
    Struct "callback_head" ⊳ "l1d_flush_kill";
    Arr (Union "rv_task_monitor") 2 ⊳ "rv";
    Ptr (Struct "user_event_mm") ⊳ "user_event_mm";
    Struct "thread_struct" ⊳ "thread";
    pad c_long 64;
    pad c_long 64;
    pad c_long 64;
    pad c_long 64;
    pad c_long 64;
    pad c_long 64].

Definition struct_thread_info : cdecl :=
  DStruct false [
    c_ulong ⊳ "flags";
    c_ulong ⊳ "syscall_work";
    Name "u32" ⊳ "status";
    Name "u32" ⊳ "cpu"].

Definition struct___call_single_node : cdecl :=
  DStruct false [
    Struct "llist_node" ⊳ "llist";
    anon (AnonUnion [
      c_uint ⊳ "u_flags";
      Name "atomic_t" ⊳ "a_flags"]);
    Name "u16" ⊳ "src";
    Name "u16" ⊳ "dst"].

Definition struct_sched_entity : cdecl :=
  DStruct false [
    Struct "load_weight" ⊳ "load";
    Struct "rb_node" ⊳ "run_node";
    Name "u64" ⊳ "deadline";
    Name "u64" ⊳ "min_vruntime";
    Name "u64" ⊳ "min_slice";
    Struct "list_head" ⊳ "group_node";
    c_uchar ⊳ "on_rq";
    c_uchar ⊳ "sched_delayed";
    c_uchar ⊳ "rel_deadline";
    c_uchar ⊳ "custom_slice";
    Name "u64" ⊳ "exec_start";
    Name "u64" ⊳ "sum_exec_runtime";
    Name "u64" ⊳ "prev_sum_exec_runtime";
    Name "u64" ⊳ "vruntime";
    anon (AnonUnion [
      Name "s64" ⊳ "vlag";
      Name "u64" ⊳ "vprot"]);
    Name "u64" ⊳ "slice";
    Name "u64" ⊳ "nr_migrations";
    c_int ⊳ "depth";
    Ptr (Struct "sched_entity") ⊳ "parent";
    Ptr (Struct "cfs_rq") ⊳ "cfs_rq";
    Ptr (Struct "cfs_rq") ⊳ "my_q";
    c_ulong ⊳ "runnable_weight";
    pad c_long 64;
    Struct "sched_avg" ⊳ "avg"].

Definition struct_load_weight : cdecl :=
  DStruct false [
    c_ulong ⊳ "weight";
    Name "u32" ⊳ "inv_weight"].

Definition struct_sched_avg : cdecl :=
  DStruct false [
    Name "u64" ⊳ "last_update_time";
    Name "u64" ⊳ "load_sum";
    Name "u64" ⊳ "runnable_sum";
    Name "u32" ⊳ "util_sum";
    Name "u32" ⊳ "period_contrib";
    c_ulong ⊳ "load_avg";
    c_ulong ⊳ "runnable_avg";
    c_ulong ⊳ "util_avg";
    c_uint ⊳ "util_est"].

Definition struct_sched_rt_entity : cdecl :=
  DStruct false [
    Struct "list_head" ⊳ "run_list";
    c_ulong ⊳ "timeout";
    c_ulong ⊳ "watchdog_stamp";
    c_uint ⊳ "time_slice";
    c_ushort ⊳ "on_rq";
    c_ushort ⊳ "on_list";
    Ptr (Struct "sched_rt_entity") ⊳ "back"].

Definition struct_sched_dl_entity : cdecl :=
  DStruct false [
    Struct "rb_node" ⊳ "rb_node";
    Name "u64" ⊳ "dl_runtime";
    Name "u64" ⊳ "dl_deadline";
    Name "u64" ⊳ "dl_period";
    Name "u64" ⊳ "dl_bw";
    Name "u64" ⊳ "dl_density";
    Name "s64" ⊳ "runtime";
    Name "u64" ⊳ "deadline";
    c_uint ⊳ "flags";
    bitfield c_uint "dl_throttled" 1;
    bitfield c_uint "dl_yielded" 1;
    bitfield c_uint "dl_non_contending" 1;
    bitfield c_uint "dl_overrun" 1;
    bitfield c_uint "dl_server" 1;
    bitfield c_uint "dl_server_active" 1;
    bitfield c_uint "dl_defer" 1;
    bitfield c_uint "dl_defer_armed" 1;
    bitfield c_uint "dl_defer_running" 1;
    Struct "hrtimer" ⊳ "dl_timer";
    Struct "hrtimer" ⊳ "inactive_timer";
    Ptr (Struct "rq") ⊳ "rq";
    Name "dl_server_pick_f" ⊳ "server_pick_task";
    Ptr (Struct "sched_dl_entity") ⊳ "pi_se"].

Definition struct_sched_ext_entity : cdecl :=
  DStruct false [
    Ptr (Struct "scx_dispatch_q") ⊳ "dsq";
    Struct "scx_dsq_list_node" ⊳ "dsq_list";
    Struct "rb_node" ⊳ "dsq_priq";
    Name "u32" ⊳ "dsq_seq";
    Name "u32" ⊳ "dsq_flags";
    Name "u32" ⊳ "flags";
    Name "u32" ⊳ "weight";
    Name "s32" ⊳ "sticky_cpu";
    Name "s32" ⊳ "holding_cpu";
    Name "s32" ⊳ "selected_cpu";
    Name "u32" ⊳ "kf_mask";
    Arr (Ptr (Struct "task_struct")) 2 ⊳ "kf_tasks";
    Name "atomic_long_t" ⊳ "ops_state";
    Struct "list_head" ⊳ "runnable_node";
    c_ulong ⊳ "runnable_at";
    Name "u64" ⊳ "core_sched_at";
    Name "u64" ⊳ "ddsp_dsq_id";
    Name "u64" ⊳ "ddsp_enq_flags";
    Name "u64" ⊳ "slice";
    Name "u64" ⊳ "dsq_vtime";
    Name "bool" ⊳ "disallow";
    Ptr (Struct "cgroup") ⊳ "cgrp_moving_from";
    Struct "list_head" ⊳ "tasks_node"].

Definition struct_scx_dsq_list_node : cdecl :=
  DStruct false [
    Struct "list_head" ⊳ "node";
    Name "u32" ⊳ "flags";
    Name "u32" ⊳ "priv"].

Definition struct_uclamp_se : cdecl :=
  DStruct false [
    bitfield c_uint "value" 11;
    bitfield c_uint "bucket_id" 3;
    bitfield c_uint "active" 1;
    bitfield c_uint "user_defined" 1].

Definition struct_sched_statistics : cdecl :=
  DStruct false [
    Name "u64" ⊳ "wait_start";
    Name "u64" ⊳ "wait_max";
    Name "u64" ⊳ "wait_count";
    Name "u64" ⊳ "wait_sum";
    Name "u64" ⊳ "iowait_count";
    Name "u64" ⊳ "iowait_sum";
    Name "u64" ⊳ "sleep_start";
    Name "u64" ⊳ "sleep_max";
    Name "s64" ⊳ "sum_sleep_runtime";
    Name "u64" ⊳ "block_start";
    Name "u64" ⊳ "block_max";
    Name "s64" ⊳ "sum_block_runtime";
    Name "s64" ⊳ "exec_max";
    Name "u64" ⊳ "slice_max";
    Name "u64" ⊳ "nr_migrations_cold";
    Name "u64" ⊳ "nr_failed_migrations_affine";
    Name "u64" ⊳ "nr_failed_migrations_running";
    Name "u64" ⊳ "nr_failed_migrations_hot";
    Name "u64" ⊳ "nr_forced_migrations";
    Name "u64" ⊳ "nr_wakeups";
    Name "u64" ⊳ "nr_wakeups_sync";
    Name "u64" ⊳ "nr_wakeups_migrate";
    Name "u64" ⊳ "nr_wakeups_local";
    Name "u64" ⊳ "nr_wakeups_remote";
    Name "u64" ⊳ "nr_wakeups_affine";
    Name "u64" ⊳ "nr_wakeups_affine_attempts";
    Name "u64" ⊳ "nr_wakeups_passive";
    Name "u64" ⊳ "nr_wakeups_idle";
    Name "u64" ⊳ "core_forceidle_sum";
    pad c_long 64;
    pad c_long 64;
    pad c_long 64].

Definition struct_cpumask : cdecl :=
  DStruct false [
    Arr c_ulong 128 ⊳ "bits"].

Definition union_rcu_special : cdecl :=
  DUnion false [
    AnonStruct [
      Name "u8" ⊳ "blocked";
      Name "u8" ⊳ "need_qs";
      Name "u8" ⊳ "exp_hint";
      Name "u8" ⊳ "need_mb"] ⊳ "b";
    Name "u32" ⊳ "s"].

Definition struct_sched_info : cdecl :=
  DStruct false [
    c_ulong ⊳ "pcount";
    c_ullong ⊳ "run_delay";
    c_ullong ⊳ "max_run_delay";
    c_ullong ⊳ "min_run_delay";
    c_ullong ⊳ "last_arrival";
    c_ullong ⊳ "last_queued"].

Definition struct_plist_node : cdecl :=
  DStruct false [
    c_int ⊳ "prio";
    Struct "list_head" ⊳ "prio_list";
    Struct "list_head" ⊳ "node_list"].

Definition struct_restart_block : cdecl :=
  DStruct false [
    c_ulong ⊳ "arch_data";
    Ptr (Fun c_long [Ptr (Struct "restart_block")]) ⊳ "fn";
    anon (AnonUnion [
      AnonStruct [
        Ptr (Name "u32") ⊳ "uaddr";
        Name "u32" ⊳ "val";
        Name "u32" ⊳ "flags";
        Name "u32" ⊳ "bitset";
        Name "u64" ⊳ "time";
        Ptr (Name "u32") ⊳ "uaddr2"] ⊳ "futex";
      AnonStruct [
        Name "clockid_t" ⊳ "clockid";
        Enum "timespec_type" ⊳ "type";
        anon (AnonUnion [
          Ptr (Struct "__kernel_timespec") ⊳ "rmtp";
          Ptr (Struct "old_timespec32") ⊳ "compat_rmtp"]);
        Name "u64" ⊳ "expires"] ⊳ "nanosleep";
      AnonStruct [
        Ptr (Struct "pollfd") ⊳ "ufds";
        c_int ⊳ "nfds";
        c_int ⊳ "has_timeout";
        c_ulong ⊳ "tv_sec";
        c_ulong ⊳ "tv_nsec"] ⊳ "poll"])].

Definition struct_vtime : cdecl :=
  DStruct false [
    Name "seqcount_t" ⊳ "seqcount";
    c_ullong ⊳ "starttime";
    Enum "vtime_state" ⊳ "state";
    c_uint ⊳ "cpu";
    Name "u64" ⊳ "utime";
    Name "u64" ⊳ "stime";
    Name "u64" ⊳ "gtime"].

Definition struct_seqcount : cdecl :=
  DStruct false [
    c_uint ⊳ "sequence"].

Definition struct_posix_cputimers : cdecl :=
  DStruct false [
    Arr (Struct "posix_cputimer_base") 3 ⊳ "bases";
    c_uint ⊳ "timers_active";
    c_uint ⊳ "expiry_active"].

Definition struct_posix_cputimer_base : cdecl :=
  DStruct false [
    Name "u64" ⊳ "nextevt";
    Struct "timerqueue_head" ⊳ "tqhead"].

Definition struct_timerqueue_head : cdecl :=
  DStruct false [
    Struct "rb_root_cached" ⊳ "rb_root"].

Definition struct_rb_root_cached : cdecl :=
  DStruct false [
    Struct "rb_root" ⊳ "rb_root";
    Ptr (Struct "rb_node") ⊳ "rb_leftmost"].

Definition struct_posix_cputimers_work : cdecl :=
  DStruct false [
    Struct "callback_head" ⊳ "work";
    Struct "mutex" ⊳ "mutex";
    c_uint ⊳ "scheduled"].

Definition struct_sysv_sem : cdecl :=
  DStruct false [
    Ptr (Struct "sem_undo_list") ⊳ "undo_list"].

Definition struct_sysv_shm : cdecl :=
  DStruct false [
    Struct "list_head" ⊳ "shm_clist"].

Definition typedef_sigset_t : cdecl :=
  DTypedef (AnonStruct [
    Arr c_ulong 1 ⊳ "sig"]).

Definition struct_sigpending : cdecl :=
  DStruct false [
    Struct "list_head" ⊳ "list";
    Name "sigset_t" ⊳ "signal"].

Definition struct_seccomp : cdecl :=
  DStruct false [
    c_int ⊳ "mode";
    Name "atomic_t" ⊳ "filter_count";
    Ptr (Struct "seccomp_filter") ⊳ "filter"].

Definition struct_syscall_user_dispatch : cdecl :=
  DStruct false [
    Ptr c_char ⊳ "selector";
    c_ulong ⊳ "offset";
    c_ulong ⊳ "len";
    Name "bool" ⊳ "on_dispatch"].

Definition struct_wake_q_node : cdecl :=
  DStruct false [
    Ptr (Struct "wake_q_node") ⊳ "next"].

Definition struct_task_io_accounting : cdecl :=
  DStruct false [
    Name "u64" ⊳ "rchar";
    Name "u64" ⊳ "wchar";
    Name "u64" ⊳ "syscr";
    Name "u64" ⊳ "syscw";
    Name "u64" ⊳ "read_bytes";
    Name "u64" ⊳ "write_bytes";
    Name "u64" ⊳ "cancelled_write_bytes"].

Definition typedef_nodemask_t : cdecl :=
  DTypedef (AnonStruct [
    Arr c_ulong 16 ⊳ "bits"]).

Definition struct_seqcount_spinlock : cdecl :=
  DStruct false [
    Name "seqcount_t" ⊳ "seqcount"].

Definition struct_tlbflush_unmap_batch : cdecl :=
  DStruct false [
    Struct "arch_tlbflush_unmap_batch" ⊳ "arch";
    Name "bool" ⊳ "flush_required";
    Name "bool" ⊳ "writable"].

Definition struct_arch_tlbflush_unmap_batch : cdecl :=
  DStruct false [
    Struct "cpumask" ⊳ "cpumask";
    Name "bool" ⊳ "unmapped_pages"].

Definition struct_latency_record : cdecl :=
  DStruct false [
    Arr c_ulong 12 ⊳ "backtrace";
    c_uint ⊳ "count";
    c_ulong ⊳ "time";
    c_ulong ⊳ "max"].

Definition struct_kmap_ctrl : cdecl :=
  DStruct false [].

Definition union_rv_task_monitor : cdecl :=
  DUnion false [
    Struct "da_monitor" ⊳ "da_mon";
    Struct "ltl_monitor" ⊳ "ltl_mon"].

Definition struct_da_monitor : cdecl :=
  DStruct false [
    Name "bool" ⊳ "monitoring";
    c_uint ⊳ "curr_state"].

Definition struct_ltl_monitor : cdecl :=
  DStruct false [].

Definition struct_thread_struct : cdecl :=
  DStruct false [
    Arr (Struct "desc_struct") 3 ⊳ "tls_array";
    c_ulong ⊳ "sp";
    c_ushort ⊳ "es";
    c_ushort ⊳ "ds";
    c_ushort ⊳ "fsindex";
    c_ushort ⊳ "gsindex";
    c_ulong ⊳ "fsbase";
    c_ulong ⊳ "gsbase";
    Arr (Ptr (Struct "perf_event")) 4 ⊳ "ptrace_bps";
    c_ulong ⊳ "virtual_dr6";
    c_ulong ⊳ "ptrace_dr7";
    c_ulong ⊳ "cr2";
    c_ulong ⊳ "trap_nr";
    c_ulong ⊳ "error_code";
    Ptr (Struct "io_bitmap") ⊳ "io_bitmap";
    c_ulong ⊳ "iopl_emul";
    bitfield c_uint "iopl_warn" 1;
    Name "u32" ⊳ "pkru";
    c_ulong ⊳ "features";
    c_ulong ⊳ "features_locked";
    Struct "thread_shstk" ⊳ "shstk"].

Definition struct_desc_struct : cdecl :=
  DStruct false [
    Name "u16" ⊳ "limit0";
    Name "u16" ⊳ "base0";
    bitfield (Name "u16") "base1" 8;
    bitfield (Name "u16") "type" 4;
    bitfield (Name "u16") "s" 1;
    bitfield (Name "u16") "dpl" 2;
    bitfield (Name "u16") "p" 1;
    bitfield (Name "u16") "limit1" 4;
    bitfield (Name "u16") "avl" 1;
    bitfield (Name "u16") "l" 1;
    bitfield (Name "u16") "d" 1;
    bitfield (Name "u16") "g" 1;
    bitfield (Name "u16") "base2" 8].

Definition struct_thread_shstk : cdecl :=
  DStruct false [
    Name "u64" ⊳ "base";
    Name "u64" ⊳ "size"].

(** The declarations of this file, by name. *)
Definition env_task : cenv := [
  ((SStruct, "task_struct"), struct_task_struct);
  ((SStruct, "thread_info"), struct_thread_info);
  ((SStruct, "__call_single_node"), struct___call_single_node);
  ((SStruct, "sched_entity"), struct_sched_entity);
  ((SStruct, "load_weight"), struct_load_weight);
  ((SStruct, "sched_avg"), struct_sched_avg);
  ((SStruct, "sched_rt_entity"), struct_sched_rt_entity);
  ((SStruct, "sched_dl_entity"), struct_sched_dl_entity);
  ((SStruct, "sched_ext_entity"), struct_sched_ext_entity);
  ((SStruct, "scx_dsq_list_node"), struct_scx_dsq_list_node);
  ((SStruct, "uclamp_se"), struct_uclamp_se);
  ((SStruct, "sched_statistics"), struct_sched_statistics);
  ((SStruct, "cpumask"), struct_cpumask);
  ((SUnion, "rcu_special"), union_rcu_special);
  ((SStruct, "sched_info"), struct_sched_info);
  ((SStruct, "plist_node"), struct_plist_node);
  ((SStruct, "restart_block"), struct_restart_block);
  ((SStruct, "vtime"), struct_vtime);
  ((SStruct, "seqcount"), struct_seqcount);
  ((SStruct, "posix_cputimers"), struct_posix_cputimers);
  ((SStruct, "posix_cputimer_base"), struct_posix_cputimer_base);
  ((SStruct, "timerqueue_head"), struct_timerqueue_head);
  ((SStruct, "rb_root_cached"), struct_rb_root_cached);
  ((SStruct, "posix_cputimers_work"), struct_posix_cputimers_work);
  ((SStruct, "sysv_sem"), struct_sysv_sem);
  ((SStruct, "sysv_shm"), struct_sysv_shm);
  ((STypedef, "sigset_t"), typedef_sigset_t);
  ((SStruct, "sigpending"), struct_sigpending);
  ((SStruct, "seccomp"), struct_seccomp);
  ((SStruct, "syscall_user_dispatch"), struct_syscall_user_dispatch);
  ((SStruct, "wake_q_node"), struct_wake_q_node);
  ((SStruct, "task_io_accounting"), struct_task_io_accounting);
  ((STypedef, "nodemask_t"), typedef_nodemask_t);
  ((SStruct, "seqcount_spinlock"), struct_seqcount_spinlock);
  ((SStruct, "tlbflush_unmap_batch"), struct_tlbflush_unmap_batch);
  ((SStruct, "arch_tlbflush_unmap_batch"), struct_arch_tlbflush_unmap_batch);
  ((SStruct, "latency_record"), struct_latency_record);
  ((SStruct, "kmap_ctrl"), struct_kmap_ctrl);
  ((SUnion, "rv_task_monitor"), union_rv_task_monitor);
  ((SStruct, "da_monitor"), struct_da_monitor);
  ((SStruct, "ltl_monitor"), struct_ltl_monitor);
  ((SStruct, "thread_struct"), struct_thread_struct);
  ((SStruct, "desc_struct"), struct_desc_struct);
  ((SStruct, "thread_shstk"), struct_thread_shstk)].
