(* ===== verification/VmlinuxNet.v ===== *)
(** * [vmlinux.h]: network namespaces

    [struct net] and [struct netns_ipv4], which hold the system-wide TCP
    settings that per-socket tuning overrides, with what they hold by value. *)
From S2P Require Import Prelude CTypes.
Local Open Scope Z_scope.
Local Open Scope tuner_scope.

Definition struct_net : cdecl :=
  DStruct false [
    Name "refcount_t" ⊳ "passive";
    Name "spinlock_t" ⊳ "rules_mod_lock";
    c_uint ⊳ "dev_base_seq";
    Name "u32" ⊳ "ifindex";
    Name "spinlock_t" ⊳ "nsid_lock";
    Name "atomic_t" ⊳ "fnhe_genid";
    Struct "list_head" ⊳ "list";
    Struct "list_head" ⊳ "exit_list";
    Struct "llist_node" ⊳ "defer_free_list";
    Struct "llist_node" ⊳ "cleanup_list";
    Struct "list_head" ⊳ "ptype_all";
    Struct "list_head" ⊳ "ptype_specific";
    Ptr (Struct "key_tag") ⊳ "key_domain";
    Ptr (Struct "user_namespace") ⊳ "user_ns";
    Ptr (Struct "ucounts") ⊳ "ucounts";
    Struct "idr" ⊳ "netns_ids";
    Struct "ns_common" ⊳ "ns";
    Struct "ref_tracker_dir" ⊳ "refcnt_tracker";
    Struct "ref_tracker_dir" ⊳ "notrefcnt_tracker";
    Struct "list_head" ⊳ "dev_base_head";
    Ptr (Struct "proc_dir_entry") ⊳ "proc_net";
    Ptr (Struct "proc_dir_entry") ⊳ "proc_net_stat";
    Struct "ctl_table_set" ⊳ "sysctls";
    Ptr (Struct "sock") ⊳ "rtnl";
    Ptr (Struct "sock") ⊳ "genl_sock";
    Ptr (Struct "uevent_sock") ⊳ "uevent_sock";
    Ptr (Struct "hlist_head") ⊳ "dev_name_head";
    Ptr (Struct "hlist_head") ⊳ "dev_index_head";
    Struct "xarray" ⊳ "dev_by_index";
    Struct "raw_notifier_head" ⊳ "netdev_chain";
    Name "u32" ⊳ "hash_mix";
    Ptr (Struct "net_device") ⊳ "loopback_dev";
    Struct "list_head" ⊳ "rules_ops";
    Struct "netns_core" ⊳ "core";
    Struct "netns_mib" ⊳ "mib";
    Struct "netns_packet" ⊳ "packet";
    Struct "netns_unix" ⊳ "unx";
    Struct "netns_nexthop" ⊳ "nexthop";
    pad c_long 64;
    pad c_long 64;
    pad c_long 64;
    pad c_long 64;
    pad c_long 64;
    pad c_long 64;
    Struct "netns_ipv4" ⊳ "ipv4";
    Struct "netns_ipv6" ⊳ "ipv6";
    Struct "netns_ieee802154_lowpan" ⊳ "ieee802154_lowpan";
    Struct "netns_sctp" ⊳ "sctp";
    Struct "netns_nf" ⊳ "nf";
    Struct "netns_ct" ⊳ "ct";
    Struct "netns_nftables" ⊳ "nft";
    Struct "netns_ft" ⊳ "ft";
    Struct "sk_buff_head" ⊳ "wext_nlevents";
    Ptr (Struct "net_generic") ⊳ "gen";
    Struct "netns_bpf" ⊳ "bpf";
    pad c_long 64;
    pad c_long 64;
    Struct "netns_xfrm" ⊳ "xfrm";
    Name "u64" ⊳ "net_cookie";
    Ptr (Struct "netns_ipvs") ⊳ "ipvs";
    Struct "netns_mpls" ⊳ "mpls";
    Struct "netns_can" ⊳ "can";
    Struct "netns_xdp" ⊳ "xdp";
    Struct "netns_mctp" ⊳ "mctp";
    Ptr (Struct "sock") ⊳ "crypto_nlsk";
    Ptr (Struct "sock") ⊳ "diag_nlsk";
    Struct "netns_smc" ⊳ "smc";
    pad c_long 64;
    pad c_long 64;
    pad c_long 64;
    pad c_long 64].

Definition struct_idr : cdecl :=
  DStruct false [
    Struct "xarray" ⊳ "idr_rt";
    c_uint ⊳ "idr_base";
    c_uint ⊳ "idr_next"].

Definition struct_ns_common : cdecl :=
  DStruct false [
    Ptr (Struct "dentry") ⊳ "stashed";
    Ptr (Const (Struct "proc_ns_operations")) ⊳ "ops";
    c_uint ⊳ "inum";
    Name "refcount_t" ⊳ "count"].

Definition struct_ref_tracker_dir : cdecl :=
  DStruct false [].

Definition struct_ctl_table_set : cdecl :=
  DStruct false [
    Ptr (Fun c_int [Ptr (Struct "ctl_table_set")]) ⊳ "is_seen";
    Struct "ctl_dir" ⊳ "dir"].

Definition struct_ctl_dir : cdecl :=
  DStruct false [
    Struct "ctl_table_header" ⊳ "header";
    Struct "rb_root" ⊳ "root"].

Definition struct_ctl_table_header : cdecl :=
  DStruct false [
    anon (AnonUnion [
      anon (AnonStruct [
        Ptr (Const (Struct "ctl_table")) ⊳ "ctl_table";
        c_int ⊳ "ctl_table_size";
        c_int ⊳ "used";
        c_int ⊳ "count";
        c_int ⊳ "nreg"]);
      Struct "callback_head" ⊳ "rcu"]);
    Ptr (Struct "completion") ⊳ "unregistering";
    Ptr (Const (Struct "ctl_table")) ⊳ "ctl_table_arg";
    Ptr (Struct "ctl_table_root") ⊳ "root";
    Ptr (Struct "ctl_table_set") ⊳ "set";
    Ptr (Struct "ctl_dir") ⊳ "parent";
    Ptr (Struct "ctl_node") ⊳ "node";
    Struct "hlist_head" ⊳ "inodes";
    AnonEnum [
      ("SYSCTL_TABLE_TYPE_DEFAULT", 0); ("SYSCTL_TABLE_TYPE_PERMANENTLY_EMPTY", 1)] ⊳ "type"].

Definition struct_raw_notifier_head : cdecl :=
  DStruct false [
    Ptr (Struct "notifier_block") ⊳ "head"].

Definition struct_netns_core : cdecl :=
  DStruct false [
    Ptr (Struct "ctl_table_header") ⊳ "sysctl_hdr";
    c_int ⊳ "sysctl_somaxconn";
    c_int ⊳ "sysctl_optmem_max";
    Name "u8" ⊳ "sysctl_txrehash";
    Name "u8" ⊳ "sysctl_tstamp_allow_data";
    Ptr (Struct "prot_inuse") ⊳ "prot_inuse";
    Ptr (Struct "cpumask") ⊳ "rps_default_mask"].

Definition struct_netns_mib : cdecl :=
  DStruct false [
    Ptr (Struct "ipstats_mib") ⊳ "ip_statistics";
    Ptr (Struct "ipstats_mib") ⊳ "ipv6_statistics";
    Ptr (Struct "tcp_mib") ⊳ "tcp_statistics";
    Ptr (Struct "linux_mib") ⊳ "net_statistics";
    Ptr (Struct "udp_mib") ⊳ "udp_statistics";
    Ptr (Struct "udp_mib") ⊳ "udp_stats_in6";
    Ptr (Struct "linux_xfrm_mib") ⊳ "xfrm_statistics";
    Ptr (Struct "linux_tls_mib") ⊳ "tls_statistics";
    Ptr (Struct "mptcp_mib") ⊳ "mptcp_statistics";
    Ptr (Struct "udp_mib") ⊳ "udplite_statistics";
    Ptr (Struct "udp_mib") ⊳ "udplite_stats_in6";
    Ptr (Struct "icmp_mib") ⊳ "icmp_statistics";
    Ptr (Struct "icmpmsg_mib") ⊳ "icmpmsg_statistics";
    Ptr (Struct "icmpv6_mib") ⊳ "icmpv6_statistics";
    Ptr (Struct "icmpv6msg_mib") ⊳ "icmpv6msg_statistics";
    Ptr (Struct "proc_dir_entry") ⊳ "proc_net_devsnmp6"].

Definition struct_netns_packet : cdecl :=
  DStruct false [
    Struct "mutex" ⊳ "sklist_lock";
    Struct "hlist_head" ⊳ "sklist"].

Definition struct_netns_unix : cdecl :=
  DStruct false [
    Struct "unix_table" ⊳ "table";
    c_int ⊳ "sysctl_max_dgram_qlen";
    Ptr (Struct "ctl_table_header") ⊳ "ctl"].

Definition struct_unix_table : cdecl :=
  DStruct false [
    Ptr (Name "spinlock_t") ⊳ "locks";
    Ptr (Struct "hlist_head") ⊳ "buckets"].

Definition struct_netns_nexthop : cdecl :=
  DStruct false [
    Struct "rb_root" ⊳ "rb_root";
    Ptr (Struct "hlist_head") ⊳ "devhash";
    c_uint ⊳ "seq";
    Name "u32" ⊳ "last_id_allocated";
    Struct "blocking_notifier_head" ⊳ "notifier_chain"].

Definition struct_blocking_notifier_head : cdecl :=
  DStruct false [
    Struct "rw_semaphore" ⊳ "rwsem";
    Ptr (Struct "notifier_block") ⊳ "head"].

Definition struct_rw_semaphore : cdecl :=
  DStruct false [
    Name "atomic_long_t" ⊳ "count";
    Name "atomic_long_t" ⊳ "owner";
    Struct "optimistic_spin_queue" ⊳ "osq";
    Name "raw_spinlock_t" ⊳ "wait_lock";
    Struct "list_head" ⊳ "wait_list"].

Definition struct_netns_ipv4 : cdecl :=
  DStruct false [
    Arr (Name "__u8") 0 ⊳ "__cacheline_group_begin__netns_ipv4_read_tx";
    Name "u8" ⊳ "sysctl_tcp_early_retrans";
    Name "u8" ⊳ "sysctl_tcp_tso_win_divisor";
    Name "u8" ⊳ "sysctl_tcp_tso_rtt_log";
    Name "u8" ⊳ "sysctl_tcp_autocorking";
    c_int ⊳ "sysctl_tcp_min_snd_mss";
    c_uint ⊳ "sysctl_tcp_notsent_lowat";
    c_int ⊳ "sysctl_tcp_limit_output_bytes";
    c_int ⊳ "sysctl_tcp_min_rtt_wlen";
    Arr c_int 3 ⊳ "sysctl_tcp_wmem";
    Name "u8" ⊳ "sysctl_ip_fwd_use_pmtu";
    Arr (Name "__u8") 0 ⊳ "__cacheline_group_end__netns_ipv4_read_tx";
    Arr (Name "__u8") 0 ⊳ "__cacheline_group_begin__netns_ipv4_read_txrx";
    Name "u8" ⊳ "sysctl_tcp_moderate_rcvbuf";
    Arr (Name "__u8") 0 ⊳ "__cacheline_group_end__netns_ipv4_read_txrx";
    Arr (Name "__u8") 0 ⊳ "__cacheline_group_begin__netns_ipv4_read_rx";
    Name "u8" ⊳ "sysctl_ip_early_demux";
    Name "u8" ⊳ "sysctl_tcp_early_demux";
    Name "u8" ⊳ "sysctl_tcp_l3mdev_accept";
    c_int ⊳ "sysctl_tcp_reordering";
    Arr c_int 3 ⊳ "sysctl_tcp_rmem";
    Arr (Name "__u8") 0 ⊳ "__cacheline_group_end__netns_ipv4_read_rx";
    pad c_long 64;
    Struct "inet_timewait_death_row" ⊳ "tcp_death_row";
    Ptr (Struct "udp_table") ⊳ "udp_table";
    Arr (Struct "udp_tunnel_gro") 2 ⊳ "udp_tunnel_gro";
    Ptr (Struct "ctl_table_header") ⊳ "forw_hdr";
    Ptr (Struct "ctl_table_header") ⊳ "frags_hdr";
    Ptr (Struct "ctl_table_header") ⊳ "ipv4_hdr";
    Ptr (Struct "ctl_table_header") ⊳ "route_hdr";
    Ptr (Struct "ctl_table_header") ⊳ "xfrm4_hdr";
    Ptr (Struct "ipv4_devconf") ⊳ "devconf_all";
    Ptr (Struct "ipv4_devconf") ⊳ "devconf_dflt";
    Ptr (Struct "ip_ra_chain") ⊳ "ra_chain";
    Struct "mutex" ⊳ "ra_mutex";
    Ptr (Struct "fib_rules_ops") ⊳ "rules_ops";
    Ptr (Struct "fib_table") ⊳ "fib_main";
    Ptr (Struct "fib_table") ⊳ "fib_default";
    c_uint ⊳ "fib_rules_require_fldissect";
    Name "bool" ⊳ "fib_has_custom_rules";
    Name "bool" ⊳ "fib_has_custom_local_routes";
    Name "bool" ⊳ "fib_offload_disabled";
    Name "u8" ⊳ "sysctl_tcp_shrink_window";
    Name "atomic_t" ⊳ "fib_num_tclassid_users";
    Ptr (Struct "hlist_head") ⊳ "fib_table_hash";
    Ptr (Struct "sock") ⊳ "fibnl";
    Ptr (Struct "hlist_head") ⊳ "fib_info_hash";
    c_uint ⊳ "fib_info_hash_bits";
    c_uint ⊳ "fib_info_cnt";
    Ptr (Struct "sock") ⊳ "mc_autojoin_sk";
    Ptr (Struct "inet_peer_base") ⊳ "peers";
    Ptr (Struct "fqdir") ⊳ "fqdir";
    Name "u8" ⊳ "sysctl_icmp_echo_ignore_all";
    Name "u8" ⊳ "sysctl_icmp_echo_enable_probe";
    Name "u8" ⊳ "sysctl_icmp_echo_ignore_broadcasts";
    Name "u8" ⊳ "sysctl_icmp_ignore_bogus_error_responses";
    Name "u8" ⊳ "sysctl_icmp_errors_use_inbound_ifaddr";
    c_int ⊳ "sysctl_icmp_ratelimit";
    c_int ⊳ "sysctl_icmp_ratemask";
    c_int ⊳ "sysctl_icmp_msgs_per_sec";
    c_int ⊳ "sysctl_icmp_msgs_burst";
    Name "atomic_t" ⊳ "icmp_global_credit";
    Name "u32" ⊳ "icmp_global_stamp";
    Name "u32" ⊳ "ip_rt_min_pmtu";
    c_int ⊳ "ip_rt_mtu_expires";
    c_int ⊳ "ip_rt_min_advmss";
    Struct "local_ports" ⊳ "ip_local_ports";
    Name "u8" ⊳ "sysctl_tcp_ecn";
    Name "u8" ⊳ "sysctl_tcp_ecn_fallback";
    Name "u8" ⊳ "sysctl_ip_default_ttl";
    Name "u8" ⊳ "sysctl_ip_no_pmtu_disc";
    Name "u8" ⊳ "sysctl_ip_fwd_update_priority";
    Name "u8" ⊳ "sysctl_ip_nonlocal_bind";
    Name "u8" ⊳ "sysctl_ip_autobind_reuse";
    Name "u8" ⊳ "sysctl_ip_dynaddr";
    Name "u8" ⊳ "sysctl_raw_l3mdev_accept";
    Name "u8" ⊳ "sysctl_udp_early_demux";
    Name "u8" ⊳ "sysctl_nexthop_compat_mode";
    Name "u8" ⊳ "sysctl_fwmark_reflect";
    Name "u8" ⊳ "sysctl_tcp_fwmark_accept";
    Name "u8" ⊳ "sysctl_tcp_mtu_probing";
    c_int ⊳ "sysctl_tcp_mtu_probe_floor";
    c_int ⊳ "sysctl_tcp_base_mss";
    c_int ⊳ "sysctl_tcp_probe_threshold";
    Name "u32" ⊳ "sysctl_tcp_probe_interval";
    c_int ⊳ "sysctl_tcp_keepalive_time";
    c_int ⊳ "sysctl_tcp_keepalive_intvl";
    Name "u8" ⊳ "sysctl_tcp_keepalive_probes";
    Name "u8" ⊳ "sysctl_tcp_syn_retries";
    Name "u8" ⊳ "sysctl_tcp_synack_retries";
    Name "u8" ⊳ "sysctl_tcp_syncookies";
    Name "u8" ⊳ "sysctl_tcp_migrate_req";
    Name "u8" ⊳ "sysctl_tcp_comp_sack_nr";
    Name "u8" ⊳ "sysctl_tcp_backlog_ack_defer";
    Name "u8" ⊳ "sysctl_tcp_pingpong_thresh";
    Name "u8" ⊳ "sysctl_tcp_retries1";
    Name "u8" ⊳ "sysctl_tcp_retries2";
    Name "u8" ⊳ "sysctl_tcp_orphan_retries";
    Name "u8" ⊳ "sysctl_tcp_tw_reuse";
    c_uint ⊳ "sysctl_tcp_tw_reuse_delay";
    c_int ⊳ "sysctl_tcp_fin_timeout";
    Name "u8" ⊳ "sysctl_tcp_sack";
    Name "u8" ⊳ "sysctl_tcp_window_scaling";
    Name "u8" ⊳ "sysctl_tcp_timestamps";
    c_int ⊳ "sysctl_tcp_rto_min_us";
    c_int ⊳ "sysctl_tcp_rto_max_ms";
    Name "u8" ⊳ "sysctl_tcp_recovery";
    Name "u8" ⊳ "sysctl_tcp_thin_linear_timeouts";
    Name "u8" ⊳ "sysctl_tcp_slow_start_after_idle";
    Name "u8" ⊳ "sysctl_tcp_retrans_collapse";
    Name "u8" ⊳ "sysctl_tcp_stdurg";
    Name "u8" ⊳ "sysctl_tcp_rfc1337";
    Name "u8" ⊳ "sysctl_tcp_abort_on_overflow";
    Name "u8" ⊳ "sysctl_tcp_fack";
    c_int ⊳ "sysctl_tcp_max_reordering";
    c_int ⊳ "sysctl_tcp_adv_win_scale";
    Name "u8" ⊳ "sysctl_tcp_dsack";
    Name "u8" ⊳ "sysctl_tcp_app_win";
    Name "u8" ⊳ "sysctl_tcp_frto";
    Name "u8" ⊳ "sysctl_tcp_nometrics_save";
    Name "u8" ⊳ "sysctl_tcp_no_ssthresh_metrics_save";
    Name "u8" ⊳ "sysctl_tcp_workaround_signed_windows";
    c_int ⊳ "sysctl_tcp_challenge_ack_limit";
    Name "u8" ⊳ "sysctl_tcp_min_tso_segs";
    Name "u8" ⊳ "sysctl_tcp_reflect_tos";
    c_int ⊳ "sysctl_tcp_invalid_ratelimit";
    c_int ⊳ "sysctl_tcp_pacing_ss_ratio";
    c_int ⊳ "sysctl_tcp_pacing_ca_ratio";
    c_uint ⊳ "sysctl_tcp_child_ehash_entries";
    c_ulong ⊳ "sysctl_tcp_comp_sack_delay_ns";
    c_ulong ⊳ "sysctl_tcp_comp_sack_slack_ns";
    c_int ⊳ "sysctl_max_syn_backlog";
    c_int ⊳ "sysctl_tcp_fastopen";
    Ptr (Const (Struct "tcp_congestion_ops")) ⊳ "tcp_congestion_control";
    Ptr (Struct "tcp_fastopen_context") ⊳ "tcp_fastopen_ctx";
    c_uint ⊳ "sysctl_tcp_fastopen_blackhole_timeout";
    Name "atomic_t" ⊳ "tfo_active_disable_times";
    c_ulong ⊳ "tfo_active_disable_stamp";
    Name "u32" ⊳ "tcp_challenge_timestamp";
    Name "u32" ⊳ "tcp_challenge_count";
    Name "u8" ⊳ "sysctl_tcp_plb_enabled";
    Name "u8" ⊳ "sysctl_tcp_plb_idle_rehash_rounds";
    Name "u8" ⊳ "sysctl_tcp_plb_rehash_rounds";
    Name "u8" ⊳ "sysctl_tcp_plb_suspend_rto_sec";
    c_int ⊳ "sysctl_tcp_plb_cong_thresh";
    c_int ⊳ "sysctl_udp_wmem_min";
    c_int ⊳ "sysctl_udp_rmem_min";
    Name "u8" ⊳ "sysctl_fib_notify_on_flag_change";
    Name "u8" ⊳ "sysctl_tcp_syn_linear_timeouts";
    Name "u8" ⊳ "sysctl_udp_l3mdev_accept";
    Name "u8" ⊳ "sysctl_igmp_llm_reports";
    c_int ⊳ "sysctl_igmp_max_memberships";
    c_int ⊳ "sysctl_igmp_max_msf";
    c_int ⊳ "sysctl_igmp_qrv";
    Struct "ping_group_range" ⊳ "ping_group_range";
    Name "atomic_t" ⊳ "dev_addr_genid";
    c_uint ⊳ "sysctl_udp_child_hash_entries";
    Ptr c_ulong ⊳ "sysctl_local_reserved_ports";
    c_int ⊳ "sysctl_ip_prot_sock";
    Struct "list_head" ⊳ "mr_tables";
    Ptr (Struct "fib_rules_ops") ⊳ "mr_rules_ops";
    Struct "sysctl_fib_multipath_hash_seed" ⊳ "sysctl_fib_multipath_hash_seed";
    Name "u32" ⊳ "sysctl_fib_multipath_hash_fields";
    Name "u8" ⊳ "sysctl_fib_multipath_use_neigh";
    Name "u8" ⊳ "sysctl_fib_multipath_hash_policy";
    Ptr (Struct "fib_notifier_ops") ⊳ "notifier_ops";
    c_uint ⊳ "fib_seq";
    Ptr (Struct "fib_notifier_ops") ⊳ "ipmr_notifier_ops";
    c_uint ⊳ "ipmr_seq";
    Name "atomic_t" ⊳ "rt_genid";
    Name "siphash_key_t" ⊳ "ip_id_key";
    Ptr (Struct "hlist_head") ⊳ "inet_addr_lst";
    Struct "delayed_work" ⊳ "addr_chk_work";
    pad c_long 64;
    pad c_long 64;
    pad c_long 64;
    pad c_long 64;
    pad c_long 64].

Definition struct_inet_timewait_death_row : cdecl :=
  DStruct false [
    Name "refcount_t" ⊳ "tw_refcount";
    pad c_long 64;
    pad c_long 64;
    pad c_long 64;
    pad c_long 64;
    pad c_long 64;
    pad c_long 64;
    pad c_long 64;
    Ptr (Struct "inet_hashinfo") ⊳ "hashinfo";
    c_int ⊳ "sysctl_max_tw_buckets";
    pad c_long 64;
    pad c_long 64;
    pad c_long 64;
    pad c_long 64;
    pad c_long 64;
    pad c_long 64].

Definition struct_udp_tunnel_gro : cdecl :=
  DStruct false [
    Ptr (Struct "sock") ⊳ "sk";
    Struct "hlist_head" ⊳ "list"].

Definition struct_local_ports : cdecl :=
  DStruct false [
    Name "u32" ⊳ "range";
    Name "bool" ⊳ "warned"].

Definition struct_ping_group_range : cdecl :=
  DStruct false [
    Name "seqlock_t" ⊳ "lock";
    Arr (Name "kgid_t") 2 ⊳ "range"].

Definition typedef_seqlock_t : cdecl :=
  DTypedef (AnonStruct [
    Name "seqcount_spinlock_t" ⊳ "seqcount";
    Name "spinlock_t" ⊳ "lock"]).

Definition typedef_kgid_t : cdecl :=
  DTypedef (AnonStruct [
    Name "gid_t" ⊳ "val"]).

Definition struct_sysctl_fib_multipath_hash_seed : cdecl :=
  DStruct false [
    Name "u32" ⊳ "user_seed";
    Name "u32" ⊳ "mp_seed"].

Definition typedef_siphash_key_t : cdecl :=
  DTypedef (AnonStruct [
    Arr (Name "u64") 2 ⊳ "key"]).

Definition struct_delayed_work : cdecl :=
  DStruct false [
    Struct "work_struct" ⊳ "work";
    Struct "timer_list" ⊳ "timer";
    Ptr (Struct "workqueue_struct") ⊳ "wq";
    c_int ⊳ "cpu"].

Definition struct_netns_ipv6 : cdecl :=
  DStruct false [
    Struct "dst_ops" ⊳ "ip6_dst_ops";
    Struct "netns_sysctl_ipv6" ⊳ "sysctl";
    Ptr (Struct "ipv6_devconf") ⊳ "devconf_all";
    Ptr (Struct "ipv6_devconf") ⊳ "devconf_dflt";
    Ptr (Struct "inet_peer_base") ⊳ "peers";
    Ptr (Struct "fqdir") ⊳ "fqdir";
    Ptr (Struct "fib6_info") ⊳ "fib6_null_entry";
    Ptr (Struct "rt6_info") ⊳ "ip6_null_entry";
    Ptr (Struct "rt6_statistics") ⊳ "rt6_stats";
    Struct "timer_list" ⊳ "ip6_fib_timer";
    Ptr (Struct "hlist_head") ⊳ "fib_table_hash";
    Name "spinlock_t" ⊳ "fib_table_hash_lock";
    Ptr (Struct "fib6_table") ⊳ "fib6_main_tbl";
    Struct "list_head" ⊳ "fib6_walkers";
    Name "rwlock_t" ⊳ "fib6_walker_lock";
    Name "spinlock_t" ⊳ "fib6_gc_lock";
    Name "atomic_t" ⊳ "ip6_rt_gc_expire";
    c_ulong ⊳ "ip6_rt_last_gc";
    c_uchar ⊳ "flowlabel_has_excl";
    Name "bool" ⊳ "fib6_has_custom_rules";
    c_uint ⊳ "fib6_rules_require_fldissect";
    c_uint ⊳ "fib6_routes_require_src";
    Ptr (Struct "rt6_info") ⊳ "ip6_prohibit_entry";
    Ptr (Struct "rt6_info") ⊳ "ip6_blk_hole_entry";
    Ptr (Struct "fib6_table") ⊳ "fib6_local_tbl";
    Ptr (Struct "fib_rules_ops") ⊳ "fib6_rules_ops";
    Ptr (Struct "sock") ⊳ "ndisc_sk";
    Ptr (Struct "sock") ⊳ "tcp_sk";
    Ptr (Struct "sock") ⊳ "igmp_sk";
    Ptr (Struct "sock") ⊳ "mc_autojoin_sk";
    Ptr (Struct "hlist_head") ⊳ "inet6_addr_lst";
    Name "spinlock_t" ⊳ "addrconf_hash_lock";
    Struct "delayed_work" ⊳ "addr_chk_work";
    Struct "list_head" ⊳ "mr6_tables";
    Ptr (Struct "fib_rules_ops") ⊳ "mr6_rules_ops";
    Name "atomic_t" ⊳ "dev_addr_genid";
    Name "atomic_t" ⊳ "fib6_sernum";
    Ptr (Struct "seg6_pernet_data") ⊳ "seg6_data";
    Ptr (Struct "fib_notifier_ops") ⊳ "notifier_ops";
    Ptr (Struct "fib_notifier_ops") ⊳ "ip6mr_notifier_ops";
    c_uint ⊳ "ipmr_seq";
    AnonStruct [
      Struct "hlist_head" ⊳ "head";
      Name "spinlock_t" ⊳ "lock";
      Name "u32" ⊳ "seq"] ⊳ "ip6addrlbl_table";
    Ptr (Struct "ioam6_pernet_data") ⊳ "ioam6_data";
    pad c_long 64;
    pad c_long 64;
    pad c_long 64].

Definition struct_dst_ops : cdecl :=
  DStruct false [
    c_ushort ⊳ "family";
    c_uint ⊳ "gc_thresh";
    Ptr (Fun Void [Ptr (Struct "dst_ops")]) ⊳ "gc";
    Ptr (Fun (Ptr (Struct "dst_entry")) [Ptr (Struct "dst_entry"); Name "__u32"]) ⊳ "check";
    Ptr (Fun c_uint [Ptr (Const (Struct "dst_entry"))]) ⊳ "default_advmss";
    Ptr (Fun c_uint [Ptr (Const (Struct "dst_entry"))]) ⊳ "mtu";
    Ptr (Fun (Ptr (Name "u32")) [Ptr (Struct "dst_entry"); c_ulong]) ⊳ "cow_metrics";
    Ptr (Fun Void [Ptr (Struct "dst_entry")]) ⊳ "destroy";
    Ptr (Fun Void [Ptr (Struct "dst_entry"); Ptr (Struct "net_device")]) ⊳ "ifdown";
    Ptr (Fun Void [Ptr (Struct "sock"); Ptr (Struct "dst_entry")]) ⊳ "negative_advice";
    Ptr (Fun Void [Ptr (Struct "sk_buff")]) ⊳ "link_failure";
    Ptr (Fun Void [Ptr (Struct "dst_entry"); Ptr (Struct "sock"); Ptr (Struct "sk_buff"); Name "u32"; Name "bool"]) ⊳ "update_pmtu";
    Ptr (Fun Void [Ptr (Struct "dst_entry"); Ptr (Struct "sock"); Ptr (Struct "sk_buff")]) ⊳ "redirect";
    Ptr (Fun c_int [Ptr (Struct "net"); Ptr (Struct "sock"); Ptr (Struct "sk_buff")]) ⊳ "local_out";
    Ptr (Fun (Ptr (Struct "neighbour")) [Ptr (Const (Struct "dst_entry")); Ptr (Struct "sk_buff"); Ptr (Const Void)]) ⊳ "neigh_lookup";
    Ptr (Fun Void [Ptr (Const (Struct "dst_entry")); Ptr (Const Void)]) ⊳ "confirm_neigh";
    Ptr (Struct "kmem_cache") ⊳ "kmem_cachep";
    Struct "percpu_counter" ⊳ "pcpuc_entries";
    pad c_long 64;
    pad c_long 64;
    pad c_long 64].

Definition struct_netns_sysctl_ipv6 : cdecl :=
  DStruct false [
    Ptr (Struct "ctl_table_header") ⊳ "hdr";
    Ptr (Struct "ctl_table_header") ⊳ "route_hdr";
    Ptr (Struct "ctl_table_header") ⊳ "icmp_hdr";
    Ptr (Struct "ctl_table_header") ⊳ "frags_hdr";
    Ptr (Struct "ctl_table_header") ⊳ "xfrm6_hdr";
    c_int ⊳ "flush_delay";
    c_int ⊳ "ip6_rt_max_size";
    c_int ⊳ "ip6_rt_gc_min_interval";
    c_int ⊳ "ip6_rt_gc_timeout";
    c_int ⊳ "ip6_rt_gc_interval";
    c_int ⊳ "ip6_rt_gc_elasticity";
    c_int ⊳ "ip6_rt_mtu_expires";
    c_int ⊳ "ip6_rt_min_advmss";
    Name "u32" ⊳ "multipath_hash_fields";
    Name "u8" ⊳ "multipath_hash_policy";
    Name "u8" ⊳ "bindv6only";
    Name "u8" ⊳ "flowlabel_consistency";
    Name "u8" ⊳ "auto_flowlabels";
    c_int ⊳ "icmpv6_time";
    Name "u8" ⊳ "icmpv6_echo_ignore_all";
    Name "u8" ⊳ "icmpv6_echo_ignore_multicast";
    Name "u8" ⊳ "icmpv6_echo_ignore_anycast";
    Arr c_ulong 4 ⊳ "icmpv6_ratemask";
    Ptr c_ulong ⊳ "icmpv6_ratemask_ptr";
    Name "u8" ⊳ "anycast_src_echo_reply";
    Name "u8" ⊳ "ip_nonlocal_bind";
    Name "u8" ⊳ "fwmark_reflect";
    Name "u8" ⊳ "flowlabel_state_ranges";
    c_int ⊳ "idgen_retries";
    c_int ⊳ "idgen_delay";
    c_int ⊳ "flowlabel_reflect";
    c_int ⊳ "max_dst_opts_cnt";
    c_int ⊳ "max_hbh_opts_cnt";
    c_int ⊳ "max_dst_opts_len";
    c_int ⊳ "max_hbh_opts_len";
    c_int ⊳ "seg6_flowlabel";
    Name "u32" ⊳ "ioam6_id";
    Name "u64" ⊳ "ioam6_id_wide";
    Name "u8" ⊳ "skip_notify_on_dev_down";
    Name "u8" ⊳ "fib_notify_on_flag_change";
    Name "u8" ⊳ "icmpv6_error_anycast_as_unicast"].

Definition struct_netns_ieee802154_lowpan : cdecl :=
  DStruct false [
    Struct "netns_sysctl_lowpan" ⊳ "sysctl";
    Ptr (Struct "fqdir") ⊳ "fqdir"].

Definition struct_netns_sysctl_lowpan : cdecl :=
  DStruct false [
    Ptr (Struct "ctl_table_header") ⊳ "frags_hdr"].

Definition struct_netns_sctp : cdecl :=
  DStruct false [
    Ptr (Struct "sctp_mib") ⊳ "sctp_statistics";
    Ptr (Struct "proc_dir_entry") ⊳ "proc_net_sctp";
    Ptr (Struct "ctl_table_header") ⊳ "sysctl_header";
    Ptr (Struct "sock") ⊳ "ctl_sock";
    Ptr (Struct "sock") ⊳ "udp4_sock";
    Ptr (Struct "sock") ⊳ "udp6_sock";
    c_int ⊳ "udp_port";
    c_int ⊳ "encap_port";
    Struct "list_head" ⊳ "local_addr_list";
    Struct "list_head" ⊳ "addr_waitq";
    Struct "timer_list" ⊳ "addr_wq_timer";
    Struct "list_head" ⊳ "auto_asconf_splist";
    Name "spinlock_t" ⊳ "addr_wq_lock";
    Name "spinlock_t" ⊳ "local_addr_lock";
    c_uint ⊳ "rto_initial";
    c_uint ⊳ "rto_min";
    c_uint ⊳ "rto_max";
    c_int ⊳ "rto_alpha";
    c_int ⊳ "rto_beta";
    c_int ⊳ "max_burst";
    c_int ⊳ "cookie_preserve_enable";
    Ptr c_char ⊳ "sctp_hmac_alg";
    c_uint ⊳ "valid_cookie_life";
    c_uint ⊳ "sack_timeout";
    c_uint ⊳ "hb_interval";
    c_uint ⊳ "probe_interval";
    c_int ⊳ "max_retrans_association";
    c_int ⊳ "max_retrans_path";
    c_int ⊳ "max_retrans_init";
    c_int ⊳ "pf_retrans";
    c_int ⊳ "ps_retrans";
    c_int ⊳ "pf_enable";
    c_int ⊳ "pf_expose";
    c_int ⊳ "sndbuf_policy";
    c_int ⊳ "rcvbuf_policy";
    c_int ⊳ "default_auto_asconf";
    c_int ⊳ "addip_enable";
    c_int ⊳ "addip_noauth";
    c_int ⊳ "prsctp_enable";
    c_int ⊳ "reconf_enable";
    c_int ⊳ "auth_enable";
    c_int ⊳ "intl_enable";
    c_int ⊳ "ecn_enable";
    c_int ⊳ "scope_policy";
    c_int ⊳ "rwnd_upd_shift";
    c_ulong ⊳ "max_autoclose";
    c_int ⊳ "l3mdev_accept"].

Definition struct_netns_nf : cdecl :=
  DStruct false [
    Ptr (Struct "proc_dir_entry") ⊳ "proc_netfilter";
    Arr (Ptr (Const (Struct "nf_logger"))) 11 ⊳ "nf_loggers";
    Ptr (Struct "ctl_table_header") ⊳ "nf_log_dir_header";
    Ptr (Struct "ctl_table_header") ⊳ "nf_lwtnl_dir_header";
    Arr (Ptr (Struct "nf_hook_entries")) 5 ⊳ "hooks_ipv4";
    Arr (Ptr (Struct "nf_hook_entries")) 5 ⊳ "hooks_ipv6";
    Arr (Ptr (Struct "nf_hook_entries")) 3 ⊳ "hooks_arp";
    Arr (Ptr (Struct "nf_hook_entries")) 5 ⊳ "hooks_bridge";
    c_uint ⊳ "defrag_ipv4_users";
    c_uint ⊳ "defrag_ipv6_users"].

Definition struct_netns_ct : cdecl :=
  DStruct false [
    Name "bool" ⊳ "ecache_dwork_pending";
    Name "u8" ⊳ "sysctl_log_invalid";
    Name "u8" ⊳ "sysctl_events";
    Name "u8" ⊳ "sysctl_acct";
    Name "u8" ⊳ "sysctl_tstamp";
    Name "u8" ⊳ "sysctl_checksum";
    Ptr (Struct "ip_conntrack_stat") ⊳ "stat";
    Ptr (Struct "nf_ct_event_notifier") ⊳ "nf_conntrack_event_cb";
    Struct "nf_ip_net" ⊳ "nf_ct_proto";
    Name "atomic_t" ⊳ "labels_used"].

Definition struct_nf_ip_net : cdecl :=
  DStruct false [
    Struct "nf_generic_net" ⊳ "generic";
    Struct "nf_tcp_net" ⊳ "tcp";
    Struct "nf_udp_net" ⊳ "udp";
    Struct "nf_icmp_net" ⊳ "icmp";
    Struct "nf_icmp_net" ⊳ "icmpv6";
    Struct "nf_sctp_net" ⊳ "sctp";
    Struct "nf_gre_net" ⊳ "gre"].

Definition struct_nf_generic_net : cdecl :=
  DStruct false [
    c_uint ⊳ "timeout"].

Definition struct_nf_tcp_net : cdecl :=
  DStruct false [
    Arr c_uint 14 ⊳ "timeouts";
    Name "u8" ⊳ "tcp_loose";
    Name "u8" ⊳ "tcp_be_liberal";
    Name "u8" ⊳ "tcp_max_retrans";
    Name "u8" ⊳ "tcp_ignore_invalid_rst";
    c_uint ⊳ "offload_timeout"].

Definition struct_nf_udp_net : cdecl :=
  DStruct false [
    Arr c_uint 2 ⊳ "timeouts";
    c_uint ⊳ "offload_timeout"].

Definition struct_nf_icmp_net : cdecl :=
  DStruct false [
    c_uint ⊳ "timeout"].

Definition struct_nf_sctp_net : cdecl :=
  DStruct false [
    Arr c_uint 10 ⊳ "timeouts"].

Definition struct_nf_gre_net : cdecl :=
  DStruct false [
    Struct "list_head" ⊳ "keymap_list";
    Arr c_uint 2 ⊳ "timeouts"].

Definition struct_netns_nftables : cdecl :=
  DStruct false [
    c_uint ⊳ "base_seq";
    Name "u8" ⊳ "gencursor"].

Definition struct_netns_ft : cdecl :=
  DStruct false [
    Ptr (Struct "nf_flow_table_stat") ⊳ "stat"].

Definition struct_netns_bpf : cdecl :=
  DStruct false [
    Arr (Ptr (Struct "bpf_prog_array")) 2 ⊳ "run_array";
    Arr (Ptr (Struct "bpf_prog")) 2 ⊳ "progs";
    Arr (Struct "list_head") 2 ⊳ "links"].

Definition struct_netns_xfrm : cdecl :=
  DStruct false [
    Struct "list_head" ⊳ "state_all";
    Ptr (Struct "hlist_head") ⊳ "state_bydst";
    Ptr (Struct "hlist_head") ⊳ "state_bysrc";
    Ptr (Struct "hlist_head") ⊳ "state_byspi";
    Ptr (Struct "hlist_head") ⊳ "state_byseq";
    Ptr (Struct "hlist_head") ⊳ "state_cache_input";
    c_uint ⊳ "state_hmask";
    c_uint ⊳ "state_num";
    Struct "work_struct" ⊳ "state_hash_work";
    Struct "list_head" ⊳ "policy_all";
    Ptr (Struct "hlist_head") ⊳ "policy_byidx";
    c_uint ⊳ "policy_idx_hmask";
    c_uint ⊳ "idx_generator";
    Arr (Struct "xfrm_policy_hash") 3 ⊳ "policy_bydst";
    Arr c_uint 6 ⊳ "policy_count";
    Struct "work_struct" ⊳ "policy_hash_work";
    Struct "xfrm_policy_hthresh" ⊳ "policy_hthresh";
    Struct "list_head" ⊳ "inexact_bins";
    Ptr (Struct "sock") ⊳ "nlsk";
    Ptr (Struct "sock") ⊳ "nlsk_stash";
    Name "u32" ⊳ "sysctl_aevent_etime";
    Name "u32" ⊳ "sysctl_aevent_rseqth";
    c_int ⊳ "sysctl_larval_drop";
    Name "u32" ⊳ "sysctl_acq_expires";
    Arr (Name "u8") 3 ⊳ "policy_default";
    Ptr (Struct "ctl_table_header") ⊳ "sysctl_hdr";
    pad c_long 64;
    pad c_long 64;
    pad c_long 64;
    pad c_long 64;
    pad c_long 64;
    Struct "dst_ops" ⊳ "xfrm4_dst_ops";
    Struct "dst_ops" ⊳ "xfrm6_dst_ops";
    Name "spinlock_t" ⊳ "xfrm_state_lock";
    Name "seqcount_spinlock_t" ⊳ "xfrm_state_hash_generation";
    Name "seqcount_spinlock_t" ⊳ "xfrm_policy_hash_generation";
    Name "spinlock_t" ⊳ "xfrm_policy_lock";
    Struct "mutex" ⊳ "xfrm_cfg_mutex";
    Struct "delayed_work" ⊳ "nat_keepalive_work";
    pad c_long 64;
    pad c_long 64;
    pad c_long 64;
    pad c_long 64;
    pad c_long 64;
    pad c_long 64;
    pad c_long 64].

Definition struct_xfrm_policy_hash : cdecl :=
  DStruct false [
    Ptr (Struct "hlist_head") ⊳ "table";
    c_uint ⊳ "hmask";
    Name "u8" ⊳ "dbits4";
    Name "u8" ⊳ "sbits4";
    Name "u8" ⊳ "dbits6";
    Name "u8" ⊳ "sbits6"].

Definition struct_xfrm_policy_hthresh : cdecl :=
  DStruct false [
    Struct "work_struct" ⊳ "work";
    Name "seqlock_t" ⊳ "lock";
    Name "u8" ⊳ "lbits4";
    Name "u8" ⊳ "rbits4";
    Name "u8" ⊳ "lbits6";
    Name "u8" ⊳ "rbits6"].

Definition struct_netns_mpls : cdecl :=
  DStruct false [
    c_int ⊳ "ip_ttl_propagate";
    c_int ⊳ "default_ttl";
    Name "size_t" ⊳ "platform_labels";
    Ptr (Ptr (Struct "mpls_route")) ⊳ "platform_label";
    Ptr (Struct "ctl_table_header") ⊳ "ctl"].

Definition struct_netns_can : cdecl :=
  DStruct false [
    Ptr (Struct "proc_dir_entry") ⊳ "proc_dir";
    Ptr (Struct "proc_dir_entry") ⊳ "pde_stats";
    Ptr (Struct "proc_dir_entry") ⊳ "pde_reset_stats";
    Ptr (Struct "proc_dir_entry") ⊳ "pde_rcvlist_all";
    Ptr (Struct "proc_dir_entry") ⊳ "pde_rcvlist_fil";
    Ptr (Struct "proc_dir_entry") ⊳ "pde_rcvlist_inv";
    Ptr (Struct "proc_dir_entry") ⊳ "pde_rcvlist_sff";
    Ptr (Struct "proc_dir_entry") ⊳ "pde_rcvlist_eff";
    Ptr (Struct "proc_dir_entry") ⊳ "pde_rcvlist_err";
    Ptr (Struct "proc_dir_entry") ⊳ "bcmproc_dir";
    Ptr (Struct "can_dev_rcv_lists") ⊳ "rx_alldev_list";
    Name "spinlock_t" ⊳ "rcvlists_lock";
    Struct "timer_list" ⊳ "stattimer";
    Ptr (Struct "can_pkg_stats") ⊳ "pkg_stats";
    Ptr (Struct "can_rcv_lists_stats") ⊳ "rcv_lists_stats";
    Struct "hlist_head" ⊳ "cgw_list"].

Definition struct_netns_xdp : cdecl :=
  DStruct false [
    Struct "mutex" ⊳ "lock";
    Struct "hlist_head" ⊳ "list"].

Definition struct_netns_mctp : cdecl :=
  DStruct false [
    Struct "list_head" ⊳ "routes";
    Struct "mutex" ⊳ "bind_lock";
    Arr (Struct "hlist_head") 128 ⊳ "binds";
    Name "spinlock_t" ⊳ "keys_lock";
    Struct "hlist_head" ⊳ "keys";
    c_uint ⊳ "default_net";
    Struct "mutex" ⊳ "neigh_lock";
    Struct "list_head" ⊳ "neighbours"].

Definition struct_netns_smc : cdecl :=
  DStruct false [
    Ptr (Struct "smc_stats") ⊳ "smc_stats";
    Struct "mutex" ⊳ "mutex_fback_rsn";
    Ptr (Struct "smc_stats_rsn") ⊳ "fback_rsn";
    Name "bool" ⊳ "limit_smc_hs";
    Ptr (Struct "ctl_table_header") ⊳ "smc_hdr";
    c_uint ⊳ "sysctl_autocorking_size";
    c_uint ⊳ "sysctl_smcr_buf_type";
    c_int ⊳ "sysctl_smcr_testlink_time";
    c_int ⊳ "sysctl_wmem";
    c_int ⊳ "sysctl_rmem";
    c_int ⊳ "sysctl_max_links_per_lgr";
    c_int ⊳ "sysctl_max_conns_per_lgr"].

(** The declarations of this file, by name. *)
Definition env_net : cenv := [
  ((SStruct, "net"), struct_net);
  ((SStruct, "idr"), struct_idr);
  ((SStruct, "ns_common"), struct_ns_common);
  ((SStruct, "ref_tracker_dir"), struct_ref_tracker_dir);
  ((SStruct, "ctl_table_set"), struct_ctl_table_set);
  ((SStruct, "ctl_dir"), struct_ctl_dir);
  ((SStruct, "ctl_table_header"), struct_ctl_table_header);
  ((SStruct, "raw_notifier_head"), struct_raw_notifier_head);
  ((SStruct, "netns_core"), struct_netns_core);
  ((SStruct, "netns_mib"), struct_netns_mib);
  ((SStruct, "netns_packet"), struct_netns_packet);
  ((SStruct, "netns_unix"), struct_netns_unix);
  ((SStruct, "unix_table"), struct_unix_table);
  ((SStruct, "netns_nexthop"), struct_netns_nexthop);
  ((SStruct, "blocking_notifier_head"), struct_blocking_notifier_head);
  ((SStruct, "rw_semaphore"), struct_rw_semaphore);
  ((SStruct, "netns_ipv4"), struct_netns_ipv4);
  ((SStruct, "inet_timewait_death_row"), struct_inet_timewait_death_row);
  ((SStruct, "udp_tunnel_gro"), struct_udp_tunnel_gro);
  ((SStruct, "local_ports"), struct_local_ports);
  ((SStruct, "ping_group_range"), struct_ping_group_range);
  ((STypedef, "seqlock_t"), typedef_seqlock_t);
  ((STypedef, "kgid_t"), typedef_kgid_t);
  ((SStruct, "sysctl_fib_multipath_hash_seed"), struct_sysctl_fib_multipath_hash_seed);
  ((STypedef, "siphash_key_t"), typedef_siphash_key_t);
  ((SStruct, "delayed_work"), struct_delayed_work);
  ((SStruct, "netns_ipv6"), struct_netns_ipv6);
  ((SStruct, "dst_ops"), struct_dst_ops);
  ((SStruct, "netns_sysctl_ipv6"), struct_netns_sysctl_ipv6);
  ((SStruct, "netns_ieee802154_lowpan"), struct_netns_ieee802154_lowpan);
  ((SStruct, "netns_sysctl_lowpan"), struct_netns_sysctl_lowpan);
  ((SStruct, "netns_sctp"), struct_netns_sctp);
  ((SStruct, "netns_nf"), struct_netns_nf);
  ((SStruct, "netns_ct"), struct_netns_ct);
  ((SStruct, "nf_ip_net"), struct_nf_ip_net);
  ((SStruct, "nf_generic_net"), struct_nf_generic_net);
  ((SStruct, "nf_tcp_net"), struct_nf_tcp_net);
  ((SStruct, "nf_udp_net"), struct_nf_udp_net);
  ((SStruct, "nf_icmp_net"), struct_nf_icmp_net);
  ((SStruct, "nf_sctp_net"), struct_nf_sctp_net);
  ((SStruct, "nf_gre_net"), struct_nf_gre_net);
  ((SStruct, "netns_nftables"), struct_netns_nftables);
  ((SStruct, "netns_ft"), struct_netns_ft);
  ((SStruct, "netns_bpf"), struct_netns_bpf);
  ((SStruct, "netns_xfrm"), struct_netns_xfrm);
  ((SStruct, "xfrm_policy_hash"), struct_xfrm_policy_hash);
  ((SStruct, "xfrm_policy_hthresh"), struct_xfrm_policy_hthresh);
  ((SStruct, "netns_mpls"), struct_netns_mpls);
  ((SStruct, "netns_can"), struct_netns_can);
  ((SStruct, "netns_xdp"), struct_netns_xdp);
  ((SStruct, "netns_mctp"), struct_netns_mctp);
  ((SStruct, "netns_smc"), struct_netns_smc)].
