(* ===== verification/Vmlinux.v ===== *)
(** * [vmlinux.h]: the kernel types as one environment

    The declarations of the [Vmlinux*] files together, the evaluation of their
    layout, and what it says of the memory the BPF program reads: every
    declaration is complete, and the members of every record are placed inside
    it, aligned and without overlap. *)
From S2P Require Import Prelude CTypes.
From S2P Require Import VmlinuxTypes VmlinuxSock VmlinuxBpf VmlinuxTask VmlinuxNet.
Local Open Scope Z_scope.

Definition vmlinux : cenv := env_types ++ env_sock ++ env_bpf ++ env_task ++ env_net.

(** The type a declaration declares. *)
Definition declared (k : cspace) (x : string) : cty :=
  match k with
  | SStruct => Struct x
  | SUnion => Union x
  | SEnum => Enum x
  | STypedef => Name x
  end.

(** Every declaration has a size. *)
Definition env_complete (E : cenv) : bool :=
  forallb (λ d, bool_decide (is_Some (size_align depth E (declared d.1.1 d.1.2)))) E.

(** No name is declared twice. *)
Definition env_distinct (E : cenv) : bool := bool_decide (NoDup E.*1).

(** A struct declaration is laid out: its members are sound, inside [sizeof]. *)
Definition struct_laid_out (E : cenv) (x : string) : Prop :=
  ∃ l s a, record_layout depth E (Struct x) = Some l ∧ struct_sound l ∧
    size_align depth E (Struct x) = Some (s, a) ∧ (a | s) ∧ l_end l ≤ 8 * s.

Lemma lookup_decl_elem E k x d : lookup_decl E k x = Some d → ((k, x), d) ∈ E.
Proof.
  induction E as [|[[k' x'] d'] E IH]; simpl; [done|].
  destruct (bool_decide _ && _) eqn:H; intros ?; simplify_eq; [|by right; auto].
  apply andb_true_iff in H as [->%bool_decide_eq_true ->%String.eqb_eq]. by left.
Qed.

Lemma env_complete_size E k x d :
  env_complete E = true → lookup_decl E k x = Some d →
  is_Some (size_align depth E (declared k x)).
Proof.
  intros Hc H%lookup_decl_elem. unfold env_complete in Hc. rewrite forallb_forall in Hc.
  apply list_elem_of_In in H. specialize (Hc _ H).
  exact (bool_decide_eq_true_1 _ Hc).
Qed.

Lemma vmlinux_complete : env_complete vmlinux = true.
Proof. vm_compute. reflexivity. Qed.

(** A declared struct is laid out, in any environment where it has a size. *)
Lemma struct_laid_out_intro E x p fs :
  lookup_decl E SStruct x = Some (DStruct p fs) →
  is_Some (size_align depth E (Struct x)) → struct_laid_out E x.
Proof.
  intros Hd [[s a] Hr].
  destruct (struct_size_layout 31 _ _ _ _ _ Hd Hr) as (l & Hl & Hc & [Hin Hs]).
  exists l, s, a. split; [exact Hl|]. split; [by split|]. split; [exact Hr|].
  pose proof (close_layout_ok _ Hin) as (_ & _ & Hd'). pose proof (close_layout_covers _ Hin).
  rewrite <- Hc in *. done.
Qed.

(** Every struct that is transcribed from the header has a layout: its size is a multiple of its alignment and covers its members,
    each member starts at a multiple of its own alignment (a power of two that
    divides the alignment of the struct), and no two members overlap. *)
Theorem vmlinux_structs_laid_out x p fs :
  lookup_decl vmlinux SStruct x = Some (DStruct p fs) → struct_laid_out vmlinux x.
Proof.
  intros Hd. apply (struct_laid_out_intro _ _ _ _ Hd).
  exact (env_complete_size _ _ _ _ vmlinux_complete Hd).
Qed.

Lemma vmlinux_structs_laid_out_witness :
  lookup_decl vmlinux SStruct "tcp_sock" = Some struct_tcp_sock ∧
  struct_laid_out vmlinux "tcp_sock".
Proof.
  split; [reflexivity|].
  eapply vmlinux_structs_laid_out. reflexivity.
Defined.

(** ** What a compiler makes of it *)








(** The context members the program reads, with their widths in bits. *)
Definition context_reads : list (string * Z) := [
  ("op", 32); ("family", 32); ("remote_ip4", 32); ("remote_port", 32);
  ("srtt_us", 32); ("bpf_sock_ops_cb_flags", 32); ("total_retrans", 32);
  ("bytes_received", 64); ("bytes_acked", 64)].

(** A context read of [w] bits is in bounds and naturally aligned. *)
Definition read_ok (E : cenv) (t : cty) (r : string * Z) : bool :=
  match sizeof E t, member_at E 0 t [r.1] with
  | Some s, Some p =>
      (p_len p =? r.2) && (p_start p mod r.2 =? 0) && (p_start p + p_len p <=? 8 * s)
  | _, _ => false
  end.

(** Every read of the context by the program is a naturally aligned
    32-bit or 64-bit access inside the 224 bytes of [struct bpf_sock_ops]. *)
Theorem context_reads_ok :
  sizeof vmlinux (Struct "bpf_sock_ops") = Some 224 ∧
  Forall (λ r, read_ok vmlinux (Struct "bpf_sock_ops") r = true) context_reads.
Proof. split; [reflexivity|]. repeat constructor. Qed.

(** The chain of embeddings the kernel casts along: a [struct sock] pointer
    that belongs to a TCP socket is a [struct tcp_sock] pointer. *)
Theorem tcp_sock_embeds_sock :
  offsetof vmlinux (Struct "tcp_sock") ["inet_conn"; "icsk_inet"; "sk"; "__sk_common"] = Some 0.
Proof. reflexivity. Qed.
