(* ===== verification/BpfMaps.v ===== *)
(** * BPF hash maps

    What the BPF program and the agent rely on of a [BPF_MAP_TYPE_HASH] map, as
    an interface: the map-type operations are kernel code, so the program's
    theorems are proved against the laws of [BpfHashMapLaws].  The instance
    [bounded_map], a finite map with a bound on its entries, satisfies them; the
    witnesses evaluate on it. *)
From S2P Require Import Prelude VmlinuxTypes CTypes.
Local Open Scope Z_scope.

(** The update flags, from the header. *)
Definition BPF_ANY : Z := Eval vm_compute in enumerator enum_map_update_flags "BPF_ANY".

(** [-E2BIG], the result of adding a key to a full map. *)
Definition E2BIG : Z := 7.

(** The operations on a map of [K] to [V] with representation [M].  [map_store]
    is a store through the value pointer that a lookup returned. *)
Class BpfHashMap (M K V : Type) := {
  map_lookup_elem : M → K → option V;
  map_update_elem : M → K → V → Z → Z * M;
  map_store : M → K → V → M;
}.

(** Documented behaviour of a hash map declared with [max_entries]. *)
Class BpfHashMapLaws (max_entries : nat) (M K V : Type) `{EqDecision K, Countable K}
    `{BpfHashMap M K V} := {
  map_keys : M → gset K;
  map_keys_spec m k : k ∈ map_keys m ↔ is_Some (map_lookup_elem m k);
  map_keys_bound m : (size (map_keys m) ≤ max_entries)%nat;
  (* a successful update binds the key and nothing else *)
  map_update_ok m k v m' :
    map_update_elem m k v BPF_ANY = (0, m') →
    map_lookup_elem m' k = Some v ∧ ∀ k', k' ≠ k → map_lookup_elem m' k' = map_lookup_elem m k';
  (* a failed update leaves the map as it was *)
  map_update_err m k v r m' :
    map_update_elem m k v BPF_ANY = (r, m') → r ≠ 0 →
    ∀ k', map_lookup_elem m' k' = map_lookup_elem m k';
  (* replacing the value of a key that is present needs no new entry *)
  map_update_present m k v :
    is_Some (map_lookup_elem m k) → (map_update_elem m k v BPF_ANY).1 = 0;
  (* a full map takes no new key *)
  map_update_full m k v :
    map_lookup_elem m k = None → size (map_keys m) = max_entries →
    (map_update_elem m k v BPF_ANY).1 = - E2BIG;
  map_store_lookup m k v k' :
    is_Some (map_lookup_elem m k) →
    map_lookup_elem (map_store m k v) k' = if decide (k' = k) then Some v else map_lookup_elem m k';
}.

Section laws.
Context {N : nat} {M K V : Type} `{EqDecision K, Countable K}.
Context `{!BpfHashMap M K V} `{!BpfHashMapLaws N M K V}.

(** The two outcomes of an update, by lookups. *)
Lemma map_update_cases m k v r m' :
  map_update_elem m k v BPF_ANY = (r, m') →
  (r = 0 ∧ ∀ k', map_lookup_elem m' k' = if decide (k' = k) then Some v else map_lookup_elem m k') ∨
  (r ≠ 0 ∧ map_lookup_elem m k = None ∧ ∀ k', map_lookup_elem m' k' = map_lookup_elem m k').
Proof.
  intros Hu. destruct (decide (r = 0)) as [->|Hr].
  - left. split; [done|]. intros k'. apply map_update_ok in Hu as [H1 H2]. case_decide; subst; auto.
  - right. split; [done|]. split; [|by eapply map_update_err].
    destruct (map_lookup_elem m k) eqn:Hk; [|done]. exfalso.
    pose proof (map_update_present m k v) as Hp. rewrite Hu in Hp. apply Hr, Hp. eauto.
Qed.

(** Keys are never lost by an update or a store. *)
Lemma map_update_keeps m k v r m' k' :
  map_update_elem m k v BPF_ANY = (r, m') →
  is_Some (map_lookup_elem m k') → is_Some (map_lookup_elem m' k').
Proof.
  intros Hu Hk. apply map_update_cases in Hu as [[_ Hu]|(_ & _ & Hu)]; rewrite Hu; [|done].
  case_decide; eauto.
Qed.

Lemma map_update_other m k v r m' k' :
  map_update_elem m k v BPF_ANY = (r, m') → k' ≠ k →
  map_lookup_elem m' k' = map_lookup_elem m k'.
Proof.
  intros Hu Hk. apply map_update_cases in Hu as [[_ Hu]|(_ & _ & Hu)]; rewrite Hu; [|done].
  by rewrite decide_False.
Qed.

Lemma map_store_keeps m k v k' :
  is_Some (map_lookup_elem m k) →
  is_Some (map_lookup_elem m k') → is_Some (map_lookup_elem (map_store m k v) k').
Proof. intros Hk Hk'. rewrite map_store_lookup by done. case_decide; eauto. Qed.

End laws.

(** ** A finite map with a bound on its entries *)

Record bounded_map (N : nat) (K V : Type) `{Countable K} := BoundedMap {
  bm_map : gmap K V;
  bm_bound : bool_decide (size bm_map ≤ N)%nat = true;
}.
Arguments BoundedMap {N K V _ _} _ _.
Arguments bm_map {N K V _ _} _.
Arguments bm_bound {N K V _ _} _.

Section bounded.
Context {N : nat} {K V : Type} `{Countable K}.

(** Keep [m] when it is within the bound, else [m0]. *)
Definition bm_keep (m0 : bounded_map N K V) (m : gmap K V) : bounded_map N K V :=
  match bool_decide (size m ≤ N)%nat as b return bool_decide (size m ≤ N)%nat = b → _ with
  | true => λ E, BoundedMap m E
  | false => λ _, m0
  end eq_refl.

Definition bm_empty : bounded_map N K V.
Proof. refine (BoundedMap ∅ _). apply bool_decide_eq_true. rewrite map_size_empty. lia. Defined.

#[export] Instance bounded_map_ops : BpfHashMap (bounded_map N K V) K V := {
  map_lookup_elem m k := bm_map m !! k;
  map_update_elem m k v _ :=
    if bool_decide (size (<[k:=v]> (bm_map m)) ≤ N)%nat
    then (0, bm_keep m (<[k:=v]> (bm_map m))) else (- E2BIG, m);
  map_store m k v := bm_keep m (if decide (is_Some (bm_map m !! k)) then <[k:=v]> (bm_map m) else bm_map m);
}.

Lemma bm_keep_map m0 m : (size m ≤ N)%nat → bm_map (bm_keep m0 m) = m.
Proof.
  intros Hm. unfold bm_keep. generalize (eq_refl (bool_decide (size m ≤ N)%nat)).
  generalize (bool_decide (size m ≤ N)%nat) at 2 3.
  intros [] E; [done|]. by apply bool_decide_eq_false in E.
Qed.

Lemma bm_size m : (size (bm_map (N:=N) (K:=K) (V:=V) m) ≤ N)%nat.
Proof. exact (bool_decide_eq_true_1 _ (bm_bound m)). Qed.

Lemma bm_size_insert (m : gmap K V) k v : is_Some (m !! k) → size (<[k:=v]> m) = size m.
Proof. intros. by apply map_size_insert_Some. Qed.

#[export] Instance bounded_map_laws : BpfHashMapLaws N (bounded_map N K V) K V.
Proof.
  refine {| map_keys m := dom (bm_map m) |}; simpl.
  - intros m k. apply elem_of_dom.
  - intros m. rewrite size_dom. apply bm_size.
  - intros m k v m' Hu. case_bool_decide as Hs; simplify_eq. rewrite bm_keep_map by done.
    split; [apply lookup_insert_eq|]. intros k' Hk. by rewrite lookup_insert_ne.
  - intros m k v r m' Hu Hr k'. case_bool_decide; by simplify_eq.
  - intros m k v Hk. rewrite bool_decide_eq_true_2; [done|].
    rewrite bm_size_insert by done. apply bm_size.
  - intros m k v Hk Hs. rewrite bool_decide_eq_false_2; [done|].
    rewrite map_size_insert_None by done. rewrite size_dom in Hs. lia.
  - intros m k v k' Hk. rewrite decide_True by done. rewrite bm_keep_map.
    + rewrite lookup_insert. repeat case_decide; congruence.
    + rewrite bm_size_insert by done. apply bm_size.
Defined.

(** The entries of a concrete map, as a list to evaluate. *)
Lemma bm_lookup_entry (m : bounded_map N K V) k v :
  map_lookup_elem m k = Some v → (k, v) ∈ map_to_list (bm_map m).
Proof. intros H1. by apply elem_of_map_to_list. Qed.

End bounded.
