(* ===== verification/SocketTuner.v ===== *)
(** * [socket_tuner.c]: the sock_ops program

    The BPF program of [env-ebpf-agent/ebpf/socket_tuner.c]: its data, its three
    maps, [update_metrics] and [bpf_sockmap].  The program runs in a small monad
    whose state is the three maps (through the interface of [BpfMaps]), which
    reads the results of the kernel helpers of the invocation and emits, in
    order, the helper calls it makes for their effect on the socket
    ([bpf_setsockopt], [bpf_sock_ops_cb_flags_set]), whose results it ignores. *)
From S2P Require Import Prelude Words CTypes VmlinuxTypes BpfMaps.
Local Open Scope Z_scope.

(** ** Constants *)

Definition AF_INET : Z := 2.
Definition SOL_SOCKET : Z := 1.
Definition SO_MAX_PACING_RATE : Z := 47.
Definition SOL_TCP : Z := 6.
Definition TCP_CONGESTION : Z := 13.
Definition TCP_WINDOW_CLAMP : Z := 10.
Definition TCP_NODELAY : Z := 1.
Definition TCP_USER_TIMEOUT : Z := 18.
Definition TCP_KEEPIDLE : Z := 4.
Definition TCP_BPF_IW : Z := 1001.
Definition TCP_BPF_SNDCWND_CLAMP : Z := 1002.

(** The operations and the callback flag of the header the program uses. *)
Definition BPF_SOCK_OPS_TCP_CONNECT_CB : Z :=
  Eval vm_compute in enumerator enum_sock_ops_op "BPF_SOCK_OPS_TCP_CONNECT_CB".
Definition BPF_SOCK_OPS_ACTIVE_ESTABLISHED_CB : Z :=
  Eval vm_compute in enumerator enum_sock_ops_op "BPF_SOCK_OPS_ACTIVE_ESTABLISHED_CB".
Definition BPF_SOCK_OPS_PASSIVE_ESTABLISHED_CB : Z :=
  Eval vm_compute in enumerator enum_sock_ops_op "BPF_SOCK_OPS_PASSIVE_ESTABLISHED_CB".
Definition BPF_SOCK_OPS_RETRANS_CB : Z :=
  Eval vm_compute in enumerator enum_sock_ops_op "BPF_SOCK_OPS_RETRANS_CB".
Definition BPF_SOCK_OPS_STATE_CB : Z :=
  Eval vm_compute in enumerator enum_sock_ops_op "BPF_SOCK_OPS_STATE_CB".
Definition BPF_SOCK_OPS_STATE_CB_FLAG : Z :=
  Eval vm_compute in enumerator enum_sock_ops_cb_flags "BPF_SOCK_OPS_STATE_CB_FLAG".
Definition BPF_SOCK_OPS_RETRANS_CB_FLAG : Z :=
  Eval vm_compute in enumerator enum_sock_ops_cb_flags "BPF_SOCK_OPS_RETRANS_CB_FLAG".

(** ** Data *)

(** Tuning parameters for a target socket. *)
Record tuning_action := TuningAction {
  max_pacing_rate : Z;    (* __u32 *)
  snd_cwnd_clamp : Z;     (* __u32 *)
  cong_algo : Z;          (* __u32 *)
  init_cwnd : Z;          (* __u32 *)
  window_clamp : Z;       (* __u32 *)
  no_delay : Z;           (* __u32 *)
  rto_min : Z;            (* __u32 *)
  retrans_after : Z;      (* __u32 *)
  enable_ecn : Z;         (* __u8 *)
  pacing_status : Z;      (* __u8 *)
  keepalive_idle : Z;     (* __u32 *)
}.

(** Metrics tracked over a socket connection. *)
Record tuning_metrics := TuningMetrics {
  remote_ip : Z;          (* __u32 *)
  remote_port : Z;        (* __u32 *)
  srtt_us : Z;            (* __u32 *)
  total_retrans : Z;      (* __u32 *)
  bytes_sent : Z;         (* __u64 *)
  bytes_received : Z;     (* __u64 *)
  start_time_ns : Z;      (* __u64 *)
  duration_us : Z;        (* __u64 *)
}.

(** The key of the action map. *)
Record ip_port_key := IpPortKey { ip : Z; port : Z }.

#[export] Instance tuning_action_eq_dec : EqDecision tuning_action.
Proof. solve_decision. Defined.
#[export] Instance tuning_metrics_eq_dec : EqDecision tuning_metrics.
Proof. solve_decision. Defined.
#[export] Instance ip_port_key_eq_dec : EqDecision ip_port_key.
Proof. solve_decision. Defined.
#[export] Instance ip_port_key_countable : Countable ip_port_key.
Proof.
  refine (inj_countable' (λ k, (ip k, port k)) (λ p, IpPortKey p.1 p.2) _). by intros [].
Defined.

(** The members of the context [struct bpf_sock_ops] that the program reads. *)
Module Ctx.
Record bpf_sock_ops := BpfSockOps {
  op : Z;
  family : Z;
  remote_ip4 : Z;
  remote_port : Z;
  srtt_us : Z;
  bpf_sock_ops_cb_flags : Z;
  total_retrans : Z;
  bytes_received : Z;
  bytes_acked : Z;
}.
End Ctx.
Abbreviation bpf_sock_ops := Ctx.bpf_sock_ops.

(** What the kernel helpers return during one invocation. *)
Record helpers := Helpers {
  bpf_get_socket_cookie : Z;        (* __u64 *)
  bpf_get_current_pid_tgid : Z;     (* __u64 *)
  bpf_ktime_get_ns : Z;             (* __u64 *)
}.

(** The helper calls made for their effect. *)
Inductive helper_call :=
| bpf_setsockopt (level optname : Z) (optval : list Z)
| bpf_sock_ops_cb_flags_set (flags : Z).

(** [max_entries] of the three maps. *)
Definition action_map_entries : nat := Z.to_nat 1024.
Definition metrics_map_entries : nat := Z.to_nat 10240.
Definition cookie_pid_map_entries : nat := Z.to_nat 65536.

(** The maps of the program. *)
Record bpf_state (MA MM MC : Type) := BpfState {
  action_map : MA;              (* struct ip_port_key -> struct tuning_action *)
  metrics_map : MM;             (* PID -> struct tuning_metrics *)
  cookie_pid_map : MC;          (* socket cookie -> PID *)
}.
Arguments BpfState {MA MM MC} _ _ _.
Arguments action_map {MA MM MC} _.
Arguments metrics_map {MA MM MC} _.
Arguments cookie_pid_map {MA MM MC} _.

(** Stores to one member of a record. *)
Definition set_srtt_us (v : Z) (m : tuning_metrics) : tuning_metrics :=
  TuningMetrics (remote_ip m) (remote_port m) v (total_retrans m)
    (bytes_sent m) (bytes_received m) (start_time_ns m) (duration_us m).
Definition set_total_retrans (v : Z) (m : tuning_metrics) : tuning_metrics :=
  TuningMetrics (remote_ip m) (remote_port m) (srtt_us m) v
    (bytes_sent m) (bytes_received m) (start_time_ns m) (duration_us m).
Definition set_bytes_sent (v : Z) (m : tuning_metrics) : tuning_metrics :=
  TuningMetrics (remote_ip m) (remote_port m) (srtt_us m) (total_retrans m)
    v (bytes_received m) (start_time_ns m) (duration_us m).
Definition set_bytes_received (v : Z) (m : tuning_metrics) : tuning_metrics :=
  TuningMetrics (remote_ip m) (remote_port m) (srtt_us m) (total_retrans m)
    (bytes_sent m) v (start_time_ns m) (duration_us m).
Definition set_duration_us (v : Z) (m : tuning_metrics) : tuning_metrics :=
  TuningMetrics (remote_ip m) (remote_port m) (srtt_us m) (total_retrans m)
    (bytes_sent m) (bytes_received m) (start_time_ns m) v.

(** [char cc[16] = s], zero-padded. *)
Definition char_array16 (s : string) : list Z :=
  let bs := Z.of_nat ∘ Ascii.nat_of_ascii <$> String.list_ascii_of_string s in
  bs ++ replicate (16 - length bs) 0.

(** The four bytes of a [__u32] in memory. *)
Definition u32_bytes (v : Z) : list Z := le_bytes 4 v.

(** ** The program *)

Section program.
Context {MA MM MC : Type}.
Context `{!BpfHashMap MA ip_port_key tuning_action}.
Context `{!BpfHashMap MM Z tuning_metrics}.
Context `{!BpfHashMap MC Z Z}.

Abbreviation state := (bpf_state MA MM MC).

(** A computation reads the helpers' results, threads the maps and emits calls. *)
Definition prog (A : Type) : Type := helpers → state → A * state * list helper_call.

#[export] Instance prog_ret : MRet prog := λ A x h s, (x, s, []).
#[export] Instance prog_bind : MBind prog := λ A B f c h s,
  let '(x, s1, e1) := c h s in
  let '(y, s2, e2) := f x h s1 in
  (y, s2, e1 ++ e2).

Definition ask {A} (f : helpers → A) : prog A := λ h s, (f h, s, []).
Definition emit (c : helper_call) : prog unit := λ h s, (tt, s, [c]).
Definition when (b : bool) (c : prog unit) : prog unit := if b then c else mret tt.

(** The map accesses of the program. *)
Definition lookup_action (k : ip_port_key) : prog (option tuning_action) :=
  λ h s, (map_lookup_elem (action_map s) k, s, []).
Definition lookup_pid (cookie : Z) : prog (option Z) :=
  λ h s, (map_lookup_elem (cookie_pid_map s) cookie, s, []).
Definition lookup_metrics (pid : Z) : prog (option tuning_metrics) :=
  λ h s, (map_lookup_elem (metrics_map s) pid, s, []).
Definition update_cookie_pid (cookie pid : Z) : prog Z := λ h s,
  let '(r, m) := map_update_elem (cookie_pid_map s) cookie pid BPF_ANY in
  (r, BpfState (action_map s) (metrics_map s) m, []).
Definition update_metrics_map (pid : Z) (met : tuning_metrics) : prog Z := λ h s,
  let '(r, m) := map_update_elem (metrics_map s) pid met BPF_ANY in
  (r, BpfState (action_map s) m (cookie_pid_map s), []).

(** [met->field = v], through the pointer into the metrics map. *)
Definition store_metrics (pid : Z) (f : tuning_metrics → tuning_metrics) : prog unit := λ h s,
  match map_lookup_elem (metrics_map s) pid with
  | Some met => (tt, BpfState (action_map s) (map_store (metrics_map s) pid (f met)) (cookie_pid_map s), [])
  | None => (tt, s, [])
  end.

(** [met->field], through the pointer. *)
Definition load_metrics (pid : Z) (f : tuning_metrics → Z) : prog Z := λ h s,
  (from_option f 0 (map_lookup_elem (metrics_map s) pid), s, []).

Definition update_metrics (skops : bpf_sock_ops) : prog unit :=
  cookie ← ask bpf_get_socket_cookie;
  pid_ptr ← lookup_pid cookie;
  match pid_ptr with
  | None => mret tt
  | Some pid =>
    met ← lookup_metrics pid;
    match met with
    | None => mret tt
    | Some _ =>
      _ ← store_metrics pid (set_srtt_us (Z.shiftr (Ctx.srtt_us skops) 3));
      _ ← store_metrics pid (set_total_retrans (Ctx.total_retrans skops));
      _ ← store_metrics pid (set_bytes_sent (Ctx.bytes_acked skops));
      _ ← store_metrics pid (set_bytes_received (Ctx.bytes_received skops));
      start ← load_metrics pid start_time_ns;
      when (0 <? start) (
        now ← ask bpf_ktime_get_ns;
        start ← load_metrics pid start_time_ns;
        store_metrics pid (set_duration_us (u64 (now - start) / 1000)))
    end
  end.

(** The body of [case BPF_SOCK_OPS_TCP_CONNECT_CB]. *)
Definition on_tcp_connect (skops : bpf_sock_ops) : prog unit :=
  cookie ← ask bpf_get_socket_cookie;
  pid_tgid ← ask bpf_get_current_pid_tgid;
  let pid := u32 (Z.shiftr pid_tgid 32) in
  _ ← update_cookie_pid cookie pid;
  now ← ask bpf_ktime_get_ns;
  let initial := TuningMetrics (Ctx.remote_ip4 skops) (bswap32 (Ctx.remote_port skops)) 0 0 0 0 now 0 in
  _ ← update_metrics_map pid initial;
  mret tt.

(** [if (act->field > 0) bpf_setsockopt(skops, level, optname, &act->field, 4)] *)
Definition set_if_positive (level optname v : Z) : prog unit :=
  when (0 <? v) (emit (bpf_setsockopt level optname (u32_bytes v))).

(** The body of [if (act) { ... }]. *)
Definition apply_action (act : tuning_action) : prog unit :=
  _ ← set_if_positive SOL_SOCKET SO_MAX_PACING_RATE (max_pacing_rate act);
  _ ← set_if_positive SOL_TCP TCP_BPF_SNDCWND_CLAMP (snd_cwnd_clamp act);
  _ ← when (0 <? cong_algo act) (
        if cong_algo act =? 1 then
          emit (bpf_setsockopt SOL_TCP TCP_CONGESTION (char_array16 "cubic"))
        else when (cong_algo act =? 2)
          (emit (bpf_setsockopt SOL_TCP TCP_CONGESTION (char_array16 "bbr"))));
  _ ← set_if_positive SOL_TCP TCP_BPF_IW (init_cwnd act);
  _ ← set_if_positive SOL_TCP TCP_WINDOW_CLAMP (window_clamp act);
  _ ← set_if_positive SOL_TCP TCP_NODELAY (no_delay act);
  _ ← set_if_positive SOL_TCP TCP_USER_TIMEOUT (retrans_after act);
  set_if_positive SOL_TCP TCP_KEEPIDLE (keepalive_idle act).

(** The body of the two [ESTABLISHED] cases. *)
Definition on_established (key : ip_port_key) (skops : bpf_sock_ops) : prog unit :=
  act ← lookup_action key;
  _ ← match act with Some act => apply_action act | None => mret tt end;
  emit (bpf_sock_ops_cb_flags_set
          (Z.lor (Ctx.bpf_sock_ops_cb_flags skops) BPF_SOCK_OPS_STATE_CB_FLAG)).

Definition bpf_sockmap (skops : bpf_sock_ops) : prog Z :=
  let op := Ctx.op skops in
  if negb (Ctx.family skops =? AF_INET) then mret 0
  else
    let key := IpPortKey (Ctx.remote_ip4 skops) 0 in
    _ ← (if op =? BPF_SOCK_OPS_TCP_CONNECT_CB then on_tcp_connect skops
         else if (op =? BPF_SOCK_OPS_ACTIVE_ESTABLISHED_CB)
                 || (op =? BPF_SOCK_OPS_PASSIVE_ESTABLISHED_CB) then on_established key skops
         else if op =? BPF_SOCK_OPS_STATE_CB then update_metrics skops
         else if op =? BPF_SOCK_OPS_RETRANS_CB then update_metrics skops
         else mret tt);
    mret 0.

(** One invocation of the program by the kernel, and a sequence of them. *)
Definition invoke (i : helpers * bpf_sock_ops) (s : state) : state := (bpf_sockmap i.2 i.1 s).1.2.
Definition emitted (i : helpers * bpf_sock_ops) (s : state) : list helper_call := (bpf_sockmap i.2 i.1 s).2.
Definition run (tr : list (helpers * bpf_sock_ops)) (s : state) : state := foldl (flip invoke) s tr.

End program.
