(* ===== verification/SocketTunerFacts.v ===== *)
(** * Correctness of the sock_ops program

    What [bpf_sockmap] does on each operation, proved against the interface of
    hash maps; the metrics of a socket over a whole trace of invocations; the
    types of the stored values; saturation of the metrics map. *)
From S2P Require Import Prelude Words CTypes BpfMaps SocketTuner.
Local Open Scope Z_scope.

(** ** Specifications *)

(** The value an action asks for, when it asks for one. *)
Definition positive (f : tuning_action → Z) (act : tuning_action) : option (list Z) :=
  if 0 <? f act then Some (u32_bytes (f act)) else None.

(** The congestion control algorithm an action names: 1 is cubic, 2 is bbr. *)
Definition congestion_name (act : tuning_action) : option (list Z) :=
  if cong_algo act =? 1 then Some (char_array16 "cubic")
  else if cong_algo act =? 2 then Some (char_array16 "bbr")
  else None.

(** The socket option each tuning parameter controls, in the order applied. *)
Definition tuning_table : list (Z * Z * (tuning_action → option (list Z))) := [
  (SOL_SOCKET, SO_MAX_PACING_RATE, positive max_pacing_rate);
  (SOL_TCP, TCP_BPF_SNDCWND_CLAMP, positive snd_cwnd_clamp);
  (SOL_TCP, TCP_CONGESTION, congestion_name);
  (SOL_TCP, TCP_BPF_IW, positive init_cwnd);
  (SOL_TCP, TCP_WINDOW_CLAMP, positive window_clamp);
  (SOL_TCP, TCP_NODELAY, positive no_delay);
  (SOL_TCP, TCP_USER_TIMEOUT, positive retrans_after);
  (SOL_TCP, TCP_KEEPIDLE, positive keepalive_idle)].

(** The socket options an action sets. *)
Definition tuning_calls (act : tuning_action) : list helper_call :=
  omap (λ r : Z * Z * (tuning_action → option (list Z)),
          bpf_setsockopt r.1.1 r.1.2 <$> r.2 act) tuning_table.

(** The record after a callback on the socket it belongs to. *)
Definition observe (i : helpers * bpf_sock_ops) (m : tuning_metrics) : tuning_metrics :=
  TuningMetrics (remote_ip m) (remote_port m)
    (Z.shiftr (Ctx.srtt_us i.2) 3) (Ctx.total_retrans i.2)
    (Ctx.bytes_acked i.2) (Ctx.bytes_received i.2) (start_time_ns m)
    (if 0 <? start_time_ns m then u64 (bpf_ktime_get_ns i.1 - start_time_ns m) / 1000
     else duration_us m).

(** The record of a connection that starts. *)
Definition initial_metrics (i : helpers * bpf_sock_ops) : tuning_metrics :=
  TuningMetrics (Ctx.remote_ip4 i.2) (bswap32 (Ctx.remote_port i.2)) 0 0 0 0 (bpf_ktime_get_ns i.1) 0.

(** Kinds of invocations. *)
Definition inet (i : helpers * bpf_sock_ops) : bool := Ctx.family i.2 =? AF_INET.
Definition is_connect (i : helpers * bpf_sock_ops) : bool :=
  inet i && (Ctx.op i.2 =? BPF_SOCK_OPS_TCP_CONNECT_CB).
Definition is_established (i : helpers * bpf_sock_ops) : bool :=
  inet i && ((Ctx.op i.2 =? BPF_SOCK_OPS_ACTIVE_ESTABLISHED_CB)
             || (Ctx.op i.2 =? BPF_SOCK_OPS_PASSIVE_ESTABLISHED_CB)).
Definition is_callback (i : helpers * bpf_sock_ops) : bool :=
  inet i && ((Ctx.op i.2 =? BPF_SOCK_OPS_STATE_CB) || (Ctx.op i.2 =? BPF_SOCK_OPS_RETRANS_CB)).

Definition cookie_of (i : helpers * bpf_sock_ops) : Z := bpf_get_socket_cookie i.1.
Definition pid_of (i : helpers * bpf_sock_ops) : Z := u32 (Z.shiftr (bpf_get_current_pid_tgid i.1) 32).

(** [i] is a callback of the socket with cookie [c]. *)
Definition own_callback (c : Z) (i : helpers * bpf_sock_ops) : bool :=
  is_callback i && (cookie_of i =? c).

(** [i] does not start another connection of socket [c] or of process [p]. *)
Definition leaves_alone (c p : Z) (i : helpers * bpf_sock_ops) : Prop :=
  is_connect i = true → cookie_of i ≠ c ∧ pid_of i ≠ p.

(** The values of the helpers and of the context have their C types. *)
Definition helpers_typed (h : helpers) : Prop :=
  fits 64 (bpf_get_socket_cookie h) ∧ fits 64 (bpf_get_current_pid_tgid h) ∧
  fits 64 (bpf_ktime_get_ns h).
Definition ctx_typed (k : bpf_sock_ops) : Prop :=
  fits 32 (Ctx.op k) ∧ fits 32 (Ctx.family k) ∧ fits 32 (Ctx.remote_ip4 k) ∧
  fits 32 (Ctx.remote_port k) ∧ fits 32 (Ctx.srtt_us k) ∧
  fits 32 (Ctx.bpf_sock_ops_cb_flags k) ∧ fits 32 (Ctx.total_retrans k) ∧
  fits 64 (Ctx.bytes_received k) ∧ fits 64 (Ctx.bytes_acked k).
Definition metrics_typed (m : tuning_metrics) : Prop :=
  fits 32 (remote_ip m) ∧ fits 32 (remote_port m) ∧ fits 32 (srtt_us m) ∧
  fits 32 (total_retrans m) ∧ fits 64 (bytes_sent m) ∧ fits 64 (bytes_received m) ∧
  fits 64 (start_time_ns m) ∧ fits 64 (duration_us m).

Section facts.
Context {NM NC : nat} {MA MM MC : Type}.
Context `{!BpfHashMap MA ip_port_key tuning_action}.
Context `{!BpfHashMap MM Z tuning_metrics} `{!BpfHashMapLaws NM MM Z tuning_metrics}.
Context `{!BpfHashMap MC Z Z} `{!BpfHashMapLaws NC MC Z Z}.

Abbreviation state := (bpf_state MA MM MC).
Implicit Types (s : state) (i : helpers * bpf_sock_ops).

Definition record s (p : Z) : option tuning_metrics := map_lookup_elem (metrics_map s) p.
Definition owner s (c : Z) : option Z := map_lookup_elem (cookie_pid_map s) c.

(** Both updates of a connect find room. *)
Definition connect_fits i s : Prop :=
  (map_update_elem (cookie_pid_map s) (cookie_of i) (pid_of i) BPF_ANY).1 = 0 ∧
  (map_update_elem (metrics_map s) (pid_of i) (initial_metrics i) BPF_ANY).1 = 0.

(** Every stored value has its C type. *)
Definition state_typed s : Prop :=
  (∀ p m, record s p = Some m → metrics_typed m) ∧ (∀ c p, owner s c = Some p → fits 32 p).

(** ** The cases of [bpf_sockmap] *)

Abbreviation call_of r act := (opt_list (bpf_setsockopt r.1.1 r.1.2 <$> r.2 act)).

Lemma set_if_positive_spec level optname (f : tuning_action → Z) act h s :
  set_if_positive (MA:=MA) (MM:=MM) (MC:=MC) level optname (f act) h s =
  (tt, s, call_of (level, optname, positive f) act).
Proof. unfold set_if_positive, when, positive. simpl. by destruct (0 <? f act). Qed.

Lemma set_congestion_spec act h s :
  when (MA:=MA) (MM:=MM) (MC:=MC) (0 <? cong_algo act)
    (if cong_algo act =? 1 then emit (bpf_setsockopt SOL_TCP TCP_CONGESTION (char_array16 "cubic"))
     else when (cong_algo act =? 2)
       (emit (bpf_setsockopt SOL_TCP TCP_CONGESTION (char_array16 "bbr")))) h s =
  (tt, s, call_of (SOL_TCP, TCP_CONGESTION, congestion_name) act).
Proof.
  unfold when, congestion_name. simpl.
  destruct (Z.ltb_spec 0 (cong_algo act)); repeat case_match; (reflexivity || lia).
Qed.

Lemma apply_action_spec act h s :
  apply_action (MA:=MA) (MM:=MM) (MC:=MC) act h s = (tt, s, tuning_calls act).
Proof.
  unfold apply_action, mbind, prog_bind.
  repeat (cbn beta iota; rewrite set_if_positive_spec || rewrite set_congestion_spec).
  unfold tuning_calls, tuning_table. rewrite !omap_cons_opt.
  cbn [omap list_omap]. by rewrite app_nil_r.
Qed.

(** An established connection: the maps are left alone; the options the stored
    action asks for are set, then the state callback is enabled. *)
Lemma established_spec i s :
  is_established i = true →
  invoke i s = s ∧
  emitted i s =
    (from_option tuning_calls [] (map_lookup_elem (action_map s) (IpPortKey (Ctx.remote_ip4 i.2) 0)))
    ++ [bpf_sock_ops_cb_flags_set
              (Z.lor (Ctx.bpf_sock_ops_cb_flags i.2) BPF_SOCK_OPS_STATE_CB_FLAG)].
Proof.
  destruct i as [h k]. unfold is_established, inet, invoke, emitted, bpf_sockmap.
  intros [-> Hop]%andb_true_iff. cbn [fst snd negb]. cbn [fst snd] in Hop. rewrite Hop.
  assert ((Ctx.op k =? BPF_SOCK_OPS_TCP_CONNECT_CB) = false) as ->.
  { unfold BPF_SOCK_OPS_ACTIVE_ESTABLISHED_CB, BPF_SOCK_OPS_PASSIVE_ESTABLISHED_CB,
      BPF_SOCK_OPS_TCP_CONNECT_CB in *. lia. }
  unfold on_established, mbind, prog_bind, lookup_action, mret, prog_ret, emit.
  destruct (map_lookup_elem _ _); [rewrite apply_action_spec|]; split; try done;
    cbn; by rewrite ?app_nil_r.
Qed.

(** A connection that starts: both updates are attempted. *)
Lemma connect_spec i s :
  is_connect i = true →
  invoke i s =
    BpfState (action_map s)
      (map_update_elem (metrics_map s) (pid_of i) (initial_metrics i) BPF_ANY).2
      (map_update_elem (cookie_pid_map s) (cookie_of i) (pid_of i) BPF_ANY).2 ∧
  emitted i s = [].
Proof.
  destruct i as [h k]. unfold is_connect, inet, invoke, emitted, bpf_sockmap, pid_of, cookie_of.
  intros [-> Hop]%andb_true_iff. cbn [fst snd negb]. cbn [fst snd] in Hop. rewrite Hop.
  unfold on_tcp_connect, mbind, prog_bind, ask, update_cookie_pid, update_metrics_map, mret, prog_ret.
  cbn. unfold initial_metrics. cbn.
  by repeat destruct (map_update_elem _ _ _ _).
Qed.

(** [s'] is [s] with the record of [p] set to [m]. *)
Definition recorded s s' p m : Prop :=
  action_map s' = action_map s ∧ cookie_pid_map s' = cookie_pid_map s ∧
  ∀ p', record s' p' = if decide (p' = p) then Some m else record s p'.

Lemma recorded_refl s p m : record s p = Some m → recorded s s p m.
Proof. intros H. repeat split. intros p'. case_decide; by subst. Qed.

Lemma recorded_at s s' p m : recorded s s' p m → record s' p = Some m.
Proof. intros (_ & _ & H). by rewrite H, decide_True. Qed.

Lemma store_metrics_spec p f h s s1 m :
  recorded s s1 p m → ∃ s2, store_metrics p f h s1 = (tt, s2, []) ∧ recorded s s2 p (f m).
Proof.
  intros H. pose proof (recorded_at _ _ _ _ H) as Hm. destruct H as (Ha & Hc & Hr).
  unfold record, store_metrics in *. rewrite Hm. eexists. split; [done|].
  repeat split; [done..|]. intros p'. unfold record. cbn. rewrite map_store_lookup by eauto.
  rewrite Hr. by case_decide.
Qed.

Lemma load_metrics_spec p f h s s1 m :
  recorded s s1 p m → load_metrics p f h s1 = (f m, s1, []).
Proof. intros H%recorded_at. unfold load_metrics. unfold record in H. by rewrite H. Qed.

(** A callback of a tracked socket rewrites the record of its process. *)
Lemma update_metrics_spec i s p m :
  owner s (cookie_of i) = Some p → record s p = Some m →
  ∃ s', update_metrics i.2 i.1 s = (tt, s', []) ∧ recorded s s' p (observe i m).
Proof.
  destruct i as [h k]. unfold owner, cookie_of. cbn [fst snd]. intros Ho Hm.
  pose proof (recorded_refl _ _ _ Hm) as H0.
  destruct (store_metrics_spec p (set_srtt_us (Z.shiftr (Ctx.srtt_us k) 3)) h _ _ _ H0)
    as (s1 & E1 & H1).
  destruct (store_metrics_spec p (set_total_retrans (Ctx.total_retrans k)) h _ _ _ H1)
    as (s2 & E2 & H2).
  destruct (store_metrics_spec p (set_bytes_sent (Ctx.bytes_acked k)) h _ _ _ H2)
    as (s3 & E3 & H3).
  destruct (store_metrics_spec p (set_bytes_received (Ctx.bytes_received k)) h _ _ _ H3)
    as (s4 & E4 & H4).
  unfold update_metrics, mbind, prog_bind, ask, lookup_pid, lookup_metrics.
  cbn beta iota. rewrite Ho. cbn beta iota. unfold record in Hm. rewrite Hm.
  rewrite E1, E2, E3, E4, (load_metrics_spec _ _ _ _ _ _ H4). unfold observe.
  cbn [fst snd start_time_ns set_bytes_received set_bytes_sent set_total_retrans set_srtt_us].
  destruct (0 <? start_time_ns m) eqn:Hst; cbn [when]; [|by exists s4].
  rewrite (load_metrics_spec _ _ _ _ _ _ H4).
  destruct (store_metrics_spec p (set_duration_us (u64 (bpf_ktime_get_ns h - start_time_ns m) / 1000))
    h _ _ _ H4) as (s5 & E5 & H5).
  exists s5. cbn [start_time_ns set_bytes_received set_bytes_sent set_total_retrans set_srtt_us].
  rewrite E5. done.
Qed.

(** A callback of a socket that is not tracked does nothing. *)
Lemma update_metrics_untracked i s :
  owner s (cookie_of i) ≫= record s = None → update_metrics i.2 i.1 s = (tt, s, []).
Proof.
  destruct i as [h k]. unfold owner, cookie_of, record. cbn [fst snd]. intros Ho.
  unfold update_metrics, mbind, prog_bind, ask, lookup_pid, lookup_metrics.
  cbn beta iota. destruct (map_lookup_elem (cookie_pid_map s) _) as [p|]; [|done].
  cbn in Ho |- *. by rewrite Ho.
Qed.

Lemma callback_run i s :
  is_callback i = true →
  invoke i s = (update_metrics i.2 i.1 s).1.2 ∧ emitted i s = (update_metrics i.2 i.1 s).2.
Proof.
  destruct i as [h k]. unfold is_callback, inet, invoke, emitted, bpf_sockmap.
  intros [-> Hop]%andb_true_iff. cbn [fst snd negb]. cbn [fst snd] in Hop.
  unfold BPF_SOCK_OPS_STATE_CB, BPF_SOCK_OPS_RETRANS_CB, BPF_SOCK_OPS_TCP_CONNECT_CB,
    BPF_SOCK_OPS_ACTIVE_ESTABLISHED_CB, BPF_SOCK_OPS_PASSIVE_ESTABLISHED_CB in *.
  replace (Ctx.op k =? 3) with false by lia.
  replace ((Ctx.op k =? 4) || (Ctx.op k =? 5)) with false by lia.
  assert (∀ c : prog unit, (if Ctx.op k =? 10 then c else if Ctx.op k =? 9 then c else mret tt) = c) as ->.
  { intros c. destruct (Ctx.op k =? 10), (Ctx.op k =? 9); done. }
  unfold mbind, prog_bind, mret, prog_ret.
  destruct (update_metrics k h s) as [[[] s'] e]. cbn. by rewrite app_nil_r.
Qed.

Lemma callback_spec i s :
  is_callback i = true →
  emitted i s = [] ∧
  match owner s (cookie_of i) with
  | Some p =>
      match record s p with
      | Some m => recorded s (invoke i s) p (observe i m)
      | None => invoke i s = s
      end
  | None => invoke i s = s
  end.
Proof.
  intros Hi. destruct (callback_run i s Hi) as [-> ->].
  destruct (owner s (cookie_of i)) as [p|] eqn:Ho; [destruct (record s p) as [m|] eqn:Hm|].
  - by destruct (update_metrics_spec i s p m Ho Hm) as (s' & -> & ?).
  - rewrite update_metrics_untracked; [done|]. by rewrite Ho.
  - rewrite update_metrics_untracked; [done|]. by rewrite Ho.
Qed.

(** Every other operation, and every other address family, does nothing. *)
Lemma skip_spec i s :
  is_connect i = false → is_established i = false → is_callback i = false →
  invoke i s = s ∧ emitted i s = [].
Proof.
  destruct i as [h k]. unfold is_connect, is_established, is_callback, inet, invoke, emitted, bpf_sockmap.
  cbn [fst snd]. destruct (Ctx.family k =? AF_INET); [|done]. cbn [andb negb].
  intros -> -> H. destruct (_ =? BPF_SOCK_OPS_STATE_CB), (_ =? BPF_SOCK_OPS_RETRANS_CB); done.
Qed.

(** The kinds of invocations. *)
Variant kind_of i : Prop :=
| kind_connect (_ : is_connect i = true)
| kind_established (_ : is_established i = true)
| kind_callback (_ : is_callback i = true)
| kind_skip (_ : is_connect i = false) (_ : is_established i = false) (_ : is_callback i = false).

Lemma kind i : kind_of i.
Proof.
  destruct (is_connect i) eqn:?; [by apply kind_connect|].
  destruct (is_established i) eqn:?; [by apply kind_established|].
  destruct (is_callback i) eqn:?; [by apply kind_callback|by apply kind_skip].
Qed.

(** ** Traces *)

Lemma run_cons i tr s : run (i :: tr) s = run tr (invoke i s).
Proof. done. Qed.

(** A property that every invocation preserves holds along a trace. *)
Lemma run_ind (P : state → Prop) (Q : helpers * bpf_sock_ops → Prop) tr s :
  (∀ i s, Q i → P s → P (invoke i s)) → Forall Q tr → P s → P (run tr s).
Proof.
  intros Hstep Htr. revert s. induction Htr as [|i tr Hi _ IH]; intros s Hs; [done|].
  rewrite run_cons. auto.
Qed.

Lemma connect_owner_other i s c :
  is_connect i = true → c ≠ cookie_of i → owner (invoke i s) c = owner s c.
Proof.
  intros Hi Hc. destruct (connect_spec i s Hi) as [-> _]. unfold owner. cbn.
  destruct (map_update_elem (cookie_pid_map s) _ _ _) eqn:E. by eapply map_update_other.
Qed.

Lemma connect_record_other i s p :
  is_connect i = true → p ≠ pid_of i → record (invoke i s) p = record s p.
Proof.
  intros Hi Hp. destruct (connect_spec i s Hi) as [-> _]. unfold record. cbn.
  destruct (map_update_elem (metrics_map s) _ _ _) eqn:E. by eapply map_update_other.
Qed.

Lemma connect_owner i s :
  is_connect i = true →
  owner (invoke i s) (cookie_of i) = Some (pid_of i) ∨
  owner (invoke i s) (cookie_of i) = owner s (cookie_of i).
Proof.
  intros Hi. destruct (connect_spec i s Hi) as [-> _]. unfold owner. cbn.
  destruct (map_update_elem (cookie_pid_map s) _ _ _) as [r m] eqn:E. cbn.
  apply map_update_cases in E as [[_ ->]|(_ & _ & ->)]; [|by right]. left. by rewrite decide_True.
Qed.

Lemma connect_record i s :
  is_connect i = true →
  record (invoke i s) (pid_of i) = Some (initial_metrics i) ∨
  (record s (pid_of i) = None ∧ record (invoke i s) (pid_of i) = None).
Proof.
  intros Hi. destruct (connect_spec i s Hi) as [-> _]. unfold record. cbn.
  destruct (map_update_elem (metrics_map s) _ _ _) as [r m] eqn:E. cbn.
  apply map_update_cases in E as [[_ ->]|(_ & Hn & ->)]; [|by right].
  left. by rewrite decide_True.
Qed.

(** With room in both maps, the socket and the record of the process are new. *)
Lemma connect_ok i s :
  is_connect i = true → connect_fits i s →
  owner (invoke i s) (cookie_of i) = Some (pid_of i) ∧
  record (invoke i s) (pid_of i) = Some (initial_metrics i).
Proof.
  intros Hi [Hc Hm]. destruct (connect_spec i s Hi) as [-> _]. unfold owner, record. cbn.
  destruct (map_update_elem (cookie_pid_map s) _ _ _) as [r m] eqn:E.
  destruct (map_update_elem (metrics_map s) _ _ _) as [r' m'] eqn:E'. cbn in *. subst.
  by apply map_update_ok in E as [-> _], E' as [-> _].
Qed.

(** ** The session of one socket *)

(** Socket [c] of process [p] is tracked by the record [m], and no other socket
    writes to it. *)
Definition session c p m s : Prop :=
  owner s c = Some p ∧ record s p = Some m ∧ ∀ c', c' ≠ c → owner s c' ≠ Some p.

Lemma own_callback_callback c i : own_callback c i = true → is_callback i = true ∧ cookie_of i = c.
Proof. unfold own_callback. intros [? ?%Z.eqb_eq]%andb_true_iff. done. Qed.

Lemma session_step c p m i s :
  leaves_alone c p i → session c p m s →
  session c p (if own_callback c i then observe i m else m) (invoke i s).
Proof.
  intros Hi (Ho & Hr & Hu). unfold own_callback. destruct (kind i) as [H|H|H|? ? H].
  - destruct (Hi H) as [Hc Hp].
    replace (is_callback i) with false by (unfold is_connect, is_callback, inet,
      BPF_SOCK_OPS_TCP_CONNECT_CB, BPF_SOCK_OPS_STATE_CB, BPF_SOCK_OPS_RETRANS_CB in *; lia).
    split; [by rewrite connect_owner_other|]. split; [by rewrite connect_record_other|].
    intros c' Hc'. destruct (decide (c' = cookie_of i)) as [->|].
    + destruct (connect_owner i s H) as [-> | ->]; [congruence|auto].
    + rewrite connect_owner_other by done. auto.
  - replace (is_callback i) with false by (unfold is_established, is_callback, inet,
      BPF_SOCK_OPS_ACTIVE_ESTABLISHED_CB, BPF_SOCK_OPS_PASSIVE_ESTABLISHED_CB,
      BPF_SOCK_OPS_STATE_CB, BPF_SOCK_OPS_RETRANS_CB in *; lia).
    by destruct (established_spec i s H) as [-> _].
  - rewrite H. cbn [andb]. destruct (callback_spec i s H) as [_ Hcb].
    destruct (Z.eqb_spec (cookie_of i) c) as [Heq|Hne].
    + rewrite Heq, Ho, Hr in Hcb. pose proof (recorded_at _ _ _ _ Hcb).
      destruct Hcb as (_ & Hc & _). unfold session, owner in *. by rewrite Hc.
    + destruct (owner s (cookie_of i)) as [q|] eqn:Hq; [|by rewrite Hcb].
      destruct (record s q) eqn:Hrq; [|by rewrite Hcb].
      assert (p ≠ q) by (intros ->; by eapply Hu).
      destruct Hcb as (_ & Hc & Hrec). unfold session, owner in *. rewrite Hc, Hrec.
      by rewrite decide_False.
  - rewrite H. by destruct (skip_spec i s) as [-> _].
Qed.

Lemma session_run c p m tr s :
  Forall (leaves_alone c p) tr → session c p m s →
  session c p (foldl (flip observe) m (filter (λ i, own_callback c i = true) tr)) (run tr s).
Proof.
  intros Htr. revert m s. induction Htr as [|i tr Hi _ IH]; intros m s Hs; [done|].
  rewrite run_cons. rewrite filter_cons. apply (session_step _ _ _ i) in Hs; [|done].
  case_decide as Hd; [rewrite Hd in Hs|apply not_true_iff_false in Hd; rewrite Hd in Hs]; by apply IH.
Qed.

(** Only the last callback shows, besides what the connection recorded. *)
Lemma observe_last m l j :
  foldl (flip observe) m (l ++ [j]) =
  observe j (TuningMetrics (remote_ip m) (remote_port m) 0 0 0 0 (start_time_ns m)
    (duration_us (foldl (flip observe) m l))).
Proof.
  rewrite foldl_snoc.
  assert (remote_ip (foldl (flip observe) m l) = remote_ip m ∧
          remote_port (foldl (flip observe) m l) = remote_port m ∧
          start_time_ns (foldl (flip observe) m l) = start_time_ns m) as (H1 & H2 & H3).
  { clear j. revert m. induction l as [|i l IH]; intros m; [done|]. cbn [foldl].
    by destruct (IH (flip observe m i)) as (-> & -> & ->). }
  revert H1 H2 H3. generalize (foldl (flip observe) m l). intros M H1 H2 H3.
  unfold flip, observe. cbn. by rewrite H1, H2, H3.
Qed.

(** The record of a process that opens a socket, after the callbacks of the socket. *)
Lemma session_record s i0 tr pre j :
  is_connect i0 = true → connect_fits i0 s →
  (∀ c', c' ≠ cookie_of i0 → owner s c' ≠ Some (pid_of i0)) →
  Forall (leaves_alone (cookie_of i0) (pid_of i0)) tr →
  filter (λ i, own_callback (cookie_of i0) i = true) tr = pre ++ [j] →
  0 < bpf_ktime_get_ns i0.1 ≤ bpf_ktime_get_ns j.1 → fits 64 (bpf_ktime_get_ns j.1) →
  record (run (i0 :: tr) s) (pid_of i0) = Some
    (TuningMetrics (Ctx.remote_ip4 i0.2) (bswap32 (Ctx.remote_port i0.2))
       (Z.shiftr (Ctx.srtt_us j.2) 3) (Ctx.total_retrans j.2)
       (Ctx.bytes_acked j.2) (Ctx.bytes_received j.2) (bpf_ktime_get_ns i0.1)
       ((bpf_ktime_get_ns j.1 - bpf_ktime_get_ns i0.1) / 1000)).
Proof.
  intros Hi Hfit Hu Htr Hf Ht Hj.
  destruct (connect_ok i0 s Hi Hfit) as [Ho Hr].
  assert (session (cookie_of i0) (pid_of i0) (initial_metrics i0) (invoke i0 s)) as Hs.
  { split; [done|]. split; [done|]. intros c' Hc'. rewrite connect_owner_other by done. auto. }
  apply (session_run _ _ _ _ _ Htr) in Hs as (_ & Hrec & _).
  rewrite run_cons, Hrec, Hf, observe_last. unfold observe, initial_metrics. cbn.
  unfold fits in Hj. rewrite (proj2 (Z.ltb_lt _ _)), wrap_id by (unfold fits; lia). done.
Qed.

(** ** What a record comes from *)

(** An invocation writes to the record of [p]: a connect of [p], or a callback whose
    socket belongs to [p] at that time. *)
Definition writes_to p s i : Prop :=
  (is_connect i = true ∧ pid_of i = p) ∨ (is_callback i = true ∧ owner s (cookie_of i) = Some p).

(** Nothing in a trace from [s] writes to the record of [p]. *)
Fixpoint undisturbed p (tr : list (helpers * bpf_sock_ops)) s : Prop :=
  match tr with [] => True | i :: tr => ¬ writes_to p s i ∧ undisturbed p tr (invoke i s) end.

Lemma undisturbed_snoc p tr i s :
  undisturbed p tr s → ¬ writes_to p (run tr s) i → undisturbed p (tr ++ [i]) s.
Proof.
  revert s. induction tr as [|k tr IH]; intros s; [done|]. intros [Hk Htr] Hi. split; [done|]. by apply IH.
Qed.

Lemma run_app tr tr' s : run (tr ++ tr') s = run tr' (run tr s).
Proof. apply foldl_app. Qed.

Lemma run_snoc tr i s : run (tr ++ [i]) s = invoke i (run tr s).
Proof. by rewrite run_app. Qed.

(** The three effects of an invocation on a record. *)
Lemma record_invoke p i s :
  record (invoke i s) p = record s p ∧ ¬ writes_to p s i ∨
  is_connect i = true ∧ pid_of i = p ∧
    (record (invoke i s) p = Some (initial_metrics i) ∨ record s p = None ∧ record (invoke i s) p = None) ∨
  is_connect i = false ∧ is_callback i = true ∧ owner s (cookie_of i) = Some p ∧
    record (invoke i s) p = observe i <$> record s p.
Proof.
  assert (is_connect i = true → is_callback i = false) as Hcc by (unfold is_connect, is_callback, inet,
    BPF_SOCK_OPS_TCP_CONNECT_CB, BPF_SOCK_OPS_STATE_CB, BPF_SOCK_OPS_RETRANS_CB; lia).
  unfold writes_to. destruct (kind i) as [H|H|H|? ? H].
  - destruct (decide (pid_of i = p)) as [<-|Hp].
    + right. left. split_and!; [done..|]. by apply connect_record.
    + left. rewrite connect_record_other by done. rewrite Hcc by done. intuition congruence.
  - destruct (established_spec i s H) as [-> _]. left. split; [done|].
    unfold is_established, is_callback, is_connect, inet, BPF_SOCK_OPS_ACTIVE_ESTABLISHED_CB,
      BPF_SOCK_OPS_PASSIVE_ESTABLISHED_CB, BPF_SOCK_OPS_TCP_CONNECT_CB,
      BPF_SOCK_OPS_STATE_CB, BPF_SOCK_OPS_RETRANS_CB in *. intros [[? _]|[? _]]; lia.
  - assert (is_connect i = false) as Hn by (destruct (is_connect i); [specialize (Hcc eq_refl); congruence|done]).
    destruct (callback_spec i s H) as [_ Hcb]. rewrite Hn, H.
    destruct (owner s (cookie_of i)) as [q|] eqn:Ho; [|rewrite Hcb; left; intuition congruence].
    destruct (decide (q = p)) as [->|Hq].
    + right. right. split_and!; [done..|]. destruct (record s p) as [m|] eqn:Hm.
      * destruct Hcb as (_ & _ & ->). by rewrite decide_True.
      * by rewrite Hcb.
    + left. destruct (record s q); [|rewrite Hcb; intuition congruence].
      destruct Hcb as (_ & _ & ->). rewrite decide_False by congruence. intuition congruence.
  - destruct (skip_spec i s) as [-> _]; [done..|]. left. intuition congruence.
Qed.

(** The record after a connect and a later callback. *)
Definition metrics_of (i j : helpers * bpf_sock_ops) : tuning_metrics :=
  TuningMetrics (Ctx.remote_ip4 i.2) (bswap32 (Ctx.remote_port i.2))
    (Z.shiftr (Ctx.srtt_us j.2) 3) (Ctx.total_retrans j.2)
    (Ctx.bytes_acked j.2) (Ctx.bytes_received j.2) (bpf_ktime_get_ns i.1)
    (if 0 <? bpf_ktime_get_ns i.1 then u64 (bpf_ktime_get_ns j.1 - bpf_ktime_get_ns i.1) / 1000 else 0).

Lemma observe_initial i j : observe j (initial_metrics i) = metrics_of i j.
Proof. done. Qed.

Lemma observe_again i j k : observe k (metrics_of i j) = metrics_of i k.
Proof. unfold observe, metrics_of. cbn. by destruct (0 <? bpf_ktime_get_ns i.1). Qed.

(** [i] is the last connect of [p] in a trace from [s], and [m] is what it recorded,
    or what the last callback for [p] after it did. *)
Definition explains s tr p m : Prop :=
  ∃ tr1 i tr2,
    tr = tr1 ++ i :: tr2 ∧ is_connect i = true ∧ pid_of i = p ∧
    Forall (λ k, is_connect k = true → pid_of k ≠ p) tr2 ∧
    (m = initial_metrics i ∧ undisturbed p tr2 (run (tr1 ++ [i]) s) ∨
     ∃ tr3 j tr4,
       tr2 = tr3 ++ j :: tr4 ∧ is_callback j = true ∧
       owner (run (tr1 ++ i :: tr3) s) (cookie_of j) = Some p ∧
       undisturbed p tr4 (run (tr1 ++ i :: tr3 ++ [j]) s) ∧ m = metrics_of i j).

Lemma explains_quiet s tr p m k :
  explains s tr p m → ¬ writes_to p (run tr s) k → explains s (tr ++ [k]) p m.
Proof.
  intros (tr1 & i & tr2 & -> & Hi & Hp & Hf & Hm) Hk. exists tr1, i, (tr2 ++ [k]).
  split_and!; [by rewrite <- app_assoc|done|done| |].
  { apply Forall_app_2; [done|]. apply Forall_singleton. intros Hc Hpk. apply Hk. left. done. }
  destruct Hm as [[-> Hu]|(tr3 & j & tr4 & -> & Hj & Ho & Hu & ->)]; [left|right].
  - split; [done|]. apply undisturbed_snoc; [done|]. rewrite <- run_app, <- app_assoc. done.
  - exists tr3, j, (tr4 ++ [k]). split_and!; [by rewrite <- app_assoc|done|done| |done].
    apply undisturbed_snoc; [done|]. rewrite <- run_app. by rewrite <- app_assoc, <- app_comm_cons, <- app_assoc.
Qed.

Lemma explains_callback s tr p m k :
  explains s tr p m → is_connect k = false → is_callback k = true →
  owner (run tr s) (cookie_of k) = Some p → explains s (tr ++ [k]) p (observe k m).
Proof.
  intros (tr1 & i & tr2 & -> & Hi & Hp & Hf & Hm) Hn Hk Ho. exists tr1, i, (tr2 ++ [k]).
  split_and!; [by rewrite <- app_assoc|done|done|apply Forall_app_2; [done|]; apply Forall_singleton; congruence|].
  right. exists tr2, k, []. split_and!; [done..|].
  destruct Hm as [[-> _]|(tr3 & j & tr4 & _ & _ & _ & _ & ->)]; [apply observe_initial|apply observe_again].
Qed.

Lemma record_explained s tr p m :
  record s p = None → record (run tr s) p = Some m → explains s tr p m.
Proof.
  intros H0. revert m. induction tr as [|k tr IH] using rev_ind; intros m; [cbn; congruence|].
  rewrite run_snoc. destruct (record_invoke p k (run tr s))
    as [[-> Hk]|[(Hk & Hp & [->|[_ ->]])|(Hn & Hk & Ho & ->)]]; [| |done|].
  - intros Hm%IH. by apply explains_quiet.
  - intros [= <-]. exists tr, k, []. split_and!; [done..|apply Forall_nil_2|]. by left.
  - destruct (record (run tr s) p) as [m0|]; [|done]. intros [= <-]. apply explains_callback; auto.
Qed.

(** ** Typing *)

Lemma observe_typed i m :
  helpers_typed i.1 → ctx_typed i.2 → metrics_typed m → metrics_typed (observe i m).
Proof.
  intros (?&?&?) (?&?&?&?&?&?&?&?&?) (?&?&?&?&?&?&?&?).
  unfold metrics_typed. cbn [observe remote_ip remote_port srtt_us total_retrans bytes_sent
    bytes_received start_time_ns duration_us]. split_and!; try done.
  all: try (apply fits_shiftr; [lia|done]).
  all: case_match; [apply fits_div; [lia|apply wrap_fits; lia]|done].
Qed.

Lemma initial_typed i : helpers_typed i.1 → ctx_typed i.2 → metrics_typed (initial_metrics i).
Proof.
  intros (?&?&?) (?&?&?&?&?&?&?&?&?). unfold metrics_typed, initial_metrics.
  cbn [remote_ip remote_port srtt_us total_retrans bytes_sent
    bytes_received start_time_ns duration_us]. split_and!; try done; apply bswap32_fits.
Qed.

(** The program never writes to the action map. *)
Lemma action_map_invoke i s : action_map (invoke i s) = action_map s.
Proof.
  destruct (kind i) as [H|H|H|? ? H].
  - by destruct (connect_spec i s H) as [-> _].
  - by destruct (established_spec i s H) as [-> _].
  - destruct (callback_spec i s H) as [_ Hcb].
    destruct (owner s _) as [q|]; [|by rewrite Hcb].
    destruct (record s q) as [m|]; [|by rewrite Hcb]. by destruct Hcb.
  - by destruct (skip_spec i s) as [-> _].
Qed.

Lemma action_map_run tr s : action_map (run tr s) = action_map s.
Proof.
  revert s. induction tr as [|i tr IH]; intros s; [done|].
  by rewrite run_cons, IH, action_map_invoke.
Qed.

(** ** Saturation *)

Lemma record_keys s p : p ∈ map_keys (metrics_map s) ↔ is_Some (record s p).
Proof. apply map_keys_spec. Qed.

Lemma keys_invoke_full i s :
  size (map_keys (metrics_map s)) = NM →
  map_keys (metrics_map (invoke i s)) = map_keys (metrics_map s).
Proof.
  intros Hfull. apply set_eq. intros p. rewrite !record_keys.
  destruct (kind i) as [H|H|H|? ? H].
  - destruct (decide (p = pid_of i)) as [->|]; [|by rewrite connect_record_other].
    destruct (record s (pid_of i)) as [m|] eqn:Hr.
    + destruct (connect_record i s H) as [->|[Hn _]]; [split; eauto|congruence].
    + destruct (connect_spec i s H) as [-> _]. unfold record in *. cbn.
      pose proof (map_update_full _ _ (initial_metrics i) Hr Hfull) as He.
      destruct (map_update_elem (metrics_map s) _ _ _) as [r m'] eqn:E. cbn in *.
      rewrite (map_update_err _ _ _ _ _ E) by (subst; done). by rewrite Hr.
  - by destruct (established_spec i s H) as [-> _].
  - destruct (callback_spec i s H) as [_ Hcb].
    destruct (owner s _) as [q|]; [|by rewrite Hcb].
    destruct (record s q) as [m|] eqn:Hq; [|by rewrite Hcb].
    destruct Hcb as (_ & _ & ->). case_decide; [|done]. subst. rewrite Hq. split; eauto.
  - by destruct (skip_spec i s) as [-> _].
Qed.

End facts.
