(* ===== verification/SocketTunerProps.v ===== *)
(** * Properties of the sock_ops program

    The theorems about [bpf_sockmap], each with its instance on concrete maps:
    finite maps bounded by the [max_entries] of the source. *)
From S2P Require Import Prelude Words CTypes BpfMaps SocketTuner SocketTunerFacts.
Local Open Scope Z_scope.

(** ** Concrete states and invocations *)

Abbreviation sim_state N1 N2 N3 :=
  (bpf_state (bounded_map N1 ip_port_key tuning_action)
             (bounded_map N2 Z tuning_metrics) (bounded_map N3 Z Z)).

(** The maps as the loader creates them. *)
Definition fresh_state : sim_state action_map_entries metrics_map_entries cookie_pid_map_entries :=
  BpfState bm_empty bm_empty bm_empty.

(** 142.250.1.1, in network byte order on a little-endian machine. *)
Definition sample_ip : Z := 0x0101fa8e.

Definition sample_ctx (op srtt retrans rx tx : Z) : bpf_sock_ops :=
  Ctx.BpfSockOps op AF_INET sample_ip (Z.shiftl (bswap16 443) 16) srtt 0 retrans rx tx.

(** Process 4242, socket cookie 7, at time [t] ns. *)
Definition sample_helpers (t : Z) : helpers := Helpers 7 (Z.shiftl 4242 32) t.

Definition sample_connect : helpers * bpf_sock_ops :=
  (sample_helpers 1000000, sample_ctx BPF_SOCK_OPS_TCP_CONNECT_CB 0 0 0 0).
Definition sample_established : helpers * bpf_sock_ops :=
  (sample_helpers 1500000, sample_ctx BPF_SOCK_OPS_ACTIVE_ESTABLISHED_CB 4000 0 0 0).
Definition sample_close : helpers * bpf_sock_ops :=
  (sample_helpers 9000000, sample_ctx BPF_SOCK_OPS_STATE_CB 8000 2 100000 300).
(** Another process' connection. *)
Definition other_connect (pid cookie : Z) : helpers * bpf_sock_ops :=
  (Helpers cookie (Z.shiftl pid 32) 1200000, sample_ctx BPF_SOCK_OPS_TCP_CONNECT_CB 0 0 0 0).

Definition sample_action : tuning_action :=
  TuningAction 1000000 100 2 20 16777216 1 200 3 1 1 7200.

Definition tuned_state : sim_state action_map_entries metrics_map_entries cookie_pid_map_entries :=
  BpfState (map_update_elem bm_empty (IpPortKey sample_ip 0) sample_action BPF_ANY).2 bm_empty bm_empty.

(** A metrics map of two entries, both taken. *)
Definition full_state : sim_state 1 2 4 :=
  run [other_connect 1 1; other_connect 2 2] (BpfState bm_empty bm_empty bm_empty).

Section props.
Context {NM NC : nat} {MA MM MC : Type}.
Context `{!BpfHashMap MA ip_port_key tuning_action}.
Context `{!BpfHashMap MM Z tuning_metrics} `{!BpfHashMapLaws NM MM Z tuning_metrics}.
Context `{!BpfHashMap MC Z Z} `{!BpfHashMapLaws NC MC Z Z}.

Abbreviation state := (bpf_state MA MM MC).
Implicit Types (s : state) (i : helpers * bpf_sock_ops).

(** C3.  The metrics of a connection.  Let a process [p] open a socket [c], when
    both maps have room and no other socket is bound to [p].  Then after any further
    invocations in which [p] opens no other socket and nobody opens [c] again, and at
    least one callback of [c] comes at or after the connect, whatever the sockets of
    other processes do in between, the record of [p] holds the remote address of the
    connection, the counters of the last callback of the socket (smoothed RTT in
    microseconds, retransmissions, bytes) and the microseconds from the connect to
    that callback. *)
Theorem session_metrics s i0 tr pre j :
  is_connect i0 = true → connect_fits i0 s →
  (∀ c', c' ≠ cookie_of i0 → owner s c' ≠ Some (pid_of i0)) →
  Forall (leaves_alone (cookie_of i0) (pid_of i0)) tr →
  filter (λ i, own_callback (cookie_of i0) i = true) tr = pre ++ [j] →
  0 < bpf_ktime_get_ns i0.1 ≤ bpf_ktime_get_ns j.1 → fits 64 (bpf_ktime_get_ns j.1) →
  record (run (i0 :: tr) s) (pid_of i0) = Some
    (TuningMetrics (Ctx.remote_ip4 i0.2) (bswap32 (Ctx.remote_port i0.2))
       (Z.shiftr (Ctx.srtt_us j.2) 3) (Ctx.total_retrans j.2)
       (Ctx.bytes_acked j.2) (Ctx.bytes_received j.2) (bpf_ktime_get_ns i0.1)
       ((bpf_ktime_get_ns j.1 - bpf_ktime_get_ns i0.1) / 1000)).
Proof. apply session_record. Qed.

(** Opening a connection with room in both maps binds the cookie of the
    socket to its process and starts a record with the remote address and the
    start time; no other binding, no other record, no action and no socket
    option changes. *)
Theorem connect_tracks i s :
  is_connect i = true → connect_fits i s →
  owner (invoke i s) (cookie_of i) = Some (pid_of i) ∧
  record (invoke i s) (pid_of i) = Some (initial_metrics i) ∧
  (∀ c, c ≠ cookie_of i → owner (invoke i s) c = owner s c) ∧
  (∀ p, p ≠ pid_of i → record (invoke i s) p = record s p) ∧
  action_map (invoke i s) = action_map s ∧ emitted i s = [].
Proof.
  intros Hi Hfit. destruct (connect_ok i s Hi Hfit) as [Ho Hr].
  repeat (split; [by eauto using connect_owner_other, connect_record_other|]).
  by destruct (connect_spec i s Hi) as [-> ->].
Qed.

(** C14.  A state or retransmission callback updates the record of the process
    its socket belongs to, when both are tracked, and nothing else: on every
    other path (unknown cookie, no record) all maps are left as they are. *)
Theorem callback_updates i s :
  is_callback i = true →
  emitted i s = [] ∧ action_map (invoke i s) = action_map s ∧
  cookie_pid_map (invoke i s) = cookie_pid_map s ∧
  ∀ p, record (invoke i s) p =
    if decide (owner s (cookie_of i) = Some p) then observe i <$> record s p else record s p.
Proof.
  intros Hi. destruct (callback_spec i s Hi) as [He H]. split; [done|].
  destruct (owner s (cookie_of i)) as [q|] eqn:Ho; [destruct (record s q) as [m|] eqn:Hm|].
  - destruct H as (-> & -> & H). split_and!; [done..|]. intros p. rewrite H.
    repeat case_decide; simplify_eq; [by rewrite Hm|done].
  - rewrite H. split_and!; [done..|]. intros p. case_decide; simplify_eq; by rewrite ?Hm.
  - rewrite H. split_and!; [done..|]. intros p. by case_decide.
Qed.

(** C4.  When a connection to an address is established, the program makes
    exactly the [bpf_setsockopt] calls that the action stored for the address
    asks for, in the order of [tuning_table], and then enables the state
    callback without disabling any other; without an action it only does the
    latter.  The maps do not change. *)
Theorem established_tunes i s :
  is_established i = true →
  invoke i s = s ∧
  emitted i s =
    (from_option tuning_calls [] (map_lookup_elem (action_map s) (IpPortKey (Ctx.remote_ip4 i.2) 0)))
    ++ [bpf_sock_ops_cb_flags_set
          (Z.lor (Ctx.bpf_sock_ops_cb_flags i.2) BPF_SOCK_OPS_STATE_CB_FLAG)].
Proof. apply established_spec. Qed.

(** C38.  The metrics map saturates: records are never deleted, so once every
    entry is taken no process without a record ever gets one, whatever happens
    afterwards. *)
Theorem metrics_map_saturates s p tr :
  size (map_keys (metrics_map s)) = NM → record s p = None → record (run tr s) p = None.
Proof.
  intros Hfull Hp.
  assert (map_keys (metrics_map (run tr s)) = map_keys (metrics_map s)) as Hk.
  { apply (run_ind (λ s', map_keys (metrics_map s') = map_keys (metrics_map s)) (λ _, True));
      [|by apply Forall_true|done].
    intros i s' _ Hs'. rewrite <- Hs'. apply keys_invoke_full. by rewrite Hs'. }
  apply eq_None_not_Some. rewrite <- record_keys, Hk, record_keys, Hp. by intros [? ?].
Qed.

(** C39.  Every record is explained.  Along any trace, whatever its invocations are,
    a record of a process that had none holds the remote address, the port in host
    order and the time of the last connect of the process, with no counters when no
    callback on a socket that belonged to the process then has come since; otherwise
    the counters of the last such callback (an eighth of the kernel's smoothed RTT,
    retransmissions, bytes acknowledged and received), and the microseconds from the
    one to the other, or none if the time of the connect is zero. *)
Theorem records_explained s tr p m :
  record s p = None → record (run tr s) p = Some m →
  ∃ tr1 i tr2,
    tr = tr1 ++ i :: tr2 ∧ is_connect i = true ∧ pid_of i = p ∧
    Forall (λ k, is_connect k = true → pid_of k ≠ p) tr2 ∧
    (undisturbed p tr2 (run (tr1 ++ [i]) s) ∧
     m = TuningMetrics (Ctx.remote_ip4 i.2) (bswap32 (Ctx.remote_port i.2)) 0 0 0 0 (bpf_ktime_get_ns i.1) 0 ∨
     ∃ tr3 j tr4,
       tr2 = tr3 ++ j :: tr4 ∧ is_callback j = true ∧
       owner (run (tr1 ++ i :: tr3) s) (cookie_of j) = Some p ∧
       undisturbed p tr4 (run (tr1 ++ i :: tr3 ++ [j]) s) ∧
       m = TuningMetrics (Ctx.remote_ip4 i.2) (bswap32 (Ctx.remote_port i.2))
             (Z.shiftr (Ctx.srtt_us j.2) 3) (Ctx.total_retrans j.2)
             (Ctx.bytes_acked j.2) (Ctx.bytes_received j.2) (bpf_ktime_get_ns i.1)
             (if 0 <? bpf_ktime_get_ns i.1
              then u64 (bpf_ktime_get_ns j.1 - bpf_ktime_get_ns i.1) / 1000 else 0)).
Proof.
  intros H0 Hm. destruct (record_explained s tr p m H0 Hm)
    as (tr1 & i & tr2 & -> & Hi & Hp & Hf & [[-> Hu]|(tr3 & j & tr4 & -> & Hj & Ho & Hu & ->)]);
    exists tr1, i; eexists; (split_and!; [done..|]); [by left|right]. by exists tr3, j, tr4.
Qed.

(** Type safety of the stored data: if the helpers and the context return
    values of their C types, then every record and every process id in the maps
    keeps the widths of its members along any trace. *)
Theorem maps_stay_typed tr s :
  Forall (λ i, helpers_typed i.1 ∧ ctx_typed i.2) tr → state_typed s → state_typed (run tr s).
Proof.
  apply run_ind. intros i s' [Hh Hk] [Hm Hp]. destruct (kind i) as [H|H|H|? ? H].
  - split.
    + intros p m. destruct (decide (p = pid_of i)) as [->|]; [|rewrite connect_record_other; eauto].
      destruct (connect_record i s' H) as [->|[_ ->]]; [|done].
      intros [= <-]. by apply initial_typed.
    + intros c p. destruct (decide (c = cookie_of i)) as [->|]; [|rewrite connect_owner_other; eauto].
      destruct (connect_owner i s' H) as [-> | ->]; [|eauto].
      intros [= <-]. apply wrap_fits. lia.
  - by destruct (established_spec i s' H) as [-> _].
  - destruct (callback_spec i s' H) as [_ Hcb].
    destruct (owner s' (cookie_of i)) as [q|] eqn:Ho; [|by rewrite Hcb].
    destruct (record s' q) as [m|] eqn:Hq; [|by rewrite Hcb].
    destruct Hcb as (_ & Hc & Hr). split; [|unfold owner in *; by rewrite Hc].
    intros p m'. rewrite Hr. case_decide; [|by eauto].
    intros [= <-]. apply observe_typed; eauto.
  - by destruct (skip_spec i s') as [-> _].
Qed.

(** Three parameters of an action are never applied: actions that differ
    only in [rto_min], [enable_ecn] and [pacing_status] have the same effect. *)
Theorem unapplied_parameters act rto ecn pacing h s :
  apply_action (MA:=MA) (MM:=MM) (MC:=MC)
    (TuningAction (max_pacing_rate act) (snd_cwnd_clamp act) (cong_algo act) (init_cwnd act)
       (window_clamp act) (no_delay act) rto (retrans_after act) ecn pacing
       (keepalive_idle act)) h s =
  apply_action act h s.
Proof. by rewrite !apply_action_spec. Qed.

(** Retransmission callbacks are never requested: every flag set the
    program installs has the state flag, and has the retransmission flag only if
    the socket had it before. *)
Theorem retrans_not_requested i s f :
  bpf_sock_ops_cb_flags_set f ∈ emitted i s →
  Z.land f BPF_SOCK_OPS_STATE_CB_FLAG = BPF_SOCK_OPS_STATE_CB_FLAG ∧
  Z.land f BPF_SOCK_OPS_RETRANS_CB_FLAG =
    Z.land (Ctx.bpf_sock_ops_cb_flags i.2) BPF_SOCK_OPS_RETRANS_CB_FLAG.
Proof.
  intros Hf. destruct (kind i) as [H|H|H|? ? H].
  - destruct (connect_spec i s H) as [_ He]. rewrite He in Hf. set_solver.
  - destruct (established_spec i s H) as [_ He]. rewrite He in Hf.
    apply elem_of_app in Hf as [Hf|Hf%list_elem_of_singleton].
    + exfalso. destruct (map_lookup_elem _ _) as [act|]; [|set_solver].
      apply list_elem_of_omap in Hf as ([[l o] v] & _ & Hv). cbn in Hv. by destruct (v act).
    + simplify_eq. rewrite !Z.land_lor_distr_l. split; [|by rewrite Z.lor_0_r].
      apply Z.bits_inj'. intros n Hn. rewrite Z.lor_spec, !Z.land_spec.
      destruct (Z.testbit BPF_SOCK_OPS_STATE_CB_FLAG n), (Z.testbit (Ctx.bpf_sock_ops_cb_flags _) n); done.
  - destruct (callback_spec i s H) as [He _]. rewrite He in Hf. set_solver.
  - destruct (skip_spec i s) as [_ He]; try done. rewrite He in Hf. set_solver.
Qed.

(** The recorded port is the port number: the kernel presents the remote
    port in network byte order in the upper half of the word, and the byte swap
    of the program puts it in host order in the lower half. *)
Theorem recorded_port i s p :
  fits 16 p → Ctx.remote_port i.2 = Z.shiftl (bswap16 p) 16 →
  is_connect i = true → connect_fits i s →
  remote_port <$> record (invoke i s) (pid_of i) = Some p.
Proof.
  intros Hp Hk Hi Hfit. destruct (connect_ok i s Hi Hfit) as [_ ->]. cbn.
  rewrite Hk, bswap32_shifted by auto with tuner. by rewrite bswap16_involutive.
Qed.

End props.

(** ** Instances *)

(** A value computed on the maps, which the kernel evaluates. *)
Ltac sim := vm_compute; reflexivity.

Lemma fresh_owner c p : owner fresh_state c ≠ Some p.
Proof. by intros H. Qed.

Lemma sample_connect_fits : connect_fits sample_connect fresh_state.
Proof. split; sim. Qed.

Lemma session_metrics_witness :
  record (run [sample_connect; sample_established; other_connect 99 8; sample_close] fresh_state) 4242 =
  Some (TuningMetrics sample_ip 443 1000 2 300 100000 1000000 8000).
Proof.
  refine (session_metrics fresh_state sample_connect
    [sample_established; other_connect 99 8; sample_close] [] sample_close _ _ _ _ _ _ _).
  - sim.
  - apply sample_connect_fits.
  - intros c' _. apply fresh_owner.
  - repeat (apply Forall_cons; split); [..|by apply Forall_nil];
      intros H; vm_compute in H; first [discriminate H|split; vm_compute; discriminate].
  - sim.
  - vm_compute. split; [reflexivity|discriminate].
  - split; [vm_compute; discriminate|sim].
Defined.

Lemma connect_tracks_witness :
  owner (invoke sample_connect fresh_state) 7 = Some 4242.
Proof. apply (connect_tracks sample_connect fresh_state); [sim|apply sample_connect_fits]. Defined.

Lemma callback_updates_witness :
  duration_us <$> record (invoke sample_close (invoke sample_connect fresh_state)) 4242 = Some 8000.
Proof.
  rewrite (proj2 (proj2 (proj2 (callback_updates sample_close
    (invoke sample_connect fresh_state) eq_refl))) 4242). sim.
Defined.

Lemma established_tunes_witness :
  length (emitted sample_established tuned_state) = 9%nat.
Proof. rewrite (proj2 (established_tunes sample_established tuned_state eq_refl)). sim. Defined.

Lemma metrics_map_saturates_witness :
  record (run [other_connect 3 3; other_connect 1 5] full_state) 3 = None.
Proof. apply metrics_map_saturates; sim. Defined.

Lemma records_explained_witness :
  ∃ i j, i ∈ [sample_connect; sample_established; other_connect 99 8; sample_close] ∧
    j ∈ [sample_connect; sample_established; other_connect 99 8; sample_close] ∧
    pid_of i = 4242 ∧ Z.shiftr (Ctx.srtt_us j.2) 3 = 1000.
Proof.
  destruct (records_explained fresh_state [sample_connect; sample_established; other_connect 99 8; sample_close]
    4242 (TuningMetrics sample_ip 443 1000 2 300 100000 1000000 8000))
    as (tr1 & i & tr2 & Htr & _ & Hp & _ & [[_ Hm]|(tr3 & j & tr4 & -> & _ & _ & _ & Hm)]).
  - sim.
  - sim.
  - discriminate Hm.
  - exists i, j. rewrite Htr. split_and!; [set_solver..|done|]. injection Hm. intros. congruence.
Defined.

Lemma maps_stay_typed_witness : state_typed (run [sample_connect; sample_close] fresh_state).
Proof.
  apply maps_stay_typed; [|split; intros ? ? H; discriminate H].
  repeat (apply Forall_cons; split); [..|by apply Forall_nil];
    repeat split; vm_compute; (reflexivity || discriminate).
Defined.

Lemma retrans_not_requested_witness :
  Z.land 4 BPF_SOCK_OPS_STATE_CB_FLAG = BPF_SOCK_OPS_STATE_CB_FLAG.
Proof.
  apply (retrans_not_requested sample_established fresh_state 4).
  vm_compute. apply list_elem_of_here.
Defined.

Lemma recorded_port_witness :
  remote_port <$> record (invoke sample_connect fresh_state) 4242 = Some 443.
Proof.
  apply (recorded_port sample_connect fresh_state 443);
    [split; [vm_compute; discriminate|sim]|sim|sim|apply sample_connect_fits].
Defined.
