(* ===== verification/Cpus.v ===== *)
(** * The sock_ops program on several CPUs

    [socket_tuner.c] takes no lock: the kernel runs [bpf_sockmap] for different
    sockets on different CPUs at once, and [update_metrics] writes to a record
    through a pointer into the map, one member after the other.  Here an invocation
    is a tree of its accesses to the maps; [alone] runs one by itself, [history]
    interleaves any number of them at every access.

    A pointer that a lookup returned is the key that was looked up.  That is right
    as long as nobody replaces the value of the key while the pointer is in use,
    which [pointers_valid] says; what the kernel does with a value that is replaced
    then is not modelled.  An access is one step. *)
From S2P Require Import Prelude Words BpfMaps SocketTuner SocketTunerFacts.
Local Open Scope Z_scope.

Module Cpus.

(** An access of the program, by the type of its answer. *)
Inductive access : Type → Type :=
| LookupPid (cookie : Z) : access bool                            (* pid_ptr *)
| LoadPid (cookie : Z) : access Z                                 (* *pid_ptr *)
| UpdatePid (cookie pid : Z) : access Z
| LookupMetrics (pid : Z) : access bool                           (* met *)
| LoadMetrics (pid : Z) (member : tuning_metrics → Z) : access Z  (* met->member *)
| StoreMetrics (pid : Z) (store : tuning_metrics → tuning_metrics) : access unit
| UpdateMetrics (pid : Z) (met : tuning_metrics) : access Z
| LookupAction (key : ip_port_key) : access (option tuning_action)
| Effect (call : helper_call) : access unit.

Inductive program (R : Type) :=
| Return (r : R)
| Access {A : Type} (q : access A) (k : A → program R).
Arguments Return {R} _.
Arguments Access {R A} _ _.

Fixpoint program_bind {A B} (f : A → program B) (t : program A) : program B :=
  match t with
  | Return a => f a
  | Access q k => Access q (λ x, program_bind f (k x))
  end.

#[export] Instance program_ret : MRet program := @Return.
#[export] Instance program_mbind : MBind program := @program_bind.

Definition do {A} (q : access A) : program A := Access q Return.
Definition when (b : bool) (t : program unit) : program unit := if b then t else mret tt.

(** ** The program *)

Definition update_metrics (h : helpers) (skops : bpf_sock_ops) : program unit :=
  let cookie := bpf_get_socket_cookie h in
  pid_ptr ← do (LookupPid cookie);
  when pid_ptr (
    pid ← do (LoadPid cookie);
    met ← do (LookupMetrics pid);
    when met (
      _ ← do (StoreMetrics pid (set_srtt_us (Z.shiftr (Ctx.srtt_us skops) 3)));
      _ ← do (StoreMetrics pid (set_total_retrans (Ctx.total_retrans skops)));
      _ ← do (StoreMetrics pid (set_bytes_sent (Ctx.bytes_acked skops)));
      _ ← do (StoreMetrics pid (set_bytes_received (Ctx.bytes_received skops)));
      start ← do (LoadMetrics pid start_time_ns);
      when (0 <? start) (
        start ← do (LoadMetrics pid start_time_ns);
        do (StoreMetrics pid (set_duration_us (u64 (bpf_ktime_get_ns h - start) / 1000)))))).

Definition on_tcp_connect (h : helpers) (skops : bpf_sock_ops) : program unit :=
  let cookie := bpf_get_socket_cookie h in
  let pid := u32 (Z.shiftr (bpf_get_current_pid_tgid h) 32) in
  _ ← do (UpdatePid cookie pid);
  let initial := TuningMetrics (Ctx.remote_ip4 skops) (bswap32 (Ctx.remote_port skops)) 0 0 0 0
                   (bpf_ktime_get_ns h) 0 in
  _ ← do (UpdateMetrics pid initial);
  mret tt.

Definition set_if_positive (level optname v : Z) : program unit :=
  when (0 <? v) (do (Effect (bpf_setsockopt level optname (u32_bytes v)))).

Definition apply_action (act : tuning_action) : program unit :=
  _ ← set_if_positive SOL_SOCKET SO_MAX_PACING_RATE (max_pacing_rate act);
  _ ← set_if_positive SOL_TCP TCP_BPF_SNDCWND_CLAMP (snd_cwnd_clamp act);
  _ ← when (0 <? cong_algo act) (
        if cong_algo act =? 1 then
          do (Effect (bpf_setsockopt SOL_TCP TCP_CONGESTION (char_array16 "cubic")))
        else when (cong_algo act =? 2)
          (do (Effect (bpf_setsockopt SOL_TCP TCP_CONGESTION (char_array16 "bbr")))));
  _ ← set_if_positive SOL_TCP TCP_BPF_IW (init_cwnd act);
  _ ← set_if_positive SOL_TCP TCP_WINDOW_CLAMP (window_clamp act);
  _ ← set_if_positive SOL_TCP TCP_NODELAY (no_delay act);
  _ ← set_if_positive SOL_TCP TCP_USER_TIMEOUT (retrans_after act);
  set_if_positive SOL_TCP TCP_KEEPIDLE (keepalive_idle act).

Definition on_established (key : ip_port_key) (skops : bpf_sock_ops) : program unit :=
  act ← do (LookupAction key);
  _ ← match act with Some act => apply_action act | None => mret tt end;
  do (Effect (bpf_sock_ops_cb_flags_set
                (Z.lor (Ctx.bpf_sock_ops_cb_flags skops) BPF_SOCK_OPS_STATE_CB_FLAG))).

Definition bpf_sockmap (h : helpers) (skops : bpf_sock_ops) : program Z :=
  let op := Ctx.op skops in
  if negb (Ctx.family skops =? AF_INET) then mret 0
  else
    let key := IpPortKey (Ctx.remote_ip4 skops) 0 in
    _ ← (if op =? BPF_SOCK_OPS_TCP_CONNECT_CB then on_tcp_connect h skops
         else if (op =? BPF_SOCK_OPS_ACTIVE_ESTABLISHED_CB)
                 || (op =? BPF_SOCK_OPS_PASSIVE_ESTABLISHED_CB) then on_established key skops
         else if op =? BPF_SOCK_OPS_STATE_CB then update_metrics h skops
         else if op =? BPF_SOCK_OPS_RETRANS_CB then update_metrics h skops
         else mret tt);
    mret 0.

(** ** Execution *)

Section system.
Context {MA MM MC : Type}.
Context `{!BpfHashMap MA ip_port_key tuning_action}.
Context `{!BpfHashMap MM Z tuning_metrics}.
Context `{!BpfHashMap MC Z Z}.

Abbreviation state := (bpf_state MA MM MC).

(** The answer to an access.  Entries are never deleted, so that a load through a
    pointer finds one. *)
Definition answer {A} (q : access A) (s : state) : A * state :=
  match q in access A return A * state with
  | LookupPid cookie => (bool_decide (is_Some (map_lookup_elem (cookie_pid_map s) cookie)), s)
  | LoadPid cookie => (default (-1) (map_lookup_elem (cookie_pid_map s) cookie), s)
  | UpdatePid cookie pid =>
      let '(r, m) := map_update_elem (cookie_pid_map s) cookie pid BPF_ANY in
      (r, BpfState (action_map s) (metrics_map s) m)
  | LookupMetrics pid => (bool_decide (is_Some (map_lookup_elem (metrics_map s) pid)), s)
  | LoadMetrics pid member => (from_option member 0 (map_lookup_elem (metrics_map s) pid), s)
  | StoreMetrics pid store =>
      (tt, match map_lookup_elem (metrics_map s) pid with
           | Some met => BpfState (action_map s) (map_store (metrics_map s) pid (store met)) (cookie_pid_map s)
           | None => s
           end)
  | UpdateMetrics pid met =>
      let '(r, m) := map_update_elem (metrics_map s) pid met BPF_ANY in
      (r, BpfState (action_map s) m (cookie_pid_map s))
  | LookupAction key => (map_lookup_elem (action_map s) key, s)
  | Effect _ => (tt, s)
  end.

(** The helper calls for their effect on the socket. *)
Definition effects {A} (q : access A) : list helper_call :=
  match q with Effect call => [call] | _ => [] end.

(** An invocation by itself: its result, the maps and the helper calls. *)
Fixpoint alone {R} (t : program R) (s : state) : R * state * list helper_call :=
  match t with
  | Return r => (r, s, [])
  | Access q k =>
      let '(x, s) := answer q s in
      let '(r, s, e) := alone (k x) s in (r, s, effects q ++ e)
  end.

(** The maps and the invocations, with what is left to do of each. *)
Record crowd := Crowd {
  maps : state;
  invocations : list (helpers * bpf_sock_ops * program Z);
}.

Inductive event :=
| Invoked (i : helpers * bpf_sock_ops)
| Continues (n : nat).

Definition happen (ev : event) (c : crowd) : crowd :=
  match ev with
  | Invoked i => Crowd (maps c) (invocations c ++ [(i, bpf_sockmap i.1 i.2)])
  | Continues n =>
      match invocations c !! n with
      | Some (i, Access q k) =>
          let '(x, s) := answer q (maps c) in Crowd s (<[n:=(i, k x)]> (invocations c))
      | _ => c
      end
  end.

Definition history (evs : list event) (c : crowd) : crowd := foldl (flip happen) c evs.

(** ** Histories in which the model is right *)

(** The value an invocation has a pointer to that it goes on to use: that of a
    cookie or that of a process. *)
Inductive value := PidOf (cookie : Z) | MetricsOf (pid : Z).
#[export] Instance value_eq_dec : EqDecision value.
Proof. solve_decision. Defined.

Definition uses (t : program Z) : option value :=
  match t with
  | Access (LoadPid cookie) _ => Some (PidOf cookie)
  | Access (LoadMetrics pid _) _ | Access (StoreMetrics pid _) _ => Some (MetricsOf pid)
  | _ => None
  end.

(** The value that the next access of an invocation replaces. *)
Definition replaces (t : program Z) : option value :=
  match t with
  | Access (UpdatePid cookie _) _ => Some (PidOf cookie)
  | Access (UpdateMetrics pid _) _ => Some (MetricsOf pid)
  | _ => None
  end.

(** The next access of invocation [n] replaces no value in use. *)
Definition pointers_valid (n : nat) (c : crowd) : bool :=
  match invocations c !! n with
  | Some (_, t) =>
      match replaces t with
      | Some v => forallb (λ it, negb (bool_decide (uses it.2 = Some v))) (invocations c)
      | None => true
      end
  | None => true
  end.

(** Every invocation of socket [c] has returned. *)
Definition returned (t : program Z) : bool := match t with Return _ => true | _ => false end.
Definition idle (cookie : Z) (c : crowd) : bool :=
  forallb (λ it, negb (cookie_of it.1 =? cookie) || returned it.2) (invocations c).

(** Socket [cookie] belongs to process [pid] alone.  The kernel holds the lock of a
    socket while it calls the program, so that the invocations of one socket follow
    each other; no other socket is opened by the process, and the socket itself is
    not opened again. *)
Definition allowed (cookie pid : Z) (ev : event) (c : crowd) : bool :=
  match ev with
  | Invoked i =>
      if cookie_of i =? cookie then negb (is_connect i) && idle cookie c
      else negb (is_connect i && (pid_of i =? pid))
  | Continues n => pointers_valid n c
  end.

Fixpoint orderly (cookie pid : Z) (evs : list event) (c : crowd) : bool :=
  match evs with
  | [] => true
  | ev :: evs => allowed cookie pid ev c && orderly cookie pid evs (happen ev c)
  end.

(** The invocations that arrive. *)
Definition arrivals (evs : list event) : list (helpers * bpf_sock_ops) :=
  omap (λ ev, match ev with Invoked i => Some i | Continues _ => None end) evs.

End system.
End Cpus.
