(* ===== verification/CpusProps.v ===== *)
(** * Properties of the program on several CPUs

    An invocation that runs alone is the one of [SocketTuner]; and the metrics of a
    connection are right whatever other CPUs do between any two accesses of the
    program. *)
From S2P Require Import Prelude Words BpfMaps SocketTuner SocketTunerFacts SocketTunerProps Cpus.
Import Cpus.
Local Open Scope Z_scope.

(** ** Alone *)

Section alone.
Context {MA MM MC : Type}.
Context `{!BpfHashMap MA ip_port_key tuning_action}.
Context `{!BpfHashMap MM Z tuning_metrics}.
Context `{!BpfHashMap MC Z Z}.

Abbreviation state := (bpf_state MA MM MC).
Implicit Types (s : state) (h : helpers) (k : bpf_sock_ops).

(** A program does alone what the computation does. *)
Definition does {R} h (t : program R) (c : prog (MA:=MA) (MM:=MM) (MC:=MC) R) : Prop := ∀ s, alone t s = c h s.

Lemma does_ret {R} h (x : R) : does h (mret x) (mret x).
Proof. done. Qed.

Lemma alone_program_bind {A B} (t : program A) (f : A → program B) s :
  alone (t ≫= f) s =
  let '(x, s1, e1) := alone t s in let '(y, s2, e2) := alone (f x) s1 in (y, s2, e1 ++ e2).
Proof.
  revert s. induction t as [x|A' q k IH]; intros s; cbn.
  - by destruct (alone (f x) s) as [[? ?] ?].
  - destruct (answer q s) as [x s1]. fold (mbind (M:=program) f (k x)). change (program_bind f (k x)) with (k x ≫= f).
    rewrite IH. destruct (alone (k x) s1) as [[y s2] e2]. destruct (alone (f y) s2) as [[z s3] e3].
    by rewrite app_assoc.
Qed.

Lemma does_bind {A B} h (t : program A) (f : A → program B) c g :
  does h t c → (∀ x, does h (f x) (g x)) → does h (t ≫= f) (c ≫= g).
Proof.
  intros Ht Hf s. rewrite alone_program_bind, Ht. unfold mbind at 1, prog_bind.
  destruct (c h s) as [[x s1] e1]. by rewrite Hf.
Qed.

Lemma does_when h b t c : does h t c → does h (when b t) (SocketTuner.when b c).
Proof. by destruct b. Qed.

Lemma does_emit h call : does h (do (Effect call)) (emit call).
Proof. done. Qed.

(** The helpers' results are arguments of a program. *)
Lemma does_ask {A B} h (f : helpers → A) (t : program B) (g : A → prog B) :
  does h t (g (f h)) → does h t (ask f ≫= g).
Proof. intros H s. rewrite H. unfold mbind, prog_bind, ask. by destruct (g (f h) h s) as [[? ?] ?]. Qed.

Lemma does_store h p f : does h (do (StoreMetrics p f)) (store_metrics p f).
Proof. intros s. cbn. unfold store_metrics. by destruct (map_lookup_elem (metrics_map s) p). Qed.

Lemma does_load h p f : does h (do (LoadMetrics p f)) (load_metrics p f).
Proof. done. Qed.

#[local] Hint Resolve does_ret does_emit does_store does_load : core.

(** A lookup and what is done with the pointer. *)
Lemma does_lookup_metrics {B} h p (t : program B) (e : B) (c : prog B) :
  does h t c →
  does h (met ← do (LookupMetrics p); if met : bool then t else mret e)
    (met ← lookup_metrics p; match met with None => mret e | Some _ => c end).
Proof.
  intros H s. cbn. unfold mbind, prog_bind, lookup_metrics.
  destruct (map_lookup_elem (metrics_map s) p) as [m|]; cbn; [|done].
  rewrite H. by destruct (c h s) as [[? ?] ?].
Qed.

Lemma does_lookup_pid {B} h cookie (t : Z → program B) (e : B) (c : Z → prog B) :
  (∀ p, does h (t p) (c p)) →
  does h (pid_ptr ← do (LookupPid cookie); if pid_ptr : bool then p ← do (LoadPid cookie); t p else mret e)
    (pid_ptr ← lookup_pid cookie; match pid_ptr with None => mret e | Some p => c p end).
Proof.
  intros H s. cbn. unfold mbind, prog_bind, lookup_pid.
  destruct (map_lookup_elem (cookie_pid_map s) cookie) as [p|] eqn:E; cbn; [|done].
  rewrite E. cbn. rewrite H. by destruct (c p h s) as [[? ?] ?].
Qed.

Lemma does_update_metrics h k : does h (update_metrics h k) (SocketTuner.update_metrics k).
Proof.
  unfold update_metrics, SocketTuner.update_metrics, when. apply does_ask, does_lookup_pid. intros p.
  apply does_lookup_metrics. do 4 (apply does_bind; [auto|intros _]). apply does_bind; [auto|]. intros start.
  apply does_when, does_ask, does_bind; auto.
Qed.

Lemma does_connect h k : does h (on_tcp_connect h k) (SocketTuner.on_tcp_connect k).
Proof.
  unfold on_tcp_connect, SocketTuner.on_tcp_connect. do 2 apply does_ask.
  apply does_bind; [intros s; cbn; unfold update_cookie_pid; by destruct (map_update_elem _ _ _ _)|]. intros _.
  apply does_ask, does_bind; [|auto]. intros s. cbn. unfold update_metrics_map. by destruct (map_update_elem _ _ _ _).
Qed.

Lemma does_if_positive h l o v : does h (set_if_positive l o v) (SocketTuner.set_if_positive l o v).
Proof. apply does_when. auto. Qed.
#[local] Hint Resolve does_if_positive : core.

Lemma does_established h key k : does h (on_established key k) (SocketTuner.on_established key k).
Proof.
  unfold on_established, SocketTuner.on_established. apply does_bind; [done|]. intros act. apply does_bind; [|auto].
  destruct act as [act|]; [|done]. unfold apply_action, SocketTuner.apply_action.
  do 2 (apply does_bind; [auto|intros _]). apply does_bind.
  { apply does_when. destruct (cong_algo act =? 1); [auto|]. apply does_when. auto. }
  intros _. do 4 (apply does_bind; [auto|intros _]). auto.
Qed.

(** An invocation that no other one interrupts is the invocation of [SocketTuner]:
    the same result, maps and helper calls. *)
Theorem alone_is_program h k s : alone (bpf_sockmap h k) s = SocketTuner.bpf_sockmap k h s.
Proof.
  revert s. change (does h (bpf_sockmap h k) (SocketTuner.bpf_sockmap k)).
  unfold bpf_sockmap, SocketTuner.bpf_sockmap. destruct (negb _); [auto|]. apply does_bind; [|auto].
  repeat (case_match; [auto using does_connect, does_established, does_update_metrics|]). auto.
Qed.
End alone.

(** ** One socket among the others *)

(** What an invocation may do that works on other sockets and processes, whatever
    answers it gets. *)
Fixpoint avoids {R} (c p : Z) (t : program R) : Prop :=
  match t with
  | Return _ => True
  | @Access _ A q k =>
      match q in access A return (A → program R) → Prop with
      | LookupPid c' => λ k, c' ≠ c ∧ ∀ b, avoids c p (k b)
      | LoadPid c' => λ k, c' ≠ c ∧ ∀ p', p' ≠ p → avoids c p (k p')
      | UpdatePid c' p' => λ k, c' ≠ c ∧ p' ≠ p ∧ ∀ r, avoids c p (k r)
      | LookupMetrics p' => λ k, p' ≠ p ∧ ∀ b, avoids c p (k b)
      | LoadMetrics p' _ => λ k, p' ≠ p ∧ ∀ v, avoids c p (k v)
      | StoreMetrics p' _ => λ k, p' ≠ p ∧ avoids c p (k tt)
      | UpdateMetrics p' _ => λ k, p' ≠ p ∧ ∀ r, avoids c p (k r)
      | LookupAction _ => λ k, ∀ act, avoids c p (k act)
      | Effect _ => λ k, avoids c p (k tt)
      end k
  end.

(** The entries of a socket and of its process. *)
Definition view : Type := option Z * option tuning_metrics.

(** Where an invocation of socket [c] of process [p] ends when it starts at a view,
    as far as the view decides it: an update may find the map full. *)
Fixpoint lands {R} (c p : Z) (t : program R) (v : view) (Q : R → view → Prop) : Prop :=
  match t with
  | Return r => Q r v
  | @Access _ A q k =>
      match q in access A return (A → program R) → Prop with
      | LookupPid c' => λ k, c' = c ∧ lands c p (k (bool_decide (is_Some v.1))) v Q
      | LoadPid c' => λ k, c' = c ∧ lands c p (k (default (-1) v.1)) v Q
      | UpdatePid c' p' => λ k, c' = c ∧ p' = p ∧ lands c p (k 0) (Some p, v.2) Q ∧
          (v.1 = None → ∀ r, r ≠ 0 → lands c p (k r) v Q)
      | LookupMetrics p' => λ k, ∀ b, (p' = p → b = bool_decide (is_Some v.2)) → lands c p (k b) v Q
      | LoadMetrics p' f => λ k, ∀ x, (p' = p → x = from_option f 0 v.2) → lands c p (k x) v Q
      | StoreMetrics p' f => λ k, lands c p (k tt) (v.1, if decide (p' = p) then f <$> v.2 else v.2) Q
      | UpdateMetrics p' m => λ k, p' = p ∧ lands c p (k 0) (v.1, Some m) Q ∧
          (v.2 = None → ∀ r, r ≠ 0 → lands c p (k r) v Q)
      | LookupAction _ => λ k, ∀ act, lands c p (k act) v Q
      | Effect _ => λ k, lands c p (k tt) v Q
      end k
  end.

Lemma avoids_bind {A B} c p (t : program A) (f : A → program B) :
  avoids c p t → (∀ x, avoids c p (f x)) → avoids c p (t ≫= f).
Proof.
  intros Ht Hf. induction t as [x|A' q k IH]; [apply Hf|]. cbn. fold (mbind (M:=program) f).
  destruct q; cbn in Ht |- *; intuition; (apply IH; auto).
Qed.

Lemma lands_mono {R} c p (t : program R) v (Q Q' : R → view → Prop) :
  lands c p t v Q → (∀ r v, Q r v → Q' r v) → lands c p t v Q'.
Proof.
  intros Ht HQ. revert v Ht. induction t as [x|A' q k IH]; intros v Ht; [by apply HQ|].
  destruct q; cbn in Ht |- *; intuition auto.
Qed.

Lemma lands_bind {A B} c p (t : program A) (f : A → program B) v Q :
  lands c p t v (λ x v, lands c p (f x) v Q) → lands c p (t ≫= f) v Q.
Proof.
  revert v. induction t as [x|A' q k IH]; intros v Ht; [done|]. cbn. fold (mbind (M:=program) f).
  destruct q; cbn in Ht |- *; intuition; (apply IH; auto).
Qed.

(** Programs that only call helpers. *)
Fixpoint calls_helpers {R} (t : program R) : Prop :=
  match t with
  | Return _ => True
  | @Access _ A q k =>
      match q in access A return (A → program R) → Prop with
      | Effect _ => λ k, calls_helpers (k tt)
      | _ => λ _, False
      end k
  end.

Lemma calls_bind {A B} (t : program A) (f : A → program B) :
  calls_helpers t → (∀ x, calls_helpers (f x)) → calls_helpers (t ≫= f).
Proof. intros Ht Hf. induction t as [x|A' q k IH]; [apply Hf|]. destruct q; try done. cbn in *. by apply IH. Qed.

Lemma calls_avoids {R} c p (t : program R) : calls_helpers t → avoids c p t.
Proof. induction t as [x|A' q k IH]; [done|]. destruct q; try done. cbn. auto. Qed.

Lemma calls_lands {R} c p (t : program R) v : calls_helpers t → lands c p t v (λ _ v', v' = v).
Proof. induction t as [x|A' q k IH]; [done|]. destruct q; try done. cbn. auto. Qed.

Lemma calls_positive l o v : calls_helpers (set_if_positive l o v).
Proof. unfold set_if_positive, when. by destruct (0 <? v). Qed.
#[local] Hint Resolve calls_positive : core.

Lemma calls_action act : calls_helpers (apply_action act).
Proof.
  unfold apply_action. do 2 (apply calls_bind; [auto|intros _]). apply calls_bind.
  { unfold when. by repeat case_match. }
  intros _. do 4 (apply calls_bind; [auto|intros _]). auto.
Qed.

(** ** Invocations of the two kinds *)

Lemma established_avoids c p key k : avoids c p (on_established key k).
Proof.
  unfold on_established. apply avoids_bind; [done|]. intros act. apply avoids_bind; [|done].
  destruct act; [|done]. apply calls_avoids, calls_action.
Qed.

Lemma established_lands c p key k v : lands c p (on_established key k) v (λ _ v', v' = v).
Proof.
  unfold on_established. apply lands_bind. cbn. intros act.
  apply (lands_bind (A:=unit)), (lands_mono _ _ _ _ (λ _ v', v' = v)).
  - destruct act; [apply calls_lands, calls_action|done].
  - by intros _ v' ->.
Qed.

(** The invocations of other sockets; a process opens its only socket once. *)
Lemma other_avoids c p (i : helpers * bpf_sock_ops) :
  cookie_of i ≠ c → (is_connect i = true → pid_of i ≠ p) → avoids c p (bpf_sockmap i.1 i.2).
Proof.
  destruct i as [h k]. unfold is_connect, inet, cookie_of, pid_of, bpf_sockmap. cbn [fst snd]. intros Hc Hp.
  destruct (Ctx.family k =? AF_INET); [|done]. cbn [negb andb] in *. apply avoids_bind; [|done].
  destruct (_ =? BPF_SOCK_OPS_TCP_CONNECT_CB); [cbn; by auto|].
  destruct (_ || _); [apply established_avoids|].
  assert (avoids c p (update_metrics h k)) as Hu.
  { cbn. split; [done|]. intros [|]; [|done]. cbn. split; [done|]. intros p' Hne. split; [done|].
    intros [|]; [|done]. cbn. do 5 (split; [done|]). intros start. unfold when. by destruct (0 <? start). }
  by repeat case_match.
Qed.

(** What the callbacks of the socket make of its record. *)
Definition expects (p : Z) (m : tuning_metrics) (v : view) : Prop := v.1 = Some p → v.2 = None ∨ v.2 = Some m.

Lemma connect_lands i v :
  is_connect i = true →
  lands (cookie_of i) (pid_of i) (bpf_sockmap i.1 i.2) v
    (λ _ v', expects (pid_of i) (initial_metrics i) v').
Proof.
  destruct i as [h k]. unfold is_connect, inet, cookie_of, pid_of, bpf_sockmap, expects. cbn [fst snd].
  intros [-> ->]%andb_true_iff. cbn. repeat split; auto; intros; cbn in *; try congruence; auto.
Qed.

(** An invocation of the socket that does not open it. *)
Lemma own_lands i p m v :
  is_connect i = false → expects p m v →
  lands (cookie_of i) p (bpf_sockmap i.1 i.2) v
    (λ _ v', expects p (if is_callback i then observe i m else m) v').
Proof.
  destruct i as [h k]. unfold is_connect, is_callback, inet, cookie_of, bpf_sockmap. cbn [fst snd].
  intros Hc Hm. destruct (Ctx.family k =? AF_INET); [|done]. cbn [negb andb] in *. rewrite Hc.
  apply lands_bind. destruct (Ctx.op k =? BPF_SOCK_OPS_ACTIVE_ESTABLISHED_CB) eqn:E1;
    [|destruct (Ctx.op k =? BPF_SOCK_OPS_PASSIVE_ESTABLISHED_CB) eqn:E2]; cbn [orb].
  1, 2: eapply lands_mono; [apply established_lands|]; intros _ v' ->; cbn.
  1, 2: replace (_ || _) with false by (unfold BPF_SOCK_OPS_ACTIVE_ESTABLISHED_CB, BPF_SOCK_OPS_PASSIVE_ESTABLISHED_CB,
      BPF_SOCK_OPS_STATE_CB, BPF_SOCK_OPS_RETRANS_CB in *; lia); done.
  assert (lands (bpf_get_socket_cookie h) p (update_metrics h k) v (λ _ v', expects p (observe (h, k) m) v')) as Hu.
  { cbn. split; [done|]. destruct v as [[q|] r]; cbn; [|done]. split; [done|]. intros b Hb.
    unfold expects in *. cbn in *.
    destruct b; cbn.
    - intros x Hx. unfold when. destruct (decide (q = p)) as [->|Hq].
      + specialize (Hb eq_refl). symmetry in Hb. apply bool_decide_eq_true in Hb as [m' ->].
        destruct (Hm eq_refl) as [|[= ->]]; [done|]. rewrite (Hx eq_refl). cbn.
        unfold observe. cbn [fst snd]. destruct (0 <? start_time_ns m); cbn; [|by right].
        intros y Hy. rewrite (Hy eq_refl), decide_True by done. by right.
      + destruct (0 <? x); cbn; [|congruence]. intros y _. congruence.
    - intros [= ->]. specialize (Hb eq_refl). symmetry in Hb. apply bool_decide_eq_false, eq_None_not_Some in Hb. auto. }
  destruct (_ =? BPF_SOCK_OPS_STATE_CB); [done|]. by destruct (_ =? BPF_SOCK_OPS_RETRANS_CB).
Qed.

(** ** Histories *)

Section history.
Context {NM NC : nat} {MA MM MC : Type}.
Context `{!BpfHashMap MA ip_port_key tuning_action}.
Context `{!BpfHashMap MM Z tuning_metrics} `{!BpfHashMapLaws NM MM Z tuning_metrics}.
Context `{!BpfHashMap MC Z Z} `{!BpfHashMapLaws NC MC Z Z}.

Abbreviation state := (bpf_state MA MM MC).
Abbreviation crowd := (Cpus.crowd (MA:=MA) (MM:=MM) (MC:=MC)).
Implicit Types (s : state) (i : helpers * bpf_sock_ops) (w : crowd).

Section socket.
Context (c p : Z).
Definition view_of s : view := (owner s c, record s p).

(** No other socket belongs to the process. *)
Definition unshared s : Prop := ∀ c', c' ≠ c → owner s c' ≠ Some p.

Lemma store_view p' f s :
  view_of (answer (StoreMetrics p' f) s).2 = (owner s c, if decide (p' = p) then f <$> record s p else record s p).
Proof.
  unfold view_of, owner, record. cbn. destruct (map_lookup_elem (metrics_map s) p') as [m|] eqn:E; cbn.
  - rewrite map_store_lookup by done. case_decide; subst; rewrite ?E; by case_decide.
  - case_decide; subst; by rewrite ?E.
Qed.

Lemma store_unshared p' f s : unshared s → unshared (answer (StoreMetrics p' f) s).2.
Proof. unfold unshared, owner. cbn. by destruct (map_lookup_elem (metrics_map s) p'). Qed.

Lemma access_lands {A R} (q : access A) (k : A → program R) s Q :
  lands c p (Access q k) (view_of s) Q →
  lands c p (k (answer q s).1) (view_of (answer q s).2) Q ∧ (unshared s → unshared (answer q s).2).
Proof.
  intros Hl. destruct q; cbn [lands] in Hl.
  - by destruct Hl as [-> Hl].
  - by destruct Hl as [-> Hl].
  - destruct Hl as (-> & -> & H0 & Hr). cbn. unfold view_of, unshared, owner, record in *.
    destruct (map_update_elem (cookie_pid_map s) c p BPF_ANY) as [r mc] eqn:E. cbn.
    apply map_update_cases in E as [[-> E]|(Hne & Hn & E)]; rewrite E; rewrite ?decide_True by done;
      (split; [auto|]); intros Hu c' Hc'; rewrite E, ?decide_False by done; by apply Hu.
  - split; [|done]. apply Hl. by intros ->.
  - split; [|done]. apply Hl. by intros ->.
  - rewrite store_view. split; [done|apply store_unshared].
  - destruct Hl as (-> & H0 & Hr). cbn. unfold view_of, unshared, owner, record in *.
    destruct (map_update_elem (metrics_map s) p met BPF_ANY) as [r mm] eqn:E. cbn.
    apply map_update_cases in E as [[-> E]|(Hne & Hn & E)]; rewrite E; rewrite ?decide_True by done; auto.
  - split; [|done]. apply Hl.
  - done.
Qed.

Hypothesis pid_range : 0 ≤ p.

Lemma access_avoids {A R} (q : access A) (k : A → program R) s :
  avoids c p (Access q k) → unshared s →
  view_of (answer q s).2 = view_of s ∧ unshared (answer q s).2 ∧ avoids c p (k (answer q s).1).
Proof.
  intros Ha Hu. destruct q; cbn [avoids] in Ha.
  - by destruct Ha.
  - destruct Ha as [Hc Hk]. split; [done|]. split; [done|]. apply Hk. cbn.
    pose proof (Hu cookie Hc) as Ho. unfold owner in Ho. destruct (map_lookup_elem _ _); cbn; [congruence|lia].
  - destruct Ha as (Hc & Hp & Hk). cbn. unfold view_of, unshared, owner, record in *.
    destruct (map_update_elem (cookie_pid_map s) cookie pid BPF_ANY) as [r mc] eqn:E. cbn.
    apply map_update_cases in E as [[_ E]|(_ & _ & E)]; split_and!; try done; rewrite ?E, ?decide_False by done; try done;
      intros c' Hc'; rewrite E; [case_decide; [congruence|]|]; by apply Hu.
  - by destruct Ha.
  - by destruct Ha.
  - destruct Ha as [Hp Hk]. rewrite store_view, decide_False by done. by split_and!; [|apply store_unshared|].
  - destruct Ha as [Hp Hk]. cbn. unfold view_of, unshared, owner, record in *.
    destruct (map_update_elem (metrics_map s) pid met BPF_ANY) as [r mm] eqn:E. cbn.
    apply (map_update_other _ _ _ _ _ p) in E; [|done]. by rewrite E.
  - done.
  - done.
Qed.

Lemma idle_spec w :
  idle c w = true ↔
  ∀ n i t, invocations w !! n = Some (i, t) → cookie_of i = c → returned t = true.
Proof.
  unfold idle. rewrite forallb_forall. split.
  - intros H n i t Hn Hc. specialize (H (i, t)). cbn in H. rewrite Hc, Z.eqb_refl in H. apply H.
    apply list_elem_of_In. by eapply list_elem_of_lookup_2.
  - intros H [i t] Hx. apply list_elem_of_In, list_elem_of_lookup in Hx as [n Hn]. cbn.
    destruct (Z.eqb_spec (cookie_of i) c) as [Hc|]; [|done]. cbn. by eapply H.
Qed.

#[local] Arguments idle : simpl never.

(** The invariant: every invocation under way is one of another socket, but for at
    most one, which lands where [E] holds; when there is none, [E] holds. *)
Record inv (E : view → Prop) w : Prop := Inv {
  inv_unshared : unshared (maps w);
  inv_others n i t : invocations w !! n = Some (i, t) → cookie_of i ≠ c → avoids c p t;
  inv_own :
    (idle c w = true ∧ E (view_of (maps w))) ∨
    ∃ n i t, invocations w !! n = Some (i, t) ∧ cookie_of i = c ∧ returned t = false ∧
      (∀ n' i' t', n' ≠ n → invocations w !! n' = Some (i', t') → cookie_of i' = c → returned t' = true) ∧
      lands c p t (view_of (maps w)) (λ _, E);
}.

(** The own invocation that is at [n] takes the place of none or of itself. *)
Lemma inv_own_at (E : view → Prop) s l n i t :
  unshared s → (∀ n' i' t', n' ≠ n → l !! n' = Some (i', t') →
    if decide (cookie_of i' = c) then returned t' = true else avoids c p t') →
  l !! n = Some (i, t) → cookie_of i = c → lands c p t (view_of s) (λ _, E) → inv E (Crowd s l).
Proof.
  intros Hu Ho Hn Hc Hl. split; [done|..]; cbn.
  - intros n' i' t' Hn' Hc'. destruct (decide (n' = n)) as [->|Hne]; [congruence|].
    specialize (Ho n' i' t' Hne Hn'). by rewrite decide_False in Ho.
  - assert (∀ n' i' t', n' ≠ n → l !! n' = Some (i', t') → cookie_of i' = c → returned t' = true) as Ho'.
    { intros n' i' t' Hne Hn' Hc'. specialize (Ho n' i' t' Hne Hn'). by rewrite decide_True in Ho. }
    destruct (returned t) eqn:Hr.
    + left. destruct t; [|done]. split; [|done]. apply idle_spec. cbn. intros n' i' t' Hn' Hc'.
      destruct (decide (n' = n)) as [->|Hne]; [by simplify_eq|by eapply Ho'].
    + right. by exists n, i, t.
Qed.

Lemma arrives_other (E : view → Prop) i w :
  cookie_of i ≠ c → allowed c p (Invoked i) w = true → inv E w → inv E (happen (Invoked i) w).
Proof.
  intros Hc Ha [Hu Ho Hown]. cbn [allowed] in Ha. rewrite (proj2 (Z.eqb_neq _ _) Hc) in Ha.
  assert (∀ n i' t, invocations (happen (Invoked i) w) !! n = Some (i', t) →
    invocations w !! n = Some (i', t) ∨ i' = i ∧ t = bpf_sockmap i.1 i.2) as Hin.
  { cbn. intros n i' t [?|[_ Hx]]%lookup_app_Some; [by left|].
    apply list_lookup_singleton_Some in Hx as [_ [= <- <-]]. by right. }
  split; [done|..].
  - intros n i' t [Hn|[-> ->]]%Hin Hc'; [by eapply Ho|]. apply other_avoids; [done|].
    intros Hi. rewrite Hi in Ha. cbn in Ha. apply negb_true_iff, Z.eqb_neq in Ha. done.
  - destruct Hown as [[Hi HE]|(n & i' & t & Hn & Hc' & Hr & Hothers & Hl)].
    + left. split; [|done]. rewrite idle_spec in Hi. apply idle_spec.
      intros n i' t [Hn|[-> _]]%Hin Hc'; [by eapply Hi|congruence].
    + right. exists n, i', t. split_and!; try done.
      * cbn. by apply lookup_app_l_Some.
      * intros n' i'' t' Hne [Hn'|[-> _]]%Hin Hc''; [by eapply Hothers|congruence].
Qed.

Lemma arrives_own (E E' : view → Prop) i w :
  cookie_of i = c → idle c w = true →
  (∀ v, E v → lands c p (bpf_sockmap i.1 i.2) v (λ _, E')) → inv E w → inv E' (happen (Invoked i) w).
Proof.
  intros Hc Hi HE [Hu Ho Hown]. cbn [happen].
  destruct Hown as [[_ He]|(n & i' & t & Hn & Hc' & Hr & _)].
  - eapply (inv_own_at _ _ _ (length (invocations w))); [done| |by apply list_lookup_middle|done|by apply HE].
    intros n' i' t' Hne [Hn'|[Hge Hx]]%lookup_app_Some.
    + case_decide; [by eapply (proj1 (idle_spec w))|by eapply Ho].
    + apply list_lookup_singleton_Some in Hx as [? _]. lia.
  - rewrite (proj1 (idle_spec w) Hi _ _ _ Hn Hc') in Hr. done.
Qed.

Lemma continues_inv (E : view → Prop) n w : inv E w → inv E (happen (Continues n) w).
Proof.
  intros Hinv. pose proof Hinv as [Hu Ho Hown]. cbn [happen].
  destruct (invocations w !! n) as [[i [r|A q k]]|] eqn:Hn; [done| |done].
  destruct (decide (cookie_of i = c)) as [Hc|Hc].
  - destruct Hown as [[Hi _]|(n' & i' & t & Hn' & Hc' & Hr & Hothers & Hl)].
    { by rewrite idle_spec in Hi; specialize (Hi _ _ _ Hn Hc). }
    assert (n' = n) as ->. { destruct (decide (n' = n)); [done|]. by specialize (Hothers n _ _ (not_eq_sym n0) Hn Hc). }
    rewrite Hn in Hn'. injection Hn' as <- <-.
    destruct (access_lands q k (maps w) _ Hl) as [Hl' Hu']. destruct (answer q (maps w)) as [x s'].
    eapply (inv_own_at _ _ _ n); [by apply Hu'| |apply list_lookup_insert_eq; by eapply lookup_lt_Some|done|done].
    intros n' i' t' Hne Hx. rewrite list_lookup_insert_ne in Hx by done.
    case_decide; [by eapply Hothers|by eapply Ho].
  - destruct (access_avoids q k (maps w) (Ho _ _ _ Hn Hc) Hu) as (Hv & Hu' & Ha).
    destruct (answer q (maps w)) as [x s']. cbn [fst snd] in *.
    assert (∀ n' i' t', (<[n:=(i, k x)]> (invocations w)) !! n' = Some (i', t') → cookie_of i' = c →
      n' ≠ n ∧ invocations w !! n' = Some (i', t')) as Hin.
    { intros n' i' t' Hx Hc'. destruct (decide (n' = n)) as [->|Hne]; [|by rewrite list_lookup_insert_ne in Hx].
      rewrite list_lookup_insert_eq in Hx by (by eapply lookup_lt_Some). congruence. }
    split; cbn; [done|..].
    + intros n' i' t' Hx Hc'. destruct (decide (n' = n)) as [->|Hne].
      * rewrite list_lookup_insert_eq in Hx by (by eapply lookup_lt_Some). by injection Hx as <- <-.
      * rewrite list_lookup_insert_ne in Hx by done. by eapply Ho.
    + rewrite Hv. destruct Hown as [[Hi HE]|(n' & i' & t & Hn' & Hc' & Hr & Hothers & Hl)].
      * left. split; [|done]. apply idle_spec. cbn. intros n' i' t' Hx Hc'.
        destruct (Hin _ _ _ Hx Hc'). by eapply (proj1 (idle_spec w)).
      * right. exists n', i', t. split_and!; try done.
        -- rewrite list_lookup_insert_ne by congruence. done.
        -- intros n'' i'' t'' Hne Hx Hc''. destruct (Hin _ _ _ Hx Hc''). by eapply Hothers.
Qed.

(** Histories before the socket is opened, and after. *)
Lemma idle_before evs w :
  Forall (λ i, cookie_of i ≠ c) (arrivals evs) → idle c w = true → idle c (history evs w) = true.
Proof.
  revert w. induction evs as [|ev evs IH]; intros w Ha Hi; [done|]. pose proof (proj1 (idle_spec w) Hi) as Hs.
  destruct ev as [i|n]; cbn in Ha.
  - apply Forall_cons in Ha as [Hc Ha]. apply IH; [done|]. apply idle_spec. cbn.
    intros n i' t [Hn|[_ Hx]]%lookup_app_Some Hc'; [by eapply Hs|].
    apply list_lookup_singleton_Some in Hx as [_ [= <- _]]. done.
  - apply IH; [done|]. cbn. destruct (invocations w !! n) as [[i [r|A q k]]|] eqn:Hn; [done| |done].
    destruct (answer q (maps w)) as [x s']. apply idle_spec. cbn. intros n' i' t' Hx Hc'.
    destruct (decide (n' = n)) as [->|Hne]; [|rewrite list_lookup_insert_ne in Hx by done; by eapply Hs].
    rewrite list_lookup_insert_eq in Hx by (by eapply lookup_lt_Some). injection Hx as <- _.
    by specialize (Hs _ _ _ Hn Hc').
Qed.

Lemma history_before (E : view → Prop) evs w :
  orderly c p evs w = true → Forall (λ i, cookie_of i ≠ c) (arrivals evs) → inv E w → inv E (history evs w).
Proof.
  revert w. induction evs as [|ev evs IH]; intros w Ho Ha Hi; [done|]. cbn in Ho.
  apply andb_true_iff in Ho as [Hal Ho]. destruct ev as [i|n]; cbn in Ha.
  - apply Forall_cons in Ha as [Hc Ha]. by apply IH, arrives_other.
  - by apply IH, continues_inv.
Qed.

Lemma history_after m evs w :
  orderly c p evs w = true → inv (expects p m) w →
  inv (expects p (foldl (flip observe) m (filter (λ i, own_callback c i = true) (arrivals evs)))) (history evs w).
Proof.
  revert m w. induction evs as [|ev evs IH]; intros m w Ho Hi; [done|]. cbn in Ho.
  apply andb_true_iff in Ho as [Hal Ho]. destruct ev as [i|n]; [|by apply IH, continues_inv].
  cbn [arrivals omap list_omap]. rewrite filter_cons.
  destruct (Z.eqb_spec (cookie_of i) c) as [Hc|Hc].
  - cbn [allowed] in Hal. rewrite (proj2 (Z.eqb_eq _ _) Hc) in Hal. apply andb_true_iff in Hal as [Hco Hid].
    apply negb_true_iff in Hco.
    assert (own_callback c i = is_callback i) as -> by (unfold own_callback; rewrite (proj2 (Z.eqb_eq _ _) Hc); apply andb_true_r).
    assert (inv (expects p (if is_callback i then observe i m else m)) (happen (Invoked i) w)) as Hi'.
    { apply (arrives_own (expects p m)); [done..| |done]. intros v Hv. rewrite <- Hc. by apply own_lands. }
    destruct (is_callback i); [rewrite decide_True by done|rewrite decide_False by done]; by apply IH.
  - assert (own_callback c i = false) as -> by (unfold own_callback; rewrite (proj2 (Z.eqb_neq _ _) Hc); apply andb_false_r).
    rewrite decide_False by done. by apply IH, arrives_other.
Qed.
End socket.

(** C25.  The metrics of a connection on a machine with many CPUs.  From maps that no
    invocation is working on, in every history in which a process [p] opens a
    socket [c], once, and no other, whatever the invocations for other sockets and
    processes do between any two accesses of the program to its maps, as long as the
    invocations for [c] follow each other and no value is replaced that another
    invocation has a pointer to: once the invocations for the socket
    have returned, and if both maps had room for it, the record of [p] holds the
    remote address of the connection, the counters of the last callback of the
    socket, and the microseconds from the connect to that callback; no mixture of
    two callbacks, and nothing of another socket. *)
Theorem session_metrics_cpus s i0 evs0 evs1 pre j :
  let c := cookie_of i0 in
  let p := pid_of i0 in
  let w0 := history evs0 (Crowd s []) in
  let w1 := history evs1 (happen (Invoked i0) w0) in
  is_connect i0 = true →
  (∀ c', c' ≠ c → owner s c' ≠ Some p) →
  orderly c p evs0 (Crowd s []) = true → Forall (λ i, cookie_of i ≠ c) (arrivals evs0) →
  orderly c p evs1 (happen (Invoked i0) w0) = true →
  filter (λ i, own_callback c i = true) (arrivals evs1) = pre ++ [j] →
  idle c w1 = true → owner (maps w1) c = Some p → is_Some (record (maps w1) p) →
  0 < bpf_ktime_get_ns i0.1 ≤ bpf_ktime_get_ns j.1 → fits 64 (bpf_ktime_get_ns j.1) →
  record (maps w1) p = Some
    (TuningMetrics (Ctx.remote_ip4 i0.2) (bswap32 (Ctx.remote_port i0.2))
       (Z.shiftr (Ctx.srtt_us j.2) 3) (Ctx.total_retrans j.2)
       (Ctx.bytes_acked j.2) (Ctx.bytes_received j.2) (bpf_ktime_get_ns i0.1)
       ((bpf_ktime_get_ns j.1 - bpf_ktime_get_ns i0.1) / 1000)).
Proof.
  cbn zeta. intros Hi Hu Ho0 Ha0 Ho1 Hf Hid Hown [m Hm] Ht Hj. set (c := cookie_of i0) in *. set (p := pid_of i0) in *.
  assert (0 ≤ p) as Hp by (pose proof (wrap_fits 32 (Z.shiftr (bpf_get_current_pid_tgid i0.1) 32) ltac:(lia)) as H; apply H).
  assert (inv c p (λ _, True) (Crowd s [])) as H0.
  { split; [exact Hu|by intros n i t Hn|]. left. split; [|done]. by apply idle_spec. }
  apply (history_before c p Hp _ evs0) in H0; [|done..].
  assert (idle c (history evs0 (Crowd s [])) = true) as Hidle by (by apply idle_before).
  apply (arrives_own c p _ (expects p (initial_metrics i0)) i0) in H0; [|done..|intros v _; by apply connect_lands].
  apply (history_after c p Hp _ _ _ Ho1) in H0. rewrite Hf in H0.
  destruct H0 as [_ _ [[_ H]|(n & i & t & Hn & Hc & Hr & _)]].
  - unfold expects, view_of in H. cbn [fst snd] in H. destruct (H Hown) as [Hrec|Hrec]; [congruence|].
    rewrite Hrec, observe_last.
    unfold observe, initial_metrics. cbn. unfold fits in Hj.
    rewrite (proj2 (Z.ltb_lt _ _)), wrap_id by (unfold fits; lia). done.
  - rewrite idle_spec in Hid. by rewrite (Hid _ _ _ Hn Hc) in Hr.
Qed.
(** ** Two sockets of one process *)

Lemma cpus_history_app evs evs' w : history (evs ++ evs') w = history evs' (history evs w).
Proof. apply foldl_app. Qed.

Lemma arrivals_app evs evs' : arrivals (evs ++ evs') = arrivals evs ++ arrivals evs'.
Proof. apply omap_app. Qed.

Lemma arrivals_continues f n : arrivals (replicate f (Continues n)) = [].
Proof. by induction f. Qed.

(** An invocation goes on to its end without another one. *)
Lemma continues_alone n i t s l :
  l !! n = Some (i, t) →
  ∃ fuel r, (alone t s).1.1 = r ∧
    history (replicate fuel (Continues n)) (Crowd s l) = Crowd (alone t s).1.2 (<[n:=(i, Return r)]> l).
Proof.
  intros Hn. revert s l Hn. induction t as [r|A q k IH]; intros s l Hn.
  - exists 0%nat, r. split; [done|]. cbn. by rewrite list_insert_id.
  - cbn [alone]. destruct (answer q s) as [x s'] eqn:E.
    assert (n < length l)%nat as Hlen by (by eapply lookup_lt_Some).
    destruct (IH x s' (<[n:=(i, k x)]> l)) as (fuel & r & Hr & Hh); [by apply list_lookup_insert_eq|].
    exists (S fuel), r. destruct (alone (k x) s') as [[y s2] e]. cbn [fst snd] in *. split; [done|].
    rewrite list_insert_insert_eq in Hh. rewrite <- Hh. unfold history. cbn [replicate foldl]. unfold flip at 2.
    cbn [happen invocations]. rewrite Hn. cbn [maps]. by rewrite E.
Qed.

Lemma alone_lands {R} c p (t : program R) s Q :
  lands c p t (view_of c p s) Q → Q (alone t s).1.1 (view_of c p (alone t s).1.2).
Proof.
  revert s. induction t as [r|A q k IH]; intros s Hl; [done|].
  destruct (access_lands c p q k s Q Hl) as [Hl' _]. cbn [alone]. destruct (answer q s) as [x s'].
  specialize (IH x s' Hl'). by destruct (alone (k x) s') as [[y s2] e].
Qed.

(** A callback up to its first store, and the rest of it. *)
Definition rest_of_callback (p : Z) (j : helpers * bpf_sock_ops) : program Z :=
  _ ← (_ ← do (StoreMetrics p (set_total_retrans (Ctx.total_retrans j.2)));
       _ ← do (StoreMetrics p (set_bytes_sent (Ctx.bytes_acked j.2)));
       _ ← do (StoreMetrics p (set_bytes_received (Ctx.bytes_received j.2)));
       start ← do (LoadMetrics p start_time_ns);
       when (0 <? start) (
         start ← do (LoadMetrics p start_time_ns);
         do (StoreMetrics p (set_duration_us (u64 (bpf_ktime_get_ns j.1 - start) / 1000)))));
  mret 0.

Lemma callback_program j : is_callback j = true → bpf_sockmap j.1 j.2 = (_ ← update_metrics j.1 j.2; mret 0).
Proof.
  destruct j as [h k]. unfold is_callback, inet, bpf_sockmap. cbn [fst snd].
  intros [-> H]%andb_true_iff. cbn [negb].
  rewrite (proj2 (Z.eqb_neq (Ctx.op k) BPF_SOCK_OPS_TCP_CONNECT_CB)),
    (proj2 (Z.eqb_neq (Ctx.op k) BPF_SOCK_OPS_ACTIVE_ESTABLISHED_CB)),
    (proj2 (Z.eqb_neq (Ctx.op k) BPF_SOCK_OPS_PASSIVE_ESTABLISHED_CB)) by
    (unfold BPF_SOCK_OPS_TCP_CONNECT_CB, BPF_SOCK_OPS_ACTIVE_ESTABLISHED_CB, BPF_SOCK_OPS_PASSIVE_ESTABLISHED_CB,
      BPF_SOCK_OPS_STATE_CB, BPF_SOCK_OPS_RETRANS_CB in *; lia).
  cbn [orb]. destruct (Ctx.op k =? BPF_SOCK_OPS_STATE_CB); [done|]. cbn [orb] in H. by rewrite H.
Qed.

Lemma first_store n j p m s l :
  is_callback j = true → owner s (cookie_of j) = Some p → record s p = Some m →
  l !! n = Some (j, bpf_sockmap j.1 j.2) →
  history (replicate 4 (Continues n)) (Crowd s l) =
  Crowd (answer (StoreMetrics p (set_srtt_us (Z.shiftr (Ctx.srtt_us j.2) 3))) s).2
    (<[n:=(j, rest_of_callback p j)]> l).
Proof.
  intros Hj Ho Hr Hn. rewrite (callback_program j Hj) in Hn. unfold owner, cookie_of in Ho. unfold record in Hr.
  assert (n < length l)%nat as Hlen by (by eapply lookup_lt_Some).
  unfold history. cbn [replicate foldl]. unfold flip. cbn [happen invocations maps]. rewrite Hn. cbn.
  rewrite Ho, list_lookup_insert_eq by done. cbn.
  rewrite list_insert_insert_eq, list_lookup_insert_eq by done. cbn. rewrite Ho. cbn. rewrite Hr. cbn.
  rewrite list_insert_insert_eq, list_lookup_insert_eq by done. cbn.
  by rewrite list_insert_insert_eq, Hr.
Qed.

(** C35.  Two sockets of one process.  Callbacks of two sockets that belong to the
    same process may run at once, and their stores mix in the process's record: there
    is a history of just these two callbacks, without any value being replaced,
    after which the record holds the smoothed RTT of one connection and the
    retransmissions, bytes and duration of the other. *)
Theorem sockets_of_one_process_mix s p m i j :
  is_callback i = true → is_callback j = true →
  owner s (cookie_of i) = Some p → owner s (cookie_of j) = Some p → record s p = Some m →
  ∃ evs, let w := history evs (Crowd s []) in
    arrivals evs = [i; j] ∧ forallb (λ it, returned it.2) (invocations w) = true ∧
    record (maps w) p = Some (set_srtt_us (Z.shiftr (Ctx.srtt_us i.2) 3) (observe j m)).
Proof.
  intros Hi Hj Hoi Hoj Hm. set (l := [(i, bpf_sockmap i.1 i.2); (j, bpf_sockmap j.1 j.2)]).
  pose proof (first_store 1 j p m s l Hj Hoj Hm eq_refl) as H1.
  set (mj := set_srtt_us (Z.shiftr (Ctx.srtt_us j.2) 3) m).
  pose proof (store_view (cookie_of i) p p (set_srtt_us (Z.shiftr (Ctx.srtt_us j.2) 3)) s) as Hv1.
  rewrite decide_True, Hoi, Hm in Hv1 by done. set (s1 := (answer _ s).2) in *.
  set (l1 := <[1%nat:=(j, rest_of_callback p j)]> l) in *.
  assert (l1 !! 0%nat = Some (i, bpf_sockmap i.1 i.2)) as Hl1 by (unfold l1; by rewrite list_lookup_insert_ne).
  destruct (continues_alone 0 i _ s1 l1 Hl1) as (f2 & r2 & _ & H2).
  rewrite alone_is_program in H2. change ((SocketTuner.bpf_sockmap i.2 i.1 s1).1.2) with (invoke i s1) in H2.
  destruct (callback_spec i s1 Hi) as [_ Hcb]. injection Hv1 as Ho1 Hr1. unfold view_of in Hr1. rewrite Ho1, Hr1 in Hcb.
  pose proof (recorded_at _ _ _ _ Hcb) as Hr2.
  assert (view_of (cookie_of j) p (invoke i s1) = (Some p, Some (observe i mj))) as Hv2.
  { unfold view_of. f_equal; [|exact Hr2]. destruct Hcb as (_ & Hc & _). unfold owner. rewrite Hc.
    pose proof (store_view (cookie_of j) p p (set_srtt_us (Z.shiftr (Ctx.srtt_us j.2) 3)) s) as Hv.
    rewrite Hoj in Hv. by injection Hv. }
  set (s2 := invoke i s1) in *.
  set (l2 := <[0%nat:=(i, Return r2)]> l1) in *.
  assert (l2 !! 1%nat = Some (j, rest_of_callback p j)) as Hl2
    by (unfold l2, l1; rewrite list_lookup_insert_ne by done; by rewrite list_lookup_insert_eq by (cbn; lia)).
  destruct (continues_alone 1 j _ s2 l2 Hl2) as (f3 & r3 & _ & H3).
  exists ([Invoked i; Invoked j] ++ replicate 4 (Continues 1) ++ replicate f2 (Continues 0) ++ replicate f3 (Continues 1)).
  cbn zeta. rewrite !arrivals_app, !arrivals_continues, !cpus_history_app.
  change (history [Invoked i; Invoked j] (Crowd s [])) with (Crowd s l). rewrite H1, H2, H3. split; [done|].
  split; [done|]. cbn [maps].
  pose proof (alone_lands (cookie_of j) p (rest_of_callback p j) s2
    (λ _ v, v.2 = Some (set_srtt_us (Z.shiftr (Ctx.srtt_us i.2) 3) (observe j m)))) as Hland.
  rewrite Hv2 in Hland. apply Hland. clear.
  cbn. destruct (decide (p = p)) as [_|[]]; [|done]. intros x Hx. rewrite (Hx eq_refl). unfold observe, when, mj.
  cbn. destruct (0 <? start_time_ns m); cbn; [|done]. intros y Hy. rewrite (Hy eq_refl).
  by case_decide.
Qed.

End history.

(** ** Instance *)

(** Process 4242 opens socket 7 and is called back while process 4243 opens socket 8
    and is called back, access by access. *)
Definition other_helpers (t : Z) : helpers := Helpers 8 (Z.shiftl 4243 32) t.
Definition other_open : helpers * bpf_sock_ops :=
  (other_helpers 1100000, sample_ctx BPF_SOCK_OPS_TCP_CONNECT_CB 0 0 0 0).
Definition other_close : helpers * bpf_sock_ops :=
  (other_helpers 5000000, sample_ctx BPF_SOCK_OPS_STATE_CB 1600 9 7777 8888).

Definition before_open : list event := [Invoked other_open; Continues 0].
Definition after_open : list event :=
  [Continues 1; Continues 0; Continues 1; Invoked other_close; Invoked sample_close] ++
  concat (replicate 9 [Continues 2; Continues 3]) ++ [Continues 3].

Abbreviation small_crowd := (Cpus.crowd (MA:=bounded_map 4 ip_port_key tuning_action)
  (MM:=bounded_map 4 Z tuning_metrics) (MC:=bounded_map 4 Z Z)).
Definition small_maps : sim_state 4 4 4 := BpfState bm_empty bm_empty bm_empty.

Lemma session_metrics_cpus_witness :
  record (maps (history after_open (happen (Invoked sample_connect) (history before_open (Crowd small_maps [])))))
    4242 = Some (TuningMetrics sample_ip 443 1000 2 300 100000 1000000 8000).
Proof.
  refine (session_metrics_cpus (NM:=4) (NC:=4) small_maps sample_connect before_open after_open [] sample_close
    _ _ _ _ _ _ _ _ _ _ _).
  - reflexivity.
  - by intros c' _ H.
  - vm_compute. reflexivity.
  - vm_compute. repeat constructor; discriminate.
  - vm_compute. reflexivity.
  - vm_compute. reflexivity.
  - vm_compute. reflexivity.
  - vm_compute. reflexivity.
  - exists (TuningMetrics sample_ip 443 1000 2 300 100000 1000000 8000). vm_compute. reflexivity.
  - vm_compute. split; [reflexivity|discriminate].
  - vm_compute. split; [discriminate|reflexivity].
Defined.

(** Process 4242 opens socket 9 as well. *)
Definition second_helpers (t : Z) : helpers := Helpers 9 (Z.shiftl 4242 32) t.
Definition two_sockets : sim_state 4 4 4 :=
  run [sample_connect; (second_helpers 2000000, sample_ctx BPF_SOCK_OPS_TCP_CONNECT_CB 0 0 0 0)] small_maps.
Definition second_close : helpers * bpf_sock_ops :=
  (second_helpers 6000000, sample_ctx BPF_SOCK_OPS_STATE_CB 1600 9 7777 8888).

Lemma sockets_of_one_process_mix_witness :
  ∃ evs, record (maps (history evs (Crowd two_sockets []))) 4242 =
    Some (TuningMetrics sample_ip 443 1000 9 8888 7777 2000000 4000).
Proof.
  destruct (sockets_of_one_process_mix (NM:=4) (NC:=4) two_sockets 4242
    (TuningMetrics sample_ip 443 0 0 0 0 2000000 0) sample_close second_close) as (evs & _ & _ & H).
  - vm_compute. reflexivity.
  - vm_compute. reflexivity.
  - vm_compute. reflexivity.
  - vm_compute. reflexivity.
  - vm_compute. reflexivity.
  - exists evs. rewrite H. vm_compute. reflexivity.
Defined.
