(* ===== verification/Abi.v ===== *)
(** * The map entries shared by the BPF program and the agent

    The C structs of [socket_tuner.c] that are keys and values of the maps, the
    Go structs of [bpf_bpf.go] the agent stores and loads them with, the layout
    each language gives its own, and the memory images of their values.  A value
    the agent puts into a map is read back member by member by the C program,
    and conversely, without a shared declaration: the two layouts have to agree. *)
From S2P Require Import Prelude Words CTypes Vmlinux SocketTuner SocketTunerFacts SocketTunerProps.
Local Open Scope Z_scope.
Local Open Scope tuner_scope.

(** ** The C side *)

Definition struct_tuning_action : cdecl :=
  DStruct false [
    Name "__u32" ⊳ "max_pacing_rate";
    Name "__u32" ⊳ "snd_cwnd_clamp";
    Name "__u32" ⊳ "cong_algo";
    Name "__u32" ⊳ "init_cwnd";
    Name "__u32" ⊳ "window_clamp";
    Name "__u32" ⊳ "no_delay";
    Name "__u32" ⊳ "rto_min";
    Name "__u32" ⊳ "retrans_after";
    Name "__u8" ⊳ "enable_ecn";
    Name "__u8" ⊳ "pacing_status";
    Name "__u32" ⊳ "keepalive_idle"].

Definition struct_tuning_metrics : cdecl :=
  DStruct false [
    Name "__u32" ⊳ "remote_ip";
    Name "__u32" ⊳ "remote_port";
    Name "__u32" ⊳ "srtt_us";
    Name "__u32" ⊳ "total_retrans";
    Name "__u64" ⊳ "bytes_sent";
    Name "__u64" ⊳ "bytes_received";
    Name "__u64" ⊳ "start_time_ns";
    Name "__u64" ⊳ "duration_us"].

Definition struct_ip_port_key : cdecl :=
  DStruct false [
    Name "__be32" ⊳ "ip";
    Name "__be32" ⊳ "port"].

(** The translation unit: the kernel header, then the program's structs. *)
Definition socket_tuner_env : cenv := vmlinux ++ [
  ((SStruct, "tuning_action"), struct_tuning_action);
  ((SStruct, "tuning_metrics"), struct_tuning_metrics);
  ((SStruct, "ip_port_key"), struct_ip_port_key)].

(** ** The Go side *)

Inductive goty := GoUint8 | GoUint32 | GoUint64 | GoArray (t : goty) (n : Z) | GoHostLayout.

(** A struct field; the blank identifier is [_]. *)
Abbreviation gofield := (string * goty)%type.

Definition BpfIpPortKey : list gofield := [
  ("_", GoHostLayout);
  ("Ip", GoUint32);
  ("Port", GoUint32)].

Definition BpfTuningAction : list gofield := [
  ("_", GoHostLayout);
  ("MaxPacingRate", GoUint32);
  ("SndCwndClamp", GoUint32);
  ("CongAlgo", GoUint32);
  ("InitCwnd", GoUint32);
  ("WindowClamp", GoUint32);
  ("NoDelay", GoUint32);
  ("RtoMin", GoUint32);
  ("RetransAfter", GoUint32);
  ("EnableEcn", GoUint8);
  ("PacingStatus", GoUint8);
  ("_", GoArray GoUint8 2);
  ("KeepaliveIdle", GoUint32)].

Definition BpfTuningMetrics : list gofield := [
  ("_", GoHostLayout);
  ("RemoteIp", GoUint32);
  ("RemotePort", GoUint32);
  ("SrttUs", GoUint32);
  ("TotalRetrans", GoUint32);
  ("BytesSent", GoUint64);
  ("BytesReceived", GoUint64);
  ("StartTimeNs", GoUint64);
  ("DurationUs", GoUint64)].

(** [unsafe.Sizeof] and [unsafe.Alignof] on a 64-bit platform. *)
Fixpoint go_size_align (t : goty) : Z * Z :=
  match t with
  | GoUint8 => (1, 1)
  | GoUint32 => (4, 4)
  | GoUint64 => (8, 8)
  | GoArray t n => let '(s, a) := go_size_align t in (s * n, a)
  | GoHostLayout => (0, 1)
  end.

(** The named fields with their offsets and sizes, the end, the alignment. *)
Fixpoint go_fields (fs : list gofield) (off al : Z) : list (string * (Z * Z)) * Z * Z :=
  match fs with
  | [] => ([], off, al)
  | (x, t) :: fs =>
      let '(s, a) := go_size_align t in
      let o := align_up off a in
      let '(r, e, al') := go_fields fs (o + s) (Z.max al a) in
      (if bool_decide (x = "_") then r else (x, (o, s)) :: r, e, al')
  end.

Definition go_offsets (fs : list gofield) : list (string * (Z * Z)) := (go_fields fs 0 1).1.1.
Definition go_sizeof (fs : list gofield) : Z :=
  let '(_, e, al) := go_fields fs 0 1 in align_up e al.

(** The C counterpart: name, byte offset and byte size of each member. *)
Definition c_offsets (x : string) : option (list (string * (Z * Z))) :=
  l ← record_layout depth socket_tuner_env (Struct x);
  Some ((λ p, (p_name p, (p_start p / 8, p_len p / 8))) <$> l_fields l).

(** The places of the members, without their names. *)
Definition places (offs : list (string * (Z * Z))) : list (Z * Z) := offs.*2.

(** ** Memory images *)

(** The bytes from [pos] to [size] of a struct with the given fields
    [(offset, length, value)] in the order of their offsets; padding is zero. *)
Fixpoint image (pos size : Z) (fs : list (Z * Z * Z)) : list Z :=
  match fs with
  | [] => replicate (Z.to_nat (size - pos)) 0
  | (o, n, v) :: fs =>
      replicate (Z.to_nat (o - pos)) 0 ++ le_bytes (Z.to_nat n) v ++ image (o + n) size fs
  end.

(** The image of a struct whose fields lie at [offs] and hold [vs]. *)
Definition struct_image (size : Z) (offs : list (Z * Z)) (vs : list Z) : list Z :=
  image 0 size (zip offs vs).

(** Load the fields at [offs] from memory. *)
Definition load_fields (offs : list (Z * Z)) (bs : list Z) : list Z :=
  (λ f, le_value (take (Z.to_nat f.2) (drop (Z.to_nat f.1) bs))) <$> offs.

(** The members of the values, in the order of the declarations. *)
Definition action_members (a : tuning_action) : list Z := [
  max_pacing_rate a; snd_cwnd_clamp a; cong_algo a; init_cwnd a; window_clamp a;
  no_delay a; rto_min a; retrans_after a; enable_ecn a; pacing_status a; keepalive_idle a].
Definition metrics_members (m : tuning_metrics) : list Z := [
  remote_ip m; remote_port m; srtt_us m; total_retrans m; bytes_sent m; bytes_received m;
  start_time_ns m; duration_us m].
Definition key_members (k : ip_port_key) : list Z := [ip k; port k].

(** The images: what the agent stores, what the program stores. *)
Definition go_image (fs : list gofield) (vs : list Z) : list Z :=
  struct_image (go_sizeof fs) (places (go_offsets fs)) vs.
Definition c_image (x : string) (vs : list Z) : option (list Z) :=
  offs ← c_offsets x; s ← sizeof socket_tuner_env (Struct x); Some (struct_image s (places offs) vs).

(** Fields inside [size], in order, without overlap; each value in its width. *)
Fixpoint fields_ok (pos size : Z) (offs : list (Z * Z)) (vs : list Z) : Prop :=
  match offs, vs with
  | [], [] => pos ≤ size
  | (o, n) :: offs, v :: vs => pos ≤ o ∧ 0 ≤ n ∧ fits (8 * n) v ∧ fields_ok (o + n) size offs vs
  | _, _ => False
  end.

(** A typed action: every member fits its C type. *)
Definition action_typed (a : tuning_action) : Prop :=
  fits 32 (max_pacing_rate a) ∧ fits 32 (snd_cwnd_clamp a) ∧ fits 32 (cong_algo a) ∧
  fits 32 (init_cwnd a) ∧ fits 32 (window_clamp a) ∧ fits 32 (no_delay a) ∧
  fits 32 (rto_min a) ∧ fits 32 (retrans_after a) ∧ fits 8 (enable_ecn a) ∧
  fits 8 (pacing_status a) ∧ fits 32 (keepalive_idle a).

(** ** Lemmas *)

Lemma length_image pos size offs vs :
  fields_ok pos size offs vs →
  Z.of_nat (length (image pos size (zip offs vs))) = size - pos.
Proof.
  revert pos vs. induction offs as [|[o n] offs IH]; intros pos [|v vs] H; try done; cbn in *.
  - rewrite length_replicate. lia.
  - destruct H as (? & ? & _ & H). rewrite !length_app, length_replicate, length_le_bytes.
    rewrite !Nat2Z.inj_add, IH by done. lia.
Qed.

(** Loading at the offsets where the values were stored gives the values. *)
Lemma load_image pre pos size offs vs :
  Z.of_nat (length pre) = pos → 0 ≤ pos → fields_ok pos size offs vs →
  load_fields offs (pre ++ image pos size (zip offs vs)) = vs.
Proof.
  revert pre pos vs. induction offs as [|[o n] offs IH]; intros pre pos [|v vs] Hp H0 H; try done.
  destruct H as (Ho & Hn & Hv & H). cbn [zip zip_with image fst snd]. cbn [load_fields fmap list_fmap fst snd].
  rewrite (app_assoc pre). set (pre1 := pre ++ replicate _ 0).
  assert (Z.of_nat (length pre1) = o) as Hl1.
  { subst pre1. rewrite length_app, length_replicate. lia. }
  f_equal.
  - rewrite drop_app_length' by lia.
    rewrite take_app_length' by (by rewrite length_le_bytes).
    apply le_value_bytes_fits. by rewrite Z2Nat.id.
  - rewrite app_assoc. apply IH; [|lia|done].
    rewrite length_app, length_le_bytes. lia.
Qed.

Lemma load_struct_image size offs vs :
  fields_ok 0 size offs vs → load_fields offs (struct_image size offs vs) = vs.
Proof. intros H. by apply (load_image [] 0). Qed.

(** The Go structs of the agent and the C structs of the program have the
    same layout: the same size, and the same offset and size for every member,
    so a value stored by one side is loaded by the other. *)
Theorem layouts_agree :
  option_map places (c_offsets "tuning_action") = Some (places (go_offsets BpfTuningAction)) ∧
  sizeof socket_tuner_env (Struct "tuning_action") = Some (go_sizeof BpfTuningAction) ∧
  option_map places (c_offsets "tuning_metrics") = Some (places (go_offsets BpfTuningMetrics)) ∧
  sizeof socket_tuner_env (Struct "tuning_metrics") = Some (go_sizeof BpfTuningMetrics) ∧
  option_map places (c_offsets "ip_port_key") = Some (places (go_offsets BpfIpPortKey)) ∧
  sizeof socket_tuner_env (Struct "ip_port_key") = Some (go_sizeof BpfIpPortKey).
Proof. repeat split. Qed.

(** An action the agent puts into the map is the action the program reads:
    loading the image of the Go struct at the C offsets gives back every member. *)
Theorem action_crosses a offs :
  action_typed a → c_offsets "tuning_action" = Some offs →
  load_fields (places offs) (go_image BpfTuningAction (action_members a)) = action_members a.
Proof.
  intros (?&?&?&?&?&?&?&?&?&?&?) Ho. vm_compute in Ho. injection Ho as <-.
  unfold go_image, struct_image. apply load_struct_image. cbn. by split_and!.
Qed.

(** The record the program keeps is the record the agent looks up: loading
    the image of the C struct at the Go offsets gives back every member. *)
Theorem metrics_cross m bs :
  metrics_typed m → c_image "tuning_metrics" (metrics_members m) = Some bs →
  load_fields (places (go_offsets BpfTuningMetrics)) bs = metrics_members m.
Proof.
  intros (?&?&?&?&?&?&?&?) (offs & Ho & (sz & Hs & [= <-])%bind_Some)%bind_Some.
  vm_compute in Ho, Hs. injection Ho as <-. injection Hs as <-.
  rewrite <- (load_struct_image 48 (places (go_offsets BpfTuningMetrics)) (metrics_members m)) at 2;
    [reflexivity|]. cbn. by split_and!.
Qed.

(** The map compares keys by their bytes, and that is comparison of the
    members: the key struct has no padding, and its image determines it. *)
Theorem key_image_injective k k' :
  fits 32 (ip k) → fits 32 (port k) → fits 32 (ip k') → fits 32 (port k') →
  go_image BpfIpPortKey (key_members k) = go_image BpfIpPortKey (key_members k') → k = k'.
Proof.
  intros Hi Hp Hi' Hp' H. apply (f_equal (load_fields (places (go_offsets BpfIpPortKey)))) in H.
  unfold go_image in H. rewrite !load_struct_image in H by (cbn; by split_and!).
  destruct k, k'. by injection H as [= -> ->].
Qed.

(** ** Instances *)

Lemma action_crosses_witness :
  load_fields (places (default [] (c_offsets "tuning_action")))
    (go_image BpfTuningAction (action_members SocketTunerProps.sample_action)) =
  action_members SocketTunerProps.sample_action.
Proof.
  apply action_crosses; [|vm_compute; reflexivity].
  repeat split; vm_compute; (reflexivity || discriminate).
Defined.

Definition sample_metrics : tuning_metrics := TuningMetrics 0x0101fa8e 443 1000 2 300 100000 1000000 8000.

Lemma metrics_cross_witness :
  load_fields (places (go_offsets BpfTuningMetrics))
    (default [] (c_image "tuning_metrics" (metrics_members sample_metrics))) =
  metrics_members sample_metrics.
Proof.
  apply metrics_cross; [|vm_compute; reflexivity].
  repeat split; vm_compute; (reflexivity || discriminate).
Defined.

Lemma key_image_injective_witness : IpPortKey 7 0 = IpPortKey (3 + 4) 0.
Proof. apply key_image_injective; [split; vm_compute; (reflexivity || discriminate)..|reflexivity]. Defined.
