(* ===== verification/Sha256.v ===== *)
(** * SHA-256 and hexadecimal encoding

    What the agent uses of Go's [crypto/sha256] and [encoding/hex] to recognise
    the commands it may run.  The constants are computed from their definition:
    the fractional parts of the square and cube roots of the first primes. *)
From S2P Require Import Prelude Words.
Local Open Scope Z_scope.

(** ** Constants *)

(** The first [n] primes from [k], by trial division; [fuel] bounds the search. *)
Definition is_prime (k : Z) : bool :=
  (2 <=? k) && forallb (λ d, negb (k mod d =? 0)) (seqZ 2 (k - 2)).

Definition primes_below (n : Z) : list Z := List.filter is_prime (seqZ 2 (n - 2)).

(** The integer cube root of [x], bit by bit from [2 ^ n]. *)
Fixpoint cube_root (n : nat) (acc x : Z) : Z :=
  match n with
  | O => acc
  | S n =>
      let r := acc + 2 ^ Z.of_nat n in
      cube_root n (if r * r * r <=? x then r else acc) x
  end.

Definition round_constants : list Z :=
  Eval vm_compute in
    (λ p, cube_root 40 0 (p * 2 ^ 96) mod 2 ^ 32) <$> primes_below 312.

Definition initial_hash : list Z :=
  Eval vm_compute in (λ p, Z.sqrt (p * 2 ^ 64) mod 2 ^ 32) <$> primes_below 20.

(** ** The compression function *)

Definition rotr (x n : Z) : Z := Z.lor (Z.shiftr x n) (u32 (Z.shiftl x (32 - n))).

Definition big_sigma0 (x : Z) : Z := Z.lxor (rotr x 2) (Z.lxor (rotr x 13) (rotr x 22)).
Definition big_sigma1 (x : Z) : Z := Z.lxor (rotr x 6) (Z.lxor (rotr x 11) (rotr x 25)).
Definition small_sigma0 (x : Z) : Z := Z.lxor (rotr x 7) (Z.lxor (rotr x 18) (Z.shiftr x 3)).
Definition small_sigma1 (x : Z) : Z := Z.lxor (rotr x 17) (Z.lxor (rotr x 19) (Z.shiftr x 10)).
Definition choose (x y z : Z) : Z := Z.lxor (Z.land x y) (Z.land (2 ^ 32 - 1 - x) z).
Definition majority (x y z : Z) : Z :=
  Z.lxor (Z.land x y) (Z.lxor (Z.land x z) (Z.land y z)).

(** The message schedule, newest word first. *)
Fixpoint schedule (n : nat) (ws : list Z) : list Z :=
  match n with
  | O => ws
  | S n =>
      let w i := nth i ws 0 in
      schedule n (u32 (small_sigma1 (w 1%nat) + w 6%nat + small_sigma0 (w 14%nat) + w 15%nat) :: ws)
  end.

(** The eight working variables. *)
Record working := Working { va : Z; vb : Z; vc : Z; vd : Z; ve : Z; vf : Z; vg : Z; vh : Z }.

Definition round (v : working) (kw : Z * Z) : working :=
  let t1 := vh v + big_sigma1 (ve v) + choose (ve v) (vf v) (vg v) + kw.1 + kw.2 in
  let t2 := big_sigma0 (va v) + majority (va v) (vb v) (vc v) in
  Working (u32 (t1 + t2)) (va v) (vb v) (vc v) (u32 (vd v + t1)) (ve v) (vf v) (vg v).

Definition working_of (h : list Z) : working :=
  let g i := nth i h 0 in
  Working (g 0%nat) (g 1%nat) (g 2%nat) (g 3%nat) (g 4%nat) (g 5%nat) (g 6%nat) (g 7%nat).

Definition words_of (v : working) : list Z := [va v; vb v; vc v; vd v; ve v; vf v; vg v; vh v].

Definition compress (h block : list Z) : list Z :=
  let ws := rev (schedule 48 (rev block)) in
  let v := foldl round (working_of h) (zip round_constants ws) in
  zip_with (λ x y, u32 (x + y)) h (words_of v).

(** ** Messages *)

(** The [n] low-order bytes of [z], most significant first. *)
Fixpoint be_bytes (n : nat) (z : Z) : list Z :=
  match n with
  | O => []
  | S n => be_bytes n (z / 256) ++ [z mod 256]
  end.

(** The message, a one bit, zeros, and the length in bits on 8 bytes. *)
Definition pad (msg : list Z) : list Z :=
  let len := Z.of_nat (length msg) in
  msg ++ [0x80] ++ replicate (Z.to_nat ((55 - len) mod 64)) 0 ++ be_bytes 8 (8 * len).

(** Big-endian words. *)
Fixpoint be_words (bs : list Z) : list Z :=
  match bs with
  | a :: b :: c :: d :: bs => (((a * 256 + b) * 256 + c) * 256 + d) :: be_words bs
  | _ => []
  end.

(** Process [n] blocks of 16 words. *)
Fixpoint process (n : nat) (h ws : list Z) : list Z :=
  match n with
  | O => h
  | S n => process n (compress h (take 16 ws)) (drop 16 ws)
  end.

Definition sha256 (msg : list Z) : list Z :=
  let p := pad msg in
  process (length p / 64) initial_hash (be_words p) ≫= be_bytes 4.

(** [hex.EncodeToString] *)
Definition hex_digit (d : Z) : Ascii.ascii :=
  Ascii.ascii_of_nat (Z.to_nat (if d <? 10 then 48 + d else 87 + d)).

Definition hex_encode (bs : list Z) : string :=
  String.string_of_list_ascii (bs ≫= λ b, [hex_digit (b / 16); hex_digit (b mod 16)]).

Definition sha256_hex (s : string) : string := hex_encode (sha256 (bytes_of_string s)).

(** ** Lemmas *)

Lemma length_be_bytes n z : length (be_bytes n z) = n.
Proof. revert z. induction n; intros; simpl; [done|]. rewrite length_app, IHn. simpl. lia. Qed.

(** The published digests of the empty message and of [abc]. *)
Lemma sha256_empty :
  sha256_hex EmptyString = "e3b0c44298fc1c149afbf4c8996fb92427ae41e4649b934ca495991b7852b855"%string.
Proof. vm_compute. reflexivity. Qed.

Lemma sha256_abc :
  sha256_hex "abc" = "ba7816bf8f01cfea414140de5dae2223b00361a396177a9cb410ff61f20015ad"%string.
Proof. vm_compute. reflexivity. Qed.

(** The padded message is a whole number of 64-byte blocks. *)
Lemma length_pad msg : (64 | Z.of_nat (length (pad msg))).
Proof.
  unfold pad. rewrite !length_app, length_replicate, length_be_bytes, !Nat2Z.inj_add.
  set (len := Z.of_nat (length msg)).
  pose proof (Z.mod_pos_bound (55 - len) 64). pose proof (Z.div_mod (55 - len) 64).
  rewrite Z2Nat.id by lia. exists (1 - (55 - len) / 64). simpl length. lia.
Qed.

Lemma length_compress h b : length h = 8%nat → length (compress h b) = 8%nat.
Proof. intros H. unfold compress. rewrite length_zip_with, H. simpl. lia. Qed.

Lemma length_process n h ws : length h = 8%nat → length (process n h ws) = 8%nat.
Proof. revert h ws. induction n; intros h ws H; simpl; auto using length_compress. Qed.

Lemma length_sha256 msg : length (sha256 msg) = 32%nat.
Proof.
  unfold sha256. pose proof (length_process (length (pad msg) / 64) initial_hash
    (be_words (pad msg)) eq_refl) as H.
  revert H. generalize (process (length (pad msg) / 64) initial_hash (be_words (pad msg))).
  intros l Hl. do 8 (destruct l as [|? l]; [done|]). destruct l; [|done].
  by rewrite !bind_cons, !length_app, !length_be_bytes.
Qed.

Lemma length_hex_encode bs : String.length (hex_encode bs) = (2 * length bs)%nat.
Proof.
  unfold hex_encode. induction bs as [|b bs IH]; [done|]. rewrite bind_cons.
  cbn [app String.string_of_list_ascii String.length length]. rewrite IH. lia.
Qed.
