(* ===== verification/Executor.v ===== *)
(** * The command executor of the agent

    [env-ebpf-agent/internal/executor/executor.go]: the allow-list of command
    hashes, [SetCommand], which records a command for the episode when its
    SHA-256 digest is listed, and [Run], which splits the recorded command with
    [strings.Fields] and runs it.  Running a process is a parameter: [spawn]
    takes the argument vector and says what [Start] and [Wait] returned. *)
From S2P Require Import Prelude Words Sha256.
Local Open Scope Z_scope.

(** ** [strings.Fields] *)

(** ASCII white space. *)
Definition ascii_space (b : Z) : bool := ((9 <=? b) && (b <=? 13)) || (b =? 32).

(** The other runes of [unicode.IsSpace], in UTF-8: U+0085, U+00A0, U+1680,
    U+2000 to U+200A, U+2028, U+2029, U+202F, U+205F and U+3000. *)
Definition unicode_spaces : list (list Z) :=
  [[0xc2; 0x85]; [0xc2; 0xa0]; [0xe1; 0x9a; 0x80]] ++
  ((λ c, [0xe2; 0x80; c]) <$> seqZ 0x80 11) ++
  [[0xe2; 0x80; 0xa8]; [0xe2; 0x80; 0xa9]; [0xe2; 0x80; 0xaf]; [0xe2; 0x81; 0x9f]; [0xe3; 0x80; 0x80]].

(** Length in bytes of the white-space rune at the head of a string, 0 when
    there is none. *)
Definition space_prefix (bs : list Z) : nat :=
  match bs with
  | b :: _ =>
      if ascii_space b then 1%nat
      else from_option (length ∘ snd) 0%nat (list_find (λ p, p `prefix_of` bs) unicode_spaces)
  | [] => 0%nat
  end.

(** A field that ends. *)
Definition flush (cur : list Z) : list (list Z) := match cur with [] => [] | _ => [cur] end.

(** [skip] bytes of a white-space rune are still to be passed; [cur] is the
    field being read. *)
Fixpoint fields_from (skip : nat) (cur bs : list Z) : list (list Z) :=
  match bs with
  | [] => flush cur
  | b :: r =>
      match skip with
      | S skip => fields_from skip cur r
      | O =>
          match space_prefix bs with
          | O => fields_from 0 (cur ++ [b]) r
          | S n => flush cur ++ fields_from n [] r
          end
      end
  end.

Definition Fields (s : string) : list (list Z) := fields_from 0 [] (bytes_of_string s).

(** ** The executor *)

Definition allowedHashes : list string := [
  "b09f967a0e12ebf17a37cf7e6592477209a75ea0c7e54cc289db78fddf28830b";   (* google-latency *)
  "22166f407dd0189cf36be886f83be1453aecc42edc5a3fa80978b547f4041f2f";   (* hetzner-throughput *)
  "6d13daa22f70d3852eab8178e645d2209407b5a356339474304e5d108777ecee"]%string. (* github-bandwidth *)

Record Executor := MkExecutor { lastCommand : string }.

Definition NewExecutor : Executor := MkExecutor EmptyString.

Inductive exec_error :=
| unauthorized_command (hash : string)
| no_command_set
| empty_command
| command_start_failed (err : string)
| command_execution_failed (err : string).

(** [allowedHashes[hashStr]]: a missing key reads as [false]. *)
Definition authorized (cmd : string) : bool := bool_decide (sha256_hex cmd ∈ allowedHashes).

Definition SetCommand (cmd : string) (e : Executor) : Executor * option exec_error :=
  if negb (authorized cmd) then (e, Some (unauthorized_command (sha256_hex cmd)))
  else (MkExecutor cmd, None).

(** What the operating system did with a command. *)
Inductive spawn_result :=
| StartFailed (err : string)
| Exited (pid : Z) (wait_err : option string).

(** The argument vector [Run] hands to [exec.CommandContext]. *)
Definition command_line (e : Executor) : exec_error + list (list Z) :=
  if bool_decide (lastCommand e = EmptyString) then inl no_command_set
  else match Fields (lastCommand e) with
       | [] => inl empty_command
       | parts => inr parts
       end.

Section run.
Context (spawn : list (list Z) → spawn_result).

(** The process id and the error of [Run]. *)
Definition Run (e : Executor) : Z * option exec_error :=
  match command_line e with
  | inl err => (0, Some err)
  | inr parts =>
      match spawn parts with
      | StartFailed err => (0, Some (command_start_failed err))
      | Exited pid None => (u32 pid, None)
      | Exited pid (Some err) => (u32 pid, Some (command_execution_failed err))
      end
  end.

End run.

(** The executor after a history of commands. *)
Definition after (cmds : list string) : Executor := foldl (λ e c, (SetCommand c e).1) NewExecutor cmds.

(** The last command of a history that was accepted. *)
Definition last_accepted (cmds : list string) : string :=
  default EmptyString (last (filter (λ c, authorized c = true) cmds)).

(** The rows of the executor's test: command, whether an error is wanted. *)
Definition executor_tests : list (string * bool) := [
  ("curl -4 -sI -m 5 http://google.com", false);
  ("curl -4 -o /dev/null https://ash-speed.hetzner.com/100MB.bin", false);
  ("curl -4 -o /dev/null https://github.com/torvalds/linux/archive/refs/tags/v7.0-rc6.tar.gz", false);
  ("whoami", true);
  ("rm -rf /", true);
  ("curl -sI http://malicious.com", true)]%string.

(** The command that [test_client.go] sends. *)
Definition test_client_command : string :=
  "curl -o /dev/null https://github.com/torvalds/linux/archive/refs/tags/v7.0-rc6.tar.gz".

(** ** Lemmas *)

Lemma space_prefix_ascii b r : space_prefix (b :: r) = 0%nat → ascii_space b = false.
Proof. unfold space_prefix. by destruct (ascii_space b). Qed.

Lemma flush_spec (P : Z → Prop) cur :
  Forall P cur → Forall (λ f, f ≠ [] ∧ Forall P f) (flush cur).
Proof. intros H. destruct cur; simpl; [constructor|]. by apply Forall_singleton. Qed.

Lemma fields_from_spec skip cur bs :
  Forall (λ b, ascii_space b = false) cur →
  Forall (λ f, f ≠ [] ∧ Forall (λ b, ascii_space b = false) f) (fields_from skip cur bs).
Proof.
  revert skip cur. induction bs as [|b bs IH]; intros skip cur Hc; [by apply flush_spec|].
  cbn [fields_from]. destruct skip; [|auto].
  destruct (space_prefix (b :: bs)) eqn:Hs.
  - apply IH. apply Forall_app. split; [done|]. apply Forall_singleton.
    by eapply space_prefix_ascii.
  - apply Forall_app. split; [by apply flush_spec|]. apply IH. constructor.
Qed.

Lemma SetCommand_last cmd e :
  lastCommand (SetCommand cmd e).1 = if authorized cmd then cmd else lastCommand e.
Proof. unfold SetCommand. by destruct (authorized cmd). Qed.

Lemma after_snoc cmds c : after (cmds ++ [c]) = (SetCommand c (after cmds)).1.
Proof. unfold after. by rewrite foldl_snoc. Qed.

Lemma last_accepted_snoc cmds c :
  last_accepted (cmds ++ [c]) = if authorized c then c else last_accepted cmds.
Proof.
  unfold last_accepted. rewrite filter_app, filter_cons, filter_nil.
  case_decide as H; [rewrite H; by rewrite last_snoc|].
  rewrite app_nil_r. by destruct (authorized c).
Qed.

Lemma last_accepted_authorized cmds :
  last_accepted cmds ≠ EmptyString → authorized (last_accepted cmds) = true.
Proof.
  unfold last_accepted. destruct (last _) as [c|] eqn:Hl; [|by intros []]. intros _.
  apply last_Some_elem_of in Hl. by apply list_elem_of_filter in Hl as [? _].
Qed.

Lemma after_last cmds : lastCommand (after cmds) = last_accepted cmds.
Proof.
  induction cmds as [|c cmds IH] using rev_ind; [done|].
  by rewrite after_snoc, SetCommand_last, last_accepted_snoc, IH.
Qed.

(** The allow-list is enforced over every history of [SetCommand] calls:
    the argument vector that [Run] executes is the split of the last command
    that was accepted, whose digest is in the list; a rejected command leaves
    the previous one in force. *)
Theorem only_authorized_commands_run cmds parts :
  command_line (after cmds) = inr parts →
  parts = Fields (last_accepted cmds) ∧ sha256_hex (last_accepted cmds) ∈ allowedHashes.
Proof.
  unfold command_line. rewrite after_last. intros H. case_bool_decide as He; [done|].
  split; [by destruct (Fields _); simplify_eq|].
  apply last_accepted_authorized in He. unfold authorized in He.
  exact (bool_decide_eq_true_1 _ He).
Qed.

(** The allow-list on the commands the repository uses: every row of the
    executor's test has the wanted outcome, and the command of the agent's own
    test client is rejected. *)
Theorem allow_list_on_known_commands :
  Forall (λ r, authorized r.1 = negb r.2) executor_tests ∧
  authorized test_client_command = false.
Proof. split; [apply Forall_fold_right|]; vm_compute; auto 10. Qed.

(** The fields of a command are not empty and contain no white space, so
    the program name that is executed is never empty. *)
Theorem fields_are_words s :
  Forall (λ f, f ≠ [] ∧ Forall (λ b, ascii_space b = false) f) (Fields s).
Proof. apply fields_from_spec. constructor. Qed.

(** [Run] reports an error exactly when there is no command to run, the
    process could not be started, or it did not exit cleanly; it reports a
    process id only for a process that was started. *)
Theorem run_outcome spawn e :
  match Run spawn e with
  | (pid, None) => ∃ parts p, command_line e = inr parts ∧ spawn parts = Exited p None ∧ pid = u32 p
  | (pid, Some (command_execution_failed err)) =>
      ∃ parts p, command_line e = inr parts ∧ spawn parts = Exited p (Some err) ∧ pid = u32 p
  | (pid, Some (command_start_failed err)) =>
      pid = 0 ∧ ∃ parts, command_line e = inr parts ∧ spawn parts = StartFailed err
  | (pid, Some err) => pid = 0 ∧ command_line e = inl err
  end.
Proof.
  unfold Run. destruct (command_line e) as [err|parts] eqn:Hc.
  - unfold command_line in Hc. repeat case_match; simplify_eq; done.
  - destruct (spawn parts) as [err|p [err|]] eqn:Hs; eauto 6.
Qed.

Lemma only_authorized_commands_run_witness :
  sha256_hex (last_accepted ["curl -4 -sI -m 5 http://google.com"; "whoami"]%string) ∈ allowedHashes.
Proof.
  apply (only_authorized_commands_run ["curl -4 -sI -m 5 http://google.com"; "whoami"]%string
    (Fields "curl -4 -sI -m 5 http://google.com")).
  vm_compute. reflexivity.
Defined.
