(* ===== verification/NetIP.v ===== *)
(** * IP addresses as the agent reads and prints them

    What [ebpfmgr/manager.go] uses of Go's [net] package: [net.ParseIP] (with
    the dotted-decimal and the hexadecimal parsers of [net/netip]), [IP.To4],
    [IP.String], and [binary.LittleEndian] on the four bytes.  A Go string is
    its list of bytes, an [IP] its list of bytes, and [nil] is [None]. *)
From S2P Require Import Prelude Words.
Local Open Scope Z_scope.

(** ** Dotted decimal *)

Definition is_digit (c : Z) : bool := (48 <=? c) && (c <=? 57).

(** [netip.parseIPv4Fields]: [first] says that no character was read yet and
    [dot] that the previous one was a dot; [val] and [digLen] describe the
    current octet, [pos] counts the finished ones, which are [fields]. *)
Fixpoint parseIPv4Fields (first dot : bool) (val digLen pos : Z) (fields s : list Z)
    : option (list Z) :=
  match s with
  | [] => if pos <? 3 then None else Some (fields ++ [u8 val])
  | c :: r =>
      if is_digit c then
        if (digLen =? 1) && (val =? 0) then None
        else
          let val := val * 10 + (c - 48) in
          if 255 <? val then None
          else parseIPv4Fields false false val (digLen + 1) pos fields r
      else if c =? 46 then
        if first || bool_decide (r = []) || dot then None
        else if pos =? 3 then None
        else parseIPv4Fields false true 0 0 (pos + 1) (fields ++ [u8 val]) r
      else None
  end.

Definition parse4 (s : list Z) : option (list Z) := parseIPv4Fields true false 0 0 0 [] s.

(** ** Hexadecimal *)

Definition hex_value (c : Z) : option Z :=
  if (48 <=? c) && (c <=? 57) then Some (c - 48)
  else if (97 <=? c) && (c <=? 102) then Some (c - 97 + 10)
  else if (65 <=? c) && (c <=? 70) then Some (c - 65 + 10)
  else None.

(** The hexadecimal number at the head: its length, its value, the rest. *)
Fixpoint scan_hex (off acc : Z) (s : list Z) : option (Z * Z * list Z) :=
  match s with
  | [] => Some (off, acc, [])
  | c :: r =>
      match hex_value c with
      | None => Some (off, acc, s)
      | Some d =>
          let acc := acc * 16 + d in
          if 3 <? off then None
          else if 65535 <? acc then None
          else scan_hex (off + 1) acc r
      end
  end.

(** The loop of [netip.parseIPv6]: [n] groups are missing, [ip] is what was
    parsed, [ell] is the position of the ellipsis. *)
Fixpoint parseIPv6_loop (n : nat) (ip : list Z) (ell : option nat) (s : list Z)
    : option (list Z * option nat * list Z) :=
  match n with
  | O => Some (ip, ell, s)
  | S n =>
      '(off, acc, r) ← scan_hex 0 0 s;
      if off =? 0 then None
      else
        let ip' := ip ++ [acc / 256; acc mod 256] in
        match r with
        | [] => Some (ip', ell, [])
        | c :: r =>
            if c =? 46 then
              if bool_decide (ell = None ∧ length ip ≠ 12%nat) then None
              else if bool_decide (16 < length ip + 4)%nat then None
              else fs ← parse4 s; Some (ip ++ fs, ell, [])
            else if negb (c =? 58) then None
            else
              match r with
              | [] => None
              | c :: r' =>
                  if c =? 58 then
                    if bool_decide (is_Some ell) then None
                    else
                      match r' with
                      | [] => Some (ip', Some (length ip'), [])
                      | _ => parseIPv6_loop n ip' (Some (length ip')) r'
                      end
                  else parseIPv6_loop n ip' ell r
              end
        end
  end.

(** [netip.parseIPv6] on an address without a zone. *)
Definition parseIPv6 (s : list Z) : option (list Z) :=
  let '(ell, s) := match s with 58 :: 58 :: r => (Some 0%nat, r) | _ => (None, s) end in
  if bool_decide (is_Some ell ∧ s = []) then Some (replicate 16 0)
  else
    '(ip, ell, rest) ← parseIPv6_loop 8 [] ell s;
    if negb (bool_decide (rest = [])) then None
    else if bool_decide (length ip < 16)%nat then
      match ell with
      | None => None
      | Some e => Some (take e ip ++ replicate (16 - length ip) 0 ++ drop e ip)
      end
    else match ell with Some _ => None | None => Some ip end.

(** ** [net.IP] *)

(** The 16-byte form of an IPv4 address. *)
Definition as16 (ip4 : list Z) : list Z := replicate 10 0 ++ [255; 255] ++ ip4.

(** [net.ParseIP]: [netip.ParseAddr] decides by the first dot, colon or percent
    sign; an address with a zone is refused. *)
Definition ParseIP (s : list Z) : option (list Z) :=
  match list_find (λ c, c ∈ [46; 58; 37]) s with
  | Some (_, 46) => as16 <$> parse4 s
  | Some (_, 58) => if bool_decide (37 ∈ s) then None else parseIPv6 s
  | _ => None
  end.

(** [IP.To4] *)
Definition To4 (ip : list Z) : option (list Z) :=
  if bool_decide (length ip = 4%nat) then Some ip
  else if bool_decide (length ip = 16%nat ∧ take 12 ip = as16 []) then Some (drop 12 ip)
  else None.

(** [netip.appendDecimal] *)
Definition decimal (x : Z) : list Z :=
  (if 100 <=? x then [48 + x / 100] else []) ++
  (if 10 <=? x then [48 + (x / 10) mod 10] else []) ++
  [48 + x mod 10].

(** [IP.String] of four bytes. *)
Definition ip4_string (ip : list Z) : list Z :=
  match ip with
  | [a; b; c; d] => decimal a ++ 46 :: decimal b ++ 46 :: decimal c ++ 46 :: decimal d
  | _ => []
  end.

(** ** Printing and parsing *)

(** Reading the digits of an octet, whatever follows. *)
Fixpoint scan_octet (val digLen : Z) (s : list Z) : option (Z * Z) :=
  match s with
  | [] => Some (val, digLen)
  | c :: r =>
      if is_digit c && negb ((digLen =? 1) && (val =? 0)) && negb (255 <? val * 10 + (c - 48))
      then scan_octet (val * 10 + (c - 48)) (digLen + 1) r else None
  end.

Lemma parse_scan s r first dot val digLen pos fields v n :
  scan_octet val digLen s = Some (v, n) → s ≠ [] →
  parseIPv4Fields first dot val digLen pos fields (s ++ r) =
  parseIPv4Fields false false v n pos fields r.
Proof.
  revert first dot val digLen. induction s as [|c s IH]; intros first dot val digLen H Hs; [done|].
  cbn [scan_octet app parseIPv4Fields] in *.
  destruct (is_digit c); [|done]. destruct ((digLen =? 1) && (val =? 0)); [done|].
  destruct (255 <? val * 10 + (c - 48)); [done|]. cbn [andb negb] in H.
  destruct s as [|c' s]; [by injection H as <- <-|by apply IH].
Qed.

(** Every byte is read back from its decimal form; checked on all 256. *)
Lemma scan_decimal x : is_byte x → ∃ n, scan_octet 0 0 (decimal x) = Some (x, n).
Proof.
  intros Hx. enough (from_option (λ r, r.1 =? x) false (scan_octet 0 0 (decimal x)) = true) as H.
  { destruct (scan_octet _ _ _) as [[v n]|]; [|done]. cbn in H. apply Z.eqb_eq in H as ->. eauto. }
  apply (fits_forallb 8 (λ x, from_option (λ r, r.1 =? x) false (scan_octet 0 0 (decimal x))));
    [vm_compute; reflexivity|done].
Qed.

Lemma decimal_nonempty x : decimal x ≠ [].
Proof. unfold decimal. destruct (_ <=? _), (10 <=? x); done. Qed.

Lemma parse_decimal x first dot pos fields r :
  is_byte x → ∃ n,
  parseIPv4Fields first dot 0 0 pos fields (decimal x ++ r) =
  parseIPv4Fields false false x n pos fields r.
Proof.
  intros [n Hn]%scan_decimal. exists n. apply parse_scan; [done|apply decimal_nonempty].
Qed.

Lemma parse4_dot x n pos fields y r :
  pos ≠ 3 → is_byte x →
  parseIPv4Fields false false x n pos fields (46 :: decimal y ++ r) =
  parseIPv4Fields false true 0 0 (pos + 1) (fields ++ [x]) (decimal y ++ r).
Proof.
  intros Hp Hx. cbn [parseIPv4Fields is_digit andb Z.leb].
  rewrite bool_decide_eq_false_2.
  2:{ intros [H _]%app_eq_nil. by apply decimal_nonempty in H. }
  cbn. rewrite (proj2 (Z.eqb_neq pos 3)) by done. by rewrite wrap_id.
Qed.

Lemma parse4_string a b c d :
  is_byte a → is_byte b → is_byte c → is_byte d →
  parse4 (ip4_string [a; b; c; d]) = Some [a; b; c; d].
Proof.
  intros Ha Hb Hc Hd. unfold parse4, ip4_string.
  destruct (parse_decimal a true false 0 [] (46 :: decimal b ++ 46 :: decimal c ++ 46 :: decimal d) Ha)
    as [n1 ->].
  rewrite parse4_dot by done. edestruct (parse_decimal b) as [n2 ->]; [done|].
  rewrite parse4_dot by done. edestruct (parse_decimal c) as [n3 ->]; [done|].
  rewrite <- (app_nil_r (decimal d)), parse4_dot by done.
  edestruct (parse_decimal d) as [n4 ->]; [done|]. cbn. by rewrite wrap_id.
Qed.

(** The first special character of a printed address is a dot. *)
Lemma decimal_digits x : is_byte x → Forall (λ c, is_digit c = true) (decimal x).
Proof.
  intros Hx. enough (forallb is_digit (decimal x) = true) as H.
  { apply Forall_forall. intros c Hc. rewrite forallb_forall in H. by apply H, list_elem_of_In. }
  apply (fits_forallb 8 (λ x, forallb is_digit (decimal x))); [vm_compute; reflexivity|done].
Qed.

Lemma find_dot ds r :
  Forall (λ c, is_digit c = true) ds →
  ∃ i, list_find (λ c, c ∈ [46; 58; 37]) (ds ++ 46 :: r) = Some (i, 46).
Proof.
  induction 1 as [|c ds Hc _ [i IH]]; [by exists 0%nat|].
  exists (S i). cbn [app list_find]. rewrite decide_False.
  - by rewrite IH.
  - unfold is_digit in Hc. rewrite !elem_of_cons. intros [->|[->|[->|H]]]; [done..|]. by apply elem_of_nil in H.
Qed.

(** An address that was printed is parsed back to the same four bytes. *)
Lemma ParseIP_string a b c d :
  is_byte a → is_byte b → is_byte c → is_byte d →
  ParseIP (ip4_string [a; b; c; d]) ≫= To4 = Some [a; b; c; d].
Proof.
  intros Ha Hb Hc Hd. unfold ParseIP.
  destruct (find_dot (decimal a) (decimal b ++ 46 :: decimal c ++ 46 :: decimal d)) as [i Hi];
    [by apply decimal_digits|].
  unfold ip4_string at 1. rewrite Hi. by rewrite parse4_string.
Qed.

(** Printed addresses are ASCII. *)
Lemma ip4_string_bytes ip : Forall is_byte ip → Forall is_byte (ip4_string ip).
Proof.
  assert (∀ x, is_byte x → Forall is_byte (decimal x)) as Hd.
  { intros x Hx. eapply Forall_impl; [by apply decimal_digits|].
    intros c Hc. unfold is_digit in Hc. unfold is_byte, fits. lia. }
  assert (is_byte 46) as H46 by done.
  intros H. unfold ip4_string. repeat case_match; try constructor.
  rewrite !Forall_cons in H. destruct H as (?&?&?&?&_).
  repeat (apply Forall_app; split; [by apply Hd|]; apply Forall_cons; split; [done|]). by apply Hd.
Qed.

(** ** Bytes *)

Lemma parseIPv4Fields_bytes first dot val digLen pos fields s ip :
  Forall is_byte fields → parseIPv4Fields first dot val digLen pos fields s = Some ip → Forall is_byte ip.
Proof.
  assert (∀ v, is_byte (u8 v)) as Hb by (intros v; apply wrap_fits; lia).
  revert first dot val digLen pos fields. induction s as [|c s IH]; intros first dot val digLen pos fields Hf; cbn.
  - case_match; [done|]. intros [= <-]. by apply Forall_app_2; [|apply Forall_singleton].
  - repeat case_match; try done; apply IH; [done|]. by apply Forall_app_2; [|apply Forall_singleton].
Qed.

Lemma scan_hex_bound off acc s n v r :
  fits 16 acc → scan_hex off acc s = Some (n, v, r) → fits 16 v.
Proof.
  revert off acc. induction s as [|c s IH]; intros off acc Ha; cbn; [by intros [= _ <- _]|].
  destruct (hex_value c) as [d|] eqn:Hd; [|by intros [= _ <- _]].
  repeat case_match; try done. apply IH. unfold fits in *.
  assert (0 ≤ d) by (unfold hex_value in Hd; repeat case_match; simplify_eq; lia). lia.
Qed.

Lemma parseIPv6_loop_bytes n ip ell s ip' ell' r :
  Forall is_byte ip → parseIPv6_loop n ip ell s = Some (ip', ell', r) → Forall is_byte ip'.
Proof.
  revert ip ell s. induction n as [|n IH]; intros ip ell s Hip; cbn; [by intros [= <- _ _]|].
  intros ([[off acc] r0] & Hs & H)%bind_Some. case_match; [done|].
  apply scan_hex_bound in Hs; [|done]. 
  assert (Forall is_byte (ip ++ [acc / 256; acc `mod` 256])) as Hip'.
  { apply Forall_app_2; [done|]. unfold fits in Hs. unfold is_byte, fits.
    repeat apply Forall_cons_2; [|  |constructor]; [|apply Z.mod_pos_bound; lia].
    split; [apply Z.div_pos; lia|]. apply Z.div_lt_upper_bound; lia. }
  repeat (case_match; try done); simplify_eq; try done; try (by eapply IH).
  apply bind_Some in H as (fs & Hfs & [= <- _ _]). apply Forall_app_2; [done|].
  eapply parseIPv4Fields_bytes; [|exact Hfs]. constructor.
Qed.

(** A parsed address is made of bytes, and its IPv4 form of four of them. *)
Lemma ParseIP_bytes s ip : ParseIP s = Some ip → Forall is_byte ip.
Proof.
  assert (∀ n, Forall is_byte (replicate n 0)) as H0 by (intros n; by apply Forall_replicate).
  unfold ParseIP. intros H. repeat case_match; try done.
  - apply fmap_Some in H as (ip4 & Hp & ->). unfold as16.
    apply Forall_app_2; [apply H0|]. apply Forall_cons_2; [done|]. apply Forall_cons_2; [done|].
    eapply parseIPv4Fields_bytes; [|exact Hp]. constructor.
  - unfold parseIPv6 in H. destruct (match s with 58 :: 58 :: r => _ | _ => _ end) as [ell s'].
    case_match; simplify_eq; [apply H0|].
    apply bind_Some in H as ([[ip' ell'] r] & Hp & H).
    apply parseIPv6_loop_bytes in Hp; [|apply Forall_nil_2].
    repeat case_match; simplify_eq; try done.
    apply Forall_app_2; [by apply Forall_take|]. apply Forall_app_2; [apply H0|by apply Forall_drop].
Qed.

Lemma To4_bytes ip bs : Forall is_byte ip → To4 ip = Some bs → length bs = 4%nat ∧ Forall is_byte bs.
Proof.
  intros Hip. unfold To4. repeat case_bool_decide; intros; simplify_eq; [done|].
  rewrite length_drop. split; [lia|by apply Forall_drop].
Qed.

(** Addresses the parser accepts and refuses. *)
Lemma parse_examples :
  ParseIP (bytes_of_string "::ffff:1.2.3.4") ≫= To4 = Some [1; 2; 3; 4] ∧
  ParseIP (bytes_of_string "2001:db8::1") ≫= To4 = None ∧
  is_Some (ParseIP (bytes_of_string "2001:db8::1")) ∧
  ParseIP (bytes_of_string "1.2.3") = None ∧
  ParseIP (bytes_of_string "01.2.3.4") = None ∧
  ParseIP (bytes_of_string "1.2.3.256") = None ∧
  ParseIP (bytes_of_string "fe80::1%eth0") = None ∧
  ParseIP [] = None.
Proof. vm_compute. repeat split. eauto. Qed.
