(* ===== verification/Agent.v ===== *)
(** * The environment agent: map manager and gRPC handlers

    [ebpfmgr/manager.go] ([ipToKey], [SetAction], [GetMetrics],
    [GetMetricForPid]) over the maps of the BPF program, and the [Reset] and
    [Step] handlers of [internal/grpcserver/server.go] over the executor and the
    manager.  What running a command does to the maps (the kernel runs the BPF
    program on the sockets of the command) is the parameter [world]; what the
    eBPF library does with a key of the wrong size is the parameter
    [lookup_raw].  A handler returns a response and an error, as in Go. *)
From S2P Require Import Prelude Words CTypes BpfMaps SocketTuner SocketTunerFacts.
From S2P Require Import Sha256 Executor NetIP Abi.
Local Open Scope Z_scope.

(** ** Messages *)

Record Observation := MkObservation {
  RemoteIp : string;
  RemotePort : Z;
  SrttUs : Z;
  MdevUs : Z;
  TotalRetrans : Z;
  BytesSent : Z;
  BytesReceived : Z;
  DurationUs : Z;
}.

Record ResetResponse := MkResetResponse {
  Success : bool;
  Message : string;
  SessionId : string;
  InitialObservation : option Observation;
}.

Record StepRequest := MkStepRequest {
  ReqSessionId : string;
  TargetIp : string;
  TargetPort : Z;
  MaxPacingRate : Z;
  SndCwndClamp : Z;
  CongAlgo : Z;
  InitCwnd : Z;
  WindowClamp : Z;
  NoDelay : Z;
  RtoMin : Z;
  RetransAfter : Z;
  EnableEcn : Z;
  PacingStatus : Z;
  KeepaliveIdle : Z;
}.

Record StepResponse := MkStepResponse {
  Done : bool;
  StepObservation : option Observation;
}.

(** Every integer of a request is a [uint32]. *)
Definition request_typed (r : StepRequest) : Prop :=
  fits 32 (TargetPort r) ∧ fits 32 (MaxPacingRate r) ∧ fits 32 (SndCwndClamp r) ∧
  fits 32 (CongAlgo r) ∧ fits 32 (InitCwnd r) ∧ fits 32 (WindowClamp r) ∧
  fits 32 (NoDelay r) ∧ fits 32 (RtoMin r) ∧ fits 32 (RetransAfter r) ∧
  fits 32 (EnableEcn r) ∧ fits 32 (PacingStatus r) ∧ fits 32 (KeepaliveIdle r).

(** ** Errors *)

Inductive agent_error :=
| invalid_ipv4_address
| map_put_failed (errno : Z)
| map_lookup_failed
| no_metric_found (pid : Z).

(** The text of an executor error. *)
Definition exec_error_text (e : exec_error) : string :=
  match e with
  | unauthorized_command h => "unauthorized command: hash " +:+ h +:+ " not in allowed list"
  | no_command_set => "no command set or command unauthorized"
  | empty_command => "empty command"
  | command_start_failed err => "command start failed: " +:+ err
  | command_execution_failed err => "command execution failed: " +:+ err
  end.

(** What a handler returns. *)
Record reply (A : Type) := Reply { response : option A; error : option agent_error }.
Arguments Reply {A} _ _.
Arguments response {A} _.
Arguments error {A} _.

(** What a gRPC client receives: the response only when there is no error. *)
Definition on_wire {A} (r : reply A) : option A :=
  match error r with Some _ => None | None => response r end.

(** The requests an agent serves. *)
Inductive agent_request :=
| AskReset (command : string)
| AskStep (req : StepRequest).

(** ** The manager *)

(** The key of the action map for an address; the port is ignored. *)
Definition ipToKey (ipStr : string) (port : Z) : agent_error + ip_port_key :=
  match ParseIP (bytes_of_string ipStr) ≫= To4 with
  | None => inl invalid_ipv4_address
  | Some parsedIP => inr (IpPortKey (le_value parsedIP) 0)
  end.

(** The text of an address in a metrics record. *)
Definition remote_ip_string (m : tuning_metrics) : string :=
  string_of_bytes (ip4_string (le_bytes 4 (remote_ip m))).

(** The action a request installs; the two flags are cut to [uint8]. *)
Definition action_of_request (r : StepRequest) : tuning_action :=
  TuningAction (MaxPacingRate r) (SndCwndClamp r) (CongAlgo r) (InitCwnd r) (WindowClamp r)
    (NoDelay r) (RtoMin r) (RetransAfter r) (u8 (EnableEcn r)) (u8 (PacingStatus r))
    (KeepaliveIdle r).

Section agent.
Context {NM NC : nat} {MA MM MC : Type}.
Context `{!BpfHashMap MA ip_port_key tuning_action}.
Context `{!BpfHashMap MM Z tuning_metrics}.
Context `{!BpfHashMap MC Z Z}.

Abbreviation state := (bpf_state MA MM MC).

(** Running a command: what the system reports, and the maps afterwards. *)
Context (world : list (list Z) → state → spawn_result * state).

Definition SetAction (ipStr : string) (port : Z) (action : tuning_action) (s : state)
    : option agent_error * state :=
  match ipToKey ipStr port with
  | inl err => (Some err, s)
  | inr key =>
      let '(r, m) := map_update_elem (action_map s) key action BPF_ANY in
      (if r =? 0 then None else Some (map_put_failed r),
       BpfState m (metrics_map s) (cookie_pid_map s))
  end.

Definition GetMetricForPid (pid : Z) (s : state) : agent_error + tuning_metrics * string * Z :=
  match map_lookup_elem (metrics_map s) pid with
  | None => inl (no_metric_found pid)
  | Some metric => inr (metric, remote_ip_string metric, remote_port metric)
  end.

(** [GetMetrics] looks the metrics map up with the bytes of an action key. *)
Definition GetMetrics (lookup_raw : MM → list Z → option tuning_metrics)
    (ipStr : string) (port : Z) (s : state) : agent_error + tuning_metrics :=
  match ipToKey ipStr port with
  | inl err => inl err
  | inr key =>
      match lookup_raw (metrics_map s) (go_image BpfIpPortKey (key_members key)) with
      | None => inl map_lookup_failed
      | Some m => inr m
      end
  end.

(** ** The handlers *)

Definition observation_of (m : tuning_metrics) (ipStr : string) (port : Z) : Observation :=
  MkObservation ipStr port (srtt_us m) 0 (total_retrans m) (bytes_sent m) (bytes_received m)
    (duration_us m).

(** [executor.Run] with its effect on the maps. *)
Definition run_command (e : Executor) (s : state) : Z * option exec_error * state :=
  match command_line e with
  | inl _ => (Run (λ _, StartFailed EmptyString) e, s)
  | inr parts => let '(r, s') := world parts s in (Run (λ _, r) e, s')
  end.

Definition Reset (command : string) (e : Executor) (s : state)
    : reply ResetResponse * Executor * state :=
  let '(e, err) := SetCommand command e in
  match err with
  | Some err => (Reply (Some (MkResetResponse false (exec_error_text err) EmptyString None)) None, e, s)
  | None =>
      let '(pid, err, s) := run_command e s in
      match err with
      | Some err => (Reply (Some (MkResetResponse false (exec_error_text err) EmptyString None)) None, e, s)
      | None =>
          let obs := match GetMetricForPid pid s with
                     | inr (metric, ipStr, port) => Some (observation_of metric ipStr port)
                     | inl _ => None
                     end in
          (Reply (Some (MkResetResponse true "Environment reset. Baseline run complete."
                          EmptyString obs)) None, e, s)
      end
  end.

Definition Step (req : StepRequest) (e : Executor) (s : state) : reply StepResponse * state :=
  let '(err, s) := SetAction (TargetIp req) (TargetPort req) (action_of_request req) s in
  match err with
  | Some err => (Reply None (Some err), s)
  | None =>
      let '(pid, _, s) := run_command e s in
      match GetMetricForPid pid s with
      | inl err => (Reply (Some (MkStepResponse true None)) (Some err), s)
      | inr (metric, ipStr, port) =>
          (Reply (Some (MkStepResponse false (Some (observation_of metric ipStr port)))) None, s)
      end
  end.

End agent.

(** ** Lemmas *)

(** The address printed from a record is the key of its action. *)
Lemma ipToKey_remote_ip m port :
  fits 32 (remote_ip m) → ipToKey (remote_ip_string m) port = inr (IpPortKey (remote_ip m) 0).
Proof.
  intros Hm. unfold ipToKey, remote_ip_string.
  pose proof (le_bytes_byte 4 (remote_ip m)) as Hb.
  rewrite bytes_of_string_of_bytes by (by apply ip4_string_bytes).
  rewrite <- (le_value_bytes_fits 4 (remote_ip m)) at 2 by done.
  revert Hb. cbn [le_bytes]. rewrite !Forall_cons. intros (?&?&?&?&_).
  by rewrite ParseIP_string.
Qed.

Lemma action_of_request_typed r : request_typed r → action_typed (action_of_request r).
Proof.
  intros (?&?&?&?&?&?&?&?&?&?&?&?). unfold action_typed, action_of_request.
  cbn [max_pacing_rate snd_cwnd_clamp cong_algo init_cwnd window_clamp no_delay rto_min
    retrans_after enable_ecn pacing_status keepalive_idle].
  split_and!; try done; apply wrap_fits; lia.
Qed.
