(* ===== verification/AgentProps.v ===== *)
(** * Properties of the environment agent

    The theorems about the handlers of [Agent], for any behaviour of the
    processes they run; the maps are any hash maps that obey the laws of
    [BpfMaps], and the instances run the BPF program on bounded finite maps. *)
From S2P Require Import Prelude Words CTypes BpfMaps SocketTuner SocketTunerFacts.
From S2P Require Import SocketTunerProps Sha256 Executor NetIP Abi Agent.
Local Open Scope Z_scope.

(** A process changes the maps only through invocations of the BPF program. *)
Class RunsBpf {MA MM MC : Type} `{!BpfHashMap MA ip_port_key tuning_action}
    `{!BpfHashMap MM Z tuning_metrics} `{!BpfHashMap MC Z Z}
    (world : list (list Z) → bpf_state MA MM MC → spawn_result * bpf_state MA MM MC) : Prop :=
  world_runs parts s : ∃ tr, (world parts s).2 = run tr s.

Section props.
Context {NA NM NC : nat} {MA MM MC : Type}.
Context `{!BpfHashMap MA ip_port_key tuning_action} `{!BpfHashMapLaws NA MA ip_port_key tuning_action}.
Context `{!BpfHashMap MM Z tuning_metrics} `{!BpfHashMapLaws NM MM Z tuning_metrics}.
Context `{!BpfHashMap MC Z Z} `{!BpfHashMapLaws NC MC Z Z}.

Abbreviation state := (bpf_state MA MM MC).
Context (world : list (list Z) → state → spawn_result * state).
Implicit Types (s : state) (e : Executor) (req : StepRequest).

(** ** The manager and the runs *)

(** The action installed for an address. *)
Definition installed s (k : ip_port_key) : option tuning_action := map_lookup_elem (action_map s) k.

(** The two outcomes of [SetAction] on an address that parses. *)
Lemma SetAction_cases ipStr port act s k :
  ipToKey ipStr port = inr k →
  match SetAction ipStr port act s with
  | (None, s') =>
      (∀ k', installed s' k' = if decide (k' = k) then Some act else installed s k') ∧
      metrics_map s' = metrics_map s ∧ cookie_pid_map s' = cookie_pid_map s
  | (Some err, s') =>
      (∃ r, err = map_put_failed r) ∧ installed s k = None ∧
      (∀ k', installed s' k' = installed s k') ∧
      metrics_map s' = metrics_map s ∧ cookie_pid_map s' = cookie_pid_map s
  end.
Proof.
  intros Hk. unfold SetAction. rewrite Hk.
  destruct (map_update_elem (action_map s) k act BPF_ANY) as [r m] eqn:E.
  apply map_update_cases in E as [[-> H]|(Hr & Hn & H)]; [done|].
  rewrite (proj2 (Z.eqb_neq r 0)) by done. unfold installed. eauto 6.
Qed.

Lemma SetAction_invalid ipStr port act s err :
  ipToKey ipStr port = inl err → SetAction ipStr port act s = (Some err, s).
Proof. intros Hk. unfold SetAction. by rewrite Hk. Qed.

Lemma ipToKey_error ipStr port err : ipToKey ipStr port = inl err → err = invalid_ipv4_address.
Proof. unfold ipToKey. case_match; intros; by simplify_eq. Qed.

(** The record a process left is what its lookup reports. *)
Lemma GetMetricForPid_record pid s :
  GetMetricForPid pid s =
  match record s pid with
  | Some m => inr (m, remote_ip_string m, remote_port m)
  | None => inl (no_metric_found pid)
  end.
Proof. done. Qed.

(** The observation of the record of a process. *)
Definition observed s (pid : Z) : option Observation :=
  (λ m, observation_of m (remote_ip_string m) (remote_port m)) <$> record s pid.

Lemma run_command_actions `{!RunsBpf world} e s :
  action_map (run_command world e s).2 = action_map s.
Proof.
  unfold run_command. destruct (command_line e); [done|].
  destruct (world_runs l s) as [tr Hw]. destruct (world l s) as [r s']. cbn in *.
  by rewrite Hw, action_map_run.
Qed.

(** [Step] when its action was stored: the command runs on the maps with the
    action, and its error is not looked at. *)
Lemma Step_stored req e s s' :
  SetAction (TargetIp req) (TargetPort req) (action_of_request req) s = (None, s') →
  Step world req e s =
  (match observed (run_command world e s').2 (run_command world e s').1.1 with
   | Some obs => Reply (Some (MkStepResponse false (Some obs))) None
   | None => Reply (Some (MkStepResponse true None))
               (Some (no_metric_found (run_command world e s').1.1))
   end, (run_command world e s').2).
Proof.
  intros Hs. unfold Step, observed. rewrite Hs.
  destruct (run_command world e s') as [[pid err] s2]. rewrite GetMetricForPid_record. cbn.
  by destruct (record s2 pid).
Qed.

Lemma Step_failed req e s s' err :
  SetAction (TargetIp req) (TargetPort req) (action_of_request req) s = (Some err, s') →
  Step world req e s = (Reply None (Some err), s').
Proof. intros Hs. unfold Step. by rewrite Hs. Qed.

(** A response that arrives does not end the episode. *)
Lemma Step_on_wire req e s resp :
  on_wire (Step world req e s).1 = Some resp → Done resp = false ∧ is_Some (StepObservation resp).
Proof.
  destruct (SetAction (TargetIp req) (TargetPort req) (action_of_request req) s) as [[err|] s'] eqn:Hs.
  - by rewrite (Step_failed _ _ _ _ _ Hs).
  - rewrite (Step_stored _ _ _ _ Hs). destruct (observed _ _); [|done].
    intros [= <-]. eauto.
Qed.

(** The three outcomes of [Reset]. *)
Lemma Reset_cases command e s :
  if authorized command then
    let '(pid, err, s') := run_command world (MkExecutor command) s in
    match err with
    | Some err => Reset world command e s =
        (Reply (Some (MkResetResponse false (exec_error_text err) EmptyString None)) None, MkExecutor command, s')
    | None => ∃ msg, Reset world command e s =
        (Reply (Some (MkResetResponse true msg EmptyString (observed s' pid))) None, MkExecutor command, s')
    end
  else Reset world command e s =
    (Reply (Some (MkResetResponse false
      (exec_error_text (unauthorized_command (sha256_hex command))) EmptyString None)) None, e, s).
Proof.
  unfold Reset, SetCommand, observed. destruct (authorized command); cbn [negb]; [|done].
  destruct (run_command world (MkExecutor command) s) as [[pid [err|]] s']; [done|].
  rewrite GetMetricForPid_record. eexists. by destruct (record s' pid).
Qed.

(** ** The handlers *)

(** C5.  An episode tunes the right sockets.  When [Reset] reports an
    observation and a [Step] targets the address it names, and the map takes the
    action, then the observation is that of a record [m] of the run, the command
    of the step starts on maps in which every connection established to the
    address of [m], after any invocations of the BPF program, gets exactly the
    options of the requested action, and the action is still installed when the
    step returns. *)
Theorem step_tunes_observed_target `{!RunsBpf world} command e s resp e' s1 obs req s2 :
  Reset world command e s = (Reply (Some resp) None, e', s1) →
  InitialObservation resp = Some obs → state_typed s1 →
  TargetIp req = RemoteIp obs →
  SetAction (TargetIp req) (TargetPort req) (action_of_request req) s1 = (None, s2) →
  ∃ pid m, record s1 pid = Some m ∧ obs = observation_of m (remote_ip_string m) (remote_port m) ∧
  (Step world req e' s1).2 = (run_command world e' s2).2 ∧
  (∀ tr i, is_established i = true → Ctx.remote_ip4 i.2 = remote_ip m →
     emitted i (run tr s2) = tuning_calls (action_of_request req) ++
       [bpf_sock_ops_cb_flags_set (Z.lor (Ctx.bpf_sock_ops_cb_flags i.2) BPF_SOCK_OPS_STATE_CB_FLAG)]) ∧
  installed (Step world req e' s1).2 (IpPortKey (remote_ip m) 0) = Some (action_of_request req).
Proof.
  intros HR Ho [Ht _] Hip Hs. pose proof (Reset_cases command e s) as Hc.
  destruct (authorized command); [|rewrite Hc in HR; by simplify_eq/=].
  destruct (run_command world (MkExecutor command) s) as [[pid [err|]] s']; [rewrite Hc in HR; by simplify_eq/=|].
  destruct Hc as [msg Hc]. rewrite Hc in HR. simplify_eq/=.
  apply fmap_Some in Ho as (m & Hm & ->). exists pid, m. rewrite (Step_stored _ _ _ _ Hs).
  pose proof (SetAction_cases (TargetIp req) (TargetPort req) (action_of_request req) s1
    (IpPortKey (remote_ip m) 0)) as HA.
  rewrite Hs, Hip in HA. destruct HA as [HA _].
  { apply ipToKey_remote_ip. by apply (Ht pid). }
  specialize (HA (IpPortKey (remote_ip m) 0)). rewrite decide_True in HA by done. unfold installed in *.
  split_and!; try done.
  - intros tr i Hi Hi4. rewrite (proj2 (established_spec i (run tr s2) Hi)), action_map_run.
    by rewrite Hi4, HA.
  - cbn [fst snd]. by rewrite run_command_actions.
Qed.

(** [Reset] always answers, on every path.  A command that is not listed
    leaves the executor and the maps as they were; a listed one becomes the
    command of the episode, and the answer is a success exactly when its
    baseline run was clean, with the observation of the record the process left,
    if it left one.  A failure carries no observation. *)
Theorem reset_answers command e s :
  match Reset world command e s with
  | (Reply (Some resp) None, e', s') =>
      (authorized command = false ∧ Success resp = false ∧ InitialObservation resp = None ∧
       e' = e ∧ s' = s) ∨
      (authorized command = true ∧ e' = MkExecutor command ∧
       match run_command world e' s with
       | (pid, err, s'') =>
           s' = s'' ∧ Success resp = bool_decide (err = None) ∧
           InitialObservation resp = if bool_decide (err = None) then observed s' pid else None
       end)
  | _ => False
  end.
Proof.
  pose proof (Reset_cases command e s) as Hc. destruct (authorized command).
  - destruct (run_command world (MkExecutor command) s) as [[pid [err|]] s'] eqn:Hr.
    + rewrite Hc. right. by rewrite Hr.
    + destruct Hc as [msg ->]. right. by rewrite Hr.
  - rewrite Hc. by left.
Qed.

(** A [Step] that cannot store its action runs nothing: it returns the
    error without a response, and no action, no record and no binding changes;
    an address that is not IPv4 is such a case, whatever the maps hold. *)
Theorem step_error_runs_nothing req e s err s2 :
  SetAction (TargetIp req) (TargetPort req) (action_of_request req) s = (Some err, s2) →
  Step world req e s = (Reply None (Some err), s2) ∧
  (∀ k, installed s2 k = installed s k) ∧
  metrics_map s2 = metrics_map s ∧ cookie_pid_map s2 = cookie_pid_map s ∧
  (err = invalid_ipv4_address ↔ ParseIP (bytes_of_string (TargetIp req)) ≫= To4 = None).
Proof.
  intros Hs. rewrite (Step_failed _ _ _ _ _ Hs). split; [done|].
  pose proof (SetAction_cases (TargetIp req) (TargetPort req) (action_of_request req) s) as HA.
  rewrite Hs in HA. destruct (ipToKey (TargetIp req) (TargetPort req)) as [err'|k] eqn:Hk.
  - rewrite (SetAction_invalid _ _ _ _ _ Hk) in Hs. simplify_eq.
    split_and!; try done. apply ipToKey_error in Hk as He. subst.
    split; [|done]. intros _. unfold ipToKey in Hk. by destruct (_ ≫= _).
  - destruct (HA k eq_refl) as ([r ->] & _ & ? & ? & ?). split_and!; try done.
    unfold ipToKey in Hk. split; [done|]. intros E. by rewrite E in Hk.
Qed.

(** No client ever sees the end of an episode: the only response with
    [Done] set is returned together with an error, which the transport delivers
    in its place, so every response that arrives says the episode goes on and
    carries an observation. *)
Theorem step_never_reports_done req e s resp :
  on_wire (Step world req e s).1 = Some resp →
  Done resp = false ∧ is_Some (StepObservation resp).
Proof. apply Step_on_wire. Qed.

(** [SetAction] and the request.  On success exactly the entry of the
    target's address changes, whatever the port of the request, to an action
    with the members of the request: the two flags are the low bytes of the
    request's words, so that every member has the width of its C type. *)
Theorem set_action_binds req s s2 k :
  request_typed req → ipToKey (TargetIp req) (TargetPort req) = inr k →
  SetAction (TargetIp req) (TargetPort req) (action_of_request req) s = (None, s2) →
  port k = 0 ∧
  (∀ k', installed s2 k' = if decide (k' = k) then Some (action_of_request req) else installed s k') ∧
  metrics_map s2 = metrics_map s ∧ cookie_pid_map s2 = cookie_pid_map s ∧
  action_typed (action_of_request req) ∧
  enable_ecn (action_of_request req) = EnableEcn req mod 256 ∧
  pacing_status (action_of_request req) = PacingStatus req mod 256.
Proof.
  intros Ht Hk Hs.
  pose proof (SetAction_cases _ (TargetPort req) (action_of_request req) s k Hk) as HA.
  rewrite Hs in HA. destruct HA as (?&?&?). split_and!; try done.
  - unfold ipToKey in Hk. case_match; by simplify_eq.
  - by apply action_of_request_typed.
Qed.

(** [GetMetrics] never succeeds: it looks the map of records, whose keys
    are the four bytes of a process id, up with the eight bytes of an address
    key, which the map library refuses. *)
Theorem get_metrics_fails (lookup_raw : MM → list Z → option tuning_metrics) ipStr port s :
  (∀ m key, length key ≠ 4%nat → lookup_raw m key = None) →
  ∃ err, GetMetrics lookup_raw ipStr port s = inl err.
Proof.
  intros Hraw. unfold GetMetrics. destruct (ipToKey ipStr port) as [err|k]; [eauto|].
  rewrite Hraw; [eauto|]. by destruct k as [a b].
Qed.

End props.

(** ** Instances *)

(** [curl] as a process of the machine: it runs as process 4242 and connects. *)
Definition sample_world {N1 N2 N3} (parts : list (list Z)) (s : sim_state N1 N2 N3)
    : spawn_result * sim_state N1 N2 N3 :=
  (Exited 4242 None, run [sample_connect; sample_established; sample_close] s).

#[export] Instance sample_world_runs {N1 N2 N3} : RunsBpf (sample_world (N1:=N1) (N2:=N2) (N3:=N3)).
Proof. intros parts s. by exists [sample_connect; sample_established; sample_close]. Defined.

Definition sample_command : string := "curl -4 -sI -m 5 http://google.com".

Definition sample_request : StepRequest :=
  MkStepRequest "10.0.0.1:50051" "142.250.1.1" 443 1000000 100 2 20 16777216 1 200 3 257 1 7200.

(** Small empty maps. *)
Definition small_state : sim_state 4 4 4 := BpfState bm_empty bm_empty bm_empty.

(** The maps after a reset, and after the action of the next step is stored. *)
Abbreviation sample_run_state := (Reset sample_world sample_command NewExecutor small_state).2.
Abbreviation sample_after_put :=
  (SetAction "142.250.1.1" 443 (action_of_request sample_request) sample_run_state).2.

Lemma sample_records :
  map_to_list (bm_map (metrics_map sample_run_state)) =
  [(4242, TuningMetrics sample_ip 443 1000 2 300 100000 1000000 8000)].
Proof. vm_compute. reflexivity. Qed.

Lemma sample_owners : map_to_list (bm_map (cookie_pid_map sample_run_state)) = [(7, 4242)].
Proof. vm_compute. reflexivity. Qed.

Lemma entries_typed {N1 N2 N3} (s : sim_state N1 N2 N3) records owners :
  map_to_list (bm_map (metrics_map s)) = records → map_to_list (bm_map (cookie_pid_map s)) = owners →
  Forall (λ e, metrics_typed e.2) records → Forall (λ e, fits 32 e.2) owners → state_typed s.
Proof.
  intros Hr Ho Hrt Hot. rewrite Forall_forall in Hrt. rewrite Forall_forall in Hot. split.
  - intros p m H. apply (Hrt (p, m)). rewrite <- Hr. by apply bm_lookup_entry.
  - intros c p H. apply (Hot (c, p)). rewrite <- Ho. by apply bm_lookup_entry.
Qed.

Lemma sample_state_typed : state_typed sample_run_state.
Proof.
  apply (entries_typed _ _ _ sample_records sample_owners); apply Forall_singleton;
    repeat split; vm_compute; (reflexivity || discriminate).
Qed.

Lemma step_tunes_observed_target_witness :
  installed (Step sample_world sample_request (MkExecutor sample_command) sample_run_state).2
    (IpPortKey sample_ip 0) = Some (action_of_request sample_request).
Proof.
  destruct (step_tunes_observed_target sample_world sample_command NewExecutor small_state
    (MkResetResponse true "Environment reset. Baseline run complete." EmptyString
       (Some (MkObservation "142.250.1.1" 443 1000 0 2 300 100000 8000)))
    (MkExecutor sample_command) sample_run_state
    (MkObservation "142.250.1.1" 443 1000 0 2 300 100000 8000) sample_request sample_after_put)
    as (pid & m & Hm & Ho & _ & _ & Hi).
  - apply pair_fst. vm_compute. reflexivity.
  - reflexivity.
  - apply sample_state_typed.
  - reflexivity.
  - apply pair_fst. vm_compute. reflexivity.
  - assert (remote_ip m = sample_ip) as <-; [|exact Hi].
    clear Hi Ho. apply bm_lookup_entry in Hm. rewrite sample_records in Hm.
    apply list_elem_of_singleton in Hm. by injection Hm as _ ->.
Defined.

(** A request that names no IPv4 address. *)
Definition bad_request : StepRequest :=
  MkStepRequest EmptyString "2001:db8::1" 443 0 0 0 0 0 0 0 0 0 0 0.

Lemma step_error_runs_nothing_witness :
  Step sample_world bad_request NewExecutor small_state =
    (Reply None (Some invalid_ipv4_address), small_state).
Proof. apply (step_error_runs_nothing sample_world). reflexivity. Defined.

Lemma step_never_reports_done_witness :
  ∃ resp, on_wire (Step sample_world sample_request (MkExecutor sample_command) small_state).1 = Some resp ∧
    Done resp = false.
Proof.
  eexists. split; [vm_compute; reflexivity|].
  refine (proj1 (step_never_reports_done sample_world sample_request (MkExecutor sample_command)
    small_state _ _)).
  vm_compute. reflexivity.
Defined.

Lemma set_action_binds_witness :
  enable_ecn <$> installed (SetAction "142.250.1.1" 443 (action_of_request sample_request) small_state).2
    (IpPortKey sample_ip 0) = Some 1.
Proof.
  assert (request_typed sample_request) as Hr
    by (repeat split; vm_compute; (reflexivity || discriminate)).
  destruct (set_action_binds sample_request small_state
    (SetAction "142.250.1.1" 443 (action_of_request sample_request) small_state).2
    (IpPortKey sample_ip 0) Hr) as (_ & Hk & _);
    [vm_compute; reflexivity|apply pair_fst; vm_compute; reflexivity|].
  rewrite Hk. vm_compute. reflexivity.
Defined.

(** A library that compares the key with the declared key size. *)
Definition sized_lookup (m : bounded_map 4 Z tuning_metrics) (key : list Z) : option tuning_metrics :=
  if bool_decide (length key = 4%nat) then map_lookup_elem m (le_value key) else None.

Lemma get_metrics_fails_witness :
  ∃ err, GetMetrics sized_lookup "142.250.1.1" 443 sample_run_state = inl err.
Proof.
  apply get_metrics_fails. intros m key Hk. unfold sized_lookup. by rewrite bool_decide_eq_false_2.
Defined.
