(* ===== verification/MapBytes.v ===== *)
(** * The shared maps, byte by byte

    The kernel keeps the keys and the values of the maps as bytes, and the
    program and the agent meet there: the program of [socket_tuner.c] loads and
    stores the members of its structs at the offsets of the C layout, out of a
    context of [sizeof (struct bpf_sock_ops)] bytes, and builds its keys and its
    initial record on a zeroed stack; the agent writes and reads the images of
    its Go structs ([ebpfmgr/manager.go]).  This file is that program and that
    agent over maps of bytes to bytes; [MapBytesProps] proves that they implement
    [SocketTuner] and [Agent], which work on records. *)
From S2P Require Import Prelude Words CTypes Vmlinux BpfMaps SocketTuner SocketTunerFacts Abi.
From S2P Require Import NetIP Agent.
Local Open Scope Z_scope.

(** ** Memory *)

Abbreviation bytes := (list Z).

(** The bytes at a place, the number they are, and a store of a number. *)
Definition fetch (p : Z * Z) (bs : bytes) : bytes := take (Z.to_nat p.2) (drop (Z.to_nat p.1) bs).
Definition load (p : Z * Z) (bs : bytes) : Z := le_value (fetch p bs).
Definition store (p : Z * Z) (v : Z) (bs : bytes) : bytes :=
  take (Z.to_nat p.1) bs ++ le_bytes (Z.to_nat p.2) v ++ drop (Z.to_nat (p.1 + p.2)) bs.

(** [struct S x = {}] *)
Definition zeroed (size : Z) : bytes := replicate (Z.to_nat size) 0.

(** The place of a member in a table of members. *)
Fixpoint place (members : list (string * (Z * Z))) (x : string) : Z * Z :=
  match members with
  | [] => (0, 0)
  | (y, p) :: members => if bool_decide (x = y) then p else place members x
  end.

(** The layouts of the structs, computed from their declarations. *)
Definition context_layout : list (string * (Z * Z)) :=
  Eval vm_compute in default [] (c_offsets "bpf_sock_ops").
Definition action_layout : list (string * (Z * Z)) :=
  Eval vm_compute in default [] (c_offsets "tuning_action").
Definition metrics_layout : list (string * (Z * Z)) :=
  Eval vm_compute in default [] (c_offsets "tuning_metrics").
Definition key_layout : list (string * (Z * Z)) :=
  Eval vm_compute in default [] (c_offsets "ip_port_key").
Definition size_of (x : string) : Z := default 0 (sizeof socket_tuner_env (Struct x)).
Definition context_size : Z := Eval vm_compute in size_of "bpf_sock_ops".
Definition metrics_size : Z := Eval vm_compute in size_of "tuning_metrics".
Definition key_size : Z := Eval vm_compute in size_of "ip_port_key".

(** A context as the kernel lays it out: so many bytes. *)
Definition context_ok (skops : bytes) : Prop :=
  Z.of_nat (length skops) = context_size ∧ Forall is_byte skops.

(** [skops->x] *)
Definition ctx (skops : bytes) (x : string) : Z := load (place context_layout x) skops.

(** The members the program reads, as the record of [SocketTuner]. *)
Definition context_of (skops : bytes) : bpf_sock_ops :=
  Ctx.BpfSockOps (ctx skops "op") (ctx skops "family") (ctx skops "remote_ip4")
    (ctx skops "remote_port") (ctx skops "srtt_us") (ctx skops "bpf_sock_ops_cb_flags")
    (ctx skops "total_retrans") (ctx skops "bytes_received") (ctx skops "bytes_acked").

Module Bytes.
Section program.
Context {MA MM MC : Type}.
Context `{!BpfHashMap MA bytes bytes}.
Context `{!BpfHashMap MM bytes bytes}.
Context `{!BpfHashMap MC bytes bytes}.

Abbreviation state := (bpf_state MA MM MC).
Abbreviation prog := (SocketTuner.prog (MA:=MA) (MM:=MM) (MC:=MC)).

(** ** [socket_tuner.c] *)

(** [bpf_map_lookup_elem]: whether there is a value; its bytes are then read
    and written through the pointer. *)
Definition lookup_action (key : bytes) : prog bool :=
  λ h s, (bool_decide (is_Some (map_lookup_elem (action_map s) key)), s, []).
Definition lookup_metrics (key : bytes) : prog bool :=
  λ h s, (bool_decide (is_Some (map_lookup_elem (metrics_map s) key)), s, []).
Definition lookup_pid (key : bytes) : prog bool :=
  λ h s, (bool_decide (is_Some (map_lookup_elem (cookie_pid_map s) key)), s, []).

(** The bytes behind the pointers. *)
Definition deref_action (key : bytes) : prog bytes :=
  λ h s, (default [] (map_lookup_elem (action_map s) key), s, []).
Definition deref_metrics (key : bytes) : prog bytes :=
  λ h s, (default [] (map_lookup_elem (metrics_map s) key), s, []).
Definition deref_pid (key : bytes) : prog bytes :=
  λ h s, (default [] (map_lookup_elem (cookie_pid_map s) key), s, []).

(** [met->x = v] *)
Definition store_metrics (key : bytes) (x : string) (v : Z) : prog unit := λ h s,
  match map_lookup_elem (metrics_map s) key with
  | Some met =>
      let met := store (place metrics_layout x) v met in
      (tt, BpfState (action_map s) (map_store (metrics_map s) key met) (cookie_pid_map s), [])
  | None => (tt, s, [])
  end.

(** [met->x] *)
Definition load_metrics (key : bytes) (x : string) : prog Z :=
  met ← deref_metrics key; mret (load (place metrics_layout x) met).

(** [bpf_map_update_elem(&map, &key, &value, BPF_ANY)] *)
Definition update_cookie_pid (key value : bytes) : prog Z := λ h s,
  let '(r, m) := map_update_elem (cookie_pid_map s) key value BPF_ANY in
  (r, BpfState (action_map s) (metrics_map s) m, []).
Definition update_metrics_map (key value : bytes) : prog Z := λ h s,
  let '(r, m) := map_update_elem (metrics_map s) key value BPF_ANY in
  (r, BpfState (action_map s) m (cookie_pid_map s), []).

Definition update_metrics (skops : bytes) : prog unit :=
  cookie ← ask bpf_get_socket_cookie;
  let cookie := le_bytes 8 cookie in
  found ← lookup_pid cookie;
  if negb found then mret tt
  else
    pid ← deref_pid cookie;
    let pid := le_bytes 4 (load (0, 4) pid) in
    met ← lookup_metrics pid;
    if negb met then mret tt
    else
      _ ← store_metrics pid "srtt_us" (Z.shiftr (ctx skops "srtt_us") 3);
      _ ← store_metrics pid "total_retrans" (ctx skops "total_retrans");
      _ ← store_metrics pid "bytes_sent" (ctx skops "bytes_acked");
      _ ← store_metrics pid "bytes_received" (ctx skops "bytes_received");
      start ← load_metrics pid "start_time_ns";
      when (0 <? start) (
        now ← ask bpf_ktime_get_ns;
        start ← load_metrics pid "start_time_ns";
        store_metrics pid "duration_us" (u64 (now - start) / 1000)).

Definition on_tcp_connect (skops : bytes) : prog unit :=
  cookie ← ask bpf_get_socket_cookie;
  let cookie := le_bytes 8 cookie in
  pid_tgid ← ask bpf_get_current_pid_tgid;
  let pid := le_bytes 4 (Z.shiftr pid_tgid 32) in
  _ ← update_cookie_pid cookie pid;
  let initial := zeroed metrics_size in
  now ← ask bpf_ktime_get_ns;
  let initial := store (place metrics_layout "start_time_ns") now initial in
  let initial := store (place metrics_layout "remote_ip") (ctx skops "remote_ip4") initial in
  let initial := store (place metrics_layout "remote_port") (bswap32 (ctx skops "remote_port")) initial in
  _ ← update_metrics_map pid initial;
  mret tt.

(** [if (act->x > 0) bpf_setsockopt(skops, level, optname, &act->x, sizeof(act->x))] *)
Definition set_if_positive (level optname : Z) (key : bytes) (x : string) : prog unit :=
  act ← deref_action key;
  when (0 <? load (place action_layout x) act) (
    act ← deref_action key;
    emit (bpf_setsockopt level optname (fetch (place action_layout x) act))).

Definition set_congestion (key : bytes) : prog unit :=
  let algo := act ← deref_action key; mret (load (place action_layout "cong_algo") act) in
  a ← algo;
  when (0 <? a) (
    a ← algo;
    if a =? 1 then emit (bpf_setsockopt SOL_TCP TCP_CONGESTION (char_array16 "cubic"))
    else
      a ← algo;
      when (a =? 2) (emit (bpf_setsockopt SOL_TCP TCP_CONGESTION (char_array16 "bbr")))).

Definition apply_action (key : bytes) : prog unit :=
  _ ← set_if_positive SOL_SOCKET SO_MAX_PACING_RATE key "max_pacing_rate";
  _ ← set_if_positive SOL_TCP TCP_BPF_SNDCWND_CLAMP key "snd_cwnd_clamp";
  _ ← set_congestion key;
  _ ← set_if_positive SOL_TCP TCP_BPF_IW key "init_cwnd";
  _ ← set_if_positive SOL_TCP TCP_WINDOW_CLAMP key "window_clamp";
  _ ← set_if_positive SOL_TCP TCP_NODELAY key "no_delay";
  _ ← set_if_positive SOL_TCP TCP_USER_TIMEOUT key "retrans_after";
  set_if_positive SOL_TCP TCP_KEEPIDLE key "keepalive_idle".

Definition on_established (key skops : bytes) : prog unit :=
  act ← lookup_action key;
  _ ← when act (apply_action key);
  emit (bpf_sock_ops_cb_flags_set
          (Z.lor (ctx skops "bpf_sock_ops_cb_flags") BPF_SOCK_OPS_STATE_CB_FLAG)).

Definition bpf_sockmap (skops : bytes) : prog Z :=
  let op := ctx skops "op" in
  if negb (ctx skops "family" =? AF_INET) then mret 0
  else
    let key := zeroed key_size in
    let key := store (place key_layout "ip") (ctx skops "remote_ip4") key in
    let key := store (place key_layout "port") 0 key in
    _ ← (if op =? BPF_SOCK_OPS_TCP_CONNECT_CB then on_tcp_connect skops
         else if (op =? BPF_SOCK_OPS_ACTIVE_ESTABLISHED_CB)
                 || (op =? BPF_SOCK_OPS_PASSIVE_ESTABLISHED_CB) then on_established key skops
         else if op =? BPF_SOCK_OPS_STATE_CB then update_metrics skops
         else if op =? BPF_SOCK_OPS_RETRANS_CB then update_metrics skops
         else mret tt);
    mret 0.

(** ** [ebpfmgr/manager.go] *)

(** The bytes of a key, of a process id and of an action, as the eBPF library
    hands the Go values to the kernel. *)
Definition marshal_key (k : ip_port_key) : bytes := go_image BpfIpPortKey (key_members k).
Definition marshal_action (a : tuning_action) : bytes := go_image BpfTuningAction (action_members a).
Definition marshal_pid (pid : Z) : bytes := le_bytes 4 pid.

(** The Go struct the bytes of a value are read into. *)
Definition unmarshal_metrics (bs : bytes) : tuning_metrics :=
  let x f := load (place (go_offsets BpfTuningMetrics) f) bs in
  TuningMetrics (x "RemoteIp") (x "RemotePort") (x "SrttUs") (x "TotalRetrans")
    (x "BytesSent") (x "BytesReceived") (x "StartTimeNs") (x "DurationUs").

Definition SetAction (ipStr : string) (port : Z) (action : tuning_action) (s : state)
    : option agent_error * state :=
  match ipToKey ipStr port with
  | inl err => (Some err, s)
  | inr key =>
      let '(r, m) :=
        map_update_elem (action_map s) (marshal_key key) (marshal_action action) BPF_ANY in
      (if r =? 0 then None else Some (map_put_failed r),
       BpfState m (metrics_map s) (cookie_pid_map s))
  end.

Definition GetMetricForPid (pid : Z) (s : state) : agent_error + tuning_metrics * string * Z :=
  match map_lookup_elem (metrics_map s) (marshal_pid pid) with
  | None => inl (no_metric_found pid)
  | Some bs =>
      let metric := unmarshal_metrics bs in
      inr (metric, remote_ip_string metric, remote_port metric)
  end.

End program.
End Bytes.

(** ** What the two sides do with the maps, in turn *)

Inductive access :=
| Invoked (h : helpers) (skops : bytes)                        (* the kernel runs the program *)
| SetsAction (ipStr : string) (port : Z) (action : tuning_action)
| GetsMetric (pid : Z).

Inductive outcome :=
| Emitted (ret : Z) (calls : list helper_call)
| ActionSet (err : option agent_error)
| Metric (r : agent_error + tuning_metrics * string * Z).

(** Each access is typed: the kernel's bytes are bytes, the agent's are Go values. *)
Definition access_ok (a : access) : Prop :=
  match a with
  | Invoked h skops => helpers_typed h ∧ context_ok skops
  | SetsAction _ _ action => action_typed action
  | GetsMetric pid => fits 32 pid
  end.

(** A run of accesses: the outcomes, in order, and the maps at the end. *)
Fixpoint perform {S} (step : access → S → outcome * S) (l : list access) (s : S)
    : list outcome * S :=
  match l with
  | [] => ([], s)
  | a :: l =>
      let '(o, s) := step a s in
      let '(os, s) := perform step l s in (o :: os, s)
  end.

(** On the bytes, and on the records. *)
Definition access_bytes {MA MM MC} `{!BpfHashMap MA bytes bytes, !BpfHashMap MM bytes bytes,
    !BpfHashMap MC bytes bytes} (a : access) (s : bpf_state MA MM MC)
    : outcome * bpf_state MA MM MC :=
  match a with
  | Invoked h skops => let '(r, s, e) := Bytes.bpf_sockmap skops h s in (Emitted r e, s)
  | SetsAction ipStr port action =>
      let '(err, s) := Bytes.SetAction ipStr port action s in (ActionSet err, s)
  | GetsMetric pid => (Metric (Bytes.GetMetricForPid pid s), s)
  end.

Definition access_records {MA MM MC} `{!BpfHashMap MA ip_port_key tuning_action,
    !BpfHashMap MM Z tuning_metrics, !BpfHashMap MC Z Z} (a : access) (s : bpf_state MA MM MC)
    : outcome * bpf_state MA MM MC :=
  match a with
  | Invoked h skops => let '(r, s, e) := bpf_sockmap (context_of skops) h s in (Emitted r e, s)
  | SetsAction ipStr port action =>
      let '(err, s) := SetAction ipStr port action s in (ActionSet err, s)
  | GetsMetric pid => (Metric (GetMetricForPid pid s), s)
  end.
