(* ===== verification/MapBytesProps.v ===== *)
(** * The bytes of the maps implement the records

    The program of [MapBytes], which loads and stores members at the offsets of
    the C layout, and its agent, which reads and writes the images of Go structs,
    simulate the program of [SocketTuner] and the agent of [Agent], which work on
    records.  A [codec] encodes the typed values of a map into bytes; the class
    [MapSim] is what the proof needs of the two representations of a map, and
    finite maps with a bound are an instance; [simulates] relates computations and
    is proved construct by construct. *)
From S2P Require Import Prelude Words CTypes Vmlinux BpfMaps SocketTuner SocketTunerFacts Abi.
From S2P Require Import NetIP Agent MapBytes.
From S2P Require SocketTunerProps.
Local Open Scope Z_scope.

(** ** Members of an image *)

(** The image of a struct around one of its members. *)
Lemma image_split pos size offs vs i o n v :
  fields_ok pos size offs vs → 0 ≤ pos → offs !! i = Some (o, n) → vs !! i = Some v →
  ∃ a b, Z.of_nat (length a) = o - pos ∧ pos ≤ o ∧ 0 ≤ n ∧ fits (8 * n) v ∧
    ∀ v', image pos size (zip offs (<[i:=v']> vs)) = a ++ le_bytes (Z.to_nat n) v' ++ b.
Proof.
  revert pos vs i. induction offs as [|[o1 n1] offs IH]; intros pos [|v1 vs] i H H0 Ho Hv; try done.
  cbn in H. destruct H as (Hp & Hn & Hf & H). destruct i as [|i]; cbn in Ho, Hv; simplify_eq.
  - exists (replicate (Z.to_nat (o - pos)) 0), (image (o + n) size (zip offs vs)).
    rewrite length_replicate. split_and!; try done; lia.
  - destruct (IH _ _ _ H ltac:(lia) Ho Hv) as (a & b & Ha & ? & ? & ? & E).
    exists (replicate (Z.to_nat (o1 - pos)) 0 ++ le_bytes (Z.to_nat n1) v1 ++ a), b.
    rewrite !length_app, length_replicate, length_le_bytes. split_and!; try done; try lia.
    intros v'. cbn [insert list_insert zip zip_with image]. fold (zip offs (<[i:=v']> vs)). rewrite E. by rewrite <- !app_assoc.
Qed.

Section struct.
Context (size : Z) (offs : list (Z * Z)) (vs : list Z) (i : nat) (p : Z * Z) (v : Z).
Hypothesis Hok : fields_ok 0 size offs vs.
Hypothesis Hp : offs !! i = Some p.
Hypothesis Hv : vs !! i = Some v.

(** The bytes of a member of an image, its value, and the image after a store. *)
Lemma fetch_struct : fetch p (struct_image size offs vs) = le_bytes (Z.to_nat p.2) v.
Proof.
  destruct p as [o n]. destruct (image_split 0 size offs vs i o n v Hok) as (a & b & Ha & ? & ? & ? & E); try done.
  specialize (E v). rewrite list_insert_id in E by done. unfold struct_image, fetch. rewrite E. cbn [fst snd].
  rewrite drop_app_length' by lia. apply take_app_length'. by rewrite length_le_bytes.
Qed.

Lemma load_struct : load p (struct_image size offs vs) = v.
Proof.
  unfold load. rewrite fetch_struct. apply le_value_bytes_fits.
  destruct p as [o n]. destruct (image_split 0 size offs vs i o n v Hok) as (a & b & Ha & ? & ? & ? & E); try done.
  cbn. by rewrite Z2Nat.id.
Qed.

Lemma store_struct v' :
  store p v' (struct_image size offs vs) = struct_image size offs (<[i:=v']> vs).
Proof.
  destruct p as [o n]. destruct (image_split 0 size offs vs i o n v Hok) as (a & b & Ha & ? & ? & ? & E); try done.
  unfold struct_image, store. rewrite (E v'). specialize (E v). rewrite list_insert_id in E by done.
  rewrite E. cbn [fst snd]. rewrite take_app_length' by lia. do 2 f_equal.
  rewrite app_assoc. apply drop_app_length'. rewrite length_app, length_le_bytes. lia.
Qed.
End struct.

(** ** Encodings *)
Record codec (A : Type) := Codec {
  enc : A → bytes;
  typed : A → Prop;
  enc_inj x y : typed x → typed y → enc x = enc y → x = y;
}.
Arguments Codec {A} _ _ _.
Arguments enc {A} _ _.
Arguments typed {A} _ _.
Arguments enc_inj {A} _ _ _ _ _ _.

Definition key_typed (k : ip_port_key) : Prop := fits 32 (ip k) ∧ fits 32 (port k).

(** Typed members fill their places. *)
Lemma key_fields_ok k : key_typed k → fields_ok 0 8 (places key_layout) (key_members k).
Proof. intros [? ?]. cbn. by split_and!. Qed.
Lemma action_fields_ok a : action_typed a → fields_ok 0 40 (places action_layout) (action_members a).
Proof. intros (?&?&?&?&?&?&?&?&?&?&?). cbn. by split_and!. Qed.
Lemma metrics_fields_ok m : metrics_typed m → fields_ok 0 48 (places metrics_layout) (metrics_members m).
Proof. intros (?&?&?&?&?&?&?&?). cbn. by split_and!. Qed.

(** A struct whose members determine it is determined by its image. *)
Lemma struct_inj {A} (members : A → list Z) (ok : A → Prop) size offs :
  (∀ x y, members x = members y → x = y) →
  (∀ x, ok x → fields_ok 0 size offs (members x)) →
  ∀ x y, ok x → ok y → struct_image size offs (members x) = struct_image size offs (members y) → x = y.
Proof.
  intros Hm Hok x y Hx Hy H. apply Hm. apply (f_equal (load_fields offs)) in H.
  rewrite !load_struct_image in H by auto. done.
Qed.

Definition struct_codec {A} (members : A → list Z) (ok : A → Prop) size offs Hm Hok : codec A :=
  Codec (λ x, struct_image size offs (members x)) ok (struct_inj members ok size offs Hm Hok).

Lemma key_members_inj k k' : key_members k = key_members k' → k = k'.
Proof. destruct k, k'. by intros [= -> ->]. Qed.
Lemma action_members_inj a a' : action_members a = action_members a' → a = a'.
Proof. destruct a, a'. cbv [action_members]. cbn. by intros [= -> -> -> -> -> -> -> -> -> -> ->]. Qed.
Lemma metrics_members_inj m m' : metrics_members m = metrics_members m' → m = m'.
Proof. destruct m, m'. cbv [metrics_members]. cbn. by intros [= -> -> -> -> -> -> -> ->]. Qed.

Definition key_codec : codec ip_port_key := struct_codec _ _ _ _ key_members_inj key_fields_ok.
Definition action_codec : codec tuning_action := struct_codec _ _ _ _ action_members_inj action_fields_ok.
Definition metrics_codec : codec tuning_metrics := struct_codec _ _ _ _ metrics_members_inj metrics_fields_ok.

Lemma word_inj n x y : fits (8 * Z.of_nat n) x → fits (8 * Z.of_nat n) y → le_bytes n x = le_bytes n y → x = y.
Proof. intros Hx Hy H. rewrite <- (le_value_bytes_fits n x), <- (le_value_bytes_fits n y) by done. by rewrite H. Qed.
Definition word_codec (n : nat) : codec Z := Codec (le_bytes n) (fits (8 * Z.of_nat n)) (word_inj n).

(** ** Maps of bytes that implement maps of values *)

(** What the program's proof needs of the two representations of a map: they
    hold the same entries, one side encoded, and the operations keep it so. *)
Class MapSim {K V} (ck : codec K) (cv : codec V) (Mb M : Type)
    `{!BpfHashMap Mb bytes bytes, !BpfHashMap M K V} := {
  map_sim : Mb → M → Prop;
  sim_lookup mb m k :
    map_sim mb m → typed ck k →
    map_lookup_elem mb (enc ck k) = enc cv <$> map_lookup_elem m k;
  sim_typed mb m k v : map_sim mb m → map_lookup_elem m k = Some v → typed cv v;
  sim_update mb m k v :
    map_sim mb m → typed ck k → typed cv v →
    (map_update_elem mb (enc ck k) (enc cv v) BPF_ANY).1 = (map_update_elem m k v BPF_ANY).1 ∧
    map_sim (map_update_elem mb (enc ck k) (enc cv v) BPF_ANY).2 (map_update_elem m k v BPF_ANY).2;
  sim_store mb m k v :
    map_sim mb m → typed ck k → typed cv v → is_Some (map_lookup_elem m k) →
    map_sim (map_store mb (enc ck k) (enc cv v)) (map_store m k v);
}.
Arguments map_sim {K V} ck cv {Mb M _ _ _} _ _ : assert.

Section bounded.
Context {K V : Type} `{Countable K} (ck : codec K) (cv : codec V) (N : nat).
Implicit Types (mb : gmap bytes bytes) (m : gmap K V).

(** Every entry is typed, and the byte map holds the encoded entries only. *)
Definition encodes mb m : Prop :=
  map_Forall (λ k v, typed ck k ∧ typed cv v ∧ mb !! enc ck k = Some (enc cv v)) m ∧
  map_Forall (λ kb _, ∃ k, k ∈ dom m ∧ kb = enc ck k) mb.

Lemma encodes_lookup mb m k :
  encodes mb m → typed ck k → mb !! enc ck k = enc cv <$> m !! k.
Proof.
  intros [Hm Hb] Hk. destruct (m !! k) as [v|] eqn:E; [apply (Hm _ _ E)|].
  destruct (mb !! enc ck k) as [b|] eqn:Eb; [|done]. exfalso.
  destruct (Hb _ _ Eb) as (k' & [v Hk']%elem_of_dom & He).
  destruct (Hm _ _ Hk') as (Ht & _). apply enc_inj in He; [|done..]. congruence.
Qed.

Lemma encodes_size mb m : encodes mb m → size mb = size m.
Proof.
  intros [Hm Hb]. rewrite <- (size_dom (D:=gset bytes) mb), <- (size_dom (D:=gset K) m).
  assert (dom mb = list_to_set (C:=gset bytes) (enc ck <$> elements (dom m))) as ->.
  { apply set_eq. intros kb. rewrite elem_of_list_to_set, list_elem_of_fmap. split.
    - intros [b Hkb]%elem_of_dom. destruct (Hb _ _ Hkb) as (k & Hk & ->). exists k.
      by rewrite elem_of_elements.
    - intros (k & -> & Hk%elem_of_elements). apply elem_of_dom in Hk as [v Hk].
      destruct (Hm _ _ Hk) as (_ & _ & E). apply elem_of_dom. eauto. }
  rewrite size_list_to_set, length_fmap; [done|]. apply NoDup_fmap_2_strong; [|apply NoDup_elements].
  intros k k' [v Hk]%elem_of_elements%elem_of_dom [v' Hk']%elem_of_elements%elem_of_dom.
  apply enc_inj; [apply (Hm _ _ Hk)|apply (Hm _ _ Hk')].
Qed.

Lemma encodes_insert mb m k v :
  encodes mb m → typed ck k → typed cv v → encodes (<[enc ck k := enc cv v]> mb) (<[k := v]> m).
Proof.
  intros [Hm Hb] Hk Hv. split.
  - intros k' v' [[<- <-]|[Hne Hk']]%lookup_insert_Some.
    + by rewrite lookup_insert_eq.
    + destruct (Hm _ _ Hk') as (? & ? & ?). split_and!; [done..|].
      rewrite lookup_insert_ne; [done|]. intros ?%enc_inj; done.
  - intros kb b [[<- <-]|[Hne Hkb]]%lookup_insert_Some.
    + exists k. split; [|done]. rewrite dom_insert. set_solver.
    + destruct (Hb _ _ Hkb) as (k' & ? & ->). exists k'. split; [|done].
      rewrite dom_insert. set_solver.
Qed.

#[export, refine] Instance bounded_map_sim :
    MapSim ck cv (bounded_map N bytes bytes) (bounded_map N K V) :=
  {| map_sim x y := encodes (bm_map x) (bm_map y) |}.
Proof.
  - intros x y k Hs Hk. by apply encodes_lookup.
  - intros x y k v [Hm _] Hk. apply (Hm _ _ Hk).
  - intros x y k v Hs Hk Hv. pose proof (encodes_insert _ _ _ _ Hs Hk Hv) as Hi. simpl.
    rewrite (encodes_size _ _ Hi). case_bool_decide; [|done]. split; [done|]. cbn [snd].
    rewrite !bm_keep_map; [done|done|]. by rewrite (encodes_size _ _ Hi).
  - intros x y k v Hs Hk Hv Hk'. simpl. rewrite (encodes_lookup _ _ _ Hs Hk).
    rewrite !decide_True by (destruct Hk' as [w E]; simpl in E; rewrite E; eauto).
    rewrite !bm_keep_map; [by apply encodes_insert|..].
    + rewrite bm_size_insert by done. apply bm_size.
    + rewrite bm_size_insert; [apply bm_size|]. rewrite (encodes_lookup _ _ _ Hs Hk).
      destruct Hk' as [w E]; simpl in E; rewrite E; eauto.
Defined.
End bounded.

(** ** The program on bytes simulates the program on records *)

Section simulation.
Context {MAb MMb MCb MA MM MC : Type}.
Context `{!BpfHashMap MAb bytes bytes, !BpfHashMap MMb bytes bytes, !BpfHashMap MCb bytes bytes}.
Context `{!BpfHashMap MA ip_port_key tuning_action, !BpfHashMap MM Z tuning_metrics}.
Context `{!BpfHashMap MC Z Z}.
Context `{!MapSim key_codec action_codec MAb MA}.
Context `{!MapSim (word_codec 4) metrics_codec MMb MM}.
Context `{!MapSim (word_codec 8) (word_codec 4) MCb MC}.

#[local] Arguments le_bytes : simpl never.
#[local] Arguments place : simpl never.
Implicit Types (sb : bpf_state MAb MMb MCb) (s : bpf_state MA MM MC).

(** The three maps hold the same entries. *)
Definition shared sb s : Prop :=
  map_sim key_codec action_codec (action_map sb) (action_map s) ∧
  map_sim (word_codec 4) metrics_codec (metrics_map sb) (metrics_map s) ∧
  map_sim (word_codec 8) (word_codec 4) (cookie_pid_map sb) (cookie_pid_map s).

(** From shared states, two computations give related results, emit the same
    calls and end in shared states. *)
Definition simulates {A B} (Q : A → B → Prop)
    (cb : prog (MA:=MAb) (MM:=MMb) (MC:=MCb) A) (c : prog (MA:=MA) (MM:=MM) (MC:=MC) B) : Prop :=
  ∀ h sb s, helpers_typed h → shared sb s →
    Q (cb h sb).1.1 (c h s).1.1 ∧ shared (cb h sb).1.2 (c h s).1.2 ∧ (cb h sb).2 = (c h s).2.

Lemma simulates_ret {A B} (Q : A → B → Prop) x y : Q x y → simulates Q (mret x) (mret y).
Proof. intros HQ h sb s _ Hs. exact (conj HQ (conj Hs eq_refl)). Qed.

Lemma simulates_bind {A B A' B'} (Q : A → B → Prop) (Q' : A' → B' → Prop) cb c fb f :
  simulates Q cb c → (∀ x y, Q x y → simulates Q' (fb x) (f y)) →
  simulates Q' (cb ≫= fb) (c ≫= f).
Proof.
  intros Hc Hf h sb s Hh Hs. destruct (Hc h sb s Hh Hs) as (HQ & H1 & He).
  unfold mbind, prog_bind. destruct (cb h sb) as [[x sb1] e1], (c h s) as [[y s1] e2]. cbn in *. subst.
  destruct (Hf _ _ HQ h _ _ Hh H1) as (HQ' & H2 & He').
  destruct (fb x h sb1) as [[x' sb2] e1'], (f y h s1) as [[y' s2] e2']. cbn in *. by subst.
Qed.

Lemma simulates_ask {A B} (Q : A → B → Prop) f g :
  (∀ h, helpers_typed h → Q (f h) (g h)) → simulates Q (ask f) (ask g).
Proof. intros HQ h sb s Hh Hs. exact (conj (HQ h Hh) (conj Hs eq_refl)). Qed.

Lemma simulates_emit c : simulates eq (emit c) (emit c).
Proof. intros h sb s _ Hs. exact (conj eq_refl (conj Hs eq_refl)). Qed.

Lemma simulates_when b cb c : simulates eq cb c → simulates eq (when b cb) (when b c).
Proof. intros Hc. destruct b; [done|]. by apply simulates_ret. Qed.

(** Lookups: both sides find a value, the bytes of one are the other. *)
Lemma simulates_pid cookie fb f :
  fits 64 cookie → (∀ p, fits 32 p → simulates eq (fb (le_bytes 4 p)) (f p)) →
  simulates (A:=()) eq
    (found ← Bytes.lookup_pid (le_bytes 8 cookie);
     if negb found then mret tt else bs ← Bytes.deref_pid (le_bytes 8 cookie); fb bs)
    (o ← lookup_pid cookie; match o with None => mret tt | Some p => f p end).
Proof.
  intros Hc Hf h sb s Hh Hs. pose proof Hs as (_ & _ & Hs').
  pose proof (sim_lookup _ _ cookie Hs' Hc) as Hl. cbn [enc word_codec] in Hl.
  unfold mbind, prog_bind, Bytes.lookup_pid, Bytes.deref_pid, lookup_pid. rewrite Hl.
  destruct (map_lookup_elem (cookie_pid_map s) cookie) as [p|] eqn:Ho; cbn; rewrite ?Hl; cbn.
  - specialize (Hf p (sim_typed _ _ _ _ Hs' Ho) h sb s Hh Hs). revert Hf.
    destruct (fb _ h sb) as [[[] ?] ?], (f p h s) as [[[] ?] ?]. done.
  - exact (conj eq_refl (conj Hs eq_refl)).
Qed.

Lemma simulates_metrics pid cb c :
  fits 32 pid → simulates eq cb c →
  simulates (A:=()) eq
    (found ← Bytes.lookup_metrics (le_bytes 4 pid); if negb found then mret tt else cb)
    (o ← lookup_metrics pid; match o with None => mret tt | Some _ => c end).
Proof.
  intros Hp Hc h sb s Hh Hs. pose proof Hs as (_ & Hs' & _).
  pose proof (sim_lookup _ _ pid Hs' Hp) as Hl. cbn [enc word_codec] in Hl.
  unfold mbind, prog_bind, Bytes.lookup_metrics, lookup_metrics. rewrite Hl.
  destruct (map_lookup_elem (metrics_map s) pid) as [m|]; cbn;
    [|exact (conj eq_refl (conj Hs eq_refl))].
  specialize (Hc h sb s Hh Hs). revert Hc.
  by destruct (cb h sb) as [[[] ?] ?], (c h s) as [[[] ?] ?].
Qed.

(** A store to the member [x] is a store to the [i]th member of the record. *)
Lemma simulates_store pid x v (f : tuning_metrics → tuning_metrics) i :
  fits 32 pid → places metrics_layout !! i = Some (place metrics_layout x) →
  (∀ m, metrics_members (f m) = <[i:=v]> (metrics_members m)) →
  (∀ m, metrics_typed m → metrics_typed (f m)) →
  simulates eq (Bytes.store_metrics (le_bytes 4 pid) x v) (store_metrics pid f).
Proof.
  intros Hp Hi Hm Ht h sb s Hh (Ha & Hs & Hc). unfold Bytes.store_metrics, store_metrics.
  pose proof (sim_lookup _ _ pid Hs Hp) as Hl. cbn [enc word_codec] in Hl. rewrite Hl.
  destruct (map_lookup_elem (metrics_map s) pid) as [m|] eqn:E; cbn; [|done].
  pose proof (sim_typed _ _ _ _ Hs E) as Hmt. cbn in Hmt.
  assert (is_Some (metrics_members m !! i)) as [w Hw].
  { apply lookup_lt_is_Some. apply lookup_lt_Some in Hi. exact Hi. }
  rewrite (store_struct _ _ _ _ _ _ (metrics_fields_ok _ Hmt) Hi Hw), <- Hm.
  split; [done|]. split; [|done]. split_and!; try done.
  apply (sim_store (ck:=word_codec 4) (cv:=metrics_codec)); try done. by apply Ht.
Qed.

Lemma simulates_load pid x (f : tuning_metrics → Z) i :
  fits 32 pid → places metrics_layout !! i = Some (place metrics_layout x) →
  (∀ m, metrics_members m !! i = Some (f m)) →
  simulates eq (Bytes.load_metrics (le_bytes 4 pid) x) (load_metrics pid f).
Proof.
  intros Hp Hi Hm h sb s Hh Hs. pose proof Hs as (_ & Hs' & _).
  unfold Bytes.load_metrics, Bytes.deref_metrics, load_metrics, mbind, prog_bind. cbn.
  pose proof (sim_lookup _ _ pid Hs' Hp) as Hl. cbn [enc word_codec] in Hl. rewrite Hl.
  split; [|done]. destruct (map_lookup_elem (metrics_map s) pid) as [m|] eqn:E; cbn.
  - pose proof (sim_typed _ _ _ _ Hs' E) as Hmt.
    by apply (load_struct _ _ _ _ _ _ (metrics_fields_ok _ Hmt) Hi).
  - unfold load, fetch. by rewrite drop_nil, take_nil.
Qed.

Lemma simulates_update_pid cookie pid :
  fits 64 cookie → fits 32 pid →
  simulates eq (Bytes.update_cookie_pid (le_bytes 8 cookie) (le_bytes 4 pid)) (update_cookie_pid cookie pid).
Proof.
  intros Hc Hp h sb s Hh (Ha & Hm & Hs). unfold Bytes.update_cookie_pid, update_cookie_pid.
  pose proof (sim_update (ck:=word_codec 8) (cv:=word_codec 4) _ _ cookie pid Hs Hc Hp) as [Hr Hs'].
  cbn [enc word_codec] in *.
  by destruct (map_update_elem (cookie_pid_map sb) _ _ _), (map_update_elem (cookie_pid_map s) _ _ _).
Qed.

Lemma simulates_update_metrics pid m :
  fits 32 pid → metrics_typed m →
  simulates eq (Bytes.update_metrics_map (le_bytes 4 pid) (enc metrics_codec m)) (update_metrics_map pid m).
Proof.
  intros Hp Ht h sb s Hh (Ha & Hs & Hc). unfold Bytes.update_metrics_map, update_metrics_map.
  pose proof (sim_update (ck:=word_codec 4) (cv:=metrics_codec) _ _ pid m Hs Hp Ht) as [Hr Hs'].
  cbn [enc word_codec] in *.
  by destruct (map_update_elem (metrics_map sb) _ _ _), (map_update_elem (metrics_map s) _ _ _).
Qed.

(** What is loaded fits its width. *)
Lemma load_fits o n bs : 0 ≤ n → Forall is_byte bs → fits (8 * n) (load (o, n) bs).
Proof.
  intros Hn Hb. unfold load, fetch. cbn [fst snd].
  pose proof (le_value_bound (take (Z.to_nat n) (drop (Z.to_nat o) bs))) as H.
  destruct H as [H1 H2]; [by apply Forall_take, Forall_drop|]. split; [done|].
  eapply Z.lt_le_trans; [exact H2|]. change 256 with (2 ^ 8). rewrite <- Z.pow_mul_r by lia.
  apply Z.pow_le_mono_r; [lia|]. rewrite length_take. lia.
Qed.

Lemma context_of_typed skops : context_ok skops → ctx_typed (context_of skops).
Proof. intros [_ Hb]. unfold ctx_typed. split_and!; by apply load_fits. Qed.

Ltac typed_member := cbn [metrics_typed set_srtt_us set_total_retrans set_bytes_sent set_bytes_received
  set_duration_us remote_ip remote_port srtt_us total_retrans bytes_sent bytes_received
  start_time_ns duration_us]; intros ? (?&?&?&?&?&?&?&?); split_and!; try done; eauto with tuner.

Ltac store_member i := apply (simulates_store _ _ _ _ i); [done|reflexivity|reflexivity|unfold metrics_typed; typed_member].

Lemma simulates_callback skops :
  context_ok skops → simulates eq (Bytes.update_metrics skops) (update_metrics (context_of skops)).
Proof.
  intros Hk. destruct (context_of_typed _ Hk) as (_&_&_&_&Hsr&_&Hre&Hbr&Hba).
  unfold Bytes.update_metrics, update_metrics.
  eapply (simulates_bind (λ x y, x = y ∧ fits 64 y)); [apply simulates_ask; by intros h (?&?&?)|].
  intros ? cookie [-> Hc]. cbv zeta. apply simulates_pid; [done|]. intros pid Hp.
  assert (load (0, 4) (le_bytes 4 pid) = pid) as -> by (by apply (le_value_bytes_fits 4)).
  apply simulates_metrics; [done|].
  eapply (simulates_bind eq); [store_member 2%nat|intros _ _ _].
  eapply (simulates_bind eq); [store_member 3%nat|intros _ _ _].
  eapply (simulates_bind eq); [store_member 4%nat|intros _ _ _].
  eapply (simulates_bind eq); [store_member 5%nat|intros _ _ _].
  eapply (simulates_bind eq); [by apply (simulates_load _ _ _ 6)|]. intros ? start ->.
  apply simulates_when.
  eapply (simulates_bind (λ x y, x = y ∧ fits 64 y)); [apply simulates_ask; by intros h (?&?&?)|].
  intros ? now [-> Hn].
  eapply (simulates_bind eq); [by apply (simulates_load _ _ _ 6)|]. intros ? start' ->.
  store_member 7%nat.
Qed.

(** The initial record, built in place on a zeroed stack. *)
Lemma initial_bytes start rip rport :
  fits 64 start → fits 32 rip →
  store (place metrics_layout "remote_port") rport
    (store (place metrics_layout "remote_ip") rip
       (store (place metrics_layout "start_time_ns") start (zeroed metrics_size))) =
  enc metrics_codec (TuningMetrics rip rport 0 0 0 0 start 0).
Proof.
  intros Hs Hr. assert (fits 32 0 ∧ fits 64 0) as [H32 H64] by done.
  change (zeroed metrics_size) with (enc metrics_codec (TuningMetrics 0 0 0 0 0 0 0 0)).
  cbn [enc metrics_codec struct_codec].
  rewrite (store_struct _ _ _ 6 _ 0), (store_struct _ _ _ 0 _ 0), (store_struct _ _ _ 1 _ 0);
    try reflexivity;
    [by apply (metrics_fields_ok (TuningMetrics rip 0 0 0 0 0 start 0))
    |by apply (metrics_fields_ok (TuningMetrics 0 0 0 0 0 0 start 0))
    |by apply (metrics_fields_ok (TuningMetrics 0 0 0 0 0 0 0 0))].
Qed.

Lemma simulates_connect skops :
  context_ok skops → simulates eq (Bytes.on_tcp_connect skops) (on_tcp_connect (context_of skops)).
Proof.
  intros Hk. destruct (context_of_typed _ Hk) as (_&_&Hip&Hport&_).
  unfold Bytes.on_tcp_connect, on_tcp_connect.
  eapply (simulates_bind (λ x y, x = y ∧ fits 64 y)); [apply simulates_ask; by intros h (?&?&?)|].
  intros ? cookie [-> Hc]. cbv zeta.
  eapply (simulates_bind (λ x y, x = y ∧ fits 64 y)); [apply simulates_ask; by intros h (?&?&?)|].
  intros ? tgid [-> Ht].
  assert (le_bytes 4 (Z.shiftr tgid 32) = le_bytes 4 (u32 (Z.shiftr tgid 32))) as ->.
  { symmetry. apply (le_bytes_wrap 4). }
  assert (fits 32 (u32 (Z.shiftr tgid 32))) as Hp by (apply wrap_fits; lia).
  eapply (simulates_bind eq); [by apply simulates_update_pid|intros _ _ _].
  eapply (simulates_bind (λ x y, x = y ∧ fits 64 y)); [apply simulates_ask; by intros h (?&?&?)|].
  intros ? now [-> Hn]. rewrite initial_bytes by done.
  eapply (simulates_bind eq); [|intros _ _ _; by apply simulates_ret].
  apply simulates_update_metrics; [done|].
  assert (fits 32 0 ∧ fits 64 0) as [H32 H64] by done. split_and!; try done. apply bswap32_fits.
Qed.

(** The option a parameter asks for, read through the pointer. *)
Lemma set_if_positive_bytes level optname key x (f : tuning_action → Z) act i h sb :
  map_lookup_elem (action_map sb) key = Some (enc action_codec act) → action_typed act →
  places action_layout !! i = Some (place action_layout x) → (place action_layout x).2 = 4 →
  action_members act !! i = Some (f act) →
  Bytes.set_if_positive level optname key x h sb =
    (tt, sb, opt_list (bpf_setsockopt level optname <$> positive f act)).
Proof.
  intros Hk Ht Hi H4 Hf. cbn [enc action_codec struct_codec] in Hk. unfold Bytes.set_if_positive, Bytes.deref_action, mbind, prog_bind. cbn.
  rewrite Hk. cbn [default from_option id]. pose proof (action_fields_ok _ Ht) as Hok.
  rewrite (load_struct _ _ _ _ _ _ Hok Hi Hf). unfold positive, when.
  destruct (0 <? f act); [|done]. cbn. rewrite Hk. cbn [default from_option id].
  rewrite (fetch_struct _ _ _ _ _ _ Hok Hi Hf), H4. done.
Qed.

Lemma set_congestion_bytes key act h sb :
  map_lookup_elem (action_map sb) key = Some (enc action_codec act) → action_typed act →
  Bytes.set_congestion key h sb =
    (tt, sb, opt_list (bpf_setsockopt SOL_TCP TCP_CONGESTION <$> congestion_name act)).
Proof.
  intros Hk Ht. cbn [enc action_codec struct_codec] in Hk. unfold Bytes.set_congestion, Bytes.deref_action, mbind, prog_bind. cbn.
  rewrite Hk. cbn [default from_option id].
  rewrite (load_struct _ _ _ 2 _ (cong_algo act) (action_fields_ok _ Ht)) by reflexivity.
  unfold when, congestion_name.
  destruct (Z.ltb_spec 0 (cong_algo act)).
  2:{ replace (cong_algo act =? 1) with false by lia.
      by replace (cong_algo act =? 2) with false by lia. }
  cbn. rewrite Hk. cbn [default from_option id].
  rewrite (load_struct _ _ _ 2 _ (cong_algo act) (action_fields_ok _ Ht)) by reflexivity.
  destruct (cong_algo act =? 1); [done|]. cbn. rewrite Hk. cbn [default from_option id].
  rewrite (load_struct _ _ _ 2 _ (cong_algo act) (action_fields_ok _ Ht)) by reflexivity.
  by destruct (cong_algo act =? 2).
Qed.

Lemma apply_action_bytes key act h sb :
  map_lookup_elem (action_map sb) key = Some (enc action_codec act) → action_typed act →
  Bytes.apply_action key h sb = (tt, sb, tuning_calls act).
Proof.
  intros Hk Ht. unfold Bytes.apply_action, mbind, prog_bind.
  rewrite (set_if_positive_bytes _ _ _ _ max_pacing_rate act 0) by done. cbn beta iota.
  rewrite (set_if_positive_bytes _ _ _ _ snd_cwnd_clamp act 1) by done. cbn beta iota.
  rewrite (set_congestion_bytes _ act) by done. cbn beta iota.
  rewrite (set_if_positive_bytes _ _ _ _ init_cwnd act 3) by done. cbn beta iota.
  rewrite (set_if_positive_bytes _ _ _ _ window_clamp act 4) by done. cbn beta iota.
  rewrite (set_if_positive_bytes _ _ _ _ no_delay act 5) by done. cbn beta iota.
  rewrite (set_if_positive_bytes _ _ _ _ retrans_after act 7) by done. cbn beta iota.
  rewrite (set_if_positive_bytes _ _ _ _ keepalive_idle act 10) by done. cbn beta iota.
  unfold tuning_calls, tuning_table. rewrite !omap_cons_opt. cbn [omap list_omap fst snd].
  by rewrite app_nil_r.
Qed.

Lemma simulates_established key skops :
  key_typed key →
  simulates eq (Bytes.on_established (enc key_codec key) skops) (on_established key (context_of skops)).
Proof.
  intros Hk h sb s Hh Hs. pose proof Hs as (Ha & _).
  pose proof (sim_lookup _ _ key Ha Hk) as Hl.
  unfold Bytes.on_established, Bytes.lookup_action, on_established, lookup_action, mbind, prog_bind.
  destruct (map_lookup_elem (action_map s) key) as [act|] eqn:E; cbn in Hl |- *; rewrite Hl; cbn.
  - rewrite apply_action_spec, (apply_action_bytes _ act); [by cbn|done|].
    by apply (sim_typed _ _ _ _ Ha E).
  - by cbn.
Qed.

(** The key, built in place on a zeroed stack. *)
Lemma key_bytes rip :
  fits 32 rip →
  store (place key_layout "port") 0 (store (place key_layout "ip") rip (zeroed key_size)) =
  enc key_codec (IpPortKey rip 0).
Proof.
  intros Hr. change (zeroed key_size) with (enc key_codec (IpPortKey 0 0)).
  cbn [enc key_codec struct_codec].
  rewrite (store_struct _ _ _ 0 _ 0), (store_struct _ _ _ 1 _ 0);
    try reflexivity; [by apply (key_fields_ok (IpPortKey rip 0))|by apply (key_fields_ok (IpPortKey 0 0))].
Qed.

Lemma simulates_sockmap skops :
  context_ok skops → simulates eq (Bytes.bpf_sockmap skops) (bpf_sockmap (context_of skops)).
Proof.
  intros Hk. pose proof (context_of_typed _ Hk) as (_&_&Hip&_).
  unfold Bytes.bpf_sockmap, bpf_sockmap. cbn [context_of Ctx.family Ctx.op Ctx.remote_ip4] in *.
  destruct (negb _); [by apply simulates_ret|]. cbv zeta. rewrite key_bytes by done.
  eapply (simulates_bind eq); [|intros _ _ _; by apply simulates_ret].
  repeat (case_match; [|]); [by apply simulates_connect|by apply simulates_established|by apply simulates_callback..|by apply simulates_ret].
Qed.

(** ** The agent *)

Lemma ipToKey_typed ipStr port k : ipToKey ipStr port = inr k → key_typed k.
Proof.
  unfold ipToKey. destruct (ParseIP _ ≫= To4) as [bs|] eqn:E; intros; simplify_eq.
  apply bind_Some in E as (addr & Ha%ParseIP_bytes & [Hl Hb]%To4_bytes); [|done].
  split; [by apply le_value_fits32|done].
Qed.

Lemma SetAction_sim ipStr prt act sb s :
  action_typed act → shared sb s →
  (Bytes.SetAction ipStr prt act sb).1 = (SetAction ipStr prt act s).1 ∧
  shared (Bytes.SetAction ipStr prt act sb).2 (SetAction ipStr prt act s).2.
Proof.
  intros Ht Hs. pose proof Hs as (Ha & Hm & Hc). unfold Bytes.SetAction, SetAction.
  destruct (ipToKey ipStr prt) as [err|k] eqn:Hk; [done|]. apply ipToKey_typed in Hk.
  change (Bytes.marshal_key k) with (enc key_codec k).
  change (Bytes.marshal_action act) with (enc action_codec act).
  pose proof (sim_update (ck:=key_codec) (cv:=action_codec) _ _ k act Ha Hk Ht) as [Hr Hs'].
  destruct (map_update_elem (action_map sb) _ _ _), (map_update_elem (action_map s) _ _ _).
  cbn [fst snd] in *. by subst.
Qed.

(** The Go struct read from the image of a record is the record. *)
Lemma unmarshal_enc m : metrics_typed m → Bytes.unmarshal_metrics (enc metrics_codec m) = m.
Proof.
  intros Hm%metrics_fields_ok. unfold Bytes.unmarshal_metrics. cbn [enc metrics_codec struct_codec].
  rewrite (load_struct _ _ _ 0 _ (remote_ip m) Hm), (load_struct _ _ _ 1 _ (remote_port m) Hm),
    (load_struct _ _ _ 2 _ (srtt_us m) Hm), (load_struct _ _ _ 3 _ (total_retrans m) Hm),
    (load_struct _ _ _ 4 _ (bytes_sent m) Hm), (load_struct _ _ _ 5 _ (bytes_received m) Hm),
    (load_struct _ _ _ 6 _ (start_time_ns m) Hm), (load_struct _ _ _ 7 _ (duration_us m) Hm);
    [by destruct m|reflexivity..].
Qed.

Lemma GetMetricForPid_sim pid sb s :
  fits 32 pid → shared sb s → Bytes.GetMetricForPid pid sb = GetMetricForPid pid s.
Proof.
  intros Hp (_ & Hm & _). unfold Bytes.GetMetricForPid, GetMetricForPid, Bytes.marshal_pid.
  pose proof (sim_lookup _ _ pid Hm Hp) as Hl. cbn [enc word_codec] in Hl. rewrite Hl.
  destruct (map_lookup_elem (metrics_map s) pid) as [m|] eqn:E; [|done]. cbn [fmap option_fmap option_map].
  rewrite unmarshal_enc; [done|]. by apply (sim_typed _ _ _ _ Hm E).
Qed.

(** Each access has the same outcome on both sides. *)
Lemma access_sim a sb s :
  access_ok a → shared sb s →
  (access_bytes a sb).1 = (access_records a s).1 ∧ shared (access_bytes a sb).2 (access_records a s).2.
Proof.
  destruct a as [h skops|ipStr prt act|pid]; cbn [access_ok access_bytes access_records].
  - intros [Hh Hk] Hs. destruct (simulates_sockmap skops Hk h sb s Hh Hs) as (Hr & Hs' & He).
    destruct (Bytes.bpf_sockmap skops h sb) as [[? ?] ?], (bpf_sockmap (context_of skops) h s) as [[? ?] ?].
    cbn [fst snd] in *. by subst.
  - intros Ht Hs. destruct (SetAction_sim ipStr prt act sb s Ht Hs) as [Hr Hs'].
    destruct (Bytes.SetAction ipStr prt act sb), (SetAction ipStr prt act s).
    cbn [fst snd] in *. by subst.
  - intros Hp Hs. cbn [fst snd]. by rewrite (GetMetricForPid_sim pid sb s Hp Hs).
Qed.

(** C9.  The bytes of the maps implement the records.  Take the maps as the kernel
    keeps them, bytes to bytes: the program loads and stores the members of its
    structs at the offsets that the C declarations give them, out of a context of
    [sizeof (struct bpf_sock_ops)] arbitrary bytes, and builds keys and records on a
    zeroed stack; the agent stores and loads Go structs.  Then every sequence of
    invocations, of actions set and of metrics looked up has the outcomes (return
    values, helper calls with the bytes of their arguments, errors, metrics) that
    it has on the records of [SocketTuner] and [Agent], and the maps keep holding
    the same entries. *)
Theorem bytes_refine_records l sb s :
  Forall access_ok l → shared sb s →
  (perform access_bytes l sb).1 = (perform access_records l s).1 ∧
  shared (perform access_bytes l sb).2 (perform access_records l s).2.
Proof.
  intros Hl. revert sb s. induction Hl as [|a l Ha _ IH]; intros sb s Hs; [done|]. cbn [perform].
  destruct (access_sim a sb s Ha Hs) as [Ho H1].
  destruct (access_bytes a sb) as [o sb1], (access_records a s) as [o' s1]. cbn [fst snd] in *.
  destruct (IH _ _ H1) as [Hos H2].
  destruct (perform access_bytes l sb1), (perform access_records l s1). cbn [fst snd] in *.
  by subst.
Qed.

End simulation.

(** ** Instance *)

Abbreviation N := 4%nat.

(** A context with the given members at their offsets, zero elsewhere. *)
Definition sample_context (k : bpf_sock_ops) : bytes :=
  store (place context_layout "op") (Ctx.op k)
    (store (place context_layout "family") (Ctx.family k)
      (store (place context_layout "remote_ip4") (Ctx.remote_ip4 k)
        (store (place context_layout "remote_port") (Ctx.remote_port k)
          (store (place context_layout "srtt_us") (Ctx.srtt_us k)
            (store (place context_layout "total_retrans") (Ctx.total_retrans k)
              (store (place context_layout "bytes_received") (Ctx.bytes_received k)
                (store (place context_layout "bytes_acked") (Ctx.bytes_acked k)
                  (zeroed context_size)))))))).

Definition sample_invoked (i : helpers * bpf_sock_ops) : access := Invoked i.1 (sample_context i.2).

(** An episode seen from the maps: the action, a connection, what is observed. *)
Definition sample_accesses : list access := [
  SetsAction "142.250.1.1" 443 SocketTunerProps.sample_action;
  sample_invoked SocketTunerProps.sample_connect;
  sample_invoked SocketTunerProps.sample_established;
  sample_invoked SocketTunerProps.sample_close;
  GetsMetric 4242].

Definition no_bytes : bpf_state (bounded_map N bytes bytes) (bounded_map N bytes bytes)
    (bounded_map N bytes bytes) := BpfState bm_empty bm_empty bm_empty.
Definition no_records : bpf_state (bounded_map N ip_port_key tuning_action)
    (bounded_map N Z tuning_metrics) (bounded_map N Z Z) := BpfState bm_empty bm_empty bm_empty.

Lemma no_entries : shared no_bytes no_records.
Proof. split_and!; split; apply map_Forall_empty. Qed.

Lemma context_ok_check skops :
  (Z.of_nat (length skops) =? context_size) && forallb (λ b, (0 <=? b) && (b <? 256)) skops = true →
  context_ok skops.
Proof.
  intros [Hl Hb]%andb_true_iff. split; [lia|]. apply Forall_forall. intros b Hin.
  rewrite forallb_forall in Hb. apply list_elem_of_In, Hb in Hin. unfold is_byte, fits. lia.
Qed.

Lemma bytes_refine_records_witness :
  (perform access_bytes sample_accesses no_bytes).1 =
  (perform access_records sample_accesses no_records).1.
Proof.
  refine (proj1 (bytes_refine_records sample_accesses no_bytes no_records _ no_entries)).
  apply Forall_cons_2; [repeat split; vm_compute; (reflexivity || discriminate)|].
  do 3 (apply Forall_cons_2;
    [split; [repeat split; vm_compute; (reflexivity || discriminate)
            |apply context_ok_check; vm_compute; reflexivity]|]).
  apply Forall_cons_2; [split; vm_compute; (reflexivity || discriminate)|apply Forall_nil_2].
Defined.
