(* ===== verification/AgentThreads.v ===== *)
(** * The agent under concurrent requests

    [grpc.Server] runs every request in a goroutine of its own, and nothing in
    [internal/executor/executor.go], [ebpfmgr/manager.go] or
    [internal/grpcserver/server.go] holds a lock.  Here a handler is a thread: the
    tree of its accesses to what the goroutines share, the field [lastCommand], the
    maps and the operating system.  A Go string is two words, a pointer to its bytes
    and their number, and [lastCommand] is stored and loaded a word at a time.
    [alone] runs a thread by itself, which is the handler of [Agent]; [history]
    interleaves any number of them, at every access, with each other and with the
    invocations of the BPF program. *)
From S2P Require Import Prelude BpfMaps SocketTuner SocketTunerFacts Sha256 Executor NetIP Agent.
Local Open Scope Z_scope.

Module Threads.

(** An access to what is shared, by the type of its answer.  A pointer to the bytes
    of a string is the string it was made from; [None] is nil. *)
Inductive access : Type → Type :=
| StoreData (cmd : string) : access unit            (* e.lastCommand = cmd, the pointer *)
| StoreLength (len : nat) : access unit             (* e.lastCommand = cmd, the length *)
| LoadData : access (option string)                 (* e.lastCommand, the pointer *)
| LoadLength : access nat                           (* e.lastCommand, the length *)
| PutAction (key : ip_port_key) (action : tuning_action) : access Z
| LookupMetric (pid : Z) : access (option tuning_metrics)
| Start (parts : list (list Z)) : access (string + Z)            (* cmd.Start() *)
| Wait (pid : Z) : access (option string).                       (* cmd.Wait() *)

Inductive thread (R : Type) :=
| Return (r : R)
| Fault                                (* an invalid read: the process of the agent ends *)
| Access {A : Type} (q : access A) (k : A → thread R).
Arguments Return {R} _.
Arguments Fault {R}.
Arguments Access {R A} _ _.

Fixpoint thread_bind {A B} (f : A → thread B) (t : thread A) : thread B :=
  match t with
  | Return a => f a
  | Fault => Fault
  | Access q k => Access q (λ x, thread_bind f (k x))
  end.

#[export] Instance thread_ret : MRet thread := @Return.
#[export] Instance thread_mbind : MBind thread := @thread_bind.
#[export] Instance thread_fmap : FMap thread := λ A B f t, t ≫= λ x, mret (f x).

Definition do {A} (q : access A) : thread A := Access q Return.

(** What the language leaves to the compiler and the machine: which word of a string
    is stored and which is loaded first, whether the length that [Run] compared is
    loaded again, and the [n] bytes that follow a string in memory, if all of them
    can be read. *)
Record machine := Machine {
  stores_data_first : bool;
  loads_data_first : bool;
  reloads_length : bool;
  beyond : string → nat → option string;
}.

Section handlers.
Context (mc : machine).

(** The [len] bytes at a pointer. *)
Definition bytes_at (data : option string) (len : nat) : option string :=
  if bool_decide (len = 0%nat) then Some EmptyString
  else s ← data;
       if bool_decide (len ≤ String.length s)%nat then Some (String.substring 0 len s)
       else more ← beyond mc s (len - String.length s); Some (s +:+ more).

(** ** [executor.go] *)

(** [e.lastCommand = cmdStr] *)
Definition store_command (cmdStr : string) : thread () :=
  if stores_data_first mc then
    _ ← do (StoreData cmdStr); do (StoreLength (String.length cmdStr))
  else
    _ ← do (StoreLength (String.length cmdStr)); do (StoreData cmdStr).

(** The two words of [e.lastCommand], where its length has been [len]. *)
Definition load_command (len : nat) : thread (option string * nat) :=
  if negb (reloads_length mc) then data ← do LoadData; mret (data, len)
  else if loads_data_first mc then data ← do LoadData; len ← do LoadLength; mret (data, len)
  else len ← do LoadLength; data ← do LoadData; mret (data, len).

Definition SetCommand (cmdStr : string) : thread (option exec_error) :=
  if negb (authorized cmdStr) then mret (Some (unauthorized_command (sha256_hex cmdStr)))
  else _ ← store_command cmdStr; mret None.

(** From the length that was compared on; the bytes are read by [strings.Fields]. *)
Definition run_words (last : option string * nat) : thread (Z * option exec_error) :=
  match bytes_at last.1 last.2 with
  | None => Fault
  | Some last =>
    let parts := Fields last in
    match parts with
    | [] => mret (0, Some empty_command)
    | _ =>
      started ← do (Start parts);
      match started with
      | inl err => mret (0, Some (command_start_failed err))
      | inr p =>
          let pid := u32 p in
          err ← do (Wait p);
          match err with
          | Some err => mret (pid, Some (command_execution_failed err))
          | None => mret (pid, None)
          end
      end
    end
  end.

(** A string is compared with the empty one by its length. *)
Definition Run : thread (Z * option exec_error) :=
  len ← do LoadLength;
  if bool_decide (len = 0%nat) then mret (0, Some no_command_set)
  else last ← load_command len; run_words last.

(** ** [manager.go] *)

Definition SetAction (ipStr : string) (port : Z) (action : tuning_action) : thread (option agent_error) :=
  match ipToKey ipStr port with
  | inl err => mret (Some err)
  | inr key => r ← do (PutAction key action); mret (if r =? 0 then None else Some (map_put_failed r))
  end.

Definition GetMetricForPid (pid : Z) : thread (agent_error + tuning_metrics * string * Z) :=
  metric ← do (LookupMetric pid);
  match metric with
  | None => mret (inl (no_metric_found pid))
  | Some metric => mret (inr (metric, remote_ip_string metric, remote_port metric))
  end.

(** ** [server.go] *)

Definition Reset (command : string) : thread (reply ResetResponse) :=
  err ← SetCommand command;
  match err with
  | Some err => mret (Reply (Some (MkResetResponse false (exec_error_text err) EmptyString None)) None)
  | None =>
      ran ← Run;
      match ran with
      | (_, Some err) =>
          mret (Reply (Some (MkResetResponse false (exec_error_text err) EmptyString None)) None)
      | (pid, None) =>
          metric ← GetMetricForPid pid;
          let obs := match metric with
                     | inr (metric, ipStr, port) => Some (observation_of metric ipStr port)
                     | inl _ => None
                     end in
          mret (Reply (Some (MkResetResponse true "Environment reset. Baseline run complete."
                               EmptyString obs)) None)
      end
  end.

Definition Step (req : StepRequest) : thread (reply StepResponse) :=
  err ← SetAction (TargetIp req) (TargetPort req) (action_of_request req);
  match err with
  | Some err => mret (Reply None (Some err))
  | None =>
      '(pid, _) ← Run;
      metric ← GetMetricForPid pid;
      match metric with
      | inl err => mret (Reply (Some (MkStepResponse true None)) (Some err))
      | inr (metric, ipStr, port) =>
          mret (Reply (Some (MkStepResponse false (Some (observation_of metric ipStr port)))) None)
      end
  end.

(** What a handler returns to the server. *)
Definition agent_reply : Type := reply ResetResponse + reply StepResponse.

Definition serve (r : agent_request) : thread agent_reply :=
  match r with
  | AskReset command => inl <$> Reset command
  | AskStep req => inr <$> Step req
  end.

End handlers.

(** ** Execution *)

(** The two words of the command that an executor holds. *)
Definition words_of (e : Executor) : option string * nat :=
  (if bool_decide (lastCommand e = EmptyString) then None else Some (lastCommand e),
   String.length (lastCommand e)).

Section system.
Context {MA MM MC : Type}.
Context `{!BpfHashMap MA ip_port_key tuning_action}.
Context `{!BpfHashMap MM Z tuning_metrics}.
Context `{!BpfHashMap MC Z Z}.

(** The machine, and the operating system: how the [n]th start of a command ends,
    and how the process with a given id exits. *)
Context (mc : machine).
Context (start : nat → list (list Z) → string + Z) (wait : Z → option string).

(** What the goroutines share: the two words of [lastCommand] and the maps;
    [started] are the commands started so far. *)
Record server := Server {
  command_words : option string * nat;
  maps : bpf_state MA MM MC;
  started : list (list (list Z));
}.

Definition answer {A} (q : access A) (s : server) : A * server :=
  match q in access A return A * server with
  | StoreData cmd => (tt, Server (Some cmd, (command_words s).2) (maps s) (started s))
  | StoreLength len => (tt, Server ((command_words s).1, len) (maps s) (started s))
  | LoadData => ((command_words s).1, s)
  | LoadLength => ((command_words s).2, s)
  | PutAction key action =>
      let '(r, m) := map_update_elem (action_map (maps s)) key action BPF_ANY in
      (r, Server (command_words s) (BpfState m (metrics_map (maps s)) (cookie_pid_map (maps s))) (started s))
  | LookupMetric pid => (map_lookup_elem (metrics_map (maps s)) pid, s)
  | Start parts =>
      (start (length (started s)) parts, Server (command_words s) (maps s) (started s ++ [parts]))
  | Wait pid => (wait pid, s)
  end.

(** The kernel runs the BPF program. *)
Definition invoked (tr : list (helpers * bpf_sock_ops)) (s : server) : server :=
  Server (command_words s) (run tr (maps s)) (started s).

(** A thread by itself, if it does not fault: while it waits for its process the
    program is invoked on the sockets of the process. *)
Fixpoint alone {R} (sockets : Z → list (helpers * bpf_sock_ops)) (t : thread R) (s : server)
    : option R * server :=
  match t with
  | Return r => (Some r, s)
  | Fault => (None, s)
  | Access q k =>
      let s := match q with Wait pid => invoked (sockets pid) s | _ => s end in
      let '(x, s) := answer q s in alone sockets (k x) s
  end.

(** An agent and the handlers that are under way in it; [crowd_running] unless the
    process has faulted, with all its goroutines. *)
Record crowd := Crowd {
  crowd_server : server;
  crowd_threads : list (thread agent_reply);
  crowd_running : bool;
}.

Inductive event :=
| Arrives (r : agent_request)
| Continues (i : nat)
| Invoked (i : helpers * bpf_sock_ops).

Definition happen (ev : event) (c : crowd) : crowd :=
  if negb (crowd_running c) then c else
  match ev with
  | Arrives r => Crowd (crowd_server c) (crowd_threads c ++ [serve mc r]) true
  | Continues i =>
      match crowd_threads c !! i with
      | Some (Access q k) =>
          let '(x, s) := answer q (crowd_server c) in Crowd s (<[i:=k x]> (crowd_threads c)) true
      | Some Fault => Crowd (crowd_server c) (crowd_threads c) false
      | _ => c
      end
  | Invoked i => Crowd (invoked [i] (crowd_server c)) (crowd_threads c) true
  end.

(** Any order of events is possible. *)
Definition history (evs : list event) (c : crowd) : crowd := foldl (flip happen) c evs.

(** An agent that has just been started. *)
Definition fresh_crowd (m : bpf_state MA MM MC) : crowd :=
  Crowd (Server (words_of NewExecutor) m []) [] true.

End system.
End Threads.
