(* ===== verification/AgentThreadsProps.v ===== *)
(** * Properties of the agent under concurrent requests

    What holds of the handlers of [AgentThreads] in every interleaving, what a
    handler does by itself, and what two handlers can do to each other. *)
From S2P Require Import Prelude BpfMaps SocketTuner SocketTunerFacts Sha256 Executor NetIP Agent AgentThreads.
Local Open Scope Z_scope.
Import Threads.

(** ** The words of a string *)

Lemma words_of_nonempty cmd :
  cmd ≠ EmptyString → words_of (MkExecutor cmd) = (Some cmd, String.length cmd) ∧ String.length cmd ≠ 0%nat.
Proof. intros He. split; [|by destruct cmd]. unfold words_of. cbn. by rewrite bool_decide_eq_false_2. Qed.

Lemma bytes_at_whole mc cmd : bytes_at mc (Some cmd) (String.length cmd) = Some cmd.
Proof.
  unfold bytes_at. case_bool_decide as H0; [by destruct cmd|]. cbn.
  rewrite bool_decide_eq_true_2 by lia. f_equal. clear H0. induction cmd as [|a s IH]; [done|]. cbn. by rewrite IH.
Qed.

Lemma bytes_at_prefix mc cmd n :
  n ≠ 0%nat → (n ≤ String.length cmd)%nat → bytes_at mc (Some cmd) n = Some (String.substring 0 n cmd).
Proof. intros. unfold bytes_at. rewrite bool_decide_eq_false_2 by done. cbn. by rewrite bool_decide_eq_true_2. Qed.

Lemma prefix_nonempty cmd n : (0 < n < String.length cmd)%nat → String.substring 0 n cmd ≠ EmptyString.
Proof. destruct cmd, n; cbn; (done || lia). Qed.

Lemma authorized_nonempty cmd : authorized cmd = true → cmd ≠ EmptyString.
Proof. intros Ha ->. revert Ha. by vm_compute. Qed.

(** ** Threads that only start commands made of words of a set *)

Section sound.
Context (mc : machine) (P : string → Prop).

(** The bytes of one command of [P], to the length of another. *)
Definition made_of (parts : list (list Z)) : Prop :=
  ∃ c1 c2 cmd, P c1 ∧ P c2 ∧ bytes_at mc (Some c1) (String.length c2) = Some cmd ∧ parts = Fields cmd.

Definition data_sound (data : option string) : Prop := ∀ c, data = Some c → P c.
Definition length_sound (len : nat) : Prop := len = 0%nat ∨ ∃ c, P c ∧ len = String.length c.

Definition access_sound {A} (q : access A) : Prop :=
  match q with
  | StoreData cmd => P cmd
  | StoreLength len => length_sound len
  | Start parts => made_of parts
  | _ => True
  end.

Definition answer_sound {A} (q : access A) : A → Prop :=
  match q in access A return A → Prop with
  | LoadData => data_sound
  | LoadLength => length_sound
  | _ => λ _, True
  end.

(** Whatever sound answers it gets; [Q] holds of what it returns. *)
Fixpoint thread_sound {R} (Q : R → Prop) (t : thread R) : Prop :=
  match t with
  | Return r => Q r
  | Fault => True
  | Access q k => access_sound q ∧ ∀ x, answer_sound q x → thread_sound Q (k x)
  end.

Abbreviation any := (λ _, True).

Lemma sound_bind {A B} (Q : A → Prop) (Q' : B → Prop) (t : thread A) (f : A → thread B) :
  thread_sound Q t → (∀ a, Q a → thread_sound Q' (f a)) → thread_sound Q' (t ≫= f).
Proof.
  intros Ht Hf. induction t as [r| |A' q k IH]; [by apply Hf|done|]. destruct Ht as [Hq Hk].
  split; [done|]. intros x Hx. by apply IH, Hk.
Qed.

Lemma sound_do {A} (q : access A) : access_sound q → thread_sound (answer_sound q) (do q).
Proof. by intros. Qed.

Lemma SetCommand_sound cmd : (authorized cmd = true → P cmd) → thread_sound any (SetCommand mc cmd).
Proof.
  intros HP. unfold SetCommand. destruct (authorized cmd); [|done]. specialize (HP eq_refl).
  assert (length_sound (String.length cmd)) by (right; eauto).
  unfold store_command. destruct (stores_data_first mc); cbn; by split_and!.
Qed.

Lemma load_command_sound len :
  length_sound len →
  thread_sound (λ w, data_sound w.1 ∧ length_sound w.2) (load_command mc len).
Proof.
  intros Hl. unfold load_command.
  destruct (reloads_length mc), (loads_data_first mc); cbn; (split; [done|]); intros x Hx; try done;
    by (split; [done|]; intros).
Qed.

Lemma run_words_sound w : data_sound w.1 → length_sound w.2 → thread_sound any (run_words mc w).
Proof.
  intros Hd Hl. unfold run_words. destruct (bytes_at mc w.1 w.2) as [cmd|] eqn:Hb; [|done].
  destruct (Fields cmd) as [|p ps] eqn:Hf; [done|]. split.
  - destruct w as [[d|] len]; cbn [fst snd] in *; [|unfold bytes_at in Hb; case_bool_decide; simplify_eq; done].
    destruct Hl as [->|(c & Hc & ->)]; [injection Hb as <-; done|].
    exists d, c, cmd. by split_and!; [apply Hd| | |].
  - intros [err|pid] _; [done|]. split; [done|]. by intros [] _.
Qed.

Lemma Run_sound : thread_sound any (Run mc).
Proof.
  apply sound_bind with length_sound; [by apply sound_do|]. intros len Hl. case_bool_decide; [done|].
  eapply sound_bind; [by apply load_command_sound|]. intros w [??]. by apply run_words_sound.
Qed.

Lemma GetMetricForPid_sound pid : thread_sound any (GetMetricForPid pid).
Proof. split; [done|]. by intros [] _. Qed.

Lemma serve_sound r :
  (∀ cmd, r = AskReset cmd → authorized cmd = true → P cmd) → thread_sound any (serve mc r).
Proof.
  intros HP. destruct r as [cmd|req]; cbn [serve]; apply sound_bind with any; try done.
  - apply sound_bind with any; [by apply SetCommand_sound, HP|]. intros [err|] _; [done|].
    apply sound_bind with any; [apply Run_sound|]. intros [pid [err|]] _; [done|].
    apply sound_bind with any; [apply GetMetricForPid_sound|]. by intros [].
  - apply sound_bind with any; [unfold SetAction; case_match; [done|by split]|].
    intros [err|] _; [done|].
    apply sound_bind with any; [apply Run_sound|]. intros [pid err] _.
    apply sound_bind with any; [apply GetMetricForPid_sound|]. intros [|[[] ]] _; done.
Qed.
End sound.

(** ** Histories *)

Section history.
Context {MA MM MC : Type}.
Context `{!BpfHashMap MA ip_port_key tuning_action}.
Context `{!BpfHashMap MM Z tuning_metrics}.
Context `{!BpfHashMap MC Z Z}.
Context (mc : machine).
Context (start : nat → list (list Z) → string + Z) (wait : Z → option string).

Abbreviation server := (@server MA MM MC).
Abbreviation crowd := (@crowd MA MM MC).
Implicit Types (s : server) (c : crowd) (evs : list event).

(** The words of the command are words of [P], the commands that were started are
    made of such words, the threads under way are sound. *)
Definition server_sound (P : string → Prop) s : Prop :=
  data_sound P (command_words s).1 ∧ length_sound P (command_words s).2 ∧
  Forall (made_of mc P) (started s).

Definition crowd_sound (P : string → Prop) c : Prop :=
  server_sound P (crowd_server c) ∧ Forall (thread_sound mc P (λ _, True)) (crowd_threads c).

Lemma answer_keeps_sound P {A} (q : access A) s :
  access_sound mc P q → server_sound P s →
  answer_sound P q (answer start wait q s).1 ∧ server_sound P (answer start wait q s).2.
Proof.
  intros Hq (Hd & Hl & Hs). destruct q; cbn in *; try (by repeat split).
  - repeat split; try done. by intros ? [= <-].
  - by destruct (map_update_elem _ _ _ _).
  - repeat split; try done. apply Forall_app_2; [done|]. by apply Forall_singleton.
Qed.

Lemma happen_sound P ev c :
  (∀ cmd, ev = Arrives (AskReset cmd) → authorized cmd = true → P cmd) →
  crowd_sound P c → crowd_sound P (happen mc start wait ev c).
Proof.
  intros HP (Hs & Ht). unfold happen. destruct (crowd_running c); [|done].
  destruct ev as [r|i|i]; cbn [negb].
  - split; [done|]. apply Forall_app_2; [done|]. apply Forall_singleton, serve_sound.
    intros cmd ->. by apply HP.
  - destruct (crowd_threads c !! i) as [[r| |A q k]|] eqn:Hi; [done|done| |done].
    destruct (proj1 (Forall_lookup _ _) Ht i _ Hi) as [Hq Hk].
    destruct (answer_keeps_sound P q (crowd_server c) Hq Hs) as (Hx & Hs').
    destruct (answer start wait q (crowd_server c)) as [x s]. split; [done|].
    apply Forall_insert; [done|]. by apply Hk.
  - done.
Qed.

(** C10.  The allow-list is enforced for concurrent requests up to the two words of
    the command.  In every history of an agent, for any number of handlers
    interleaved at every access to what they share, each word of the command
    included, each command that is started is the split of bytes read at a command
    whose digest is in the list and that some client asked for in a reset, as many
    as such a command is long; it is that command itself when the two have the same
    length, so whenever all accepted resets ask for one command. *)
Theorem only_listed_commands_start evs m parts :
  parts ∈ started (crowd_server (history mc start wait evs (fresh_crowd m))) →
  ∃ mine theirs cmd,
    (Arrives (AskReset mine) ∈ evs ∧ sha256_hex mine ∈ allowedHashes) ∧
    (Arrives (AskReset theirs) ∈ evs ∧ sha256_hex theirs ∈ allowedHashes) ∧
    bytes_at mc (Some mine) (String.length theirs) = Some cmd ∧
    (String.length mine = String.length theirs → cmd = mine) ∧
    parts = Fields cmd.
Proof.
  set (P cmd := Arrives (AskReset cmd) ∈ evs ∧ authorized cmd = true). intros Hin.
  assert (∀ evs' c, evs' ⊆ evs → crowd_sound P c → crowd_sound P (history mc start wait evs' c)) as H.
  { unfold history. induction evs' as [|ev evs' IH]; intros c Hsub Hc; [done|].
    apply IH; [set_solver|]. apply happen_sound; [|done]. intros cmd -> Ha. split; [set_solver|done]. }
  destruct (H evs (fresh_crowd m)) as ((_ & _ & Hs) & _); [done|split; [split_and!; [done|by left|constructor]|constructor]|].
  rewrite Forall_forall in Hs. destruct (Hs _ Hin) as (mine & theirs & cmd & [A1 L1] & [A2 L2] & Hb & ->).
  exists mine, theirs, cmd. unfold authorized in L1, L2. apply bool_decide_eq_true_1 in L1, L2.
  split_and!; try done. intros Hlen. rewrite <- Hlen, bytes_at_whole in Hb. by simplify_eq.
Qed.

(** ** A thread by itself *)

(** What running a command does when nothing else is under way: the [n]th
    command is started, and the program is invoked on the sockets of the process. *)
Definition solo (sockets : Z → list (helpers * bpf_sock_ops)) (n : nat)
    (parts : list (list Z)) (m : bpf_state MA MM MC) : spawn_result * bpf_state MA MM MC :=
  match start n parts with
  | inl err => (StartFailed err, m)
  | inr p => (Exited p (wait p), run (sockets p) m)
  end.

Lemma alone_bind {A B} sockets (t : thread A) (f : A → thread B) s :
  alone start wait sockets (t ≫= f) s =
  match alone start wait sockets t s with
  | (Some a, s) => alone start wait sockets (f a) s
  | (None, s) => (None, s)
  end.
Proof.
  revert s. induction t as [r| |A' q k IH]; intros s; [done..|].
  cbn [alone mbind thread_mbind thread_bind].
  destruct (answer _ _ _ _) as [x s']. apply IH.
Qed.

(** The command that [Run] starts, if it starts one. *)
Definition launched (e : Executor) : list (list (list Z)) :=
  match command_line e with inr parts => [parts] | inl _ => [] end.

Lemma alone_load sockets d n m l :
  alone start wait sockets (load_command mc n) (Server (d, n) m l) = (Some (d, n), Server (d, n) m l).
Proof. unfold load_command. by destruct (reloads_length mc), (loads_data_first mc). Qed.

(** The words are those of a string, or of no string that was ever stored. *)
Lemma alone_run_words sockets d n cmd m l :
  n ≠ 0%nat → cmd ≠ EmptyString → bytes_at mc d n = Some cmd →
  alone start wait sockets (Run mc) (Server (d, n) m l) =
    (let '(r, m') := run_command (solo sockets (length l)) (MkExecutor cmd) m in
     (Some r, Server (d, n) m' (l ++ launched (MkExecutor cmd)))).
Proof.
  intros Hn Hc Hb. unfold Run. rewrite alone_bind.
  cbn [do alone answer command_words snd]. rewrite bool_decide_eq_false_2 by done.
  rewrite alone_bind, alone_load. unfold run_words. cbn [fst snd]. rewrite Hb.
  unfold run_command, Executor.Run, launched, command_line, solo. cbn [lastCommand].
  rewrite bool_decide_eq_false_2 by done.
  destruct (Fields cmd) as [|p ps] eqn:Hf; [by rewrite app_nil_r|].
  rewrite alone_bind. cbn.
  destruct (start _ _) as [err|pid]; [done|]. cbn. by destruct (wait pid).
Qed.

Lemma alone_run sockets e m l :
  alone start wait sockets (Run mc) (Server (words_of e) m l) =
    (let '(r, m') := run_command (solo sockets (length l)) e m in
     (Some r, Server (words_of e) m' (l ++ launched e))).
Proof.
  destruct e as [cmd]. destruct (decide (cmd = EmptyString)) as [->|Hc].
  - unfold run_command, launched. cbn. by rewrite app_nil_r.
  - destruct (words_of_nonempty cmd Hc) as [Hw Hl]. rewrite Hw.
    by apply alone_run_words; [| |apply bytes_at_whole].
Qed.

(** What a reset replies when its command has run. *)
Definition reset_reply (ran : Z * option exec_error) (m : bpf_state MA MM MC) : reply ResetResponse :=
  match ran with
  | (_, Some err) => Reply (Some (MkResetResponse false (exec_error_text err) EmptyString None)) None
  | (pid, None) =>
      let obs := match Agent.GetMetricForPid pid m with
                 | inr (metric, ipStr, port) => Some (observation_of metric ipStr port)
                 | inl _ => None
                 end in
      Reply (Some (MkResetResponse true "Environment reset. Baseline run complete." EmptyString obs)) None
  end.

Lemma Reset_listed spawn command e m :
  authorized command = true →
  Agent.Reset spawn command e m =
  (let '(r, m') := run_command spawn (MkExecutor command) m in (reset_reply r m', MkExecutor command, m')).
Proof.
  intros Ha. unfold Agent.Reset, Executor.SetCommand, reset_reply. rewrite Ha. cbn [negb].
  by destruct (run_command _ _ _) as [[pid [err|]] m'].
Qed.

(** A listed command is stored first; then the thread is the same for all. *)
Definition baseline : thread agent_reply :=
  inl <$> (ran ← Run mc;
           match ran with
           | (_, Some err) =>
               mret (Reply (Some (MkResetResponse false (exec_error_text err) EmptyString None)) None)
           | (pid, None) =>
               metric ← GetMetricForPid pid;
               let obs := match metric with
                          | inr (metric, ipStr, port) => Some (observation_of metric ipStr port)
                          | inl _ => None
                          end in
               mret (Reply (Some (MkResetResponse true "Environment reset. Baseline run complete."
                                    EmptyString obs)) None)
           end).

Lemma serve_listed command :
  authorized command = true → serve mc (AskReset command) = store_command mc command ≫= λ _, baseline.
Proof.
  intros Ha. unfold serve, Reset, SetCommand, store_command. rewrite Ha. by destruct (stores_data_first mc).
Qed.

Lemma alone_baseline sockets s r s' :
  alone start wait sockets (Run mc) s = (Some r, s') →
  alone start wait sockets baseline s = (Some (inl (reset_reply r (maps s'))), s').
Proof.
  intros E. unfold baseline, fmap, thread_fmap. rewrite !alone_bind, E. destruct r as [pid [err|]]; [done|].
  rewrite alone_bind. unfold GetMetricForPid, reset_reply, Agent.GetMetricForPid. rewrite alone_bind. cbn.
  by destruct (map_lookup_elem (metrics_map (maps s')) pid).
Qed.

Lemma alone_store sockets command w m l :
  command ≠ EmptyString →
  alone start wait sockets (store_command mc command) (Server w m l) =
  (Some tt, Server (words_of (MkExecutor command)) m l).
Proof.
  intros Hc. destruct (words_of_nonempty command Hc) as [-> _]. unfold store_command.
  by destruct (stores_data_first mc).
Qed.

(** Handlers that do not overlap are atomic: a request that is served alone, while
    the program is invoked on the sockets of its process, does not fault and has the
    reply, the executor and the maps that the handler of [Agent] computes in one
    step. *)
Theorem alone_is_handler sockets r e m l :
  ∃ l',
  alone start wait sockets (serve mc r) (Server (words_of e) m l) =
  match r with
  | AskReset command =>
      let '(rep, e, m) := Agent.Reset (solo sockets (length l)) command e m in
      (Some (inl rep), Server (words_of e) m l')
  | AskStep req =>
      let '(rep, m) := Agent.Step (solo sockets (length l)) req e m in
      (Some (inr rep), Server (words_of e) m l')
  end.
Proof.
  destruct r as [command|req].
  - destruct (authorized command) eqn:Ha.
    + rewrite (serve_listed _ Ha), alone_bind, alone_store by (by apply authorized_nonempty).
      rewrite Reset_listed by done. pose proof (alone_run sockets (MkExecutor command) m l) as Hr.
      destruct (run_command _ _ _) as [r m']. eexists. by rewrite (alone_baseline _ _ _ _ Hr).
    + exists l. unfold serve, Reset, Agent.Reset, SetCommand, Executor.SetCommand. by rewrite Ha.
  - unfold serve, fmap, thread_fmap.
    unfold Step, Agent.Step, SetAction, Agent.SetAction. setoid_rewrite alone_bind. setoid_rewrite alone_bind.
    destruct (ipToKey _ _) as [err|key]; [by exists l|]. setoid_rewrite alone_bind.
    cbn [do alone answer maps].
    destruct (map_update_elem _ _ _ _) as [r m']. cbn [mret thread_ret alone].
    destruct (r =? 0); [|by exists l]. setoid_rewrite alone_bind. cbn [command_words maps started].
    setoid_rewrite alone_run.
    destruct (run_command _ _ _) as [[pid err] m2]. eexists.
    rewrite alone_bind. unfold GetMetricForPid, Agent.GetMetricForPid. rewrite alone_bind. cbn.
    by destruct (map_lookup_elem (metrics_map m2) pid).
Qed.

Lemma history_app evs evs' c :
  history mc start wait (evs ++ evs') c = history mc start wait evs' (history mc start wait evs c).
Proof. apply foldl_app. Qed.

(** Invocations of the program only change the maps. *)
Lemma history_invoked tr s ts :
  history mc start wait (Invoked <$> tr) (Crowd s ts true) = Crowd (invoked tr s) ts true.
Proof. revert s. induction tr as [|i tr IH]; intros s; [by destruct s|]. apply IH. Qed.

(** A handler that nothing overlaps runs to its end in some history. *)
Lemma alone_history sockets i t s ts r s' :
  ts !! i = Some t → alone start wait sockets t s = (Some r, s') →
  ∃ evs, (∀ q, Arrives q ∉ evs) ∧
    history mc start wait evs (Crowd s ts true) = Crowd s' (<[i:=Return r]> ts) true.
Proof.
  revert s ts. induction t as [r'| |A q k IH]; intros s ts Hi Ha; [|done|].
  - exists []. split; [set_solver|]. cbn in *. simplify_eq. by rewrite list_insert_id.
  - cbn [alone] in Ha. set (s1 := match q with Wait pid => _ | _ => _ end) in *.
    assert (∃ evs, (∀ r, Arrives r ∉ evs) ∧
      history mc start wait evs (Crowd s ts true) = Crowd s1 ts true) as (e1 & H1 & E1).
    { destruct q; try (exists []; split; [set_solver|done]).
      exists (Invoked <$> sockets pid). split; [|apply history_invoked].
      intros r' (? & ? & ?)%list_elem_of_fmap. done. }
    destruct (answer start wait q s1) as [x s2] eqn:Ex.
    destruct (IH x s2 (<[i:=k x]> ts)) as (e2 & H2 & E2); [|done|].
    { apply list_lookup_insert_eq. by eapply lookup_lt_Some. }
    exists (e1 ++ Continues i :: e2). split.
    + intros r' [?%H1|[?|?%H2]%elem_of_cons]%elem_of_app; done.
    + rewrite history_app, E1. unfold history in *.
      cbn [foldl flip happen crowd_threads crowd_server crowd_running negb].
      rewrite Hi, Ex. cbn. rewrite E2. by rewrite list_insert_insert_eq.
Qed.

(** Two clients have reset the agent with listed commands, nothing of which has run. *)
Definition two_resets (mine theirs : string) : list event := [Arrives (AskReset mine); Arrives (AskReset theirs)].

(** The stores of the two, in an order given by the handlers that take the steps. *)
Lemma two_resets_store mine theirs (order : list nat) mp :
  authorized mine = true → authorized theirs = true →
  order ∈ [[0; 0; 1; 1]; [1; 0; 0; 1]; [0; 1; 1; 0]]%nat →
  ∃ w, w = (match order, stores_data_first mc with
            | [1; 0; 0; 1]%nat, true => (Some mine, String.length theirs)
            | [0; 1; 1; 0]%nat, false => (Some mine, String.length theirs)
            | [1; 0; 0; 1]%nat, false => (Some theirs, String.length mine)
            | [0; 1; 1; 0]%nat, true => (Some theirs, String.length mine)
            | _, _ => (Some theirs, String.length theirs)
            end) ∧
  history mc start wait (two_resets mine theirs ++ (Continues <$> order)) (fresh_crowd mp) =
    Crowd (Server w mp []) [baseline; baseline] true.
Proof.
  intros H1 H2 Hin. unfold history, fresh_crowd, two_resets. cbn [app foldl flip].
  cbn [happen crowd_threads crowd_server crowd_running negb app].
  rewrite (serve_listed mine), (serve_listed theirs) by done. unfold store_command.
  eexists. split; [done|]. rewrite !elem_of_cons in Hin.
  destruct Hin as [->|[->|[->|Hin]]]; [..|by apply elem_of_nil in Hin];
    by destruct (stores_data_first mc).
Qed.

Lemma two_resets_arrive mine theirs order evs :
  (∀ q, Arrives q ∉ evs) →
  ∀ r, Arrives r ∈ two_resets mine theirs ++ (Continues <$> order) ++ evs → r = AskReset mine ∨ r = AskReset theirs.
Proof.
  intros He r [Hin|[Hin|Hin]%elem_of_app]%elem_of_app; [| |by destruct (He r)].
  - unfold two_resets in Hin. rewrite !elem_of_cons in Hin.
    destruct Hin as [[= ->]|[[= ->]|Hin]]; [by left|by right|by apply elem_of_nil in Hin].
  - apply list_elem_of_fmap in Hin as (? & ? & ?). done.
Qed.

(** After the stores of [two_resets_store] the handler of [mine] runs by itself. *)
Lemma two_resets_run mine theirs order sockets mp d n cmd :
  n ≠ 0%nat → cmd ≠ EmptyString → bytes_at mc d n = Some cmd →
  history mc start wait (two_resets mine theirs ++ (Continues <$> order)) (fresh_crowd mp) =
    Crowd (Server (d, n) mp []) [baseline; baseline] true →
  ∃ evs, (∀ r, Arrives r ∈ evs → r = AskReset mine ∨ r = AskReset theirs) ∧
    let c := history mc start wait evs (fresh_crowd mp) in
    let '(r, m') := run_command (solo sockets 0) (MkExecutor cmd) mp in
    crowd_threads c !! 0%nat = Some (Return (inl (reset_reply r m'))) ∧
    started (crowd_server c) = launched (MkExecutor cmd).
Proof.
  intros Hn Hc Hb E1. pose proof (alone_run_words sockets d n cmd mp [] Hn Hc Hb) as Hr.
  change (length []) with 0%nat in Hr. destruct (run_command (solo sockets 0) _ _) as [r m'] eqn:Er.
  apply alone_baseline in Hr.
  destruct (alone_history sockets 0 baseline _ [baseline; baseline] _ _ eq_refl Hr) as (evs & He & Eh).
  exists (two_resets mine theirs ++ (Continues <$> order) ++ evs). split; [by apply two_resets_arrive|].
  cbn zeta. rewrite (assoc_L (++)), history_app, E1, Eh. done.
Qed.

(** C34.  Handlers that overlap are not: when two clients reset an agent with listed
    commands, there is a history in which the first one's handler runs the second
    one's command: it replies what a reset with that command replies, and no other
    command has been started. *)
Theorem concurrent_resets_mix mine theirs sockets mp :
  authorized mine = true → authorized theirs = true →
  ∃ evs,
    (∀ r, Arrives r ∈ evs → r = AskReset mine ∨ r = AskReset theirs) ∧
    let c := history mc start wait evs (fresh_crowd mp) in
    crowd_threads c !! 0%nat =
      Some (Return (inl (Agent.Reset (solo sockets 0) theirs NewExecutor mp).1.1)) ∧
    started (crowd_server c) = launched (MkExecutor theirs).
Proof.
  intros H1 H2. pose proof (authorized_nonempty _ H2) as Ht. destruct (words_of_nonempty _ Ht) as [_ Hl].
  destruct (two_resets_store mine theirs [0; 0; 1; 1]%nat mp H1 H2) as (w & -> & E1); [set_solver|].
  destruct (two_resets_run mine theirs _ sockets mp _ _ theirs Hl Ht (bytes_at_whole mc theirs) E1)
    as (evs & He & Hc).
  exists evs. split; [done|]. cbn zeta in *. rewrite Reset_listed by done.
  by destruct (run_command _ _ _) as [r m'].
Qed.

(** C26.  The allow-list can be evaded by two listed commands: when two clients reset
    an agent with listed commands, of which the second one's is shorter, then on every
    machine there is a history in which the first one's handler reads its own bytes to
    the other's length.  The command that is started, and whose outcome it replies as
    its baseline, is that prefix, whatever its digest is. *)
Theorem torn_command_starts mine theirs sockets mp :
  authorized mine = true → authorized theirs = true →
  (String.length theirs < String.length mine)%nat →
  let torn := String.substring 0 (String.length theirs) mine in
  ∃ evs,
    (∀ r, Arrives r ∈ evs → r = AskReset mine ∨ r = AskReset theirs) ∧
    let c := history mc start wait evs (fresh_crowd mp) in
    let '(ran, mp') := run_command (solo sockets 0) (MkExecutor torn) mp in
    crowd_threads c !! 0%nat = Some (Return (inl (reset_reply ran mp'))) ∧
    started (crowd_server c) = launched (MkExecutor torn).
Proof.
  intros H1 H2 Hlt torn. pose proof (authorized_nonempty _ H2) as Ht.
  destruct (words_of_nonempty _ Ht) as [_ Hl].
  assert (torn ≠ EmptyString) as Hc by (apply prefix_nonempty; lia).
  pose proof (bytes_at_prefix mc mine (String.length theirs) Hl ltac:(lia)) as Hb.
  destruct (stores_data_first mc) eqn:Hs.
  - destruct (two_resets_store mine theirs [1; 0; 0; 1]%nat mp H1 H2) as (w & -> & E1); [set_solver|].
    rewrite Hs in E1. by apply (two_resets_run _ _ _ _ _ _ _ _ Hl Hc Hb E1).
  - destruct (two_resets_store mine theirs [0; 1; 1; 0]%nat mp H1 H2) as (w & -> & E1); [set_solver|].
    rewrite Hs in E1. by apply (two_resets_run _ _ _ _ _ _ _ _ Hl Hc Hb E1).
Qed.

End history.

(** ** Instances *)

Abbreviation N := 4%nat.

Definition sample_maps : bpf_state (bounded_map N ip_port_key tuning_action)
    (bounded_map N Z tuning_metrics) (bounded_map N Z Z) := BpfState bm_empty bm_empty bm_empty.
Definition sample_start (n : nat) (parts : list (list Z)) : string + Z := inr (4242 + Z.of_nat n).
Definition sample_wait (pid : Z) : option string := None.

Definition latency_task : string := "curl -4 -sI -m 5 http://google.com".
Definition bandwidth_task : string :=
  "curl -4 -o /dev/null https://github.com/torvalds/linux/archive/refs/tags/v7.0-rc6.tar.gz".

(** A machine that stores and loads the pointer first, and where nothing can be read
    beyond a string. *)
Definition sample_machine : machine := Machine true true false (λ _ _, None).

Definition sample_history : list event :=
  [Arrives (AskReset latency_task); Arrives (AskReset "rm -rf /"); Continues 0; Continues 0;
   Continues 0; Continues 0; Continues 0; Continues 0].

Lemma only_listed_commands_start_witness :
  ∃ mine theirs cmd,
    (Arrives (AskReset mine) ∈ sample_history ∧ sha256_hex mine ∈ allowedHashes) ∧
    (Arrives (AskReset theirs) ∈ sample_history ∧ sha256_hex theirs ∈ allowedHashes) ∧
    bytes_at sample_machine (Some mine) (String.length theirs) = Some cmd ∧
    (String.length mine = String.length theirs → cmd = mine) ∧
    Fields latency_task = Fields cmd.
Proof.
  apply (only_listed_commands_start sample_machine sample_start sample_wait sample_history sample_maps).
  assert (started (crowd_server (history sample_machine sample_start sample_wait sample_history
    (fresh_crowd sample_maps))) = [Fields latency_task]) as ->
    by (vm_compute; reflexivity).
  apply list_elem_of_singleton. reflexivity.
Defined.

Lemma concurrent_resets_mix_witness :
  ∃ evs, let c := history sample_machine sample_start sample_wait evs (fresh_crowd sample_maps) in
    started (crowd_server c) = [Fields bandwidth_task].
Proof.
  destruct (concurrent_resets_mix sample_machine sample_start sample_wait latency_task bandwidth_task
    (λ _, []) sample_maps)
    as (evs & _ & _ & H); [vm_compute; reflexivity..|].
  exists evs. cbn zeta in *. rewrite H. vm_compute. reflexivity.
Defined.

(** The command that the tasks of the two resets can start, which is not listed. *)
Definition torn_task : string := "curl -4 -o /dev/null https://githu".

Lemma torn_command_starts_witness :
  authorized torn_task = false ∧
  ∃ evs, let c := history sample_machine sample_start sample_wait evs (fresh_crowd sample_maps) in
    started (crowd_server c) = [Fields torn_task].
Proof.
  split; [vm_compute; reflexivity|].
  destruct (torn_command_starts sample_machine sample_start sample_wait bandwidth_task latency_task
    (λ _, []) sample_maps) as (evs & _ & H); [vm_compute; reflexivity..|vm_compute; lia|].
  exists evs. cbn zeta in *. destruct (run_command _ _ _) as [r m']. destruct H as [_ ->].
  vm_compute. reflexivity.
Defined.
