(* ===== verification/Pool.v ===== *)
(** * The agent pool of the router

    [env-router/internal/pool/pool.go].  Every method holds the mutex from its
    first line to its return, so each is one atomic step on the pool.  A
    connection is an identity: [grpc.Dial] is a parameter of [AddAgent] (it
    returns a connection or an error), and the pool's state records the
    connections dialed and closed so far, in order.  The client of an agent is a
    function of its connection and is not stored separately.

    Go visits the entries of a map in an unspecified order: a method that ranges
    over the map takes the order, a list of the keys, as an argument. *)
From S2P Require Import Prelude.
Local Open Scope Z_scope.

(** ** Data *)

Record AgentClient := MkAgentClient {
  Addr : string;
  Conn : Z;
  Busy : bool;
  LastActivity : Z;         (* time.Time, in nanoseconds *)
  pendingRemoval : bool;
}.

Record Pool := MkPool {
  agents : gmap string AgentClient;
  dialed : list Z;
  closed : list Z;
}.

Definition NewPool : Pool := MkPool ∅ [] [].

Inductive pool_error :=
| dial_failed (addr err : string)
| no_free_agents (capacity : nat)
| session_agent_not_found (addr : string).

(** Stores to one member of an agent. *)
Definition set_Busy (b : bool) (ac : AgentClient) : AgentClient :=
  MkAgentClient (Addr ac) (Conn ac) b (LastActivity ac) (pendingRemoval ac).
Definition set_LastActivity (t : Z) (ac : AgentClient) : AgentClient :=
  MkAgentClient (Addr ac) (Conn ac) (Busy ac) t (pendingRemoval ac).
Definition set_pendingRemoval (b : bool) (ac : AgentClient) : AgentClient :=
  MkAgentClient (Addr ac) (Conn ac) (Busy ac) (LastActivity ac) b.

(** [p.agents[addr]] becomes [ac]. *)
Definition put (addr : string) (ac : AgentClient) (p : Pool) : Pool :=
  MkPool (<[addr:=ac]> (agents p)) (dialed p) (closed p).

(** [ac.Conn.Close(); delete(p.agents, addr)] *)
Definition close_and_delete (addr : string) (ac : AgentClient) (p : Pool) : Pool :=
  MkPool (delete addr (agents p)) (dialed p) (closed p ++ [Conn ac]).

(** [for addr, ac := range p.agents { body }], the entries visited in [order];
    an entry that was deleted meanwhile is not visited. *)
Definition range (body : string → AgentClient → Pool → Pool) (order : list string) (p : Pool) : Pool :=
  foldl (λ p addr, match agents p !! addr with Some ac => body addr ac p | None => p end) p order.

(** [time.Since(last)] when the clock shows [now]: a [time.Duration] saturates. *)
Definition Since (now last : Z) : Z := Z.max (- 2 ^ 63) (Z.min (2 ^ 63 - 1) (now - last)).

(** ** Operations *)

Definition AddAgent (dial : string → string + Z) (now : Z) (addr : string) (p : Pool)
    : option pool_error * Pool :=
  match agents p !! addr with
  | Some ac => (None, if pendingRemoval ac then put addr (set_pendingRemoval false ac) p else p)
  | None =>
      match dial addr with
      | inl err => (Some (dial_failed addr err), p)
      | inr conn =>
          (None, MkPool (<[addr:=MkAgentClient addr conn false now false]> (agents p))
                   (dialed p ++ [conn]) (closed p))
      end
  end.

Definition RemoveAgent (addr : string) (p : Pool) : Pool :=
  match agents p !! addr with
  | None => p
  | Some ac =>
      if Busy ac then put addr (set_pendingRemoval true ac) p
      else close_and_delete addr ac p
  end.

(** [!ac.Busy && !ac.pendingRemoval] *)
Definition is_free (ac : AgentClient) : bool := negb (Busy ac) && negb (pendingRemoval ac).

(** The first free agent in the order of the iteration. *)
Fixpoint first_free (order : list string) (m : gmap string AgentClient) : option (string * AgentClient) :=
  match order with
  | [] => None
  | addr :: order =>
      match m !! addr with
      | Some ac => if is_free ac then Some (addr, ac) else first_free order m
      | None => first_free order m
      end
  end.

Definition TotalCount (p : Pool) : nat := size (agents p).

Definition LockFreeAgent (order : list string) (now : Z) (p : Pool)
    : (pool_error + AgentClient) * Pool :=
  match first_free order (agents p) with
  | Some (addr, ac) =>
      let ac := set_LastActivity now (set_Busy true ac) in
      (inr ac, put addr ac p)
  | None => (inl (no_free_agents (TotalCount p)), p)
  end.

(** [ac.Busy = false], then the removal if one is pending. *)
Definition release (addr : string) (ac : AgentClient) (p : Pool) : Pool :=
  let ac := set_Busy false ac in
  let p := put addr ac p in
  if pendingRemoval ac then close_and_delete addr ac p else p.

Definition FreeAgent (addr : string) (p : Pool) : Pool :=
  match agents p !! addr with
  | None => p
  | Some ac => release addr ac p
  end.

Definition TouchAgent (now : Z) (addr : string) (p : Pool) : Pool :=
  match agents p !! addr with
  | Some ac => put addr (set_LastActivity now ac) p
  | None => p
  end.

(** The session of [ac] is stale when the clock shows [now]. *)
Definition stale (timeout now : Z) (ac : AgentClient) : bool :=
  Busy ac && (timeout <? Since now (LastActivity ac)).

(** [now addr] is the clock when the agent [addr] is visited. *)
Definition CleanupStaleAgents (timeout : Z) (now : string → Z) (order : list string) (p : Pool) : Pool :=
  range (λ addr ac p, if stale timeout (now addr) ac then release addr ac p else p) order p.

Definition GetAgentBySession (addr : string) (p : Pool) : pool_error + AgentClient :=
  match agents p !! addr with
  | Some ac => inr ac
  | None => inl (session_agent_not_found addr)
  end.

Definition FreeCount (p : Pool) : nat :=
  map_fold (λ _ ac count, if is_free ac then S count else count) 0%nat (agents p).

Definition RemoveAgentsNotIn (liveAddrs : gset string) (order : list string) (p : Pool) : Pool :=
  range (λ addr ac p,
    if negb (bool_decide (addr ∈ liveAddrs)) then
      if Busy ac then put addr (set_pendingRemoval true ac) p else close_and_delete addr ac p
    else p) order p.

(** [Close] drops the connections and leaves the map as it is. *)
Definition Close (order : list string) (p : Pool) : Pool :=
  foldl (λ p addr, match agents p !! addr with
                   | Some ac => MkPool (agents p) (dialed p) (closed p ++ [Conn ac])
                   | None => p
                   end) p order.

(** One call of a method that changes the pool. *)
Inductive pool_op :=
| CallAdd (dial : string → string + Z) (now : Z) (addr : string)
| CallRemove (addr : string)
| CallLock (order : list string) (now : Z)
| CallFree (addr : string)
| CallTouch (now : Z) (addr : string)
| CallCleanup (timeout : Z) (now : string → Z) (order : list string)
| CallRemoveNotIn (liveAddrs : gset string) (order : list string).

Definition pool_step (o : pool_op) (p : Pool) : Pool :=
  match o with
  | CallAdd dial now addr => (AddAgent dial now addr p).2
  | CallRemove addr => RemoveAgent addr p
  | CallLock order now => (LockFreeAgent order now p).2
  | CallFree addr => FreeAgent addr p
  | CallTouch now addr => TouchAgent now addr p
  | CallCleanup timeout now order => CleanupStaleAgents timeout now order p
  | CallRemoveNotIn live order => RemoveAgentsNotIn live order p
  end.

(** An iteration visits every key once. *)
Definition visits (order : list string) (p : Pool) : Prop := order ≡ₚ (map_to_list (agents p)).*1.

Definition op_visits (o : pool_op) (p : Pool) : Prop :=
  match o with
  | CallLock order _ | CallCleanup _ _ order | CallRemoveNotIn _ order => visits order p
  | _ => True
  end.

(** A history of calls, and the pool after it. *)
Inductive history : list pool_op → Pool → Prop :=
| history_new : history [] NewPool
| history_call os p o : history os p → op_visits o p → history (os ++ [o]) (pool_step o p).
