(* ===== verification/PoolFacts.v ===== *)
(** * The pool as a state machine per agent

    The abstract specification of [Pool]: every address is absent, idle, serving
    an episode, or serving one and to be removed after it; the calls are
    transitions of these states.  The invariant of the pool, its preservation by
    every call, and the simulation of the specification. *)
From S2P Require Import Prelude Pool.
Local Open Scope Z_scope.

(** ** Specification *)

Inductive agent_status := Absent | Idle | Serving | Draining.

#[export] Instance agent_status_eq_dec : EqDecision agent_status.
Proof. solve_decision. Defined.

Definition on_add (dial_ok : bool) (st : agent_status) : agent_status :=
  match st with
  | Absent => if dial_ok then Idle else Absent
  | Draining => Serving
  | st => st
  end.
Definition on_remove (st : agent_status) : agent_status :=
  match st with Idle => Absent | Serving => Draining | st => st end.
Definition on_release (st : agent_status) : agent_status :=
  match st with Serving => Idle | Draining => Absent | st => st end.

(** The status of every address. *)
Abbreviation statuses := (string → agent_status).

(** What a call may do to the statuses. *)
Definition spec_step (o : pool_op) (σ σ' : statuses) : Prop :=
  match o with
  | CallAdd dial _ addr =>
      ∀ a, σ' a = if decide (a = addr)
                  then on_add (match dial addr with inr _ => true | inl _ => false end) (σ a) else σ a
  | CallRemove addr => ∀ a, σ' a = if decide (a = addr) then on_remove (σ a) else σ a
  | CallLock _ _ =>
      (∃ addr, σ addr = Idle ∧ ∀ a, σ' a = if decide (a = addr) then Serving else σ a) ∨
      ((∀ a, σ a ≠ Idle) ∧ ∀ a, σ' a = σ a)
  | CallFree addr => ∀ a, σ' a = if decide (a = addr) then on_release (σ a) else σ a
  | CallTouch _ _ => ∀ a, σ' a = σ a
  | CallCleanup _ _ _ => ∃ timed_out : string → bool, ∀ a, σ' a = if timed_out a then on_release (σ a) else σ a
  | CallRemoveNotIn live _ => ∀ a, σ' a = if decide (a ∈ live) then σ a else on_remove (σ a)
  end.

(** The status of an entry, and of an address in the pool. *)
Definition entry_status (o : option AgentClient) : agent_status :=
  match o with
  | None => Absent
  | Some ac => if Busy ac then if pendingRemoval ac then Draining else Serving else Idle
  end.
Definition status (p : Pool) (a : string) : agent_status := entry_status (agents p !! a).

(** ** The invariant *)

(** The connections of the entries. *)
Definition conns (m : gmap string AgentClient) : list Z := Conn ∘ snd <$> map_to_list m.

(** Every entry is under its address, only busy agents wait for removal, and
    every connection that was dialed is either in one entry or was closed once. *)
Record pool_inv (p : Pool) : Prop := {
  inv_addr a ac : agents p !! a = Some ac → Addr ac = a;
  inv_pending a ac : agents p !! a = Some ac → pendingRemoval ac = true → Busy ac = true;
  inv_conns : dialed p ≡ₚ closed p ++ conns (agents p);
}.

(** ** Entries *)

Lemma status_put a ac p a' :
  status (put a ac p) a' = if decide (a' = a) then entry_status (Some ac) else status p a'.
Proof.
  unfold status, put. cbn [agents]. case_decide; subst;
    [by rewrite lookup_insert_eq|by rewrite lookup_insert_ne].
Qed.

Lemma status_close a ac p a' :
  status (close_and_delete a ac p) a' = if decide (a' = a) then Absent else status p a'.
Proof.
  unfold status, close_and_delete. cbn [agents]. case_decide; subst;
    [by rewrite lookup_delete_eq|by rewrite lookup_delete_ne].
Qed.

Lemma conns_insert_new m a ac : m !! a = None → conns (<[a:=ac]> m) ≡ₚ Conn ac :: conns m.
Proof. intros Ha. unfold conns. by rewrite map_to_list_insert. Qed.

Lemma conns_delete m a ac : m !! a = Some ac → conns m ≡ₚ Conn ac :: conns (delete a m).
Proof. intros Ha. unfold conns. by rewrite <- (map_to_list_delete m a ac Ha). Qed.

Lemma conns_replace m a ac ac' :
  m !! a = Some ac → Conn ac' = Conn ac → conns (<[a:=ac']> m) ≡ₚ conns m.
Proof.
  intros Ha Hc. rewrite (conns_delete m a ac Ha), <- Hc.
  rewrite <- insert_delete_eq. apply conns_insert_new, lookup_delete_eq.
Qed.

Lemma elem_of_conns m a ac : m !! a = Some ac → Conn ac ∈ conns m.
Proof. intros Ha. rewrite (conns_delete m a ac Ha). left. Qed.

(** ** Preservation *)

Lemma inv_new : pool_inv NewPool.
Proof. by split. Qed.

Lemma inv_put a ac ac' p :
  agents p !! a = Some ac → Addr ac' = Addr ac → Conn ac' = Conn ac →
  (pendingRemoval ac' = true → Busy ac' = true) → pool_inv p → pool_inv (put a ac' p).
Proof.
  intros Ha Haddr Hconn Hpend [H1 H2 H3]. split; cbn [put agents dialed closed].
  - intros b bc. rewrite lookup_insert. case_decide; [|eauto].
    intros [= <-]. subst. rewrite Haddr. eauto.
  - intros b bc. rewrite lookup_insert. case_decide; [|eauto]. by intros [= <-].
  - by rewrite (conns_replace _ _ ac).
Qed.

Lemma inv_close a ac p : agents p !! a = Some ac → pool_inv p → pool_inv (close_and_delete a ac p).
Proof.
  intros Ha [H1 H2 H3]. split; cbn [close_and_delete agents dialed closed].
  - intros b bc Hb. apply lookup_delete_Some in Hb as [_ Hb]. eauto.
  - intros b bc Hb. apply lookup_delete_Some in Hb as [_ Hb]. eauto.
  - rewrite H3, (conns_delete _ _ _ Ha). by rewrite <- app_assoc.
Qed.

(** The same for an agent that is taken out of service and closed. *)
Lemma release_spec a ac p :
  agents p !! a = Some ac → pool_inv p →
  pool_inv (release a ac p) ∧
  (∀ a', status (release a ac p) a' =
     if decide (a' = a) then on_release (entry_status (Some ac)) else status p a') ∧
  (∀ a', a' ≠ a → agents (release a ac p) !! a' = agents p !! a').
Proof.
  intros Ha Hi. unfold release. cbn [set_Busy pendingRemoval]. destruct (pendingRemoval ac) eqn:Hp.
  - assert (close_and_delete a (set_Busy false ac) (put a (set_Busy false ac) p) =
            close_and_delete a ac p) as ->.
    { unfold close_and_delete, put. cbn. by rewrite delete_insert_eq. }
    split; [by apply inv_close|]. split.
    + intros a'. rewrite status_close. case_decide; [|done]. cbn.
      by rewrite (inv_pending _ Hi _ _ Ha Hp), Hp.
    + intros a' Ha'. cbn. by rewrite lookup_delete_ne.
  - split; [|split].
    + eapply inv_put; eauto.
    + intros a'. rewrite status_put. case_decide; [|done]. cbn. rewrite Hp. by destruct (Busy ac).
    + intros a' Ha'. cbn. by rewrite lookup_insert_ne.
Qed.

(** The body of [RemoveAgent] on an entry. *)
Lemma remove_spec a ac p :
  agents p !! a = Some ac → pool_inv p →
  let p' := if Busy ac then put a (set_pendingRemoval true ac) p else close_and_delete a ac p in
  pool_inv p' ∧
  (∀ a', status p' a' = if decide (a' = a) then on_remove (entry_status (Some ac)) else status p a') ∧
  (∀ a', a' ≠ a → agents p' !! a' = agents p !! a').
Proof.
  intros Ha Hi p'. subst p'. destruct (Busy ac) eqn:Hb.
  - split; [|split].
    + eapply inv_put; eauto.
    + intros a'. rewrite status_put. case_decide; [|done]. cbn. rewrite Hb. by destruct (pendingRemoval ac).
    + intros a' Ha'. cbn. by rewrite lookup_insert_ne.
  - split; [by apply inv_close|]. split.
    + intros a'. rewrite status_close. case_decide; [|done]. cbn. by rewrite Hb.
    + intros a' Ha'. cbn. by rewrite lookup_delete_ne.
Qed.

(** ** Iterations *)

(** A loop whose body works on the visited entry alone: each visited entry is
    transformed once, whatever the order. *)
Section iteration.
Context (body : string → AgentClient → Pool → Pool) (g : string → AgentClient → agent_status).
Hypothesis body_ok : ∀ a ac p,
  agents p !! a = Some ac → pool_inv p →
  pool_inv (body a ac p) ∧
  (∀ a', status (body a ac p) a' = if decide (a' = a) then g a ac else status p a') ∧
  (∀ a', a' ≠ a → agents (body a ac p) !! a' = agents p !! a').

Lemma range_spec order p :
  NoDup order → pool_inv p →
  pool_inv (range body order p) ∧
  ∀ a, status (range body order p) a =
    match agents p !! a with
    | Some ac => if decide (a ∈ order) then g a ac else status p a
    | None => Absent
    end.
Proof.
  intros Hnd. revert p. induction Hnd as [|a order Ha Hnd IH]; intros p Hi.
  - split; [done|]. intros a. cbn. unfold status. by destruct (agents p !! a).
  - cbn [range foldl]. destruct (agents p !! a) as [ac|] eqn:Hac.
    + destruct (body_ok a ac p Hac Hi) as (Hi' & Hs & Ho). destruct (IH _ Hi') as [Hi'' Hs''].
      split; [done|]. intros b. unfold range in Hs''. rewrite Hs''. destruct (decide (b = a)) as [->|Hb].
      * rewrite Hac. rewrite decide_True by left. specialize (Hs a). rewrite decide_True in Hs by done.
        rewrite <- Hs. unfold status. destruct (agents (body a ac p) !! a) eqn:E; [|done].
        by rewrite decide_False.
      * rewrite (Ho b) by done. rewrite Hs, decide_False by done.
        destruct (agents p !! b); [|done]. apply decide_ext. rewrite elem_of_cons. tauto.
    + destruct (IH _ Hi) as [Hi'' Hs'']. split; [done|]. intros b. unfold range in Hs''. rewrite Hs''.
      destruct (decide (b = a)) as [->|Hb]; [by rewrite Hac|].
      destruct (agents p !! b); [|done]. apply decide_ext. rewrite elem_of_cons. tauto.
Qed.

(** When every entry is visited. *)
Lemma range_all order p :
  visits order p → pool_inv p →
  pool_inv (range body order p) ∧
  ∀ a, status (range body order p) a =
    match agents p !! a with Some ac => g a ac | None => Absent end.
Proof.
  intros Hv Hi. destruct (range_spec order p) as [Hi' Hs]; [|done|].
  { rewrite Hv. apply NoDup_fst_map_to_list. }
  split; [done|]. intros a. rewrite Hs. destruct (agents p !! a) as [ac|] eqn:Ha; [|done].
  rewrite decide_True; [done|]. rewrite Hv. apply list_elem_of_fmap.
  exists (a, ac). split; [done|]. by apply elem_of_map_to_list.
Qed.
End iteration.

(** The first free agent is an idle one; there is none only if no agent is idle. *)
Lemma first_free_Some order m addr ac :
  first_free order m = Some (addr, ac) → m !! addr = Some ac ∧ is_free ac = true ∧ addr ∈ order.
Proof.
  induction order as [|a order IH]; [done|]. cbn [first_free].
  destruct (m !! a) as [bc|] eqn:Ha.
  - destruct (is_free bc) eqn:Hf.
    + intros [= <- <-]. split_and!; try done. left.
    + intros (?&?&?)%IH. split_and!; try done. by right.
  - intros (?&?&?)%IH. split_and!; try done. by right.
Qed.

Lemma first_free_None order m a ac :
  first_free order m = None → a ∈ order → m !! a = Some ac → is_free ac = false.
Proof.
  induction order as [|b order IH]; [by intros _ ?%elem_of_nil|]. cbn [first_free].
  intros H [->|Hin]%elem_of_cons Ha.
  - rewrite Ha in H. by destruct (is_free ac).
  - apply IH; [|done..]. destruct (m !! b) as [bc|]; [|done]. by destruct (is_free bc).
Qed.

Lemma visits_elem order p a ac : visits order p → agents p !! a = Some ac → a ∈ order.
Proof.
  intros Hv Ha. rewrite Hv. apply list_elem_of_fmap. exists (a, ac).
  split; [done|]. by apply elem_of_map_to_list.
Qed.

(** With the invariant, free means idle. *)
Lemma is_free_idle p a ac :
  pool_inv p → agents p !! a = Some ac → is_free ac = bool_decide (status p a = Idle).
Proof.
  intros Hi Ha. unfold status, is_free. rewrite Ha. cbn.
  destruct (Busy ac) eqn:Hb; [by destruct (pendingRemoval ac)|].
  destruct (pendingRemoval ac) eqn:Hp; [|done].
  pose proof (inv_pending _ Hi _ _ Ha Hp). congruence.
Qed.

(** ** The calls *)

Lemma status_at p a o : agents p !! a = o → status p a = entry_status o.
Proof. unfold status. by intros ->. Qed.

(** A call that works on the entry of one address. *)
Lemma at_entry (st : agent_status) (σ' : statuses) p addr o :
  agents p !! addr = o → (∀ a, σ' a = if decide (a = addr) then st else status p a) →
  ∀ f, st = f (entry_status o) → ∀ a, σ' a = if decide (a = addr) then f (status p a) else status p a.
Proof. intros <- Hs f -> a. rewrite Hs. by case_decide; subst. Qed.

Lemma add_simulates dial now addr p :
  pool_inv p → pool_inv (AddAgent dial now addr p).2 ∧
  spec_step (CallAdd dial now addr) (status p) (status (AddAgent dial now addr p).2).
Proof.
  intros Hi. cbn [spec_step]. unfold AddAgent.
  destruct (agents p !! addr) as [ac|] eqn:Ha; [|destruct (dial addr) as [err|conn]]; cbn [snd].
  - destruct (pendingRemoval ac) eqn:Hp.
    + split; [by eapply inv_put|]. eapply at_entry; [done|intros a; apply status_put|].
      cbn. by rewrite (inv_pending _ Hi _ _ Ha Hp), Hp.
    + split; [done|]. intros a. case_decide; [|done]. subst. rewrite (status_at _ _ _ Ha). cbn.
      rewrite Hp. by destruct (Busy ac).
  - split; [done|]. intros a. case_decide; [|done]. subst. by rewrite (status_at _ _ _ Ha).
  - split.
    + destruct Hi as [H1 H2 H3]. split; cbn [agents dialed closed].
      * intros b bc. rewrite lookup_insert. case_decide; [|eauto]. by intros [= <-].
      * intros b bc. rewrite lookup_insert. case_decide; [|eauto]. by intros [= <-].
      * rewrite H3, conns_insert_new by done. by rewrite <- app_assoc, <- Permutation_cons_append.
    + eapply (at_entry Idle); [done| |done]. intros a. unfold status. cbn [agents].
      rewrite lookup_insert. repeat case_decide; subst; done.
Qed.

Lemma remove_simulates addr p :
  pool_inv p → pool_inv (RemoveAgent addr p) ∧
  spec_step (CallRemove addr) (status p) (status (RemoveAgent addr p)).
Proof.
  intros Hi. unfold RemoveAgent. cbn [spec_step]. destruct (agents p !! addr) as [ac|] eqn:Ha.
  - destruct (remove_spec addr ac p Ha Hi) as (Hi' & Hs & _). split; [done|]. by eapply at_entry.
  - split; [done|]. intros a. case_decide; [|done]. subst. by rewrite (status_at _ _ _ Ha).
Qed.

Lemma free_simulates addr p :
  pool_inv p → pool_inv (FreeAgent addr p) ∧
  spec_step (CallFree addr) (status p) (status (FreeAgent addr p)).
Proof.
  intros Hi. unfold FreeAgent. cbn [spec_step]. destruct (agents p !! addr) as [ac|] eqn:Ha.
  - destruct (release_spec addr ac p Ha Hi) as (Hi' & Hs & _). split; [done|]. by eapply at_entry.
  - split; [done|]. intros a. case_decide; [|done]. subst. by rewrite (status_at _ _ _ Ha).
Qed.

Lemma touch_simulates now addr p :
  pool_inv p → pool_inv (TouchAgent now addr p) ∧
  spec_step (CallTouch now addr) (status p) (status (TouchAgent now addr p)).
Proof.
  intros Hi. unfold TouchAgent. cbn [spec_step]. destruct (agents p !! addr) as [ac|] eqn:Ha; [|done].
  split; [eapply inv_put; eauto; exact (inv_pending _ Hi addr ac Ha)|].
  intros a. rewrite status_put. case_decide; [|done]. subst. by rewrite (status_at _ _ _ Ha).
Qed.

(** What [LockFreeAgent] returns and does. *)
Lemma lock_spec order now p :
  pool_inv p → visits order p →
  match LockFreeAgent order now p with
  | (inr ac, p') =>
      status p (Addr ac) = Idle ∧ agents p' = <[Addr ac:=ac]> (agents p) ∧
      pool_inv p' ∧ Busy ac = true ∧ LastActivity ac = now ∧
      ∀ a, status p' a = if decide (a = Addr ac) then Serving else status p a
  | (inl err, p') =>
      p' = p ∧ err = no_free_agents (TotalCount p) ∧ ∀ a, status p a ≠ Idle
  end.
Proof.
  intros Hi Hv. unfold LockFreeAgent. destruct (first_free order (agents p)) as [[addr ac]|] eqn:Hf.
  - apply first_free_Some in Hf as (Ha & Hfree & _).
    assert (pendingRemoval ac = false) as Hp
      by (unfold is_free in Hfree; by apply andb_true_iff in Hfree as [_ ?%negb_true_iff]).
    cbn [set_LastActivity set_Busy Addr Busy LastActivity]. rewrite (inv_addr _ Hi _ _ Ha).
    split_and!; try done.
    + rewrite (is_free_idle p addr ac Hi Ha) in Hfree. by apply bool_decide_eq_true in Hfree.
    + eapply inv_put; eauto.
    + intros a. rewrite status_put. cbn. by rewrite Hp.
  - split_and!; [done..|]. intros a Hidle. destruct (agents p !! a) as [ac|] eqn:Ha.
    + pose proof (first_free_None _ _ _ _ Hf (visits_elem _ _ _ _ Hv Ha) Ha) as Hfree.
      rewrite (is_free_idle p a ac Hi Ha) in Hfree. by apply bool_decide_eq_false in Hfree.
    + by rewrite (status_at _ _ _ Ha) in Hidle.
Qed.

(** The agent handed out has the connection of its entry. *)
Lemma lock_conn order now p ac p' :
  pool_inv p → LockFreeAgent order now p = (inr ac, p') →
  ∃ ac0, agents p !! Addr ac = Some ac0 ∧ Conn ac0 = Conn ac.
Proof.
  intros Hi. unfold LockFreeAgent.
  destruct (first_free order (agents p)) as [[addr ac0]|] eqn:Hf; [|done].
  apply first_free_Some in Hf as (Ha & _). intros [= <- <-]. exists ac0. cbn.
  by rewrite (inv_addr _ Hi _ _ Ha).
Qed.

Lemma cleanup_spec timeout now order p :
  pool_inv p → visits order p →
  pool_inv (CleanupStaleAgents timeout now order p) ∧
  ∀ a, status (CleanupStaleAgents timeout now order p) a =
    if from_option (stale timeout (now a)) false (agents p !! a) then on_release (status p a) else status p a.
Proof.
  intros Hi Hv. unfold CleanupStaleAgents.
  destruct (range_all (λ addr ac p, if stale timeout (now addr) ac then release addr ac p else p)
    (λ a ac, if stale timeout (now a) ac then on_release (entry_status (Some ac)) else entry_status (Some ac))
  ) with (order:=order) (p:=p) as [Hi' Hs]; [|done..|].
  - intros a ac q Ha Hq. destruct (stale timeout (now a) ac); [by apply release_spec|].
    split_and!; [done| |done]. intros a'. case_decide; [|done]. subst. by apply status_at.
  - split; [done|]. intros a. rewrite Hs. unfold status. by destruct (agents p !! a).
Qed.

Lemma remove_not_in_spec live order p :
  pool_inv p → visits order p →
  pool_inv (RemoveAgentsNotIn live order p) ∧
  ∀ a, status (RemoveAgentsNotIn live order p) a =
    if decide (a ∈ live) then status p a else on_remove (status p a).
Proof.
  intros Hi Hv. unfold RemoveAgentsNotIn. destruct (range_all
    (λ addr ac p, if negb (bool_decide (addr ∈ live)) then
       if Busy ac then put addr (set_pendingRemoval true ac) p else close_and_delete addr ac p else p)
    (λ a ac, if decide (a ∈ live) then entry_status (Some ac) else on_remove (entry_status (Some ac)))
  ) with (order:=order) (p:=p) as [Hi' Hs]; [|done..|].
  - intros a ac q Ha Hq. destruct (decide (a ∈ live)) as [Hl|Hl].
    + rewrite bool_decide_eq_true_2 by done. split_and!; [done| |done].
      intros a'. case_decide; [|done]. subst. by apply status_at.
    + rewrite bool_decide_eq_false_2 by done. by apply remove_spec.
  - split; [done|]. intros a. rewrite Hs. unfold status. destruct (agents p !! a); [done|].
    by case_decide.
Qed.

(** Every call preserves the invariant and implements its transition. *)
Lemma step_simulates o p :
  pool_inv p → op_visits o p →
  pool_inv (pool_step o p) ∧ spec_step o (status p) (status (pool_step o p)).
Proof.
  intros Hi Hv. destruct o as [dial now addr|addr|order now|addr|now addr|timeout now order|live order];
    cbn [pool_step op_visits] in *.
  - by apply add_simulates.
  - by apply remove_simulates.
  - pose proof (lock_spec order now p Hi Hv) as H. cbn [spec_step].
    destruct (LockFreeAgent order now p) as [[err|ac] p']; cbn [snd].
    + destruct H as (-> & _ & H). auto.
    + destruct H as (? & _ & ? & _ & _ & ?). eauto.
  - by apply free_simulates.
  - by apply touch_simulates.
  - destruct (cleanup_spec timeout now order p Hi Hv) as [? H]. split; [done|].
    by exists (λ a, from_option (stale timeout (now a)) false (agents p !! a)).
  - by apply remove_not_in_spec.
Qed.

Lemma history_inv os p : history os p → pool_inv p.
Proof. induction 1; [apply inv_new|by apply step_simulates]. Qed.

(** ** Counts *)

(** Number of agents with a status. *)
Definition count (P : AgentClient → bool) (m : gmap string AgentClient) : nat :=
  size (filter (λ e, P e.2 = true) m).

Lemma FreeCount_count p : FreeCount p = count is_free (agents p).
Proof.
  unfold FreeCount, count.
  apply (map_fold_weak_ind (λ n m, n = size (filter (λ e, is_free e.2 = true) m))).
  - by rewrite map_filter_empty.
  - intros a ac m n Ha ->. rewrite map_filter_insert. cbn [snd].
    assert (filter (λ e : string * AgentClient, is_free e.2 = true) m !! a = None) as Hn
      by (apply map_lookup_filter_None; by left).
    destruct (is_free ac); cbn [decide_rel decide].
    + rewrite decide_True by done. by rewrite map_size_insert_None.
    + rewrite decide_False by done. by rewrite delete_id.
Qed.

(** Two complementary properties split the agents. *)
Lemma count_split (P Q : AgentClient → bool) m :
  (∀ a ac, m !! a = Some ac → P ac = negb (Q ac)) → (count P m + count Q m)%nat = size m.
Proof.
  intros HPQ. unfold count.
  assert (filter (λ e : string * AgentClient, P e.2 = true) m =
          filter (λ e : string * AgentClient, ¬ Q e.2 = true) m) as ->.
  { apply map_filter_ext. intros a ac Ha. cbn [snd]. rewrite (HPQ _ _ Ha). by destruct (Q ac). }
  rewrite Nat.add_comm, <- map_size_disj_union by apply map_disjoint_filter_complement.
  by rewrite map_filter_union_complement.
Qed.

Lemma busy_free p : pool_inv p → (FreeCount p + count Busy (agents p))%nat = TotalCount p.
Proof.
  intros Hi. rewrite FreeCount_count. apply count_split. intros a ac Ha.
  unfold is_free. destruct (Busy ac) eqn:Hb; [done|].
  destruct (pendingRemoval ac) eqn:Hp; [|done]. pose proof (inv_pending _ Hi _ _ Ha Hp). congruence.
Qed.

(** ** What the loops leave of an entry *)

Section lookups.
Context (body : string → AgentClient → Pool → Pool) (g : string → AgentClient → option AgentClient).
Hypothesis body_lookup : ∀ a ac p a',
  agents p !! a = Some ac → agents (body a ac p) !! a' = if decide (a' = a) then g a ac else agents p !! a'.

Lemma range_lookup order p a :
  NoDup order →
  agents (range body order p) !! a = if decide (a ∈ order) then agents p !! a ≫= g a else agents p !! a.
Proof.
  intros Hnd. revert p. induction Hnd as [|b order Hb Hnd IH]; intros p; [done|].
  cbn [range foldl]. unfold range in IH. destruct (decide (a = b)) as [->|Hne].
  - rewrite IH, decide_False, decide_True by (done || left).
    destruct (agents p !! b) as [ac|] eqn:Hac; [|by rewrite Hac].
    rewrite (body_lookup _ _ _ _ Hac). by rewrite decide_True.
  - rewrite IH, (decide_ext (a ∈ b :: order) (a ∈ order)) by (rewrite elem_of_cons; tauto).
    destruct (agents p !! b) as [ac|] eqn:Hac; [|done].
    rewrite (body_lookup _ _ _ _ Hac). by rewrite (decide_False (P:=a = b)).
Qed.

Lemma range_visits order p a :
  visits order p → agents (range body order p) !! a = agents p !! a ≫= g a.
Proof.
  intros Hv. rewrite range_lookup.
  - case_decide as Hin; [done|]. destruct (agents p !! a) eqn:Ha; [|done].
    by apply visits_elem with (1:=Hv) in Ha.
  - rewrite Hv. apply NoDup_fst_map_to_list.
Qed.
End lookups.

(** An entry after its release, and after a removal. *)
Definition released (ac : AgentClient) : option AgentClient :=
  if pendingRemoval ac then None else Some (set_Busy false ac).
Definition removed (ac : AgentClient) : option AgentClient :=
  if Busy ac then Some (set_pendingRemoval true ac) else None.

Lemma release_lookup a ac p a' :
  agents (release a ac p) !! a' = if decide (a' = a) then released ac else agents p !! a'.
Proof.
  unfold release, released, set_Busy. cbn [pendingRemoval]. destruct (pendingRemoval ac); cbn;
    rewrite ?lookup_delete, ?lookup_insert; repeat case_decide; congruence.
Qed.

Lemma remove_lookup a ac p a' :
  agents (if Busy ac then put a (set_pendingRemoval true ac) p else close_and_delete a ac p) !! a' =
  if decide (a' = a) then removed ac else agents p !! a'.
Proof.
  unfold removed. destruct (Busy ac); cbn;
    rewrite ?lookup_delete, ?lookup_insert; repeat case_decide; congruence.
Qed.

Lemma cleanup_lookup timeout now order p a :
  visits order p →
  agents (CleanupStaleAgents timeout now order p) !! a =
  agents p !! a ≫= λ ac, if stale timeout (now a) ac then released ac else Some ac.
Proof.
  intros Hv. unfold CleanupStaleAgents.
  apply (range_visits _ (λ a ac, if stale timeout (now a) ac then released ac else Some ac)); [|done].
  intros b bc q a' Hb. destruct (stale timeout (now b) bc); [apply release_lookup|].
  case_decide; congruence.
Qed.

Lemma remove_not_in_lookup live order p a :
  visits order p →
  agents (RemoveAgentsNotIn live order p) !! a =
  agents p !! a ≫= λ ac, if decide (a ∈ live) then Some ac else removed ac.
Proof.
  intros Hv. unfold RemoveAgentsNotIn.
  refine (range_visits _ (λ (b : string) bc, if decide (b ∈ live) then Some bc else removed bc)
    _ order p a Hv).
  intros b bc q a' Hb. destruct (decide (b ∈ live)) as [Hl|Hl].
  - rewrite bool_decide_eq_true_2 by done. cbn. case_decide; congruence.
  - rewrite bool_decide_eq_false_2 by done. apply remove_lookup.
Qed.

(** ** Episodes *)

(** The call ends the episode of [a]. *)
Definition releases (a : string) (o : pool_op) (p : Pool) : Prop :=
  match o with
  | CallFree addr => addr = a
  | CallCleanup timeout now _ => from_option (stale timeout (now a)) false (agents p !! a) = true
  | _ => False
  end.

(** Calls from [p] to [p'] of which none ends the episode of [a]. *)
Inductive episode (a : string) (p : Pool) : Pool → Prop :=
| episode_here : episode a p p
| episode_call p' o :
    episode a p p' → op_visits o p' → ¬ releases a o p' → episode a p (pool_step o p').

(** The call records activity of [a]. *)
Definition touches (a : string) (o : pool_op) : Prop :=
  match o with CallTouch _ addr => addr = a | _ => False end.

(** A busy agent keeps its entry, its connection and its lock, and the time of
    its last activity unless it is touched. *)
Lemma busy_step o p a ac :
  op_visits o p → ¬ releases a o p → agents p !! a = Some ac → Busy ac = true →
  ∃ ac', agents (pool_step o p) !! a = Some ac' ∧ Conn ac' = Conn ac ∧ Busy ac' = true ∧
    (¬ touches a o → LastActivity ac' = LastActivity ac).
Proof.
  intros Hv Hr Ha Hb.
  destruct o as [dial now addr|addr|order now|addr|now addr|timeout now order|live order];
    cbn [pool_step op_visits releases touches] in *.
  - unfold AddAgent. destruct (agents p !! addr) as [bc|] eqn:Hbc; [destruct (pendingRemoval bc)|];
      [| |destruct (dial addr)]; cbn [snd put agents]; try (by eauto);
      rewrite lookup_insert; case_decide; simplify_eq; eauto.
  - unfold RemoveAgent. destruct (agents p !! addr) as [bc|] eqn:Hbc; [|by eauto].
    rewrite remove_lookup. case_decide; [|by eauto]. simplify_eq. unfold removed. rewrite Hb. by eauto.
  - unfold LockFreeAgent. destruct (first_free order (agents p)) as [[addr bc]|] eqn:Hf; cbn [snd put agents];
      [|by eauto].
    apply first_free_Some in Hf as (Hbc & Hfree & _). rewrite lookup_insert. case_decide; [|by eauto].
    simplify_eq. unfold is_free in Hfree. by rewrite Hb in Hfree.
  - unfold FreeAgent. destruct (agents p !! addr) as [bc|] eqn:Hbc; [|by eauto].
    rewrite release_lookup, decide_False by done. by eauto.
  - unfold TouchAgent. destruct (agents p !! addr) as [bc|] eqn:Hbc; [|by eauto].
    cbn [put agents]. rewrite lookup_insert. case_decide; simplify_eq; [|by eauto].
    eexists. split; [done|]. by repeat split.
  - rewrite cleanup_lookup, Ha by done. rewrite Ha in Hr. cbn in *.
    destruct (stale _ _ _); [done|]. by eauto.
  - rewrite remove_not_in_lookup, Ha by done. cbn. case_decide; [by eauto|].
    unfold removed. rewrite Hb. by eauto.
Qed.

Lemma busy_kept o p a ac :
  op_visits o p → ¬ releases a o p → agents p !! a = Some ac → Busy ac = true →
  ∃ ac', agents (pool_step o p) !! a = Some ac' ∧ Conn ac' = Conn ac ∧ Busy ac' = true.
Proof. intros Hv Hr Ha Hb. destruct (busy_step o p a ac Hv Hr Ha Hb) as (ac' & ? & ? & ? & _). eauto. Qed.

Lemma episode_kept a p p' ac :
  agents p !! a = Some ac → Busy ac = true → episode a p p' →
  ∃ ac', agents p' !! a = Some ac' ∧ Conn ac' = Conn ac ∧ Busy ac' = true.
Proof.
  intros Ha Hb. induction 1 as [|p' o _ (bc & Hbc & Hc & Hbb) Hv Hr]; [by eauto|].
  destruct (busy_kept o p' a bc Hv Hr Hbc Hbb) as (cc & ? & Hcc & ?). exists cc. by rewrite Hcc.
Qed.

Lemma episode_inv a p p' : pool_inv p → episode a p p' → pool_inv p'.
Proof. intros Hi. induction 1; [done|]. by apply step_simulates. Qed.

(** Statuses after a history of calls, by the specification. *)
Inductive spec_history : list pool_op → statuses → Prop :=
| spec_new σ : (∀ a, σ a = Absent) → spec_history [] σ
| spec_call os σ o σ' : spec_history os σ → spec_step o σ σ' → spec_history (os ++ [o]) σ'.

(** What [Close] closes. *)
Lemma closed_range order p :
  closed (Close order p) = closed p ++ omap (λ a, Conn <$> agents p !! a) order.
Proof.
  revert p. induction order as [|a order IH]; intros p; [by rewrite app_nil_r|].
  unfold Close in *. cbn [foldl omap list_omap].
  destruct (agents p !! a) as [ac|] eqn:Ha; cbn [fmap option_fmap option_map].
  - rewrite IH. cbn. by rewrite <- app_assoc.
  - by rewrite IH.
Qed.

Lemma conns_visits order p : visits order p → omap (λ a, Conn <$> agents p !! a) order ≡ₚ conns (agents p).
Proof.
  intros Hv. rewrite Hv. unfold conns.
  assert (∀ l, l ⊆ map_to_list (agents p) →
    omap (λ a, Conn <$> agents p !! a) l.*1 = Conn ∘ snd <$> l) as H; [|by rewrite H].
  induction l as [|[a ac] l IH]; intros Hl; [done|].
  assert (agents p !! a = Some ac) as Ha by (apply elem_of_map_to_list, Hl; left).
  cbn. rewrite Ha. cbn. rewrite IH; [done|]. intros x Hx. apply Hl. by right.
Qed.

Lemma dialed_range (body : string → AgentClient → Pool → Pool) order p :
  (∀ a ac q, dialed (body a ac q) = dialed q) → dialed (range body order p) = dialed p.
Proof.
  intros Hb. revert p. induction order as [|a order IH]; intros p; [done|].
  cbn [range foldl]. unfold range in IH. rewrite IH. destruct (agents p !! a); [apply Hb|done].
Qed.

Lemma dialed_cleanup timeout now order p : dialed (CleanupStaleAgents timeout now order p) = dialed p.
Proof.
  apply dialed_range. intros a ac q. case_match; [|done].
  unfold release. by case_match.
Qed.

Lemma dialed_remove_not_in live order p : dialed (RemoveAgentsNotIn live order p) = dialed p.
Proof. apply dialed_range. intros a ac q. by repeat case_match. Qed.
