(* ===== verification/PoolProps.v ===== *)
(** * Properties of the agent pool

    The pool implements the state machine of [PoolFacts]; over any history of
    calls no connection leaks and none is closed twice; an agent that was locked
    is not handed out again before it is released; the loops over the map do not
    depend on its iteration order. *)
From S2P Require Import Prelude Pool PoolFacts.
Local Open Scope Z_scope.

(** C6.  The pool implements its specification: after any history of calls,
    whatever the iteration orders, dial results and clock readings, every
    address is in a status that the transitions of the specification allow. *)
Theorem pool_implements_spec os p : history os p → spec_history os (status p).
Proof.
  induction 1 as [|os p o Hh IH Hv]; [by apply spec_new|].
  eapply spec_call; [done|]. apply step_simulates; [by eapply history_inv|done].
Qed.

(** C7.  Connections are conserved.  After any history of calls, if the dialed
    connections are distinct, then no connection was closed twice, no agent of
    the pool has a closed connection or shares one with another, every dialed
    connection that is not closed belongs to an agent of the pool, and [Close]
    leaves every dialed connection closed, once. *)
Theorem connections_conserved os p order :
  history os p → NoDup (dialed p) → visits order p →
  NoDup (closed p) ∧
  (∀ a ac, agents p !! a = Some ac → Addr ac = a ∧ Conn ac ∈ dialed p ∧ Conn ac ∉ closed p) ∧
  (∀ a b ac bc, agents p !! a = Some ac → agents p !! b = Some bc → Conn ac = Conn bc → a = b) ∧
  (∀ c, c ∈ dialed p → c ∉ closed p → ∃ a ac, agents p !! a = Some ac ∧ Conn ac = c) ∧
  closed (Close order p) ≡ₚ dialed p.
Proof.
  intros Hh Hnd Hv. destruct (history_inv _ _ Hh) as [H1 _ H3].
  pose proof Hnd as Hnd'. rewrite H3 in Hnd'. apply NoDup_app in Hnd' as (Hc & Hd & Hcs).
  split_and!; [done|..].
  - intros a ac Ha. pose proof (elem_of_conns _ _ _ Ha) as Hin. split; [eauto|]. split.
    + rewrite H3. apply elem_of_app. by right.
    + intros ?. by eapply Hd.
  - intros a b ac bc Ha Hb Heq. destruct (decide (a = b)) as [|Hne]; [done|exfalso].
    rewrite (conns_delete _ _ _ Ha) in Hcs. apply NoDup_cons in Hcs as [Hn _]. apply Hn.
    rewrite Heq. apply (elem_of_conns _ b). by rewrite lookup_delete_ne.
  - intros c Hin Hn. rewrite H3 in Hin. apply elem_of_app in Hin as [?|Hin]; [done|].
    apply list_elem_of_fmap in Hin as ([a ac] & -> & Hin). apply elem_of_map_to_list in Hin. eauto.
  - by rewrite closed_range, conns_visits.
Qed.

(** C8.  Episodes are exclusive.  Once [LockFreeAgent] has handed out an agent,
    then as long as nobody frees it and no cleanup finds its session stale, the
    agent stays in the pool with its connection and stays locked, whatever the
    watcher, other episodes and cleanups do, and no [LockFreeAgent] returns it. *)
Theorem episode_exclusive os p order now ac p1 p2 order' now' :
  history os p → visits order p → LockFreeAgent order now p = (inr ac, p1) →
  episode (Addr ac) p1 p2 → visits order' p2 →
  (∃ ac', agents p2 !! Addr ac = Some ac' ∧ Conn ac' = Conn ac ∧ Busy ac' = true) ∧
  ∀ bc p3, LockFreeAgent order' now' p2 = (inr bc, p3) → Addr bc ≠ Addr ac ∧ Busy bc = true.
Proof.
  intros Hh Hv Hl He Hv'. pose proof (lock_spec order now p (history_inv _ _ Hh) Hv) as H.
  rewrite Hl in H. destruct H as (_ & Hm & Hi & Hb & _ & _).
  assert (agents p1 !! Addr ac = Some ac) as Ha by (rewrite Hm; apply lookup_insert_eq).
  destruct (episode_kept _ _ _ _ Ha Hb He) as (ac' & Ha' & Hc' & Hb'). split; [by eauto|].
  intros bc p3 Hl'. pose proof (lock_spec order' now' p2 (episode_inv _ _ _ Hi He) Hv') as H.
  rewrite Hl' in H. destruct H as (Hidle & _ & _ & Hbb & _). split; [|done].
  intros Heq. rewrite Heq, (status_at _ _ _ Ha') in Hidle. cbn in Hidle. rewrite Hb' in Hidle.
  by destruct (pendingRemoval ac').
Qed.

(** [LockFreeAgent] succeeds exactly when some agent is idle, and then
    moves one idle agent, and only that one, to serving with the current time;
    otherwise it reports the number of agents and changes nothing. *)
Theorem lock_takes_idle_agent os p order now :
  history os p → visits order p →
  match LockFreeAgent order now p with
  | (inr ac, p') =>
      status p (Addr ac) = Idle ∧ Busy ac = true ∧ LastActivity ac = now ∧
      agents p' = <[Addr ac:=ac]> (agents p) ∧
      ∀ a, status p' a = if decide (a = Addr ac) then Serving else status p a
  | (inl err, p') =>
      err = no_free_agents (TotalCount p) ∧ p' = p ∧ ∀ a, status p a ≠ Idle
  end.
Proof.
  intros Hh Hv. pose proof (lock_spec order now p (history_inv _ _ Hh) Hv) as H.
  destruct (LockFreeAgent order now p) as [[err|ac] p'].
  - by destruct H as (?&?&?).
  - by destruct H as (?&?&?&?&?&?).
Qed.

(** Deferred removal.  Removing an agent that serves an episode closes
    nothing and keeps the agent locked; the end of the episode then closes its
    connection, once, and removes it; if the agent comes back before that, the
    removal is cancelled and the end of the episode makes it idle. *)
Theorem deferred_removal os p a ac dial now :
  history os p → agents p !! a = Some ac → Busy ac = true →
  let p1 := RemoveAgent a p in
  status p1 a = Draining ∧ closed p1 = closed p ∧
  agents (FreeAgent a p1) = delete a (agents p) ∧ closed (FreeAgent a p1) = closed p ++ [Conn ac] ∧
  let p2 := (AddAgent dial now a p1).2 in
  status p2 a = Serving ∧ dialed p2 = dialed p ∧
  status (FreeAgent a p2) a = Idle ∧ closed (FreeAgent a p2) = closed p.
Proof.
  intros Hh Ha Hb. cbn zeta. unfold RemoveAgent. rewrite Ha, Hb.
  unfold AddAgent, FreeAgent, release, status, put, close_and_delete, set_pendingRemoval, set_Busy.
  cbn [agents dialed closed pendingRemoval Busy Addr Conn LastActivity].
  repeat (rewrite !lookup_insert_eq || cbn [agents dialed closed pendingRemoval snd Busy Conn Addr]).
  cbn. rewrite !Hb. split_and!; try done.
  by rewrite insert_insert_eq, delete_insert_eq.
Qed.

(** Stale sessions end, and only they: whatever the iteration order, the
    cleanup releases every session without activity for longer than the timeout,
    completes its removal if one is pending, and leaves every other entry as it
    is. *)
Theorem cleanup_ends_stale_sessions os p timeout now order a :
  history os p → visits order p →
  agents (CleanupStaleAgents timeout now order p) !! a =
    (agents p !! a ≫= λ ac, if stale timeout (now a) ac then released ac else Some ac) ∧
  status (CleanupStaleAgents timeout now order p) a =
    (if from_option (stale timeout (now a)) false (agents p !! a)
     then on_release (status p a) else status p a).
Proof.
  intros Hh Hv. split; [by apply cleanup_lookup|].
  apply cleanup_spec; [by eapply history_inv|done].
Qed.

(** The order in which Go iterates over the map is irrelevant to the loops
    that change the pool: two orders leave the same entries and close the same
    connections. *)
Theorem iteration_order_irrelevant os p timeout now live o1 o2 :
  history os p → visits o1 p → visits o2 p →
  let c1 := CleanupStaleAgents timeout now o1 p in
  let c2 := CleanupStaleAgents timeout now o2 p in
  let r1 := RemoveAgentsNotIn live o1 p in
  let r2 := RemoveAgentsNotIn live o2 p in
  agents c1 = agents c2 ∧ closed c1 ≡ₚ closed c2 ∧ agents r1 = agents r2 ∧ closed r1 ≡ₚ closed r2.
Proof.
  intros Hh H1 H2 c1 c2 r1 r2. pose proof (history_inv _ _ Hh) as Hi.
  assert (agents c1 = agents c2) as Hc
    by (apply map_eq; intros a; unfold c1, c2; by rewrite !cleanup_lookup).
  assert (agents r1 = agents r2) as Hr
    by (apply map_eq; intros a; unfold r1, r2; by rewrite !remove_not_in_lookup).
  assert (∀ q1 q2, pool_inv q1 → pool_inv q2 → dialed q1 = dialed q2 → agents q1 = agents q2 →
    closed q1 ≡ₚ closed q2) as Hcl.
  { intros q1 q2 [_ _ Hq1] [_ _ Hq2] Hd Ha. rewrite Hd, Ha, Hq2 in Hq1.
    by apply Permutation_app_inv_r in Hq1. }
  split_and!; try done; apply Hcl; try done.
  - by apply cleanup_spec.
  - by apply cleanup_spec.
  - unfold c1, c2. by rewrite !dialed_cleanup.
  - by apply remove_not_in_spec.
  - by apply remove_not_in_spec.
  - unfold r1, r2. by rewrite !dialed_remove_not_in.
Qed.

(** The counts the scaler uses: the free agents are the idle ones, and the
    difference to the total is the number of busy agents, draining ones
    included. *)
Theorem counts_agree os p :
  history os p →
  FreeCount p = count (λ ac, bool_decide (status p (Addr ac) = Idle)) (agents p) ∧
  (FreeCount p + count Busy (agents p))%nat = TotalCount p.
Proof.
  intros Hh. pose proof (history_inv _ _ Hh) as Hi. split.
  - rewrite FreeCount_count. unfold count. f_equal. apply map_filter_ext. intros a ac Ha. cbn [snd].
    by rewrite (is_free_idle p a ac Hi Ha), (inv_addr _ Hi _ _ Ha).
  - by apply busy_free.
Qed.

(** ** Instances *)

Definition agent1 : string := "10.0.0.1:50051".
Definition agent2 : string := "10.0.0.2:50051".
Definition sample_dial (addr : string) : string + Z := inr (if bool_decide (addr = agent1) then 1 else 2).

(** The keys in the order of the map's representation. *)
Definition keys (p : Pool) : list string := (map_to_list (agents p)).*1.

(** Two agents join; then one of them is locked at time 5. *)
Definition two_agents : Pool :=
  pool_step (CallAdd sample_dial 0 agent2) (pool_step (CallAdd sample_dial 0 agent1) NewPool).
Definition one_busy : Pool := (LockFreeAgent [agent1; agent2] 5 two_agents).2.

Lemma two_agents_history :
  history (([] ++ [CallAdd sample_dial 0 agent1]) ++ [CallAdd sample_dial 0 agent2]) two_agents.
Proof. repeat (apply history_call; [|done]). apply history_new. Qed.

Lemma two_agents_visits : visits [agent1; agent2] two_agents.
Proof. unfold visits. vm_compute. first [reflexivity|apply perm_swap]. Qed.

Lemma one_busy_history : history
  ((([] ++ [CallAdd sample_dial 0 agent1]) ++ [CallAdd sample_dial 0 agent2]) ++
     [CallLock [agent1; agent2] 5]) one_busy.
Proof.
  apply (history_call _ two_agents (CallLock [agent1; agent2] 5)); [apply two_agents_history|apply two_agents_visits].
Qed.

Lemma keys_visits p : visits (keys p) p.
Proof. by unfold visits. Qed.

Lemma pool_implements_spec_witness : ∃ os, spec_history os (status one_busy).
Proof. eexists. apply (pool_implements_spec _ _ one_busy_history). Defined.

Lemma connections_conserved_witness : closed (Close (keys one_busy) one_busy) ≡ₚ [1; 2].
Proof.
  apply (connections_conserved _ _ (keys one_busy) one_busy_history).
  - vm_compute. apply NoDup_cons. split; [|apply NoDup_singleton]. by intros ?%list_elem_of_singleton.
  - apply keys_visits.
Defined.

Lemma episode_exclusive_witness :
  ∃ ac', agents (RemoveAgent agent1 one_busy) !! agent1 = Some ac' ∧ Conn ac' = 1 ∧ Busy ac' = true.
Proof.
  refine (proj1 (episode_exclusive _ two_agents [agent1; agent2] 5
    (MkAgentClient agent1 1 true 5 false) one_busy (RemoveAgent agent1 one_busy)
    (keys (RemoveAgent agent1 one_busy)) 9 two_agents_history two_agents_visits _ _ _)).
  - vm_compute. reflexivity.
  - apply (episode_call _ _ one_busy (CallRemove agent1)); [apply episode_here|exact I|intros []].
  - apply keys_visits.
Defined.

Lemma lock_takes_idle_agent_witness :
  match LockFreeAgent [agent1; agent2] 5 two_agents with
  | (inr ac, p') => status p' (Addr ac) = Serving
  | _ => False
  end.
Proof.
  pose proof (lock_takes_idle_agent _ two_agents [agent1; agent2] 5 two_agents_history two_agents_visits) as H.
  destruct (LockFreeAgent [agent1; agent2] 5 two_agents) as [[err|ac] p'].
  - destruct H as (_ & _ & H). apply (H agent1). vm_compute. reflexivity.
  - destruct H as (_ & _ & _ & _ & H). specialize (H (Addr ac)). by rewrite decide_True in H.
Defined.

Lemma deferred_removal_witness :
  closed (FreeAgent agent1 (RemoveAgent agent1 one_busy)) = [1].
Proof.
  destruct (deferred_removal _ one_busy agent1 (MkAgentClient agent1 1 true 5 false) sample_dial 9
    one_busy_history) as (_ & _ & _ & H & _); [vm_compute; reflexivity..|exact H].
Defined.

Lemma cleanup_ends_stale_sessions_witness :
  status (CleanupStaleAgents 300 (λ _, 306) (keys one_busy) one_busy) agent1 = Idle.
Proof.
  rewrite (proj2 (cleanup_ends_stale_sessions _ one_busy 300 (λ _, 306) (keys one_busy) agent1
    one_busy_history (keys_visits _))).
  vm_compute. reflexivity.
Defined.

Lemma iteration_order_irrelevant_witness :
  agents (RemoveAgentsNotIn ∅ [agent1; agent2] two_agents) =
  agents (RemoveAgentsNotIn ∅ [agent2; agent1] two_agents).
Proof.
  apply (iteration_order_irrelevant _ two_agents 0 (λ _, 0) ∅ [agent1; agent2] [agent2; agent1]
    two_agents_history two_agents_visits).
  unfold visits. rewrite <- (two_agents_visits : _ ≡ₚ _). apply perm_swap.
Defined.

Lemma counts_agree_witness : (FreeCount one_busy + count Busy (agents one_busy))%nat = 2%nat.
Proof. apply (counts_agree _ one_busy one_busy_history). Defined.
