(* ===== verification/Router.v ===== *)
(** * The gRPC handlers of the router

    [env-router/internal/grpcserver/server.go].  A handler holds no lock between
    its calls: it is a tree of the calls it makes on the pool, each atomic, and
    of its calls to the agent, whose answers are the environment's.  [exec] runs
    a handler alone; [system_step] interleaves any number of handlers with the
    watcher and the cleanup.  A request that a handler forwards arrives at the
    agent of a connection, so a call to the agent names the connection. *)
From S2P Require Import Prelude Agent Pool.
Local Open Scope Z_scope.

Module Router.

(** The calls of the handlers, by the type of their answer. *)
Inductive call : Type → Type :=
| LockFreeAgent : call (pool_error + AgentClient)
| TouchAgent (addr : string) : call unit
| FreeAgent (addr : string) : call unit
| GetAgentBySession (addr : string) : call (pool_error + AgentClient)
| ClientReset (conn : Z) (command : string) : call (string + ResetResponse)
| ClientStep (conn : Z) (req : StepRequest) : call (string + StepResponse).

(** A handler that returns an [R]. *)
Inductive handler (R : Type) :=
| Return (r : R)
| Call {A : Type} (c : call A) (k : A → handler R).
Arguments Return {R} _.
Arguments Call {R A} _ _.

Fixpoint handler_bind {A B} (f : A → handler B) (h : handler A) : handler B :=
  match h with
  | Return a => f a
  | Call c k => Call c (λ x, handler_bind f (k x))
  end.

#[export] Instance handler_ret : MRet handler := @Return.
#[export] Instance handler_mbind : MBind handler := @handler_bind.
#[export] Instance handler_fmap : FMap handler := λ A B f h, h ≫= λ x, mret (f x).

Definition do {A} (c : call A) : handler A := Call c Return.

Inductive router_error :=
| pool_failure (err : pool_error)
| agent_reset_failed (err : string)
| agent_step_failed (err : string)
| missing_session_id.

(** [resp.SessionId = id] *)
Definition set_SessionId (id : string) (resp : ResetResponse) : ResetResponse :=
  MkResetResponse (Success resp) (Message resp) id (InitialObservation resp).

(** ** The handlers *)

Definition Reset (command : string) : handler (router_error + ResetResponse) :=
  agent ← do LockFreeAgent;
  match agent with
  | inl err => mret (inl (pool_failure err))
  | inr agent =>
      _ ← do (TouchAgent (Addr agent));
      resp ← do (ClientReset (Conn agent) command);
      match resp with
      | inl err =>
          _ ← do (FreeAgent (Addr agent));
          mret (inl (agent_reset_failed err))
      | inr resp => mret (inr (set_SessionId (Addr agent) resp))
      end
  end.

Definition Step (req : StepRequest) : handler (router_error + StepResponse) :=
  if bool_decide (ReqSessionId req = EmptyString) then mret (inl missing_session_id)
  else
    agent ← do (GetAgentBySession (ReqSessionId req));
    match agent with
    | inl err => mret (inl (pool_failure err))
    | inr agent =>
        _ ← do (TouchAgent (ReqSessionId req));
        resp ← do (ClientStep (Conn agent) req);
        match resp with
        | inl err => mret (inl (agent_step_failed err))
        | inr resp =>
            _ ← (if Done resp then do (FreeAgent (ReqSessionId req)) else mret tt);
            mret (inr resp)
        end
    end.

(** The value is the member [Success] of the response. *)
Definition Close (session : string) : handler (router_error + bool) :=
  if bool_decide (session = EmptyString) then mret (inl missing_session_id)
  else
    _ ← do (FreeAgent session);
    mret (inr true).

(** ** A handler that runs alone *)

(** What the environment answers: the clock, the order in which Go iterates over
    the map of the pool, and the agents. *)
Record environment := Environment {
  clock : Z;
  map_order : Pool → list string;
  client_reset : Z → string → string + ResetResponse;
  client_step : Z → StepRequest → string + StepResponse;
}.

Definition answer (env : environment) {A} (c : call A) (p : Pool) : A * Pool :=
  match c in call A return A * Pool with
  | LockFreeAgent => Pool.LockFreeAgent (map_order env p) (clock env) p
  | TouchAgent addr => (tt, Pool.TouchAgent (clock env) addr p)
  | FreeAgent addr => (tt, Pool.FreeAgent addr p)
  | GetAgentBySession addr => (Pool.GetAgentBySession addr p, p)
  | ClientReset conn command => (client_reset env conn command, p)
  | ClientStep conn req => (client_step env conn req, p)
  end.

Fixpoint exec (env : environment) {R} (h : handler R) (p : Pool) : R * Pool :=
  match h with
  | Return r => (r, p)
  | Call c k => let '(a, p) := answer env c p in exec env (k a) p
  end.

(** ** Handlers that run concurrently *)

(** The replies of the handlers. *)
Inductive reply :=
| ResetReply (r : router_error + ResetResponse)
| StepReply (r : router_error + StepResponse)
| CloseReply (r : router_error + bool).

Inductive request :=
| ResetRequest (command : string)
| StepRequested (req : StepRequest)
| CloseRequest (session : string).

Definition serve (r : request) : handler reply :=
  match r with
  | ResetRequest command => ResetReply <$> Reset command
  | StepRequested req => StepReply <$> Step req
  | CloseRequest session => CloseReply <$> Close session
  end.

Record system := System { pool : Pool; threads : list (handler reply) }.

(** The method of the pool that a call runs. *)
Definition pool_call (env : environment) {A} (c : call A) (p : Pool) : list pool_op :=
  match c with
  | LockFreeAgent => [CallLock (map_order env p) (clock env)]
  | TouchAgent addr => [CallTouch (clock env) addr]
  | FreeAgent addr => [CallFree addr]
  | _ => []
  end.

(** The calls of the watcher and of the cleanup. *)
Definition background (o : pool_op) : bool :=
  match o with
  | CallAdd _ _ _ | CallRemove _ | CallCleanup _ _ _ | CallRemoveNotIn _ _ => true
  | _ => false
  end.

(** One step: a request arrives, a handler makes its next call, or a background
    task does.  The clock, the iteration order and the answers of the agents are
    arbitrary at every step. *)
Inductive system_step (s : system) : list pool_op → system → Prop :=
| request_arrives r : system_step s [] (System (pool s) (threads s ++ [serve r]))
| handler_calls i A (c : call A) k env :
    threads s !! i = Some (Call c k) →
    visits (map_order env (pool s)) (pool s) →
    system_step s (pool_call env c (pool s))
      (System (answer env c (pool s)).2 (<[i:=k (answer env c (pool s)).1]> (threads s)))
| background_calls o :
    background o = true → op_visits o (pool s) →
    system_step s [o] (System (pool_step o (pool s)) (threads s)).

(** The systems that can be reached, with the calls made on the pool so far. *)
Inductive reachable : list pool_op → system → Prop :=
| reachable_start : reachable [] (System NewPool [])
| reachable_step os s os' s' :
    reachable os s → system_step s os' s' → reachable (os ++ os') s'.

End Router.
