(* ===== verification/RouterProps.v ===== *)
(** * Properties of the router's handlers

    What each handler does when it runs alone, on every branch; what holds for
    every interleaving of handlers, watcher and cleanup; and what the handlers do
    together with the agents' own handlers. *)
From S2P Require Import Prelude BpfMaps SocketTuner SocketTunerFacts Executor Agent AgentProps.
From S2P Require Import SocketTunerProps Pool PoolFacts PoolProps Router.
Local Open Scope Z_scope.

(** ** Lemmas *)

(** A status that only the locked agent changed, and changes back. *)
Lemma touch_status now addr p a :
  pool_inv p → status (TouchAgent now addr p) a = status p a.
Proof. intros Hi. by destruct (touch_simulates now addr p Hi) as [_ H]. Qed.

Lemma free_status addr p a :
  pool_inv p → status (FreeAgent addr p) a = if decide (a = addr) then on_release (status p a) else status p a.
Proof. intros Hi. by destruct (free_simulates addr p Hi) as [_ H]. Qed.

Lemma touch_inv now addr p : pool_inv p → pool_inv (TouchAgent now addr p).
Proof. intros Hi. by destruct (touch_simulates now addr p Hi). Qed.

Lemma reset_exec env command p :
  Router.exec env (Router.Reset command) p =
  match LockFreeAgent (Router.map_order env p) (Router.clock env) p with
  | (inl err, p1) => (inl (Router.pool_failure err), p1)
  | (inr ac, p1) =>
      let p2 := TouchAgent (Router.clock env) (Addr ac) p1 in
      match Router.client_reset env (Conn ac) command with
      | inl err => (inl (Router.agent_reset_failed err), FreeAgent (Addr ac) p2)
      | inr resp => (inr (Router.set_SessionId (Addr ac) resp), p2)
      end
  end.
Proof.
  cbn. destruct (LockFreeAgent _ _ p) as [[err|ac] p1]; [done|]. cbn.
  by destruct (Router.client_reset env (Conn ac) command).
Qed.

(** A handler between calls only knows the agents that were locked so far. *)
Section sessions.
Import Router.

(** Every session that the handler may reply names an address in [L]. *)
Fixpoint names (L : string → Prop) (h : handler reply) : Prop :=
  match h with
  | Return (ResetReply (inr resp)) => L (SessionId resp)
  | Return _ => True
  | @Call _ A c k =>
      match c in call A return (A → handler reply) → Prop with
      | Router.LockFreeAgent => λ k, ∀ r, names (λ a, L a ∨ ∃ ac, r = inr ac ∧ a = Addr ac) (k r)
      | _ => λ k, ∀ x, names L (k x)
      end k
  end.

Lemma names_mono L L' h : (∀ a, L a → L' a) → names L h → names L' h.
Proof.
  revert L L'. induction h as [r|A c k IH]; intros L L' HL; cbn.
  - destruct r as [[|]| |]; auto.
  - destruct c; intros H r; (eapply IH; [|apply H]); try exact HL.
    cbn. intros a [?|?]; auto.
Qed.

Lemma names_serve L r : names L (serve r).
Proof.
  destruct r as [command|req|session].
  - intros [err|ac]; [exact I|]. intros []. intros [err|resp]; [by intros []|]. cbn. eauto.
  - unfold serve, Step. cbn. case_bool_decide; [done|]. intros [err|ac]; [done|].
    intros [] [err|resp]; [done|]. cbn. by destruct (Done resp).
  - unfold serve, Close. cbn. by case_bool_decide.
Qed.

(** The history contains a lock of the address [a]. *)
Definition was_locked (os : list pool_op) (a : string) : Prop :=
  ∃ os1 os2 order now p ac p', os = os1 ++ CallLock order now :: os2 ∧ history os1 p ∧
    Pool.LockFreeAgent order now p = (inr ac, p') ∧ Addr ac = a.

Lemma was_locked_app os os' a : was_locked os a → was_locked (os ++ os') a.
Proof.
  intros (os1 & os2 & order & now & p & ac & p' & -> & H). exists os1, (os2 ++ os'), order, now, p, ac, p'.
  by rewrite <- app_assoc.
Qed.

(** The calls of every interleaving form a history of the pool. *)
Lemma reachable_history os s : reachable os s → history os (pool s).
Proof.
  induction 1 as [|os s os' s' _ IH Hs]; [apply history_new|].
  destruct Hs as [r|i A c k env Hk Hv|o Hb Hv]; cbn [pool].
  - by rewrite app_nil_r.
  - destruct c; cbn [pool_call answer snd]; rewrite ?app_nil_r; try done;
      [by apply (history_call _ _ (CallLock _ _) IH)|by apply (history_call _ _ (CallTouch _ _) IH)
      |by apply (history_call _ _ (CallFree _) IH)].
  - by apply history_call.
Qed.

Lemma reachable_names os s : reachable os s → Forall (names (was_locked os)) (threads s).
Proof.
  induction 1 as [|os s os' s' Hr IH Hs]; [constructor|].
  assert (Forall (names (was_locked (os ++ os'))) (threads s)) as IH'.
  { eapply Forall_impl; [exact IH|]. intros h. apply names_mono, was_locked_app. }
  destruct Hs as [r|i A c k env Hk Hv|o Hb Hv]; cbn [threads]; [|..|done].
  - apply Forall_app. split; [done|]. apply Forall_singleton, names_serve.
  - apply Forall_insert; [done|]. pose proof (Forall_lookup_1 _ _ _ _ IH' Hk) as H.
    destruct c; cbn in H |- *; [|apply H..].
    specialize (H (Pool.LockFreeAgent (map_order env (pool s)) (clock env) (pool s)).1).
    eapply names_mono; [|exact H]. intros a [?|(ac & Hac & ->)]; [done|].
    destruct (Pool.LockFreeAgent _ _ _) as [r p'] eqn:Hl. cbn in Hac. subst.
    exists os, [], (map_order env (pool s)), (clock env), (pool s), ac, p'.
    split_and!; [done| |done..]. by apply reachable_history.
Qed.

End sessions.

(** ** The handlers alone *)

(** C12.  [Reset] on every branch.  Without an idle agent it fails and changes
    nothing.  Otherwise one idle agent is locked and the command goes to that
    agent: if the call fails every agent has the status it had; if the agent
    answers, whatever the answer says, the agent serves the session that the
    reply names, with the reply's other members as the agent sent them. *)
Theorem reset_routes os p env command :
  history os p → visits (Router.map_order env p) p →
  match Router.exec env (Router.Reset command) p with
  | (inr resp, p') =>
      ∃ ac resp0, agents p !! SessionId resp = Some ac ∧ status p (SessionId resp) = Idle ∧
      Router.client_reset env (Conn ac) command = inr resp0 ∧
      resp = Router.set_SessionId (SessionId resp) resp0 ∧
      ∀ a, status p' a = if decide (a = SessionId resp) then Serving else status p a
  | (inl (Router.agent_reset_failed err), p') =>
      (∃ a ac, agents p !! a = Some ac ∧ status p a = Idle ∧
         Router.client_reset env (Conn ac) command = inl err) ∧
      ∀ a, status p' a = status p a
  | (inl err, p') =>
      err = Router.pool_failure (no_free_agents (TotalCount p)) ∧ p' = p ∧ ∀ a, status p a ≠ Idle
  end.
Proof.
  intros Hh Hv. pose proof (history_inv _ _ Hh) as Hi. rewrite reset_exec.
  pose proof (lock_spec _ (Router.clock env) p Hi Hv) as H.
  pose proof (lock_conn (Router.map_order env p) (Router.clock env) p) as Hc.
  destruct (LockFreeAgent _ _ p) as [[err|ac] p1].
  - destruct H as (-> & -> & H). done.
  - destruct (Hc _ _ Hi eq_refl) as (ac0 & Ha0 & Hc0).
    destruct H as (Hidle & _ & Hi1 & _ & _ & Hs). cbn zeta.
    destruct (Router.client_reset env (Conn ac) command) as [err|resp] eqn:Hr.
    + split; [exists (Addr ac), ac0; by rewrite Hc0|]. intros a.
      rewrite free_status by (by apply touch_inv). rewrite touch_status, Hs by done.
      case_decide; [subst|done]. by rewrite Hidle.
    + exists ac0, resp. rewrite Hc0. split_and!; try done.
      intros a. by rewrite touch_status, Hs.
Qed.

(** C13.  [Step] on every branch.  A request without a session, or with one that
    is not in the pool, fails and changes nothing.  Otherwise it goes to the agent
    at the address that the session names, whoever started its episode; an error
    of the agent keeps the lock, an answer is returned as it is, and the agent is
    released exactly when the answer has [Done]. *)
Theorem step_routes os p env req :
  history os p →
  match Router.exec env (Router.Step req) p with
  | (inr resp, p') =>
      ∃ ac, agents p !! ReqSessionId req = Some ac ∧
      Router.client_step env (Conn ac) req = inr resp ∧
      ∀ a, status p' a = if decide (a = ReqSessionId req ∧ Done resp = true)
                         then on_release (status p a) else status p a
  | (inl (Router.agent_step_failed err), p') =>
      ∃ ac, agents p !! ReqSessionId req = Some ac ∧
      Router.client_step env (Conn ac) req = inl err ∧ ∀ a, status p' a = status p a
  | (inl err, p') =>
      p' = p ∧
      if decide (ReqSessionId req = EmptyString) then err = Router.missing_session_id
      else err = Router.pool_failure (session_agent_not_found (ReqSessionId req)) ∧
           status p (ReqSessionId req) = Absent
  end.
Proof.
  intros Hh. pose proof (history_inv _ _ Hh) as Hi. unfold Router.Step.
  case_bool_decide as He; [cbn; by rewrite decide_True|]. cbn. unfold GetAgentBySession.
  destruct (agents p !! ReqSessionId req) as [ac|] eqn:Ha; cbn.
  2:{ rewrite decide_False by done. by rewrite (status_at _ _ _ Ha). }
  destruct (Router.client_step env (Conn ac) req) as [err|resp] eqn:Hr; cbn.
  - exists ac. split_and!; [done..|]. intros a. by rewrite touch_status.
  - destruct (Done resp) eqn:Hd; cbn; exists ac; (split_and!; [done..|]); intros a.
    + rewrite free_status by (by apply touch_inv). rewrite touch_status, Hd by done.
      apply decide_ext. tauto.
    + rewrite touch_status, Hd by done. rewrite decide_False; [done|]. by intros [_ ?].
Qed.

(** [Close] releases the agent at the named address and reports success,
    also for an address that is not in the pool. *)
Theorem close_releases os p env session :
  history os p → session ≠ EmptyString →
  let '(r, p') := Router.exec env (Router.Close session) p in
  r = inr true ∧
  ∀ a, status p' a = if decide (a = session) then on_release (status p a) else status p a.
Proof.
  intros Hh Hs. unfold Router.Close. rewrite bool_decide_eq_false_2 by done. cbn.
  split; [done|]. intros a. apply free_status. by eapply history_inv.
Qed.

(** C37.  Sessions are not protected from each other: the session of an episode
    is only the address of its agent, so a [Close] with that address, from any
    client, ends the episode, and when no other agent is idle the next [Reset]
    that succeeds hands the same agent, under the same session, to its client. *)
Theorem close_hands_over_agent os p env a command p1 resp p2 :
  history os p → a ≠ EmptyString → status p a = Serving → (∀ b, status p b ≠ Idle) →
  visits (Router.map_order env p1) p1 →
  Router.exec env (Router.Close a) p = (inr true, p1) →
  Router.exec env (Router.Reset command) p1 = (inr resp, p2) →
  SessionId resp = a ∧ status p2 a = Serving.
Proof.
  intros Hh Hne Hs Hn Hv Hc Hr. unfold Router.Close in Hc. rewrite bool_decide_eq_false_2 in Hc by done.
  cbn in Hc. injection Hc as <-. pose proof (history_inv _ _ Hh) as Hi.
  assert (pool_inv (FreeAgent a p)) as Hi1 by (by apply free_simulates).
  rewrite reset_exec in Hr. pose proof (lock_spec _ (Router.clock env) _ Hi1 Hv) as H.
  destruct (LockFreeAgent _ _ _) as [[err|ac] q]; [done|].
  destruct H as (Hidle & _ & Hq & _ & _ & Hst). cbn zeta in Hr.
  destruct (Router.client_reset env (Conn ac) command) as [err|resp0]; [done|].
  injection Hr as <- <-. cbn. rewrite free_status in Hidle by done.
  case_decide as Heq; [|by apply Hn in Hidle]. split; [done|].
  rewrite touch_status, Hst by done. by rewrite decide_True.
Qed.

(** ** Interleavings *)

(** C11.  Concurrency.  For any number of handlers interleaved at every call
    with each other, the watcher and the cleanup, the calls made on the pool form a
    history of the pool, so that the theorems about histories hold; and every
    session that a [Reset] has replied is the address of an agent that a
    [LockFreeAgent] of the history handed out. *)
Theorem interleavings_are_histories os s i resp :
  Router.reachable os s →
  history os (Router.pool s) ∧
  (Router.threads s !! i = Some (Router.Return (Router.ResetReply (inr resp))) →
   was_locked os (SessionId resp)).
Proof.
  intros Hr. split; [by apply reachable_history|]. intros Hi.
  apply reachable_names in Hr. by apply (Forall_lookup_1 _ _ _ _ Hr) in Hi.
Qed.

(** ** Together with the agents *)

Section agents.
Context {NA NM NC : nat} {MA MM MC : Type}.
Context `{!BpfHashMap MA ip_port_key tuning_action} `{!BpfHashMapLaws NA MA ip_port_key tuning_action}.
Context `{!BpfHashMap MM Z tuning_metrics} `{!BpfHashMapLaws NM MM Z tuning_metrics}.
Context `{!BpfHashMap MC Z Z} `{!BpfHashMapLaws NC MC Z Z}.

(** C36.  Steps never end an episode: when every answer to a step is what the
    transport delivers of some run of the agent's handler, no [Step] of the router
    releases an agent, so that an episode ends by [Close] or by the timeout. *)
Theorem steps_never_release os p env req :
  history os p →
  (∀ conn resp, Router.client_step env conn req = inr resp →
     ∃ world e (s : bpf_state MA MM MC), on_wire (Step world req e s).1 = Some resp) →
  ∀ a, status (Router.exec env (Router.Step req) p).2 a = status p a.
Proof.
  intros Hh Hw a. pose proof (history_inv _ _ Hh) as Hi. unfold Router.Step.
  case_bool_decide as He; [done|]. cbn. unfold GetAgentBySession.
  destruct (agents p !! ReqSessionId req) as [ac|] eqn:Ha; cbn; [|done].
  destruct (Router.client_step env (Conn ac) req) as [err|resp] eqn:Hr; cbn; [by rewrite touch_status|].
  destruct (Hw _ _ Hr) as (world & e & s & [Hd _]%Step_on_wire). rewrite Hd. cbn. by rewrite touch_status.
Qed.

End agents.

(** ** Instances *)

Definition sample_reply : ResetResponse := MkResetResponse false "command start failed" EmptyString None.

(** Agents that answer; [conn] 2 does not respond to a [Reset]. *)
Definition sample_env : Router.environment :=
  Router.Environment 7 keys
    (λ conn _, if conn =? 2 then inl "unavailable"%string else inr sample_reply)
    (λ _ req, match on_wire (Step sample_world sample_request (MkExecutor sample_command) small_state).1 with
              | Some resp => inr resp
              | None => inl "unknown"%string
              end).

Definition one_agent : Pool := pool_step (CallAdd sample_dial 0 agent1) NewPool.
Definition serving_agent : Pool := (Router.exec sample_env (Router.Reset "curl") one_agent).2.

Lemma one_agent_history : history ([] ++ [CallAdd sample_dial 0 agent1]) one_agent.
Proof. apply (history_call [] NewPool (CallAdd sample_dial 0 agent1)); [apply history_new|done]. Qed.

Lemma serving_agent_history : ∃ os, history os serving_agent.
Proof.
  eexists. eapply (history_call _ _ (CallTouch 7 agent1)); [|done].
  eapply (history_call _ one_agent (CallLock (keys one_agent) 7)); [apply one_agent_history|].
  apply keys_visits.
Qed.

(** A failed set-up is an answer: the agent stays locked. *)
Lemma reset_routes_witness :
  Success sample_reply = false ∧ status serving_agent agent1 = Serving.
Proof.
  split; [reflexivity|].
  pose proof (reset_routes _ one_agent sample_env "curl" one_agent_history (keys_visits _)) as H.
  unfold serving_agent. destruct (Router.exec _ _ _) as [[[]|resp] p'] eqn:E;
    try (vm_compute in E; discriminate E).
  destruct H as (ac & resp0 & _ & _ & _ & _ & H). vm_compute in E. injection E as <- <-. vm_compute. reflexivity.
Defined.

Lemma step_routes_witness :
  match Router.exec sample_env (Router.Step sample_request) serving_agent with
  | (inr resp, p') => status p' agent1 = Serving
  | _ => False
  end.
Proof.
  destruct serving_agent_history as [os Hh].
  pose proof (step_routes os serving_agent sample_env sample_request Hh) as H.
  destruct (Router.exec _ _ _) as [[[]|resp] p'] eqn:E; try (vm_compute in E; discriminate E).
  destruct H as (ac & _ & Hr & H). rewrite H. assert (Done resp = false) as ->.
  { cbn in Hr. destruct (on_wire _) as [r|] eqn:Hw; [|done]. injection Hr as <-.
    by apply Step_on_wire in Hw as [-> _]. }
  vm_compute. reflexivity.
Defined.

Lemma close_releases_witness :
  status (Router.exec sample_env (Router.Close agent1) serving_agent).2 agent1 = Idle.
Proof.
  destruct serving_agent_history as [os Hh].
  pose proof (close_releases os serving_agent sample_env agent1 Hh ltac:(discriminate)) as H.
  destruct (Router.exec _ _ _) as [r p']. cbn. rewrite (proj2 H agent1). vm_compute. reflexivity.
Defined.

Lemma close_hands_over_agent_witness :
  status (Router.exec sample_env (Router.Reset "curl")
            (Router.exec sample_env (Router.Close agent1) serving_agent).2).2 agent1 = Serving.
Proof.
  destruct serving_agent_history as [os Hh].
  refine (proj2 (close_hands_over_agent os serving_agent sample_env agent1 "curl"
    (Router.exec sample_env (Router.Close agent1) serving_agent).2
    (Router.set_SessionId agent1 sample_reply) _ Hh _ _ _ _ _ _)).
  - discriminate.
  - vm_compute. reflexivity.
  - intros b. unfold status. destruct (agents serving_agent !! b) as [ac|] eqn:Hb; [|done].
    apply elem_of_map_to_list in Hb. vm_compute in Hb. apply list_elem_of_singleton in Hb. by simplify_eq.
  - apply keys_visits.
  - vm_compute. reflexivity.
  - vm_compute. reflexivity.
Defined.

Lemma reachable_call os s i A (c : Router.call A) k env :
  Router.reachable os s → Router.threads s !! i = Some (Router.Call c k) →
  visits (Router.map_order env (Router.pool s)) (Router.pool s) →
  Router.reachable (os ++ Router.pool_call env c (Router.pool s))
    (Router.System (Router.answer env c (Router.pool s)).2
       (<[i:=k (Router.answer env c (Router.pool s)).1]> (Router.threads s))).
Proof. intros Hr Hk Hv. eapply Router.reachable_step; [done|by apply Router.handler_calls]. Qed.

(** An agent joins, and a [Reset] is served in four steps. *)
Lemma interleavings_are_histories_witness : ∃ os, was_locked os agent1.
Proof.
  pose proof (Router.reachable_step _ _ _ _ Router.reachable_start
    (Router.background_calls _ (CallAdd sample_dial 0 agent1) eq_refl I)) as Hr.
  pose proof (Router.reachable_step _ _ _ _ Hr
    (Router.request_arrives _ (Router.ResetRequest "curl"))) as Hr'.
  pose proof (reachable_call _ _ 0 _ _ _ sample_env Hr' eq_refl (keys_visits _)) as Hr1.
  pose proof (reachable_call _ _ 0 _ _ _ sample_env Hr1 eq_refl (keys_visits _)) as Hr2.
  pose proof (reachable_call _ _ 0 _ _ _ sample_env Hr2 eq_refl (keys_visits _)) as Hr3.
  eexists. apply (proj2 (interleavings_are_histories _ _ 0
    (Router.set_SessionId agent1 sample_reply) Hr3)).
  vm_compute. reflexivity.
Defined.

Lemma steps_never_release_witness :
  status (Router.exec sample_env (Router.Step sample_request) serving_agent).2 agent1 = Serving.
Proof.
  destruct serving_agent_history as [os Hh].
  transitivity (status serving_agent agent1); [|vm_compute; reflexivity].
  apply (steps_never_release (MA:=bounded_map 4 ip_port_key tuning_action)
    (MM:=bounded_map 4 Z tuning_metrics) (MC:=bounded_map 4 Z Z) _ _ _ _ Hh).
  intros conn resp H. exists sample_world, (MkExecutor sample_command), small_state.
  unfold sample_env in H. cbn [Router.client_step] in H.
  destruct (on_wire _); [|done]. injection H as ->. reflexivity.
Defined.
