(* ===== verification/K8s.v ===== *)
(** * The router and the cluster

    [env-router/internal/k8s]: the watcher of the agents' endpoints
    ([watcher.go]), which keeps the pool equal to the live addresses, and the
    scaler ([scaler.go]), which sets the number of replicas from the counts of
    the pool.  The answers of the cluster's API are arguments. *)
From S2P Require Import Prelude Pool.
Local Open Scope Z_scope.

(** ** Watcher *)

(** An [Endpoints] object: the addresses of each subset. *)
Definition Endpoints : Type := list (list string).

(** An event of the watch channel; the object of an event need not be an
    [Endpoints]. *)
Inductive watch_event :=
| Added (ep : option Endpoints)
| Modified (ep : option Endpoints)
| Deleted
| OtherEvent.

(** What a syncEndpoints run reads besides the pool. *)
Record sync_env := SyncEnv {
  sync_dial : string → string + Z;
  sync_clock : Z;
  live_order : gset string → list string;     (* iteration over [liveAddrs] *)
  pool_order : Pool → list string;            (* iteration over the pool *)
}.

Section watcher.
Context (grpcPort : string).

(** [fmt.Sprintf("%s:%s", addr.IP, ew.grpcPort)] *)
Definition target (ip : string) : string := ip +:+ ":" +:+ grpcPort.

Definition liveAddrs (ep : Endpoints) : gset string :=
  foldl (λ live subset, foldl (λ live ip, {[target ip]} ∪ live) live subset) ∅ ep.

Definition syncEndpoints (env : sync_env) (ep : Endpoints) (p : Pool) : Pool :=
  let live := liveAddrs ep in
  let p := foldl (λ p addr, (AddAgent (sync_dial env) (sync_clock env) addr p).2) p (live_order env live) in
  RemoveAgentsNotIn live (pool_order env p) p.

(** The body of the loop on one event. *)
Definition handle_event (env : sync_env) (e : watch_event) (p : Pool) : Pool :=
  match e with
  | Added (Some ep) | Modified (Some ep) => syncEndpoints env ep p
  | Added None | Modified None => p
  | Deleted => p
  | OtherEvent => p
  end.

Inductive watch_error :=
| initial_endpoints_get (err : string)
| watch_endpoints (err : string)
| watch_channel_closed.

(** [watchLoop]: the result of the initial list, the result of the watch, and
    the events until the channel is closed. *)
Definition watchLoop (first : string + Endpoints) (watch : string + list watch_event)
    (env : sync_env) (p : Pool) : watch_error * Pool :=
  match first with
  | inl err => (initial_endpoints_get err, p)
  | inr ep =>
      let p := syncEndpoints env ep p in
      match watch with
      | inl err => (watch_endpoints err, p)
      | inr events => (watch_channel_closed, foldl (λ p e, handle_event env e p) p events)
      end
  end.

(** How a turn of the loop of [run] ends: the next one follows, or the context is
    cancelled while the events are awaited, or after the turn. *)
Inductive turn_end := Again | CancelledInTurn | CancelledAfter.

(** One turn: what the cluster's API answered, and its end. *)
Record round := Round {
  round_first : string + Endpoints;
  round_watch : string + list watch_event;
  round_env : sync_env;
  round_end : turn_end;
}.

Definition ends_run (e : turn_end) : bool := match e with Again => false | _ => true end.

(** The error of a turn, if it returns one. *)
Definition turn_error (e : turn_end) (err : watch_error) : list watch_error :=
  match e, err with CancelledInTurn, watch_channel_closed => [] | _, _ => [err] end.

(** [run]: the errors that are logged, and the pool. *)
Fixpoint watcher_run (rounds : list round) (p : Pool) : list watch_error * Pool :=
  match rounds with
  | [] => ([], p)
  | r :: rounds =>
      let '(err, p) := watchLoop (round_first r) (round_watch r) (round_env r) p in
      let errs := turn_error (round_end r) err in
      if ends_run (round_end r) then (errs, p)
      else let '(errs', p) := watcher_run rounds p in (errs ++ errs', p)
  end.

End watcher.

(** ** Scaler *)

(** A signed integer of [w] bits. *)
Definition sint (w z : Z) : Z := (z + 2 ^ (w - 1)) mod 2 ^ w - 2 ^ (w - 1).

Record AutoScaler := MkAutoScaler { warmPoolSize : Z }.

(** The number of replicas [reconcile] asks for, given the pool when the free
    agents are counted and when all are: the two counts take the lock apart. *)
Definition desiredReplicas (a : AutoScaler) (p_free p_total : Pool) : Z :=
  let freeCount := Z.of_nat (FreeCount p_free) in
  let totalCount := Z.of_nat (TotalCount p_total) in
  let busyCount := sint 64 (totalCount - freeCount) in
  let desired := sint 64 (busyCount + warmPoolSize a) in
  if desired <? 1 then 1 else desired.

(** The replica count that [reconcile] sends to the cluster, if it sends one;
    [scale] is the answer to [GetScale]. *)
Definition reconcile (a : AutoScaler) (p_free p_total : Pool) (scale : string + Z) : option Z :=
  match scale with
  | inl _ => None
  | inr currentReplicas =>
      let desired := desiredReplicas a p_free p_total in
      if desired =? currentReplicas then None else Some (sint 32 desired)
  end.

(** What the loop of the scaler's [run] meets: a tick with the pool as each count
    saw it and the answer to [GetScale], a change of the target, the end. *)
Inductive scaler_event :=
| Tick (p_free p_total : Pool) (scale : string + Z)
| Retarget (size : Z)
| Cancelled.

(** The error carries the refused size. *)
Definition SetWarmPoolSize (size : Z) (a : AutoScaler) : option Z * AutoScaler :=
  if size <? 0 then (Some size, a)
  else (None, MkAutoScaler size).

(** [run]: the replica counts sent to the cluster. *)
Fixpoint scaler_run (evs : list scaler_event) (a : AutoScaler) : list Z :=
  match evs with
  | [] | Cancelled :: _ => []
  | Tick p_free p_total scale :: evs =>
      match reconcile a p_free p_total scale with
      | Some replicas => replicas :: scaler_run evs a
      | None => scaler_run evs a
      end
  | Retarget size :: evs => scaler_run evs (SetWarmPoolSize size a).2
  end.

(** ** Start and stop *)

(** Both components start their loop in a goroutine of its own under a context that
    [Stop] cancels. *)
Module Loops.

(** The contexts of the process: those created, those cancelled, and the loops that
    run, each by its context. *)
Record contexts := Contexts {
  created : nat;
  cancelled : gset nat;
  loops : list nat;
}.

(** The member [cancel] of an [EndpointWatcher] or of an [AutoScaler]. *)
Record component := Component { cancel : option nat }.

Definition New : component := Component None.

(** [context.WithCancel], [cancel] set, and [go run(ctx)]. *)
Definition Start (c : component) (x : contexts) : component * contexts :=
  (Component (Some (created x)), Contexts (S (created x)) (cancelled x) (loops x ++ [created x])).

Definition Stop (c : component) (x : contexts) : contexts :=
  match cancel c with
  | Some ctx => Contexts (created x) ({[ctx]} ∪ cancelled x) (loops x)
  | None => x
  end.

(** The loops that nothing has told to return. *)
Definition running (x : contexts) : list nat := filter (λ ctx, ctx ∉ cancelled x) (loops x).

(** What a program does with two components: the watcher and the scaler. *)
Inductive call := StartWatcher | StopWatcher | StartScaler | StopScaler.

Definition perform (o : call) (s : component * component * contexts) : component * component * contexts :=
  let '(w, a, x) := s in
  match o with
  | StartWatcher => let '(w, x) := Start w x in (w, a, x)
  | StopWatcher => (w, a, Stop w x)
  | StartScaler => let '(a, x) := Start a x in (w, a, x)
  | StopScaler => (w, a, Stop a x)
  end.

Definition performed (os : list call) : component * component * contexts :=
  foldl (flip perform) (New, New, Contexts 0 ∅ []) os.

(** The calls of the router's [main] leave no loop behind; a second [Start] leaves
    one that no [Stop] ends. *)
Lemma main_stops_loops :
  running (performed [StartWatcher; StartScaler]).2 = [0; 1]%nat ∧
  running (performed [StartWatcher; StartScaler; StopScaler; StopWatcher]).2 = [] ∧
  running (performed [StartWatcher; StartWatcher; StopWatcher; StopWatcher]).2 = [0]%nat.
Proof. by vm_compute. Qed.

(** [Stop] before [Start] does nothing, and once more does nothing more. *)
Lemma stop_idempotent c x : Stop New x = x ∧ Stop c (Stop c x) = Stop c x.
Proof.
  split; [done|]. unfold Stop. destruct (cancel c); [|done]. cbn. by rewrite (assoc_L (∪)), union_idemp_L.
Qed.

End Loops.

(** ** Lemmas *)

(** Membership in a set that a loop grows. *)
Lemma elem_of_grow {B} (f : gset string → B → gset string) (P : B → Prop) a l live :
  (∀ x live, a ∈ f live x ↔ a ∈ live ∨ P x) →
  a ∈ foldl f live l ↔ a ∈ live ∨ ∃ x, x ∈ l ∧ P x.
Proof.
  intros Hf. revert live. induction l as [|x l IH]; intros live; cbn.
  - split; [auto|]. intros [?|(x & H & _)]; [done|by apply elem_of_nil in H].
  - rewrite IH, Hf. split.
    + intros [[?|?]|(y & ? & ?)]; [by left|right; exists x; split; [left|done]|].
      right. exists y. split; [by right|done].
    + intros [?|(y & [->|?]%elem_of_cons & ?)]; [by do 2 left|by left; right|]. right. by exists y.
Qed.

Lemma elem_of_liveAddrs port ep a :
  a ∈ liveAddrs port ep ↔ ∃ subset, subset ∈ ep ∧ ∃ ip, ip ∈ subset ∧ a = target port ip.
Proof.
  unfold liveAddrs. rewrite (elem_of_grow _ (λ subset, ∃ ip, ip ∈ subset ∧ a = target port ip)).
  - split; [intros [?%not_elem_of_empty|?]; done|auto].
  - intros subset live. apply elem_of_grow. intros ip live'.
    rewrite elem_of_union, elem_of_singleton. tauto.
Qed.

Lemma sint_id w z : 0 < w → - 2 ^ (w - 1) ≤ z < 2 ^ (w - 1) → sint w z = z.
Proof.
  intros Hw Hz. unfold sint.
  assert (2 ^ w = 2 * 2 ^ (w - 1)) as Hp by (rewrite <- Z.pow_succ_r by lia; f_equal; lia).
  rewrite Z.mod_small; lia.
Qed.

Lemma sint_small w z : 32 ≤ w → - 2 ^ 31 ≤ z < 2 ^ 31 → sint w z = z.
Proof.
  intros Hw Hz. assert (2 ^ 31 ≤ 2 ^ (w - 1)) by (apply Z.pow_le_mono_r; lia).
  apply sint_id; lia.
Qed.
