(* ===== verification/K8sProps.v ===== *)
(** * Properties of the watcher and the scaler

    A synchronisation moves every address to the status its endpoints ask for;
    after a watch the pool follows the last endpoints that were seen; the replica
    count the scaler asks for. *)
From S2P Require Import Prelude Pool PoolFacts PoolProps K8s.
Local Open Scope Z_scope.

(** An iteration visits every element once. *)
Class SyncEnvOk (env : sync_env) := {
  live_visits live : live_order env live ≡ₚ elements live;
  pool_visits p : visits (pool_order env p) p;
}.

Definition dial_ok (env : sync_env) (a : string) : bool :=
  match sync_dial env a with inr _ => true | inl _ => false end.

Section sync.
Context (port : string) (env : sync_env) `{!SyncEnvOk env}.

(** The additions of a synchronisation. *)
Abbreviation add_all order p :=
  (foldl (λ p addr, (AddAgent (sync_dial env) (sync_clock env) addr p).2) p order).

Lemma add_all_spec order p :
  NoDup order → pool_inv p →
  pool_inv (add_all order p) ∧
  ∀ a, status (add_all order p) a =
    if decide (a ∈ order) then on_add (dial_ok env a) (status p a) else status p a.
Proof.
  intros Hnd. revert p. induction Hnd as [|b order Hb Hnd IH]; intros p Hi; [done|]. cbn [foldl].
  destruct (add_simulates (sync_dial env) (sync_clock env) b p Hi) as [Hi' Hs].
  destruct (IH _ Hi') as [Hi'' Hs'']. split; [done|]. intros a. cbn [spec_step] in Hs.
  rewrite Hs'', Hs. destruct (decide (a = b)) as [->|Hne].
  - by rewrite decide_False, decide_True by (done || left).
  - by rewrite (decide_ext (a ∈ b :: order) (a ∈ order)) by (rewrite elem_of_cons; tauto).
Qed.

Lemma sync_spec ep p :
  pool_inv p →
  pool_inv (syncEndpoints port env ep p) ∧
  ∀ a, status (syncEndpoints port env ep p) a =
    if decide (a ∈ liveAddrs port ep) then on_add (dial_ok env a) (status p a) else on_remove (status p a).
Proof.
  intros Hi. unfold syncEndpoints. set (live := liveAddrs port ep).
  assert (NoDup (live_order env live)) as Hnd by (rewrite live_visits; apply NoDup_elements).
  destruct (add_all_spec _ p Hnd Hi) as [Hi' Hs].
  destruct (remove_not_in_spec live _ _ Hi' (pool_visits _)) as [Hi'' Hs'']. split; [done|].
  intros a. rewrite Hs'', Hs.
  rewrite (decide_ext (a ∈ live_order env live) (a ∈ live)) by (rewrite live_visits; apply elem_of_elements).
  by case_decide.
Qed.

Lemma add_all_history os order p :
  history os p → ∃ os', history (os ++ os') (add_all order p).
Proof.
  revert os p. induction order as [|a order IH]; intros os p Hh; [exists []; by rewrite app_nil_r|].
  cbn [foldl]. destruct (IH _ _ (history_call _ _ (CallAdd (sync_dial env) (sync_clock env) a) Hh I))
    as [os' H]. exists (CallAdd (sync_dial env) (sync_clock env) a :: os').
  by rewrite <- app_assoc in H.
Qed.

Lemma sync_history os ep p :
  history os p → ∃ os', history (os ++ os') (syncEndpoints port env ep p).
Proof.
  intros Hh. unfold syncEndpoints.
  destruct (add_all_history os (live_order env (liveAddrs port ep)) p Hh) as [os' H].
  eexists. rewrite app_assoc. apply (history_call _ _ (CallRemoveNotIn _ _) H), pool_visits.
Qed.

(** The pool agrees with a set of endpoints. *)
Definition follows (ep : Endpoints) (p : Pool) : Prop :=
  ∀ a, if decide (a ∈ liveAddrs port ep)
       then status p a ≠ Draining ∧ (dial_ok env a = true → status p a ≠ Absent)
       else status p a = Absent ∨ status p a = Draining.

Lemma sync_follows ep p : pool_inv p → follows ep (syncEndpoints port env ep p).
Proof.
  intros Hi a. destruct (sync_spec ep p Hi) as [_ Hs]. rewrite Hs. case_decide.
  - destruct (status p a), (dial_ok env a); cbn; done.
  - destruct (status p a); cbn; auto.
Qed.

(** The endpoints of the last event that carries some. *)
Definition event_endpoints (e : watch_event) : option Endpoints :=
  match e with Added ep | Modified ep => ep | _ => None end.
Definition last_endpoints (ep : Endpoints) (events : list watch_event) : Endpoints :=
  default ep (last (omap event_endpoints events)).

Lemma event_spec ep e p :
  pool_inv p → follows ep p →
  pool_inv (handle_event port env e p) ∧
  follows (default ep (event_endpoints e)) (handle_event port env e p).
Proof.
  intros Hi Hf. destruct e as [[ep'|]|[ep'|]| |]; cbn; try done;
    (split; [by apply sync_spec|by apply sync_follows]).
Qed.

Lemma events_spec ep events p :
  pool_inv p → follows ep p →
  pool_inv (foldl (λ p e, handle_event port env e p) p events) ∧
  follows (last_endpoints ep events) (foldl (λ p e, handle_event port env e p) p events).
Proof.
  revert ep p. induction events as [|e events IH]; intros ep p Hi Hf; [done|].
  destruct (event_spec ep e p Hi Hf) as [Hi' Hf']. cbn [foldl]. specialize (IH _ _ Hi' Hf').
  assert (last_endpoints (default ep (event_endpoints e)) events = last_endpoints ep (e :: events)) as <-;
    [|done].
  unfold last_endpoints. cbn [omap list_omap].
  destruct (event_endpoints e) as [ep'|]; cbn [default]; [|done].
  rewrite last_cons. by destruct (last _).
Qed.

(** One synchronisation.  Every live address is added, or its pending
    removal cancelled, unless it cannot be dialed; every other agent is removed
    at once when it is idle and after its episode when it serves one.  The calls
    made are a history of the pool. *)
Theorem sync_converges os ep p :
  history os p →
  (∃ os', history (os ++ os') (syncEndpoints port env ep p)) ∧
  ∀ a,
    ((∃ subset, subset ∈ ep ∧ ∃ ip, ip ∈ subset ∧ a = target port ip) →
       status (syncEndpoints port env ep p) a = on_add (dial_ok env a) (status p a)) ∧
    ((¬ ∃ subset, subset ∈ ep ∧ ∃ ip, ip ∈ subset ∧ a = target port ip) →
       status (syncEndpoints port env ep p) a = on_remove (status p a)).
Proof.
  intros Hh. split; [by apply sync_history|]. intros a.
  destruct (sync_spec ep p (history_inv _ _ Hh)) as [_ ->]. rewrite <- elem_of_liveAddrs.
  split; intros H; [by rewrite decide_True|by rewrite decide_False].
Qed.

(** Repeating a synchronisation with the same endpoints changes no status,
    whatever the iteration orders and the clock. *)
Theorem sync_idempotent os ep p :
  history os p →
  ∀ a, status (syncEndpoints port env ep (syncEndpoints port env ep p)) a =
       status (syncEndpoints port env ep p) a.
Proof.
  intros Hh a. destruct (sync_spec ep p (history_inv _ _ Hh)) as [Hi Hs].
  destruct (sync_spec ep _ Hi) as [_ Hs']. rewrite Hs', Hs.
  destruct (decide _), (status p a), (dial_ok env a); done.
Qed.

(** When the watch loop ends because its channel was closed,
    the pool follows the last endpoints that an addition or a modification
    carried, or else those of the initial list: no other agent is left but
    draining ones, and no live one that can be dialed is missing.  In particular
    the deletion of the service changes nothing. *)
Theorem watch_follows_last_endpoints os ep events p :
  history os p →
  let '(err, p') := watchLoop port (inr ep) (inr events) env p in
  err = watch_channel_closed ∧ follows (last_endpoints ep events) p'.
Proof.
  intros Hh. cbn. split; [done|]. pose proof (history_inv _ _ Hh) as Hi.
  apply events_spec; [by apply sync_spec|by apply sync_follows].
Qed.

(** One turn of the watcher: the endpoints it saw last, if it saw any. *)
Definition seen_in (first : string + Endpoints) (watch : string + list watch_event) : option Endpoints :=
  match first with
  | inl _ => None
  | inr ep => Some (match watch with inl _ => ep | inr events => last_endpoints ep events end)
  end.

Lemma watchLoop_spec first watch p :
  pool_inv p →
  let p' := (watchLoop port first watch env p).2 in
  pool_inv p' ∧ match seen_in first watch with Some ep => follows ep p' | None => p' = p end.
Proof.
  intros Hi. destruct first as [err|ep]; [done|]. cbn.
  destruct (sync_spec ep p Hi) as [Hi' _]. pose proof (sync_follows ep p Hi) as Hf.
  destruct watch as [err|events]; [done|]. cbn. by apply events_spec.
Qed.

End sync.

(** The endpoints that a run of the watcher saw last, with the dial results of
    their synchronisation, after those [seen] before. *)
Fixpoint last_seen (seen : option (sync_env * Endpoints)) (rounds : list round)
    : option (sync_env * Endpoints) :=
  match rounds with
  | [] => seen
  | r :: rounds =>
      let seen := match seen_in (round_first r) (round_watch r) with
                  | Some ep => Some (round_env r, ep)
                  | None => seen
                  end in
      if ends_run (round_end r) then seen else last_seen seen rounds
  end.

Section watcher.
Context (port : string).

(** The pool agrees with what was seen, and is [p0] while nothing was. *)
Definition agrees (p0 : Pool) (seen : option (sync_env * Endpoints)) (p : Pool) : Prop :=
  match seen with Some (env, ep) => follows port env ep p | None => p = p0 end.

Lemma watcher_run_spec p0 rounds seen p :
  Forall (λ r, SyncEnvOk (round_env r)) rounds → pool_inv p → agrees p0 seen p →
  pool_inv (watcher_run port rounds p).2 ∧
  agrees p0 (last_seen seen rounds) (watcher_run port rounds p).2.
Proof.
  intros Hok. revert seen p. induction Hok as [|r rounds Hr _ IH]; intros seen p Hi Ha; [done|].
  cbn [watcher_run last_seen].
  destruct (watchLoop_spec port (round_env r) (round_first r) (round_watch r) p Hi) as [Hi' Hf].
  destruct (watchLoop _ _ _ _ p) as [err p']. cbn [snd] in Hi', Hf.
  set (seen' := match seen_in _ _ with Some _ => _ | None => _ end).
  assert (agrees p0 seen' p') as Ha' by (subst seen'; by destruct (seen_in _ _) as [ep|]; [|subst p']).
  destruct (ends_run (round_end r)); [done|]. specialize (IH seen' p' Hi' Ha').
  by destruct (watcher_run port rounds p').
Qed.

(** The calls of the handlers and of the cleanup. *)
Definition handler_op (o : pool_op) : bool :=
  match o with CallLock _ _ | CallFree _ | CallTouch _ _ | CallCleanup _ _ _ => true | _ => false end.

Inductive others (p : Pool) : Pool → Prop :=
| others_here : others p p
| others_call p' o : others p p' → handler_op o = true → op_visits o p' → others p (pool_step o p').

(** They do not move an agent in or out of the live ones. *)
Lemma others_follow env ep p p' :
  pool_inv p → follows port env ep p → others p p' → pool_inv p' ∧ follows port env ep p'.
Proof.
  intros Hi Hf. induction 1 as [|p' o _ [Hi' IH] Ho Hv]; [done|].
  destruct (step_simulates o p' Hi' Hv) as [Hi'' Hs]. split; [done|]. intros a. specialize (IH a).
  assert (status (pool_step o p') a = status p' a ∨
    (status p' a = Idle ∧ status (pool_step o p') a = Serving) ∨
    status (pool_step o p') a = on_release (status p' a)) as H.
  { destruct o; cbn [handler_op spec_step] in *; try done.
    - destruct Hs as [(b & Hb & Hs)|[_ Hs]]; rewrite Hs; [|by left].
      destruct (decide (a = b)); [subst; right; by left|by left].
    - rewrite Hs. destruct (decide (a = addr)); auto.
    - left. apply Hs.
    - destruct Hs as [timed_out Hs]. rewrite Hs. destruct (timed_out a); auto. }
  case_decide.
  - destruct H as [->|[[? ->]| ->]]; [done|done|]. destruct IH. destruct (status p' a); done.
  - destruct H as [->|[[Hidle ->]| ->]]; [done|rewrite Hidle in IH; by destruct IH|].
    destruct IH as [-> | ->]; auto.
Qed.

(** C32.  The watcher, over any number of turns, whatever the cluster answers:
    when it stops, or at any turn, the pool follows the last endpoints that an
    initial list, an addition or a modification carried: no other agent is left
    but draining ones, and no live one that could be dialed then is missing; the
    handlers and the cleanup leave this as it is until the next turn.  A turn that
    fails, and the deletion of the service, change nothing. *)
Theorem watcher_follows os p rounds :
  history os p → Forall (λ r, SyncEnvOk (round_env r)) rounds →
  let p' := (watcher_run port rounds p).2 in
  match last_seen None rounds with
  | Some (env, ep) => ∀ p'', others p' p'' → ∀ a,
      if decide (a ∈ liveAddrs port ep)
      then status p'' a ≠ Draining ∧ (dial_ok env a = true → status p'' a ≠ Absent)
      else status p'' a = Absent ∨ status p'' a = Draining
  | None => p' = p
  end.
Proof.
  intros Hh Hok.
  destruct (watcher_run_spec p rounds None p Hok (history_inv _ _ Hh) eq_refl) as [Hi H].
  cbn zeta. destruct (last_seen None rounds) as [[env ep]|]; [|done].
  intros p'' Ho. by apply (others_follow env ep (watcher_run port rounds p).2).
Qed.

End watcher.

(** ** Scaler *)

(** The desired count within the ranges of the integers. *)
Lemma desired_replicas a p :
  pool_inv p → - 2 ^ 31 ≤ warmPoolSize a → Z.of_nat (TotalCount p) + Z.max 0 (warmPoolSize a) < 2 ^ 31 →
  desiredReplicas a p p = Z.max 1 (Z.of_nat (count Busy (agents p)) + warmPoolSize a).
Proof.
  intros Hi Hw Ht. pose proof (busy_free p Hi) as Hc. unfold desiredReplicas.
  replace (Z.of_nat (TotalCount p) - Z.of_nat (FreeCount p))
    with (Z.of_nat (count Busy (agents p))) by lia.
  rewrite (sint_small 64 (Z.of_nat _)), sint_small by lia.
  destruct (Z.ltb_spec (Z.of_nat (count Busy (agents p)) + warmPoolSize a) 1); lia.
Qed.

(** C27.  The replica count.  Within the ranges of its integers [reconcile] sends
    nothing when the deployment has the desired count, and that count otherwise:
    the busy agents, draining ones included, plus the warm pool, and at least
    one; the same call with that count as the current scale sends nothing. *)
Theorem reconcile_spec a os p cur :
  history os p →
  - 2 ^ 31 ≤ warmPoolSize a → Z.of_nat (TotalCount p) + Z.max 0 (warmPoolSize a) < 2 ^ 31 →
  let desired := Z.max 1 (Z.of_nat (count Busy (agents p)) + warmPoolSize a) in
  reconcile a p p (inr cur) = (if decide (cur = desired) then None else Some desired) ∧
  reconcile a p p (inr desired) = None.
Proof.
  intros Hh Hw Ht desired. pose proof (history_inv _ _ Hh) as Hi.
  pose proof (busy_free p Hi) as Hc.
  assert (desiredReplicas a p p = desired) as Hd by (by apply desired_replicas).
  unfold reconcile. rewrite Hd, Z.eqb_refl. split; [|done].
  assert (1 ≤ desired < 2 ^ 31) as Hb by (subst desired; lia).
  rewrite sint_small by lia. case_decide; [by rewrite (proj2 (Z.eqb_eq _ _))|].
  by rewrite (proj2 (Z.eqb_neq _ _)).
Qed.

(** Outside these ranges "never scale to zero" does not hold: the guard is
    on the 64-bit count and the request carries its low 32 bits, so a warm pool
    of 2^32 scales an empty deployment to zero and one of 2^31 to a negative
    count. *)
Theorem reconcile_truncates :
  reconcile (MkAutoScaler (2 ^ 32)) NewPool NewPool (inr 1) = Some 0 ∧
  reconcile (MkAutoScaler (2 ^ 31)) NewPool NewPool (inr 1) = Some (- 2 ^ 31).
Proof. vm_compute. done. Qed.

(** ** Instances *)

Definition sample_sync : sync_env := SyncEnv sample_dial 3 elements keys.

#[export] Instance sample_sync_ok : SyncEnvOk sample_sync.
Proof. split; [done|apply keys_visits]. Qed.

(** The second address replaces the first, whose agent serves an episode. *)
Lemma sync_converges_witness :
  status (syncEndpoints "50051" sample_sync [["10.0.0.2"%string]] one_busy) agent1 = Draining.
Proof.
  rewrite (proj2 (proj2 (sync_converges "50051" sample_sync _ [["10.0.0.2"%string]] one_busy
    one_busy_history) agent1)); [vm_compute; reflexivity|].
  rewrite <- elem_of_liveAddrs. apply (bool_decide_eq_false_1 _). vm_compute. reflexivity.
Defined.

Lemma sync_idempotent_witness :
  status (syncEndpoints "50051" sample_sync [["10.0.0.2"%string]]
    (syncEndpoints "50051" sample_sync [["10.0.0.2"%string]] one_busy)) agent1 = Draining.
Proof.
  rewrite (sync_idempotent "50051" sample_sync _ [["10.0.0.2"%string]] one_busy one_busy_history agent1).
  vm_compute. reflexivity.
Defined.

Lemma watch_follows_last_endpoints_witness :
  follows "50051" sample_sync [["10.0.0.2"%string]]
    (watchLoop "50051" (inr [["10.0.0.1"%string]])
       (inr [Modified (Some [["10.0.0.2"%string]]); Deleted]) sample_sync NewPool).2.
Proof.
  exact (proj2 (watch_follows_last_endpoints "50051" sample_sync _ [["10.0.0.1"%string]]
    [Modified (Some [["10.0.0.2"%string]]); Deleted] NewPool history_new)).
Defined.

(** The list fails, then one address is listed and a second one replaces it. *)
Definition sample_rounds : list round := [
  Round (inl "timeout"%string) (inr []) sample_sync Again;
  Round (inr [["10.0.0.1"%string]]) (inl "refused"%string) sample_sync Again;
  Round (inr [["10.0.0.1"%string]]) (inr [Modified (Some [["10.0.0.2"%string]]); Deleted]) sample_sync CancelledInTurn].

Lemma watcher_follows_witness :
  status (watcher_run "50051" sample_rounds NewPool).2 agent2 ≠ Absent.
Proof.
  pose proof (watcher_follows "50051" [] NewPool sample_rounds history_new) as H. cbn [last_seen] in H.
  specialize (H ltac:(repeat apply Forall_cons_2; try apply Forall_nil_2; exact sample_sync_ok) _ (others_here _) agent2).
  rewrite decide_True in H by (apply (bool_decide_eq_true_1 _); vm_compute; reflexivity).
  apply (proj2 H). reflexivity.
Defined.

Lemma reconcile_spec_witness : reconcile (MkAutoScaler 1) one_busy one_busy (inr 1) = Some 2.
Proof.
  rewrite (proj1 (reconcile_spec (MkAutoScaler 1) _ one_busy 1 one_busy_history
    ltac:(vm_compute; discriminate) ltac:(vm_compute; reflexivity))).
  vm_compute. reflexivity.
Defined.
