(* ===== verification/Liveness.v ===== *)
(** * Progress of the router

    What happens eventually.  A schedule is an infinite sequence of calls on the
    pool, as the handlers, the watcher and the cleanup make them; a session that
    its client has abandoned is released after some finite part of every schedule
    in which the cleanup keeps running ([env-router/main.go], the ticker).  The
    scaler and the watcher together fill the warm pool, up to the sessions that
    begin after the scaler has counted. *)
From S2P Require Import Prelude Pool PoolFacts PoolProps K8s K8sProps.
Local Open Scope Z_scope.

(** ** Schedules *)

(** The pool after the first [n] calls of a schedule. *)
Fixpoint pool_at (ops : nat → pool_op) (p : Pool) (n : nat) : Pool :=
  match n with O => p | S n => pool_step (ops n) (pool_at ops p n) end.

(** [P] holds from the [n]-th call on, and at some call from the [n]-th on. *)
Definition always (P : nat → Prop) (n : nat) : Prop := ∀ m, (n ≤ m)%nat → P m.
Definition eventually (P : nat → Prop) (n : nat) : Prop := ∃ m, (n ≤ m)%nat ∧ P m.

(** The agent serves a session, to be removed after it or not. *)
Definition in_session (st : agent_status) : Prop := st = Serving ∨ st = Draining.

#[export] Instance in_session_dec st : Decision (in_session st).
Proof. unfold in_session. apply _. Defined.

Section schedule.
Context (ops : nat → pool_op) (p0 : Pool) (timeout : Z).

(** A cleanup with the timeout, by a clock that shows at least [t]. *)
Definition cleanup_after (t : Z) (n : nat) : Prop :=
  ∃ now order, ops n = CallCleanup timeout now order ∧ ∀ a, t ≤ now a.

(** Iterations visit every key, and the cleanup runs again and again, by a clock
    that passes every time. *)
Record fair : Prop := {
  fair_visits n : op_visits (ops n) (pool_at ops p0 n);
  fair_cleanup n t : eventually (cleanup_after t) n;
}.

Lemma in_session_busy p a : in_session (status p a) ↔ ∃ ac, agents p !! a = Some ac ∧ Busy ac = true.
Proof.
  unfold in_session, status. destruct (agents p !! a) as [ac|]; cbn.
  - destruct (Busy ac) eqn:Hb; [|split; [by intros [?|?]|intros (bc & [= <-] & ?); congruence]].
    split; [by eauto|]. destruct (pendingRemoval ac); auto.
  - split; [by intros [?|?]|by intros (? & ? & _)].
Qed.

Lemma pool_at_inv n : fair → pool_inv p0 → pool_inv (pool_at ops p0 n).
Proof. intros Hf Hi. induction n as [|n IH]; [done|]. apply step_simulates; [done|]. by apply Hf. Qed.

(** A call that ends the session of [a] does end it. *)
Lemma releases_ends a o p :
  pool_inv p → op_visits o p → releases a o p → ¬ in_session (status (pool_step o p) a).
Proof.
  intros Hi Hv Hr. destruct o as [| | |addr| |to now order|]; cbn [releases op_visits pool_step] in *; try done.
  - subst. destruct (free_simulates a p Hi) as [_ H]. rewrite H, decide_True by done.
    by destruct (status p a); intros [?|?].
  - destruct (cleanup_spec to now order p Hi Hv) as [_ ->]. rewrite Hr.
    by destruct (status p a); intros [?|?].
Qed.

(** Without activity, a session is over after some call or goes on for [k] more
    calls with the same last activity. *)
Lemma untouched a n k ac :
  fair → pool_inv p0 → always (λ m, ¬ touches a (ops m)) n →
  agents (pool_at ops p0 n) !! a = Some ac → Busy ac = true →
  eventually (λ m, ¬ in_session (status (pool_at ops p0 m) a)) n ∨
  ∃ ac', agents (pool_at ops p0 (n + k)) !! a = Some ac' ∧ Busy ac' = true ∧ LastActivity ac' = LastActivity ac.
Proof.
  intros Hf Hi Ht Ha Hb. induction k as [|k [IH|(bc & Hbc & Hbb & Hbl)]]; [|by left|].
  - rewrite Nat.add_0_r. eauto.
  - rewrite Nat.add_succ_r. cbn [pool_at].
    destruct (decide (in_session (status (pool_at ops p0 (S (n + k))) a))) as [Hs|Hs];
      [|left; exists (S (n + k)); split; [lia|done]]. right.
    destruct (busy_step (ops (n + k)) (pool_at ops p0 (n + k)) a bc) as (cc & ? & _ & ? & Hl);
      [by apply Hf| |done..|].
    + intros Hr. by apply (releases_ends a _ _ (pool_at_inv _ Hf Hi) (fair_visits Hf _)) in Hr.
    + exists cc. rewrite Hl by (apply Ht; lia). done.
Qed.

Lemma abandoned_released a n :
  fair → pool_inv p0 → timeout < 2 ^ 63 - 1 → always (λ m, ¬ touches a (ops m)) n →
  eventually (λ m, ¬ in_session (status (pool_at ops p0 m) a)) n.
Proof.
  intros Hf Hi Hto Ht.
  destruct (decide (in_session (status (pool_at ops p0 n) a))) as [Hs|Hs]; [|by exists n].
  apply in_session_busy in Hs as (ac & Ha & Hb).
  destruct (fair_cleanup Hf n (LastActivity ac + timeout + 1)) as (m & Hm & now & order & Ho & Hnow).
  destruct (untouched a n (m - n) ac Hf Hi Ht Ha Hb) as [?|(bc & Hbc & Hbb & Hbl)]; [done|].
  replace (n + (m - n))%nat with m in Hbc by lia.
  exists (S m). split; [lia|]. cbn [pool_at].
  apply releases_ends; [by apply pool_at_inv|by apply Hf|].
  rewrite Ho. cbn. rewrite Hbc. cbn. unfold stale, Since. rewrite Hbb, Hbl. specialize (Hnow a). cbn. lia.
Qed.
End schedule.

(** C31.  Abandoned sessions end.  In every schedule of calls on the pool, if from
    some call on the client of a session makes no request, then some later call
    leaves its agent out of any session, idle or gone, provided that the cleanup
    keeps running by a clock that goes on and that the timeout is one a
    [time.Duration] can exceed. *)
Theorem abandoned_sessions_end ops os p timeout a n :
  history os p → fair ops p timeout → timeout < 2 ^ 63 - 1 →
  always (λ m, ¬ touches a (ops m)) n →
  eventually (λ m, status (pool_at ops p m) a = Idle ∨ status (pool_at ops p m) a = Absent) n.
Proof.
  intros Hh Hf Ht Hu. destruct (abandoned_released ops p timeout a n Hf (history_inv _ _ Hh) Ht Hu)
    as (m & Hm & Hs). exists m. split; [done|]. unfold in_session in Hs.
  destruct (status (pool_at ops p m) a); tauto.
Qed.

(** ** The warm pool *)

(** Addresses of the agents in a session. *)
Definition in_sessions (p : Pool) : gset string := dom (filter (λ e, Busy e.2 = true) (agents p)).

Lemma in_sessions_count p : size (in_sessions p) = count Busy (agents p).
Proof. unfold in_sessions, count. apply size_dom. Qed.

Lemma elem_of_in_sessions p a : a ∈ in_sessions p ↔ in_session (status p a).
Proof.
  rewrite in_session_busy. unfold in_sessions. rewrite elem_of_dom. split.
  - intros [ac H]. apply map_lookup_filter_Some in H as [? ?]. eauto.
  - intros (ac & Ha & Hb). exists ac. by apply map_lookup_filter_Some.
Qed.

Definition idle_agents (p : Pool) : gset string := dom (filter (λ e, is_free e.2 = true) (agents p)).

Lemma idle_agents_count p : size (idle_agents p) = FreeCount p.
Proof. rewrite FreeCount_count. apply size_dom. Qed.

Lemma elem_of_idle_agents p a : pool_inv p → a ∈ idle_agents p ↔ status p a = Idle.
Proof.
  intros Hi. unfold idle_agents. rewrite elem_of_dom. split.
  - intros [ac H]. apply map_lookup_filter_Some in H as [Ha Hf]. cbn in Hf.
    rewrite (is_free_idle p a ac Hi Ha) in Hf. by apply bool_decide_eq_true in Hf.
  - intros Hs. destruct (agents p !! a) as [ac|] eqn:Ha; [|by rewrite (status_at _ _ _ Ha) in Hs].
    exists ac. apply map_lookup_filter_Some. split; [done|]. cbn.
    rewrite (is_free_idle p a ac Hi Ha). by apply bool_decide_eq_true.
Qed.

(** The sessions that a call begins. *)
Definition begins (o : pool_op) (p : Pool) : nat :=
  match o with
  | CallLock order now => match (LockFreeAgent order now p).1 with inr _ => 1 | inl _ => 0 end
  | _ => 0
  end.

(** Any calls, with the number of sessions that begin in them. *)
Inductive later (p : Pool) : nat → Pool → Prop :=
| later_here : later p 0 p
| later_call n p' o : later p n p' → op_visits o p' → later p (n + begins o p') (pool_step o p').

Lemma in_session_added b st : in_session (on_add b st) → in_session st.
Proof. unfold in_session. destruct st, b; cbn; intuition congruence. Qed.
Lemma in_session_removed st : in_session (on_remove st) → in_session st.
Proof. unfold in_session. destruct st; cbn; intuition congruence. Qed.
Lemma in_session_released st : in_session (on_release st) → in_session st.
Proof. unfold in_session. destruct st; cbn; intuition congruence. Qed.

(** A call puts at most the agent that it locks in a session. *)
Lemma begins_agents o p :
  pool_inv p → op_visits o p →
  ∃ X : gset string, size X = begins o p ∧
    ∀ a, in_session (status (pool_step o p) a) → in_session (status p a) ∨ a ∈ X.
Proof.
  intros Hi Hv. destruct (step_simulates o p Hi Hv) as [_ Hs].
  destruct o as [dial now addr|addr|order now|addr|now addr|to now order|live order]; cbn [begins spec_step] in *.
  - exists ∅. split; [done|]. intros a. rewrite Hs. case_decide; [intros ?%in_session_added|]; auto.
  - exists ∅. split; [done|]. intros a. rewrite Hs. case_decide; [intros ?%in_session_removed|]; auto.
  - clear Hs. pose proof (lock_spec order now p Hi Hv) as Hl. cbn [pool_step].
    destruct (LockFreeAgent order now p) as [[err|ac] p']; cbn [fst snd].
    + destruct Hl as (-> & _ & _). exists ∅. auto.
    + destruct Hl as (_ & _ & _ & _ & _ & Hst). exists {[Addr ac]}. split; [apply size_singleton|].
      intros a. rewrite Hst, elem_of_singleton. case_decide; auto.
  - exists ∅. split; [done|]. intros a. rewrite Hs. case_decide; [intros ?%in_session_released|]; auto.
  - exists ∅. split; [done|]. intros a. rewrite Hs. auto.
  - destruct Hs as [timed_out Hs]. exists ∅. split; [done|]. intros a. rewrite Hs.
    destruct (timed_out a); [intros ?%in_session_released|]; auto.
  - exists ∅. split; [done|]. intros a. rewrite Hs. case_decide; [|intros ?%in_session_removed]; auto.
Qed.

Lemma begins_sessions o p :
  pool_inv p → op_visits o p →
  (size (in_sessions (pool_step o p)) ≤ size (in_sessions p) + begins o p)%nat.
Proof.
  intros Hi Hv. destruct (begins_agents o p Hi Hv) as (X & <- & HX).
  transitivity (size (in_sessions p ∪ X)).
  - apply subseteq_size. intros a. rewrite elem_of_union, !elem_of_in_sessions. apply HX.
  - rewrite size_union_alt. pose proof (subseteq_size _ X (subseteq_difference_l X (in_sessions p) X (reflexivity X))). lia.
Qed.

Lemma later_sessions p n p' :
  pool_inv p → later p n p' →
  pool_inv p' ∧ (count Busy (agents p') ≤ count Busy (agents p) + n)%nat.
Proof.
  intros Hi. induction 1 as [|n p' o _ [Hi' IH] Hv]; [split; [done|lia]|].
  split; [by apply step_simulates|]. pose proof (begins_sessions o p' Hi' Hv) as H.
  rewrite !in_sessions_count in H. lia.
Qed.

Section warm.
Context (port : string) (env : sync_env) `{!SyncEnvOk env}.

(** A synchronisation starts and ends no session, and the other live agents are
    idle after it. *)
Lemma sync_agents ep p :
  pool_inv p → (∀ a, a ∈ liveAddrs port ep → dial_ok env a = true) →
  in_sessions (syncEndpoints port env ep p) = in_sessions p ∧
  idle_agents (syncEndpoints port env ep p) = liveAddrs port ep ∖ in_sessions p.
Proof.
  intros Hi Hd. destruct (sync_spec port env ep p Hi) as [Hi' Hs].
  split; apply set_eq; intros a.
  - rewrite !elem_of_in_sessions, Hs. unfold in_session.
    case_decide; destruct (status p a); cbn; try rewrite Hd by done; intuition congruence.
  - rewrite elem_of_idle_agents, elem_of_difference, elem_of_in_sessions, Hs by done.
    unfold in_session. case_decide as Hl; [specialize (Hd a Hl)|];
      destruct (status p a); cbn; rewrite ?Hd; intuition congruence.
Qed.

Lemma sync_counts ep p :
  pool_inv p → (∀ a, a ∈ liveAddrs port ep → dial_ok env a = true) →
  count Busy (agents (syncEndpoints port env ep p)) = count Busy (agents p) ∧
  (size (liveAddrs port ep) ≤ FreeCount (syncEndpoints port env ep p) + count Busy (agents p))%nat.
Proof.
  intros Hi Hd. destruct (sync_agents ep p Hi Hd) as [Hb Hf].
  rewrite <- !in_sessions_count, <- idle_agents_count, Hb, Hf. split; [done|].
  rewrite <- size_union by apply disjoint_difference_l1, reflexivity. apply subseteq_size. intros a Ha.
  rewrite elem_of_union, elem_of_difference. destruct (decide (a ∈ in_sessions p)); tauto.
Qed.

(** The desired count when the two counts are of different pools. *)
Lemma desired_replicas_apart a p_free p_total :
  - 2 ^ 31 ≤ warmPoolSize a → Z.of_nat (TotalCount p_total) + Z.max 0 (warmPoolSize a) < 2 ^ 31 →
  Z.of_nat (FreeCount p_free) < 2 ^ 31 →
  desiredReplicas a p_free p_total =
    Z.max 1 (Z.of_nat (TotalCount p_total) - Z.of_nat (FreeCount p_free) + warmPoolSize a).
Proof.
  intros Hw Ht Hf. unfold desiredReplicas. rewrite (sint_small 64 (_ - _)) by lia.
  assert (- 2 ^ 63 ≤ Z.of_nat (TotalCount p_total) - Z.of_nat (FreeCount p_free) + warmPoolSize a < 2 ^ 63) as H
    by lia.
  rewrite (sint_id 64) by (lia || exact H). destruct (Z.ltb_spec (Z.of_nat (TotalCount p_total) -
    Z.of_nat (FreeCount p_free) + warmPoolSize a) 1); lia.
Qed.

(** The replicas of the deployment after a check that finds [cur]. *)
Definition replicas_after a (p_free p_total : Pool) (cur : Z) : Z :=
  default cur (reconcile a p_free p_total (inr cur)).

Lemma replicas_after_spec a p_free p_total cur :
  - 2 ^ 31 ≤ warmPoolSize a → Z.of_nat (TotalCount p_total) + Z.max 0 (warmPoolSize a) < 2 ^ 31 →
  Z.of_nat (FreeCount p_free) < 2 ^ 31 →
  replicas_after a p_free p_total cur =
    Z.max 1 (Z.of_nat (TotalCount p_total) - Z.of_nat (FreeCount p_free) + warmPoolSize a).
Proof.
  intros Hw Ht Hf. unfold replicas_after, reconcile. rewrite desired_replicas_apart by done.
  destruct (Z.eqb_spec (Z.max 1 (Z.of_nat (TotalCount p_total) - Z.of_nat (FreeCount p_free) + warmPoolSize a)) cur)
    as [->|_]; [done|]. cbn. apply sint_small; lia.
Qed.

(** C33.  The scaler and the watcher keep the warm pool filled.  Let the scaler count
    the free agents, later all of them, whatever calls there are in between, and let
    the cluster then run as many agents as the check has left the deployment with,
    all of which can be dialed.  When the watcher sees them, after any further calls
    in which [n] sessions begin, the agents that are idle are at least the warm pool,
    less [n], and less the free agents lost between the two counts; with the agents
    in a session they are at least those of the check's count and the warm pool.
    The next check asks again for the agents then in a session and the warm pool, so
    for nothing if these are as many as were counted.  All of this for counts and a
    warm pool within the range of the replica count, an [int32]. *)
Theorem warm_pool_filled a os p_free m p_total n p cur ep :
  history os p_free → later p_free m p_total → later p_total n p →
  (∀ addr, addr ∈ liveAddrs port ep → dial_ok env addr = true) →
  - 2 ^ 31 ≤ warmPoolSize a → Z.of_nat (TotalCount p_free) < 2 ^ 31 →
  Z.of_nat (TotalCount p_total) + Z.max 0 (warmPoolSize a) < 2 ^ 31 →
  Z.of_nat (TotalCount p) + Z.of_nat (size (liveAddrs port ep)) + Z.max 0 (warmPoolSize a) < 2 ^ 31 →
  Z.of_nat (size (liveAddrs port ep)) = replicas_after a p_free p_total cur →
  let p' := syncEndpoints port env ep p in
  let counted := Z.of_nat (TotalCount p_total) - Z.of_nat (FreeCount p_free) in
  let sessions := Z.of_nat (count Busy (agents p)) in
  warmPoolSize a - Z.of_nat n - (Z.of_nat (FreeCount p_free) - Z.of_nat (FreeCount p_total)) ≤ Z.of_nat (FreeCount p') ∧
  counted + warmPoolSize a ≤ Z.of_nat (FreeCount p') + sessions ∧
  replicas_after a p' p' (Z.of_nat (size (liveAddrs port ep))) = Z.max 1 (sessions + warmPoolSize a) ∧
  (sessions = counted → reconcile a p' p' (inr (Z.of_nat (size (liveAddrs port ep)))) = None).
Proof.
  intros Hh Hm Hn Hd Hw Hf0 Ht0 Ht Hr p' counted sessions. pose proof (history_inv _ _ Hh) as Hi0.
  destruct (later_sessions _ _ _ Hi0 Hm) as [Hi1 _].
  destruct (later_sessions _ _ _ Hi1 Hn) as [Hi Hb1].
  destruct (sync_counts ep p Hi Hd) as [Hb Hf]. fold p' in Hb, Hf.
  destruct (sync_spec port env ep p Hi) as [Hi' _]. fold p' in Hi'.
  pose proof (busy_free p_free Hi0). pose proof (busy_free p_total Hi1).
  pose proof (busy_free p Hi). pose proof (busy_free p' Hi') as Hbf'.
  assert (FreeCount p' ≤ size (liveAddrs port ep))%nat as Hle.
  { rewrite <- idle_agents_count. unfold p'. rewrite (proj2 (sync_agents ep p Hi Hd)).
    apply subseteq_size, subseteq_difference_l, reflexivity. }
  rewrite replicas_after_spec in Hr by (done || lia). fold counted in Hr.
  assert (replicas_after a p' p' (Z.of_nat (size (liveAddrs port ep))) = Z.max 1 (sessions + warmPoolSize a)) as Hnext.
  { rewrite replicas_after_spec by lia. f_equal. subst sessions. lia. }
  split_and!; [subst counted; lia..|done|].
  intros Hs. unfold reconcile. rewrite desired_replicas by (done || lia).
  rewrite Hb, Hr, <- Hs. subst sessions. by rewrite Z.eqb_refl.
Qed.
End warm.

(** ** Instances *)

(** Nothing happens but the cleanup, once a minute. *)
Definition minute : Z := 60000000000.
Definition five_minutes : Z := 300000000000.

Fixpoint quiet_pool (n : nat) : Pool :=
  match n with
  | O => one_busy
  | S n => CleanupStaleAgents five_minutes (λ _, minute * Z.of_nat n) (keys (quiet_pool n)) (quiet_pool n)
  end.
Definition quiet (n : nat) : pool_op :=
  CallCleanup five_minutes (λ _, minute * Z.of_nat n) (keys (quiet_pool n)).

Lemma quiet_fair : fair quiet one_busy five_minutes.
Proof.
  assert (∀ n, pool_at quiet one_busy n = quiet_pool n) as Hq.
  { induction n as [|n IH]; [done|]. cbn [pool_at]. by rewrite IH. }
  split.
  - intros n. rewrite Hq. apply keys_visits.
  - intros n t. exists (n + Z.to_nat t)%nat. split; [lia|]. eexists _, _. split; [done|].
    intros a. cbn beta. unfold minute. lia.
Qed.

Lemma abandoned_sessions_end_witness :
  eventually (λ m, status (pool_at quiet one_busy m) agent1 = Idle ∨ status (pool_at quiet one_busy m) agent1 = Absent) 0.
Proof.
  apply (abandoned_sessions_end quiet _ one_busy five_minutes agent1 0 one_busy_history quiet_fair).
  - reflexivity.
  - intros m _ H. exact H.
Defined.

(** One agent is idle when the scaler counts, and is locked before the watcher sees
    that the cluster runs what was asked for: the warm pool is empty, and the next
    check asks for one agent more. *)
Definition one_idle : Pool := (AddAgent sample_dial 0 agent1 NewPool).2.
Definition then_locked : Pool := pool_step (CallLock (keys one_idle) 7) one_idle.

Lemma warm_pool_filled_witness :
  replicas_after (MkAutoScaler 1) one_idle one_idle 1 = 1 ∧
  let p' := syncEndpoints "50051" sample_sync [["10.0.0.1"]%string] then_locked in
  FreeCount p' = 0%nat ∧ replicas_after (MkAutoScaler 1) p' p' 1 = 2.
Proof.
  split; [vm_compute; reflexivity|]. split; [vm_compute; reflexivity|].
  refine (proj1 (proj2 (proj2 (warm_pool_filled "50051" sample_sync (MkAutoScaler 1)
    ([] ++ [CallAdd sample_dial 0 agent1]) one_idle 0 one_idle
    (0 + begins (CallLock (keys one_idle) 7) one_idle) then_locked 1 [["10.0.0.1"]%string] _ _ _ _ _ _ _ _ _)))).
  - apply (history_call [] NewPool (CallAdd sample_dial 0 agent1)); [apply history_new|exact I].
  - apply later_here.
  - apply (later_call one_idle 0 one_idle (CallLock (keys one_idle) 7)); [apply later_here|apply keys_visits].
  - intros addr _. reflexivity.
  - vm_compute. discriminate.
  - vm_compute. reflexivity.
  - vm_compute. reflexivity.
  - vm_compute. reflexivity.
  - vm_compute. reflexivity.
Defined.
