(* ===== verification/PyFloat.v ===== *)
(** * Floating-point numbers as the environment uses them

    What [server/socket_tuner_environment.py] uses of Python's [float]: true
    division of integers, products, comparisons, [min], [max] and [round] to two
    digits.  A [float] is the rational it stands for; every operation computes
    the exact result and rounds it to the 53 bits of the format, to nearest, ties
    to even.  The numbers that occur are far inside the exponent range: a
    quotient of two 64-bit integers is zero or between 2^-64 and 2^64. *)
From Stdlib Require Import QArith Qround Qpower Lqa.
From S2P Require Import Prelude.
Local Open Scope Q_scope.

(** ** Definitions *)

Definition qpow2 (e : Z) : Q := (2 # 1) ^ e.

(** The nearest integer, ties to even. *)
Definition nearest (x : Q) : Z :=
  let n := Qfloor x in
  match Qcompare (x - inject_Z n) (1 # 2) with
  | Lt => n
  | Gt => n + 1
  | Eq => if Z.even n then n else n + 1
  end%Z.

(** The exponent of the last of the 53 bits of a positive number. *)
Definition last_bit (x : Q) : Z :=
  let e := (Z.log2 (Qnum x) - Z.log2 (Zpos (Qden x)))%Z in
  ((if Qle_bool (qpow2 e) x then e else e - 1) - 52)%Z.

Definition round_pos (x : Q) : Q :=
  let e := last_bit x in Qred (inject_Z (nearest (x * qpow2 (- e))) * qpow2 e).

(** The [float] nearest to a rational number. *)
Definition float (x : Q) : Q :=
  match Qcompare x 0 with
  | Eq => 0
  | Gt => round_pos x
  | Lt => - round_pos (- x)
  end.

(** [a / b] on integers. *)
Definition true_div (a b : Z) : Q := float (inject_Z a / inject_Z b).
(** [x * y] on floats. *)
Definition mul (x y : Q) : Q := float (x * y).
(** [min(x, y)] and [max(x, y)]: the first argument unless the second is
    strictly better. *)
Definition py_min (x y : Q) : Q := if Qle_bool x y then x else y.
Definition py_max (x y : Q) : Q := if Qle_bool y x then x else y.
(** [round(x, 2)]: the nearest multiple of a hundredth, as a float. *)
Definition round2 (x : Q) : Q := float (inject_Z (nearest (x * 100)) / 100).

(** ** Powers of two *)

Lemma qpow2_pos e : 0 < qpow2 e.
Proof. apply Qpower_0_lt. reflexivity. Qed.

Lemma qpow2_add a b : qpow2 (a + b) == qpow2 a * qpow2 b.
Proof. apply Qpower_plus. discriminate. Qed.

Lemma qpow2_le a b : (a ≤ b)%Z → qpow2 a <= qpow2 b.
Proof. intros H. apply Qpower_le_compat_l; [done|discriminate]. Qed.

Lemma qpow2_lt_inv a b : qpow2 a < qpow2 b → (a < b)%Z.
Proof.
  intros H. apply Z.nle_gt. intros Hle%qpow2_le. lra.
Qed.

Lemma qpow2_inv e : qpow2 (- e) * qpow2 e == 1.
Proof. rewrite <- qpow2_add. replace (- e + e)%Z with 0%Z by lia. reflexivity. Qed.

Lemma qpow2_Z e : (0 ≤ e)%Z → inject_Z (2 ^ e) == qpow2 e.
Proof. intros. by apply Zpower_Qpower. Qed.

(** ** The nearest integer *)

#[export] Instance nearest_proper : Proper (Qeq ==> eq) nearest.
Proof.
  intros x y Hxy. unfold nearest. rewrite (Qfloor_comp _ _ Hxy).
  assert (x - inject_Z (Qfloor y) == y - inject_Z (Qfloor y)) as H by (by rewrite Hxy).
  by rewrite (Qcompare_comp _ _ H _ _ (Qeq_refl (1 # 2))).
Qed.

Lemma nearest_bounds x : inject_Z (nearest x) - (1 # 2) <= x <= inject_Z (nearest x) + (1 # 2).
Proof.
  unfold nearest. pose proof (Qfloor_le x) as Hl. pose proof (Qlt_floor x) as Hu.
  rewrite inject_Z_plus in Hu. change (inject_Z 1) with 1 in Hu.
  destruct (Qcompare_spec (x - inject_Z (Qfloor x)) (1 # 2)); [destruct (Z.even _)|..];
    rewrite ?inject_Z_plus; change (inject_Z 1) with 1; lra.
Qed.

Lemma inject_Z_le_inv a b : inject_Z a <= inject_Z b → (a ≤ b)%Z.
Proof. by rewrite Zle_Qle. Qed.

Lemma nearest_Z n : nearest (inject_Z n) = n.
Proof.
  unfold nearest. rewrite Qfloor_Z.
  destruct (Qcompare_spec (inject_Z n - inject_Z n) (1 # 2)); [|done|]; exfalso; lra.
Qed.

Lemma nearest_mono x y : x <= y → (nearest x ≤ nearest y)%Z.
Proof.
  intros Hxy. pose proof (Qfloor_resp_le _ _ Hxy) as Hf.
  destruct (Z.eq_dec (Qfloor x) (Qfloor y)) as [He|He].
  - unfold nearest. rewrite He.
    destruct (Qcompare_spec (x - inject_Z (Qfloor y)) (1 # 2)),
      (Qcompare_spec (y - inject_Z (Qfloor y)) (1 # 2)); try lia; try (exfalso; lra);
      destruct (Z.even _); lia.
  - assert (Qfloor x + 1 ≤ Qfloor y)%Z by lia.
    assert (nearest x ≤ Qfloor x + 1)%Z.
    { unfold nearest. destruct (_ ?= _); [destruct (Z.even _)|..]; lia. }
    assert (Qfloor y ≤ nearest y)%Z.
    { unfold nearest. destruct (_ ?= _); [destruct (Z.even _)|..]; lia. }
    lia.
Qed.

(** ** Floats *)

Lemma last_bit_spec x : 0 < x → qpow2 (last_bit x + 52) <= x < qpow2 (last_bit x + 53).
Proof.
  intros Hx. destruct x as [n d]. unfold last_bit. cbn [Qnum Qden].
  assert (0 < n)%Z as Hn by (unfold Qlt in Hx; cbn in Hx; lia).
  destruct (Z.log2_spec n Hn) as [Hn1 Hn2]. destruct (Z.log2_spec (Zpos d) eq_refl) as [Hd1 Hd2].
  set (a := Z.log2 n) in *. set (b := Z.log2 (Zpos d)) in *.
  assert (0 ≤ a)%Z by apply Z.log2_nonneg. assert (0 ≤ b)%Z by apply Z.log2_nonneg.
  assert ((n # d) * inject_Z (Zpos d) == inject_Z n) as HX.
  { unfold Qeq. cbn. lia. }
  rewrite Zle_Qle in Hn1, Hd1. rewrite Zlt_Qlt in Hn2, Hd2.
  rewrite qpow2_Z in Hn1, Hd1, Hn2, Hd2 by lia.
  assert (qpow2 (a - b + 1) * qpow2 b == qpow2 (Z.succ a)) as E1.
  { rewrite <- qpow2_add. f_equiv. lia. }
  assert (qpow2 (a - b - 1) * qpow2 (Z.succ b) == qpow2 a) as E2.
  { rewrite <- qpow2_add. f_equiv. lia. }
  assert ((n # d) < qpow2 (a - b + 1)) as Hu.
  { apply Qnot_le_lt. intros Hle. pose proof (qpow2_pos b). pose proof (qpow2_pos (a - b + 1)). nra. }
  assert (qpow2 (a - b - 1) < (n # d)) as Hl.
  { apply Qnot_le_lt. intros Hle. pose proof (qpow2_pos b). nra. }
  destruct (Qle_bool (qpow2 (a - b)) (n # d)) eqn:Hb.
  - apply Qle_bool_iff in Hb.
    replace (a - b - 52 + 52)%Z with (a - b)%Z by lia.
    replace (a - b - 52 + 53)%Z with (a - b + 1)%Z by lia. done.
  - assert ((n # d) < qpow2 (a - b)) as Hlt.
    { apply Qnot_le_lt. intros Hle%Qle_bool_iff. congruence. }
    replace (a - b - 1 - 52 + 52)%Z with (a - b - 1)%Z by lia.
    replace (a - b - 1 - 52 + 53)%Z with (a - b)%Z by lia. split; [lra|done].
Qed.

Lemma last_bit_mono x y : 0 < x → x <= y → (last_bit x ≤ last_bit y)%Z.
Proof.
  intros Hx Hxy. destruct (last_bit_spec x Hx) as [H1 _].
  destruct (last_bit_spec y) as [_ H2]; [lra|].
  assert (last_bit x + 52 < last_bit y + 53)%Z by (apply qpow2_lt_inv; lra). lia.
Qed.

(** The significand of a positive number, and its range. *)
Definition significand (x : Q) : Q := x * qpow2 (- last_bit x).

Lemma significand_spec x : 0 < x → qpow2 52 <= significand x < qpow2 53 ∧ significand x * qpow2 (last_bit x) == x.
Proof.
  intros Hx. destruct (last_bit_spec x Hx) as [H1 H2]. unfold significand.
  pose proof (qpow2_inv (last_bit x)) as Hi. pose proof (qpow2_pos (- last_bit x)) as Hp.
  rewrite Z.add_comm, qpow2_add in H1. rewrite Z.add_comm, qpow2_add in H2.
  assert (x * qpow2 (- last_bit x) * qpow2 (last_bit x) == x) as He.
  { transitivity (x * (qpow2 (- last_bit x) * qpow2 (last_bit x))); [ring|]. rewrite Hi. ring. }
  pose proof (qpow2_pos (last_bit x)).
  split; [split|done]; apply Qnot_lt_le || apply Qnot_le_lt; intros Hc; nra.
Qed.

Lemma round_pos_eq x : round_pos x == inject_Z (nearest (significand x)) * qpow2 (last_bit x).
Proof. unfold round_pos. apply Qred_correct. Qed.

Lemma qpow2_small e : (0 ≤ e)%Z → qpow2 e == inject_Z (2 ^ e).
Proof. intros. by rewrite qpow2_Z. Qed.

(** The rounded significand has 53 bits, or is the next power of two. *)
Lemma nearest_significand x :
  0 < x → (2 ^ 52 ≤ nearest (significand x) ≤ 2 ^ 53)%Z.
Proof.
  intros Hx. destruct (significand_spec x Hx) as [[H1 H2] _].
  rewrite qpow2_small in H1, H2 by lia. apply Qlt_le_weak in H2.
  apply nearest_mono in H1, H2. by rewrite !nearest_Z in *.
Qed.

Lemma round_pos_bounds x : 0 < x → qpow2 (last_bit x + 52) <= round_pos x <= qpow2 (last_bit x + 53).
Proof.
  intros Hx. destruct (nearest_significand x Hx) as [H1 H2]. rewrite Zle_Qle in H1, H2.
  rewrite <- qpow2_small in H1, H2 by lia. rewrite round_pos_eq.
  rewrite (Z.add_comm _ 52), (Z.add_comm _ 53), !qpow2_add.
  pose proof (qpow2_pos (last_bit x)). split; apply Qmult_le_compat_r; lra.
Qed.

Lemma round_pos_mono x y : 0 < x → x <= y → round_pos x <= round_pos y.
Proof.
  intros Hx Hxy. pose proof (last_bit_mono x y Hx Hxy) as Hl.
  destruct (Z.eq_dec (last_bit x) (last_bit y)) as [He|He].
  - rewrite !round_pos_eq, <- He. apply Qmult_le_compat_r; [|apply Qlt_le_weak, qpow2_pos].
    rewrite <- Zle_Qle. apply nearest_mono. unfold significand. rewrite <- He.
    apply Qmult_le_compat_r; [done|apply Qlt_le_weak, qpow2_pos].
  - destruct (round_pos_bounds x Hx) as [_ H1]. destruct (round_pos_bounds y) as [H2 _]; [lra|].
    assert (qpow2 (last_bit x + 53) <= qpow2 (last_bit y + 52)) by (apply qpow2_le; lia). lra.
Qed.

Lemma round_pos_positive x : 0 < x → 0 < round_pos x.
Proof. intros Hx. pose proof (round_pos_bounds x Hx). pose proof (qpow2_pos (last_bit x + 52)). lra. Qed.

(** Rounding is monotone, and keeps the sign. *)
Lemma float_mono x y : x <= y → float x <= float y.
Proof.
  intros Hxy. unfold float.
  destruct (Qcompare_spec x 0) as [Hx|Hx|Hx], (Qcompare_spec y 0) as [Hy|Hy|Hy]; try (exfalso; lra); try lra.
  - pose proof (round_pos_positive y Hy). lra.
  - pose proof (round_pos_positive (- x)). lra.
  - assert (round_pos (- y) <= round_pos (- x)) by (apply round_pos_mono; lra). lra.
  - pose proof (round_pos_positive (- x)). pose proof (round_pos_positive y Hy). lra.
  - by apply round_pos_mono.
Qed.

#[export] Instance float_proper : Proper (Qeq ==> Qeq) float.
Proof. intros x y Hxy. apply Qle_antisym; apply float_mono; lra. Qed.

(** The error of a rounding, for numbers up to 8. *)
Definition ulp8 : Q := 1 # 2 ^ 50.

Lemma round_pos_error x : 0 < x → x <= 8 → x - ulp8 <= round_pos x <= x + ulp8.
Proof.
  intros Hx H8. rewrite round_pos_eq. destruct (significand_spec x Hx) as [_ Hs].
  destruct (last_bit_spec x Hx) as [Hl _]. pose proof (nearest_bounds (significand x)) as Hn.
  assert (last_bit x + 52 < 4)%Z as Hlb.
  { apply qpow2_lt_inv. assert (8 < qpow2 4) by reflexivity. lra. }
  assert (qpow2 (last_bit x) <= qpow2 (-49)) as He by (apply qpow2_le; lia).
  change (qpow2 (-49)) with (1 # 2 ^ 49) in He. pose proof (qpow2_pos (last_bit x)) as Hp.
  set (e := qpow2 (last_bit x)) in *. set (n := inject_Z (nearest (significand x))) in *.
  set (sig := significand x) in *. unfold ulp8.
  assert ((n - sig) * e <= (1 # 2) * e ∧ - ((1 # 2) * e) <= (n - sig) * e) as [H1 H2] by (split; nra).
  assert ((n - sig) * e == n * e - x) as Heq by (rewrite <- Hs; ring). rewrite Heq in H1, H2.
  assert ((1 # 2) * e <= 1 # 2 ^ 50) by (change (1 # 2 ^ 50) with ((1 # 2) * (1 # 2 ^ 49)); lra).
  split; lra.
Qed.

Lemma float_error x : -(8) <= x <= 8 → x - ulp8 <= float x <= x + ulp8.
Proof.
  intros [H1 H2]. assert (0 < ulp8) by reflexivity. unfold float.
  destruct (Qcompare_spec x 0) as [Hx|Hx|Hx].
  - lra.
  - destruct (round_pos_error (- x)); lra.
  - by apply round_pos_error.
Qed.

(** A number near an integer. *)
Lemma nearest_close x n : inject_Z n - (1 # 2) < x → x < inject_Z n + (1 # 2) → nearest x = n.
Proof.
  intros H1 H2. pose proof (nearest_bounds x) as [H3 H4].
  assert (inject_Z (nearest x) < inject_Z (n + 1)) as Hu
    by (rewrite inject_Z_plus; change (inject_Z 1) with 1; lra).
  assert (inject_Z n < inject_Z (nearest x + 1)) as Hl
    by (rewrite inject_Z_plus; change (inject_Z 1) with 1; lra).
  rewrite <- Zlt_Qlt in Hu, Hl. lia.
Qed.

(** The quotient and the rounding to hundredths are monotone. *)
Lemma true_div_mono a a' b : (0 < b)%Z → (a ≤ a')%Z → true_div a b <= true_div a' b.
Proof.
  intros Hb Ha. apply float_mono. unfold Qdiv. rewrite Zle_Qle in Ha. rewrite Zlt_Qlt in Hb.
  apply Qmult_le_compat_r; [done|]. apply Qlt_le_weak, Qinv_lt_0_compat, Hb.
Qed.

Lemma mul_mono x y c : 0 <= c → x <= y → mul x c <= mul y c.
Proof. intros Hc Hxy. apply float_mono. by apply Qmult_le_compat_r. Qed.

Lemma round2_mono x y : x <= y → round2 x <= round2 y.
Proof.
  intros Hxy. apply float_mono. unfold Qdiv. apply Qmult_le_compat_r; [|discriminate].
  rewrite <- Zle_Qle. apply nearest_mono. apply Qmult_le_compat_r; [done|discriminate].
Qed.

Lemma py_min_spec x y : py_min x y <= x ∧ py_min x y <= y ∧ (py_min x y = x ∨ py_min x y = y).
Proof.
  unfold py_min. destruct (Qle_bool x y) eqn:H.
  - apply Qle_bool_iff in H. split_and!; [lra|done|auto].
  - assert (¬ x <= y) as Hn by (intros ?%Qle_bool_iff; congruence). split_and!; [lra|lra|auto].
Qed.

Lemma py_max_spec x y : x <= py_max x y ∧ y <= py_max x y ∧ (py_max x y = x ∨ py_max x y = y).
Proof.
  unfold py_max. destruct (Qle_bool y x) eqn:H.
  - apply Qle_bool_iff in H. split_and!; [lra|done|auto].
  - assert (¬ y <= x) as Hn by (intros ?%Qle_bool_iff; congruence). split_and!; [lra|lra|auto].
Qed.

(** Values computed by CPython: 1/3, 2/3 rounded to two digits, and a tie. *)
Example true_div_third : true_div 1 3 == 6004799503160661 # 18014398509481984.
Proof. reflexivity. Qed.
Example round2_two_thirds : round2 (true_div 2 3) == true_div 67 100.
Proof. reflexivity. Qed.
Example round2_tie : round2 (1 # 8) == true_div 12 100.
Proof. reflexivity. Qed.
