(* ===== verification/TunerEnv.v ===== *)
(** * The reinforcement-learning environment

    [server/socket_tuner_environment.py]: [reset] with its retries, [step] with
    the reward and the end of the episode, [close], and the task list.  The calls
    of the gRPC stub go to a world of type [W] that they may change (the router,
    or anything else); an exception that a call raises is its left result. *)
From Stdlib Require Import QArith.
From S2P Require Import Prelude PyFloat Agent Pool Router.
Local Open Scope Z_scope.

(** ** Data *)

Record task := Task { task_name : string; task_command : string; difficulty : string }.

Definition TASKS : list task := [
  Task "google-latency" "curl -4 -sI -m 5 http://google.com" "Easy";
  Task "hetzner-throughput" "curl -4 -o /dev/null https://ash-speed.hetzner.com/100MB.bin" "Medium";
  Task "github-bandwidth"
    "curl -4 -o /dev/null https://github.com/torvalds/linux/archive/refs/tags/v7.0-rc6.tar.gz" "Hard"].

(** [SocketTunerEnvironment] *)
Record TunerEnv := MkTunerEnv {
  session_id : option string;
  reset_count : Z;
  baseline_duration : Z;
  target_ip : string;
  target_port : Z;
  episode_id : string;
  step_count : Z;
}.

(** [UISocketTunerAction] *)
Record UIAction := MkUIAction {
  ui_max_pacing_rate : Z;
  ui_snd_cwnd_clamp : Z;
  ui_cong_algo : string;
  ui_init_cwnd : Z;
  ui_window_clamp : Z;
  ui_no_delay : Z;
  ui_rto_min : Z;
  ui_retrans_after : Z;
  ui_enable_ecn : Z;
  ui_pacing_status : Z;
  ui_keepalive_idle : Z;
}.

(** [SocketTunerObservation]: the metrics, and what the environment adds. *)
Record EnvObservation := MkEnvObservation {
  metrics : Observation;
  obs_session : string;
  done : bool;
  reward : Q;
  obs_step : Z;
  reduction : Q;
}.

Inductive py_error :=
| RouterResetFailed (message : string)          (* RuntimeError *)
| RouterConnectionFailed (err : string)         (* RuntimeError *)
| FailedToAcquire                               (* RuntimeError *)
| RpcError (err : string)
| ValueError                                    (* an integer outside its field *)
| ValidationError.                              (* a session that is not a string *)

(** The calls of the stub. *)
Record stub (W : Type) := Stub {
  rpc_Reset : string → W → (string + ResetResponse) * W;
  rpc_Step : StepRequest → W → (string + StepResponse) * W;
  rpc_Close : string → W → (string + bool) * W;
}.
Arguments Stub {W} _ _ _.
Arguments rpc_Reset {W} _ _ _.
Arguments rpc_Step {W} _ _ _.
Arguments rpc_Close {W} _ _ _.

(** An absent message reads as one with default members. *)
Definition empty_observation : Observation := MkObservation EmptyString 0 0 0 0 0 0 0.

Definition new_env (episode : string) : TunerEnv := MkTunerEnv None 0 0 EmptyString 0 episode 0.

(** ** Reward *)

Definition c001 : Q := float (1 # 100).
Definition c099 : Q := float (99 # 100).

(** The reduction of the duration relative to the baseline, the reward, and
    whether the episode is over. *)
Definition evaluate (baseline duration : Z) : Q * Q * bool :=
  if (0 <? baseline) && (0 <? duration) then
    let red := true_div (baseline - duration) baseline in
    let rew := if Qle_bool red 0 then c001 else mul red 2 in
    let rew := round2 (py_max c001 (py_min c099 rew)) in
    (red, rew, Qle_bool (1 # 2) red)
  else (0%Q, c001, false).

(** ** Messages of a busy cluster *)

(** [str.lower] on ASCII letters. *)
Definition lower (s : string) : list Z :=
  (λ c, if (65 <=? c) && (c <=? 90) then c + 32 else c) <$> Words.bytes_of_string s.

(** [sub in s] *)
Fixpoint contains (sub s : list Z) : bool :=
  bool_decide (sub `prefix_of` s) || match s with [] => false | _ :: s => contains sub s end.

Definition is_busy (message : string) : bool :=
  contains (Words.bytes_of_string "busy") (lower message) ||
  contains (Words.bytes_of_string "no free agent") (lower message).

(** ** Operations *)

Section env.
Context {W : Type} (st : stub W) (MAX_STEPS : Z).

(** The attributes after a successful [Reset]. *)
Definition start_episode (resp : ResetResponse) (e : TunerEnv) : TunerEnv :=
  let obs := default empty_observation (InitialObservation resp) in
  MkTunerEnv (Some (SessionId resp)) (reset_count e)
    (if 0 <? DurationUs obs then DurationUs obs else 0)
    (RemoteIp obs) (RemotePort obs) (SessionId resp) 0.

(** The loop of [reset] with [n] attempts left; the last case is its [else]. *)
Fixpoint reset_attempts (n : nat) (command : string) (e : TunerEnv) (w : W)
    : (py_error + EnvObservation) * TunerEnv * W :=
  match n with
  | O => (inl FailedToAcquire, e, w)
  | S n =>
      let '(r, w) := rpc_Reset st command w in
      match r with
      | inr resp =>
          if Success resp then
            let obs := default empty_observation (InitialObservation resp) in
            (inr (MkEnvObservation obs (SessionId resp) false c001 0 0%Q), start_episode resp e, w)
          else if is_busy (Message resp) && negb (Nat.eqb n 0) then reset_attempts n command e w
          else (inl (RouterResetFailed (Message resp)), e, w)
      | inl err =>
          if negb (Nat.eqb n 0) then reset_attempts n command e w
          else (inl (RouterConnectionFailed err), e, w)
      end
  end.

Definition max_retries : nat := 3.

Definition reset (e : TunerEnv) (w : W) : (py_error + EnvObservation) * TunerEnv * W :=
  let command := from_option task_command EmptyString
                   (TASKS !! Z.to_nat (reset_count e mod Z.of_nat (length TASKS))) in
  let e := MkTunerEnv (session_id e) (reset_count e + 1) (baseline_duration e)
             (target_ip e) (target_port e) (episode_id e) (step_count e) in
  reset_attempts max_retries command e w.

(** [cong_algo_map.get(name, 1)] *)
Definition cong_algo_val (name : string) : Z :=
  if bool_decide (name = "cubic"%string) then 1
  else if bool_decide (name = "bbr"%string) then 2 else 1.

(** [StepRequest(...)]: an integer that is not a [uint32] is refused. *)
Definition step_request (e : TunerEnv) (a : UIAction) : py_error + StepRequest :=
  let req := MkStepRequest (default EmptyString (session_id e)) (target_ip e) (target_port e)
    (ui_max_pacing_rate a) (ui_snd_cwnd_clamp a) (cong_algo_val (ui_cong_algo a)) (ui_init_cwnd a)
    (ui_window_clamp a) (ui_no_delay a) (ui_rto_min a) (ui_retrans_after a) (ui_enable_ecn a)
    (ui_pacing_status a) (ui_keepalive_idle a) in
  if bool_decide (Forall (fits 32) [target_port e; ui_max_pacing_rate a; ui_snd_cwnd_clamp a;
       ui_init_cwnd a; ui_window_clamp a; ui_no_delay a; ui_rto_min a; ui_retrans_after a;
       ui_enable_ecn a; ui_pacing_status a; ui_keepalive_idle a])
  then inr req else inl ValueError.

(** [if self._session_id: self.stub.Close(...)], whatever the call does. *)
Definition close_session (e : TunerEnv) (w : W) : W :=
  match session_id e with
  | Some s => if bool_decide (s = EmptyString) then w else (rpc_Close st s w).2
  | None => w
  end.

Definition step (a : UIAction) (e : TunerEnv) (w : W) : (py_error + EnvObservation) * TunerEnv * W :=
  let e := MkTunerEnv (session_id e) (reset_count e) (baseline_duration e)
             (target_ip e) (target_port e) (episode_id e) (step_count e + 1) in
  match step_request e a with
  | inl err => (inl err, e, w)
  | inr req =>
      let '(r, w) := rpc_Step st req w in
      match r with
      | inl err => (inl (RpcError err), e, w)
      | inr resp =>
          let obs := default empty_observation (StepObservation resp) in
          let '(red, rew, done_early) := evaluate (baseline_duration e) (DurationUs obs) in
          let done := Done resp || done_early || (MAX_STEPS <=? step_count e) in
          let w := if done then close_session e w else w in
          match session_id e with
          | Some s => (inr (MkEnvObservation obs s done rew (step_count e) red), e, w)
          | None => (inl ValidationError, e, w)
          end
      end
  end.

Definition close (e : TunerEnv) (w : W) : TunerEnv * W :=
  let w := close_session e w in
  (match session_id e with
   | Some s => if bool_decide (s = EmptyString) then e
               else MkTunerEnv None (reset_count e) (baseline_duration e) (target_ip e)
                      (target_port e) (episode_id e) (step_count e)
   | None => e
   end, w).

End env.

(** The router as the world of the stub: every call is a handler that runs on
    the pool; the transport turns an error of the handler into an exception with
    some text. *)
Section router.
Context (text : Router.router_error → string) (env : Router.environment).

Definition deliver {A} (r : (Router.router_error + A) * Pool) : (string + A) * Pool :=
  (match r.1 with inl err => inl (text err) | inr a => inr a end, r.2).

Definition router_stub : stub Pool :=
  Stub (λ command p, deliver (Router.exec env (Router.Reset command) p))
       (λ req p, deliver (Router.exec env (Router.Step req) p))
       (λ s p, deliver (Router.exec env (Router.Close s) p)).
End router.

(** An episode played to its end: steps until one is done or raises, or there are
    no actions left. *)
Fixpoint play {W} (st : stub W) (MAX_STEPS : Z) (actions : list UIAction) (e : TunerEnv) (w : W)
    : (py_error + bool) * TunerEnv * W :=
  match actions with
  | [] => (inr false, e, w)
  | a :: actions =>
      match step st MAX_STEPS a e w with
      | (inl err, e, w) => (inl err, e, w)
      | (inr o, e, w) => if done o then (inr true, e, w) else play st MAX_STEPS actions e w
      end
  end.
