(* ===== verification/TunerEnvProps.v ===== *)
(** * Properties of the reinforcement-learning environment

    The reward and the end of an episode in terms of the durations; [reset],
    [step] and [close] on every path; what they do to the agents behind the
    router. *)
From Stdlib Require Import QArith Lqa.
From S2P Require Import Prelude PyFloat Agent Pool PoolFacts PoolProps Router RouterProps TunerEnv.
Local Open Scope Z_scope.

(** ** Reward *)

Definition clamp (x : Q) : Q := py_max c001 (py_min c099 x).
Definition graded (red : Q) : Q := round2 (clamp (if Qle_bool red 0 then c001 else mul red 2)).

Lemma clamp_range x : (c001 <= clamp x <= c099)%Q.
Proof.
  unfold clamp. destruct (py_min_spec c099 x) as (H1 & H2 & H3).
  destruct (py_max_spec c001 (py_min c099 x)) as (H4 & H5 & [H6|H6]); rewrite H6.
  - split; [lra|]. by apply Qle_bool_iff.
  - rewrite H6 in H4. split; lra.
Qed.

Lemma clamp_mono x y : (x <= y)%Q → (clamp x <= clamp y)%Q.
Proof.
  intros Hxy. unfold clamp.
  destruct (py_min_spec c099 x) as (H1 & H2 & H3), (py_min_spec c099 y) as (K1 & K2 & K3).
  assert (py_min c099 x <= py_min c099 y)%Q by (destruct K3 as [-> | ->]; lra).
  destruct (py_max_spec c001 (py_min c099 x)) as (L1 & L2 & [-> | ->]);
    destruct (py_max_spec c001 (py_min c099 y)) as (M1 & M2 & _); lra.
Qed.

Lemma clamp_low : clamp c001 = c001.
Proof. vm_compute. reflexivity. Qed.

Lemma graded_range red :
  ∃ k, 1 ≤ k ≤ 99 ∧ graded red = float (inject_Z k / 100).
Proof.
  unfold graded. set (x := clamp _).
  destruct (clamp_range (if Qle_bool red 0 then c001 else mul red 2)) as [H1 H2]. fold x in H1, H2.
  exists (nearest (x * 100)). split; [|done].
  assert (1 = nearest (c001 * 100) ∧ 99 = nearest (c099 * 100)) as [E1 E2] by (vm_compute; done).
  rewrite E1, E2 at 1. split; apply nearest_mono; lra.
Qed.

Lemma graded_mono x y : (x <= y)%Q → (graded x <= graded y)%Q.
Proof.
  intros Hxy. apply round2_mono. destruct (Qle_bool x 0) eqn:Hx.
  - rewrite clamp_low. exact (proj1 (clamp_range _)).
  - destruct (Qle_bool y 0) eqn:Hy.
    + exfalso. apply Qle_bool_iff in Hy. assert (Qle_bool x 0 = true) by (apply Qle_bool_iff; lra). congruence.
    + apply clamp_mono, mul_mono; [discriminate|done].
Qed.

Lemma evaluate_eq b d :
  0 < b → 0 < d →
  evaluate b d = (true_div (b - d) b, graded (true_div (b - d) b), Qle_bool (1 # 2) (true_div (b - d) b)).
Proof.
  intros Hb%Z.ltb_lt Hd%Z.ltb_lt. unfold evaluate, graded, clamp. rewrite Hb, Hd. exact eq_refl.
Qed.

Definition reward_of (b d : Z) : Q := (evaluate b d).1.2.

(** C17.  The reward is graded: it is always the float of one of the hundredths
    0.01 to 0.99, and for a given baseline a shorter transfer never earns less. *)
Theorem reward_graded b d d' :
  (∃ k, 1 ≤ k ≤ 99 ∧ reward_of b d = float (inject_Z k / 100)) ∧
  (0 < d → d ≤ d' → (reward_of b d' <= reward_of b d)%Q).
Proof.
  unfold reward_of. destruct (Z.ltb_spec 0 b) as [Hb|Hb].
  - split.
    + destruct (Z.ltb_spec 0 d) as [Hd|Hd]; [rewrite evaluate_eq by done; apply graded_range|].
      unfold evaluate. rewrite (proj2 (Z.ltb_ge 0 d)), andb_false_r by lia. by exists 1.
    + intros Hd Hdd. rewrite !evaluate_eq by lia. apply graded_mono, true_div_mono; lia.
  - unfold evaluate. rewrite (proj2 (Z.ltb_ge 0 b)) by lia. split; [by exists 1|].
    intros _ _. apply Qle_refl.
Qed.

(** C16.  The thresholds of the comments hold for the rounded quotients: a
    transfer that takes at most three quarters of the baseline earns at least
    0.5, and for a baseline below 2^53 us the episode stops early exactly when
    the transfer takes at most half of it. *)
Theorem reward_thresholds b d :
  0 < b → 0 < d →
  (4 * d ≤ 3 * b → (1 # 2 <= reward_of b d)%Q) ∧
  (b < 2 ^ 53 → (evaluate b d).2 = true ↔ 2 * d ≤ b).
Proof.
  intros Hb Hd. unfold reward_of. rewrite evaluate_eq by done. cbn [fst snd].
  assert (0 < inject_Z b)%Q as HB by (by rewrite <- (Zlt_Qlt 0)).
  split.
  - intros H. assert (graded (1 # 4) == 1 # 2)%Q as <- by (vm_compute; reflexivity).
    apply graded_mono. assert (float (1 # 4) == 1 # 4)%Q as <- by (vm_compute; reflexivity).
    apply float_mono. apply Qle_shift_div_l; [done|].
    assert (inject_Z b <= inject_Z (4 * (b - d)))%Q as Hq by (rewrite <- Zle_Qle; lia).
    rewrite inject_Z_mult in Hq. change (inject_Z 4) with 4%Q in Hq. lra.
  - intros Hb53. rewrite Qle_bool_iff. split.
    + intros H. destruct (Z.le_gt_cases (2 * d) b) as [|Hgt]; [done|exfalso].
      assert (true_div (b - d) b <= 9007199254740991 # 18014398509481984)%Q as Hle; [|lra].
      assert (float (9007199254740991 # 18014398509481984) == 9007199254740991 # 18014398509481984)%Q as <-
        by (vm_compute; reflexivity).
      apply float_mono. apply Qle_shift_div_r; [done|].
      assert (inject_Z (18014398509481984 * (b - d)) <= inject_Z (9007199254740991 * b))%Q as Hq
        by (rewrite <- Zle_Qle; lia).
      rewrite !inject_Z_mult in Hq.
      change (inject_Z 18014398509481984) with 18014398509481984%Q in Hq.
      change (inject_Z 9007199254740991) with 9007199254740991%Q in Hq. lra.
    + intros H. assert (float (1 # 2) == 1 # 2)%Q as <- by (vm_compute; reflexivity).
      apply float_mono. apply Qle_shift_div_l; [done|].
      assert (inject_Z b <= inject_Z (2 * (b - d)))%Q as Hq by (rewrite <- Zle_Qle; lia).
      rewrite inject_Z_mult in Hq. change (inject_Z 2) with 2%Q in Hq. lra.
Qed.

(** ** [reset] *)

Section world.
Context {W : Type} (st : stub W) (MAX_STEPS : Z).
Implicit Types (e : TunerEnv) (w : W).

(** The command of the next episode. *)
Definition next_command e : string :=
  from_option task_command EmptyString (TASKS !! Z.to_nat (reset_count e mod Z.of_nat (length TASKS))).

Definition count_reset e : TunerEnv :=
  MkTunerEnv (session_id e) (reset_count e + 1) (baseline_duration e) (target_ip e) (target_port e)
    (episode_id e) (step_count e).

(** The world after [n] calls of [Reset]. *)
Definition after_resets (command : string) (n : nat) w : W :=
  Nat.iter n (λ w, (rpc_Reset st command w).2) w.

(** An answer after which [reset] tries again. *)
Definition retryable (r : string + ResetResponse) : bool :=
  match r with inl _ => true | inr resp => negb (Success resp) && is_busy (Message resp) end.

(** What [reset] makes of the answer to its last attempt. *)
Definition reset_result (r : string + ResetResponse) e : (py_error + EnvObservation) * TunerEnv :=
  match r with
  | inl err => (inl (RouterConnectionFailed err), e)
  | inr resp =>
      if Success resp then
        (inr (MkEnvObservation (default empty_observation (InitialObservation resp)) (SessionId resp)
                false c001 0 0%Q), start_episode resp e)
      else (inl (RouterResetFailed (Message resp)), e)
  end.

Lemma after_resets_S command n w :
  after_resets command n (rpc_Reset st command w).2 = after_resets command (S n) w.
Proof. unfold after_resets. by rewrite Nat.iter_succ_r. Qed.

Lemma reset_attempts_spec n command e w :
  ∃ k, (k ≤ n)%nat ∧
  (∀ i, (i < k)%nat → retryable (rpc_Reset st command (after_resets command i w)).1 = true) ∧
  ((k < n)%nat → retryable (rpc_Reset st command (after_resets command k w)).1 = false) ∧
  reset_attempts st (S n) command e w =
    (reset_result (rpc_Reset st command (after_resets command k w)).1 e, after_resets command (S k) w).
Proof.
  revert w. induction n as [|n IH]; intros w.
  - exists 0%nat. split; [lia|]. split; [lia|]. split; [lia|]. cbn.
    destruct (rpc_Reset st command w) as [[err|resp] w']; cbn; [done|].
    destruct (Success resp); [done|]. by rewrite andb_false_r.
  - assert (∀ e w, reset_attempts st (S (S n)) command e w =
      let r := rpc_Reset st command w in
      if retryable r.1 then reset_attempts st (S n) command e r.2 else (reset_result r.1 e, r.2)) as Hunf.
    { intros e' v. cbn [reset_attempts Nat.eqb negb]. unfold retryable, reset_result.
      destruct (rpc_Reset st command v) as [[err|resp] w']; cbn [fst snd]; [done|].
      rewrite andb_true_r. destruct (Success resp); cbn [negb andb]; [done|].
      by destruct (is_busy (Message resp)). }
    rewrite Hunf. cbn zeta. destruct (retryable (rpc_Reset st command w).1) eqn:Hr.
    + destruct (IH (rpc_Reset st command w).2) as (k & Hk & Hbefore & Hat & ->).
      exists (S k). rewrite !after_resets_S in *. split_and!; [lia| |intros; apply Hat; lia|done].
      intros [|i] Hi; [done|]. rewrite <- after_resets_S. apply Hbefore. lia.
    + exists 0%nat. split_and!; [lia|lia|done|done].
Qed.

(** C18.  [reset] requests the task whose turn it is, at most three times.  An
    attempt is repeated only after a transport error or a refusal that says that
    the cluster is busy; the answer to the last attempt decides: a success starts
    an episode with its session and its baseline, anything else raises and leaves
    the session and the baseline of the previous episode as they were.  The error
    after the loop is never raised. *)
Theorem reset_outcome e w :
  ∃ k, (k < 3)%nat ∧ let command := next_command e in
  (∀ i, (i < k)%nat → retryable (rpc_Reset st command (after_resets command i w)).1 = true) ∧
  ((k < 2)%nat → retryable (rpc_Reset st command (after_resets command k w)).1 = false) ∧
  reset st e w =
    (reset_result (rpc_Reset st command (after_resets command k w)).1 (count_reset e),
     after_resets command (S k) w).
Proof.
  destruct (reset_attempts_spec 2 (next_command e) (count_reset e) w) as (k & Hk & H).
  exists k. split; [lia|exact H].
Qed.

(** ** [step] and [close] *)

Definition count_step e : TunerEnv :=
  MkTunerEnv (session_id e) (reset_count e) (baseline_duration e) (target_ip e) (target_port e)
    (episode_id e) (step_count e + 1).

(** [step] in terms of the durations and of the environment before. *)
Lemma step_outcome a e w :
  step st MAX_STEPS a e w =
  match step_request (count_step e) a with
  | inl err => (inl err, count_step e, w)
  | inr req =>
      let '(r, w1) := rpc_Step st req w in
      match r with
      | inl err => (inl (RpcError err), count_step e, w1)
      | inr resp =>
          let obs := default empty_observation (StepObservation resp) in
          let v := evaluate (baseline_duration e) (DurationUs obs) in
          let over := Done resp || v.2 || (MAX_STEPS <=? step_count e + 1) in
          (match session_id e with
           | Some s => inr (MkEnvObservation obs s over v.1.2 (step_count e + 1) v.1.1)
           | None => inl ValidationError
           end, count_step e, if over then close_session st e w1 else w1)
      end
  end.
Proof.
  unfold step. fold (count_step e). destruct (step_request (count_step e) a) as [err|req]; [done|].
  destruct (rpc_Step st req w) as [[err|resp] w1]; [done|]. cbn [baseline_duration count_step].
  destruct (evaluate _ _) as [[red rew] early]. unfold close_session.
  cbn [fst snd session_id step_count count_step]. by destruct (session_id e).
Qed.

End world.

(** ** Behind the router *)

Section behind_router.
Context (text : Router.router_error → string) (env : Router.environment) (MAX_STEPS : Z).
Abbreviation st := (router_stub text env).
Implicit Types (e : TunerEnv) (p : Pool).

Lemma router_reset_exec command p :
  rpc_Reset st command p = deliver text (Router.exec env (Router.Reset command) p).
Proof. done. Qed.

(** A [Close] of the router, by its effect on the statuses. *)
Lemma close_session_status e p s a :
  pool_inv p → session_id e = Some s → s ≠ EmptyString →
  pool_inv (close_session st e p) ∧
  status (close_session st e p) a = if decide (a = s) then on_release (status p a) else status p a.
Proof.
  intros Hi Hs Hne. unfold close_session. rewrite Hs, bool_decide_eq_false_2 by done.
  cbn. unfold Router.Close. rewrite bool_decide_eq_false_2 by done. cbn.
  split; [by apply free_simulates|by apply free_status].
Qed.

(** A call of [Step] through the stub, by its effect on the statuses. *)
Lemma rpc_step_status req p :
  pool_inv p →
  pool_inv (rpc_Step st req p).2 ∧
  match rpc_Step st req p with
  | (inl _, p') => ∀ a, status p' a = status p a
  | (inr resp, p') => ∀ a, status p' a =
      if decide (a = ReqSessionId req ∧ Done resp = true) then on_release (status p a) else status p a
  end.
Proof.
  intros Hi. cbn. unfold deliver, Router.Step. case_bool_decide; [done|]. cbn. unfold GetAgentBySession.
  destruct (agents p !! ReqSessionId req) as [ac|]; cbn; [|done].
  assert (pool_inv (TouchAgent (Router.clock env) (ReqSessionId req) p)) as Hi' by (by apply touch_inv).
  destruct (Router.client_step env (Conn ac) req) as [err|resp]; cbn.
  - split; [done|]. intros a. by apply touch_status.
  - destruct (Done resp) eqn:Hd; cbn; rewrite ?Hd.
    + split; [by apply free_simulates|]. intros a. rewrite free_status by done.
      rewrite touch_status by done. apply decide_ext. tauto.
    + split; [done|]. intros a. rewrite touch_status by done. by rewrite decide_False by (by intros []).
Qed.

(** One step: an episode that goes on keeps its agent, one that ends releases it. *)
Lemma step_status a e p s :
  pool_inv p → session_id e = Some s → s ≠ EmptyString → status p s = Serving →
  match step st MAX_STEPS a e p with
  | (inl _, e', p') => True
  | (inr o, e', p') =>
      pool_inv p' ∧ session_id e' = Some s ∧ step_count e' = step_count e + 1 ∧
      (done o = false → status p' s = Serving ∧ step_count e' < MAX_STEPS) ∧
      (done o = true → status p' s = Idle)
  end.
Proof.
  intros Hi Hs Hne Hst. rewrite step_outcome, Hs.
  destruct (step_request (count_step e) a) as [err|req] eqn:Hreq; [done|].
  assert (ReqSessionId req = s) as Hid.
  { unfold step_request in Hreq. case_bool_decide; [|done]. injection Hreq as <-. cbn. by rewrite Hs. }
  destruct (rpc_step_status req p Hi) as [Hi' Hp].
  destruct (rpc_Step st req p) as [[err|resp] p1]; [done|]. cbn [snd] in Hi'. rewrite Hid in Hp.
  cbn zeta. set (over := Done resp || _ || _). cbn [done session_id count_step step_count].
  specialize (Hp s). destruct over eqn:Ho.
  - destruct (close_session_status e p1 s s Hi' Hs Hne) as [Hi'' Hc].
    split_and!; [done..|]. intros _. rewrite Hc, decide_True, Hp by done.
    destruct (decide (s = s ∧ Done resp = true)); by rewrite Hst.
  - subst over. apply orb_false_iff in Ho as [[Hd _]%orb_false_iff Hm%Z.leb_gt].
    split_and!; [done..| |done]. intros _. split; [|done].
    rewrite Hp. by rewrite decide_False by (intros [_ ?]; congruence).
Qed.

Lemma play_status actions e p s :
  pool_inv p → session_id e = Some s → s ≠ EmptyString → status p s = Serving →
  match play st MAX_STEPS actions e p with
  | (inl _, _, _) => True
  | (inr true, _, p') => status p' s = Idle
  | (inr false, e', p') => status p' s = Serving ∧ step_count e' = step_count e + Z.of_nat (length actions) ∧
      (actions = [] ∨ step_count e' < MAX_STEPS)
  end.
Proof.
  revert e p. induction actions as [|a actions IH]; intros e p Hi Hs Hne Hst.
  - cbn [play length]. split_and!; [done|lia|by left].
  - cbn [play]. pose proof (step_status a e p s Hi Hs Hne Hst) as H.
    destruct (step st MAX_STEPS a e p) as [[[err|o] e1] p1]; [done|].
    destruct H as (Hi1 & Hs1 & Hc1 & Hgo & Hend). destruct (done o) eqn:Hd; [auto|].
    destruct (Hgo eq_refl) as [Hst1 Hlt]. specialize (IH e1 p1 Hi1 Hs1 Hne Hst1).
    destruct (play st MAX_STEPS actions e1 p1) as [[[err|[]] e2] p2]; [done|done|].
    destruct IH as (? & Hc & Hm). cbn [length]. split_and!; [done|lia|]. right.
    destruct Hm as [->|?]; [|done]. cbn in Hc. lia.
Qed.

(** A call of [Reset] through the stub: an answer is the session of an agent that
    was idle and serves it now. *)
Lemma rpc_reset_status command p :
  pool_inv p → visits (Router.map_order env p) p →
  pool_inv (rpc_Reset st command p).2 ∧
  match rpc_Reset st command p with
  | (inl _, p') => ∀ a, status p' a = status p a
  | (inr resp, p') =>
      ∃ ac resp0, agents p !! SessionId resp = Some ac ∧ status p (SessionId resp) = Idle ∧
      Router.client_reset env (Conn ac) command = inr resp0 ∧
      resp = Router.set_SessionId (SessionId resp) resp0 ∧
      ∀ a, status p' a = if decide (a = SessionId resp) then Serving else status p a
  end.
Proof.
  intros Hi Hv. rewrite router_reset_exec, reset_exec.
  pose proof (lock_spec _ (Router.clock env) p Hi Hv) as H.
  pose proof (lock_conn (Router.map_order env p) (Router.clock env) p) as Hc.
  destruct (LockFreeAgent _ _ p) as [[err|ac] p1]; [by destruct H as (-> & _)|].
  destruct (Hc _ _ Hi eq_refl) as (ac0 & Ha0 & Hc0). destruct H as (Hidle & _ & Hi1 & _ & _ & Hs).
  assert (pool_inv (TouchAgent (Router.clock env) (Addr ac) p1)) as Hi2 by (by apply touch_inv).
  cbn zeta. destruct (Router.client_reset env (Conn ac) command) as [err|resp] eqn:Hr; cbn.
  - split; [by apply free_simulates|]. intros a. rewrite free_status, touch_status, Hs by done.
    case_decide; [subst|done]. by rewrite Hidle.
  - split; [done|]. exists ac0, resp. rewrite Hc0. split_and!; try done.
    intros a. by rewrite touch_status, Hs.
Qed.

Lemma after_resets_inv command n p :
  (∀ q, visits (Router.map_order env q) q) → pool_inv p → pool_inv (after_resets st command n p).
Proof. intros Hv Hi. induction n as [|n IH]; [done|]. by apply rpc_reset_status. Qed.

Lemma reset_started os p e o e1 p1 :
  history os p → (∀ q, visits (Router.map_order env q) q) → reset st e p = (inr o, e1, p1) →
  pool_inv p1 ∧ session_id e1 = Some (obs_session o) ∧ step_count e1 = 0 ∧
  status p1 (obs_session o) = Serving.
Proof.
  intros Hh Hv Hr. destruct (reset_attempts_spec st 2 (next_command e) (count_reset e) p)
    as (k & _ & _ & _ & Hk).
  change (reset_attempts _ 3 _ _ _) with (reset st e p) in Hk. rewrite Hk in Hr. clear Hk.
  set (q := after_resets st (next_command e) k p) in Hr.
  assert (pool_inv q) as Hq by (by apply after_resets_inv; [|eapply history_inv]).
  change (after_resets st (next_command e) (S k) p) with (rpc_Reset st (next_command e) q).2 in Hr.
  destruct (rpc_reset_status (next_command e) q Hq (Hv q)) as [Hi1 Hs].
  destruct (rpc_Reset st (next_command e) q) as [[err|resp] q1]; [done|]. cbn [fst snd reset_result] in Hr, Hi1.
  destruct (Success resp); [|done]. injection Hr as <- <- <-. split_and!; try done.
  destruct Hs as (ac & resp0 & _ & _ & _ & _ & ->). by rewrite decide_True.
Qed.

(** C15.  Episodes end.  After a [reset] that succeeds and then at least
    [MAX_STEPS] steps, with nothing else using the pool, either a step has raised
    or the episode is over, and then its agent is idle again; it never goes on. *)
Theorem episode_releases_agent os p e o e1 p1 actions :
  history os p → (∀ q, visits (Router.map_order env q) q) →
  reset st e p = (inr o, e1, p1) → obs_session o ≠ EmptyString →
  1 ≤ MAX_STEPS ≤ Z.of_nat (length actions) →
  status p1 (obs_session o) = Serving ∧
  match play st MAX_STEPS actions e1 p1 with
  | (inl _, _, _) => True
  | (inr true, _, p2) => status p2 (obs_session o) = Idle
  | (inr false, _, _) => False
  end.
Proof.
  intros Hh Hv Hr Hne Hm.
  destruct (reset_started os p e o e1 p1 Hh Hv Hr) as (Hi1 & Hs1 & Hc1 & Hst). split; [done|].
  pose proof (play_status actions e1 p1 _ Hi1 Hs1 Hne Hst) as H.
  destruct (play st MAX_STEPS actions e1 p1) as [[[err|[]] e2] p2]; [done|done|].
  destruct H as (_ & Hc & [->|Hlt]); [cbn in Hm; lia|]. lia.
Qed.

(** What an environment does to the agents that are not its session: nothing. *)
Lemma close_session_others e p b :
  pool_inv p → session_id e ≠ Some b →
  pool_inv (close_session st e p) ∧ status (close_session st e p) b = status p b.
Proof.
  intros Hi Hb. destruct (session_id e) as [s|] eqn:Hs; [|by unfold close_session; rewrite Hs].
  destruct (decide (s = EmptyString)) as [->|Hne]; [by unfold close_session; rewrite Hs|].
  destruct (close_session_status e p s b Hi Hs Hne) as [Hi' ->].
  split; [done|]. rewrite decide_False; congruence.
Qed.

(** A step without a session is refused. *)
Lemma rpc_step_refused req p : ReqSessionId req = EmptyString → (rpc_Step st req p).2 = p.
Proof. intros He. cbn. unfold deliver, Router.Step. by rewrite bool_decide_eq_true_2. Qed.

Lemma step_others x e p b :
  pool_inv p → session_id e ≠ Some b →
  let '(_, e', p') := step st MAX_STEPS x e p in
  pool_inv p' ∧ session_id e' = session_id e ∧ status p' b = status p b.
Proof.
  intros Hi Hb. rewrite step_outcome.
  destruct (step_request (count_step e) x) as [err|req] eqn:Hreq; [done|].
  assert (ReqSessionId req = default EmptyString (session_id e)) as Hid.
  { unfold step_request in Hreq. case_bool_decide; [|done]. by injection Hreq as <-. }
  destruct (rpc_step_status req p Hi) as [Hi1 Hs].
  assert (status (rpc_Step st req p).2 b = status p b) as Hb1.
  { destruct (decide (b = ReqSessionId req)) as [Hr|Hr].
    - destruct (session_id e); cbn in Hid; [congruence|]. by rewrite rpc_step_refused.
    - destruct (rpc_Step st req p) as [[err|resp] p1]; [done|]. cbn [snd]. rewrite Hs.
      by rewrite decide_False by tauto. }
  destruct (rpc_Step st req p) as [[err|resp] p1]; [done|]. cbn [snd] in *. cbn zeta.
  destruct (_ || _); [|done].
  destruct (close_session_others e p1 b Hi1 Hb) as [? ->]. split_and!; [done..|]. exact Hb1.
Qed.

Lemma play_others actions e p b :
  pool_inv p → session_id e ≠ Some b →
  let '(_, e', p') := play st MAX_STEPS actions e p in
  pool_inv p' ∧ session_id e' = session_id e ∧ status p' b = status p b.
Proof.
  revert e p. induction actions as [|x actions IH]; intros e p Hi Hb; [done|]. cbn [play].
  pose proof (step_others x e p b Hi Hb) as H.
  destruct (step st MAX_STEPS x e p) as [[[err|o] e1] p1]; [done|]. destruct H as (Hi1 & Hs1 & Hp1).
  destruct (done o); [done|]. rewrite <- Hs1 in Hb. specialize (IH e1 p1 Hi1 Hb).
  destruct (play st MAX_STEPS actions e1 p1) as [[r e2] p2]. destruct IH as (? & -> & ->). done.
Qed.

(** C20.  A failed set-up costs an agent.  When some agent is idle, the session that
    the environment has kept from an earlier episode, if any, is not an idle agent
    (it would be locked again, and could be the one), and every agent answers the
    command of the next task with a failure that does not say the cluster is busy,
    [reset] raises; the environment's session is the one it had before, and an agent
    that was idle serves a session that is not this one.  Whatever steps the
    environment then takes, and when it is closed after them, that agent still
    serves. *)
Theorem failed_setup_leaks_agent os p e a resp :
  history os p → (∀ q, visits (Router.map_order env q) q) → status p a = Idle →
  (∀ s, session_id e = Some s → status p s ≠ Idle) →
  Success resp = false → is_busy (Message resp) = false →
  (∀ conn, Router.client_reset env conn (next_command e) = inr resp) →
  match reset st e p with
  | (r, e1, p1) =>
      r = inl (RouterResetFailed (Message resp)) ∧ session_id e1 = session_id e ∧
      ∃ b, status p b = Idle ∧ (∀ c, status p1 c = if decide (c = b) then Serving else status p c) ∧
        session_id e1 ≠ Some b ∧
        ∀ actions, let '(_, e2, p2) := play st MAX_STEPS actions e1 p1 in
          status p2 b = Serving ∧ status (close st e2 p2).2 b = Serving
  end.
Proof.
  intros Hh Hv Ha Hown Hf Hb Hc. pose proof (history_inv _ _ Hh) as Hi.
  destruct (reset_attempts_spec st 2 (next_command e) (count_reset e) p) as (k & _ & Hk & _ & Hr).
  change (reset_attempts _ 3 _ _ _) with (reset st e p) in Hr.
  destruct (rpc_reset_status (next_command e) p Hi (Hv p)) as [Hi1 Hs].
  destruct (rpc_Reset st (next_command e) p) as [r p1] eqn:Hrpc.
  assert (∃ s, r = inr (Router.set_SessionId s resp)) as [s ->].
  { rewrite router_reset_exec, reset_exec in Hrpc.
    pose proof (lock_spec _ (Router.clock env) p Hi (Hv p)) as Hl.
    destruct (LockFreeAgent _ _ p) as [[err|ac] q]; [by destruct Hl as (_ & _ & Hl); destruct (Hl a)|].
    cbn zeta in Hrpc. rewrite Hc in Hrpc. cbn in Hrpc. injection Hrpc as <- _. eauto. }
  destruct Hs as (ac & resp0 & _ & Hidle & _ & _ & Hs). cbn [SessionId Router.set_SessionId] in Hidle, Hs.
  assert (k = 0%nat) as ->.
  { destruct k; [done|]. specialize (Hk 0%nat ltac:(lia)).
    change (after_resets st (next_command e) 0 p) with p in Hk. rewrite Hrpc in Hk. cbn in Hk. by rewrite Hf, Hb in Hk. }
  rewrite Hr. change (after_resets st (next_command e) 1 p) with (rpc_Reset st (next_command e) p).2.
  change (after_resets st (next_command e) 0 p) with p. rewrite Hrpc. cbn [fst snd reset_result Router.set_SessionId Success].
  rewrite Hf. cbn [snd] in Hi1. split_and!; [done..|]. exists s.
  assert (session_id (count_reset e) ≠ Some s) as Hne by (by intros ?%Hown).
  split_and!; [done..|]. intros actions. pose proof (play_others actions (count_reset e) p1 s Hi1 Hne) as H.
  destruct (play st MAX_STEPS actions (count_reset e) p1) as [[r e2] p2]. destruct H as (Hi2 & H2 & Hs2).
  rewrite Hs, decide_True in Hs2 by done. rewrite <- H2 in Hne. split; [done|].
  unfold close. cbn [snd]. by destruct (close_session_others e2 p2 s Hi2 Hne) as [_ ->].
Qed.

(** C21.  A session is closed twice.  The end of an episode closes its session and
    the environment keeps it; a [close] afterwards closes the same session again,
    and when the agent meanwhile serves the episode of another client, that
    episode loses its agent. *)
Theorem close_after_done_releases_other {W} (st' : stub W) a e w o e1 w1 os p :
  step st' MAX_STEPS a e w = (inr o, e1, w1) → done o = true → obs_session o ≠ EmptyString →
  history os p → status p (obs_session o) = Serving →
  (∃ w0, w1 = (rpc_Close st' (obs_session o) w0).2) ∧
  session_id e1 = Some (obs_session o) ∧
  status (close st e1 p).2 (obs_session o) = Idle.
Proof.
  intros Hstep Hd Hne Hh Hst. rewrite step_outcome in Hstep.
  destruct (step_request _ a) as [|req]; [done|]. destruct (rpc_Step st' req w) as [[|resp] w2]; [done|].
  cbn zeta in Hstep. destruct (session_id e) as [s|] eqn:Hs; [|done]. injection Hstep as <- <- <-.
  cbn [done obs_session] in *. rewrite Hd. split_and!.
  - unfold close_session. rewrite Hs, bool_decide_eq_false_2 by done. eauto.
  - done.
  - unfold close. cbn [snd].
    destruct (close_session_status (count_step e) p s s (history_inv _ _ Hh) Hs Hne) as [_ ->].
    by rewrite decide_True, Hst.
Qed.

End behind_router.

(** ** Instances *)

Lemma reward_graded_witness : (reward_of 1000000 600000 <= reward_of 1000000 400000)%Q.
Proof. apply (reward_graded 1000000 400000 600000); lia. Defined.

Lemma reward_thresholds_witness :
  (1 # 2 <= reward_of 8000 6000)%Q ∧ (evaluate 8000 4000).2 = true.
Proof.
  split.
  - apply (proj1 (reward_thresholds 8000 6000 ltac:(lia) ltac:(lia))). lia.
  - apply (proj2 (reward_thresholds 8000 4000 ltac:(lia) ltac:(lia))); [reflexivity|lia].
Defined.

Definition sample_text (err : Router.router_error) : string := "rpc error".

(** Agents whose baseline takes 8 ms, and whose step takes [duration] us. *)
Definition tuning_env (duration : Z) : Router.environment :=
  Router.Environment 7 keys
    (λ _ _, inr (MkResetResponse true "ok" EmptyString
      (Some (MkObservation "142.250.1.1" 443 1000 0 0 300 100000 8000))))
    (λ _ _, inr (MkStepResponse false
      (Some (MkObservation "142.250.1.1" 443 1000 0 0 300 100000 duration)))).

(** Agents on which no command succeeds. *)
Definition failing_env : Router.environment :=
  Router.Environment 7 keys (λ _ _, inr sample_reply) (λ _ _, inl "unavailable"%string).

Definition sample_action : UIAction := MkUIAction 0 0 "bbr" 20 0 1 0 0 0 0 0.

(** Two steps that improve little, with a limit of two. *)
Lemma episode_releases_agent_witness :
  match reset (router_stub sample_text (tuning_env 7000)) (new_env "e") one_agent with
  | (inr o, e1, p1) =>
      match play (router_stub sample_text (tuning_env 7000)) 2 [sample_action; sample_action] e1 p1 with
      | (inr true, _, p2) => status p2 (obs_session o) = Idle
      | _ => False
      end
  | _ => False
  end.
Proof.
  destruct (reset (router_stub sample_text (tuning_env 7000)) (new_env "e") one_agent)
    as [[[err|o] e1] p1] eqn:Hr; [vm_compute in Hr; discriminate Hr|].
  assert (obs_session o = agent1) as Ho by (vm_compute in Hr; injection Hr as <- _ _; reflexivity).
  destruct (episode_releases_agent sample_text (tuning_env 7000) 2 _ one_agent (new_env "e") o e1 p1
    [sample_action; sample_action] one_agent_history keys_visits Hr) as [_ H].
  - rewrite Ho. discriminate.
  - cbn. lia.
  - destruct (play _ _ _ _ _) as [[[err|[]] e2] p2] eqn:Hp; [|exact H|exact H].
    vm_compute in Hr. injection Hr as <- <- <-. vm_compute in Hp. discriminate Hp.
Defined.

Lemma failed_setup_leaks_agent_witness :
  status (reset (router_stub sample_text failing_env) (new_env "e") one_agent).2 agent1 = Serving ∧
  status (close (router_stub sample_text failing_env)
    (reset (router_stub sample_text failing_env) (new_env "e") one_agent).1.2
    (reset (router_stub sample_text failing_env) (new_env "e") one_agent).2).2 agent1 = Serving.
Proof.
  pose proof (failed_setup_leaks_agent sample_text failing_env 5 _ one_agent (new_env "e") agent1 sample_reply
    one_agent_history keys_visits eq_refl (λ s (H : None = Some s), ltac:(discriminate H))
    eq_refl eq_refl (λ _, eq_refl)) as H.
  destruct (reset _ _ _) as [[r e1] p1]. destruct H as (_ & _ & b & Hb & H & _ & Hc). cbn [fst snd].
  assert (b = agent1) as ->.
  { unfold status in Hb. destruct (agents one_agent !! b) as [ac|] eqn:Ha; [|discriminate Hb].
    apply elem_of_map_to_list in Ha. vm_compute in Ha. apply list_elem_of_singleton in Ha.
    injection Ha as -> _. reflexivity. }
  specialize (Hc []). cbn [play] in Hc. exact Hc.
Defined.

(** The step that ends an episode of [agent1], and a [close] while the agent serves
    another client. *)
Definition sample_serving_env : TunerEnv := MkTunerEnv (Some agent1) 1 8000 "142.250.1.1" 443 agent1 0.

Lemma close_after_done_releases_other_witness :
  status (close (router_stub sample_text (tuning_env 4000))
    (step (router_stub sample_text (tuning_env 4000)) 5 sample_action sample_serving_env serving_agent).1.2
    serving_agent).2 agent1 = Idle.
Proof.
  destruct serving_agent_history as [os Hh].
  destruct (step (router_stub sample_text (tuning_env 4000)) 5 sample_action sample_serving_env serving_agent)
    as [[[err|o] e1] w1] eqn:Hs; [vm_compute in Hs; discriminate Hs|]. cbn [fst snd].
  assert (done o = true ∧ obs_session o = agent1) as [Hd Ho]
    by (vm_compute in Hs; injection Hs as <- _ _; split; reflexivity).
  rewrite <- Ho. refine (proj2 (proj2 (close_after_done_releases_other sample_text (tuning_env 4000) 5
    (router_stub sample_text (tuning_env 4000)) sample_action sample_serving_env serving_agent o e1 w1
    os serving_agent Hs Hd _ Hh _))).
  - rewrite Ho. discriminate.
  - rewrite Ho. vm_compute. reflexivity.
Defined.
