(* ===== verification/Startup.v ===== *)
(** * Start-up and shutdown of the two servers

    [env-router/main.go] and [env-ebpf-agent/main.go]: the configuration from
    environment variables, the order in which the parts are started, the errors
    that end the program, and the deferred calls; [NewManager], [AttachCgroup] and
    [Close] of [ebpfmgr/manager.go].  [log.Fatal] ends the process at once and
    skips the deferred calls; a return from [main] runs them, the last one first.
    A panic in another goroutine ends the process too, whenever the scheduler lets
    that goroutine run.
    The answers of the platform (the cluster's configuration, the network, the
    eBPF library) are arguments.  Go's [int] has 64 bits. *)
From Stdlib Require Import Ascii.
From stdpp Require Import pretty.
From S2P Require Import Prelude K8s.
Local Open Scope Z_scope.

(** ** The main function of a Go program *)

Inductive halt :=
| Fatal (msg : string)         (* log.Fatal *)
| Panicked (msg : string).     (* a goroutine that does not recover *)

Section program.
Context {S E : Type}.

(** The effects so far, the deferred calls, the last one first, and the state; the
    goroutines that panic when they first run and have not run yet, by what they
    panic with; and whether the scheduler lets one of these run at the next points
    of [main]. *)
Record proc := Proc {
  trace : list E;
  deferred : list (S → list E);
  proc_state : S;
  doomed : list string;
  schedule : nat → bool;
}.

(** A computation that may end the process. *)
Definition go (A : Type) : Type := proc → (halt + A) * proc.

#[export] Instance go_ret : MRet go := λ A x p, (inr x, p).
#[export] Instance go_bind : MBind go := λ A B f c p,
  let '(r, p) := c p in match r with inl e => (inl e, p) | inr x => f x p end.

(** A point at which other goroutines may run: there is one before every effect
    and before every call whose error is checked. *)
Definition yield : go unit := λ '(Proc tr fs s doom sched),
  let p := Proc tr fs s doom (λ n, sched (Datatypes.S n)) in
  match doom with
  | msg :: _ => if sched 0%nat then (inl (Panicked msg), p) else (inr tt, p)
  | [] => (inr tt, p)
  end.

Definition record_effect (e : E) : go unit := λ '(Proc tr fs s doom sched),
  (inr tt, Proc (tr ++ [e]) fs s doom sched).
Definition perform (e : E) : go unit := _ ← yield; record_effect e.
Definition defer (f : S → list E) : go unit := λ '(Proc tr fs s doom sched),
  (inr tt, Proc tr (f :: fs) s doom sched).
Definition put_state (s : S) : go unit := λ '(Proc tr fs _ doom sched), (inr tt, Proc tr fs s doom sched).
Definition fatal {A} (msg : string) : go A := λ p, (inl (Fatal msg), p).

(** [go func() { ... time.NewTicker(interval) ... }()]: [NewTicker] panics on an
    interval that is not positive. *)
Definition go_ticker (interval : Z) : go unit := λ '(Proc tr fs s doom sched),
  let doom' := if interval <=? 0 then ["non-positive interval for NewTicker"%string] else [] in
  (inr tt, Proc tr fs s (doom ++ doom') sched).

(** [if err != nil { log.Fatalf(msg, err) }] *)
Definition check {A} (r : string + A) (msg : string) : go A :=
  _ ← yield;
  match r with inl err => fatal (msg +:+ ": " +:+ err) | inr x => mret x end.

Fixpoint perform_all (es : list E) : go unit :=
  match es with [] => mret tt | e :: es => _ ← perform e; perform_all es end.

Definition run_deferred : go unit := λ p, perform_all (concat ((λ f, f (proc_state p)) <$> deferred p)) p.

(** How the process ends if it is not by a return of [main], and its effects. *)
Definition run_main (sched : nat → bool) (s : S) (m : go unit) : option halt * list E :=
  match (_ ← m; run_deferred) (Proc [] [] s [] sched) with
  | (inl h, p) => (Some h, trace p)
  | (inr _, p) => (None, trace p)
  end.
End program.
Arguments go : clear implicits.

(** ** The configuration of the router *)

(** [os.Getenv]: an unset variable reads as the empty string. *)
Definition getenv : Type := string → string.

Definition envOrDefault (env : getenv) (key fallback : string) : string :=
  if bool_decide (env key = EmptyString) then fallback else env key.

(** The digits of a number, after those read so far. *)
Fixpoint digits_value (acc : Z) (s : string) : option Z :=
  match s with
  | EmptyString => Some acc
  | String c s =>
      let d := Z.of_nat (Ascii.nat_of_ascii c) - 48 in
      if (0 <=? d) && (d <=? 9) then digits_value (acc * 10 + d) s else None
  end.

(** [strconv.Atoi]: an optional sign and decimal digits, within 64 bits. *)
Definition Atoi (s : string) : option Z :=
  let '(negative, digits) :=
    match s with
    | String "-" s => (true, s)
    | String "+" s => (false, s)
    | _ => (false, s)
    end%char in
  if bool_decide (digits = EmptyString) then None
  else
    match digits_value 0 digits with
    | Some n =>
        let n := if negative : bool then - n else n in
        if (- 2 ^ 63 <=? n) && (n <? 2 ^ 63) then Some n else None
    | None => None
    end.

Definition envIntOrDefault (env : getenv) (key : string) (fallback : Z) : Z :=
  if bool_decide (env key = EmptyString) then fallback else default fallback (Atoi (env key)).

(** [time.Duration(sec) * time.Second], in nanoseconds. *)
Definition seconds (sec : Z) : Z := sint 64 (sec * 1000000000).

Record config := Config {
  listenAddr : string;
  agentServiceName : string;
  agentNamespace : string;
  agentDeploymentName : string;
  agentGRPCPort : string;
  cfg_warmPoolSize : Z;
  scalerIntervalSec : Z;
  sessionTimeoutSec : Z;
  cleanupIntervalSec : Z;
}.

Definition read_config (env : getenv) : config :=
  Config (envOrDefault env "LISTEN_ADDR" ":50050")
    (env "AGENT_SERVICE_NAME"%string)
    (envOrDefault env "AGENT_NAMESPACE" "default")
    (env "AGENT_DEPLOYMENT_NAME"%string)
    (envOrDefault env "AGENT_GRPC_PORT" "50051")
    (envIntOrDefault env "WARM_POOL_SIZE" 1)
    (envIntOrDefault env "SCALER_INTERVAL_SECONDS" 10)
    (envIntOrDefault env "SESSION_TIMEOUT_SECONDS" 300)
    (envIntOrDefault env "CLEANUP_INTERVAL_SECONDS" 60).

(** ** The main function of the router *)

Inductive router_effect :=
| StartCleanup (timeout interval : Z)
| StartWatcher (namespace service port : string)
| StartScaler (namespace deployment : string) (warm interval : Z)
| Listen (addr : string)
| StopScaler
| StopWatcher
| ClosePool.

(** What the platform answers to the router. *)
Record router_platform := RouterPlatform {
  in_cluster_config : string + unit;
  new_for_config : string + unit;
  listen : string → string + unit;
  serve : string + unit;          (* [inr] after a graceful stop *)
}.

(** After the configuration has been read. *)
Definition router_start (cfg : config) (pf : router_platform) : go unit router_effect unit :=
  _ ← (if bool_decide (agentServiceName cfg = EmptyString)
       then fatal "AGENT_SERVICE_NAME environment variable is required" else mret tt);
  _ ← (if bool_decide (agentDeploymentName cfg = EmptyString)
       then fatal "AGENT_DEPLOYMENT_NAME environment variable is required" else mret tt);
  _ ← check (in_cluster_config pf) "Failed to get in-cluster K8s config";
  _ ← check (new_for_config pf) "Failed to create K8s client";
  _ ← defer (λ _, [ClosePool]);
  _ ← perform (StartCleanup (seconds (sessionTimeoutSec cfg)) (seconds (cleanupIntervalSec cfg)));
  _ ← go_ticker (seconds (cleanupIntervalSec cfg));
  _ ← perform (StartWatcher (agentNamespace cfg) (agentServiceName cfg) (agentGRPCPort cfg));
  _ ← defer (λ _, [StopWatcher]);
  _ ← perform (StartScaler (agentNamespace cfg) (agentDeploymentName cfg) (cfg_warmPoolSize cfg)
                 (seconds (scalerIntervalSec cfg)));
  _ ← go_ticker (seconds (scalerIntervalSec cfg));
  _ ← defer (λ _, [StopScaler]);
  _ ← check (listen pf (listenAddr cfg)) "Failed to listen";
  _ ← perform (Listen (listenAddr cfg));
  check (serve pf) "Failed to serve gRPC".

Definition router_main (env : getenv) (pf : router_platform) : go unit router_effect unit :=
  router_start (read_config env) pf.

(** ** The manager and the main function of the agent *)

Record Manager := MkManager { objs : Z; links : list Z }.

(** Programs and maps loaded, links attached: by a handle. *)
Inductive agent_effect :=
| LoadObjects (objs : Z)
| AttachLink (link : Z) (path : string) (program : Z)
| Listening (addr : string)
| CloseLink (link : Z)
| CloseObjects (objs : Z).

Record agent_platform := AgentPlatform {
  load_objects : string + Z;
  attach : string → Z → string + Z;
  agent_listen : string → string + unit;
  agent_serve : string + unit;
}.

Definition NewManager (pf : agent_platform) : string + Manager :=
  match load_objects pf with
  | inl err => inl ("loading objects: " +:+ err)
  | inr objs => inr (MkManager objs [])
  end.

Definition AttachCgroup (pf : agent_platform) (path : string) (m : Manager) : string + Z * Manager :=
  match attach pf path (objs m) with
  | inl err => inl ("attaching to cgroup: " +:+ err)
  | inr l => inr (l, MkManager (objs m) (links m ++ [l]))
  end.

Definition Close (m : Manager) : list agent_effect := (CloseLink <$> links m) ++ [CloseObjects (objs m)].

(** [cgroup] and [addr] are the flags given on the command line. *)
Definition agent_main (cgroup addr : option string) (pf : agent_platform)
    : go (option Manager) agent_effect unit :=
  let cgroupPath := default "/sys/fs/cgroup"%string cgroup in
  let listenAddr := default ":50061"%string addr in
  manager ← check (NewManager pf) "Failed to initialize eBPF manager";
  _ ← perform (LoadObjects (objs manager));
  _ ← put_state (Some manager);
  _ ← defer (from_option Close []);
  attached ← check (AttachCgroup pf cgroupPath manager) ("Failed to attach to cgroup " +:+ cgroupPath);
  _ ← perform (AttachLink attached.1 cgroupPath (objs manager));
  _ ← put_state (Some attached.2);
  _ ← check (agent_listen pf listenAddr) "Failed to listen";
  _ ← perform (Listening listenAddr);
  check (agent_serve pf) "Failed to serve gRPC".

(** ** Integers of the configuration *)

Lemma digits_char x : (x < 10)%N → Z.of_nat (Ascii.nat_of_ascii (pretty_N_char x)) - 48 = Z.of_N x.
Proof.
  intros H. assert (x = 0 ∨ x = 1 ∨ x = 2 ∨ x = 3 ∨ x = 4 ∨ x = 5 ∨ x = 6 ∨ x = 7 ∨ x = 8 ∨ x = 9)%N
    as Hx by lia.
  by repeat destruct Hx as [->|Hx]; [..|subst].
Qed.

Lemma digits_pretty x s : digits_value 0 (pretty_N_go x s) = digits_value (Z.of_N x) s.
Proof.
  revert s. induction (N.lt_wf_0 x) as [x _ IH]. intros s.
  destruct (decide (x = 0)%N) as [->|Hx]; [by rewrite pretty_N_go_0|].
  rewrite pretty_N_go_step by lia. rewrite IH by (apply N.div_lt; lia).
  cbn [digits_value]. pose proof (N.mod_lt x 10 ltac:(lia)) as Hm. rewrite digits_char by done.
  pose proof (N.div_mod x 10 ltac:(lia)) as Hd. set (q := (x / 10)%N) in *. set (m := (x mod 10)%N) in *.
  rewrite (proj2 (Z.leb_le 0 (Z.of_N m))), (proj2 (Z.leb_le (Z.of_N m) 9)) by lia. cbn [andb]. f_equal. lia.
Qed.

(** The first character of a number is a digit. *)
Lemma pretty_head x s : (0 < x)%N → ∃ d r, (d < 10)%N ∧ pretty_N_go x s = String (pretty_N_char d) r.
Proof.
  revert s. induction (N.lt_wf_0 x) as [x _ IH]. intros s Hx. rewrite pretty_N_go_step by done.
  destruct (decide (x / 10 = 0)%N) as [H0|H0].
  - rewrite H0, pretty_N_go_0. exists (x mod 10)%N, s. split; [|done]. by apply N.mod_lt.
  - apply IH; [by apply N.div_lt|by apply N.neq_0_lt_0].
Qed.

Lemma pretty_pos_cases p : ∃ d r, (d < 10)%N ∧ pretty (N.pos p) = String (pretty_N_char d) r ∧
  digits_value 0 (pretty (N.pos p)) = Some (Z.pos p).
Proof.
  unfold pretty, pretty_N. rewrite decide_False by done.
  destruct (pretty_head (N.pos p) "" eq_refl) as (d & r & Hd & Hr). exists d, r.
  split_and!; [done|done|]. by rewrite digits_pretty.
Qed.

Lemma Atoi_pretty z : - 2 ^ 63 ≤ z < 2 ^ 63 → Atoi (pretty z) = Some z.
Proof.
  intros Hz. destruct z as [|p|p]; [done|..].
  - destruct (pretty_pos_cases p) as (d & r & Hd & Hr & Hv).
    assert (pretty (Z.pos p) = pretty (N.pos p)) as -> by done. unfold Atoi. rewrite Hr in Hv |- *.
    assert (match String (pretty_N_char d) r with
            | String "-" s => (true, s) | String "+" s => (false, s) | _ => (false, String (pretty_N_char d) r)
            end%char = (false, String (pretty_N_char d) r)) as E
      by (unfold pretty_N_char; by repeat case_match; simplify_eq).
    rewrite E. rewrite bool_decide_eq_false_2 by done. rewrite Hv.
    rewrite (proj2 (Z.leb_le _ _)), (proj2 (Z.ltb_lt _ _)) by lia. done.
  - destruct (pretty_pos_cases p) as (d & r & Hd & Hr & Hv).
    assert (pretty (Z.neg p) = String "-" (pretty (N.pos p))) as -> by done.
    unfold Atoi. rewrite bool_decide_eq_false_2 by (by rewrite Hr). rewrite Hv.
    rewrite (proj2 (Z.leb_le _ _)), (proj2 (Z.ltb_lt _ _)) by lia. done.
Qed.

Lemma digits_value_range s n : Atoi s = Some n → - 2 ^ 63 ≤ n < 2 ^ 63.
Proof.
  unfold Atoi. destruct (match s with String "-" s' => _ | String "+" s' => _ | _ => _ end%char) as [neg body].
  case_bool_decide; [done|]. destruct (digits_value 0 body) as [v|]; [|done].
  set (w := if neg then - v else v). destruct (Z.leb_spec (- 2 ^ 63) w), (Z.ltb_spec w (2 ^ 63)); cbn; try done.
  by intros [= <-].
Qed.

(** C30.  Integers of the configuration.  A variable that holds the decimal text
    of an integer of 64 bits has that value; when it is unset, malformed or out
    of range, the default is used, and no value outside 64 bits ever gets in,
    unless the default is one. *)
Theorem config_integers env key fallback :
  (∀ z, - 2 ^ 63 ≤ z < 2 ^ 63 → env key = pretty z → envIntOrDefault env key fallback = z) ∧
  (env key = EmptyString ∨ Atoi (env key) = None → envIntOrDefault env key fallback = fallback) ∧
  (- 2 ^ 63 ≤ fallback < 2 ^ 63 → - 2 ^ 63 ≤ envIntOrDefault env key fallback < 2 ^ 63).
Proof.
  unfold envIntOrDefault. split_and!.
  - intros z Hz ->. rewrite Atoi_pretty by done. rewrite bool_decide_eq_false_2; [done|].
    destruct z as [|p|p]; [done| |done]. destruct (pretty_pos_cases p) as (d & r & _ & Hr & _).
    assert (pretty (Z.pos p) = pretty (N.pos p)) as -> by done. by rewrite Hr.
  - intros [->| ->]; [done|]. by case_bool_decide.
  - intros Hf. case_bool_decide; [done|].
    destruct (Atoi (env key)) as [n|] eqn:Ha; [|done]. by apply digits_value_range in Ha.
Qed.

(** ** The router *)

(** The parts that a configuration starts, in order. *)
Definition started (cfg : config) : list router_effect := [
  StartCleanup (seconds (sessionTimeoutSec cfg)) (seconds (cleanupIntervalSec cfg));
  StartWatcher (agentNamespace cfg) (agentServiceName cfg) (agentGRPCPort cfg);
  StartScaler (agentNamespace cfg) (agentDeploymentName cfg) (cfg_warmPoolSize cfg)
    (seconds (scalerIntervalSec cfg));
  Listen (listenAddr cfg)].

Definition stopped : list router_effect := [StopScaler; StopWatcher; ClosePool].

Definition succeeds {A B} (r : A + B) : bool := match r with inl _ => false | inr _ => true end.

(** What the program needs to run until it is asked to stop. *)
Definition router_runs (cfg : config) (pf : router_platform) : bool :=
  negb (bool_decide (agentServiceName cfg = EmptyString)) &&
  negb (bool_decide (agentDeploymentName cfg = EmptyString)) &&
  succeeds (in_cluster_config pf) && succeeds (new_for_config pf) &&
  succeeds (listen pf (listenAddr cfg)) && succeeds (serve pf).

(** Seconds whose number of nanoseconds is a [time.Duration]. *)
Definition in_duration (sec : Z) : Prop := -9223372036 ≤ sec ≤ 9223372036.

Lemma seconds_positive sec : in_duration sec → (seconds sec <=? 0) = (sec <=? 0).
Proof.
  intros H. unfold in_duration in H. unfold seconds. rewrite sint_id by lia.
  destruct (Z.leb_spec (sec * 1000000000) 0), (Z.leb_spec sec 0); lia.
Qed.

(** The parts that have been stopped are not among those started. *)
Lemma started_not_stopped cfg tr : tr `prefix_of` started cfg → ∀ e, e ∈ stopped → e ∉ tr.
Proof.
  intros [k Hk] e He Hin. assert (e ∈ started cfg) as Hs by (rewrite Hk; apply elem_of_app; by left).
  unfold started, stopped in *. rewrite !elem_of_cons, elem_of_nil in *.
  destruct Hs as [->|[->|[->|[->|[]]]]], He as [He|[He|[He|[]]]]; discriminate He.
Qed.

(** The points of [main] at which a started goroutine that panics may run: from the
    one after it is started to the last deferred call. *)
Definition crashes (sched : nat → bool) (cfg : config) : Prop :=
  ∃ n, sched n = true ∧ (n < 11)%nat ∧
    (seconds (cleanupIntervalSec cfg) ≤ 0 ∧ (3 ≤ n)%nat ∨
     seconds (scalerIntervalSec cfg) ≤ 0 ∧ (5 ≤ n)%nat).

(** What [router_startup] states of the end of a run and of its effects. *)
Definition startup_ends (sched : nat → bool) (cfg : config) (runs : bool)
    (out : option halt) (tr : list router_effect) : Prop :=
  (out = None → runs = true ∧ tr = started cfg ++ stopped) ∧
  (∀ msg, out = Some (Fatal msg) →
     runs = false ∧ tr `prefix_of` started cfg ∧ ∀ e, e ∈ stopped → e ∉ tr) ∧
  (∀ msg, out = Some (Panicked msg) →
     (seconds (cleanupIntervalSec cfg) ≤ 0 ∨ seconds (scalerIntervalSec cfg) ≤ 0) ∧
     tr `prefix_of` started cfg ++ stopped) ∧
  (runs = true → (∃ msg, out = Some (Panicked msg)) ↔ crashes sched cfg).

Lemma ends_fatal sched cfg msg n : startup_ends sched cfg false (Some (Fatal msg)) (take n (started cfg)).
Proof.
  assert (take n (started cfg) `prefix_of` started cfg) by apply prefix_take.
  split_and!; try done. intros _ _. split_and!; [done..|]. by eapply started_not_stopped.
Qed.

Lemma ends_panicked sched cfg runs msg n :
  crashes sched cfg → startup_ends sched cfg runs (Some (Panicked msg)) (take n (started cfg ++ stopped)).
Proof.
  intros Hc. split_and!; try done; [|by split; [|by eexists]].
  intros _ _. split; [|apply prefix_take]. destruct Hc as (m & _ & _ & [[? _]|[? _]]); auto.
Qed.

Lemma ends_returned sched cfg :
  ¬ crashes sched cfg → startup_ends sched cfg true None (started cfg ++ stopped).
Proof. intros Hc. split_and!; try done. intros _. by split; [intros [? ?]|]. Qed.

(** To the next point at which the run depends on something. *)
Ltac run_on := cbn; unfold perform, record_effect, yield, mbind, go_bind; cbn.

(** The end of a run, by its outcome and the number of its effects; before the end,
    whether the schedule lets a goroutine run. *)
Ltac next_point cfg :=
  lazymatch goal with
  | |- startup_ends _ _ _ None _ =>
      apply ends_returned; intros (n & ? & ? & ?);
      do 11 (destruct n as [|n]; [first [congruence|lia]|]); lia
  | |- startup_ends _ _ _ (Some (Fatal _)) ?tr =>
      let k := eval cbn in (length tr) in apply (ends_fatal _ cfg _ k)
  | |- startup_ends _ _ _ (Some (Panicked _)) ?tr =>
      let k := eval cbn in (length tr) in apply (ends_panicked _ cfg _ _ k);
      match goal with
      | H : _ ?n = true |- _ => exists n; split_and!; [done|lia|lia]
      end
  | |- startup_ends ?sched _ _ _ _ =>
      match goal with |- context [if sched ?n then _ else _] => destruct (sched n) eqn:?; run_on end
  end.

Lemma run_startup sched cfg pf :
  let r := run_main sched tt (router_start cfg pf) in
  startup_ends sched cfg (router_runs cfg pf) r.1 r.2.
Proof.
  cbn zeta. unfold router_runs, router_start, run_main, run_deferred, mbind, go_bind.
  case_bool_decide as H1; [apply (ends_fatal _ cfg _ 0)|]. case_bool_decide as H2; [apply (ends_fatal _ cfg _ 0)|].
  cbn [negb andb mret go_ret]. unfold check, perform, record_effect, yield, mbind, go_bind.
  destruct (in_cluster_config pf); [apply (ends_fatal _ cfg _ 0)|].
  destruct (new_for_config pf); [apply (ends_fatal _ cfg _ 0)|].
  unfold go_ticker, defer.
  destruct (Z.leb_spec (seconds (cleanupIntervalSec cfg)) 0) as [Hc|Hc],
    (Z.leb_spec (seconds (scalerIntervalSec cfg)) 0) as [Hs|Hs];
  (destruct (listen pf (listenAddr cfg)); [|destruct (serve pf)]); run_on; repeat next_point cfg.
Qed.

(** C28.  Start-up of the router, whatever the scheduler does.  It returns from
    [main] only when both names are set and the platform has no error, and then the
    cleanup, the watcher, the scaler and the server have been started in this order
    with the values of the configuration, and on a graceful stop the scaler, the
    watcher and the pool have been stopped in this order.  When it dies of an error,
    a prefix of that start has happened and nothing is stopped.  The intervals are
    not validated: it dies of a panic only when an interval, as a 64-bit number of
    nanoseconds, is not positive, wherever in that sequence it is; and on a platform
    without errors exactly when the scheduler lets the goroutine of such an interval
    run between its start and the end of [main]. *)
Theorem router_startup sched env pf :
  let cfg := read_config env in
  let '(out, tr) := run_main sched tt (router_main env pf) in
  (out = None → router_runs cfg pf = true ∧ tr = started cfg ++ stopped) ∧
  (∀ msg, out = Some (Fatal msg) →
     router_runs cfg pf = false ∧ tr `prefix_of` started cfg ∧ ∀ e, e ∈ stopped → e ∉ tr) ∧
  (∀ msg, out = Some (Panicked msg) →
     (seconds (cleanupIntervalSec cfg) ≤ 0 ∨ seconds (scalerIntervalSec cfg) ≤ 0) ∧
     tr `prefix_of` started cfg ++ stopped) ∧
  (router_runs cfg pf = true → (∃ msg, out = Some (Panicked msg)) ↔ crashes sched cfg).
Proof.
  cbn zeta. pose proof (run_startup sched (read_config env) pf) as H. cbn zeta in H.
  unfold router_main. by destruct (run_main _ _ _) as [out tr].
Qed.

(** ** The agent *)

(** C29.  Life of the agent's eBPF resources.  When the program runs until it is
    asked to stop, it has loaded the objects, attached their program to the
    cgroup, served, and then closed the link and the objects, each once and in
    this order; it does so exactly when the library and the network have no
    error, whatever the scheduler does.  Otherwise it dies of that error and nothing
    is closed, whatever was loaded or attached. *)
Theorem agent_lifecycle sched cgroup addr pf :
  let path := default "/sys/fs/cgroup"%string cgroup in
  let '(msg, tr) := run_main sched None (agent_main cgroup addr pf) in
  (msg = None ↔ ∃ o l, load_objects pf = inr o ∧ attach pf path o = inr l ∧
     agent_listen pf (default ":50061"%string addr) = inr tt ∧ agent_serve pf = inr tt) ∧
  (msg = None → ∃ o l, tr = [LoadObjects o; AttachLink l path o; Listening (default ":50061"%string addr);
     CloseLink l; CloseObjects o]) ∧
  (msg ≠ None → (∃ text, msg = Some (Fatal text)) ∧ ∀ e, e ∈ tr → match e with CloseLink _ | CloseObjects _ => False | _ => True end).
Proof.
  cbn zeta. unfold agent_main, run_main, run_deferred, check, perform, record_effect, yield, mbind, go_bind,
    NewManager, AttachCgroup, put_state, defer.
  destruct (load_objects pf) as [err|o]; cbn.
  { split_and!; try done; [split; [done|by intros (?&?&?&_)]|]. intros _. split; [by eexists|]. intros e He. by apply elem_of_nil in He. }
  destruct (attach pf _ o) as [err|l] eqn:Ha; cbn.
  { split_and!; try done; [split; [done|intros (?&?&[= <-]&?&_); congruence]|].
    intros _. split; [by eexists|]. intros e He. by apply list_elem_of_singleton in He as ->. }
  destruct (agent_listen pf _) as [err|[]] eqn:Hl; cbn.
  { split_and!; try done; [split; [done|by intros (?&?&_&_&?&_)]|].
    intros _. split; [by eexists|]. intros e He. rewrite !elem_of_cons in He. by destruct He as [->|[->|He%elem_of_nil]]. }
  destruct (agent_serve pf) as [err|[]] eqn:Hs; cbn.
  { split_and!; try done; [split; [done|by intros (?&?&_&_&_&?)]|].
    intros _. split; [by eexists|]. intros e He. rewrite !elem_of_cons in He. by destruct He as [->|[->|[->|He%elem_of_nil]]]. }
  split_and!; try done; [split; eauto 8|by eauto].
Qed.

(** ** Instances *)

Definition sample_getenv (key : string) : string :=
  if bool_decide (key = "AGENT_SERVICE_NAME"%string) then "agents-service"
  else if bool_decide (key = "AGENT_DEPLOYMENT_NAME"%string) then "agents"
  else if bool_decide (key = "AGENT_GRPC_PORT"%string) then "50061"
  else if bool_decide (key = "CLEANUP_INTERVAL_SECONDS"%string) then "0"
  else EmptyString.

Definition sample_platform : router_platform :=
  RouterPlatform (inr tt) (inr tt) (λ _, inr tt) (inr tt).

(** A cleanup interval of zero is accepted, and the router crashes while it serves. *)
Example zero_interval_crashes :
  run_main (λ n, Nat.eqb n 7) tt (router_main sample_getenv sample_platform) =
  (Some (Panicked "non-positive interval for NewTicker"), started (read_config sample_getenv)).
Proof. vm_compute. reflexivity. Qed.
