(* ===== verification/Deployment.v ===== *)
(** * The deployment

    What the manifests under [kubernetes-cluster/resources] and the images give the
    two servers: their configuration, the names and ports by which they find each
    other, and the rights of the router in the cluster; and that these are what the
    code of [Startup] and [K8s] needs.  Resources, probes and node selection are not
    modelled. *)
From S2P Require Import Prelude Pool K8s Startup.
Local Open Scope Z_scope.

(** ** Manifests *)

(** A rule of a [ClusterRole]. *)
Record rule := Rule { apiGroups : list string; resources : list string; verbs : list string }.

(** A [Service]: its name and namespace, the labels it selects, the port of the pods. *)
Record service := Service { svc_name : string; svc_namespace : string; svc_app : string; svc_targetPort : Z }.

(** A [Deployment] of one container. *)
Record deployment := Deployed {
  dep_name : string; dep_namespace : string; dep_app : string; dep_port : Z; dep_env : list (string * string);
}.

(** [env-router.yaml] *)
Definition router_cr : list rule := [
  Rule [EmptyString] ["endpoints"]%string ["get"; "list"; "watch"]%string;
  Rule ["apps"]%string ["deployments"; "deployments/scale"; "services"]%string ["get"; "update"]%string].

Definition router_deployment : deployment :=
  Deployed "router" "socket-tuner" "router" 50050 [
    ("AGENT_SERVICE_NAME", "agents-service"); ("AGENT_NAMESPACE", "socket-tuner");
    ("AGENT_DEPLOYMENT_NAME", "agents"); ("AGENT_GRPC_PORT", "50061"); ("WARM_POOL_SIZE", "1");
    ("SCALER_INTERVAL_SECONDS", "10"); ("LISTEN_ADDR", ":50050")]%string.

Definition router_service : service := Service "router-service" "socket-tuner" "router" 50050.

(** [env-ebpf-agents.yaml]; the flags are those of the image's entry point. *)
Definition agents_deployment : deployment := Deployed "agents" "socket-tuner" "agents" 50061 [].
Definition agents_service : service := Service "agents-service" "socket-tuner" "agents" 50061.
Definition agent_listen_flag : option string := Some ":50061"%string.

(** ** What the code needs *)

(** [os.Getenv] in a container. *)
Definition container_env (d : deployment) : getenv :=
  λ key, from_option snd EmptyString (head (filter (λ e, e.1 = key) (dep_env d))).

(** The calls of [watcher.go] and [scaler.go] to the cluster's API, as group,
    resource and verb. *)
Inductive api_call := EndpointsGet | EndpointsWatch | DeploymentsGetScale | DeploymentsUpdateScale.
#[export] Instance api_call_eq_dec : EqDecision api_call.
Proof. solve_decision. Defined.

Definition api_request (c : api_call) : string * string * string :=
  match c with
  | EndpointsGet => (EmptyString, "endpoints", "get")
  | EndpointsWatch => (EmptyString, "endpoints", "watch")
  | DeploymentsGetScale => ("apps", "deployments/scale", "get")
  | DeploymentsUpdateScale => ("apps", "deployments/scale", "update")
  end%string.

(** A rule grants a request when it lists all of it. *)
Definition grants (r : rule) (q : string * string * string) : bool :=
  bool_decide (q.1.1 ∈ apiGroups r) && bool_decide (q.1.2 ∈ resources r) && bool_decide (q.2 ∈ verbs r).

(** A pod of a deployment belongs to a service. *)
Definition serves (s : service) (d : deployment) : bool :=
  bool_decide (svc_namespace s = dep_namespace d) && bool_decide (svc_app s = dep_app d) &&
  (svc_targetPort s =? dep_port d).

(** Every call of the router to the cluster is granted. *)
Theorem router_rights c : existsb (λ r, grants r (api_request c)) router_cr = true.
Proof. by destruct c. Qed.

(** The deployed router, on a platform without errors, starts its parts with the
    names of the agents' deployment and service, in their namespace, and no schedule
    makes it crash; it dials the port on which the agents listen, and listens on
    the port of its own service. *)
Theorem deployment_consistent sched pf :
  in_cluster_config pf = inr tt → new_for_config pf = inr tt →
  listen pf ":50050" = inr tt → Startup.serve pf = inr tt →
  run_main sched tt (router_main (container_env router_deployment) pf) =
    (None, [StartCleanup (seconds 300) (seconds 60);
            StartWatcher (svc_namespace agents_service) (svc_name agents_service) "50061";
            StartScaler (dep_namespace agents_deployment) (dep_name agents_deployment) 1 (seconds 10);
            Listen ":50050"; StopScaler; StopWatcher; ClosePool]) ∧
  serves agents_service agents_deployment = true ∧ serves router_service router_deployment = true ∧
  (∀ ip, target "50061" ip = ip +:+ default ":50061"%string agent_listen_flag).
Proof.
  intros H1 H2 H3 H4.
  assert (run_main sched tt (router_main (container_env router_deployment) pf) =
    (None, [StartCleanup (seconds 300) (seconds 60);
            StartWatcher (svc_namespace agents_service) (svc_name agents_service) "50061";
            StartScaler (dep_namespace agents_deployment) (dep_name agents_deployment) 1 (seconds 10);
            Listen ":50050"; StopScaler; StopWatcher; ClosePool])) as Hrun.
  { unfold run_main, router_main, router_start, check.
    change (read_config (container_env router_deployment)) with
      (Config ":50050" "agents-service" "socket-tuner" "agents" "50061" 1 10 300 60).
    cbn [listenAddr agentServiceName agentDeploymentName]. rewrite H1, H2, H3, H4. reflexivity. }
  rewrite Hrun. split_and!; done.
Qed.
