(* ===== verification/TestClient.v ===== *)
(** * The test client of the agent

    [env-ebpf-agent/test_client.go]: it dials an address, resets with a fixed
    command, prints what was observed and takes one step towards the address it
    observed.  [main] runs in the monad of [Startup]; a nil pointer that is
    dereferenced panics, which, unlike [log.Fatal], runs the deferred calls.  The
    server at the other end is an argument, a function on its own state; what
    [fmt] makes of a format and its values is not modelled. *)
From S2P Require Import Prelude CTypes BpfMaps SocketTuner Sha256 Executor NetIP Agent AgentProps Startup.
Local Open Scope Z_scope.

(** A value that is printed. *)
Inductive value :=
| VBool (b : bool)
| VString (s : string)
| VUint (n : Z)
| VThousandth (n : Z).          (* float64(n)/1000.0 *)

Inductive client_effect :=
| Dialed (addr : string)
| AskedReset (command : string)
| AskedStep (req : StepRequest)
| Printed (format : string) (args : list value)
| ClosedConn.

Section client.
Context {S : Type}.

(** The server: the answer to a dial, and the two calls. *)
Record service := Service {
  dial : string → string + unit;
  call_Reset : string → S → (string + ResetResponse) * S;
  call_Step : StepRequest → S → (string + StepResponse) * S;
}.

Abbreviation go := (go S client_effect).

(** A call on the connection. *)
Definition call {A} (e : client_effect) (f : S → A * S) : go A := λ '(Proc tr fs s doom sched),
  let '(r, s) := f s in (inr r, Proc (tr ++ [e]) fs s doom sched).

(** A panic: the deferred calls run, then the program dies. *)
Definition panic {A} (msg : string) : go A := λ '(Proc tr fs s doom sched),
  (inl (Panicked msg), Proc (tr ++ concat ((λ f, f s) <$> fs)) [] s doom sched).

Definition nil_dereference : string := "runtime error: invalid memory address or nil pointer dereference".

(** [*p] *)
Definition deref {A} (p : option A) : go A := match p with Some x => mret x | None => panic nil_dereference end.

Definition Printf (format : string) (args : list value) : go unit := perform (Printed format args).
Definition Println (s : string) : go unit := perform (Printed s []).

Definition print_baseline (obs : Observation) : go unit :=
  _ ← Println "--- BASELINE METRICS ---";
  _ ← Printf "Remote IP:   %s:%d" [VString (RemoteIp obs); VUint (RemotePort obs)];
  _ ← Printf "Bytes Sent:  %d" [VUint (BytesSent obs)];
  _ ← Printf "Bytes Recv:  %d" [VUint (BytesReceived obs)];
  _ ← Printf "SRTT:        %d us" [VUint (SrttUs obs)];
  _ ← Printf "Duration:    %d us" [VUint (DurationUs obs)];
  Println "------------------------".

Definition print_metrics (obs : Observation) : go unit :=
  _ ← Println "--- EXTRACTED eBPF KERNEL METRICS ---";
  _ ← Printf "Remote IP:   %s:%d" [VString (RemoteIp obs); VUint (RemotePort obs)];
  _ ← Printf "Bytes Sent:  %d" [VUint (BytesSent obs)];
  _ ← Printf "Bytes Recv:  %d" [VUint (BytesReceived obs)];
  _ ← Printf "SRTT:        %d us (%.3f ms)" [VUint (SrttUs obs); VThousandth (SrttUs obs)];
  _ ← Printf "Retransmits: %d" [VUint (TotalRetrans obs)];
  _ ← Printf "Duration:    %d us (%.3f ms)" [VUint (DurationUs obs); VThousandth (DurationUs obs)];
  Println "-------------------------------------".

(** The request of the step: the fixed action, towards what was observed. *)
Definition test_step (session ip : string) (port : Z) : StepRequest :=
  MkStepRequest session ip port 1000000 100 2 20 16777216 1 200 3 1 1 7200.

Definition test_client_addr : string := "127.0.0.1:50051".

Definition test_client (srv : service) : go unit :=
  _ ← check (dial srv test_client_addr) "Failed to dial agent";
  _ ← perform (Dialed test_client_addr);
  _ ← defer (λ _, [ClosedConn]);
  _ ← Println "=== 1. Resetting Environment ===";
  rResp ← call (AskedReset test_client_command) (call_Reset srv test_client_command);
  rResp ← check rResp "Reset failed";
  _ ← Printf "Reset Success: %v, Response Message: %s" [VBool (Success rResp); VString (Message rResp)];
  _ ← match InitialObservation rResp with Some obs => print_baseline obs | None => mret tt end;
  obs ← deref (InitialObservation rResp);
  let dynamicIp := RemoteIp obs in
  obs ← deref (InitialObservation rResp);
  let dynamicPort := RemotePort obs in
  _ ← Println "=== 2. Stepping Environment (Applying Full eBPF Tuning) ===";
  let req := test_step (SessionId rResp) dynamicIp dynamicPort in
  sResp ← call (AskedStep req) (call_Step srv req);
  sResp ← check sResp "Step failed";
  _ ← Printf "Step done: %v" [VBool (Done sResp)];
  match StepObservation sResp with
  | Some obs => print_metrics obs
  | None => Println "No observation returned."
  end.

(** ** What the client does *)

(** The program's end and what it did on the connection, in order. *)
Definition on_connection (e : client_effect) : bool :=
  match e with Printed _ _ => false | _ => true end.
Definition conversation (r : option halt * list client_effect) : option halt * list client_effect :=
  (r.1, filter (λ e, on_connection e = true) r.2).

#[local] Arguments test_step : simpl never.

(** The test client on every branch: what it does on the connection and how it
    ends.  A fatal error leaves the connection open, the panic closes it; the step
    goes to the address that was observed, in the session of the reset. *)
Theorem test_client_outcomes sched (srv : service) (s : S) :
  conversation (run_main sched s (test_client srv)) =
  let addr := test_client_addr in
  let cmd := test_client_command in
  match dial srv addr, call_Reset srv cmd s with
  | inl err, _ => (Some (Fatal ("Failed to dial agent: " +:+ err)), [])
  | inr tt, (inl err, _) => (Some (Fatal ("Reset failed: " +:+ err)), [Dialed addr; AskedReset cmd])
  | inr tt, (inr resp, s) =>
      match InitialObservation resp with
      | None => (Some (Panicked nil_dereference), [Dialed addr; AskedReset cmd; ClosedConn])
      | Some obs =>
          let req := test_step (SessionId resp) (RemoteIp obs) (RemotePort obs) in
          match (call_Step srv req s).1 with
          | inl err => (Some (Fatal ("Step failed: " +:+ err)), [Dialed addr; AskedReset cmd; AskedStep req])
          | inr _ => (None, [Dialed addr; AskedReset cmd; AskedStep req; ClosedConn])
          end
      end
  end.
Proof.
  unfold run_main, run_deferred, test_client, print_baseline, print_metrics, Printf, Println, check, perform,
    record_effect, yield, mbind, go_bind, call. cbn zeta.
  destruct (dial srv test_client_addr) as [err|[]]; [done|]. cbn.
  destruct (call_Reset srv test_client_command s) as [[err|resp] s1]; [done|]. cbn.
  destruct (InitialObservation resp) as [obs|]; [|done]. cbn.
  destruct (call_Step srv _ s1) as [[err|sresp] s2]; [done|]. cbn.
  by destruct (StepObservation sresp).
Qed.
End client.

(** ** Against the agent *)

Section agent.
Context {MA MM MC : Type}.
Context `{!BpfHashMap MA ip_port_key tuning_action}.
Context `{!BpfHashMap MM Z tuning_metrics}.
Context `{!BpfHashMap MC Z Z}.
Context (world : list (list Z) → bpf_state MA MM MC → spawn_result * bpf_state MA MM MC).
Context (text : agent_error → string).

Definition on_client {A} (r : reply A) : string + A :=
  match error r with
  | Some err => inl (text err)
  | None => match response r with Some a => inr a | None => inl EmptyString end
  end.

(** An agent that can be reached under the address the client dials. *)
Definition agent_service : service (S:=Executor * bpf_state MA MM MC) :=
  Service (λ _, inr tt)
    (λ command s, let '(r, e, m) := Agent.Reset world command s.1 s.2 in (on_client r, (e, m)))
    (λ req s, let '(r, m) := Agent.Step world req s.1 s.2 in (on_client r, (s.1, m))).

(** The test client never works: its command is not in the allow-list of the
    agent, the rejection comes without an observation, and the client reads the
    observation's address through the nil pointer.  It has reset, printed the
    rejection, and dies without a step, whatever the agent's state and machine. *)
Theorem test_client_panics sched e (m : bpf_state MA MM MC) :
  conversation (run_main sched (e, m) (test_client agent_service)) =
    (Some (Panicked nil_dereference), [Dialed test_client_addr; AskedReset test_client_command; ClosedConn]).
Proof.
  rewrite test_client_outcomes. cbn [dial call_Reset agent_service fst snd].
  pose proof (Reset_cases world test_client_command e m) as H.
  rewrite (proj2 allow_list_on_known_commands) in H. by rewrite H.
Qed.
End agent.
