(* ===== verification/System.v ===== *)
(** * The whole system

    The parts put together: the environment of one client calls the router, the
    router's handlers run on the pool and call agents, an agent's handlers run
    commands and the BPF program observes their sockets.  [cluster] is the state
    of all parts but the client's; [answer] says what each call of a handler of
    [Router] does to it, with the handlers of [Agent] at the other end of a
    connection; [crowd_stub] is the world of [TunerEnv].  The handlers of other
    clients interleave at every call, and so do the kernel's invocations of the BPF
    program on an agent: it is attached to the root of the cgroups, so it sees the
    sockets of every process of the node. *)
From stdpp Require Import functions.
From S2P Require Import Prelude BpfMaps SocketTuner SocketTunerFacts Executor Agent Pool PoolFacts Router TunerEnv.
Local Open Scope Z_scope.

(** What the network does with a call to an agent. *)
Inductive delivery :=
| Delivered
| RequestLost (err : string)
| ReplyLost (err : string).

(** One agent: the command of its executor and its maps. *)
Record node (MA MM MC : Type) := Node { node_executor : Executor; node_maps : bpf_state MA MM MC }.
Arguments Node {MA MM MC} _ _.
Arguments node_executor {MA MM MC} _.
Arguments node_maps {MA MM MC} _.

(** What changes an agent: a request that reached it, at a tick, with the agent that
    it met; an invocation of the BPF program while it served none. *)
Inductive occurrence (MA MM MC : Type) :=
| Served (a : string) (tick : nat) (before : node MA MM MC) (asked : agent_request)
| Ran (a : string) (i : helpers * bpf_sock_ops).
Arguments Served {MA MM MC} _ _ _ _.
Arguments Ran {MA MM MC} _ _.

Definition occurred_on {MA MM MC : Type} (x : occurrence MA MM MC) : string :=
  match x with Served a _ _ _ | Ran a _ => a end.

(** The pool of the router, the agent at every address, the number of calls made
    so far, and what has changed the agents, in order. *)
Record cluster (MA MM MC : Type) := Cluster {
  pool : Pool;
  nodes : string → node MA MM MC;
  ticks : nat;
  log : list (occurrence MA MM MC);
}.
Arguments Cluster {MA MM MC} _ _ _ _.
Arguments pool {MA MM MC} _.
Arguments nodes {MA MM MC} _.
Arguments ticks {MA MM MC} _.
Arguments log {MA MM MC} _.

(** What happens outside the program: the clock and the network at each call, the
    iteration order of a map, the address a connection leads to, and what the
    machine of an agent does when a command is started at a tick: the result, and
    the invocations of the BPF program meanwhile, on sockets of any process. *)
Record surroundings := Surroundings {
  clock : nat → Z;
  map_order : Pool → list string;
  peer : Z → string;
  network : nat → delivery;
  workload : nat → string → list (list Z) → spawn_result * list (helpers * bpf_sock_ops);
  agent_text : agent_error → string;
}.

Section system.
Context {MA MM MC : Type}.
Context `{!BpfHashMap MA ip_port_key tuning_action}.
Context `{!BpfHashMap MM Z tuning_metrics}.
Context `{!BpfHashMap MC Z Z}.
Context (env : surroundings).

Abbreviation state := (bpf_state MA MM MC).
Abbreviation cluster := (cluster MA MM MC).

(** The machine of the agent at [a], at a tick. *)
Definition machine (tick : nat) (a : string) (parts : list (list Z)) (s : state) : spawn_result * state :=
  ((workload env tick a parts).1, run (workload env tick a parts).2 s).

(** The handlers of the agent at an address: the reply and the agent afterwards. *)
Definition serve_reset (tick : nat) (a command : string) (n : node MA MM MC)
    : reply ResetResponse * node MA MM MC :=
  let '(r, e, s) := Agent.Reset (machine tick a) command (node_executor n) (node_maps n) in (r, Node e s).
Definition serve_step (tick : nat) (a : string) (req : StepRequest) (n : node MA MM MC)
    : reply StepResponse * node MA MM MC :=
  let '(r, s) := Agent.Step (machine tick a) req (node_executor n) (node_maps n) in
  (r, Node (node_executor n) s).

(** The reply of a handler as the client of the agent receives it. *)
Definition received {A} (r : reply A) : string + A :=
  match error r with
  | Some err => inl (agent_text env err)
  | None => match response r with Some a => inr a | None => inl EmptyString end
  end.

(** The call number [ticks] goes over [conn] to an agent. *)
Definition call_agent {A} (conn : Z) (asked : agent_request)
    (handler : nat → string → node MA MM MC → reply A * node MA MM MC) (c : cluster)
    : (string + A) * cluster :=
  let a := peer env conn in
  match network env (ticks c) with
  | RequestLost err => (inl err, Cluster (pool c) (nodes c) (S (ticks c)) (log c))
  | d =>
      let '(r, n) := handler (ticks c) a (nodes c a) in
      (match d with ReplyLost err => inl err | _ => received r end,
       Cluster (pool c) (<[a:=n]> (nodes c)) (S (ticks c))
         (log c ++ [Served a (ticks c) (nodes c a) asked]))
  end.

(** A method of the pool. *)
Definition with_pool (p : Pool) (c : cluster) : cluster :=
  Cluster p (nodes c) (S (ticks c)) (log c).

Definition answer {A} (q : Router.call A) (c : cluster) : A * cluster :=
  match q in Router.call A return A * cluster with
  | Router.LockFreeAgent =>
      let '(r, p) := LockFreeAgent (map_order env (pool c)) (clock env (ticks c)) (pool c) in
      (r, with_pool p c)
  | Router.TouchAgent addr => (tt, with_pool (TouchAgent (clock env (ticks c)) addr (pool c)) c)
  | Router.FreeAgent addr => (tt, with_pool (FreeAgent addr (pool c)) c)
  | Router.GetAgentBySession addr => (GetAgentBySession addr (pool c), with_pool (pool c) c)
  | Router.ClientReset conn command =>
      call_agent conn (AskReset command) (λ tick a, serve_reset tick a command) c
  | Router.ClientStep conn req =>
      call_agent conn (AskStep req) (λ tick a, serve_step tick a req) c
  end.

(** The watcher and the cleanup work on the pool. *)
Definition background (o : pool_op) (c : cluster) : cluster := with_pool (pool_step o (pool c)) c.

(** The kernel runs the BPF program of the agent at [a] on a socket. *)
Definition invoke_on (a : string) (i : helpers * bpf_sock_ops) (c : cluster) : cluster :=
  Cluster (pool c) (<[a:=Node (node_executor (nodes c a)) (invoke i (node_maps (nodes c a)))]> (nodes c))
    (ticks c) (log c ++ [Ran a i]).

(** The session a request names. *)
Definition names_session (r : Router.request) : option string :=
  match r with
  | Router.ResetRequest _ => None
  | Router.StepRequested req => Some (ReqSessionId req)
  | Router.CloseRequest session => Some session
  end.

(** A connection that is dialed leads to its address. *)
Definition op_dials (o : pool_op) : Prop :=
  match o with
  | CallAdd dial _ addr => ∀ conn, dial addr = inr conn → peer env conn = addr
  | _ => True
  end.

(** A cluster and the handlers of the router that are under way in it. *)
Record crowd := Crowd { crowd_cluster : cluster; crowd_handlers : list (Router.handler Router.reply) }.

(** What may happen: a request of any client arrives, a handler that is under way
    makes its next call, the watcher or the cleanup runs, the kernel invokes the BPF
    program of an agent on a socket of any process. *)
Inductive event :=
| Arrives (r : Router.request)
| Continues (i : nat)
| Background (o : pool_op)
| Invoked (a : string) (i : helpers * bpf_sock_ops).

Definition happen (ev : event) (s : crowd) : crowd :=
  match ev with
  | Arrives r => Crowd (crowd_cluster s) (crowd_handlers s ++ [Router.serve r])
  | Continues i =>
      match crowd_handlers s !! i with
      | Some (Router.Call q k) =>
          let '(x, c) := answer q (crowd_cluster s) in Crowd c (<[i:=k x]> (crowd_handlers s))
      | _ => s
      end
  | Background o => Crowd (background o (crowd_cluster s)) (crowd_handlers s)
  | Invoked a i => Crowd (invoke_on a i (crowd_cluster s)) (crowd_handlers s)
  end.

Definition possible (ev : event) (s : crowd) : Prop :=
  match ev with
  | Background o => Router.background o = true ∧ op_visits o (pool (crowd_cluster s)) ∧ op_dials o
  | _ => True
  end.

(** The event neither brings a request for the session [a] nor times it out; the
    kernel may invoke the program as it likes. *)
Definition spares (a : string) (ev : event) (s : crowd) : Prop :=
  match ev with
  | Arrives r => names_session r ≠ Some a
  | Background o => ¬ releases a o (pool (crowd_cluster s))
  | Continues _ | Invoked _ _ => True
  end.

(** The states that are reached from [s], and those reached while the session [a]
    is left alone. *)
Inductive reached (s : crowd) : crowd → Prop :=
| reached_here : reached s s
| reached_event s' ev : reached s s' → possible ev s' → reached s (happen ev s').

Inductive meanwhile (a : string) (s : crowd) : crowd → Prop :=
| meanwhile_here : meanwhile a s s
| meanwhile_event s' ev :
    meanwhile a s s' → possible ev s' → spares a ev s' → meanwhile a s (happen ev s').

(** A call that neither frees the agent [a] nor goes to it; an answer that does
    not hand it out; a handler under way that makes such calls only, whatever such
    answers it gets. *)
Definition avoids_call {A} (a : string) (q : Router.call A) : Prop :=
  match q with
  | Router.FreeAgent addr => addr ≠ a
  | Router.ClientReset conn _ | Router.ClientStep conn _ => peer env conn ≠ a
  | _ => True
  end.

Definition avoids_answer {A} (a : string) (q : Router.call A) : A → Prop :=
  match q in Router.call A return A → Prop with
  | Router.LockFreeAgent => λ r, ∀ ac, r = inr ac → Addr ac ≠ a ∧ peer env (Conn ac) ≠ a
  | Router.GetAgentBySession addr => λ r, ∀ ac, r = inr ac → peer env (Conn ac) = addr
  | _ => λ _, True
  end.

Fixpoint harmless {R} (a : string) (h : Router.handler R) : Prop :=
  match h with
  | Router.Return _ => True
  | Router.Call q k => avoids_call a q ∧ ∀ x, avoids_answer a q x → harmless a (k x)
  end.

(** ** A client among others *)

(** [text] is what the transport makes of an error of a handler. *)
Context (text : Router.router_error → string).

(** What happens before the call that is made at a tick: any events, so that the
    handlers of the client that is followed interleave with everything else at
    every call. *)
Context (others : nat → list event).

Definition interfere (s : crowd) : crowd := foldl (flip happen) s (others (ticks (crowd_cluster s))).

(** A handler that runs among the others. *)
Fixpoint exec_among {R} (h : Router.handler R) (s : crowd) : R * crowd :=
  match h with
  | Router.Return r => (r, s)
  | Router.Call q k =>
      let s := interfere s in
      let '(x, c) := answer q (crowd_cluster s) in exec_among (k x) (Crowd c (crowd_handlers s))
  end.

Definition to_client_among {A} (r : (Router.router_error + A) * crowd) : (string + A) * crowd :=
  (match r.1 with inl err => inl (text err) | inr a => inr a end, r.2).

(** The router as the world of a client's stub. *)
Definition crowd_stub : stub crowd :=
  Stub (λ command s, to_client_among (exec_among (Router.Reset command) s))
       (λ req s, to_client_among (exec_among (Router.Step req) s))
       (λ session s, to_client_among (exec_among (Router.Close session) s)).

(** The events are possible, and leave the session alone that is held, if any. *)
Fixpoint events_ok (own : option string) (evs : list event) (s : crowd) : Prop :=
  match evs with
  | [] => True
  | ev :: evs =>
      possible ev s ∧ (∀ a, own = Some a → spares a ev s) ∧ events_ok own evs (happen ev s)
  end.

(** The agent that an answer hands out. *)
Definition acquired {A} (q : Router.call A) : A → option string :=
  match q in Router.call A return A → option string with
  | Router.LockFreeAgent => λ r, match r with inr ac => Some (Addr ac) | inl _ => None end
  | _ => λ _, None
  end.

(** While the handler runs, nothing disturbs the session it holds, from the call
    that acquires it on: no handler under way then works on it, and no event later
    uses it or times it out. *)
Fixpoint calm {R} (own : option string) (h : Router.handler R) (s : crowd) : Prop :=
  match h with
  | Router.Return _ => True
  | Router.Call q k =>
      events_ok own (others (ticks (crowd_cluster s))) s ∧
      let s := interfere s in
      let '(x, c) := answer q (crowd_cluster s) in
      let s := Crowd c (crowd_handlers s) in
      match acquired q x with
      | Some a => Forall (harmless a) (crowd_handlers s) ∧ calm (Some a) (k x) s
      | None => calm own (k x) s
      end
  end.

End system.
Arguments Crowd {MA MM MC} _ _.
Arguments crowd_cluster {MA MM MC} _.
Arguments crowd_handlers {MA MM MC} _.
