(* ===== verification/SystemProps.v ===== *)
(** * Properties of the whole system

    The invariant of a cluster; sessions do not disturb each other; what a run of a
    command that is one connection measures, and what the handlers of an agent make
    of it; and that actions outlive the episodes that store them. *)
From Stdlib Require Import QArith.
From stdpp Require Import functions.
From S2P Require Import Prelude Words BpfMaps SocketTuner SocketTunerFacts SocketTunerProps.
From S2P Require Import Sha256 Executor NetIP Agent AgentProps Pool PoolFacts PoolProps Router RouterProps.
From S2P Require Import TunerEnv TunerEnvProps System.
Local Open Scope Z_scope.

(** ** The pool of a cluster *)

Section connections.
Context (env : surroundings).

(** The connections of the agents of a pool lead to their addresses. *)
Definition peers (p : Pool) : Prop :=
  ∀ a ac, agents p !! a = Some ac → peer env (Conn ac) = a.

(** An entry that comes from an entry with the same connection. *)
Lemma peers_from p p' :
  (∀ a ac', agents p' !! a = Some ac' → ∃ ac, agents p !! a = Some ac ∧ Conn ac' = Conn ac) →
  peers p → peers p'.
Proof. intros H Hp a ac' (ac & Ha & ->)%H. by apply Hp. Qed.

Lemma peers_release a ac p :
  agents p !! a = Some ac → peers p → peers (release a ac p).
Proof.
  intros Ha. apply peers_from. intros b bc. rewrite release_lookup. case_decide; [subst|eauto].
  unfold released. destruct (pendingRemoval ac); intros; simplify_eq; eauto.
Qed.

Lemma step_peers o p : op_visits o p → op_dials env o → peers p → peers (pool_step o p).
Proof.
  intros Hv Hd Hp.
  destruct o as [dial now addr|addr|order now|addr|now addr|timeout now order|live order];
    cbn [pool_step op_visits op_dials] in *.
  - unfold AddAgent. destruct (agents p !! addr) as [bc|] eqn:Hb; [|destruct (dial addr) as [err|conn] eqn:Hc]; cbn [snd]; [|done|].
    + case_match; [|done]. revert Hp. apply peers_from. intros a ac. cbn [put agents].
      rewrite lookup_insert. case_decide; intros; simplify_eq; eauto.
    + intros a ac. cbn [agents]. rewrite lookup_insert. case_decide; [|apply Hp].
      intros [= <-]. subst. by apply Hd.
  - unfold RemoveAgent. destruct (agents p !! addr) as [bc|] eqn:Hb; [|done].
    revert Hp. apply peers_from. intros a ac. rewrite remove_lookup. case_decide; [subst|eauto].
    unfold removed. destruct (Busy bc); intros; simplify_eq; eauto.
  - unfold LockFreeAgent. destruct (first_free order (agents p)) as [[addr bc]|] eqn:Hf; cbn [snd]; [|done].
    apply first_free_Some in Hf as (Hb & _). revert Hp. apply peers_from. intros a ac. cbn [put agents].
    rewrite lookup_insert. case_decide; intros; simplify_eq; eauto.
  - unfold FreeAgent. destruct (agents p !! addr) as [bc|] eqn:Hb; [by apply peers_release|done].
  - unfold TouchAgent. destruct (agents p !! addr) as [bc|] eqn:Hb; [|done].
    revert Hp. apply peers_from. intros a ac. cbn [put agents].
    rewrite lookup_insert. case_decide; intros; simplify_eq; eauto.
  - revert Hp. apply peers_from. intros a ac. rewrite cleanup_lookup by done.
    destruct (agents p !! a) as [bc|]; [|done]. cbn. destruct (stale _ _ bc); [|by eauto].
    unfold released. case_match; intros; simplify_eq; eauto.
  - revert Hp. apply peers_from. intros a ac. rewrite remove_not_in_lookup by done.
    destruct (agents p !! a) as [bc|]; [|done]. cbn. case_decide; [by eauto|].
    unfold removed. case_match; intros; simplify_eq; eauto.
Qed.
End connections.

Section system.
Context {NA NM NC : nat} {MA MM MC : Type}.
Context `{!BpfHashMap MA ip_port_key tuning_action} `{!BpfHashMapLaws NA MA ip_port_key tuning_action}.
Context `{!BpfHashMap MM Z tuning_metrics} `{!BpfHashMapLaws NM MM Z tuning_metrics}.
Context `{!BpfHashMap MC Z Z} `{!BpfHashMapLaws NC MC Z Z}.
Context (env : surroundings).
Hypothesis order_visits : ∀ p, visits (map_order env p) p.

Abbreviation state := (bpf_state MA MM MC).
Abbreviation cluster := (System.cluster MA MM MC).
Implicit Types (c : cluster) (a : string).

(** The pool has a history, and its connections lead to its addresses. *)
Definition good c : Prop := (∃ os, history os (pool c)) ∧ peers env (pool c).

Lemma good_inv c : good c → pool_inv (pool c).
Proof. intros [[os H] _]. by eapply history_inv. Qed.

(** The method of the pool that a call runs. *)
Definition call_op {A} (q : Router.call A) c : option pool_op :=
  match q with
  | Router.LockFreeAgent => Some (CallLock (map_order env (pool c)) (clock env (ticks c)))
  | Router.TouchAgent addr => Some (CallTouch (clock env (ticks c)) addr)
  | Router.FreeAgent addr => Some (CallFree addr)
  | _ => None
  end.

Lemma call_agent_pool {A} conn asked (handler : nat → string → node MA MM MC → reply A * node MA MM MC) c :
  pool (call_agent env conn asked handler c).2 = pool c.
Proof.
  unfold call_agent.
  by destruct (handler (ticks c) (peer env conn) (nodes c (peer env conn))), (network env (ticks c)).
Qed.

Lemma call_agent_nodes {A} conn asked (handler : nat → string → node MA MM MC → reply A * node MA MM MC) c a :
  peer env conn ≠ a → nodes (call_agent env conn asked handler c).2 a = nodes c a.
Proof.
  intros Ha. unfold call_agent.
  destruct (handler (ticks c) (peer env conn) (nodes c (peer env conn))), (network env (ticks c)); cbn; rewrite ?fn_lookup_insert_ne by done; done.
Qed.

Lemma answer_pool {A} (q : Router.call A) c :
  pool (answer env q c).2 = from_option (λ o, pool_step o (pool c)) (pool c) (call_op q c).
Proof.
  destruct q; cbn [answer call_op from_option pool_step]; try done; try apply call_agent_pool.
  by destruct (LockFreeAgent _ _ _).
Qed.

Lemma pool_step_good o c c' :
  pool c' = pool_step o (pool c) → op_visits o (pool c) → op_dials env o → good c → good c'.
Proof.
  intros Hc Hv Hd [[os Hh] Hp]. split; rewrite Hc; [|by apply step_peers].
  eexists. by apply (history_call _ _ _ Hh).
Qed.

Lemma answer_good {A} (q : Router.call A) c : good c → good (answer env q c).2.
Proof.
  intros Hg. pose proof (answer_pool q c) as Hp.
  destruct q; cbn [call_op from_option] in Hp; try (by unfold good; rewrite Hp);
    (apply (pool_step_good _ _ _ Hp); [apply order_visits || done|done..]).
Qed.

Abbreviation crowd := (System.crowd (MA:=MA) (MM:=MM) (MC:=MC)).

Lemma happen_good ev (s : crowd) :
  possible env ev s → good (crowd_cluster s) → good (crowd_cluster (happen env ev s)).
Proof.
  destruct ev as [r|i|o|b i]; cbn [happen possible]; [done|intros _ Hg| |done].
  - destruct (crowd_handlers s !! i) as [[r|A q k]|]; [done| |done].
    pose proof (answer_good q _ Hg) as H. by destruct (answer env q _).
  - intros (_ & Hv & Hd). by apply (pool_step_good o).
Qed.

Lemma reached_good (s s' : crowd) : reached env s s' → good (crowd_cluster s) → good (crowd_cluster s').
Proof. intros Hr Hg. induction Hr as [|s' ev _ IH Hp]; [done|]. by apply happen_good. Qed.

(** ** Sessions apart *)

(** The agent [a] is in the pool and locked. *)
Definition locked a c : Prop := ∃ ac, agents (pool c) !! a = Some ac ∧ Busy ac = true.

Lemma answer_avoids {A} a (q : Router.call A) c :
  avoids_call env a q → locked a c →
  nodes (answer env q c).2 a = nodes c a ∧ locked a (answer env q c).2.
Proof.
  intros Hq (ac & Ha & Hb). split.
  - destruct q; cbn [answer avoids_call] in *; try done; try by apply call_agent_nodes.
    by destruct (LockFreeAgent _ _ _).
  - pose proof (answer_pool q c) as Hp. unfold locked. rewrite Hp.
    destruct (call_op q c) as [o|] eqn:Ho; [|by exists ac]. cbn [from_option].
    destruct (busy_kept o (pool c) a ac) as (ac' & ? & _ & ?); [| |done..|by exists ac'];
      destruct q; cbn in Ho, Hq; simplify_eq; cbn; (apply order_visits || tauto).
Qed.

(** While an agent is locked no answer hands it out. *)
Lemma answer_ok {A} a (q : Router.call A) c :
  good c → locked a c → avoids_answer env a q (answer env q c).1.
Proof.
  intros Hg (bc & Hb & Hbusy). pose proof (good_inv c Hg) as Hi. destruct q; cbn [avoids_answer answer]; try done.
  - intros ac Hl. pose proof (lock_spec (map_order env (pool c)) (clock env (ticks c)) _ Hi (order_visits _)) as H.
    pose proof (lock_conn (map_order env (pool c)) (clock env (ticks c)) (pool c)) as Hc.
    destruct (LockFreeAgent _ _ _) as [r p]. cbn in Hl. subst r.
    destruct (Hc _ _ Hi eq_refl) as (ac0 & Ha0 & Hc0). destruct H as (Hidle & _).
    assert (Addr ac ≠ a) as Hne.
    { intros Heq. unfold status in Hidle. rewrite Heq, Hb in Hidle. cbn in Hidle. rewrite Hbusy in Hidle.
      by destruct (pendingRemoval bc). }
    split; [done|]. rewrite <- Hc0. by rewrite (proj2 Hg _ _ Ha0).
  - cbn. unfold GetAgentBySession. destruct (agents (pool c) !! addr) eqn:Ha; [|done].
    intros ac [= <-]. by apply (proj2 Hg).
Qed.

(** The handler of a request for another session. *)
Lemma serve_harmless a r : names_session r ≠ Some a → harmless env a (Router.serve r).
Proof.
  intros Hr. destruct r as [command|req|session]; cbn in Hr.
  - cbn. split; [done|]. intros [err|ac] Hac; cbn; [done|]. destruct (Hac ac eq_refl) as [Hne Hp].
    split; [done|]. intros _ _. split; [done|]. by intros [err|resp] _.
  - unfold Router.serve, Router.Step. case_bool_decide; [done|]. cbn. split; [done|].
    intros [err|ac] Hac; cbn; [done|]. split; [done|]. intros _ _.
    rewrite (Hac ac eq_refl). split; [congruence|]. intros [err|resp] _; cbn; [done|].
    destruct (Done resp); cbn; [|done]. split; [congruence|done].
  - unfold Router.serve, Router.Close. case_bool_decide; cbn; [done|]. split; [congruence|done].
Qed.

(** What has happened on the agent [a]. *)
Definition on_agent a c : list (occurrence MA MM MC) := filter (λ x, occurred_on x = a) (log c).

Lemma on_agent_snoc a c c' x :
  log c' = log c ++ [x] → on_agent a c' = on_agent a c ++ if decide (occurred_on x = a) then [x] else [].
Proof. intros Hl. unfold on_agent. by rewrite Hl, filter_app, filter_cons, filter_nil. Qed.

Lemma on_agent_prefix a c c' : log c `prefix_of` log c' → on_agent a c `prefix_of` on_agent a c'.
Proof. intros [l Hl]. unfold on_agent. rewrite Hl, filter_app. by eexists. Qed.

(** The agent [a] is left alone but for the invocations [tr] of its BPF program. *)
Definition left_alone a tr c c' : Prop :=
  nodes c' a = Node (node_executor (nodes c a)) (run tr (node_maps (nodes c a))) ∧
  on_agent a c' = on_agent a c ++ (Ran a <$> tr).

Lemma left_alone_same a c c' :
  nodes c' a = nodes c a → on_agent a c' = on_agent a c → left_alone a [] c c'.
Proof. intros Hn Ho. split; [rewrite Hn; by destruct (nodes c a)|]. by rewrite Ho, app_nil_r. Qed.

Lemma left_alone_trans a tr tr' c c' c'' :
  left_alone a tr c c' → left_alone a tr' c' c'' → left_alone a (tr ++ tr') c c''.
Proof.
  intros [Hn Ho] [Hn' Ho']. split.
  - rewrite Hn', Hn. cbn. by rewrite run_app.
  - by rewrite Ho', Ho, fmap_app, app_assoc.
Qed.

Lemma answer_avoids_log {A} a (q : Router.call A) c :
  avoids_call env a q → on_agent a (answer env q c).2 = on_agent a c.
Proof.
  assert (∀ conn asked B (handler : nat → string → node MA MM MC → reply B * node MA MM MC), peer env conn ≠ a →
    on_agent a (call_agent env conn asked handler c).2 = on_agent a c) as H.
  { intros conn asked B handler Hne. unfold call_agent. destruct (handler _ _ _) as [r n].
    unfold on_agent. destruct (network env (ticks c)); cbn [snd log]; try done;
      rewrite filter_app, filter_cons_False by done; by rewrite filter_nil, app_nil_r. }
  intros Hq. destruct q; cbn [answer avoids_call] in *; try done; try by apply H.
  by destruct (LockFreeAgent _ _ _).
Qed.

(** An event that spares a session: its agent is left alone, locked, and no handler
    works on it. *)
Lemma spared_event a ev (s : crowd) :
  good (crowd_cluster s) → locked a (crowd_cluster s) → Forall (harmless env a) (crowd_handlers s) →
  possible env ev s → spares a ev s →
  (∃ tr, left_alone a tr (crowd_cluster s) (crowd_cluster (happen env ev s))) ∧
  locked a (crowd_cluster (happen env ev s)) ∧ Forall (harmless env a) (crowd_handlers (happen env ev s)).
Proof.
  intros Hg Hl Hh Hp Hs. destruct ev as [r|i|o|b i]; cbn [happen spares possible] in *.
  - split; [exists []; by apply left_alone_same|]. split; [done|].
    apply Forall_app. split; [done|]. apply Forall_singleton. by apply serve_harmless.
  - destruct (crowd_handlers s !! i) as [[r|A q k]|] eqn:Hi;
      [by split; [exists []; apply left_alone_same|]| |by split; [exists []; apply left_alone_same|]].
    pose proof (Forall_lookup_1 _ _ _ _ Hh Hi) as [Hq Hk].
    destruct (answer_avoids a q _ Hq Hl) as [Hn1 Hl1]. pose proof (answer_ok a q _ Hg Hl) as Hx.
    pose proof (answer_avoids_log a q (crowd_cluster s) Hq) as Ho.
    destruct (answer env q (crowd_cluster s)) as [x c1]. cbn in *.
    split; [exists []; by apply left_alone_same|]. split; [done|]. apply Forall_insert; [done|]. by apply Hk.
  - split; [exists []; by apply left_alone_same|]. split; [|done]. destruct Hp as (_ & Hv & _), Hl as (ac & Ha & Hb).
    destruct (busy_kept o (pool (crowd_cluster s)) a ac Hv Hs Ha Hb) as (ac' & ? & _ & ?). by exists ac'.
  - split; [|done]. cbn [crowd_cluster]. destruct (decide (b = a)) as [->|Hne].
    + exists [i]. split; [by cbn; rewrite fn_lookup_insert|].
      rewrite (on_agent_snoc a (crowd_cluster s) _ (Ran a i)) by done. by rewrite decide_True.
    + exists []. apply left_alone_same; [by cbn; rewrite fn_lookup_insert_ne|].
      rewrite (on_agent_snoc a (crowd_cluster s) _ (Ran b i)) by done. by rewrite decide_False, app_nil_r.
Qed.

Lemma meanwhile_kept a (s s' : crowd) :
  good (crowd_cluster s) → locked a (crowd_cluster s) → Forall (harmless env a) (crowd_handlers s) →
  meanwhile env a s s' →
  good (crowd_cluster s') ∧ (∃ tr, left_alone a tr (crowd_cluster s) (crowd_cluster s')) ∧
  locked a (crowd_cluster s') ∧ Forall (harmless env a) (crowd_handlers s').
Proof.
  intros Hg Hl Hh. induction 1 as [|s' ev _ (Hg' & (tr & Ha) & Hl' & Hh') Hp Hs];
    [split_and!; try done; exists []; by apply left_alone_same|].
  split; [by apply happen_good|]. destruct (spared_event a ev s' Hg' Hl' Hh' Hp Hs) as ((tr' & Ha') & ? & ?).
  split; [|done]. exists (tr ++ tr'). by eapply left_alone_trans.
Qed.

(** ** Requests *)

Lemma call_agent_inr {A} conn asked (handler : nat → string → node MA MM MC → reply A * node MA MM MC) c r c' :
  call_agent env conn asked handler c = (inr r, c') →
  let a := peer env conn in
  on_wire (handler (ticks c) a (nodes c a)).1 = Some r ∧
  pool c' = pool c ∧ nodes c' a = (handler (ticks c) a (nodes c a)).2 ∧
  log c' = log c ++ [Served a (ticks c) (nodes c a) asked].
Proof.
  unfold call_agent. cbn zeta.
  destruct (network env (ticks c)); [|done|by destruct (handler _ _ _)].
  destruct (handler _ _ _) as [rep n]. unfold received. intros H. cbn.
  destruct (error rep) as [err|] eqn:He; [done|]. destruct (response rep) eqn:Hr; [|done]. simplify_eq/=.
  unfold on_wire. rewrite He, fn_lookup_insert. done.
Qed.

(** ** What a run of a command measures *)

(** The run of a command that starts on the maps [s] consists of one connection
    that it starts at [i0], and that lasts [t] microseconds until the last
    callback of its socket; other sockets and processes may do anything else. *)
Definition measures (w : spawn_result * list (helpers * bpf_sock_ops)) (s : state)
    (i0 : helpers * bpf_sock_ops) (t : Z) : Prop :=
  ∃ pid err tr pre j,
    w = (Exited pid err, i0 :: tr) ∧ u32 pid = pid_of i0 ∧
    is_connect i0 = true ∧ fits 32 (Ctx.remote_ip4 i0.2) ∧ connect_fits i0 s ∧
    (∀ cookie, cookie ≠ cookie_of i0 → owner s cookie ≠ Some (pid_of i0)) ∧
    Forall (leaves_alone (cookie_of i0) (pid_of i0)) tr ∧
    filter (λ i, own_callback (cookie_of i0) i = true) tr = pre ++ [j] ∧
    0 < bpf_ktime_get_ns i0.1 ≤ bpf_ktime_get_ns j.1 ∧ fits 64 (bpf_ktime_get_ns j.1) ∧
    t = (bpf_ktime_get_ns j.1 - bpf_ktime_get_ns i0.1) / 1000.

(** The record that the process leaves. *)
Lemma measures_record w s i0 t :
  measures w s i0 t →
  ∃ pid err m, w.1 = Exited pid err ∧ record (run w.2 s) (u32 pid) = Some m ∧
    remote_ip m = Ctx.remote_ip4 i0.2 ∧ fits 32 (remote_ip m) ∧ duration_us m = t ∧ 0 ≤ t.
Proof.
  intros (pid & err & tr & pre & j & -> & Hpid & Hc & Hip & Hfit & Hu & Htr & Hf & Ht & Hj & ->).
  eexists pid, err, _. split; [done|]. cbn [snd]. rewrite Hpid. split; [by eapply session_record|].
  cbn. split_and!; try done. apply Z.div_pos; lia.
Qed.

Lemma measures_ext w s s' i0 t :
  metrics_map s' = metrics_map s → cookie_pid_map s' = cookie_pid_map s →
  measures w s i0 t → measures w s' i0 t.
Proof. intros Hm Hc. unfold measures, connect_fits, owner. by rewrite Hm, Hc. Qed.

#[local] Instance machine_runs k a : RunsBpf (machine (MA:=MA) (MM:=MM) (MC:=MC) env k a).
Proof. intros parts s. by exists (workload env k a parts).2. Qed.

Lemma run_machine k a e parts s :
  command_line e = inr parts →
  run_command (machine env k a) e s =
  (match (workload env k a parts).1 with
   | StartFailed err => (0, Some (command_start_failed err))
   | Exited pid None => (u32 pid, None)
   | Exited pid (Some err) => (u32 pid, Some (command_execution_failed err))
   end, run (workload env k a parts).2 s).
Proof. intros He. unfold run_command, Run. by rewrite He. Qed.

(** A baseline run that succeeded. *)
Lemma serve_reset_success k a command n resp :
  on_wire (serve_reset env k a command n).1 = Some resp → Success resp = true →
  ∃ parts pid, command_line (MkExecutor command) = inr parts ∧
    (workload env k a parts).1 = Exited pid None ∧
    (serve_reset env k a command n).2 =
      Node (MkExecutor command) (run (workload env k a parts).2 (node_maps n)) ∧
    InitialObservation resp = observed (run (workload env k a parts).2 (node_maps n)) (u32 pid).
Proof.
  unfold serve_reset. pose proof (Reset_cases (machine env k a) command (node_executor n) (node_maps n)) as Hc.
  destruct (authorized command); [|rewrite Hc; cbn; intros; by simplify_eq].
  destruct (command_line (MkExecutor command)) as [err|parts] eqn:Hl.
  { unfold run_command, Run in Hc. rewrite Hl in Hc. rewrite Hc. cbn. intros; by simplify_eq. }
  rewrite (run_machine _ _ _ _ _ Hl) in Hc.
  destruct (workload env k a parts).1 as [err|pid [err|]] eqn:Hwl; cbn in Hc;
    [rewrite Hc; cbn; intros; by simplify_eq..|].
  destruct Hc as [msg ->]. cbn. intros [= <-] _. by exists parts, pid.
Qed.

(** A step that was answered. *)
Lemma serve_step_answered k a req n parts resp :
  command_line (node_executor n) = inr parts →
  on_wire (serve_step env k a req n).1 = Some resp →
  let w := workload env k a parts in
  let s1 := (SetAction (TargetIp req) (TargetPort req) (action_of_request req) (node_maps n)).2 in
  SetAction (TargetIp req) (TargetPort req) (action_of_request req) (node_maps n) = (None, s1) ∧
  (serve_step env k a req n).2 = Node (node_executor n) (run w.2 s1) ∧
  ∀ pid err, w.1 = Exited pid err → StepObservation resp = observed (run w.2 s1) (u32 pid).
Proof.
  intros Hl. unfold serve_step.
  destruct (SetAction _ _ _ _) as [[err|] s1] eqn:Hs; [by rewrite (Step_failed _ _ _ _ _ _ Hs)|].
  rewrite (Step_stored _ _ _ _ _ Hs), (run_machine _ _ _ _ _ Hl). cbn zeta. cbn [fst snd]. intros Hw.
  split; [done|]. split; [done|]. intros pid err Hp. rewrite Hp in Hw.
  destruct err; cbn in Hw; destruct (observed _ (u32 pid)); try done; cbn in Hw; by simplify_eq.
Qed.

(** Installing an action leaves the records alone. *)
Lemma SetAction_metrics ip port act (s : state) :
  metrics_map (SetAction ip port act s).2 = metrics_map s ∧
  cookie_pid_map (SetAction ip port act s).2 = cookie_pid_map s.
Proof. unfold SetAction. destruct (ipToKey ip port); [done|]. by destruct (map_update_elem _ _ _ _). Qed.

(** C2.  Sessions do not disturb each other.  Whatever happens to a cluster that
    the router has served from its start, for any number of handlers interleaved at
    every call, with the watcher, the cleanup and the kernel's invocations of the BPF
    programs: as long as no request uses a session, no handler under way works on it
    and no cleanup finds it stale, the agent of the session stays locked, under a
    connection that leads to it, and serves no request; its command and its actions
    stay as they are, and its maps change by nothing but the invocations of its
    program that the kernel makes meanwhile. *)
Theorem sessions_isolated (s0 s s' : crowd) a :
  pool (crowd_cluster s0) = NewPool → reached env s0 s →
  locked a (crowd_cluster s) → Forall (harmless env a) (crowd_handlers s) → meanwhile env a s s' →
  let n := nodes (crowd_cluster s) a in
  let n' := nodes (crowd_cluster s') a in
  (∃ tr, on_agent a (crowd_cluster s') = on_agent a (crowd_cluster s) ++ (Ran a <$> tr) ∧
     n' = Node (node_executor n) (run tr (node_maps n))) ∧
  action_map (node_maps n') = action_map (node_maps n) ∧
  ∃ ac, agents (pool (crowd_cluster s')) !! a = Some ac ∧ Busy ac = true ∧ peer env (Conn ac) = a.
Proof.
  intros H0 Hr Hl Hh Hm. cbn zeta.
  assert (good (crowd_cluster s)) as Hg.
  { apply (reached_good s0 s Hr). split; [|by intros a' ac; rewrite H0]. exists []. rewrite H0. apply history_new. }
  destruct (meanwhile_kept a s s' Hg Hl Hh Hm) as (Hg' & (tr & Hn & Ho) & (ac & Ha & Hb) & _).
  split; [by exists tr|]. split; [rewrite Hn; apply action_map_run|].
  exists ac. split_and!; try done. by apply (proj2 Hg').
Qed.

(** ** Actions *)

(** What every handler of an agent preserves holds in every cluster reached. *)
Lemma nodes_ind (P : node MA MM MC → Prop) (s s' : crowd) a :
  (∀ tick command n, P n → P (serve_reset env tick a command n).2) →
  (∀ tick req n, P n → P (serve_step env tick a req n).2) →
  (∀ i n, P n → P (Node (node_executor n) (invoke i (node_maps n)))) →
  reached env s s' → P (nodes (crowd_cluster s) a) → P (nodes (crowd_cluster s') a).
Proof.
  intros Hreset Hstep Hinv Hr HP.
  assert (∀ A (q : Router.call A) c, P (nodes c a) → P (nodes (answer env q c).2 a)) as Hanswer.
  { clear Hr HP. intros A q c0 HP.
    assert (∀ B conn asked (handler : nat → string → node MA MM MC → reply B * node MA MM MC),
      (∀ tick n, P n → P (handler tick a n).2) → P (nodes (call_agent env conn asked handler c0).2 a)) as Hcall.
    { intros B conn asked handler Hh. destruct (decide (peer env conn = a)) as [<-|Hne];
        [|by rewrite call_agent_nodes]. unfold call_agent. specialize (Hh (ticks c0) _ HP).
      revert Hh. destruct (handler _ _ _) as [r n]. intros Hn.
      destruct (network env (ticks c0)); cbn; rewrite ?fn_lookup_insert; [exact Hn|exact HP|exact Hn]. }
    destruct q; cbn [answer]; try done; [by destruct (LockFreeAgent _ _ _)|..]; apply Hcall; auto. }
  induction Hr as [|s' ev _ IH _]; [done|]. destruct ev as [r|i|o|b i]; cbn [happen]; [done| |done|].
  - destruct (crowd_handlers s' !! i) as [[r|A q k]|]; [done| |done].
    specialize (Hanswer A q _ IH). by destruct (answer env q (crowd_cluster s')).
  - cbn. destruct (decide (b = a)) as [->|]; [rewrite fn_lookup_insert|rewrite fn_lookup_insert_ne by done; done].
    by apply Hinv.
Qed.

Lemma serve_reset_actions tick a command n :
  action_map (node_maps (serve_reset env tick a command n).2) = action_map (node_maps n).
Proof.
  unfold serve_reset, Reset. destruct (SetCommand command (node_executor n)) as [e [err|]]; [done|].
  pose proof (run_command_actions (machine env tick a) e (node_maps n)) as H.
  destruct (run_command _ _ _) as [[pid [err|]] s]; done.
Qed.

Lemma serve_step_actions tick a req n :
  action_map (node_maps (serve_step env tick a req n).2) =
  action_map (SetAction (TargetIp req) (TargetPort req) (action_of_request req) (node_maps n)).2.
Proof.
  unfold serve_step. destruct (SetAction _ _ _ _) as [[err|] s] eqn:Hs.
  - by rewrite (Step_failed _ _ _ _ _ _ Hs).
  - rewrite (Step_stored _ _ _ _ _ Hs). exact (run_command_actions (machine env tick a) (node_executor n) s).
Qed.

Lemma SetAction_keeps ip port act (s : state) k :
  is_Some (installed s k) → is_Some (installed (SetAction ip port act s).2 k).
Proof.
  intros Hk. destruct (ipToKey ip port) as [err|key] eqn:E; [by rewrite (SetAction_invalid _ _ _ _ _ E)|].
  pose proof (SetAction_cases ip port act s key E) as H.
  destruct (SetAction ip port act s) as [[err|] s']; cbn.
  - destruct H as (_ & _ & -> & _). done.
  - destruct H as (-> & _). case_decide; [by eexists|done].
Qed.

(** C19.  Baselines are not free of tuning.  Once a step has stored an action for
    an address on an agent, nothing ever removes it: in every cluster reached
    afterwards the agent has an action for the address, and every connection to
    it that a command opens on the agent, the baseline of a later episode
    included, gets the options of that action. *)
Theorem baseline_is_tuned c hs s' a addr tick req :
  reached env (Crowd (Cluster (pool c) (<[a:=(serve_step env tick a req (nodes c a)).2]> (nodes c))
                        (ticks c) (log c)) hs) s' →
  (SetAction (TargetIp req) (TargetPort req) (action_of_request req) (node_maps (nodes c a))).1 = None →
  ipToKey (TargetIp req) (TargetPort req) = inr (IpPortKey addr 0) →
  ∃ act, installed (node_maps (nodes (crowd_cluster s') a)) (IpPortKey addr 0) = Some act ∧
  ∀ tick' parts pre i, pre ++ [i] `prefix_of` (workload env tick' a parts).2 →
    is_established i = true → Ctx.remote_ip4 i.2 = addr →
    emitted i (run pre (node_maps (nodes (crowd_cluster s') a))) = tuning_calls act ++
      [bpf_sock_ops_cb_flags_set (Z.lor (Ctx.bpf_sock_ops_cb_flags i.2) BPF_SOCK_OPS_STATE_CB_FLAG)].
Proof.
  intros Hr Hs Hk.
  assert (is_Some (installed (node_maps (nodes (crowd_cluster s') a)) (IpPortKey addr 0))) as [act Ha].
  { refine (nodes_ind (λ n, is_Some (installed (node_maps n) (IpPortKey addr 0))) _ _ _ _ _ _ Hr _).
    - intros t cmd n. unfold installed. by rewrite serve_reset_actions.
    - intros t r n H. unfold installed. rewrite serve_step_actions. by apply SetAction_keeps.
    - intros i n. unfold installed. cbn [node_maps]. by rewrite action_map_invoke.
    - cbn. rewrite fn_lookup_insert. unfold installed. rewrite serve_step_actions.
      pose proof (SetAction_cases (TargetIp req) (TargetPort req) (action_of_request req)
        (node_maps (nodes c a)) _ Hk) as H.
      destruct (SetAction _ _ _ _) as [err s]. cbn in Hs. subst err. destruct H as [H _].
      specialize (H (IpPortKey addr 0)). unfold installed in H. rewrite decide_True in H by done. by eexists. }
  exists act. split; [done|]. intros tick' parts pre i _ Hi Hip.
  rewrite (proj2 (established_spec i _ Hi)), action_map_run, Hip. unfold installed in Ha. by rewrite Ha.
Qed.

End system.

(** ** Instances *)

Abbreviation small_cluster :=
  (System.cluster (bounded_map 4 ip_port_key tuning_action) (bounded_map 4 Z tuning_metrics) (bounded_map 4 Z Z)).

(** A later run of the command, as process 4243 with socket cookie 8, of 3 ms. *)
Definition late_helpers (t : Z) : helpers := Helpers 8 (Z.shiftl 4243 32) t.
Definition late_connect : helpers * bpf_sock_ops :=
  (late_helpers 20000000, sample_ctx BPF_SOCK_OPS_TCP_CONNECT_CB 0 0 0 0).
Definition late_established : helpers * bpf_sock_ops :=
  (late_helpers 20500000, sample_ctx BPF_SOCK_OPS_ACTIVE_ESTABLISHED_CB 4000 0 0 0).
Definition late_close : helpers * bpf_sock_ops :=
  (late_helpers 23000000, sample_ctx BPF_SOCK_OPS_STATE_CB 8000 0 100000 300).

Definition sample_runs (tick : nat) : spawn_result * list (helpers * bpf_sock_ops) :=
  if Nat.ltb tick 6 then (Exited 4242 None, [sample_connect; sample_established; sample_close])
  else (Exited 4243 None, [late_connect; late_established; late_close]).

Definition sample_surroundings : surroundings :=
  Surroundings Z.of_nat keys (λ conn, if conn =? 1 then agent1 else agent2) (λ _, Delivered)
    (λ tick _ _, sample_runs tick) (λ _, "rpc error"%string).

Definition sample_nodes : string → node (bounded_map 4 ip_port_key tuning_action)
    (bounded_map 4 Z tuning_metrics) (bounded_map 4 Z Z) := λ _, Node NewExecutor small_state.

Definition empty_cluster : small_cluster := Cluster NewPool sample_nodes 0 [].
Definition sample_cluster : small_cluster := Cluster one_agent sample_nodes 2 [].

Lemma sample_cluster_good : good sample_surroundings sample_cluster.
Proof.
  split; [by eexists; apply one_agent_history|]. intros a ac Ha. apply elem_of_map_to_list in Ha.
  vm_compute in Ha. apply list_elem_of_singleton in Ha. injection Ha as -> ->. reflexivity.
Qed.

(** A process without a socket in the map. *)
Lemma no_owner {N1 N2 N3} (s : sim_state N1 N2 N3) owners p :
  map_to_list (bm_map (cookie_pid_map s)) = owners → Forall (λ e, e.2 ≠ p) owners →
  ∀ cookie, owner s cookie ≠ Some p.
Proof.
  intros <- Hf cookie H%bm_lookup_entry. rewrite Forall_forall in Hf. by apply (Hf _ H).
Qed.

Lemma sample_measures : measures (sample_runs 4) small_state sample_connect 8000.
Proof.
  exists 4242, None, [sample_established; sample_close], [], sample_close.
  split; [reflexivity|]. split; [vm_compute; reflexivity|]. split; [vm_compute; reflexivity|].
  split; [vm_compute; intuition discriminate|].
  split; [split; vm_compute; reflexivity|].
  split; [intros cookie _; by apply (no_owner _ [])|].
  split; [repeat apply Forall_cons_2; try apply Forall_nil_2; intros H; vm_compute in H; discriminate H|].
  split; [vm_compute; reflexivity|].
  split; [vm_compute; intuition discriminate|].
  split; [vm_compute; intuition discriminate|vm_compute; reflexivity].
Qed.

(** The maps after the baseline run. *)
Definition after_baseline : sim_state 4 4 4 := run (sample_runs 4).2 small_state.

Definition sample_env_action : UIAction := MkUIAction 0 0 "bbr" 20 0 1 0 0 0 0 0.

(** Two agents join and a client's [Reset] is served on the first one. *)
Abbreviation small_crowd :=
  (crowd (MA:=bounded_map 4 ip_port_key tuning_action) (MM:=bounded_map 4 Z tuning_metrics)
    (MC:=bounded_map 4 Z Z)).
Definition events (evs : list event) (c : small_crowd) : small_crowd :=
  foldl (flip (happen sample_surroundings)) c evs.

Definition joining : list event :=
  [Background (CallAdd sample_dial 0 agent1); Background (CallAdd sample_dial 1 agent2)].
Definition first_reset : list event :=
  [Arrives (Router.ResetRequest sample_command); Continues 0; Continues 0; Continues 0].
Definition one_session := events (joining ++ first_reset) (Crowd empty_cluster []).

(** A second client's [Reset], call by call, while the first one's session goes on. *)
Definition second_reset : list event :=
  [Arrives (Router.ResetRequest sample_command); Continues 1; Continues 1; Continues 1].

Lemma events_reached evs s :
  Forall (λ ev, ∀ s' : small_crowd, possible sample_surroundings ev s') evs →
  reached sample_surroundings s (events evs s).
Proof.
  induction evs as [|ev evs IH] using rev_ind; intros Hp; [apply reached_here|].
  apply Forall_app in Hp as [Hp Hev]. rewrite Forall_singleton in Hev. unfold events. rewrite foldl_snoc.
  apply reached_event; [by apply IH|apply Hev].
Qed.

(** Handlers that have returned. *)
Definition returned (h : Router.handler Router.reply) : bool :=
  match h with Router.Return _ => true | _ => false end.

Lemma returned_harmless a hs : forallb returned hs = true → Forall (harmless sample_surroundings a) hs.
Proof.
  induction hs as [|h hs IH]; intros H; [apply Forall_nil_2|]. cbn in H. apply andb_true_iff in H as [Hh H].
  apply Forall_cons_2; [|by apply IH]. by destruct h.
Qed.

Lemma first_reset_possible :
  Forall (λ ev, ∀ s' : small_crowd, possible sample_surroundings ev s') first_reset.
Proof. repeat (apply Forall_cons_2; [intros s'; exact I|]). apply Forall_nil_2. Qed.

(** While the session of [agent1] is left alone another process on its node opens a
    connection. *)
Definition meanwhile_events : list event := second_reset ++ [Invoked agent1 (other_connect 99 9)].

Lemma sessions_isolated_witness :
  let n := nodes (crowd_cluster one_session) agent1 in
  let n' := nodes (crowd_cluster (events meanwhile_events one_session)) agent1 in
  node_executor n' = node_executor n ∧ action_map (node_maps n') = action_map (node_maps n) ∧
  record (node_maps n') 99 = Some (initial_metrics (other_connect 99 9)).
Proof.
  destruct (sessions_isolated sample_surroundings keys_visits (Crowd empty_cluster []) one_session
    (events meanwhile_events one_session) agent1) as ((tr & _ & Hn) & Ha & _).
  - reflexivity.
  - apply events_reached. assert (∀ dial now a, (∀ conn, dial a = inr conn → peer sample_surroundings conn = a) →
      ∀ s : small_crowd, possible sample_surroundings (Background (CallAdd dial now a)) s) as Hadd
      by (intros; split; [reflexivity|by split]).
    apply Forall_app_2; [|apply first_reset_possible].
    apply Forall_cons_2; [|apply Forall_cons_2; [|apply Forall_nil_2]];
      apply Hadd; intros conn [= <-]; reflexivity.
  - exists (MkAgentClient agent1 1 true 3 false). split; [vm_compute; reflexivity|reflexivity].
  - apply returned_harmless. vm_compute. reflexivity.
  - unfold meanwhile_events, second_reset, events. cbn [app foldl flip].
    do 5 (apply meanwhile_event; [|exact I|first [exact I|discriminate]]). apply meanwhile_here.
  - cbn zeta. split; [rewrite Hn; reflexivity|]. split; [exact Ha|]. vm_compute. reflexivity.
Defined.

(** The cluster after a step on [agent1], and after a second episode started there. *)
Definition tuned_cluster : small_cluster :=
  Cluster one_agent (<[agent1:=(serve_step sample_surroundings 9 agent1 sample_request (sample_nodes agent1)).2]>
    sample_nodes) 2 [].

Lemma baseline_is_tuned_witness :
  ∃ act, installed (node_maps (nodes (crowd_cluster (events first_reset (Crowd tuned_cluster []))) agent1))
    (IpPortKey sample_ip 0) = Some act.
Proof.
  destruct (baseline_is_tuned sample_surroundings sample_cluster [] (events first_reset (Crowd tuned_cluster []))
    agent1 sample_ip 9 sample_request) as (act & H & _).
  - apply events_reached, first_reset_possible.
  - vm_compute. reflexivity.
  - vm_compute. reflexivity.
  - exists act. exact H.
Defined.
