(* ===== verification/CrowdProps.v ===== *)
(** * A client among others

    The lemmas on one handler of the router that runs while the handlers of other
    clients, the watcher, the cleanup and the kernel do what they like at each of its
    calls: an agent that it holds is left alone but for the invocations of its BPF
    program, and a [Reset] or a [Step] that is answered is one request to that
    agent. *)
From stdpp Require Import functions.
From S2P Require Import Prelude Words BpfMaps SocketTuner SocketTunerFacts SocketTunerProps.
From S2P Require Import Executor NetIP Agent AgentProps Pool PoolFacts PoolProps Router RouterProps.
From S2P Require Import TunerEnv TunerEnvProps System SystemProps.
Local Open Scope Z_scope.

Section among.
Context {MA MM MC : Type}.
Context `{!BpfHashMap MA ip_port_key tuning_action}.
Context `{!BpfHashMap MM Z tuning_metrics}.
Context `{!BpfHashMap MC Z Z}.
Context (env : surroundings) (text : Router.router_error → string) (others : nat → list event).
Hypothesis order_visits : ∀ p, visits (map_order env p) p.

Abbreviation state := (bpf_state MA MM MC).
Abbreviation cluster := (System.cluster MA MM MC).
Abbreviation crowd := (System.crowd (MA:=MA) (MM:=MM) (MC:=MC)).
Abbreviation st := (crowd_stub (MA:=MA) (MM:=MM) (MC:=MC) env text others).
Implicit Types (s : crowd) (a : string).

(** ** Events and calls *)

(** The session [a] is held: the pool is well formed, the agent is locked and no
    handler under way works on it. *)
Definition held a s : Prop :=
  good env (crowd_cluster s) ∧ locked a (crowd_cluster s) ∧ Forall (harmless env a) (crowd_handlers s).

Lemma events_good own evs s :
  events_ok env own evs s → good env (crowd_cluster s) → good env (crowd_cluster (foldl (flip (happen env)) s evs)).
Proof.
  revert s. induction evs as [|ev evs IH]; intros s; [done|]. intros (Hp & _ & Hev) Hg.
  by apply IH; [|apply happen_good].
Qed.

(** The agent [a] is left alone but for some invocations of its BPF program. *)
Definition drifted a s s' : Prop := ∃ tr, left_alone a tr (crowd_cluster s) (crowd_cluster s').

Lemma drifted_same a s s' :
  nodes (crowd_cluster s') a = nodes (crowd_cluster s) a →
  on_agent a (crowd_cluster s') = on_agent a (crowd_cluster s) → drifted a s s'.
Proof. intros. exists []. by apply left_alone_same. Qed.

Lemma drifted_trans a s s' s'' : drifted a s s' → drifted a s' s'' → drifted a s s''.
Proof. intros [tr H] [tr' H']. exists (tr ++ tr'). by eapply left_alone_trans. Qed.

Lemma event_drifted a ev s :
  possible env ev s → spares a ev s → held a s → held a (happen env ev s) ∧ drifted a s (happen env ev s).
Proof.
  intros Hp Hs (Hg & Hl & Hh). destruct (spared_event env order_visits a ev s Hg Hl Hh Hp Hs) as (Ha & ? & ?).
  split; [|done]. split; [by apply happen_good|done].
Qed.

Lemma events_held a evs s :
  events_ok env (Some a) evs s → held a s →
  held a (foldl (flip (happen env)) s evs) ∧ drifted a s (foldl (flip (happen env)) s evs).
Proof.
  revert s. induction evs as [|ev evs IH]; intros s; [intros _ Hh; split; [done|by apply drifted_same]|].
  intros (Hp & Hs & Hev) Hh.
  destruct (event_drifted a ev s Hp (Hs a eq_refl) Hh) as [Hh' Ha].
  destruct (IH (happen env ev s) Hev Hh') as [IH1 IH2]. split; [done|]. by eapply drifted_trans.
Qed.

(** A call of the client's own handlers that does not free the agent. *)
Lemma own_call_held {A} a (q : Router.call A) s :
  call_op env q (crowd_cluster s) ≠ Some (CallFree a) → held a s →
  held a (Crowd (answer env q (crowd_cluster s)).2 (crowd_handlers s)).
Proof.
  intros Hq (Hg & (ac & Ha & Hb) & Hh). split; [by apply answer_good|]. split; [|done].
  unfold locked. cbn [crowd_cluster]. rewrite answer_pool.
  destruct (call_op env q (crowd_cluster s)) as [o|] eqn:Ho; [|by exists ac]. cbn [from_option].
  destruct (busy_kept o (pool (crowd_cluster s)) a ac) as (ac' & ? & _ & ?); [| |done..|by exists ac'];
    destruct q; cbn in Ho; simplify_eq; cbn; (apply order_visits || done || tauto || congruence).
Qed.

(** ** Requests *)

(** The agent [a], asked between [s] and [s'], has served exactly that request, after
    the invocations [bg] of its BPF program, and the reply has come back. *)
Definition served_once {A} a asked (serve : nat → node MA MM MC → reply A * node MA MM MC) s (resp : A) s' : Prop :=
  ∃ k bg,
    let n0 := nodes (crowd_cluster s) a in
    let n := Node (node_executor n0) (run bg (node_maps n0)) in
    on_agent a (crowd_cluster s') = on_agent a (crowd_cluster s) ++ (Ran a <$> bg) ++ [Served a k n asked] ∧
    on_wire (serve k n).1 = Some resp ∧ nodes (crowd_cluster s') a = (serve k n).2.

Lemma served_once_later {A} a asked (serve : nat → node MA MM MC → reply A * node MA MM MC) s0 s resp s' :
  drifted a s0 s → served_once a asked serve s resp s' → served_once a asked serve s0 resp s'.
Proof.
  intros (tr & Hn & Ho) (k & bg & Hs & Hw & Hk). exists k, (tr ++ bg). cbn zeta in *.
  rewrite Hn in Hs, Hw, Hk. cbn [node_executor node_maps] in Hs, Hw, Hk. rewrite <- run_app in Hs, Hw, Hk.
  split_and!; [|done..]. by rewrite Hs, Ho, fmap_app, <- !app_assoc.
Qed.

Lemma call_agent_answered {A} conn asked (handler : nat → string → node MA MM MC → reply A * node MA MM MC) s hs r :
  (call_agent env conn asked handler (crowd_cluster s)).1 = inr r →
  let a := peer env conn in
  served_once a asked (λ k, handler k a) s r (Crowd (call_agent env conn asked handler (crowd_cluster s)).2 hs).
Proof.
  intros H. destruct (call_agent env conn asked handler (crowd_cluster s)) as [x c'] eqn:E. cbn in H. subst.
  apply call_agent_inr in E as (Hw & _ & Hn & Hl). exists (ticks (crowd_cluster s)), []. cbn zeta.
  change (run [] ?m) with m. destruct (nodes (crowd_cluster s) (peer env conn)) as [e m] eqn:En.
  cbn [node_executor node_maps crowd_cluster snd fmap list_fmap app]. split_and!; [|done..].
  rewrite (on_agent_snoc _ _ _ _ Hl). cbn [occurred_on]. by rewrite decide_True.
Qed.

(** The log only grows. *)
Lemma call_agent_log {A} conn asked (handler : nat → string → node MA MM MC → reply A * node MA MM MC) (c : cluster) :
  log c `prefix_of` log (call_agent env conn asked handler c).2.
Proof.
  unfold call_agent. destruct (handler (ticks c) (peer env conn) _) as [r n].
  destruct (network env (ticks c)); cbn; first [done|by eexists|eexists; by rewrite app_nil_r].
Qed.

Lemma answer_log {A} (q : Router.call A) (c : cluster) : log c `prefix_of` log (answer env q c).2.
Proof.
  destruct q; cbn [answer]; try done; try by apply call_agent_log.
  by destruct (LockFreeAgent _ _ _).
Qed.

Lemma interfere_log s : log (crowd_cluster s) `prefix_of` log (crowd_cluster (interfere env others s)).
Proof.
  unfold interfere. generalize (others (ticks (crowd_cluster s))) as evs. intros evs. revert s.
  induction evs as [|ev evs IH]; intros s; [done|]. cbn [foldl]. etrans; [|apply IH]. unfold flip.
  destruct ev as [r|i|o|a i]; cbn [happen]; [done| |done|by eexists].
  destruct (crowd_handlers s !! i) as [[r|A q k]|]; [done| |done].
  pose proof (answer_log q (crowd_cluster s)) as H. by destruct (answer env q (crowd_cluster s)).
Qed.

(** ** A handler among the others, call by call *)

Definition next {A} (q : Router.call A) s : A * crowd :=
  let s := interfere env others s in
  ((answer env q (crowd_cluster s)).1, Crowd (answer env q (crowd_cluster s)).2 (crowd_handlers s)).

Lemma exec_among_call {A R} (q : Router.call A) (k : A → Router.handler R) s :
  exec_among env others (Router.Call q k) s = exec_among env others (k (next q s).1) (next q s).2.
Proof. cbn [exec_among]. unfold next. by destruct (answer env q _). Qed.

Lemma calm_call {A R} own (q : Router.call A) (k : A → Router.handler R) s :
  calm env others own (Router.Call q k) s ↔
  events_ok env own (others (ticks (crowd_cluster s))) s ∧
  match acquired q (next q s).1 with
  | Some a => Forall (harmless env a) (crowd_handlers (next q s).2) ∧
      calm env others (Some a) (k (next q s).1) (next q s).2
  | None => calm env others own (k (next q s).1) (next q s).2
  end.
Proof. cbn [calm]. unfold next. by destruct (answer env q _). Qed.

Lemma interfere_held a s :
  events_ok env (Some a) (others (ticks (crowd_cluster s))) s → held a s →
  held a (interfere env others s) ∧ drifted a s (interfere env others s).
Proof. apply events_held. Qed.

(** A call of a handler that holds the session: one of the pool, and one to the
    agent. *)
Definition looks {A} (q : Router.call A) : bool :=
  match q with Router.TouchAgent _ | Router.GetAgentBySession _ => true | _ => false end.

Lemma held_looks {A R} a (q : Router.call A) (k : A → Router.handler R) s :
  looks q = true → held a s → calm env others (Some a) (Router.Call q k) s →
  held a (next q s).2 ∧ drifted a s (next q s).2 ∧ calm env others (Some a) (k (next q s).1) (next q s).2.
Proof.
  intros Hq Hh [He Hc]%calm_call. destruct (interfere_held a s He Hh) as [Hh1 Ha].
  split; [apply own_call_held; [by destruct q|exact Hh1]|]. split; [|by destruct q].
  eapply drifted_trans; [exact Ha|]. by destruct q; try done; apply drifted_same.
Qed.

Lemma held_step {R} a conn req (k : string + StepResponse → Router.handler R) s :
  peer env conn = a → held a s → calm env others (Some a) (Router.Call (Router.ClientStep conn req) k) s →
  let r := next (Router.ClientStep conn req) s in
  held a r.2 ∧ calm env others (Some a) (k r.1) r.2 ∧
  ∀ resp, r.1 = inr resp → served_once a (AskStep req) (λ k, serve_step env k a req) s resp r.2.
Proof.
  intros Hp Hh [He Hc]%calm_call. destruct (interfere_held a s He Hh) as [Hh1 Ha]. cbn zeta.
  split; [by apply own_call_held|]. split; [done|]. intros resp H. subst a.
  eapply served_once_later; [exact Ha|exact (call_agent_answered conn (AskStep req) (λ tick a, serve_step env tick a req)
    (interfere env others s) (crowd_handlers (interfere env others s)) resp H)].
Qed.

Lemma held_reset {R} a conn command (k : string + ResetResponse → Router.handler R) s :
  peer env conn = a → held a s → calm env others (Some a) (Router.Call (Router.ClientReset conn command) k) s →
  let r := next (Router.ClientReset conn command) s in
  held a r.2 ∧
  ∀ resp, r.1 = inr resp → served_once a (AskReset command) (λ k, serve_reset env k a command) s resp r.2.
Proof.
  intros Hp Hh [He Hc]%calm_call. destruct (interfere_held a s He Hh) as [Hh1 Ha]. cbn zeta.
  split; [by apply own_call_held|]. intros resp H. subst a.
  eapply served_once_later; [exact Ha|exact (call_agent_answered conn (AskReset command) (λ tick a, serve_reset env tick a command)
    (interfere env others s) (crowd_handlers (interfere env others s)) resp H)].
Qed.

Lemma next_log {A} (q : Router.call A) s : log (crowd_cluster s) `prefix_of` log (crowd_cluster (next q s).2).
Proof. etrans; [apply interfere_log|apply answer_log]. Qed.

Lemma exec_among_log {R} (h : Router.handler R) s :
  log (crowd_cluster s) `prefix_of` log (crowd_cluster (exec_among env others h s).2).
Proof.
  revert s. induction h as [r|A q k IH]; intros s; [done|]. rewrite exec_among_call. etrans; [|apply IH].
  apply next_log.
Qed.

(** ** [Step] and [Reset] *)

(** A [Step] that is answered, on a session that is held: the agent serves it, and
    the call returns at once unless the step ended the episode. *)
Lemma step_among req s resp s' :
  let a := ReqSessionId req in
  held a s → calm env others (Some a) (Router.Step req) s → rpc_Step st req s = (inr resp, s') →
  ∃ sr, served_once a (AskStep req) (λ k, serve_step env k a req) s resp sr ∧
    (Done resp = false → s' = sr ∧ held a s') ∧ log (crowd_cluster sr) `prefix_of` log (crowd_cluster s').
Proof.
  cbn zeta. intros Hh Hc Hr. cbn [rpc_Step crowd_stub] in Hr. unfold to_client_among, Router.Step in Hr, Hc.
  case_bool_decide as Hne; [done|]. set (a := ReqSessionId req) in *.
  cbn [Router.do mbind Router.handler_mbind Router.handler_bind] in Hr, Hc. rewrite exec_among_call in Hr.
  assert (∃ ac, (next (Router.GetAgentBySession a) s).1 = inr ac ∧ peer env (Conn ac) = a) as (ac & Eac & Hac).
  { destruct (interfere_held a s (proj1 (proj1 (calm_call _ _ _ _) Hc)) Hh) as [(Hg & (ac & Ha & _) & _) _].
    exists ac. cbn. unfold GetAgentBySession. rewrite Ha. split; [done|]. by apply (proj2 Hg). }
  apply held_looks in Hc as (Hh1 & Ha1 & Hc); [|done..]. rewrite Eac in Hr, Hc. rewrite exec_among_call in Hr.
  apply held_looks in Hc as (Hh2 & Ha2 & Hc); [|done..]. rewrite exec_among_call in Hr.
  assert (drifted a s (next (Router.TouchAgent a) (next (Router.GetAgentBySession a) s).2).2) as Ha
    by (by eapply drifted_trans).
  set (s2 := (next (Router.TouchAgent a) _).2) in *. clearbody s2. clear Hh Hh1 Ha1 Ha2 Eac.
  apply held_step in Hc as (Hh3 & Hc & Hs); [|done..].
  destruct (next (Router.ClientStep (Conn ac) req) s2) as [[err|resp0] s3]; [done|]. cbn [fst snd] in *.
  specialize (Hs resp0 eq_refl). exists s3.
  destruct (Done resp0) eqn:Hd; cbn [Router.do mbind Router.handler_mbind Router.handler_bind mret Router.handler_ret] in Hr, Hc.
  - rewrite exec_among_call in Hr. cbn in Hr. injection Hr as -> <-.
    split; [by eapply served_once_later|]. split; [congruence|]. exact (next_log (Router.FreeAgent a) s3).
  - cbn in Hr. injection Hr as -> ->. split; [by eapply served_once_later|]. done.
Qed.

Lemma exec_among_good {R} (h : Router.handler R) own s :
  calm env others own h s → good env (crowd_cluster s) → good env (crowd_cluster (exec_among env others h s).2).
Proof.
  revert own s. induction h as [r|A q k IH]; intros own s Hc Hg; [done|]. apply calm_call in Hc as [He Hc].
  rewrite exec_among_call. assert (good env (crowd_cluster (next q s).2)) as Hg'
    by (refine (answer_good env order_visits q _ _); by eapply events_good).
  destruct (acquired q (next q s).1) as [a|]; [destruct Hc as [_ Hc]|]; by eapply IH.
Qed.

(** The agent that is handed out. *)
Lemma lock_handed (c : cluster) ac :
  good env c → (answer env Router.LockFreeAgent c).1 = inr ac →
  locked (Addr ac) (answer env Router.LockFreeAgent c).2 ∧ peer env (Conn ac) = Addr ac.
Proof.
  intros Hg Ha. pose proof (good_inv env c Hg) as Hi. cbn [answer] in *.
  pose proof (lock_spec (map_order env (pool c)) (clock env (ticks c)) _ Hi (order_visits _)) as H.
  pose proof (lock_conn (map_order env (pool c)) (clock env (ticks c)) (pool c)) as Hc.
  destruct (LockFreeAgent _ _ _) as [r p]. cbn in Ha. subst r.
  destruct (Hc _ _ Hi eq_refl) as (ac0 & Ha0 & <-). split; [|by apply (proj2 Hg)].
  destruct H as (_ & Hp & _ & Hb & _). exists ac. cbn. split; [by rewrite Hp, lookup_insert_eq|done].
Qed.

(** A [Reset] that is answered holds its session. *)
Lemma reset_among command s resp s' :
  good env (crowd_cluster s) → calm env others None (Router.Reset command) s →
  rpc_Reset st command s = (inr resp, s') →
  let a := SessionId resp in
  held a s' ∧ ∃ s0 resp0, served_once a (AskReset command) (λ k, serve_reset env k a command) s0 resp0 s' ∧
    resp = Router.set_SessionId a resp0.
Proof.
  intros Hg Hc Hr. cbn [rpc_Reset crowd_stub] in Hr. unfold to_client_among, Router.Reset in Hr, Hc.
  cbn [Router.do mbind Router.handler_mbind Router.handler_bind] in Hr, Hc.
  apply calm_call in Hc as [He Hc]. rewrite exec_among_call in Hr.
  assert (good env (crowd_cluster (interfere env others s))) as Hg0 by exact (events_good _ _ _ He Hg).
  pose proof (answer_good env order_visits Router.LockFreeAgent _ Hg0) as Hg1.
  pose proof (lock_handed (crowd_cluster (interfere env others s))) as Hk. unfold next in Hr, Hc.
  cbn zeta in Hr, Hc. cbn [fst snd] in Hr, Hc.
  destruct (answer env Router.LockFreeAgent (crowd_cluster (interfere env others s))) as [[err|ac] c1] eqn:E1; [done|].
  destruct (Hk ac Hg0 eq_refl) as [Hl Hp]. cbn [fst snd acquired crowd_handlers] in *. destruct Hc as [Hh Hc].
  cbn [Router.handler_bind] in Hr, Hc.
  assert (held (Addr ac) (Crowd c1 (crowd_handlers (interfere env others s)))) as Hh1 by exact (conj Hg1 (conj Hl Hh)).
  clear Hg Hg0 Hg1 Hk Hl Hh He E1. set (s1 := Crowd c1 _) in *. clearbody s1. clear c1 s.
  apply held_looks in Hc as (Hh2 & _ & Hc); [|done..]. rewrite exec_among_call in Hr.
  set (s2 := (next (Router.TouchAgent (Addr ac)) s1).2) in *. clearbody s2. clear s1 Hh1.
  apply held_reset in Hc as (Hh3 & Hs); [|done..]. rewrite exec_among_call in Hr.
  destruct (next (Router.ClientReset (Conn ac) command) s2) as [[err|resp0] s3].
  { cbn in Hr. discriminate Hr. }
  cbn in Hr. injection Hr as <- <-. cbn zeta. cbn [SessionId Router.set_SessionId]. split; [exact Hh3|].
  exists s2, resp0. split; [by apply Hs|done].
Qed.

(** ** Surroundings that are calm *)

Section quiet.
Hypothesis always_ok : ∀ own k s, events_ok env own (others k) s.

Lemma quiet_call {A R} own (q : Router.call A) (k : A → Router.handler R) s :
  (∀ x, acquired q x = None) → (∀ x s', calm env others own (k x) s') → calm env others own (Router.Call q k) s.
Proof. intros Hq Hk. apply calm_call. split; [apply always_ok|]. rewrite Hq. apply Hk. Qed.

Lemma quiet_step own req s : calm env others own (Router.Step req) s.
Proof.
  unfold Router.Step. case_bool_decide; [done|]. apply quiet_call; [done|]. intros [err|ac] s1; [done|].
  apply quiet_call; [done|]. intros _ s2. apply quiet_call; [done|]. intros [err|resp] s3; [done|].
  destruct (Done resp); [|done]. by apply quiet_call.
Qed.

(** No handler is under way when the agent is locked. *)
Lemma quiet_reset own command s :
  crowd_handlers (interfere env others s) = [] → calm env others own (Router.Reset command) s.
Proof.
  intros Hs. apply calm_call. split; [apply always_ok|].
  assert (crowd_handlers (next Router.LockFreeAgent s).2 = []) as Hn by exact Hs.
  destruct (next Router.LockFreeAgent s) as [[err|ac] s1]; [done|]. cbn [fst snd acquired] in *.
  split; [rewrite Hn; apply Forall_nil_2|]. apply quiet_call; [done|]. intros _ s2.
  apply quiet_call; [done|]. intros [err|resp] s3; [|done]. by apply quiet_call.
Qed.
End quiet.
End among.
