(* ===== verification/EpisodeProps.v ===== *)
(** * Whole episodes

    An episode of any number of steps, followed from the client's calls to the
    sockets of the agent's command and back.  At every call that a handler of the
    router makes for the client, the other handlers, the watcher, the cleanup and the
    kernel do what they like, as long as they neither use nor end the session that is
    held. *)
From Stdlib Require Import QArith.
From stdpp Require Import functions.
From S2P Require Import Prelude Words BpfMaps SocketTuner SocketTunerFacts SocketTunerProps.
From S2P Require Import Executor NetIP Agent AgentProps Pool PoolFacts PoolProps Router RouterProps.
From S2P Require Import TunerEnv TunerEnvProps System SystemProps CrowdProps.
Local Open Scope Z_scope.

(** A step of an episode: the environment and the crowd before, the client's
    action, the observation, the crowd after. *)
Record turn (MA MM MC : Type) := Turn {
  turn_env : TunerEnv;
  turn_before : crowd (MA:=MA) (MM:=MM) (MC:=MC);
  turn_action : UIAction;
  turn_observation : EnvObservation;
  turn_after : crowd (MA:=MA) (MM:=MM) (MC:=MC);
}.
Arguments Turn {MA MM MC} _ _ _ _ _.
Arguments turn_env {MA MM MC} _.
Arguments turn_before {MA MM MC} _.
Arguments turn_action {MA MM MC} _.
Arguments turn_observation {MA MM MC} _.
Arguments turn_after {MA MM MC} _.

Section episode.
Context {NA NM NC : nat} {MA MM MC : Type}.
Context `{!BpfHashMap MA ip_port_key tuning_action} `{!BpfHashMapLaws NA MA ip_port_key tuning_action}.
Context `{!BpfHashMap MM Z tuning_metrics} `{!BpfHashMapLaws NM MM Z tuning_metrics}.
Context `{!BpfHashMap MC Z Z} `{!BpfHashMapLaws NC MC Z Z}.
Context (env : surroundings) (text : Router.router_error → string) (others : nat → list event) (MAX_STEPS : Z).
Hypothesis order_visits : ∀ p, visits (map_order env p) p.

Abbreviation crowd := (System.crowd (MA:=MA) (MM:=MM) (MC:=MC)).
Abbreviation st := (crowd_stub (MA:=MA) (MM:=MM) (MC:=MC) env text others).
Implicit Types (s : crowd) (a : string) (t : turn MA MM MC).

(** The attempts of a [reset] that are made run calmly. *)
Definition calm_reset (command : string) s : Prop :=
  ∀ n, (n < max_retries)%nat →
    (∀ i, (i < n)%nat → retryable (rpc_Reset st command (after_resets st command i s)).1 = true) →
    calm env others None (Router.Reset command) (after_resets st command n s).

(** The turns of an episode of the session [a], from an environment and a crowd:
    each starts where the one before ended, no step but the last one ends the
    episode, and the session is left alone while a step runs. *)
Inductive episode_of a : TunerEnv → crowd → list (turn MA MM MC) → Prop :=
| episode_ends e s : episode_of a e s []
| episode_turn e s act o e' s' l :
    (∀ req, step_request (count_step e) act = inr req → calm env others (Some a) (Router.Step req) s) →
    step st MAX_STEPS act e s = (inr o, e', s') →
    (done o = true → l = []) → episode_of a e' s' l →
    episode_of a e s (Turn e s act o s' :: l).

Lemma attempts_good command s n :
  calm_reset command s → good env (crowd_cluster s) → (n <= max_retries)%nat →
  (∀ i, (i < n)%nat → retryable (rpc_Reset st command (after_resets st command i s)).1 = true) →
  good env (crowd_cluster (after_resets st command n s)).
Proof.
  intros Hc Hg Hn Hr. induction n as [|n IH]; [done|].
  refine (exec_among_good env others order_visits (Router.Reset command) None (after_resets st command n s) _ _).
  - apply Hc; [lia|]. intros i Hi. apply Hr. lia.
  - apply IH; [lia|]. intros i Hi. apply Hr. lia.
Qed.

Lemma reset_answered_among e s o e1 s1 :
  good env (crowd_cluster s) → calm_reset (next_command e) s → reset st e s = (inr o, e1, s1) →
  ∃ s0 resp, good env (crowd_cluster s0) ∧ calm env others None (Router.Reset (next_command e)) s0 ∧
    rpc_Reset st (next_command e) s0 = (inr resp, s1) ∧ Success resp = true ∧
    obs_session o = SessionId resp ∧ e1 = start_episode resp (count_reset e).
Proof.
  intros Hg Hc Hr. destruct (reset_attempts_spec st 2 (next_command e) (count_reset e) s) as (k & Hk & Hbefore & _ & Ek).
  change (reset_attempts _ 3 _ _ _) with (reset st e s) in Ek. rewrite Ek in Hr. clear Ek.
  exists (after_resets st (next_command e) k s).
  change (after_resets st (next_command e) (S k) s)
    with (rpc_Reset st (next_command e) (after_resets st (next_command e) k s)).2 in Hr.
  assert (k < max_retries)%nat as Hk' by (unfold max_retries; lia).
  pose proof (attempts_good _ _ k Hc Hg (Nat.lt_le_incl _ _ Hk') Hbefore) as Hg'.
  pose proof (Hc k Hk' Hbefore) as Hck.
  destruct (rpc_Reset _ _ _) as [[err|resp] s'] eqn:E; [done|]. exists resp.
  cbn [fst snd reset_result] in Hr. destruct (Success resp) eqn:Hs; [|done]. by simplify_eq.
Qed.

(** What stays the same from the start of the episode, in the environment [e1]: the
    session, its target and its baseline on the client's side; the lock and the
    command on the agent's. *)
Record in_session a (ex : Executor) (e1 e : TunerEnv) s : Prop := InSession {
  session_held : held env a s;
  session_executor : node_executor (nodes (crowd_cluster s) a) = ex;
  session_named : session_id e = Some a;
  session_ip : target_ip e = target_ip e1;
  session_port : target_port e = target_port e1;
  session_baseline : baseline_duration e = baseline_duration e1;
}.

(** The call of a step that returns: the request, and the reply of the agent. *)
Lemma step_rpc_among a act e s o e' s' :
  held env a s → session_id e = Some a →
  (∀ req, step_request (count_step e) act = inr req → calm env others (Some a) (Router.Step req) s) →
  step st MAX_STEPS act e s = (inr o, e', s') →
  ∃ req resp sr, step_request (count_step e) act = inr req ∧ TargetIp req = target_ip e ∧ TargetPort req = target_port e ∧
    served_once a (AskStep req) (λ k, serve_step env k a req) s resp sr ∧
    reward o = reward_of (baseline_duration e) (DurationUs (default empty_observation (StepObservation resp))) ∧
    e' = count_step e ∧ (done o = false → s' = sr ∧ held env a s') ∧
    log (crowd_cluster sr) `prefix_of` log (crowd_cluster s').
Proof.
  intros Hh Hs Hc Hst. rewrite step_outcome, Hs in Hst.
  destruct (step_request _ act) as [err|req] eqn:Hreq; [done|]. specialize (Hc req eq_refl).
  assert (ReqSessionId req = a ∧ TargetIp req = target_ip e ∧ TargetPort req = target_port e) as (Hid & Hip & Hport).
  { unfold step_request in Hreq. case_bool_decide; [|done]. injection Hreq as <-. cbn. by rewrite Hs. }
  destruct (rpc_Step st req s) as [[err|resp] s2] eqn:Hrs; [done|]. subst a.
  destruct (step_among env text others order_visits req s resp s2 Hh Hc Hrs) as (sr & Hso & Hd & Hlog).
  cbn zeta in Hst. injection Hst as <- <- Hs'. exists req, resp, sr. cbn [reward done]. split_and!; try done.
  - intros Hdone. cbn [done] in Hdone. rewrite Hdone in Hs'. subst s'. apply Hd.
    by apply orb_false_iff in Hdone as [[Hdone _]%orb_false_iff _].
  - etrans; [exact Hlog|]. subst s'. case_match; [|done]. unfold close_session. rewrite Hs. case_bool_decide; [done|].
    apply (exec_among_log env others (Router.Close (ReqSessionId req)) s2).
Qed.

(** What a turn does in an episode that begins in the environment [e1], after a
    baseline that was [w0] on the maps [maps0].  The agent serves this step, after
    the invocations [bg] of its BPF program and nothing else, until the step returns
    or ends the episode.  It runs the command with the client's action installed;
    every connection of the run to an address with the key of the request gets
    exactly the options of that action, and the reward is that of the duration
    recorded for the process.  When the baseline was one connection, its address has
    that key, and a run that is one connection is rewarded by the two durations. *)
Definition turn_tunes a (ex : Executor) (parts : list (list Z)) (e1 : TunerEnv)
    (w0 : spawn_result * list (helpers * bpf_sock_ops)) (maps0 : bpf_state MA MM MC) t : Prop :=
  ∃ req k bg,
    let before := crowd_cluster (turn_before t) in
    let after := crowd_cluster (turn_after t) in
    let n := Node ex (run bg (node_maps (nodes before a))) in
    let w := workload env k a parts in
    let s := (SetAction (TargetIp req) (TargetPort req) (action_of_request req) (node_maps n)).2 in
    let asked := on_agent a before ++ (Ran a <$> bg) ++ [Served a k n (AskStep req)] in
    step_request (count_step (turn_env t)) (turn_action t) = inr req ∧
    SetAction (TargetIp req) (TargetPort req) (action_of_request req) (node_maps n) = (None, s) ∧
    asked `prefix_of` on_agent a after ∧
    (done (turn_observation t) = false → on_agent a after = asked ∧ nodes after a = Node ex (run w.2 s)) ∧
    (∀ pre i addr, pre ++ [i] `prefix_of` w.2 → is_established i = true → Ctx.remote_ip4 i.2 = addr →
       ipToKey (TargetIp req) (TargetPort req) = inr (IpPortKey addr 0) →
       emitted i (run pre s) = tuning_calls (action_of_request req) ++
         [bpf_sock_ops_cb_flags_set (Z.lor (Ctx.bpf_sock_ops_cb_flags i.2) BPF_SOCK_OPS_STATE_CB_FLAG)]) ∧
    (∀ pid err, w.1 = Exited pid err → reward (turn_observation t) = reward_of (baseline_duration e1)
       (DurationUs (default empty_observation (observed (run w.2 s) (u32 pid))))) ∧
    ∀ i0 d0, measures w0 maps0 i0 d0 →
      ipToKey (TargetIp req) (TargetPort req) = inr (IpPortKey (Ctx.remote_ip4 i0.2) 0) ∧
      ∀ i1 d1, measures w (node_maps n) i1 d1 → reward (turn_observation t) = reward_of d0 d1.

(** A run of one connection is observed with its duration. *)
Lemma measured_observation (req : StepRequest) w (x x1 : bpf_state MA MM MC) i d :
  SetAction (TargetIp req) (TargetPort req) (action_of_request req) x = (None, x1) → measures w x i d →
  ∃ pid err, w.1 = Exited pid err ∧
    DurationUs (default empty_observation (observed (run w.2 x1) (u32 pid))) = d.
Proof.
  intros HS Hm. destruct (SetAction_metrics (TargetIp req) (TargetPort req) (action_of_request req) x) as [Hmm Hmc].
  rewrite HS in Hmm, Hmc. apply (measures_ext _ _ _ _ _ Hmm Hmc), measures_record in Hm
    as (pid & err & m & Hp & Hr & _ & _ & Hd & _).
  exists pid, err. split; [done|]. cbn [snd] in Hr. unfold observed. by rewrite Hr.
Qed.

(** The connections of a step get its action. *)
Lemma step_tunes (req : StepRequest) (x x1 : bpf_state MA MM MC) pre i :
  SetAction (TargetIp req) (TargetPort req) (action_of_request req) x = (None, x1) →
  is_established i = true →
  ipToKey (TargetIp req) (TargetPort req) = inr (IpPortKey (Ctx.remote_ip4 i.2) 0) →
  emitted i (run pre x1) = tuning_calls (action_of_request req) ++
    [bpf_sock_ops_cb_flags_set (Z.lor (Ctx.bpf_sock_ops_cb_flags i.2) BPF_SOCK_OPS_STATE_CB_FLAG)].
Proof.
  intros HS Hest Hk. rewrite (proj2 (established_spec i (run pre _) Hest)), action_map_run.
  pose proof (SetAction_cases _ _ (action_of_request req) x _ Hk) as HA. rewrite HS in HA. destruct HA as [HA _].
  specialize (HA (IpPortKey (Ctx.remote_ip4 i.2) 0)). rewrite decide_True in HA by done.
  unfold installed in HA. by rewrite HA.
Qed.

Section session.
Context (a : string) (ex : Executor) (parts : list (list Z)) (e1 : TunerEnv).
Context (w0 : spawn_result * list (helpers * bpf_sock_ops)) (maps0 : bpf_state MA MM MC).
Hypothesis command_parts : command_line ex = inr parts.
Hypothesis baseline : ∀ i0 d0, measures w0 maps0 i0 d0 →
  ipToKey (target_ip e1) (target_port e1) = inr (IpPortKey (Ctx.remote_ip4 i0.2) 0) ∧ baseline_duration e1 = d0.

Lemma turn_in_session act e s o e' s' :
  in_session a ex e1 e s →
  (∀ req, step_request (count_step e) act = inr req → calm env others (Some a) (Router.Step req) s) →
  step st MAX_STEPS act e s = (inr o, e', s') →
  turn_tunes a ex parts e1 w0 maps0 (Turn e s act o s') ∧ (done o = false → in_session a ex e1 e' s').
Proof.
  intros [Hh He Hs Hi Hp Hb] Hc Hst.
  destruct (step_rpc_among a act e s o e' s' Hh Hs Hc Hst)
    as (req & resp & sr & Hreq & Hip & Hport & (k & bg & Hserved & Hw & Hn) & Hrew & -> & Hd & Hlog).
  cbn zeta in Hserved, Hw, Hn. rewrite He in Hserved, Hw, Hn.
  destruct (serve_step_answered env k a req
    (Node ex (run bg (node_maps (nodes (crowd_cluster s) a)))) parts resp command_parts Hw) as (HS & Hnode & Hobs).
  rewrite Hnode in Hn. rewrite Hi in Hip. rewrite Hp in Hport. rewrite Hb in Hrew.
  cbn [node_executor] in Hn. split.
  - exists req, k, bg. cbn [turn_env turn_before turn_action turn_observation turn_after]. cbn zeta. split_and!; try done.
    + rewrite <- Hserved. by apply on_agent_prefix.
    + intros Hdone. by destruct (Hd Hdone) as [-> _].
    + intros pre i addr _ Hest <- Hk. by eapply step_tunes.
    + intros pid err Hpid. rewrite Hrew. by rewrite (Hobs pid err Hpid).
    + intros i0 d0 [Hk Hd0]%baseline. rewrite Hip, Hport. split; [done|]. intros i1 d1 Hm.
      destruct (measured_observation req _ _ _ _ _ HS Hm) as (pid & err & Hpid & <-).
      by rewrite Hrew, (Hobs pid err Hpid), Hd0.
  - intros Hdone. destruct (Hd Hdone) as [-> Hh']. split; try done. by rewrite Hn.
Qed.

Lemma episode_tunes e s l :
  episode_of a e s l → in_session a ex e1 e s → Forall (turn_tunes a ex parts e1 w0 maps0) l.
Proof.
  induction 1 as [|e s act o e' s' l Hc Hst Hd _ IH]; intros Hin; [apply Forall_nil_2|].
  destruct (turn_in_session act e s o e' s' Hin Hc Hst) as [Ht Hin']. apply Forall_cons_2; [done|].
  destruct (done o); [rewrite (Hd eq_refl); apply Forall_nil_2|]. by apply IH, Hin'.
Qed.
End session.

(** C1.  A whole episode, from the client to the kernel, among other clients.  A
    client's [reset] succeeds and then any number of its steps return.  At every
    call that the router's handlers make for it, requests of others arrive, their
    handlers make calls, the watcher and the cleanup run and the kernel invokes the
    BPF program of any agent for sockets of other processes, in any order, as long as
    no request uses the client's session and nothing ends it from the moment an agent
    is locked for it.  Then the last thing that has happened on the agent of the
    session is that it served the task's command for this reset.  Each step is one
    request to that agent and one run of that command, with the client's action
    installed, on the maps as the step before left them but for the invocations
    recorded in between.  Every connection of the run to an address with the key of
    the request gets exactly the options of that action, and the reward is that of
    the duration recorded for the process of the run against the environment's
    baseline.  If moreover the baseline was one connection, its address has the key
    of every request, and the reward of every step whose run is one connection is
    that of its duration against the baseline's, between the kernel's timestamps. *)
Theorem whole_episode e s o e1 s1 l :
  good env (crowd_cluster s) → calm_reset (next_command e) s → reset st e s = (inr o, e1, s1) →
  episode_of (obs_session o) e1 s1 l →
  ∃ parts k0 n0 pre, let a := obs_session o in
  let ex := MkExecutor (next_command e) in
  let w0 := workload env k0 a parts in
  command_line ex = inr parts ∧
  on_agent a (crowd_cluster s1) = pre ++ [Served a k0 n0 (AskReset (next_command e))] ∧
  nodes (crowd_cluster s1) a = Node ex (run w0.2 (node_maps n0)) ∧
  Forall (turn_tunes a ex parts e1 w0 (node_maps n0)) l.
Proof.
  intros Hg Hc Hr Hl. destruct (reset_answered_among e s o e1 s1 Hg Hc Hr) as (s0 & resp & Hg0 & Hc0 & Hrpc & Hok & Ha & He1).
  destruct (reset_among env text others order_visits _ _ _ _ Hg0 Hc0 Hrpc)
    as (Hh & s2 & resp0 & (k0 & bg & Hserved & Hw & Hn) & Hresp).
  rewrite <- Ha in *. assert (Success resp0 = true) as Hok0 by (by rewrite Hresp in Hok).
  destruct (serve_reset_success env _ _ _ _ _ Hw Hok0) as (parts & pid & Hcl & Hp & Hn0 & Ho0).
  rewrite Hn0 in Hn. exists parts, k0. do 2 eexists. cbn zeta. split; [done|].
  split; [rewrite Hserved, app_assoc; reflexivity|]. split; [exact Hn|].
  refine (episode_tunes _ _ _ e1 _ _ Hcl _ e1 s1 l Hl _).
  - intros i0 d0 (pid0 & err0 & m & Hp0 & Hm0 & Hmip & Hfit & Hdur & Ht0)%measures_record.
    rewrite Hp in Hp0. injection Hp0 as <- _. unfold observed in Ho0. rewrite Hm0 in Ho0.
    assert (InitialObservation resp = InitialObservation resp0) as Hi0 by (by rewrite Hresp).
    rewrite Ho0 in Hi0. rewrite He1, <- Hdur, <- Hmip. unfold start_episode. rewrite Hi0. cbn.
    split; [by apply ipToKey_remote_ip|]. destruct (Z.ltb_spec 0 (duration_us m)); [done|lia].
  - split; try done; [by rewrite Hn|]. rewrite He1. unfold start_episode. cbn. by rewrite Ha.
Qed.

End episode.

(** ** Instance *)

(** On [agent1] the second run is slower, 6 ms, as process 4243; the third takes
    3 ms. *)
Definition slow_close : helpers * bpf_sock_ops :=
  (late_helpers 26000000, sample_ctx BPF_SOCK_OPS_STATE_CB 8000 0 100000 300).
Definition staged_runs (tick : nat) : spawn_result * list (helpers * bpf_sock_ops) :=
  if Nat.ltb tick 8 then sample_runs 4
  else if Nat.ltb tick 12 then (Exited 4243 None, [late_connect; late_established; slow_close])
  else (Exited 4243 None, [late_connect; late_established; late_close]).

Definition staged_surroundings : surroundings :=
  Surroundings Z.of_nat PoolProps.keys (λ conn, if conn =? 1 then agent1 else agent2) (λ _, Delivered)
    (λ tick a _, if bool_decide (a = agent1) then staged_runs tick else sample_runs 4) (λ _, "rpc error"%string).

(** While the client's [Reset] is under way a second agent joins, and another
    client's [Reset] gets it, in between the client's own calls; while its first step
    is under way another process on [agent1] opens a connection. *)
Definition staged_others (tick : nat) : list event :=
  match tick with
  | 3%nat => [Background (CallAdd sample_dial 3 agent2); Arrives (Router.ResetRequest sample_command); Continues 0]
  | 6%nat | 8%nat => [Continues 0]
  | 10%nat => [Invoked agent1 (other_connect 99 9)]
  | _ => []
  end.

Abbreviation small_crowd' := (crowd (MA:=bounded_map 4 ip_port_key tuning_action)
  (MM:=bounded_map 4 Z tuning_metrics) (MC:=bounded_map 4 Z Z)).
Definition staged_start : small_crowd' := Crowd sample_cluster [].
Abbreviation staged := (crowd_stub (MA:=bounded_map 4 ip_port_key tuning_action)
  (MM:=bounded_map 4 Z tuning_metrics) (MC:=bounded_map 4 Z Z) staged_surroundings sample_text staged_others).

Lemma staged_ok own tick (s : small_crowd') : events_ok staged_surroundings own (staged_others tick) s.
Proof.
  assert (∀ a s', ¬ releases a (CallAdd sample_dial 3 agent2) s') as Hr by (by intros ? ? []).
  assert (op_dials staged_surroundings (CallAdd sample_dial 3 agent2)) as Hd by (by intros conn [= <-]).
  unfold staged_others. repeat case_match; cbn [events_ok possible spares op_visits]; repeat apply conj; try done;
    intros; try apply Hr; done.
Qed.

Abbreviation outcome := ((py_error + EnvObservation) * TunerEnv * small_crowd')%type.
Definition staged_reset : outcome := reset staged (new_env "e") staged_start.
Definition staged_step (r : outcome) : outcome := step staged 5 sample_env_action r.1.2 r.2.

(** What a call returned, and the last request that an agent has served: the tick
    and the maps it met. *)
Definition observed_done (r : outcome) : option (string * bool) :=
  match r.1.1 with inl _ => None | inr o => Some (obs_session o, done o) end.
Definition served_tick (x : occurrence (bounded_map 4 ip_port_key tuning_action) (bounded_map 4 Z tuning_metrics)
    (bounded_map 4 Z Z)) : option (nat * sim_state 4 4 4) :=
  match x with Served _ k n _ => Some (k, node_maps n) | Ran _ _ => None end.
Definition last_served (a : string) (r : outcome) : option (nat * sim_state 4 4 4) :=
  last (on_agent a (crowd_cluster r.2)) ≫= served_tick.

Lemma observed_done_inr r a b :
  observed_done r = Some (a, b) → ∃ o e s, r = (inr o, e, s) ∧ obs_session o = a ∧ done o = b.
Proof. destruct r as [[[err|o] e] s]; cbn; [done|]. intros [= <- <-]. by exists o, e, s. Qed.

(** The maps after the baseline and the other process's connection. *)
Definition after_other : sim_state 4 4 4 := run [other_connect 99 9] after_baseline.

Lemma slow_measures : measures (staged_runs 11) after_other late_connect 6000.
Proof.
  exists 4243, None, [late_established; slow_close], [], slow_close.
  split; [reflexivity|]. do 2 (split; [vm_compute; reflexivity|]).
  split; [vm_compute; intuition discriminate|]. split; [split; vm_compute; reflexivity|]. split.
  { intros cookie _. eapply no_owner; [vm_compute; reflexivity|].
    apply Forall_cons_2; [vm_compute; discriminate|]. apply Forall_singleton. vm_compute. discriminate. }
  split; [do 2 (apply Forall_cons_2; [intros H; vm_compute in H; discriminate H|]); apply Forall_nil_2|].
  split; [vm_compute; reflexivity|].
  do 2 (split; [vm_compute; intuition discriminate|]). vm_compute. reflexivity.
Qed.

(** The calls return, and the other client has been served in between. *)
Lemma staged_episode : ∃ (r0 r1 r2 : outcome) (s : sim_state 4 4 4),
  staged_reset = r0 ∧ staged_step r0 = r1 ∧ staged_step r1 = r2 ∧ s = after_other ∧
  observed_done r0 = Some (agent1, false) ∧ observed_done r1 = Some (agent1, false) ∧
  observed_done r2 = Some (agent1, true) ∧
  last_served agent1 r0 = Some (7%nat, small_state) ∧ last_served agent1 r1 = Some (11%nat, s) ∧
  last_served agent2 r1 = Some (8%nat, small_state).
Proof.
  exists staged_reset, (staged_step staged_reset), (staged_step (staged_step staged_reset)), after_other.
  do 4 (split; [reflexivity|]). do 5 (split; [vm_compute; reflexivity|]). vm_compute. reflexivity.
Qed.

Lemma first_attempt_decides :
  retryable (rpc_Reset staged (next_command (new_env "e")) staged_start).1 = false.
Proof. vm_compute. reflexivity. Qed.

Lemma staged_calm_reset :
  calm_reset staged_surroundings sample_text staged_others (next_command (new_env "e")) staged_start.
Proof.
  intros [|n] _ Hr; [by apply quiet_reset; [apply staged_ok|]|].
  pose proof (Hr 0%nat (Nat.lt_0_succ n)) as H. change (after_resets _ _ 0 _) with staged_start in H.
  rewrite first_attempt_decides in H. discriminate H.
Qed.

(** An episode of two steps, of 6 ms and of 3 ms against a baseline of 8 ms, with
    another client's [Reset] and another process's connection inside it. *)
Lemma whole_episode_witness :
  ∃ o e1 s1 o1 e2 s2 o2 e3 s3,
    reset staged (new_env "e") staged_start = (inr o, e1, s1) ∧
    step staged 5 sample_env_action e1 s1 = (inr o1, e2, s2) ∧
    step staged 5 sample_env_action e2 s2 = (inr o2, e3, s3) ∧
    done o1 = false ∧ done o2 = true ∧ reward o1 = reward_of 8000 6000.
Proof.
  destruct staged_episode as (r0 & r1 & r2 & b & Hr & H1 & H2 & Es & Hd & Hd1 & Hd2 & E1 & E2 & _).
  destruct (observed_done_inr _ _ _ Hd) as (o & e1 & s1 & -> & Ho & _).
  destruct (observed_done_inr _ _ _ Hd1) as (o1 & e2 & s2 & -> & _ & Ho1).
  destruct (observed_done_inr _ _ _ Hd2) as (o2 & e3 & s3 & -> & _ & Ho2).
  exists o, e1, s1, o1, e2, s2, o2, e3, s3.
  split; [exact Hr|]. split; [exact H1|]. split; [exact H2|]. do 2 (split; [assumption|]).
  destruct (whole_episode staged_surroundings sample_text staged_others 5 keys_visits (new_env "e") staged_start o e1 s1
    [Turn e1 s1 sample_env_action o1 s2; Turn e2 s2 sample_env_action o2 s3])
    as (parts & k0 & n0 & pre & _ & Hl & _ & H); cbn zeta in *.
  - apply sample_cluster_good.
  - apply staged_calm_reset.
  - exact Hr.
  - eapply episode_turn; [intros; apply quiet_step, staged_ok|exact H1|by rewrite Ho1|].
    eapply episode_turn; [intros; apply quiet_step, staged_ok|exact H2|done|]. apply episode_ends.
  - unfold last_served in E1, E2. cbn [snd] in E1, E2. rewrite Ho in Hl, H.
    rewrite Hl, last_snoc in E1. cbn [mbind option_bind served_tick] in E1. injection E1 as -> E1. rewrite E1 in H.
    apply Forall_cons in H as [(req & k & bg & Ht) _]. cbn zeta in Ht.
    destruct Ht as (_ & _ & _ & Hl2 & _ & _ & Hrew).
    cbn [turn_before turn_after turn_observation] in Hl2, Hrew.
    rewrite (proj1 (Hl2 Ho1)), app_assoc, last_snoc in E2. cbn [mbind option_bind served_tick] in E2.
    injection E2 as -> E2. rewrite E2, Es in Hrew.
    exact (proj2 (Hrew sample_connect 8000 sample_measures) late_connect 6000 slow_measures).
Defined.
