(* ===== verification/Models.v ===== *)
(** * The models of actions and observations

    [models.py]: the low-level action, the action for language models, and the
    conversions between them and to the action of the user interface, whose
    record is [TunerEnv.UIAction]; the observation for language models. *)
From Stdlib Require Import QArith.
From S2P Require Import Prelude PyFloat Agent TunerEnv.
Local Open Scope Z_scope.

(** [Literal["cubic", "bbr"]] *)
Inductive congestion := cubic | bbr.

Definition congestion_text (c : congestion) : string :=
  match c with cubic => "cubic" | bbr => "bbr" end.

(** [SocketTunerAction] *)
Record SocketTunerAction := MkSocketTunerAction {
  a_target_ip : string;
  a_target_port : Z;
  a_max_pacing_rate : Z;
  a_snd_cwnd_clamp : Z;
  a_cong_algo : Z;
  a_init_cwnd : Z;
  a_window_clamp : Z;
  a_no_delay : Z;
  a_rto_min : Z;
  a_retrans_after : Z;
  a_enable_ecn : Z;
  a_pacing_status : Z;
  a_keepalive_idle : Z;
}.

(** [LLMSocketTunerAction] *)
Record LLMSocketTunerAction := MkLLMSocketTunerAction {
  l_max_pacing_rate : Z;
  l_snd_cwnd_clamp : Z;
  l_cong_algo : congestion;
  l_init_cwnd : Z;
  l_window_clamp : Z;
  l_no_delay : bool;
  l_rto_min_ms : Z;
  l_retrans_after : Z;
  l_enable_ecn : bool;
  l_pacing_status : bool;
  l_keepalive_idle_ms : Z;
}.

(** [LLMSocketTunerObservation] *)
Record LLMSocketTunerObservation := MkLLMSocketTunerObservation {
  o_remote_ip : string;
  o_remote_port : Z;
  o_srtt_ms : Q;
  o_mdev_ms : Q;
  o_total_retrans : Z;
  o_bytes_sent : Z;
  o_bytes_received : Z;
  o_total_duration_ms : Q;
  o_session_id : string;
  o_reward : Q;
  o_done : bool;
}.

(** [1 if b else 0] *)
Definition flag (b : bool) : Z := if b then 1 else 0.

Definition unwrap (a : LLMSocketTunerAction) (ip : string) (port : Z) : SocketTunerAction :=
  MkSocketTunerAction ip port (l_max_pacing_rate a) (l_snd_cwnd_clamp a)
    (match l_cong_algo a with cubic => 1 | bbr => 2 end) (l_init_cwnd a) (l_window_clamp a)
    (flag (l_no_delay a)) (l_rto_min_ms a) (l_retrans_after a) (flag (l_enable_ecn a))
    (flag (l_pacing_status a)) (l_keepalive_idle_ms a).

Definition to_ui_action (a : LLMSocketTunerAction) : UIAction :=
  MkUIAction (l_max_pacing_rate a) (l_snd_cwnd_clamp a) (congestion_text (l_cong_algo a))
    (l_init_cwnd a) (l_window_clamp a) (flag (l_no_delay a)) (l_rto_min_ms a) (l_retrans_after a)
    (flag (l_enable_ecn a)) (flag (l_pacing_status a)) (l_keepalive_idle_ms a).

(** [LLMSocketTunerAction.wrap] *)
Definition wrap_action (a : SocketTunerAction) : LLMSocketTunerAction :=
  MkLLMSocketTunerAction (a_max_pacing_rate a) (a_snd_cwnd_clamp a)
    (if a_cong_algo a =? 1 then cubic else bbr) (a_init_cwnd a) (a_window_clamp a)
    (negb (a_no_delay a =? 0)) (a_rto_min a) (a_retrans_after a) (negb (a_enable_ecn a =? 0))
    (negb (a_pacing_status a =? 0)) (a_keepalive_idle a).

(** [us / 1000.0]: the integer is converted, then divided. *)
Definition in_ms (us : Z) : Q := float (float (inject_Z us) / 1000).

(** [LLMSocketTunerObservation.wrap] *)
Definition wrap_observation (o : EnvObservation) : LLMSocketTunerObservation :=
  let m := metrics o in
  MkLLMSocketTunerObservation (RemoteIp m) (RemotePort m) (in_ms (SrttUs m)) (in_ms (MdevUs m))
    (TotalRetrans m) (BytesSent m) (BytesReceived m) (in_ms (DurationUs m)) (obs_session o)
    (reward o) (done o).

(** The parameters of a request, against those of a low-level action. *)
Definition same_parameters (req : StepRequest) (a : SocketTunerAction) : Prop :=
  TargetIp req = a_target_ip a ∧ TargetPort req = a_target_port a ∧
  MaxPacingRate req = a_max_pacing_rate a ∧ SndCwndClamp req = a_snd_cwnd_clamp a ∧
  CongAlgo req = a_cong_algo a ∧ InitCwnd req = a_init_cwnd a ∧ WindowClamp req = a_window_clamp a ∧
  NoDelay req = a_no_delay a ∧ RtoMin req = a_rto_min a ∧ RetransAfter req = a_retrans_after a ∧
  EnableEcn req = a_enable_ecn a ∧ PacingStatus req = a_pacing_status a ∧
  KeepaliveIdle req = a_keepalive_idle a.

(** The low-level actions that the other model can express. *)
Definition expressible (a : SocketTunerAction) : Prop :=
  (a_cong_algo a = 1 ∨ a_cong_algo a = 2) ∧
  (a_no_delay a = 0 ∨ a_no_delay a = 1) ∧ (a_enable_ecn a = 0 ∨ a_enable_ecn a = 1) ∧
  (a_pacing_status a = 0 ∨ a_pacing_status a = 1).

(** ** Properties *)

Lemma flag_bool b : negb (flag b =? 0) = b.
Proof. by destruct b. Qed.

(** C24.  The two models agree.  Unwrapping an action for a target and wrapping it
    again gives it back; wrapping a low-level action and unwrapping it for its own
    target gives it back exactly when its algorithm and its flags are values the
    other model has; and the request that the environment makes of the action of
    the user interface carries the parameters of the unwrapped action. *)
Theorem models_agree l a e req :
  wrap_action (unwrap l (a_target_ip a) (a_target_port a)) = l ∧
  (unwrap (wrap_action a) (a_target_ip a) (a_target_port a) = a ↔ expressible a) ∧
  (step_request e (to_ui_action l) = inr req →
   same_parameters req (unwrap l (target_ip e) (target_port e))).
Proof.
  split_and!.
  - destruct l as [? ? [] ? ? [] ? ? [] [] ?]; reflexivity.
  - destruct a as [tip tport pr cw ca iw wc nd rto ra ecn ps ka]. unfold expressible, unwrap, wrap_action, flag. cbn.
    split.
    + intros [= H1 H2 H3 H4]. destruct (Z.eqb_spec ca 1), (Z.eqb_spec nd 0), (Z.eqb_spec ecn 0),
        (Z.eqb_spec ps 0); cbn in *; auto 10.
    + intros (Hc & Hn & He & Hp).
      destruct Hc as [-> | ->], Hn as [-> | ->], He as [-> | ->], Hp as [-> | ->]; reflexivity.
  - unfold step_request. case_bool_decide; [|discriminate]. intros [= <-].
    unfold same_parameters. cbn. split_and!; try reflexivity. by destruct (l_cong_algo l).
Qed.

(** A congestion algorithm of 0, "leave it", cannot be expressed: it is wrapped as
    [bbr]. *)
Example wrap_no_algorithm :
  l_cong_algo (wrap_action (MkSocketTunerAction "1.2.3.4" 443 0 0 0 10 0 0 0 0 0 0 0)) = bbr.
Proof. reflexivity. Qed.

(** Milliseconds are monotone in the microseconds. *)
Lemma in_ms_mono x y : x ≤ y → (in_ms x <= in_ms y)%Q.
Proof.
  intros Hxy. unfold in_ms. apply float_mono. unfold Qdiv. apply Qmult_le_compat_r; [|discriminate].
  apply float_mono. by rewrite <- Zle_Qle.
Qed.
