(* ===== verification/WebClient.v ===== *)
(** * The Python client and the web application

    [client.py]: what the client of the environment's server makes of a payload.
    [server/app.py]: the labels of the user interface, the components of the
    [gradio] module that are patched while the interface is built, and the one
    that stays patched.  The validation of an observation (pydantic), the
    components themselves (gradio) and the builder of the interface (openenv) are
    arguments.  Reading the README and serving HTTP are not modelled. *)
From Stdlib Require Import Ascii QArith.
From stdpp Require Import gmap strings.
From S2P Require Import Prelude Words PyFloat Agent TunerEnv Models.
Local Open Scope Z_scope.

(** ** [client.py] *)

(** A value of a payload. *)
#[warnings="-register-all"]
Inductive json :=
| JNull
| JBool (b : bool)
| JInt (z : Z)
| JFloat (q : Q)
| JString (s : string)
| JObject (members : gmap string json).

Inductive parse_error := TypeError | ValidationFailed.

Record StepResult := MkStepResult {
  observation : LLMSocketTunerObservation;
  result_reward : json;
  result_done : json;
}.

(** [State]: the two members the client fills in. *)
Record env_state := MkState { state_episode_id : json; state_step_count : json }.

Section parse.
(** [SocketTunerObservation] with these keyword arguments. *)
Context (validate : gmap string json → option EnvObservation).

Definition parse_result (payload : gmap string json) : parse_error + StepResult :=
  let obs_data := default (JObject ∅) (payload !! "observation") in
  let reward := default (JFloat c001) (payload !! "reward") in
  let done := default (JBool false) (payload !! "done") in
  match obs_data with
  | JObject members =>
      (* a keyword given twice *)
      if bool_decide (is_Some (members !! "reward") ∨ is_Some (members !! "done")) then inl TypeError
      else match validate (<["reward" := reward]> (<["done" := done]> members)) with
           | Some o => inr (MkStepResult (wrap_observation o) reward done)
           | None => inl ValidationFailed
           end
  | _ => inl TypeError
  end.
End parse.

Definition parse_state (payload : gmap string json) : env_state :=
  MkState (default JNull (payload !! "episode_id")) (default (JInt 0) (payload !! "step_count")).

(** ** [server/app.py]: labels *)

Definition FIELD_TO_LABEL : list (string * string) := [
  ("cong_algo", "Congestion Control Algorithm");
  ("init_cwnd", "Initial Congestion Window (CWND)");
  ("no_delay", "Disable Nagle (TCP_NODELAY)");
  ("max_pacing_rate", "Max Pacing Rate (bps)");
  ("snd_cwnd_clamp", "Send CWND Clamp");
  ("window_clamp", "Receive Window Clamp");
  ("rto_min", "Min Retransmission Timeout (ms)");
  ("retrans_after", "Retransmit After (packets)");
  ("enable_ecn", "Enable ECN");
  ("pacing_status", "Pacing Control");
  ("keepalive_idle", "Keepalive Idle Time (s)")]%string.

(** [d.get(key)] for a dictionary without duplicates. *)
Definition dict_get (d : list (string * string)) (k : string) : option string :=
  snd ∘ snd <$> list_find (λ e, e.1 = k) d.

(** [s.replace("_", " ")] *)
Fixpoint spaces (s : string) : string :=
  match s with
  | EmptyString => EmptyString
  | String c s => String (if bool_decide (c = "_"%char) then " "%char else c) (spaces s)
  end.

Definition is_letter (lo hi : Z) (c : ascii) : bool :=
  let n := Z.of_nat (nat_of_ascii c) in (lo <=? n) && (n <=? hi).
Definition is_lower := is_letter 97 122.
Definition is_upper := is_letter 65 90.
Definition shift_case (d : Z) (c : ascii) : ascii := ascii_of_nat (Z.to_nat (Z.of_nat (nat_of_ascii c) + d)).

(** [s.title()] on ASCII: a letter is upper case when no letter is before it. *)
Fixpoint title_from (after_letter : bool) (s : string) : string :=
  match s with
  | EmptyString => EmptyString
  | String c s =>
      let c' := if is_lower c && negb after_letter then shift_case (-32) c
                else if is_upper c && after_letter then shift_case 32 c else c in
      String c' (title_from (is_lower c || is_upper c) s)
  end.
Definition title (s : string) : string := title_from false s.

Definition INTERNAL_LABEL_TO_FIELD : list (string * string) :=
  (λ e, (title (spaces e.1), e.1)) <$> FIELD_TO_LABEL.

Definition get_prof_label (label : string) : string :=
  match dict_get INTERNAL_LABEL_TO_FIELD label with
  | Some field => default label (dict_get FIELD_TO_LABEL field)
  | None => label
  end.

(** ** [server/app.py]: the patched module *)

(** The values that are passed to components. *)
Inductive pyval :=
| PyNone
| PyBool (b : bool)
| PyInt (z : Z)
| PyStr (s : string)
| PyList (l : list string).

Abbreviation kwargs := (gmap string pyval).

(** The members of the module that the application replaces. *)
Record gradio (C : Type) := Gradio {
  Textbox : kwargs → C;
  Number : kwargs → C;
  Checkbox : kwargs → C;
  Dropdown : kwargs → C;
  Accordion : pyval → kwargs → C;
  Column : kwargs → C;
  TabbedInterface : list C → list string → C;
}.
Arguments Gradio {C} _ _ _ _ _ _ _.
Arguments Textbox {C} _ _.
Arguments Number {C} _ _.
Arguments Checkbox {C} _ _.
Arguments Dropdown {C} _ _.
Arguments Accordion {C} _ _ _.
Arguments Column {C} _ _.
Arguments TabbedInterface {C} _ _ _.

Definition prof_label (label : pyval) : pyval :=
  match label with PyStr s => PyStr (get_prof_label s) | _ => label end.

Section patches.
Context {C : Type}.

(** [patched_textbox], [patched_number], [patched_checkbox], [patched_dropdown] *)
Definition patched_field (original : kwargs → C) (kw : kwargs) : C :=
  original (<["label" := prof_label (default PyNone (kw !! "label"))]> kw).

Definition patched_accordion (original : pyval → kwargs → C) (label : pyval) (kw : kwargs) : C :=
  match label with
  | PyStr s => original label (if bool_decide (s = "README"%string) then <["open" := PyBool true]> kw else kw)
  | _ => original label kw
  end.

(** [x in (v or [])] for a list, a string or nothing. *)
Definition py_in (x : string) (v : pyval) : bool :=
  match v with
  | PyList l => bool_decide (x ∈ l)
  | PyStr s => contains (bytes_of_string x) (bytes_of_string s)
  | _ => false
  end.

Definition patched_column (original : kwargs → C) (kw : kwargs) : C :=
  let scale := default PyNone (kw !! "scale") in
  let min_width := default PyNone (kw !! "min_width") in
  let elem_classes := default PyNone (kw !! "elem_classes") in
  let kw := delete "scale" (delete "min_width" (delete "elem_classes" kw)) in
  let with_args s m := <["scale" := s]> (<["min_width" := m]> (<["elem_classes" := elem_classes]> kw)) in
  if py_in "col-left" elem_classes then original (with_args (PyInt 3) (PyInt 0))
  else if py_in "col-right" elem_classes then original (with_args (PyInt 2) (PyInt 0))
  else original (with_args scale min_width).

(** [custom_tabbed_interface_impl] *)
Definition custom_tabbed_interface_impl (original : list C → list string → C)
    (interface_list : list C) (tab_names : list string) : C :=
  match interface_list with
  | _ :: second :: _ => second
  | _ => original interface_list tab_names
  end.

(** Importing the module replaces [TabbedInterface] for good. *)
Definition import_app (gr : gradio C) : gradio C :=
  Gradio (Textbox gr) (Number gr) (Checkbox gr) (Dropdown gr) (Accordion gr) (Column gr)
    (custom_tabbed_interface_impl (TabbedInterface gr)).

Definition patch (gr : gradio C) : gradio C :=
  Gradio (patched_field (Textbox gr)) (patched_field (Number gr)) (patched_field (Checkbox gr))
    (patched_field (Dropdown gr)) (patched_accordion (Accordion gr)) (patched_column (Column gr))
    (TabbedInterface gr).

(** The [finally] clause. *)
Definition unpatch (original gr : gradio C) : gradio C :=
  Gradio (Textbox original) (Number original) (Checkbox original) (Dropdown original)
    (Accordion original) (Column original) (TabbedInterface gr).

(** [build] is [build_gradio_app]: an exception or a demo, and the module after. *)
Definition socket_tuner_ui_builder {E D} (build : gradio C → (E + D) * gradio C) (gr : gradio C)
    : (E + D) * gradio C :=
  let '(r, gr') := build (patch gr) in (r, unpatch gr gr').
End patches.

(** ** Properties *)

(** The fields of the action of the user interface. *)
Definition ui_fields : list string := [
  "max_pacing_rate"; "snd_cwnd_clamp"; "cong_algo"; "init_cwnd"; "window_clamp"; "no_delay";
  "rto_min"; "retrans_after"; "enable_ecn"; "pacing_status"; "keepalive_idle"]%string.

Lemma dict_get_None d k : k ∉ d.*1 → dict_get d k = None.
Proof.
  intros Hk. unfold dict_get. destruct (list_find _ d) as [[i [x y]]|] eqn:E; [|done].
  apply list_find_Some in E as (Hi & He & _). cbn in He. subst. destruct Hk.
  apply list_elem_of_fmap. exists (k, y). split; [done|]. by eapply list_elem_of_lookup_2.
Qed.

(** The labels of the user interface.  The label that is made of the name of a
    field of an action is shown as the professional label of that field, no two
    fields show the same, and any other label is shown as it is. *)
Theorem labels_professional label :
  (∀ field, field ∈ ui_fields →
     ∃ l, dict_get FIELD_TO_LABEL field = Some l ∧ get_prof_label (title (spaces field)) = l) ∧
  NoDup ((λ f, get_prof_label (title (spaces f))) <$> ui_fields) ∧
  (label ∉ (λ f, title (spaces f)) <$> ui_fields → get_prof_label label = label).
Proof.
  split_and!.
  - intros field Hf. unfold ui_fields in Hf. rewrite !elem_of_cons in Hf.
    repeat (destruct Hf as [->|Hf]; [eexists; split; vm_compute; reflexivity|]).
    by apply elem_of_nil in Hf.
  - apply (bool_decide_unpack _). vm_compute. exact I.
  - intros Hl. unfold get_prof_label. rewrite dict_get_None; [done|]. intros Hin. apply Hl.
    assert (INTERNAL_LABEL_TO_FIELD.*1 ≡ₚ (λ f, title (spaces f)) <$> ui_fields) as Hp
      by (apply (bool_decide_unpack _); vm_compute; exact I).
    by rewrite <- Hp.
Qed.

(** While the interface is built its components have the professional labels, and
    afterwards, whether the builder raised or not and whatever it did to the module,
    the components are the original ones. *)
Theorem components_restored {C E D} (build : gradio C → (E + D) * gradio C) (gr : gradio C) :
  let gr' := (socket_tuner_ui_builder build gr).2 in
  (socket_tuner_ui_builder build gr).1 = (build (patch gr)).1 ∧
  Textbox gr' = Textbox gr ∧ Number gr' = Number gr ∧ Checkbox gr' = Checkbox gr ∧
  Dropdown gr' = Dropdown gr ∧ Accordion gr' = Accordion gr ∧ Column gr' = Column gr ∧
  TabbedInterface gr' = TabbedInterface (build (patch gr)).2 ∧
  (∀ kw label, kw !! "label" = Some (PyStr label) →
     Textbox (patch gr) kw = Textbox gr (<["label" := PyStr (get_prof_label label)]> kw)).
Proof.
  cbn zeta. unfold socket_tuner_ui_builder. destruct (build (patch gr)) as [r gr']. cbn. split_and!; try done.
  intros kw label Hl. unfold patched_field. by rewrite Hl.
Qed.

(** The payload of an observation: its members, without its reward, its end and
    its metadata, which are sent beside it or not at all. *)
Definition dump (o : EnvObservation) : gmap string json :=
  let m := metrics o in
  list_to_map [("remote_ip", JString (RemoteIp m)); ("remote_port", JInt (RemotePort m));
    ("srtt_us", JInt (SrttUs m)); ("mdev_us", JInt (MdevUs m));
    ("total_retrans", JInt (TotalRetrans m)); ("bytes_sent", JInt (BytesSent m));
    ("bytes_received", JInt (BytesReceived m)); ("duration_us", JInt (DurationUs m));
    ("session_id", JString (obs_session o))]%string.
Definition payload_of (o : EnvObservation) : gmap string json :=
  list_to_map [("observation", JObject (dump o)); ("reward", JFloat (reward o));
    ("done", JBool (done o))]%string.

(** The model validates the members it is given to an observation that has them. *)
Definition validates (validate : gmap string json → option EnvObservation) : Prop :=
  ∀ o, ∃ o', validate (<["reward" := JFloat (reward o)]> (<["done" := JBool (done o)]> (dump o))) = Some o' ∧
    metrics o' = metrics o ∧ obs_session o' = obs_session o ∧ reward o' = reward o ∧ done o' = done o.

(** The client recovers from a payload what the language model is to see of the
    observation that the server sent. *)
Theorem parse_result_roundtrip validate o :
  validates validate →
  parse_result validate (payload_of o) =
    inr (MkStepResult (wrap_observation o) (JFloat (reward o)) (JBool (done o))).
Proof.
  intros Hv. destruct (Hv o) as (o' & E & Hm & Hs & Hr & Hd).
  unfold parse_result.
  assert (payload_of o !! "observation"%string = Some (JObject (dump o))) as -> by done.
  assert (payload_of o !! "reward"%string = Some (JFloat (reward o))) as -> by done.
  assert (payload_of o !! "done"%string = Some (JBool (done o))) as -> by done.
  cbn [default from_option id]. rewrite bool_decide_eq_false_2; [|by intros [[? H]|[? H]]].
  rewrite E. unfold wrap_observation. by rewrite Hm, Hs, Hr, Hd.
Qed.
