(* ===== verification/Inference.v ===== *)
(** * The inference script

    [inference.py]: three episodes of at most five steps, each step an action that
    a language model proposes, and the lines that the script prints.  The client
    of the environment and the language model are a world of type [W]; an
    exception is its text.  The history of an episode, which the handler of an
    exception reads, and the output are part of the state of the script. *)
From Stdlib Require Import QArith Qabs.
From stdpp Require Import pretty.
From S2P Require Import Prelude PyFloat Agent TunerEnv Models.
Local Open Scope Z_scope.

(** ** Formatting *)

Fixpoint zeros (n : nat) : string := match n with O => EmptyString | S n => "0" +:+ zeros n end.

(** [f"{x:.nf}"]: the exact value is rounded to [n] decimals, ties to even. *)
Definition fixed (n : nat) (x : Q) : string :=
  let p := 10 ^ Z.of_nat n in
  let k := nearest (Qabs x * inject_Z p) in
  let frac := pretty (k mod p) in
  (if Qle_bool 0 x then "" else "-") +:+ pretty (k / p) +:+ "." +:+
  zeros (n - String.length frac) +:+ frac.

Definition bool_text (b : bool) : string := if b then "true" else "false".

(** [",".join(l)] *)
Fixpoint join (sep : string) (l : list string) : string :=
  match l with
  | [] => EmptyString
  | [s] => s
  | s :: l => s +:+ sep +:+ join sep l
  end.

Definition log_start (task env model : string) : string :=
  "[START] task=" +:+ task +:+ " env=" +:+ env +:+ " model=" +:+ model.

(** An empty error prints as [null] too. *)
Definition log_step (step : Z) (action : string) (reward : Q) (done : bool) (error : option string) : string :=
  let error_val := match error with
                   | Some e => if bool_decide (e = EmptyString) then "null" else e
                   | None => "null"
                   end%string in
  "[STEP] step=" +:+ pretty step +:+ " action=" +:+ action +:+ " reward=" +:+ fixed 2 reward +:+
  " done=" +:+ bool_text done +:+ " error=" +:+ error_val.

Definition log_end (success : bool) (steps : Z) (score : Q) (rewards : list Q) : string :=
  "[END] success=" +:+ bool_text success +:+ " steps=" +:+ pretty steps +:+ " score=" +:+ fixed 3 score +:+
  " rewards=" +:+ join "," (fixed 2 <$> rewards).

(** ** Scores *)

Definition MAX_STEPS : nat := 5.
Definition SUCCESS_SCORE_THRESHOLD : Q := float (1 # 10).
Definition MAX_TOTAL_REWARD : Q := 5.

(** [x + y], [x - y] and [abs(x)] on floats. *)
Definition add (x y : Q) : Q := float (x + y).
Definition sub (x y : Q) : Q := float (x - y).

(** [sum] on a list of floats, as Python computes it before version 3.12. *)
Definition sum_plain (l : list Q) : Q := foldl add 0%Q l.

(** [sum] since version 3.12: the errors of the additions are summed apart. *)
Definition compensate (acc : Q * Q) (x : Q) : Q * Q :=
  let '(hi, lo) := acc in
  let t := add hi x in
  (t, if Qle_bool (Qabs x) (Qabs hi) then add lo (add (sub hi t) x) else add lo (add (sub x t) hi)).
Definition sum_compensated (l : list Q) : Q :=
  let '(hi, lo) := foldl compensate (0%Q, 0%Q) l in add hi lo.

(** [round(x, 3)] *)
Definition round3 (x : Q) : Q := float (inject_Z (nearest (x * 1000)) / 1000).

(** ** Data *)

(** [StepResult] *)
Record StepResult := MkStepResult {
  result_observation : LLMSocketTunerObservation;
  result_reward : option Q;
  result_done : bool;
}.

(** An entry of [episode_history]. *)
Record entry := Entry {
  entry_step : Z;
  entry_action : string;
  entry_obs : LLMSocketTunerObservation;
  entry_reward : Q;
}.

(** What [build_user_prompt] puts into its text. *)
Record prompt := Prompt {
  prompt_step : Z;
  prompt_target : string * Z;
  prompt_srtt_ms : Q;
  prompt_retrans : Z;
  prompt_reward : string;
  prompt_history : string;
}.

(** The client of the environment and the language model: entering, leaving and
    calling the client may raise an exception with a text.  A completion is
    [None] when anything from the call to the validation of the answer raises. *)
Record world (W : Type) := World {
  env_enter : W → option string * W;
  env_reset : W → (string + StepResult) * W;
  env_step : UIAction → W → (string + StepResult) * W;
  env_exit : W → option string * W;
  complete : prompt → W → option LLMSocketTunerAction * W;
}.
Arguments World {W} _ _ _ _ _.
Arguments env_enter {W} _ _.
Arguments env_reset {W} _ _.
Arguments env_step {W} _ _ _.
Arguments env_exit {W} _ _.
Arguments complete {W} _ _ _.

(** [LLMSocketTunerAction(cong_algo="cubic", init_cwnd=10, no_delay=False)] *)
Definition fallback : LLMSocketTunerAction := MkLLMSocketTunerAction 0 0 cubic 10 0 false 0 0 false false 0.

Definition newline : string := String (Ascii.ascii_of_nat 10) EmptyString.

(** [history[-4:]] *)
Definition last4 {A} (l : list A) : list A := drop (length l - 4) l.

Definition build_user_prompt (step : Z) (last_obs : LLMSocketTunerObservation) (last_reward : Q)
    (history : list string) : prompt :=
  Prompt step (o_remote_ip last_obs, o_remote_port last_obs) (o_srtt_ms last_obs) (o_total_retrans last_obs)
    (fixed 2 last_reward)
    (match history with [] => "None" | _ => join newline (last4 history) end)%string.

(** ** The script *)

Section script.
Context {W : Type} (env : world W) (sum : list Q → Q) (TASK_NAME BENCHMARK MODEL_NAME : string).

Record script_state := ScriptState { the_world : W; output : list string; episode_history : list entry }.

(** A computation that may raise an exception with a text. *)
Definition script (A : Type) : Type := script_state → (string + A) * script_state.

#[export] Instance script_ret : MRet script := λ A x s, (inr x, s).
#[export] Instance script_bind : MBind script := λ A B f c s,
  let '(r, s) := c s in match r with inl e => (inl e, s) | inr x => f x s end.

Definition call {A} (f : W → (string + A) * W) : script A := λ s,
  let '(r, w) := f (the_world s) in (r, ScriptState w (output s) (episode_history s)).
Definition raise {A} (e : string) : script A := λ s, (inl e, s).
Definition print (line : string) : script unit := λ s,
  (inr tt, ScriptState (the_world s) (output s ++ [line]) (episode_history s)).
Definition get_history : script (list entry) := λ s, (inr (episode_history s), s).
Definition set_history (h : list entry) : script unit := λ s, (inr tt, ScriptState (the_world s) (output s) h).

(** [try: c except Exception as e: handler(e)] *)
Definition catch {A} (c : script A) (handler : string → script A) : script A := λ s,
  let '(r, s) := c s in match r with inl e => handler e s | inr x => (inr x, s) end.

(** [sub in str(e).lower()] *)
Definition mentions (sub e : string) : bool := contains (Words.bytes_of_string sub) (lower e).

Definition get_model_action (step : Z) (last_obs : LLMSocketTunerObservation) (last_reward : Q)
    (history : list string) : script UIAction :=
  answer ← call (λ w, let '(r, w) := complete env (build_user_prompt step last_obs last_reward history) w in
                      (inr r, w));
  mret (to_ui_action (default fallback answer)).

(** The loop around [env.reset]; [None] when its attempts are used up. *)
Fixpoint reset_loop (n : nat) : script (option StepResult) :=
  match n with
  | O => mret None
  | S n =>
      catch (result ← call (env_reset env); mret (Some result))
        (λ e, if mentions "no free agents" e && negb (Nat.eqb n 0) then reset_loop n else raise e)
  end.

(** The loop around [env.step]. *)
Fixpoint step_loop (n : nat) (action : UIAction) : script (option StepResult) :=
  match n with
  | O => mret None
  | S n =>
      catch (result ← call (env_step env action); mret (Some result))
        (λ e, if (mentions "no metric found" e || mentions "invalid ipv4" e) && negb (Nat.eqb n 0)
              then step_loop n action else raise e)
  end.

Definition history_line (h : entry) : string :=
  "Step " +:+ pretty (entry_step h) +:+ ": " +:+ entry_action h +:+ " -> " +:+ fixed 2 (entry_reward h).

Definition action_text (a : UIAction) : string :=
  "algo=" +:+ ui_cong_algo a +:+ ",init_cwnd=" +:+ pretty (ui_init_cwnd a).

(** The body of the loop over the steps: the result of the step. *)
Definition one_step (step : Z) (result : StepResult) (last_obs : LLMSocketTunerObservation) : script StepResult :=
  history ← get_history;
  action ← get_model_action step last_obs
             (match last history with Some h => entry_reward h | None => c001 end) (history_line <$> history);
  r ← step_loop 3 action;
  let result := default result r in
  let online_reward := default c001 (result_reward result) in
  _ ← set_history (history ++ [Entry step (action_text action) (result_observation result) online_reward]);
  _ ← print (log_step step (action_text action) online_reward (result_done result) None);
  mret result.

(** [for step in ...] *)
Fixpoint steps_loop (steps : list Z) (result : StepResult) (last_obs : LLMSocketTunerObservation) : script unit :=
  match steps with
  | [] => mret tt
  | step :: steps =>
      if result_done result then mret tt
      else
        result ← one_step step result last_obs;
        if result_done result then mret tt
        else steps_loop steps result (result_observation result)
  end.

(** The score of the rewards, and whether it is a success. *)
Definition score_of (rewards : list Q) : Q :=
  round3 (py_min (py_max (float (sum rewards / MAX_TOTAL_REWARD)) c001) c099).
Definition is_success (score : Q) : bool := Qle_bool SUCCESS_SCORE_THRESHOLD score.

(** The [try] block: [None] when it leaves by [continue]. *)
Definition play_episode : script (option unit) :=
  r ← reset_loop 3;
  match r with
  | None => mret None
  | Some result =>
      result ← (if bool_decide (o_remote_ip (result_observation result) = EmptyString)
                then call (env_reset env) else mret result);
      _ ← steps_loop (seqZ 1 (Z.of_nat MAX_STEPS)) result (result_observation result);
      mret (Some tt)
  end.

(** One episode.  Both the end of the [try] block and the handler of an exception
    compute the same results from the history. *)
Definition episode : script unit :=
  _ ← print (log_start TASK_NAME BENCHMARK MODEL_NAME);
  _ ← set_history [];
  r ← catch play_episode (λ _, mret (Some tt));
  history ← get_history;
  match r with
  | None => print (log_end false 0 c001 [])
  | Some _ =>
      let rewards := entry_reward <$> history in
      let score := score_of rewards in
      print (log_end (is_success score) (Z.of_nat (length rewards)) score rewards)
  end.

Definition num_tasks : nat := 3.

Fixpoint episodes (n : nat) : script unit :=
  match n with O => mret tt | S n => _ ← episode; episodes n end.

(** The result and the output of the script.  The client is left whatever its body
    did; an exception that leaving it raises replaces that of the body. *)
Definition main (w : W) : (string + unit) * script_state :=
  let '(failed, w) := env_enter env w in
  match failed with
  | Some e => (inl e, ScriptState w [] [])
  | None =>
      let '(r, s) := episodes num_tasks (ScriptState w [] []) in
      let '(failed, w) := env_exit env (the_world s) in
      (match failed with Some e => inl e | None => r end, ScriptState w (output s) (episode_history s))
  end.

End script.
Arguments ScriptState {W} _ _ _.
Arguments the_world {W} _.
Arguments output {W} _.
Arguments episode_history {W} _.

Example fixed_half : fixed 2 (1 # 8) = "0.12"%string.
Proof. vm_compute. reflexivity. Qed.
Example fixed_negative : fixed 3 (- (5 # 4)) = "-1.250"%string.
Proof. vm_compute. reflexivity. Qed.
