(* ===== verification/InferenceProps.v ===== *)
(** * Properties of the inference script

    The lines that it prints whatever the environment and the model do, and the
    score of an episode whose rewards are those that the environment gives. *)
From Stdlib Require Import QArith Qabs Lqa.
From stdpp Require Import pretty.
From S2P Require Import Prelude PyFloat Agent TunerEnv Models Inference.
Local Open Scope Z_scope.

Lemma prefix_seqZ m n l : l `prefix_of` seqZ m n → l = seqZ m (Z.of_nat (length l)).
Proof.
  intros Hp. pose proof (prefix_length _ _ Hp) as Hl. rewrite length_seqZ in Hl.
  apply list_eq. intros i. destruct (l !! i) as [x|] eqn:Hx.
  - pose proof (lookup_lt_Some _ _ _ Hx). eapply prefix_lookup_Some in Hp as Hi; [|done].
    apply lookup_seqZ in Hi as [-> ?]. symmetry. apply lookup_seqZ. lia.
  - symmetry. apply lookup_ge_None. rewrite length_seqZ. apply lookup_ge_None in Hx. lia.
Qed.

Section script.
Context {W : Type} (env : world W) (sum : list Q → Q) (TASK_NAME BENCHMARK MODEL_NAME : string).
Abbreviation state := (script_state (W:=W)).
Abbreviation script := (script (W:=W)).
Implicit Types s : state.

(** ** Computations that print nothing *)

Definition silent {A} (c : script A) : Prop :=
  ∀ s, output (c s).2 = output s ∧ episode_history (c s).2 = episode_history s.

Lemma silent_ret {A} (x : A) : silent (mret x).
Proof. done. Qed.
Lemma silent_raise {A} e : silent (raise (A:=A) e).
Proof. done. Qed.
Lemma silent_call {A} (f : W → (string + A) * W) : silent (call f).
Proof. intros s. unfold call. by destruct (f (the_world s)). Qed.

Lemma silent_bind {A B} (c : script A) (f : A → script B) :
  silent c → (∀ x, silent (f x)) → silent (x ← c; f x).
Proof.
  intros Hc Hf s. unfold mbind, script_bind. destruct (Hc s) as [Ho Hh].
  destruct (c s) as [[e|x] s1]; [done|]. cbn in Ho, Hh. rewrite <- Ho, <- Hh. apply Hf.
Qed.

Lemma silent_catch {A} (c : script A) (h : string → script A) :
  silent c → (∀ e, silent (h e)) → silent (catch c h).
Proof.
  intros Hc Hh s. unfold catch. destruct (Hc s) as [Ho Hs].
  destruct (c s) as [[e|x] s1]; [|done]. cbn in Ho, Hs. rewrite <- Ho, <- Hs. apply Hh.
Qed.

#[local] Hint Resolve silent_ret silent_raise silent_call silent_bind silent_catch : tuner.

Lemma silent_reset n : silent (reset_loop env n).
Proof.
  induction n as [|n IH]; cbn [reset_loop]; [auto with tuner|].
  apply silent_catch; [auto with tuner|]. intros e. case_match; auto with tuner.
Qed.

Lemma silent_step n a : silent (step_loop env n a).
Proof.
  induction n as [|n IH]; cbn [step_loop]; [auto with tuner|].
  apply silent_catch; [auto with tuner|]. intros e. case_match; auto with tuner.
Qed.

Lemma silent_action step obs reward h : silent (get_model_action env step obs reward h).
Proof. unfold get_model_action. auto with tuner. Qed.

(** The loop around [reset] never uses its attempts up without an exception. *)
Lemma reset_loop_result n s : (reset_loop env (S n) s).1 ≠ inr None.
Proof.
  revert s. induction n as [|n IH]; intros s; cbn [reset_loop]; unfold catch, mbind, script_bind;
    destruct (call (env_reset env) s) as [[e|r] s1]; try done; cbn [Nat.eqb negb];
    rewrite ?andb_false_r, ?andb_true_r; try done. case_match; [apply IH|done].
Qed.

(** ** Lines *)

(** The line of an entry of the history. *)
Definition step_line (h : entry) (done : bool) : string :=
  log_step (entry_step h) (entry_action h) (entry_reward h) done None.

Lemma one_step_spec step result obs s :
  match one_step env step result obs s with
  | (inl _, s') => output s' = output s ∧ episode_history s' = episode_history s
  | (inr r, s') => ∃ h, entry_step h = step ∧ episode_history s' = episode_history s ++ [h] ∧
      output s' = output s ++ [step_line h (result_done r)]
  end.
Proof.
  unfold one_step, mbind, script_bind, get_history.
  pose proof (silent_action step obs
    (match last (episode_history s) with Some h => entry_reward h | None => c001 end)
    (history_line <$> episode_history s) s) as [Ho1 Hh1].
  destruct (get_model_action _ _ _ _ _ s) as [[e|a] s1]; [done|]. cbn in Ho1, Hh1.
  pose proof (silent_step 3 a s1) as [Ho2 Hh2]. rewrite Ho1 in Ho2. rewrite Hh1 in Hh2.
  destruct (step_loop env 3 a s1) as [[e|r] s2]; [done|]. cbn in Ho2, Hh2 |- *.
  eexists. split; [|split; [done|]]; [done|]. by rewrite Ho2.
Qed.

(** What a run of the loop adds to the history and to the output: consecutive
    steps, of which only the last may be done. *)
Lemma steps_loop_spec steps result obs s :
  let s' := (steps_loop env steps result obs s).2 in
  ∃ hs ds, length hs = length ds ∧ (entry_step <$> hs) `prefix_of` steps ∧
    (∀ i, ds !! i = Some true → S i = length ds) ∧
    episode_history s' = episode_history s ++ hs ∧
    output s' = output s ++ zip_with step_line hs ds.
Proof.
  revert result obs s. induction steps as [|step steps IH]; intros result obs s; cbn [steps_loop].
  - exists [], []. by rewrite !app_nil_r.
  - destruct (result_done result); [exists [], []; rewrite !app_nil_r; split_and!; try done; apply prefix_nil|].
    unfold mbind, script_bind. pose proof (one_step_spec step result obs s) as H.
    destruct (one_step env step result obs s) as [[e|r] s1].
    + destruct H as [Ho Hh]. exists [], []. rewrite !app_nil_r. split_and!; try done. apply prefix_nil.
    + destruct H as (h & Hs & Hh & Ho). destruct (result_done r) eqn:Hd.
      * exists [h], [true]. split_and!; try done.
        -- cbn. rewrite Hs. apply prefix_cons, prefix_nil.
        -- by intros [|i].
      * destruct (IH r (result_observation r) s1) as (hs & ds & Hl & Hp & Hdone & Hh' & Ho').
        exists (h :: hs), (false :: ds). cbn [length zip_with]. split_and!; [lia| | | |].
        -- cbn. rewrite Hs. by apply prefix_cons.
        -- intros [|i] Hi; [done|]. cbn in Hi. by rewrite (Hdone i).
        -- by rewrite Hh', Hh, <- app_assoc.
        -- by rewrite Ho', Ho, <- app_assoc.
Qed.

(** An episode as the output shows it: the steps taken, and whether each was done. *)
Record shown := Shown { shown_steps : list entry; shown_done : list bool }.

Definition well_formed (e : shown) : Prop :=
  length (shown_done e) = length (shown_steps e) ∧ (length (shown_steps e) ≤ MAX_STEPS)%nat ∧
  entry_step <$> shown_steps e = seqZ 1 (Z.of_nat (length (shown_steps e))) ∧
  ∀ i, shown_done e !! i = Some true → S i = length (shown_done e).

Definition episode_lines (e : shown) : list string :=
  let rewards := entry_reward <$> shown_steps e in
  [log_start TASK_NAME BENCHMARK MODEL_NAME] ++
  zip_with step_line (shown_steps e) (shown_done e) ++
  [log_end (is_success (score_of sum rewards)) (Z.of_nat (length rewards)) (score_of sum rewards) rewards].

Lemma play_episode_spec s :
  episode_history s = [] →
  (play_episode env s).1 ≠ inr None ∧
  let s' := (play_episode env s).2 in
  ∃ ds, well_formed (Shown (episode_history s') ds) ∧
    output s' = output s ++ zip_with step_line (episode_history s') ds.
Proof.
  intros Hs. assert (∀ s', output s' = output s → episode_history s' = episode_history s →
    ∃ ds, well_formed (Shown (episode_history s') ds) ∧
      output s' = output s ++ zip_with step_line (episode_history s') ds) as Hnone.
  { intros s' Ho Hh. rewrite Hh, Hs. exists []. cbn. rewrite app_nil_r. split; [|done].
    repeat split; [unfold MAX_STEPS; cbn; lia|by intros i]. }
  unfold play_episode, mbind, script_bind. destruct (silent_reset 3 s) as [Ho Hh].
  pose proof (reset_loop_result 2 s) as Hr.
  destruct (reset_loop env 3 s) as [[e|[result|]] s1]; cbn in Ho, Hh, Hr; [auto| |done].
  set (again := if bool_decide _ then _ else _ : script StepResult).
  assert (silent again) as Hag by (subst again; case_match; [apply silent_call|apply silent_ret]).
  destruct (Hag s1) as [Ho2 Hh2]. rewrite Ho in Ho2. rewrite Hh in Hh2.
  destruct (again s1) as [[e|result'] s2]; cbn in Ho2, Hh2; [auto|].
  destruct (steps_loop_spec (seqZ 1 (Z.of_nat MAX_STEPS)) result' (result_observation result') s2)
    as (hs & ds & Hl & Hp & Hd & Hh3 & Ho3). rewrite Hh2, Hs in Hh3. rewrite Ho2 in Ho3. cbn in Hh3.
  assert ((length hs ≤ MAX_STEPS)%nat ∧ entry_step <$> hs = seqZ 1 (Z.of_nat (length hs))) as [Hlen Hseq].
  { pose proof (prefix_length _ _ Hp) as Hle. rewrite length_fmap, length_seqZ in Hle.
    split; [lia|]. apply prefix_seqZ in Hp. by rewrite length_fmap in Hp. }
  destruct (steps_loop _ _ _ _ s2) as [[e|[]] s3]; cbn in Hh3, Ho3 |- *; (split; [done|]);
    exists ds; rewrite Hh3; (split; [|done]); repeat split; done.
Qed.

Lemma episode_spec s :
  ∃ e, well_formed e ∧ (episode env sum TASK_NAME BENCHMARK MODEL_NAME s).1 = inr tt ∧
    output (episode env sum TASK_NAME BENCHMARK MODEL_NAME s).2 = output s ++ episode_lines e.
Proof.
  unfold episode, catch, mbind, script_bind, print, set_history, get_history. cbn [the_world output episode_history].
  set (s1 := ScriptState _ _ []). destruct (play_episode_spec s1 eq_refl) as [Hr (ds & Hw & Ho)].
  destruct (play_episode env s1) as [[e|[[]|]] s2]; cbn [fst snd] in *; [| |done];
    exists (Shown (episode_history s2) ds); (split; [done|]); cbn; (split; [done|]);
    rewrite Ho; unfold s1, episode_lines; cbn; by rewrite <- !app_assoc.
Qed.

Lemma episodes_spec n s :
  ∃ es, length es = n ∧ Forall well_formed es ∧
    (episodes env sum TASK_NAME BENCHMARK MODEL_NAME n s).1 = inr tt ∧
    output (episodes env sum TASK_NAME BENCHMARK MODEL_NAME n s).2 = output s ++ concat (episode_lines <$> es).
Proof.
  revert s. induction n as [|n IH]; intros s; cbn [episodes].
  - exists []. cbn. by rewrite app_nil_r.
  - unfold mbind, script_bind. destruct (episode_spec s) as (e & Hw & Hr & Ho).
    destruct (episode _ _ _ _ _ s) as [r s1]. cbn [fst snd] in Hr, Ho. subst r.
    destruct (IH s1) as (es & Hl & Hf & Hr & Ho'). exists (e :: es). cbn [length fmap list_fmap concat].
    split_and!; [by rewrite Hl|by constructor|done|]. by rewrite Ho', Ho, <- app_assoc.
Qed.

(** C22.  The output.  Whatever the environment and the model answer and raise,
    when entering the client raises the script prints nothing and raises that;
    once it is entered the script prints exactly three episodes, each a start line,
    at most five step lines numbered from 1, of which only the last may be done, and
    an end line whose number of steps, rewards, score and success are those of the
    printed steps.  Then it leaves the client, in the world that the episodes have
    left, and returns normally unless that raises; no other exception leaves it. *)
Theorem inference_output w :
  let r := main env sum TASK_NAME BENCHMARK MODEL_NAME w in
  match env_enter env w with
  | (Some e, _) => r.1 = inl e ∧ output r.2 = []
  | (None, w1) =>
      (∃ es, length es = num_tasks ∧ Forall well_formed es ∧ output r.2 = concat (episode_lines <$> es)) ∧
      let s := (episodes env sum TASK_NAME BENCHMARK MODEL_NAME num_tasks (ScriptState w1 [] [])).2 in
      the_world r.2 = (env_exit env (the_world s)).2 ∧
      r.1 = match (env_exit env (the_world s)).1 with Some e => inl e | None => inr tt end
  end.
Proof.
  cbn zeta. unfold main. destruct (env_enter env w) as [[e|] w1]; [done|].
  destruct (episodes_spec num_tasks (ScriptState w1 [] [])) as (es & Hl & Hf & Hr & Ho).
  destruct (episodes _ _ _ _ _ _ _) as [r s]. cbn [fst snd] in *. subst r.
  destruct (env_exit env (the_world s)) as [[e|] w2]; eauto 6.
Qed.

End script.

(** ** Scores *)

Section scores.
Local Open Scope Q_scope.

(** The rewards of the environment, in hundredths. *)
Definition in_hundredths (r : Q) (k : Z) : Prop := r = float (inject_Z k / 100) ∧ (1 ≤ k ≤ 99)%Z.

Definition total (ks : list Z) : Z := foldr Z.add 0%Z ks.

(** [k] hundredths. *)
Definition cents (k : Z) : Q := inject_Z k * (1 # 100).

Lemma cents_add a b : cents (a + b) == cents a + cents b.
Proof. unfold cents. rewrite inject_Z_plus. ring. Qed.

Lemma cents_bounds a b k : (a ≤ k ≤ b)%Z → cents a <= cents k <= cents b.
Proof. intros [H1 H2]. rewrite Zle_Qle in H1, H2. unfold cents. split; lra. Qed.

(** [x] is [y] up to [e]. *)
Definition near (e x y : Q) : Prop := y - e <= x <= y + e.

Lemma ulp8_small : 0 < ulp8 ∧ ulp8 < 1 # 1000000000.
Proof. done. Qed.

Lemma hundredth_near r k : in_hundredths r k → near ulp8 r (cents k).
Proof.
  intros [-> Hk]. apply (cents_bounds 1 99) in Hk. change (cents 1) with (1 # 100) in Hk.
  change (cents 99) with (99 # 100) in Hk. destruct Hk as [Hk1 Hk2]. assert (inject_Z k / 100 == cents k) as He by reflexivity.
  destruct ulp8_small as [Hu1 Hu2]. destruct (float_error (inject_Z k / 100)) as [H1 H2]; [rewrite He; split; lra|].
  unfold near. rewrite He in H1, H2 |- *. split; lra.
Qed.

Lemma hundredth_range r k : in_hundredths r k → 0 <= r <= 1 ∧ 0 <= cents k <= 1.
Proof.
  intros H. pose proof (hundredth_near r k H) as [H1 H2]. destruct H as [_ Hk].
  apply (cents_bounds 1 99) in Hk. change (cents 1) with (1 # 100) in Hk.
  change (cents 99) with (99 # 100) in Hk. destruct Hk as [Hk1 Hk2], ulp8_small as [Hu1 Hu2].
  repeat split; lra.
Qed.

Lemma total_range rs ks : Forall2 in_hundredths rs ks →
  (Z.of_nat (length rs) ≤ total ks ≤ 99 * Z.of_nat (length rs))%Z.
Proof.
  induction 1 as [|r k rs ks [_ Hk] _ IH]; [done|]. cbn [length total foldr] in *.
  change (foldr Z.add 0%Z ks) with (total ks). lia.
Qed.

(** The plain sum, from an accumulator near [a]. *)
Lemma sum_near rs ks acc a e :
  Forall2 in_hundredths rs ks → near e acc a → 0 <= a → 0 <= e →
  a + inject_Z (Z.of_nat (length rs)) <= 6 → e + 2 * inject_Z (Z.of_nat (length rs)) * ulp8 <= 1 →
  near (e + 2 * inject_Z (Z.of_nat (length rs)) * ulp8) (foldl add acc rs) (a + cents (total ks)) ∧
  -(1) <= foldl add acc rs <= 7.
Proof.
  intros Hf. revert acc a e. induction Hf as [|r k rs ks Hr _ IH]; intros acc a e [Ha1 Ha2] Ha He Hle Hsmall.
  - cbn [length foldl Z.of_nat] in *. change (inject_Z (Z.of_nat 0)) with 0 in *.
    assert (cents (total []) == 0) as E by reflexivity. unfold near. rewrite E. repeat split; lra.
  - cbn [length foldl] in *. rewrite Nat2Z.inj_succ, <- Z.add_1_r, inject_Z_plus in *.
    change (inject_Z 1) with 1 in *. set (n := inject_Z (Z.of_nat (length rs))) in *.
    assert (0 <= n) as Hn by (subst n; change 0 with (inject_Z 0); rewrite <- Zle_Qle; lia).
    pose proof (hundredth_near r k Hr) as [H1 H2]. destruct (hundredth_range r k Hr) as [[H3 H4] [H5 H6]].
    pose proof ulp8_small as [Hu1 Hu2]. assert (0 <= n * ulp8) by nra.
    destruct (float_error (acc + r)) as [H7 H8]; [split; nra|]. fold (add acc r) in H7, H8.
    destruct (IH (add acc r) (a + cents k) (e + 2 * ulp8)) as [[H9 H10] H11];
      [split; lra|lra|lra|lra|lra|].
    split; [|done]. unfold near, total in *. cbn [foldr]. rewrite cents_add. split; lra.
Qed.

(** The correction of one addition. *)
Lemma compensate_near hi lo x m :
  -(1) <= hi <= 7 → -(1) <= add hi x <= 7 → 0 <= x <= 1 → near m lo 0 → 0 <= m → m <= 1 →
  near (m + 4 * ulp8) (compensate (hi, lo) x).2 0 ∧ (compensate (hi, lo) x).1 = add hi x.
Proof.
  intros Hh Ht Hx [Hl1 Hl2] Hm0 Hm. pose proof ulp8_small as [Hu1 Hu2].
  destruct (float_error (hi + x)) as [H1 H2]; [split; lra|]. fold (add hi x) in H1, H2.
  set (t := add hi x) in *.
  assert (∀ c, near (3 * ulp8) c 0 → near (m + 4 * ulp8) (add lo c) 0) as Hadd.
  { intros c [Hc1 Hc2]. destruct (float_error (lo + c)) as [H3 H4]; [split; lra|].
    unfold near, add. split; lra. }
  unfold compensate. fold t. split; [|done]. cbn [snd]. case_match; apply Hadd.
  - destruct (float_error (hi - t)) as [H3 H4]; [split; lra|]. fold (sub hi t) in H3, H4.
    destruct (float_error (sub hi t + x)) as [H5 H6]; [split; lra|].
    unfold near, add. split; lra.
  - destruct (float_error (x - t)) as [H3 H4]; [split; lra|]. fold (sub x t) in H3, H4.
    destruct (float_error (sub x t + hi)) as [H5 H6]; [split; lra|].
    unfold near, add. split; lra.
Qed.

Lemma compensated_near rs ks hi lo a e m :
  Forall2 in_hundredths rs ks → near e hi a → 0 <= a → 0 <= e →
  a + inject_Z (Z.of_nat (length rs)) <= 6 → e + 2 * inject_Z (Z.of_nat (length rs)) * ulp8 <= 1 # 2 →
  near m lo 0 → 0 <= m → m + 4 * inject_Z (Z.of_nat (length rs)) * ulp8 <= 1 →
  (foldl compensate (hi, lo) rs).1 = foldl add hi rs ∧
  near (m + 4 * inject_Z (Z.of_nat (length rs)) * ulp8) (foldl compensate (hi, lo) rs).2 0.
Proof.
  intros Hf. revert hi lo a e m. induction Hf as [|r k rs ks Hr _ IH];
    intros hi lo a e m [Ha1 Ha2] Ha He Hle Hsmall Hlo Hm0 Hm.
  - cbn [length foldl fst snd] in *. change (inject_Z (Z.of_nat 0)) with 0 in *. split; [done|].
    destruct Hlo. unfold near. split; lra.
  - cbn [length foldl] in *. rewrite Nat2Z.inj_succ, <- Z.add_1_r, inject_Z_plus in *.
    change (inject_Z 1) with 1 in *. set (n := inject_Z (Z.of_nat (length rs))) in *.
    assert (0 <= n) as Hn by (subst n; change 0 with (inject_Z 0); rewrite <- Zle_Qle; lia).
    pose proof (hundredth_near r k Hr) as [H1 H2]. destruct (hundredth_range r k Hr) as [[H3 H4] [H5 H6]].
    pose proof ulp8_small as [Hu1 Hu2]. assert (0 <= n * ulp8) by nra.
    destruct (float_error (hi + r)) as [H7 H8]; [split; lra|]. fold (add hi r) in H7, H8.
    destruct (compensate_near hi lo r m) as [Hc Hfst]; [split; lra|split; lra|split; lra|done|done|lra|].
    destruct (compensate (hi, lo) r) as [hi' lo']. cbn [fst snd] in Hc, Hfst. subst hi'.
    destruct (IH (add hi r) lo' (a + cents k) (e + 2 * ulp8) (m + 4 * ulp8)) as [H9 [H10 H11]];
      [split; lra|lra|lra|lra|lra|done|lra|lra|].
    split; [done|]. unfold near. split; lra.
Qed.

(** Both sums are near the exact one, for as many rewards as an episode has. *)
Lemma sums_near sum rs ks :
  sum = sum_plain ∨ sum = sum_compensated →
  Forall2 in_hundredths rs ks → (length rs ≤ MAX_STEPS)%nat → near (32 * ulp8) (sum rs) (cents (total ks)).
Proof.
  intros Hsum Hf Hlen. set (n := inject_Z (Z.of_nat (length rs))).
  assert (0 <= n ∧ n <= 5) as [Hn Hn5].
  { subst n. change 0 with (inject_Z 0). change 5 with (inject_Z 5). rewrite <- !Zle_Qle.
    unfold MAX_STEPS in Hlen. lia. }
  pose proof ulp8_small as [Hu1 Hu2].
  assert (n * ulp8 <= 5 * ulp8) by nra. assert (0 <= n * ulp8) by nra.
  destruct (sum_near rs ks 0 0 0 Hf) as [[H1 H2] [H3 H4]]; fold n; [split; lra|lra|lra|lra|lra|].
  fold n in H1, H2. destruct Hsum as [-> | ->].
  - unfold sum_plain, near. split; lra.
  - destruct (compensated_near rs ks 0 0 0 0 0 Hf) as [H5 [H6 H7]]; fold n;
      [split; lra|lra|lra|lra|lra|split; lra|lra|lra|]. fold n in H6, H7.
    unfold sum_compensated. destruct (foldl compensate (0, 0) rs) as [hi lo]. cbn [fst snd] in *. subst hi.
    destruct (float_error (foldl add 0 rs + lo)) as [H8 H9]; [split; lra|].
    fold (add (foldl add 0 rs) lo) in H8, H9. unfold near. split; lra.
Qed.

Lemma py_max_near e x y a b : near e x a → near e y b →
  ∀ c, c == a ∧ b <= a ∨ c == b ∧ a <= b → near e (py_max x y) c.
Proof.
  intros [H1 H2] [H3 H4] c Hc. destruct (py_max_spec x y) as (H5 & H6 & [H|H]); rewrite H in *; unfold near;
    destruct Hc as [[-> ?]|[-> ?]]; split; lra.
Qed.

Lemma py_min_near e x y a b : near e x a → near e y b →
  ∀ c, c == a ∧ a <= b ∨ c == b ∧ b <= a → near e (py_min x y) c.
Proof.
  intros [H1 H2] [H3 H4] c Hc. destruct (py_min_spec x y) as (H5 & H6 & [H|H]); rewrite H in *; unfold near;
    destruct Hc as [[-> ?]|[-> ?]]; split; lra.
Qed.

(** The score in thousandths. *)
Definition thousandths (ks : list Z) : Z := Z.max 10 (2 * total ks).

Lemma score_near sum rs ks :
  sum = sum_plain ∨ sum = sum_compensated →
  Forall2 in_hundredths rs ks → (length rs ≤ MAX_STEPS)%nat →
  (10 ≤ thousandths ks ≤ 990)%Z ∧ score_of sum rs = float (inject_Z (thousandths ks) / 1000).
Proof.
  intros Hsum Hf Hlen. destruct (sums_near sum rs ks Hsum Hf Hlen) as [H1 H2].
  pose proof (total_range rs ks Hf) as Hr.
  assert (0 ≤ total ks ≤ 495)%Z as Hk by (unfold MAX_STEPS in Hlen; lia).
  assert (10 ≤ thousandths ks ≤ 990)%Z as Ht by (unfold thousandths; lia). split; [done|].
  unfold score_of, round3. f_equal. f_equal. f_equal.
  pose proof ulp8_small as [Hu1 Hu2]. pose proof (cents_bounds 0 495 _ Hk) as [Hk1 Hk2].
  assert (cents 0 == 0 ∧ cents 495 == 495 # 100) as [E0 E495] by done. rewrite E0 in Hk1. rewrite E495 in Hk2.
  set (K := cents (total ks)) in *. set (q := float (sum rs / MAX_TOTAL_REWARD)).
  assert (sum rs / MAX_TOTAL_REWARD == sum rs * (1 # 5)) as Eq by reflexivity.
  assert (near (8 * ulp8) q (K * (1 # 5))) as Hq.
  { destruct (float_error (sum rs / MAX_TOTAL_REWARD)) as [H3 H4]; [rewrite Eq; split; lra|].
    fold q in H3, H4. rewrite Eq in H3, H4. unfold near. split; lra. }
  assert (near (8 * ulp8) c001 (1 # 100)) as H001
    by (destruct (float_error (1 # 100)) as [H3 H4]; [split; lra|]; fold c001 in H3, H4; unfold near; split; lra).
  assert (near (8 * ulp8) c099 (99 # 100)) as H099
    by (destruct (float_error (99 # 100)) as [H3 H4]; [split; lra|]; fold c099 in H3, H4; unfold near; split; lra).
  set (T := inject_Z (thousandths ks) * (1 # 1000)).
  assert (T == 1 # 100 ∧ K * (1 # 5) <= 1 # 100 ∨ T == K * (1 # 5) ∧ 1 # 100 <= K * (1 # 5)) as HT.
  { unfold T, K, thousandths, cents.
    destruct (Z.max_spec 10 (2 * total ks)) as [[Hlt ->]|[Hle ->]].
    - right. rewrite inject_Z_mult. rewrite Zlt_Qlt, inject_Z_mult in Hlt.
      change (inject_Z 2) with 2 in *. change (inject_Z 10) with 10 in *. split; lra.
    - left. rewrite Zle_Qle, inject_Z_mult in Hle.
      change (inject_Z 2) with 2 in *. change (inject_Z 10) with 10 in *. split; lra. }
  pose proof (py_max_near _ _ _ _ _ Hq H001 T) as Hmax.
  assert (T <= 99 # 100) as HT99.
  { unfold T. destruct Ht as [_ Ht]. rewrite Zle_Qle in Ht. change (inject_Z 990) with 990 in Ht. lra. }
  pose proof (py_min_near (8 * ulp8) (py_max q c001) c099 T (99 # 100)) as Hmin.
  destruct (Hmin (Hmax ltac:(destruct HT as [[? ?]|[? ?]]; [right|left]; split; lra)) H099 T)
    as [H5 H6]; [left; split; [reflexivity|done]|].
  apply nearest_close; unfold T in *; lra.
Qed.

(** [0.] and [k] written with [n] digits. *)
Definition decimals (n : nat) (k : Z) : string :=
  ("0." +:+ zeros (n - String.length (pretty k)) +:+ pretty k)%string.

(** A property of every number of an interval, by evaluation. *)
Lemma interval_holds (P : Z → bool) a n :
  forallb P (seqZ a n) = true → ∀ k, (a ≤ k < a + n)%Z → P k = true.
Proof. intros H k Hk. rewrite forallb_forall in H. apply H, list_elem_of_In, elem_of_seqZ. lia. Qed.

Lemma fixed_thousandths k :
  (10 ≤ k ≤ 990)%Z → fixed 3 (float (inject_Z k / 1000)) = decimals 3 k.
Proof.
  intros Hk. apply String.eqb_eq.
  apply (interval_holds (λ k, String.eqb (fixed 3 (float (inject_Z k / 1000))) (decimals 3 k)) 10 981);
    [vm_compute; reflexivity|lia].
Qed.

Lemma fixed_hundredths r k : in_hundredths r k → fixed 2 r = decimals 2 k.
Proof.
  intros [-> Hk]. apply String.eqb_eq.
  apply (interval_holds (λ k, String.eqb (fixed 2 (float (inject_Z k / 100))) (decimals 2 k)) 1 99);
    [vm_compute; reflexivity|lia].
Qed.

Lemma success_threshold k : (0 ≤ k)%Z → is_success (float (inject_Z k / 1000)) = true ↔ (100 ≤ k)%Z.
Proof.
  intros Hk. unfold is_success, SUCCESS_SCORE_THRESHOLD. rewrite Qle_bool_iff. split.
  - intros H. destruct (Z.le_gt_cases 100 k) as [|Hlt]; [done|exfalso].
    assert (float (inject_Z k / 1000) <= float (99 # 1000)) as H1.
    { apply float_mono. assert (k ≤ 99)%Z as Hle by lia. rewrite Zle_Qle in Hle.
      change (inject_Z 99) with 99 in Hle. assert (inject_Z k / 1000 == inject_Z k * (1 # 1000)) as -> by reflexivity. lra. }
    assert (float (99 # 1000) < float (1 # 10)) as H2 by (vm_compute; reflexivity). lra.
  - intros Hle. apply float_mono. rewrite Zle_Qle in Hle. change (inject_Z 100) with 100 in Hle.
    assert (inject_Z k / 1000 == inject_Z k * (1 # 1000)) as -> by reflexivity. lra.
Qed.

(** C23.  The score.  For the rewards of the environment, which are hundredths
    from 0.01 to 0.99, however Python adds floats: the score of an episode is the
    float of the exact fifth of their sum, but at least 0.01; the episode is a
    success exactly when the rewards sum to at least 0.50; and the end line shows
    the score and the rewards with exactly these digits. *)
Theorem score_exact sum rewards ks :
  sum = sum_plain ∨ sum = sum_compensated →
  Forall2 (λ r k, r = float (inject_Z k / 100) ∧ (1 ≤ k ≤ 99)%Z) rewards ks →
  (length rewards ≤ MAX_STEPS)%nat →
  let score := score_of sum rewards in
  let k := Z.max 10 (2 * foldr Z.add 0%Z ks) in
  score = float (inject_Z k / 1000) ∧
  (is_success score = true ↔ (50 ≤ foldr Z.add 0%Z ks)%Z) ∧
  log_end (is_success score) (Z.of_nat (length rewards)) score rewards =
    ("[END] success=" +:+ bool_text (bool_decide (50 ≤ foldr Z.add 0%Z ks)%Z) +:+ " steps=" +:+
     pretty (Z.of_nat (length rewards)) +:+ " score=" +:+ decimals 3 k +:+
     " rewards=" +:+ join "," (decimals 2 <$> ks))%string.
Proof.
  intros Hsum Hf Hlen. cbn zeta. destruct (score_near sum rewards ks Hsum Hf Hlen) as [Hk Hs].
  unfold thousandths, total in Hk, Hs. set (K := foldr Z.add 0%Z ks) in *.
  assert (is_success (score_of sum rewards) = true ↔ (50 ≤ K)%Z) as Hsucc
    by (rewrite Hs, success_threshold by lia; lia).
  split; [done|]. split; [done|].
  assert (is_success (score_of sum rewards) = bool_decide (50 ≤ K)%Z) as ->
    by (destruct (is_success _); symmetry; [apply bool_decide_eq_true_2; tauto|apply bool_decide_eq_false_2; by intros ?%Hsucc]).
  unfold log_end. rewrite Hs, fixed_thousandths by lia.
  assert (fixed 2 <$> rewards = decimals 2 <$> ks) as ->; [|done].
  clear -Hf. induction Hf as [|r k rs ks Hr _ IH]; [done|]. cbn. rewrite (fixed_hundredths r k) by done.
  cbn in IH. by rewrite IH.
Qed.
End scores.

(** ** Instances *)

Definition sample_observation : LLMSocketTunerObservation :=
  MkLLMSocketTunerObservation "142.250.1.1" 443 1 0 0 300 100000 8 "10.0.0.1:50051" c001 false.

(** An environment whose second step raises an error that passes and whose third
    step ends the episode, and a model that does not answer; the world counts the
    calls of [step]. *)
Definition sample_script_world : world nat :=
  World (λ n, (None, n)) (λ n, (inr (MkStepResult sample_observation (Some c001) false), 0%nat))
    (λ _ n, (if Nat.eqb n 1 then inl "RPC: No Metric Found"%string
             else inr (MkStepResult sample_observation (Some (float (30 # 100))) (Nat.leb 2 n)), S n))
    (λ n, (None, n)) (λ _ n, (None, n)).

Example sample_output :
  take 4 (output (main sample_script_world sum_compensated "socket-tuner" "socket-tuning" "model" 0%nat).2) =
  ["[START] task=socket-tuner env=socket-tuning model=model";
   "[STEP] step=1 action=algo=cubic,init_cwnd=10 reward=0.30 done=false error=null";
   "[STEP] step=2 action=algo=cubic,init_cwnd=10 reward=0.30 done=true error=null";
   "[END] success=true steps=2 score=0.120 rewards=0.30,0.30"]%string.
Proof. vm_compute. reflexivity. Qed.

Lemma score_exact_witness : score_of sum_compensated [float (30 # 100); float (1 # 100)] = float (inject_Z 62 / 1000).
Proof.
  apply (score_exact sum_compensated [float (30 # 100); float (1 # 100)] [30; 1]);
    [by right|repeat constructor; vm_compute; discriminate|cbn; unfold MAX_STEPS; lia].
Defined.
